(* ===== verification/_CoqProject ===== *)
-Q . S2P
Prelude.v
GoStrings.v
Strconv.v
Md5.v
Regex.v
Util.v
Types.v
DeepCopy.v
Features.v
Prog.v
K8sLib.v
Controller.v
Store.v
Mount.v
Sysfs.v
Smart.v
SmartSpec.v
Exporter.v
ExporterSpec.v
Upgrade.v
Filters.v
Partition.v
Uuid.v
Handlers.v
Udev.v
Probes.v
Events.v
EpollRun.v
Libmount.v
MountPipeline.v
Lifecycle.v
DaemonSafe.v
Daemon.v
Pipeline.v
Boot.v
NodeApi.v
DaemonSpec.v
Select.v
Cleaner.v
ClaimController.v
DeviceController.v
Manager.v
Process.v
OperatorSafe.v
OperatorSpec.v
System.v
MemServer.v
Liveness.v
DaemonRuns.v
Runs.v
