(* ===== verification/Prelude.v ===== *)
(** * Verification of node-disk-manager

    The node disk manager (NDM) makes the disks of a Kubernetes cluster available as
    resources.  On every node a daemon watches the disks, identifies them, and keeps a
    BlockDevice resource for each; users claim devices with BlockDeviceClaim resources; an
    operator binds claims to devices and has released devices wiped by jobs before they
    are used again; an exporter serves metrics, and the daemon answers requests over gRPC.

    ** How the program is modelled

    Code without effects is a function.  Code with effects is a program of the free monad
    [prog] of Prog.v: it makes calls ([callE]: requests to the API server, files and
    descriptors of the host, udev, SCSI commands, C libraries), returns, or panics.  A
    program is run against an oracle, which answers calls from its own state ([exec]), or
    reasoned about for all answers: [wp] with a [protocol] that says which calls are
    allowed and what their answers teach, [uses] (which calls are made), [returns] (what
    is returned) and [total] (no panic).  Fallible code returns [res], a sum with [err].
    Machine integers are [Z] with their wrap-around written out; Go maps are [gmap], and
    the order of an iteration over one is an argument where the result could depend on it.
    Logging and events have no effect on the resources and are left out; of the text of an
    error only the fixed part is kept.

    ** Files and sources (under src/)

    - Prelude: record updates, tactics, hints and general lemmas.  GoStrings, Strconv:
      Go's strings, path and strconv functions.  Md5: util.Hash.  Regex: Go's regular
      expressions as far as the configuration uses them.  Util: pkg/util.
    - Types: api/v1alpha1 (module apis), blockdevice/blockdevice.go (module blockdevice)
      and the Kubernetes types they use.  DeepCopy: api/v1alpha1/zz_generated.deepcopy.go,
      with the resources as structures in a shared memory.  Features: pkg/features.  Prog:
      programs and calls.  K8sLib: functions of the Kubernetes libraries, as a class with
      laws.
    - Controller, Store, Boot: cmd/ndm_daemonset/controller (configuration, filters and
      probes; the resources; creation, options, sparse files) and app/command.
    - Handlers, Uuid, Udev, Probes, Filters: cmd/ndm_daemonset/probe and filter: events,
      identifiers, udev, what each probe fills in and which devices are let through.
      Daemon puts filters and probes together as start.go does.  Udev also has the
      bindings of pkg/udev, and Pipeline the goroutines between the udev monitor and the
      handlers.
    - Mount, Libmount, Sysfs, Partition, Smart, Events: pkg/mount, pkg/mount/libmount with
      the events of the mount probe, pkg/sysfs, pkg/partition, pkg/smart and pkg/seachest,
      pkg/udevevent and pkg/epoll.  EpollRun: the goroutines of an epoll beside their owner.
      MountPipeline: the goroutines between the kernel's mounts and the handlers.
    - Select, Cleaner, ClaimController, DeviceController, Upgrade: pkg/select, pkg/cleaner,
      pkg/controllers and pkg/upgrade.  Manager: cmd/manager/main.go.
      Process: the processes of the daemon and of the exporter (app/command/start.go,
      grpc/api.go, pkg/server, cmd/ndm-exporter).
    - Exporter: ndm-exporter, pkg/metrics and db/kubernetes.  NodeApi: api-service/node.
    - Lifecycle, DaemonSafe, OperatorSafe, System: the contract between the parts, that
      each part keeps it, and the whole system.  Liveness: a claim's deletion carried
      through to its end.  DaemonSpec, OperatorSpec, SmartSpec, ExporterSpec: further
      theorems.  MemServer, DaemonRuns, Runs: a concrete API server and runs on it.

    ** What is shown

    - The system.  Lifecycle states when a device may be created, claimed, released and
      freed, and on what evidence.  DaemonSafe and OperatorSafe show that every program of
      the daemon and the operator, for any answers, makes only such writes.  System runs
      any number of them, the processes as a whole and the requests of the node service and
      of the exporter included, interleaved call by call, against an API server given by laws
      ([ApiServer]: reads of stored objects, optimistic concurrency), and shows that every
      run is a run of the life cycle; hence a claimed device is not given to another claim
      without a wipe that succeeded, stored devices are well typed (one of three claim
      states, and a reference exactly when claimed), and a bound claim has its device.
      MemServer satisfies the laws; on it, the device of a deleted claim becomes free again
      once its job has succeeded ([deleted_claim_frees_device]).
    - The operator: it never panics; a claim is bound to a device its specification
      allows, and to the right one ([Filter_spec]); a device counts as clean only after
      its job succeeded; what the job runs; and where a retry goes wrong.
    - The daemon: it partitions only blank disks; what events write, how resources are
      merged and named; which devices the filters let through; parsing of feature gates,
      mounts files and udev properties; the creation of a controller ends when the API
      server becomes available; a sparse file that is found is not overwritten.
    - The udev pipeline: in every interleaving of monitor, probe, handlers and scans no
      object of libudev is used after it was freed, and every event reaches the handlers
      once and in order ([goroutines_safe]); which objects the programs give back
      ([udev_references]) and which they leak ([change_event_leaks]).
    - The mount pipeline: however the kernel, the epoll with its bounded channel and the
      probe are interleaved, no change of the mounts is lost and nothing blocks for good
      ([mounts_followed]).  Nobody calls Stop there; where it is called the listener may
      panic or stay ([epoll_stop_races]).
    - Copies: a deep copy of a resource has its value and shares no memory with it, which
      is what lets the other files use values ([deepcopies_independent]).
    - Disks and events: capacities beyond 32 bits, the ATA identify page read back, which
      descriptors stay open; subscriptions and watchers
      get exactly their events.
    - Exporter, node service and upgrade: scrapes exclude one another, what a scrape
      serves and what it cannot say; the devices a node lists; an upgrade run twice does
      what it does once.

    Theorems with hypotheses about the host or the server have a witness: a concrete
    host for which the hypotheses hold.

    ** Fuel

    [removeDisabled] (Store) gets the length of its list, one round per item;
    [features.fuel] is 2, the length of the longest chain of dependencies between gates;
    [hex_digits] (Smart) gets as many digits as the widest number it prints;
    [WaitForBlockDeviceCRD] (Boot) waits for the API server, and [NewController_returns]
    shows that fuel above the number of failures to come is enough and does not change the
    result.  All other recursion is structural.

    ** Not modelled

    Code generated by protoc (spec/ndm), tests, their data and integration tests, the
    declaration of flags and cobra commands (cmd), logs and version (pkg/logs, pkg/version)
    and the set-up of resource definitions (pkg/crds, pkg/setup, whose installation is
    commented out): libraries are called there and nothing is decided.  The C code behind
    pkg/udev, pkg/blkid and pkg/seachest, go-diskfs, and the servers of net/http and grpc
    are calls.  Goroutines are interleaved where the code relies on it (System, Pipeline,
    EpollRun, MountPipeline, the collectors); elsewhere a round of an event loop is one
    program, and the variable shared by concurrent requests of the node service is local to
    a request. *)

From Stdlib Require Import ZArith Lia.
From stdpp Require Export base tactics option list gmap sets strings sorting numbers.
From Hammer Require Import Tactics.

(** ** Record update

    [r <| f := v |>] is the record [r] with field [f] set to [v]; [r <| f ::= g |>]
    applies [g] to the field.  A record opts in with an [Eta] instance that rebuilds
    it from its projections; the setter is then found by instance search. *)

Class Eta (R : Type) := rebuild : R -> R.
#[global] Hint Mode Eta ! : typeclass_instances.

Class Upd {R T : Type} (field : R -> T) := upd : (T -> T) -> R -> R.
#[global] Hint Mode Upd + + + : typeclass_instances.
Arguments upd {R T} field {_} _ _ /.

Ltac derive_upd :=
  lazymatch goal with
  | |- @Upd ?R ?T ?field =>
      let r := fresh "r" in
      let g := fresh "g" in
      refine (fun (g : T -> T) (r : R) => _);
      let e := eval cbv beta delta [rebuild] in (rebuild r) in
      let e := eval cbv beta iota in e in
      let e := eval hnf in e in
      lazymatch eval pattern (field r) in e with
      | ?ctx _ => let b := eval cbv beta in (ctx (g (field r))) in exact b
      end
  end.

#[global] Hint Extern 1 (@Upd _ _ _) => derive_upd : typeclass_instances.

Declare Scope record_scope.
Delimit Scope record_scope with rec.
Notation "r <| f := v |>" := (upd f (fun _ => v) r)
  (at level 1, left associativity, f constr at level 0, v at level 200,
   format "r  <|  f  :=  v  |>") : record_scope.
Notation "r <| f ::= g |>" := (upd f g r)
  (at level 1, left associativity, f constr at level 0, g at level 200,
   format "r  <|  f  ::=  g  |>") : record_scope.
Open Scope record_scope.


(** ** Shared lemmas on lists and options *)

Create HintDb ndm.

Section Lists.
Context {A : Type}.
Implicit Types (f g : A -> bool) (l : list A).

Lemma existsb_elem f l : existsb f l = true <-> exists x, x ∈ l /\ f x = true.
Proof.
  rewrite existsb_exists.
  split; intros (x & Hx & Hf); exists x; by rewrite list_elem_of_In in *.
Qed.

Lemma existsb_elem_false f l : existsb f l = false <-> forall x, x ∈ l -> f x = false.
Proof.
  induction l as [|y l IH]; cbn; [set_solver|].
  rewrite orb_false_iff, IH. set_solver.
Qed.

Lemma forallb_elem f l : forallb f l = true <-> forall x, x ∈ l -> f x = true.
Proof.
  rewrite forallb_forall. by setoid_rewrite list_elem_of_In.
Qed.

Lemma existsb_perm f l1 l2 : l1 ≡ₚ l2 -> existsb f l1 = existsb f l2.
Proof.
  induction 1 as [| |x y l|]; cbn; [done|congruence| |congruence].
  by destruct (f x), (f y).
Qed.

Lemma forallb_perm f l1 l2 : l1 ≡ₚ l2 -> forallb f l1 = forallb f l2.
Proof.
  induction 1 as [| |x y l|]; cbn; [done|congruence| |congruence].
  by destruct (f x), (f y).
Qed.

(** The first element of a list that satisfies a test. *)
Lemma find_Some_iff f l x :
  find f l = Some x <->
  exists l1 l2, l = l1 ++ x :: l2 /\ f x = true /\ forall y, y ∈ l1 -> f y = false.
Proof.
  split.
  - induction l as [|y l IH]; cbn; [done|].
    destruct (f y) eqn:Hy.
    + intros [= <-]. exists [], l. set_solver.
    + intros (l1 & l2 & -> & Hx & Hl)%IH. exists (y :: l1), l2. set_solver.
  - intros (l1 & l2 & -> & Hx & Hl). induction l1 as [|y l1 IH]; cbn; [by rewrite Hx|].
    rewrite (Hl y) by set_solver. apply IH. set_solver.
Qed.

Lemma find_None_iff f l : find f l = None <-> forall x, x ∈ l -> f x = false.
Proof.
  induction l as [|y l IH]; cbn; [set_solver|].
  destruct (f y) eqn:Hy.
  - split; [done|]. intros H. rewrite H in Hy; [done|left].
  - rewrite IH. set_solver.
Qed.

Lemma find_elem f l x : find f l = Some x -> x ∈ l /\ f x = true.
Proof. intros (l1 & l2 & -> & ? & _)%find_Some_iff. set_solver. Qed.

(** Two filters in a row are one filter of the conjunction. *)
Lemma filter_filter_and (P Q : A -> Prop)
    `{forall x, Decision (P x)} `{forall x, Decision (Q x)} l :
  filter P (filter Q l) = filter (fun x => P x /\ Q x) l.
Proof. apply list_filter_filter. Qed.

(** A part of a list without repeated keys has none. *)
Lemma NoDup_map_filter {B} (key : A -> B) (P : A -> Prop) `{forall x, Decision (P x)} l :
  NoDup (map key l) -> NoDup (map key (filter P l)).
Proof.
  induction l as [|x l IH]; cbn [map]; intros Hnd; [done|].
  apply NoDup_cons_1_1 in Hnd as Hx. apply NoDup_cons_1_2 in Hnd. rewrite filter_cons. case_decide; [|by apply IH].
  cbn [map]. constructor; [|by apply IH]. intros Hin. apply Hx.
  apply list_elem_of_fmap in Hin as (y & -> & [_ Hy]%list_elem_of_filter). by apply (list_elem_of_fmap_2 key).
Qed.
End Lists.

(** ** Machine integers

    The conversions of Go to an unsigned and to a signed integer of [w] bits. *)
Definition uwrap (w z : Z) : Z := (z mod 2 ^ w)%Z.
Definition swrap (w z : Z) : Z := ((z + 2 ^ (w - 1)) mod 2 ^ w - 2 ^ (w - 1))%Z.

Lemma uwrap_id w z : (0 <= z < 2 ^ w)%Z -> uwrap w z = z.
Proof. apply Z.mod_small. Qed.

Lemma uwrap_range w z : (0 <= w)%Z -> (0 <= uwrap w z < 2 ^ w)%Z.
Proof. intros ?. apply Z.mod_pos_bound. lia. Qed.

Lemma swrap_id w z : (0 < w)%Z -> (- 2 ^ (w - 1) <= z < 2 ^ (w - 1))%Z -> swrap w z = z.
Proof.
  intros ? ?. unfold swrap. assert (2 ^ w = 2 * 2 ^ (w - 1))%Z.
  { rewrite <-Z.pow_succ_r by lia. f_equal. lia. }
  rewrite Z.mod_small by lia. lia.
Qed.

(** Going through the signed type of the same width changes nothing. *)
Lemma uwrap_swrap w z : (0 <= w)%Z -> uwrap w (swrap w z) = uwrap w z.
Proof.
  intros ?. unfold uwrap, swrap. rewrite Zminus_mod_idemp_l. f_equal. lia.
Qed.

(** Equalities between booleans and propositions, as rewrite rules for [autorewrite]. *)
Create Rewrite HintDb bools.
#[export] Hint Rewrite andb_true_iff orb_true_iff negb_true_iff negb_false_iff
  andb_false_iff orb_false_iff bool_decide_eq_true bool_decide_eq_false : bools.

Ltac bools := autorewrite with bools in *.

(** Case analysis on the scrutinee of a match or the test of a conditional in the goal. *)
Ltac case_goal :=
  match goal with
  | |- context [decide ?P] => destruct (decide P)
  | |- context [if ?b then _ else _] => destruct b eqn:?
  | |- context [match ?x with _ => _ end] => destruct x eqn:?
  end.

(** A string that is not in a list of other strings *)
Ltac not_in :=
  let H := fresh in
  intros H; cbn [app] in H;
  repeat (apply elem_of_cons in H as [H|H]; [congruence|]); by apply elem_of_nil in H.
