(* ===== verification/GoStrings.v ===== *)
(** * Go strings

    The functions of Go's [strings] and [strconv] packages that the sources use, on
    byte strings.  The case functions act on ASCII letters and the trimming functions
    on ASCII white space, which is what Go does on ASCII input.  Every separator the
    sources split on is a single byte. *)

From Stdlib Require Import Ascii.
From stdpp Require Import base list strings numbers.
From S2P Require Import Prelude.

Local Open Scope string_scope.

(** ** Searching *)

(** strings.HasPrefix *)
Fixpoint HasPrefix (s p : string) {struct p} : bool :=
  match p, s with
  | EmptyString, _ => true
  | String c p, String d s => if decide (c = d) then HasPrefix s p else false
  | String _ _, EmptyString => false
  end.

(** strings.HasSuffix *)
Fixpoint HasSuffix (s p : string) : bool :=
  if decide (s = p) then true
  else match s with EmptyString => false | String _ s => HasSuffix s p end.

(** strings.Contains *)
Fixpoint StrContains (s sub : string) : bool :=
  if HasPrefix s sub then true
  else match s with EmptyString => false | String _ s => StrContains s sub end.

(** s[n:], for n within the length *)
Fixpoint drop_bytes (n : nat) (s : string) : string :=
  match n, s with
  | O, _ => s
  | S n, String _ s => drop_bytes n s
  | S _, EmptyString => ""
  end.

(** s[:n] *)
Fixpoint take_bytes (n : nat) (s : string) : string :=
  match n, s with
  | O, _ => ""
  | S n, String c s => String c (take_bytes n s)
  | S _, EmptyString => ""
  end.

(** ** Splitting and joining *)

(** strings.Split with a one-byte separator; never empty *)
Fixpoint Split (s : string) (sep : ascii) : list string :=
  match s with
  | EmptyString => [""]
  | String c s' =>
      if decide (c = sep) then "" :: Split s' sep
      else match Split s' sep with
           | [] => [String c ""]
           | w :: ws => String c w :: ws
           end
  end.

(** strings.SplitN(s, sep, 2) *)
Fixpoint SplitN2 (s : string) (sep : ascii) : list string :=
  match s with
  | EmptyString => [""]
  | String c s' =>
      if decide (c = sep) then [""; s']
      else match SplitN2 s' sep with
           | [] => [String c ""]
           | w :: ws => String c w :: ws
           end
  end.

(** strings.Join *)
Fixpoint Join (ws : list string) (sep : string) : string :=
  match ws with
  | [] => ""
  | [w] => w
  | w :: ws => w +:+ sep +:+ Join ws sep
  end.

(** the white space of unicode.IsSpace within ASCII *)
Definition is_space (c : ascii) : bool :=
  let n := Ascii.N_of_ascii c in
  ((9 <=? n) && (n <=? 13) || (n =? 32))%N.

Fixpoint TrimLeftSpace (s : string) : string :=
  match s with
  | String c s' => if is_space c then TrimLeftSpace s' else s
  | EmptyString => ""
  end.

Fixpoint TrimRightSpace (s : string) : string :=
  match s with
  | EmptyString => ""
  | String c s' =>
      match TrimRightSpace s' with
      | EmptyString => if is_space c then "" else String c ""
      | t => String c t
      end
  end.

(** strings.TrimSpace *)
Definition TrimSpace (s : string) : string := TrimRightSpace (TrimLeftSpace s).

(** strings.Fields: [cur] is the word being read *)
Fixpoint Fields_aux (cur : string) (s : string) : list string :=
  match s with
  | EmptyString => if decide (cur = "") then [] else [cur]
  | String c s' =>
      if is_space c
      then if decide (cur = "") then Fields_aux "" s' else cur :: Fields_aux "" s'
      else Fields_aux (cur +:+ String c "") s'
  end.
Definition Fields (s : string) : list string := Fields_aux "" s.

(** strings.TrimSuffix *)
Fixpoint TrimSuffix (s p : string) : string :=
  if decide (s = p) then ""
  else match s with EmptyString => "" | String c s' => String c (TrimSuffix s' p) end.

(** strings.TrimRight(s, "\n"): removes every trailing newline *)
Definition newline : ascii := Ascii.ascii_of_nat 10.
Fixpoint TrimRightNewline (s : string) : string :=
  match s with
  | EmptyString => ""
  | String c s' =>
      match TrimRightNewline s' with
      | EmptyString => if decide (c = newline) then "" else String c ""
      | t => String c t
      end
  end.

(** strings.Replace(s, old, new, 1) with a non-empty [old] *)
Fixpoint Replace1 (s old new : string) : string :=
  if HasPrefix s old then new +:+ drop_bytes (String.length old) s
  else match s with EmptyString => "" | String c s' => String c (Replace1 s' old new) end.

(** strings.ReplaceAll with a non-empty [old]: [skip] counts the bytes of a match
    that are still to be consumed *)
Fixpoint ReplaceAll_aux (skip : nat) (s old new : string) : string :=
  match s with
  | EmptyString => ""
  | String c s' =>
      match skip with
      | S k => ReplaceAll_aux k s' old new
      | O => if HasPrefix s old
             then new +:+ ReplaceAll_aux (String.length old - 1) s' old new
             else String c (ReplaceAll_aux 0 s' old new)
      end
  end.
Definition ReplaceAll (s old new : string) : string := ReplaceAll_aux 0 s old new.

(** ** Paths *)

(** filepath.Clean on Linux: [stack] holds the elements kept so far, the last first *)
Fixpoint clean_parts (rooted : bool) (stack parts : list string) : list string :=
  match parts with
  | [] => rev stack
  | p :: parts =>
      if decide (p = "" \/ p = ".") then clean_parts rooted stack parts
      else if decide (p = "..") then
        match stack with
        | q :: stack' =>
            if decide (q = "..") then clean_parts rooted (p :: stack) parts else clean_parts rooted stack' parts
        | [] => clean_parts rooted (if rooted then [] else [p]) parts
        end
      else clean_parts rooted (p :: stack) parts
  end.
Definition Clean (path : string) : string :=
  let rooted := HasPrefix path "/" in
  let out := (if rooted then "/" else "") +:+ Join (clean_parts rooted [] (Split path "/"%char)) "/" in
  if decide (out = "") then "." else out.

(** path.Join of two elements: empty ones are left out *)
Definition path_join (dir file : string) : string :=
  match List.filter (fun e => negb (bool_decide (e = ""))) [dir; file] with
  | [] => ""
  | elems => Clean (Join elems "/")
  end.

(** ** Case *)

Definition lower_ascii (c : ascii) : ascii :=
  let n := Ascii.N_of_ascii c in
  if ((65 <=? n) && (n <=? 90))%N then Ascii.ascii_of_N (n + 32) else c.

Definition upper_ascii (c : ascii) : ascii :=
  let n := Ascii.N_of_ascii c in
  if ((97 <=? n) && (n <=? 122))%N then Ascii.ascii_of_N (n - 32) else c.

Fixpoint map_bytes (f : ascii -> ascii) (s : string) : string :=
  match s with EmptyString => "" | String c s => String (f c) (map_bytes f s) end.

(** strings.ToLower, strings.ToUpper, strings.EqualFold *)
Definition ToLower (s : string) : string := map_bytes lower_ascii s.
Definition ToUpper (s : string) : string := map_bytes upper_ascii s.
Definition EqualFold (s t : string) : bool := bool_decide (ToLower s = ToLower t).

(** ** Numbers *)

Definition digit_value (c : ascii) : option Z :=
  let n := Z.of_N (Ascii.N_of_ascii c) in
  if ((48 <=? n) && (n <=? 57))%Z then Some (n - 48)%Z else None.

Fixpoint digits_value (acc : Z) (s : string) : option Z :=
  match s with
  | EmptyString => Some acc
  | String c s => d ← digit_value c; digits_value (10 * acc + d)%Z s
  end.

(** strconv.ParseInt(s, 10, bits); [None] for a syntax or a range error *)
Definition ParseInt (s : string) (bits : Z) : option Z :=
  let in_range z := if decide (- 2 ^ (bits - 1) <= z < 2 ^ (bits - 1))%Z then Some z else None in
  match s with
  | EmptyString => None
  | String c s' =>
      if decide (c = "-"%char) then
        if decide (s' = "") then None else z ← digits_value 0 s'; in_range (- z)%Z
      else if decide (c = "+"%char) then
        if decide (s' = "") then None else z ← digits_value 0 s'; in_range z
      else z ← digits_value 0 s; in_range z
  end.

(** strconv.Atoi on a 64-bit platform *)
Definition Atoi (s : string) : option Z := ParseInt s 64.

(** ** Facts *)

Lemma HasPrefix_iff s p : HasPrefix s p = true <-> exists t, s = p +:+ t.
Proof.
  revert s. induction p as [|c p IH]; intros s; cbn; [split; [by exists s|done]|].
  destruct s as [|d s]; [split; [done|by intros (? & [=])]|].
  destruct (decide (c = d)) as [->|].
  - rewrite IH. split; intros (t & Ht); exists t; [by rewrite Ht|by injection Ht].
  - split; [done|]. by intros (t & [= -> _]).
Qed.

Lemma HasSuffix_iff s p : HasSuffix s p = true <-> exists t, s = t +:+ p.
Proof.
  induction s as [|c s IH]; cbn.
  - destruct (decide ("" = p)) as [<-|]; [by split; [exists ""|]|].
    split; [done|]. by intros ([|] & Heq).
  - destruct (decide (String c s = p)) as [<-|Hne].
    + split; [by exists ""|done].
    + rewrite IH. split.
      * intros (t & ->). by exists (String c t).
      * intros ([|d t] & Heq); [naive_solver|]. exists t. by injection Heq.
Qed.

Lemma StrContains_iff s sub :
  StrContains s sub = true <-> exists a b, s = a +:+ sub +:+ b.
Proof.
  induction s as [|c s IH].
  - cbn. destruct sub; cbn; split; try done; [by exists "", ""|].
    intros ([|] & b & [=]).
  - cbn [StrContains]. destruct (HasPrefix (String c s) sub) eqn:Hp.
    + apply HasPrefix_iff in Hp as (t & ->). split; [by exists "", t|done].
    + rewrite IH. split.
      * intros (a & b & ->). by exists (String c a), b.
      * intros ([|d a] & b & Heq).
        -- cbn in Heq. rewrite (proj2 (HasPrefix_iff _ _)) in Hp; naive_solver.
        -- injection Heq as <- ->. by exists a, b.
Qed.

Lemma Split_nonempty s sep : Split s sep <> [].
Proof. destruct s; cbn; repeat case_goal; done. Qed.

(** Joining the parts of a split string gives the string back. *)
Lemma Join_Split s sep : Join (Split s sep) (String sep "") = s.
Proof.
  induction s as [|c s IH]; cbn; [done|].
  destruct (Split s sep) as [|w ws] eqn:Hs; [by destruct (Split_nonempty s sep)|].
  destruct (decide (c = sep)) as [->|]; cbn.
  - by rewrite <- IH.
  - destruct ws; cbn in *; by rewrite <- IH.
Qed.

Lemma string_app_cons c (a b : string) : String c a +:+ b = String c (a +:+ b).
Proof. done. Qed.

Lemma string_app_nil_l (s : string) : "" +:+ s = s.
Proof. done. Qed.

Create Rewrite HintDb strs.
#[export] Hint Rewrite string_app_cons string_app_nil_l : strs.

Lemma string_app_nil_r (s : string) : s +:+ "" = s.
Proof. induction s; autorewrite with strs; congruence. Qed.

Lemma string_app_assoc (a b c : string) : (a +:+ b) +:+ c = a +:+ (b +:+ c).
Proof. induction a; autorewrite with strs; congruence. Qed.

Lemma string_app_inj_l (p a b : string) : p +:+ a = p +:+ b -> a = b.
Proof. induction p; autorewrite with strs; naive_solver. Qed.

Lemma drop_bytes_app p s : drop_bytes (String.length p) (p +:+ s) = s.
Proof. induction p; autorewrite with strs; done. Qed.

Lemma length_string_app (a b : string) :
  String.length (a +:+ b) = String.length a + String.length b.
Proof. induction a; autorewrite with strs; cbn; congruence. Qed.

Lemma length_map_bytes f s : String.length (map_bytes f s) = String.length s.
Proof. induction s; cbn; congruence. Qed.

(** Every byte satisfies a test *)
Fixpoint all_bytes (P : ascii -> bool) (s : string) : bool :=
  match s with EmptyString => true | String c s => P c && all_bytes P s end.

(** ** Splitting text without the separator *)

Fixpoint no_byte (c : ascii) (s : string) : bool :=
  match s with EmptyString => true | String d s => negb (bool_decide (d = c)) && no_byte c s end.

Lemma no_byte_app c s t : no_byte c (s +:+ t) = no_byte c s && no_byte c t.
Proof.
  induction s as [|d s IH]; [done|]. rewrite string_app_cons. cbn [no_byte]. by rewrite IH, andb_assoc.
Qed.

Lemma Split_app s t sep : no_byte sep s = true -> Split (s +:+ String sep t) sep = s :: Split t sep.
Proof.
  induction s as [|d s IH]; intros Hs.
  - rewrite string_app_nil_l. cbn [Split]. by rewrite decide_True.
  - cbn [no_byte] in Hs. apply andb_true_iff in Hs as [Hd Hs].
    rewrite negb_true_iff, bool_decide_eq_false in Hd.
    rewrite string_app_cons. cbn [Split]. rewrite decide_False by done. by rewrite IH.
Qed.

Lemma Split_single s sep : no_byte sep s = true -> Split s sep = [s].
Proof.
  induction s as [|d s IH]; [done|]. cbn [no_byte Split]. intros [Hd Hs]%andb_true_iff.
  rewrite negb_true_iff, bool_decide_eq_false in Hd. rewrite decide_False by done. by rewrite IH.
Qed.

(** Splitting joined parts gives the parts back. *)
Lemma Split_Join ws sep :
  ws <> [] -> Forall (fun w => no_byte sep w = true) ws -> Split (Join ws (String sep "")) sep = ws.
Proof.
  intros Hne Hws. induction Hws as [|w ws Hw Hws IH]; [done|]. destruct ws as [|w' ws].
  - cbn. by apply Split_single.
  - cbn [Join]. rewrite string_app_cons, string_app_nil_l. rewrite Split_app by done. f_equal. by apply IH.
Qed.

Lemma Replace1_app p new s : p <> "" -> Replace1 (p +:+ s) p new = new +:+ s.
Proof.
  intros Hp. assert (Hpre : HasPrefix (p +:+ s) p = true) by (apply HasPrefix_iff; eauto).
  destruct p as [|c p]; [done|]. rewrite string_app_cons in *. unfold Replace1; fold Replace1.
  rewrite Hpre. f_equal. apply (drop_bytes_app (String c p)).
Qed.
