(* ===== verification/Strconv.v ===== *)
(** * strconv: decimal integers and floating point numbers

    Go's standard library as far as the daemon uses it: strconv.Itoa and the round trip
    with ParseInt, strconv.ParseFloat (64 bits), and the conversion of a float64 to an
    int64. *)

From Stdlib Require Import ZArith Ascii Lia.
From stdpp Require Import base list strings numbers pretty.
From S2P Require Import Prelude GoStrings.

Local Open Scope string_scope.
Local Open Scope Z_scope.

(** ** Integers *)

Definition Itoa (z : Z) : string := pretty z.

(** ** Floating point numbers *)

(** A float64: [Fin neg m e] is m * 2^e with the sign *)
Inductive float := NaN | Inf (neg : bool) | Fin (neg : bool) (m e : Z).

Definition lower_char (c : ascii) : ascii := lower_ascii c.
Definition is_digit (c : ascii) : bool := bool_decide (is_Some (digit_value c)).
Definition hex_letter (c : ascii) : option Z :=
  let n := Z.of_N (Ascii.N_of_ascii (lower_char c)) in
  if (97 <=? n) && (n <=? 102) then Some (n - 87) else None.
Definition mant_digit (hex : bool) (c : ascii) : option Z :=
  match digit_value c with Some d => Some d | None => if hex then hex_letter c else None end.

(** The digits of the mantissa: their value, how many follow the dot, and whether there
    was one *)
Record mant := MkMant { mNum : Z; mFrac : Z; mDot : bool; mDigits : bool; mUnder : bool }.
Fixpoint readMantissa (hex : bool) (m : mant) (s : string) : mant * string :=
  match s with
  | EmptyString => (m, s)
  | String c s' =>
      if decide (c = "_"%char) then readMantissa hex (MkMant (mNum m) (mFrac m) (mDot m) (mDigits m) true) s'
      else if decide (c = "."%char) then
        if mDot m then (m, s) else readMantissa hex (MkMant (mNum m) (mFrac m) true (mDigits m) (mUnder m)) s'
      else match mant_digit hex c with
        | Some d =>
            readMantissa hex (MkMant ((if hex then 16 else 10) * mNum m + d) (mFrac m + if mDot m then 1 else 0)
                                (mDot m) true (mUnder m)) s'
        | None => (m, s)
        end
  end.

(** The digits of the exponent, which stop counting at five *)
Fixpoint readExponent (e : Z) (under : bool) (s : string) : Z * bool * string :=
  match s with
  | EmptyString => (e, under, s)
  | String c s' =>
      if decide (c = "_"%char) then readExponent e true s'
      else match digit_value c with
        | Some d => readExponent (if e <? 10000 then 10 * e + d else e) under s'
        | None => (e, under, s)
        end
  end.

(** underscoreOK, after the sign and the base prefix; [prev] is one of ^, 0, _ and ! *)
Fixpoint underscoreOK_aux (hex : bool) (prev : ascii) (s : string) : bool :=
  match s with
  | EmptyString => negb (bool_decide (prev = "_"%char))
  | String c s =>
      if is_digit c || (hex && bool_decide (is_Some (hex_letter c))) then underscoreOK_aux hex "0"%char s
      else if decide (c = "_"%char) then
        if decide (prev = "0"%char) then underscoreOK_aux hex "_"%char s else false
      else if decide (prev = "_"%char) then false else underscoreOK_aux hex "!"%char s
  end.

Definition skipSign (s : string) : bool * string :=
  match s with
  | String c s' =>
      if decide (c = "+"%char) then (false, s') else if decide (c = "-"%char) then (true, s') else (false, s)
  | EmptyString => (false, s)
  end.

(** Without its sign: is it a hexadecimal number, and the rest.  A prefix needs something
    after it. *)
Definition skipPrefix (s : string) : bool * string :=
  match s with
  | String z (String x (String c s')) =>
      if decide (z = "0"%char /\ lower_char x = "x"%char) then (true, String c s') else (false, s)
  | _ => (false, s)
  end.

(** The prefixes of underscoreOK, which is only asked about numbers *)
Definition underscoreOK (s : string) : bool :=
  let s := (skipSign s).2 in
  match s with
  | String z (String x s') =>
      if decide (z = "0"%char /\ lower_char x = "x"%char) then underscoreOK_aux true "0"%char s'
      else if decide (z = "0"%char /\ (lower_char x = "b"%char \/ lower_char x = "o"%char))
      then underscoreOK_aux false "0"%char s'
      else underscoreOK_aux false "^"%char s
  | _ => underscoreOK_aux false "^"%char s
  end.

(** floor(log2(n/d)) of positive numbers *)
Definition log2_ratio (n d : Z) : Z :=
  let k := Z.log2 n - Z.log2 d in
  if (d * 2 ^ Z.max 0 k <=? n * 2 ^ Z.max 0 (- k)) then k else k - 1.

(** The float64 nearest to n/d, ties to even; [None] when it is out of range *)
Definition roundRatio (neg : bool) (n d : Z) : option float :=
  if n =? 0 then Some (Fin neg 0 0)
  else
    let e := Z.max (log2_ratio n d - 52) (-1074) in
    let n := n * 2 ^ Z.max 0 (- e) in
    let d := d * 2 ^ Z.max 0 e in
    let q := n / d in
    let r := n mod d in
    let m := if (d <? 2 * r) || ((2 * r =? d) && Z.odd q) then q + 1 else q in
    if (1024 <=? Z.log2 m + e) then None else Some (Fin neg m e).

(** The special values *)
Definition special (s : string) : option float :=
  let '(neg, u) := skipSign s in
  let l := ToLower u in
  if decide (l = "inf" \/ l = "infinity") then Some (Inf neg)
  else if decide (ToLower s = "nan") then Some NaN else None.

(** strconv.ParseFloat(s, 64); [None] for a syntax or a range error *)
Definition ParseFloat (s : string) : option float :=
  match special s with
  | Some f => Some f
  | None =>
      let '(neg, u) := skipSign s in
      let '(hex, u) := skipPrefix u in
      let '(m, u) := readMantissa hex (MkMant 0 0 false false false) u in
      if negb (mDigits m) then None
      else
        let scaled (e : Z) :=
          let n := mNum m * (if hex then 2 else 10) ^ Z.max 0 e in
          let d := (if hex then 16 else 10) ^ mFrac m * (if hex then 2 else 10) ^ Z.max 0 (- e) in
          roundRatio neg n d in
        match u with
        | EmptyString =>
            if hex then None else if mUnder m && negb (underscoreOK s) then None else scaled 0
        | String c u =>
            if decide (lower_char c = if hex then "p"%char else "e"%char) then
              let '(eneg, u) := skipSign u in
              match u with
              | EmptyString => None
              | String c _ =>
                  if negb (is_digit c) then None
                  else
                    let '(e, under, rest) := readExponent 0 (mUnder m) u in
                    if decide (rest <> "") then None
                    else if under && negb (underscoreOK s) then None
                    else scaled (if eneg then - e else e)
              end
            else None
        end
  end.

(** int64(f) as amd64 computes it: what does not fit gives the least int64 *)
Definition float_to_int64 (f : float) : Z :=
  match f with
  | Fin neg m e =>
      let t := if 0 <=? e then m * 2 ^ e else m / 2 ^ (- e) in
      let z := if neg then - t else t in
      if decide (- 2 ^ 63 <= z < 2 ^ 63) then z else - 2 ^ 63
  | _ => - 2 ^ 63
  end.

(** ** Round trips *)

Lemma digit_value_char (d : N) : (d < 10)%N -> digit_value (pretty_N_char d) = Some (Z.of_N d).
Proof. intros Hd. assert (Hc : d ∈ [0;1;2;3;4;5;6;7;8;9]%N) by (rewrite !elem_of_cons; lia).
  repeat (apply elem_of_cons in Hc as [->|Hc]; [done|]). by apply elem_of_nil in Hc.
Qed.

Lemma digits_value_go (x : N) s : digits_value 0 (pretty_N_go x s) = digits_value (Z.of_N x) s.
Proof.
  revert s. induction (N.lt_wf_0 x) as [x _ IH]; intros s. destruct (decide (x = 0)%N) as [->|Hx]; [done|].
  rewrite pretty_N_go_step by lia. rewrite IH by (apply N.div_lt; lia). cbn [digits_value].
  rewrite digit_value_char by (apply N.mod_lt; lia). cbn [mbind option_bind]. f_equal.
  rewrite N2Z.inj_div, N2Z.inj_mod. pose proof (Z_div_mod_eq_full (Z.of_N x) 10). lia.
Qed.

Lemma digits_value_pretty (x : N) : digits_value 0 (pretty x) = Some (Z.of_N x).
Proof.
  unfold pretty, pretty_N. destruct (decide (x = 0)%N) as [->|]; [done|]. by rewrite digits_value_go.
Qed.

Lemma pretty_digits (x : N) : all_bytes is_digit (pretty x) = true /\ pretty x <> "".
Proof.
  assert (Hgo : forall s, all_bytes is_digit s = true -> all_bytes is_digit (pretty_N_go x s) = true /\
                 (s <> "" \/ x <> 0%N -> pretty_N_go x s <> "")).
  { induction (N.lt_wf_0 x) as [x _ IH]; intros s Hs. destruct (decide (x = 0)%N) as [->|Hx]; [naive_solver|].
    rewrite pretty_N_go_step by lia.
    destruct (IH (x / 10)%N ltac:(apply N.div_lt; lia) (String (pretty_N_char (x mod 10)) s)) as [H1 H2].
    - cbn. unfold is_digit. rewrite digit_value_char by (apply N.mod_lt; lia).
      by rewrite bool_decide_eq_true_2 by (by eexists).
    - split; [done|]. intros _. apply H2. by left. }
  unfold pretty, pretty_N. destruct (decide (x = 0)%N) as [->|Hx]; [done|].
  destruct (Hgo "" eq_refl) as [H1 H2]. naive_solver.
Qed.

Lemma pretty_first (x : N) : exists c s, pretty x = String c s /\ is_digit c = true.
Proof.
  destruct (pretty_digits x) as [Hd Hne]. destruct (pretty x) as [|c s]; [done|].
  exists c, s. by apply andb_true_iff in Hd as [? _].
Qed.

(** ParseInt reads what Itoa prints. *)
Lemma ParseInt_Itoa z bits : - 2 ^ (bits - 1) <= z < 2 ^ (bits - 1) -> ParseInt (Itoa z) bits = Some z.
Proof.
  intros Hz. destruct z as [|p|p].
  - change (Itoa 0) with "0". unfold ParseInt. rewrite !decide_False by done.
    change (digits_value 0 "0") with (Some 0). cbn [mbind option_bind]. by rewrite decide_True.
  - change (Itoa (Z.pos p)) with (pretty (N.pos p)). unfold ParseInt.
    destruct (pretty_first (N.pos p)) as (c & s & Hc & Hd). pose proof (digits_value_pretty (N.pos p)) as Hv.
    rewrite Hc in Hv |- *. rewrite !decide_False, Hv by (intros ->; vm_compute in Hd; done). cbn [mbind option_bind]. by rewrite decide_True.
  - change (Itoa (Z.neg p)) with (String "-" (pretty (N.pos p))). unfold ParseInt.
    rewrite decide_True, decide_False, digits_value_pretty by (done || apply pretty_digits). cbn [mbind option_bind]. by rewrite decide_True.
Qed.

(** ** Sizes *)

Lemma is_digit_value c : is_digit c = true -> exists d, digit_value c = Some d.
Proof. unfold is_digit. intros [d Hd]%bool_decide_eq_true. by exists d. Qed.

Lemma readMantissa_digits s m : all_bytes is_digit s = true -> mDot m = false ->
  exists z, digits_value (mNum m) s = Some z /\
    readMantissa false m s =
    (MkMant z (mFrac m) false (mDigits m || bool_decide (s <> "")) (mUnder m), "").
Proof.
  revert m. induction s as [|c s IH]; intros [num frac dot digs under] Hs Hdot; cbn in Hdot; subst dot.
  { exists num. split; [done|]. by destruct digs. }
  cbn in Hs. apply andb_true_iff in Hs as [Hc Hs]. destruct (is_digit_value c Hc) as [d Hd].
  destruct (IH (MkMant (10 * num + d) (frac + 0) false true under) Hs eq_refl) as (z & Hz & Hr).
  exists z. cbn [digits_value readMantissa mNum mFrac mDot mDigits mUnder] in *.
  rewrite Hd. split; [done|]. rewrite !decide_False by (intros ->; vm_compute in Hc; done).
  unfold mant_digit. rewrite Hd, Hr, Z.add_0_r. f_equal. cbn. by rewrite orb_true_r.
Qed.

Lemma roundRatio_exact neg n : 0 <= n < 2 ^ 53 ->
  exists m e, roundRatio neg n 1 = Some (Fin neg m e) /\ e <= 0 /\ m = n * 2 ^ (- e).
Proof.
  intros Hn. unfold roundRatio. destruct (n =? 0) eqn:Hz; [apply Z.eqb_eq in Hz as ->; by exists 0, 0|].
  apply Z.eqb_neq in Hz. assert (Hl : log2_ratio n 1 = Z.log2 n).
  { unfold log2_ratio. change (Z.log2 1) with 0. rewrite Z.sub_0_r.
    pose proof (Z.log2_nonneg n). pose proof (Z.log2_spec n). rewrite Z.max_r, Z.max_l by lia.
    destruct (_ <=? _) eqn:Hle; [done|]. lia. }
  rewrite Hl. pose proof (Z.log2_nonneg n). assert (Hlog : Z.log2 n < 53) by (apply Z.log2_lt_pow2; lia).
  set (e := Z.max (Z.log2 n - 52) (-1074)). assert (He : - 1074 <= e <= 0) by lia. exists (n * 2 ^ (- e)), e.
  rewrite (Z.max_r 0 (- e)), (Z.max_l 0 e) by lia. change (1 * 2 ^ 0) with 1.
  rewrite Zdiv_1_r, Zmod_1_r. change ((1 <? 2 * 0) || (2 * 0 =? 1) && Z.odd (n * 2 ^ (- e))) with false. cbv iota.
  rewrite Z.log2_mul_pow2 by lia.
  destruct (1024 <=? _) eqn:Hb; [apply Z.leb_le in Hb; lia|].
  split; [done|]. split; [lia|done].
Qed.

Lemma digit_not_letter c : is_digit c = true -> lower_ascii c = c /\ is_digit (lower_ascii c) = true.
Proof.
  destruct c as [[] [] [] [] [] [] [] []]; vm_compute; intros Hc; discriminate Hc || done.
Qed.

(** A size that is printed in decimal and is below 2^53 is read exactly. *)
Lemma ParseFloat_Itoa n : 0 <= n < 2 ^ 53 ->
  exists f, ParseFloat (Itoa n) = Some f /\ float_to_int64 f = n.
Proof.
  intros Hn. assert (Hp : Itoa n = pretty (Z.to_N n)) by (by destruct n; [| |lia]).
  destruct (pretty_digits (Z.to_N n)) as [Hd Hne]. pose proof (digits_value_pretty (Z.to_N n)) as Hv.
  rewrite Z2N.id in Hv by lia. rewrite Hp. set (s := pretty (Z.to_N n)) in *. clearbody s.
  assert (Hs : special s = None /\ skipSign s = (false, s) /\ skipPrefix s = (false, s)).
  { destruct s as [|c s]; [done|]. cbn in Hd. apply andb_true_iff in Hd as [Hc Hd].
    assert (Hsg : skipSign (String c s) = (false, String c s))
      by (cbn; by rewrite !decide_False by (intros ->; vm_compute in Hc; done)).
    split_and!; [|done|].
    - unfold special. rewrite Hsg. unfold ToLower. cbn [map_bytes]. pose proof (digit_not_letter c Hc) as Hl.
      rewrite !decide_False; [done|..]; try intros [[= H]|[= H]]; try intros [= H]; rewrite H in Hl; by destruct Hl.
    - destruct s as [|x [|d s]]; [done..|]. cbn in Hd. apply andb_true_iff in Hd as [Hx _]. cbn.
      rewrite decide_False; [done|]. intros [_ H]. pose proof (digit_not_letter x Hx) as Hl. unfold lower_char in H.
      rewrite H in Hl. by destruct Hl. }
  destruct Hs as (Hsp & Hsg & Hpre). unfold ParseFloat. rewrite Hsp, Hsg, Hpre.
  destruct (readMantissa_digits s (MkMant 0 0 false false false) Hd eq_refl) as (z & Hz & ->).
  cbn [mNum] in Hz. rewrite Hv in Hz. injection Hz as <-. cbn [mDigits mUnder mNum mFrac orb andb].
  rewrite bool_decide_eq_true_2 by done. cbn [negb]. destruct (roundRatio_exact false n Hn) as (m & e & Hr & He & ->).
  exists (Fin false (n * 2 ^ (- e)) e). split; [by rewrite Z.mul_1_r|]. cbn -[Z.pow].
  assert (Ht : (if 0 <=? e then n * 2 ^ (- e) * 2 ^ e else n * 2 ^ (- e) / 2 ^ (- e)) = n).
  { destruct (0 <=? e) eqn:H0; [replace e with 0 by lia; lia|]. apply Z.div_mul. lia. }
  rewrite Ht. rewrite decide_True; lia.
Qed.

Lemma float_to_int64_range f : - 2 ^ 63 <= float_to_int64 f < 2 ^ 63.
Proof. destruct f; cbn -[Z.pow]; [lia..|]. case_decide; lia. Qed.
