(* ===== verification/Md5.v ===== *)
(** * MD5 and hexadecimal encoding

    [util.Hash] names every block device resource: the name is a prefix and the hex
    form of an MD5 digest (RFC 1321).  The digest is computed here on 32-bit words
    kept as [Z] with their wrap-around written out, so that names of concrete devices
    evaluate; the test vectors of the RFC are checked by evaluation. *)

From Stdlib Require Import ZArith Ascii Lia.
From stdpp Require Import base list strings numbers.
From S2P Require Import Prelude GoStrings.

Local Open Scope string_scope.
Local Open Scope list_scope.
Local Open Scope Z_scope.

Module md5.

Definition w32 (z : Z) : Z := Z.land z 0xffffffff.
Definition add32 (a b : Z) : Z := w32 (a + b).
Definition not32 (a : Z) : Z := Z.lxor a 0xffffffff.
Definition rotl32 (x n : Z) : Z := Z.lor (w32 (Z.shiftl x n)) (Z.shiftr x (32 - n)).

(** The sine table of the RFC. *)
Definition table : list Z :=
  [
   3614090360; 3905402710; 606105819; 3250441966; 4118548399; 1200080426;
   2821735955; 4249261313; 1770035416; 2336552879; 4294925233; 2304563134;
   1804603682; 4254626195; 2792965006; 1236535329; 4129170786; 3225465664;
   643717713; 3921069994; 3593408605; 38016083; 3634488961; 3889429448;
   568446438; 3275163606; 4107603335; 1163531501; 2850285829; 4243563512;
   1735328473; 2368359562; 4294588738; 2272392833; 1839030562; 4259657740;
   2763975236; 1272893353; 4139469664; 3200236656; 681279174; 3936430074;
   3572445317; 76029189; 3654602809; 3873151461; 530742520; 3299628645;
   4096336452; 1126891415; 2878612391; 4237533241; 1700485571; 2399980690;
   4293915773; 2240044497; 1873313359; 4264355552; 2734768916; 1309151649;
   4149444226; 3174756917; 718787259; 3951481745].

Definition shifts : list (list Z) :=
  [[7; 12; 17; 22]; [5; 9; 14; 20]; [4; 11; 16; 23]; [6; 10; 15; 21]].

Record digest := Digest { da : Z; db : Z; dc : Z; dd : Z }.

(** The round function and the index of the message word at step [i]. *)
Definition mix (i : nat) (s : digest) : Z * nat :=
  match Nat.div i 16 with
  | O => (Z.lor (Z.land (db s) (dc s)) (Z.land (not32 (db s)) (dd s)), i)
  | 1%nat => (Z.lor (Z.land (dd s) (db s)) (Z.land (not32 (dd s)) (dc s)), Nat.modulo (5 * i + 1) 16)
  | 2%nat => (Z.lxor (db s) (Z.lxor (dc s) (dd s)), Nat.modulo (3 * i + 5) 16)
  | _ => (Z.lxor (dc s) (Z.lor (db s) (not32 (dd s))), Nat.modulo (7 * i) 16)
  end.

Definition step (words : list Z) (s : digest) (i : nat) : digest :=
  let '(f, g) := mix i s in
  let sum := add32 (add32 f (da s)) (add32 (nth i table 0) (nth g words 0)) in
  let rot := nth (Nat.modulo i 4) (nth (Nat.div i 16) shifts []) 0 in
  Digest (dd s) (add32 (db s) (rotl32 sum rot)) (db s) (dc s).

Definition block (s : digest) (words : list Z) : digest :=
  let r := fold_left (step words) (seq 0 64) s in
  Digest (add32 (da s) (da r)) (add32 (db s) (db r)) (add32 (dc s) (dc r)) (add32 (dd s) (dd r)).

Definition init : digest := Digest 0x67452301 0xefcdab89 0x98badcfe 0x10325476.

Fixpoint bytes_of_string (s : string) : list Z :=
  match s with
  | EmptyString => []
  | String c s => Z.of_N (Ascii.N_of_ascii c) :: bytes_of_string s
  end.

(** [n] little-endian bytes of [z] *)
Fixpoint le_bytes (n : nat) (z : Z) : list Z :=
  match n with
  | O => []
  | S n => Z.land z 255 :: le_bytes n (Z.shiftr z 8)
  end.

Fixpoint words_of_bytes (l : list Z) : list Z :=
  match l with
  | b0 :: b1 :: b2 :: b3 :: l =>
      Z.lor b0 (Z.lor (Z.shiftl b1 8) (Z.lor (Z.shiftl b2 16) (Z.shiftl b3 24))) :: words_of_bytes l
  | _ => []
  end.

(** The message, a one bit, zeros up to 56 bytes modulo 64, the length in bits. *)
Definition pad (l : list Z) : list Z :=
  let n := length l in
  l ++ [128] ++ repeat 0 (Nat.modulo (119 - Nat.modulo n 64) 64)
    ++ le_bytes 8 (8 * Z.of_nat n).

Fixpoint blocks (n : nat) (words : list Z) (s : digest) : digest :=
  match n with
  | O => s
  | S n => blocks n (drop 16 words) (block s (take 16 words))
  end.

Definition Sum (l : list Z) : list Z :=
  let p := pad l in
  let s := blocks (Nat.div (length p) 64) (words_of_bytes p) init in
  le_bytes 4 (da s) ++ le_bytes 4 (db s) ++ le_bytes 4 (dc s) ++ le_bytes 4 (dd s).

End md5.

(** encoding/hex *)
Definition hex_digit (z : Z) : ascii :=
  Ascii.ascii_of_N (Z.to_N (if z <? 10 then 48 + z else 87 + z)).

Fixpoint EncodeToString (l : list Z) : string :=
  match l with
  | [] => ""
  | b :: l => String (hex_digit (Z.shiftr b 4)) (String (hex_digit (Z.land b 15)) (EncodeToString l))
  end.

(** util.Hash *)
Definition Hash (s : string) : string :=
  EncodeToString (md5.Sum (md5.bytes_of_string s)).

(** ** The shape of a hash *)

Definition is_hex (c : ascii) : bool :=
  let n := Ascii.N_of_ascii c in
  ((48 <=? n) && (n <=? 57) || (97 <=? n) && (n <=? 102))%N.

Lemma le_bytes_length n z : length (md5.le_bytes n z) = n.
Proof. revert z. induction n; intros; cbn; auto. Qed.

Lemma le_bytes_range n z : Forall (fun b => 0 <= b < 256) (md5.le_bytes n z).
Proof.
  revert z. induction n as [|n IH]; intros z; cbn; constructor; [|done].
  change 255 with (Z.ones 8). rewrite Z.land_ones by lia. apply Z.mod_pos_bound. lia.
Qed.

Lemma hex_digit_is_hex z : 0 <= z < 16 -> is_hex (hex_digit z) = true.
Proof.
  intros Hz.
  assert (Hc : z = 0 \/ z = 1 \/ z = 2 \/ z = 3 \/ z = 4 \/ z = 5 \/ z = 6 \/ z = 7 \/
    z = 8 \/ z = 9 \/ z = 10 \/ z = 11 \/ z = 12 \/ z = 13 \/ z = 14 \/ z = 15) by lia.
  by destruct_or! Hc; subst z.
Qed.

Lemma EncodeToString_length l : String.length (EncodeToString l) = (2 * length l)%nat.
Proof. induction l; cbn; lia. Qed.

Lemma EncodeToString_hex l :
  Forall (fun b => 0 <= b < 256) l -> all_bytes is_hex (EncodeToString l) = true.
Proof.
  induction 1 as [|b l Hb _ IH]; cbn; [done|].
  rewrite !hex_digit_is_hex, IH; [done| |].
  - change 15 with (Z.ones 4). rewrite Z.land_ones by lia. apply Z.mod_pos_bound. lia.
  - rewrite Z.shiftr_div_pow2 by lia. change (2 ^ 4) with 16.
    split; [apply Z.div_pos; lia|apply Z.div_lt_upper_bound; lia].
Qed.

Lemma Hash_length s : String.length (Hash s) = 32%nat.
Proof.
  unfold Hash, md5.Sum. by rewrite EncodeToString_length, !length_app, !le_bytes_length.
Qed.

Lemma Hash_hex s : all_bytes is_hex (Hash s) = true.
Proof.
  apply EncodeToString_hex. unfold md5.Sum.
  rewrite !Forall_app. eauto using le_bytes_range.
Qed.

(** The padded message is a whole number of 64-byte blocks, so no input is dropped. *)
Lemma pad_length l : Nat.modulo (length (md5.pad l)) 64 = O.
Proof.
  unfold md5.pad. rewrite !length_app, repeat_length, le_bytes_length. cbn [length].
  assert (Nat.modulo (length l) 64 < 64)%nat by (apply Nat.mod_upper_bound; lia).
  pose proof (Nat.div_mod_eq (length l) 64) as Hn.
  set (q := Nat.div _ _) in *. set (r := Nat.modulo (length l) 64) in *.
  rewrite Hn. destruct (decide (r < 56)%nat) as [Hr|Hr].
  - replace (119 - r)%nat with ((55 - r) + 1 * 64)%nat by lia.
    rewrite Nat.Div0.mod_add, (Nat.mod_small (55 - r)) by lia.
    replace (64 * q + r + (1 + (55 - r + 8)))%nat with ((q + 1) * 64)%nat by lia.
    apply Nat.Div0.mod_mul.
  - rewrite (Nat.mod_small (119 - r)) by lia.
    replace (64 * q + r + (1 + (119 - r + 8)))%nat with ((q + 2) * 64)%nat by lia.
    apply Nat.Div0.mod_mul.
Qed.

Example Hash_empty : Hash "" = "d41d8cd98f00b204e9800998ecf8427e".
Proof. vm_compute. reflexivity. Qed.

Example Hash_abc : Hash "abc" = "900150983cd24fb0d6963f7d28e17f72".
Proof. vm_compute. reflexivity. Qed.

Example Hash_two_blocks :
  Hash "12345678901234567890123456789012345678901234567890123456789012345678901234567890"
  = "57edf4a22be3c955ac49da2e2107b67a".
Proof. vm_compute. reflexivity. Qed.
