(* ===== verification/Regex.v ===== *)
(** * Regular expressions

    [util.IsMatchRegex] and its callers use a small part of Go's regexp syntax:
    literals, [.], classes, [\d], escapes, groups, alternation, [*], [+], [?], [^]
    and [$].  The syntax is parsed into a tree (a pattern outside the syntax does not
    compile, and [regexp.MustCompile] panics on it) and matched by backtracking with
    a continuation.  Counted repetition [{n,m}] is not part of the subset. *)

From Stdlib Require Import Ascii Lia.
From stdpp Require Import base list strings numbers option.
From S2P Require Import Prelude GoStrings.

Local Open Scope string_scope.

Inductive re :=
  | Eps
  | Chr (c : ascii)
  | AnyChar
  | Cls (neg : bool) (ranges : list (ascii * ascii))
  | Bol
  | Eol
  | Cat (a b : re)
  | Alt (a b : re)
  | Star (a : re).

Definition Plus (a : re) : re := Cat a (Star a).
Definition Opt (a : re) : re := Alt a Eps.
Definition Digit : re := Cls false [("0"%char, "9"%char)].

(** ** Matching *)

Definition in_range (c : ascii) (r : ascii * ascii) : bool :=
  (Ascii.N_of_ascii r.1 <=? Ascii.N_of_ascii c)%N && (Ascii.N_of_ascii c <=? Ascii.N_of_ascii r.2)%N.

Definition in_class (neg : bool) (ranges : list (ascii * ascii)) (c : ascii) : bool :=
  xorb neg (existsb (in_range c) ranges).

(** A matcher gets whether it is at the start of the text, the rest of the text and
    what to do next. *)
Definition cont := bool -> string -> bool.

Definition match_char (f : ascii -> bool) (s : string) (k : cont) : bool :=
  match s with
  | String c s => if f c then k false s else false
  | EmptyString => false
  end.

(** Repetition: every round after the first consumes at least one byte, so [n] larger
    than the length of the text is enough. *)
Fixpoint match_star (f : bool -> string -> cont -> bool) (n : nat) (st : bool) (s : string) (k : cont) : bool :=
  k st s ||
  match n with
  | O => false
  | S n => f st s (fun st' s' =>
             if decide (String.length s' < String.length s) then match_star f n st' s' k else false)
  end.

Fixpoint match_re (r : re) (st : bool) (s : string) (k : cont) : bool :=
  match r with
  | Eps => k st s
  | Chr c => match_char (fun d => bool_decide (d = c)) s k
  | AnyChar => match_char (fun d => negb (bool_decide (d = newline))) s k
  | Cls neg rs => match_char (in_class neg rs) s k
  | Bol => if st then k st s else false
  | Eol => if decide (s = "") then k st s else false
  | Cat a b => match_re a st s (fun st s => match_re b st s k)
  | Alt a b => match_re a st s k || match_re b st s k
  | Star a => match_star (match_re a) (S (String.length s)) st s k
  end.

(** regexp.MatchString: a match may start anywhere *)
Fixpoint search (r : re) (st : bool) (s : string) : bool :=
  match_re r st s (fun _ _ => true) ||
  match s with EmptyString => false | String _ s => search r false s end.
Definition MatchString (r : re) (s : string) : bool := search r true s.

(** ** Parsing *)

Definition is_postfix (c : ascii) : bool :=
  bool_decide (c = "*"%char) || bool_decide (c = "+"%char) || bool_decide (c = "?"%char).

(** A repetition operator after an atom, with its optional lazy mark; a second
    operator is an error. *)
Definition p_post (a : re) (s : string) : option (re * string) :=
  match s with
  | String c s1 =>
      if is_postfix c then
        let a' := if decide (c = "*"%char) then Star a
                  else if decide (c = "+"%char) then Plus a else Opt a in
        let s2 := match s1 with
                  | String d s2 => if decide (d = "?"%char) then s2 else s1
                  | _ => s1
                  end in
        match s2 with
        | String e _ => if is_postfix e then None else Some (a', s2)
        | _ => Some (a', s2)
        end
      else Some (a, s)
  | EmptyString => Some (a, s)
  end.

(** The ranges of a class up to its closing bracket. *)
Fixpoint p_ranges (n : nat) (s : string) : option (list (ascii * ascii) * string) :=
  match n, s with
  | S n, String c s1 =>
      if decide (c = "]"%char) then Some ([], s1)
      else match s1 with
           | String "-" (String d s2) =>
               if decide (d = "]"%char)
               then '(rs, s3) ← p_ranges n s1; Some ((c, c) :: rs, s3)
               else if (Ascii.N_of_ascii c <=? Ascii.N_of_ascii d)%N
               then '(rs, s3) ← p_ranges n s2; Some ((c, d) :: rs, s3)
               else None
           | _ => '(rs, s3) ← p_ranges n s1; Some ((c, c) :: rs, s3)
           end
  | _, _ => None
  end.

Definition is_alnum (c : ascii) : bool :=
  let n := Ascii.N_of_ascii c in
  ((48 <=? n) && (n <=? 57) || (65 <=? n) && (n <=? 90) || (97 <=? n) && (n <=? 122))%N.

Fixpoint p_alt (n : nat) (s : string) : option (re * string) :=
  match n with
  | O => None
  | S n =>
      '(a, s1) ← p_cat n s;
      match s1 with
      | String "|" s2 => '(b, s3) ← p_alt n s2; Some (Alt a b, s3)
      | _ => Some (a, s1)
      end
  end
with p_cat (n : nat) (s : string) : option (re * string) :=
  match n with
  | O => None
  | S n =>
      match s with
      | EmptyString => Some (Eps, "")
      | String c _ =>
          if bool_decide (c = ")"%char) || bool_decide (c = "|"%char) then Some (Eps, s)
          else '(a, s1) ← p_atom n s;
               '(a, s2) ← p_post a s1;
               '(b, s3) ← p_cat n s2;
               Some (Cat a b, s3)
      end
  end
with p_atom (n : nat) (s : string) : option (re * string) :=
  match n with
  | O => None
  | S n =>
      match s with
      | EmptyString => None
      | String c s1 =>
          if decide (c = "("%char) then
            '(a, s2) ← p_alt n s1;
            match s2 with String ")" s3 => Some (a, s3) | _ => None end
          else if decide (c = "."%char) then Some (AnyChar, s1)
          else if decide (c = "^"%char) then Some (Bol, s1)
          else if decide (c = "$"%char) then Some (Eol, s1)
          else if decide (c = "["%char) then
            match s1 with
            | String "^" s2 => '(rs, s3) ← p_ranges n s2;
                               if decide (rs = []) then None else Some (Cls true rs, s3)
            | _ => '(rs, s3) ← p_ranges n s1;
                   if decide (rs = []) then None else Some (Cls false rs, s3)
            end
          else if decide (c = "\"%char) then
            match s1 with
            | String "d" s2 => Some (Digit, s2)
            | String d s2 => if is_alnum d then None else Some (Chr d, s2)
            | EmptyString => None
            end
          else if is_postfix c || bool_decide (c = "{"%char) then None
          else Some (Chr c, s1)
      end
  end.

(** regexp.MustCompile; [None] where it panics *)
Definition MustCompile (pat : string) : option re :=
  match p_alt (2 * String.length pat + 4) pat with
  | Some (r, EmptyString) => Some r
  | _ => None
  end.

(** util.IsMatchRegex *)
Definition IsMatchRegex (regex s : string) : option bool :=
  r ← MustCompile regex; Some (MatchString r s).

(** ** Literal text

    A pattern that starts with a literal text parses to that text followed by the
    parse of the rest. *)

Definition is_meta (c : ascii) : bool :=
  bool_decide (c ∈ ["("; ")"; "|"; "."; "^"; "$"; "["; "\"; "*"; "+"; "?"; "{"]%char).

Fixpoint literal (s : string) : bool :=
  match s with EmptyString => true | String c s => negb (is_meta c) && literal s end.

Fixpoint lits (p : string) (r : re) : re :=
  match p with EmptyString => r | String c p => Cat (Chr c) (lits p r) end.

(** The rest of [s] after the prefix [p]. *)
Fixpoint strip (p s : string) : option string :=
  match p, s with
  | EmptyString, _ => Some s
  | String c p, String d s => if decide (c = d) then strip p s else None
  | String _ _, EmptyString => None
  end.

Definition no_postfix (s : string) : bool :=
  match s with String c _ => negb (is_postfix c) | EmptyString => true end.

Lemma is_meta_false c :
  is_meta c = false ->
  c <> "("%char /\ c <> ")"%char /\ c <> "|"%char /\ c <> "."%char /\ c <> "^"%char /\
  c <> "$"%char /\ c <> "["%char /\ c <> "\"%char /\ c <> "{"%char /\ is_postfix c = false.
Proof.
  unfold is_meta, is_postfix. rewrite bool_decide_eq_false. intros H.
  repeat split; try (intros ->; apply H; set_solver).
  rewrite !orb_false_iff, !bool_decide_eq_false.
  repeat split; intros ->; apply H; set_solver.
Qed.

Lemma p_atom_literal n c s :
  is_meta c = false -> p_atom (S n) (String c s) = Some (Chr c, s).
Proof.
  intros (?&?&?&?&?&?&?&?&?&Hp)%is_meta_false. cbn [p_atom].
  repeat rewrite decide_False by done. rewrite Hp. by rewrite bool_decide_eq_false_2.
Qed.

Lemma p_post_none a s : no_postfix s = true -> p_post a s = Some (a, s).
Proof. destruct s as [|c s]; cbn; [done|]. by intros ->%negb_true_iff. Qed.

Lemma p_cat_lits p rest r s' n :
  literal p = true -> no_postfix rest = true ->
  p_cat (S n) rest = Some (r, s') ->
  p_cat (String.length p + S n) (p +:+ rest) = Some (lits p r, s').
Proof.
  intros Hl Hrest Hr. revert Hl.
  induction p as [|c p IH]; [done|]. rewrite string_app_cons.
  cbn [literal lits String.length]. rewrite andb_true_iff, negb_true_iff. intros [Hc Hl].
  rewrite Nat.add_succ_l. cbn [p_cat].
  pose proof (is_meta_false c Hc) as (?&?&?&?&?&?&?&?&?&Hp).
  rewrite !bool_decide_eq_false_2 by done. cbn [orb].
  replace (String.length p + S n) with (S (String.length p + n)) at 1 by lia.
  rewrite p_atom_literal by done. cbn [mbind option_bind].
  rewrite p_post_none; cbn [mbind option_bind].
  - by rewrite IH.
  - destruct p as [|d p]; [done|]. rewrite string_app_cons. cbn in *.
    apply andb_true_iff in Hl as [Hd _]. rewrite negb_true_iff in Hd.
    apply is_meta_false in Hd as (?&?&?&?&?&?&?&?&?&->). done.
Qed.

(** Matching a literal text strips it. *)
Lemma match_lits p r st s k :
  match_re (lits p r) st s k =
  match strip p s with
  | Some s' => match_re r (st && bool_decide (p = "")) s' k
  | None => false
  end.
Proof.
  revert st s. induction p as [|c p IH]; intros st s; cbn.
  - by rewrite andb_true_r.
  - destruct s as [|d s]; cbn; [done|].
    destruct (decide (c = d)) as [->|Hne].
    + rewrite bool_decide_eq_true_2 by done. rewrite IH.
      by rewrite (bool_decide_eq_false_2 (String d p = "")), andb_false_r by done.
    + by rewrite bool_decide_eq_false_2 by done.
Qed.

Lemma strip_Some p s t : strip p s = Some t <-> s = p +:+ t.
Proof.
  revert s. induction p as [|c p IH]; intros s; cbn.
  - split; [by intros [= ->]|by intros ->].
  - destruct s as [|d s]; [by split|].
    destruct (decide (c = d)) as [->|Hne].
    + rewrite IH, string_app_cons. split; [by intros ->|by intros [=]].
    + split; [done|]. by intros [= -> _].
Qed.

(** An anchored pattern can only match at the start. *)
Lemma search_bol r st s :
  search (Cat Bol r) st s = if st then match_re r true s (fun _ _ => true) else false.
Proof.
  revert st. induction s as [|c s IH]; intros st; destruct st; cbn; try done.
  - by rewrite orb_false_r.
  - rewrite IH. by rewrite orb_false_r.
  - by rewrite IH.
Qed.

(** ** Runs of digits *)

Fixpoint all_digits (s : string) : bool :=
  match s with
  | EmptyString => true
  | String c s => in_class false [("0"%char, "9"%char)] c && all_digits s
  end.

Lemma match_star_digits n st s :
  String.length s < n ->
  match_star (match_re Digit) n st s (fun st s => match_re Eol st s (fun _ _ => true))
  = all_digits s.
Proof.
  revert st s. induction n as [|n IH]; intros st s Hn; [lia|].
  destruct s as [|c s]; [done|].
  cbn [match_star match_re match_char Digit all_digits String.length] in *.
  rewrite (decide_False (P := String c s = "")) by done. cbn [orb].
  destruct (in_class false _ c); [|done].
  rewrite decide_True by lia. apply IH. lia.
Qed.

(** A last part of digits, [\[0-9\]*$]. *)
Lemma match_digits_end st s :
  match_re (Cat (Star Digit) (Cat Eol Eps)) st s (fun _ _ => true) = all_digits s.
Proof.
  cbn [match_re]. rewrite <- (match_star_digits (S (String.length s)) st s) by lia. done.
Qed.

(** ** Meaning

    [re_match r st s st' s']: [r] matches a first part of [s], leaving [s']; [st] and
    [st'] say whether [s] and [s'] are at the start of the text. *)
Inductive re_match : re -> bool -> string -> bool -> string -> Prop :=
  | m_eps st s : re_match Eps st s st s
  | m_chr c st s : re_match (Chr c) st (String c s) false s
  | m_any c st s : c <> newline -> re_match AnyChar st (String c s) false s
  | m_cls neg rs c st s : in_class neg rs c = true -> re_match (Cls neg rs) st (String c s) false s
  | m_bol s : re_match Bol true s true s
  | m_eol st : re_match Eol st "" st ""
  | m_cat a b st s st1 s1 st2 s2 :
      re_match a st s st1 s1 -> re_match b st1 s1 st2 s2 -> re_match (Cat a b) st s st2 s2
  | m_alt_l a b st s st1 s1 : re_match a st s st1 s1 -> re_match (Alt a b) st s st1 s1
  | m_alt_r a b st s st1 s1 : re_match b st s st1 s1 -> re_match (Alt a b) st s st1 s1
  | m_star_nil a st s : re_match (Star a) st s st s
  | m_star_cons a st s st1 s1 st2 s2 :
      re_match a st s st1 s1 -> re_match (Star a) st1 s1 st2 s2 -> re_match (Star a) st s st2 s2.

(** A match that consumes nothing changes nothing. *)
Lemma re_match_consumes r st s st' s' :
  re_match r st s st' s' -> (st' = st /\ s' = s) \/ String.length s' < String.length s.
Proof. induction 1; cbn; naive_solver lia. Qed.

Lemma match_char_spec f s k :
  match_char f s k = true <-> exists c s', s = String c s' /\ f c = true /\ k false s' = true.
Proof.
  destruct s as [|c s]; cbn; [naive_solver|]. destruct (f c) eqn:Hf; [naive_solver|]. naive_solver congruence.
Qed.

(** The rounds of a repetition *)
Lemma match_star_spec a n st s k :
  (forall st s k, match_re a st s k = true <-> exists st' s', re_match a st s st' s' /\ k st' s' = true) ->
  String.length s < n ->
  match_star (match_re a) n st s k = true <-> exists st' s', re_match (Star a) st s st' s' /\ k st' s' = true.
Proof.
  intros Ha. revert st s. induction n as [|n IH]; intros st s Hn; [lia|].
  cbn [match_star]. rewrite orb_true_iff, Ha. split.
  - intros [Hk|(st1 & s1 & Hm & Hk)]; [exists st, s; split; [constructor|done]|].
    case_decide as Hlt; [|done]. apply IH in Hk as (st2 & s2 & ? & ?); [|lia].
    exists st2, s2. split; [by eapply m_star_cons|done].
  - intros (st2 & s2 & Hm & Hk).
    remember (Star a) as r eqn:Hr. revert Hr Hk.
    induction Hm as [ | | | | | | | | |a' st s|a' st s st1 s1 st2 s2 Hm1 _ Hm2 IHm]; intros Hr Hk; try done; [by left|].
    injection Hr as ->. destruct (re_match_consumes _ _ _ _ _ Hm1) as [[-> ->]|Hlt]; [by apply IHm|].
    right. exists st1, s1. split; [done|]. rewrite decide_True by done. apply IH; [lia|eauto].
Qed.

(** Matching by backtracking agrees with the meaning of expressions. *)
Lemma match_re_spec r st s k :
  match_re r st s k = true <-> exists st' s', re_match r st s st' s' /\ k st' s' = true.
Proof.
  revert st s k. induction r as [|c| |neg rs| | |a IHa b IHb|a IHa b IHb|a IHa]; intros st s k; cbn [match_re].
  - split; [intros; exists st, s; split; [constructor|done]|]. intros (? & ? & Hm & ?). by inversion Hm; subst.
  - rewrite match_char_spec. split.
    + intros (d & s' & -> & ->%bool_decide_eq_true & Hk). exists false, s'. split; [constructor|done].
    + intros (st' & s' & Hm & Hk). inversion Hm; subst. exists c, s'. by rewrite bool_decide_eq_true_2.
  - rewrite match_char_spec. split.
    + intros (d & s' & -> & Hd & Hk). rewrite negb_true_iff, bool_decide_eq_false in Hd.
      exists false, s'. split; [by constructor|done].
    + intros (st' & s' & Hm & Hk). inversion Hm; subst. eexists _, s'. by rewrite bool_decide_eq_false_2.
  - rewrite match_char_spec. split.
    + intros (d & s' & -> & Hd & Hk). exists false, s'. split; [by constructor|done].
    + intros (st' & s' & Hm & Hk). inversion Hm; subst. eauto.
  - destruct st.
    + split; [intros Hk; exists true, s; split; [apply m_bol|done]|].
      intros (st1 & s1 & Hm & Hk). by inversion Hm; subst.
    + split; [done|]. intros (st1 & s1 & Hm & Hk). inversion Hm.
  - case_decide as He.
    + subst. split; [intros Hk; exists st, ""; split; [apply m_eol|done]|].
      intros (st1 & s1 & Hm & Hk). by inversion Hm; subst.
    + split; [done|]. intros (st1 & s1 & Hm & Hk). by inversion Hm; subst.
  - rewrite IHa. setoid_rewrite IHb. split.
    + intros (st1 & s1 & ? & st2 & s2 & ? & ?). exists st2, s2. split; [by econstructor|done].
    + intros (st2 & s2 & Hm & Hk). inversion Hm; subst. eauto 10.
  - rewrite orb_true_iff, IHa, IHb. split.
    + intros [(st' & s' & ? & ?)|(st' & s' & ? & ?)]; exists st', s'; (split; [by constructor|done]).
    + intros (st' & s' & Hm & Hk). inversion Hm; subst; eauto 10.
  - apply match_star_spec; [done|lia].
Qed.

(** A match anywhere in the text *)
Lemma search_spec r st s :
  search r st s = true <-> exists a b st' s', s = a +:+ b /\
    re_match r (st && bool_decide (a = "")) b st' s'.
Proof.
  revert st. induction s as [|c s IH]; intros st; cbn [search].
  - rewrite orb_false_r, match_re_spec. split.
    + intros (st' & s' & ? & _). exists "", "", st', s'. by rewrite andb_true_r.
    + intros ([|] & [|] & st' & s' & Heq & Hm); try done. rewrite andb_true_r in Hm. eauto.
  - rewrite orb_true_iff, match_re_spec, IH. split.
    + intros [(st' & s' & ? & _)|(a & b & st' & s' & -> & Hm)].
      * exists "", (String c s), st', s'. by rewrite andb_true_r.
      * exists (String c a), b, st', s'. split; [done|]. by rewrite andb_false_r.
    + intros ([|d a] & b & st' & s' & Heq & Hm).
      * left. rewrite string_app_nil_l in Heq. subst. rewrite andb_true_r in Hm. eauto.
      * right. rewrite string_app_cons in Heq. injection Heq as -> ->. rewrite andb_false_r in Hm. eauto 10.
Qed.

Lemma re_match_suffix r st s st' s' : re_match r st s st' s' -> exists x, s = x +:+ s'.
Proof.
  induction 1 as [st s|c st s|c st s|neg rs c st s|s|st|a b st s st1 s1 st2 s2 _ [x ->] _ [y ->]| | |a st s|
                  a st s st1 s1 st2 s2 _ [x ->] _ [y ->]]; try done; try (by exists "").
  1-3: by exists (String c "").
  all: exists (x +:+ y); by rewrite string_app_assoc.
Qed.

(** Runs of digits, as a relation *)
Lemma star_digits st s st' : re_match (Star Digit) st s st' "" -> all_digits s = true.
Proof.
  remember (Star Digit) as r eqn:Hr. remember "" as e eqn:He. intros Hm. revert Hr He.
  induction Hm as [ | | | | | | | | |a st s|a st s st1 s1 st2 s2 H1 _ _ IH2]; intros Hr He; try done; [by subst|].
  injection Hr as ->. inversion H1; subst. cbn [all_digits]. apply andb_true_iff. auto.
Qed.

Lemma digits_star st s : all_digits s = true -> exists st', re_match (Star Digit) st s st' "".
Proof.
  revert st. induction s as [|c s IH]; intros st; [intros _; exists st; apply m_star_nil|].
  cbn [all_digits]. intros [Hc Hs]%andb_true_iff. destruct (IH false Hs) as [st' Hm].
  exists st'. eapply m_star_cons; [by apply m_cls|done].
Qed.

Lemma any_star st s t : no_byte newline s = true -> exists st', re_match (Star AnyChar) st (s +:+ t) st' t.
Proof.
  revert st. induction s as [|c s IH]; intros st; [intros _; exists st; apply m_star_nil|].
  cbn [no_byte]. rewrite andb_true_iff, negb_true_iff, bool_decide_eq_false. intros [Hc Hs].
  destruct (IH false Hs) as [st' Hm]. exists st'. rewrite string_app_cons.
  eapply m_star_cons; [by apply m_any|done].
Qed.

Lemma p_cat_bol n s :
  no_postfix s = true ->
  p_cat (S (S n)) (String "^" s) = ('(b, s3) ← p_cat (S n) s; Some (Cat Bol b, s3)).
Proof.
  intros Hs.
  change (p_cat (S (S n)) (String "^" s)) with
    ('(a, s2) ← p_post Bol s; '(b, s3) ← p_cat (S n) s2; Some (Cat a b, s3)).
  by rewrite p_post_none.
Qed.

Lemma no_postfix_app p s : literal p = true -> no_postfix s = true -> no_postfix (p +:+ s) = true.
Proof.
  intros Hp Hs. destruct p as [|c p]; [done|]. rewrite string_app_cons. cbn in *.
  apply andb_true_iff in Hp as [Hc _]. rewrite negb_true_iff in Hc.
  apply is_meta_false in Hc as (?&?&?&?&?&?&?&?&?&->). done.
Qed.

(** A pattern for a literal text at the start and something after it *)
Lemma compile_anchored p rest r :
  literal p = true -> no_postfix rest = true ->
  p_cat (S (2 * String.length rest + String.length p + 3)) rest = Some (r, "") ->
  MustCompile ("^" +:+ p +:+ rest) = Some (Cat Bol (lits p r)).
Proof.
  intros Hl Hr Hc. unfold MustCompile.
  assert (Hpat : "^" +:+ p +:+ rest = String "^" (p +:+ rest)) by done. rewrite Hpat. cbn [String.length].
  rewrite length_string_app.
  replace (2 * S (String.length p + String.length rest) + 4)
    with (S (S (S (String.length p + (2 * String.length rest + String.length p + 3))))) by lia.
  change (p_alt (S ?n) ?s) with
    ('(a, s1) ← p_cat n s;
     match s1 with String "|" s2 => '(b, s3) ← p_alt n s2; Some (Alt a b, s3) | _ => Some (a, s1) end).
  rewrite p_cat_bol by (by apply no_postfix_app).
  replace (S (String.length p + (2 * String.length rest + String.length p + 3)))
    with (String.length p + S (2 * String.length rest + String.length p + 3)) by lia.
  by rewrite (p_cat_lits p rest r "").
Qed.

(** [^text\[0-9\]*$] *)
Lemma IsMatchRegex_digits p s :
  literal p = true ->
  exists b, IsMatchRegex ("^" +:+ p +:+ "[0-9]*$") s = Some b /\
    (b = true <-> exists t, s = p +:+ t /\ all_digits t = true).
Proof.
  intros Hp. unfold IsMatchRegex.
  rewrite (compile_anchored p _ (Cat (Star Digit) (Cat Eol Eps))); [|done|done|].
  2:{ change (2 * String.length "[0-9]*$" + String.length p + 3) with (S (S (S (S (S (S (S (S (S (S (S (S (S (S (String.length p + 3))))))))))))))). reflexivity. }
  cbn [mbind option_bind]. eexists. split; [reflexivity|].
  unfold MatchString. rewrite search_bol, match_lits.
  destruct (strip p s) as [t|] eqn:Hs.
  - apply strip_Some in Hs as ->. rewrite match_digits_end. split; [eauto|].
    intros (t' & Heq & Ht). by apply string_app_inj_l in Heq as ->.
  - split; [done|]. intros (t & Heq & _). apply strip_Some in Heq. congruence.
Qed.

(** Inverts the matches of expressions whose shape is known, but for repetitions. *)
Ltac re_inv :=
  repeat match goal with
  | H : re_match (Cat _ _) _ _ _ _ |- _ => inversion H; clear H; subst
  | H : re_match (Alt _ _) _ _ _ _ |- _ => inversion H; clear H; subst
  | H : re_match (Chr _) _ _ _ _ |- _ => inversion H; clear H; subst
  | H : re_match (Cls _ _) _ _ _ _ |- _ => inversion H; clear H; subst
  | H : re_match AnyChar _ _ _ _ |- _ => inversion H; clear H; subst
  | H : re_match Eps _ _ _ _ |- _ => inversion H; clear H; subst
  | H : re_match Eol _ _ _ _ |- _ => inversion H; clear H; subst
  end.

(** [^text(p\[0-9\]+)?$] *)
Lemma IsMatchRegex_parts p s :
  literal p = true ->
  exists b, IsMatchRegex ("^" +:+ p +:+ "(p[0-9]+)?$") s = Some b /\
    (b = true <-> s = p \/ exists t, s = p +:+ "p" +:+ t /\ t <> "" /\ all_digits t = true).
Proof.
  intros Hp. unfold IsMatchRegex.
  rewrite (compile_anchored p _ (Cat (Opt (Cat (Chr "p") (Cat (Plus Digit) Eps))) (Cat Eol Eps))); [|done|done|].
  2:{ change (2 * String.length "(p[0-9]+)?$" + String.length p + 3) with
        (Nat.iter 22 S (String.length p + 3)). reflexivity. }
  cbn [mbind option_bind]. eexists. split; [reflexivity|].
  unfold MatchString. rewrite search_bol, match_lits.
  destruct (strip p s) as [t|] eqn:Hs.
  - apply strip_Some in Hs as ->. rewrite match_re_spec. split.
    + intros (st' & s' & Hm & _). unfold Opt, Plus in Hm. re_inv; [right|left; by rewrite string_app_nil_r].
      unfold Digit in *. re_inv.
      match goal with H : re_match (Star _) _ ?t _ "" |- _ => apply star_digits in H end.
      eexists (String _ _). split_and!; [reflexivity|done|]. cbn [all_digits]. by apply andb_true_iff.
    + intros [Heq|(t' & Heq & Hne & Ht)].
      * assert (t = "") as -> by (apply (string_app_inj_l p); by rewrite string_app_nil_r).
        eexists _, "". split; [|done]. eapply m_cat; [apply m_alt_r, m_eps|]. eapply m_cat; [apply m_eol|apply m_eps].
      * apply string_app_inj_l in Heq as ->. destruct t' as [|d t']; [done|]. cbn [all_digits] in Ht.
        apply andb_true_iff in Ht as [Hd Ht]. destruct (digits_star false t' Ht) as [st' Hm].
        eexists _, "". split; [|done]. eapply m_cat; [apply m_alt_l|eapply m_cat; [apply m_eol|apply m_eps]].
        eapply m_cat; [apply m_chr|]. eapply m_cat; [eapply m_cat; [by apply m_cls|exact Hm]|apply m_eps].
  - split; [done|]. intros [-> |(t & Heq & _)].
    + assert (strip p p = Some "") by (apply strip_Some; by rewrite string_app_nil_r). congruence.
    + apply strip_Some in Heq. congruence.
Qed.

(** [.+\[0-9\]+$]: the text ends in a digit that is not its first byte. *)
Definition ends_in_digit (s : string) : Prop :=
  exists q d, s = q +:+ String d "" /\ q <> "" /\ in_class false [("0"%char, "9"%char)] d = true.

Lemma all_digits_last d s :
  all_digits (String d s) = true ->
  exists q d', String d s = q +:+ String d' "" /\ in_class false [("0"%char, "9"%char)] d' = true.
Proof.
  revert d. induction s as [|c s IH]; intros d; cbn [all_digits]; intros [Hd Hs]%andb_true_iff.
  - by exists "", d.
  - destruct (IH c Hs) as (q & d' & Heq & Hd'). exists (String d q), d'. by rewrite string_app_cons, <- Heq.
Qed.

Lemma IsMatchRegex_numbered s :
  no_byte newline s = true ->
  exists b, IsMatchRegex ".+[0-9]+$" s = Some b /\ (b = true <-> ends_in_digit s).
Proof.
  intros Hn. unfold IsMatchRegex.
  replace (MustCompile ".+[0-9]+$") with (Some (Cat (Plus AnyChar) (Cat (Plus Digit) (Cat Eol Eps))))
    by (by vm_compute).
  cbn [mbind option_bind]. eexists. split; [reflexivity|]. unfold MatchString. rewrite search_spec. split.
  - intros (a & b & st' & s' & -> & Hm). unfold Plus, Digit in Hm. re_inv.
    match goal with H : re_match (Star AnyChar) _ ?x _ _ |- _ => apply re_match_suffix in H as [m ->] end.
    match goal with H : re_match (Star (Cls _ _)) _ ?t _ "" |- _ => apply star_digits in H as Ht end.
    match goal with H : in_class _ _ ?d = true |- context [String ?d ?t] =>
      destruct (all_digits_last d t) as (q & d' & Heq & Hd'); [by apply andb_true_iff|rewrite Heq] end.
    match goal with |- context [String ?c (m +:+ _)] => exists (a +:+ String c m +:+ q), d' end.
    split_and!; [|by destruct a|done]. by rewrite !string_app_assoc, string_app_cons.
  - intros (q & d & -> & Hq & Hd). destruct q as [|c q]; [done|].
    rewrite no_byte_app in Hn. apply andb_true_iff in Hn as [Hn _]. cbn [no_byte] in Hn.
    rewrite andb_true_iff, negb_true_iff, bool_decide_eq_false in Hn. destruct Hn as [Hc Hn].
    destruct (any_star false q (String d "") Hn) as [st1 Hany].
    exists "", (String c q +:+ String d ""), false, "". split; [done|]. rewrite string_app_cons.
    eapply m_cat; [eapply m_cat; [by apply m_any|exact Hany]|].
    eapply m_cat; [eapply m_cat; [by apply m_cls|apply m_star_nil]|]. eapply m_cat; [apply m_eol|apply m_eps].
Qed.
