(* ===== verification/Util.v ===== *)
(** * pkg/util

    String slices, truth values, integer parsing, the file descriptor sets handed to
    select(2), and their basic laws. *)

From Stdlib Require Import ZArith Ascii Lia.
From stdpp Require Import base list strings numbers option.
From S2P Require Import Prelude GoStrings Md5 Regex.

Local Open Scope string_scope.

(** ** util.go *)

Definition truthyValues : list string := ["1"; "YES"; "TRUE"; "OK"].
Definition CheckTruthy (truth : string) : bool :=
  bool_decide (ToUpper truth ∈ truthyValues).

Definition falsyValues : list string := ["0"; "NO"; "FALSE"; "BLANK"].
Definition CheckFalsy (falsy : string) : bool :=
  let falsy := if decide (String.length falsy = 0) then "blank" else falsy in
  bool_decide (ToUpper falsy ∈ falsyValues).

(** CheckErr calls its handler with the message of a non-nil error. *)
Definition CheckErr {A} (err : option string) (handleErr : string -> A) : option A :=
  match err with None => None | Some e => Some (handleErr e) end.

Definition StringToInt32 (val : string) : string + Z :=
  if decide (String.length val = 0) then inl "Nil value to convert"
  else match ParseInt val 32 with
       | None => inl "strconv.ParseInt"
       | Some n => inr n
       end.

(** StrToInt32 drops the error. *)
Definition StrToInt32 (val : string) : option Z :=
  match StringToInt32 val with inr n => Some n | inl _ => None end.

Definition StateStatus (state : bool) : string :=
  if state then "enable" else "disable".

(** ** strutil.go *)

Fixpoint Contains (s : list string) (k : string) : bool :=
  match s with
  | [] => false
  | e :: s => if decide (e = k) then true else Contains s k
  end.

Fixpoint ContainsIgnoredCase (s : list string) (k : string) : bool :=
  match s with
  | [] => false
  | e :: s => if EqualFold e k then true else ContainsIgnoredCase s k
  end.

Fixpoint MatchIgnoredCase (keys : list string) (s : string) : bool :=
  match keys with
  | [] => false
  | k :: keys => if StrContains (ToLower s) (ToLower k) then true else MatchIgnoredCase keys s
  end.

Fixpoint RemoveString (slice : list string) (s : string) : list string :=
  match slice with
  | [] => []
  | item :: slice => if decide (item <> s) then item :: RemoveString slice s else RemoveString slice s
  end.

(** The loop of AddUniqueStringtoSlice: the flag after the last iteration. *)
Fixpoint shouldAppend (flag : bool) (names : list string) (name : string) : bool :=
  match names with
  | [] => flag
  | n :: names => if decide (n = name) then false else shouldAppend true names name
  end.

Definition AddUniqueStringtoSlice (names : list string) (name : string) : list string :=
  if decide (length names = 0) then (names ++ [name])%list
  else if shouldAppend false names name then (names ++ [name])%list else names.

(** ** fdutil.go

    A syscall.FdSet is sixteen 64-bit words, kept as bit patterns.  An index outside
    the array panics ([None]). *)

Notation FdSet := (list Z) (only parsing).
Definition FdSet_zero : FdSet := replicate 16 0%Z.

Definition fd_bit (i : Z) : Z := Z.shiftl 1 (i mod 64).

(** i/64, rounded towards zero; a negative index panics *)
Definition fd_index (i : Z) : option nat := if decide (0 <= Z.quot i 64)%Z then Some (Z.to_nat (Z.quot i 64)) else None.

Definition fd_word (p : FdSet) (i : Z) : option Z := k ← fd_index i; p !! k.

Definition FD_SET (p : FdSet) (i : Z) : option FdSet :=
  k ← fd_index i; w ← p !! k; Some (<[k := Z.lor w (fd_bit i)]> p).

Definition FD_ISSET (p : FdSet) (i : Z) : option bool :=
  w ← fd_word p i; Some (negb (Z.land w (fd_bit i) =? 0)%Z).

Definition FD_ZERO (p : FdSet) : FdSet := map (fun _ => 0%Z) p.

(** ** Laws *)

Lemma Contains_elem s k : Contains s k = true <-> k ∈ s.
Proof.
  induction s as [|e s IH]; cbn; [set_solver|].
  destruct (decide (e = k)) as [->|]; [|rewrite IH]; set_solver.
Qed.

Lemma Contains_elem_false s k : Contains s k = false <-> k ∉ s.
Proof. rewrite <- not_true_iff_false, Contains_elem. done. Qed.

Lemma ContainsIgnoredCase_iff s k :
  ContainsIgnoredCase s k = true <-> exists e, e ∈ s /\ ToLower e = ToLower k.
Proof.
  induction s as [|e s IH]; cbn; [set_solver|].
  unfold EqualFold. case_bool_decide; [|rewrite IH]; set_solver.
Qed.

Lemma MatchIgnoredCase_iff keys s :
  MatchIgnoredCase keys s = true <->
  exists k a b, k ∈ keys /\ ToLower s = a +:+ ToLower k +:+ b.
Proof.
  induction keys as [|k keys IH]; cbn; [set_solver|].
  destruct (StrContains _ _) eqn:Hc.
  - apply StrContains_iff in Hc as (a & b & Hs). split; [|done]. intros _. exists k, a, b. set_solver.
  - rewrite IH. split; intros (k' & a & b & Hk & Hs); exists k', a, b; [set_solver|].
    split; [|done]. apply elem_of_cons in Hk as [->|Hk]; [|done].
    rewrite (proj2 (StrContains_iff _ _)) in Hc; [done|by exists a, b].
Qed.

Lemma RemoveString_filter slice s : RemoveString slice s = filter (fun x => x <> s) slice.
Proof.
  induction slice as [|x l IH]; cbn; [done|]. rewrite IH.
  unfold filter. cbn. destruct (decide (x <> s)); done.
Qed.

Lemma elem_of_RemoveString slice s x : x ∈ RemoveString slice s <-> x ∈ slice /\ x <> s.
Proof. rewrite RemoveString_filter, list_elem_of_filter. tauto. Qed.

Lemma RemoveString_id slice s : s ∉ slice -> RemoveString slice s = slice.
Proof.
  induction slice as [|x l IH]; intros Hs; cbn; [done|].
  rewrite decide_True, IH by set_solver. done.
Qed.

Lemma shouldAppend_spec names name :
  names <> [] -> shouldAppend false names name = negb (Contains names name).
Proof.
  assert (H : forall l, shouldAppend true l name = negb (Contains l name)).
  { induction l; cbn; [done|]. by case_decide. }
  destruct names as [|n names]; [done|]. intros _. cbn. case_decide; [done|]. apply H.
Qed.

Lemma AddUniqueStringtoSlice_eq names name :
  AddUniqueStringtoSlice names name =
  if decide (name ∈ names) then names else (names ++ [name])%list.
Proof.
  unfold AddUniqueStringtoSlice. destruct names as [|n l]; [done|].
  rewrite decide_False by done. rewrite shouldAppend_spec by done.
  destruct (Contains (n :: l) name) eqn:Hc.
  - apply Contains_elem in Hc. by rewrite decide_True.
  - apply Contains_elem_false in Hc. by rewrite decide_False.
Qed.

Lemma AddUniqueStringtoSlice_NoDup names name :
  NoDup names -> NoDup (AddUniqueStringtoSlice names name).
Proof.
  rewrite AddUniqueStringtoSlice_eq. case_decide; [done|]. intros Hn.
  apply list.NoDup_app. repeat split; [done|set_solver|apply NoDup_singleton].
Qed.

Lemma elem_of_AddUnique names name x :
  x ∈ AddUniqueStringtoSlice names name <-> x ∈ names \/ x = name.
Proof. rewrite AddUniqueStringtoSlice_eq. case_decide; set_solver. Qed.

(** No word counts as both true and false. *)
Lemma truthy_not_falsy s : CheckTruthy s = true -> CheckFalsy s = false.
Proof.
  unfold CheckTruthy, CheckFalsy. rewrite bool_decide_eq_true, bool_decide_eq_false.
  destruct s as [|c s]; [set_solver|]. rewrite decide_False by done.
  intros Ht. generalize dependent (ToUpper (String c s)). intros t Ht.
  unfold truthyValues, falsyValues in *. set_solver.
Qed.

Lemma land_pow2_testbit w k :
  (0 <= k)%Z -> negb (Z.land w (Z.shiftl 1 k) =? 0)%Z = Z.testbit w k.
Proof.
  intros Hk. rewrite Z.shiftl_1_l. destruct (Z.testbit w k) eqn:Ht.
  - apply negb_true_iff, Z.eqb_neq. intros H0.
    assert (Z.testbit (Z.land w (2 ^ k)) k = false) as Hf by by rewrite H0, Z.bits_0.
    by rewrite Z.land_spec, Ht, Z.pow2_bits_true in Hf by done.
  - apply negb_false_iff, Z.eqb_eq, Z.bits_inj'. intros j Hj.
    rewrite Z.land_spec, Z.bits_0, Z.pow2_bits_eqb by done.
    destruct (Z.eqb_spec k j) as [<-|]; [by rewrite Ht|by rewrite andb_false_r].
Qed.

Lemma FD_ISSET_testbit p i :
  FD_ISSET p i = (w ← fd_word p i; Some (Z.testbit w (i mod 64))).
Proof.
  unfold FD_ISSET, fd_bit. destruct (fd_word p i); cbn; [|done].
  rewrite land_pow2_testbit; [done|]. apply Z.mod_pos_bound. lia.
Qed.

Lemma fd_index_nonneg i : (0 <= i)%Z -> fd_index i = Some (Z.to_nat (i / 64)).
Proof.
  intros Hi. unfold fd_index. rewrite Z.quot_div_nonneg by lia. rewrite decide_True; [done|]. apply Z.div_pos; lia.
Qed.

(** Setting a descriptor sets that one and no other. *)
Lemma FD_ISSET_SET p q i j :
  FD_SET p i = Some q -> (0 <= i)%Z -> (0 <= j)%Z ->
  FD_ISSET q j = if decide (i = j) then Some true else FD_ISSET p j.
Proof.
  unfold FD_SET. intros Hset Hi Hj. rewrite !FD_ISSET_testbit. unfold fd_word.
  rewrite fd_index_nonneg in Hset by done. rewrite fd_index_nonneg by done. cbn in *.
  destruct (p !! Z.to_nat (i / 64)) as [w|] eqn:Hw; [|done]. injection Hset as <-.
  assert (Hlt : Z.to_nat (i / 64) < length p) by (by apply lookup_lt_is_Some; eexists).
  assert (0 <= i mod 64 < 64)%Z by (apply Z.mod_pos_bound; lia).
  assert (0 <= j mod 64 < 64)%Z by (apply Z.mod_pos_bound; lia).
  destruct (decide (i / 64 = j / 64)%Z) as [Hdiv|Hdiv].
  - rewrite <- Hdiv, list_lookup_insert_eq, Hw by done. cbn.
    rewrite Z.lor_spec. unfold fd_bit. rewrite Z.shiftl_1_l, Z.pow2_bits_eqb by lia.
    case_decide as Hij.
    + subst j. by rewrite Z.eqb_refl, orb_true_r.
    + destruct (Z.eqb_spec (i mod 64) (j mod 64)) as [Hm|]; [|by rewrite orb_false_r].
      destruct Hij. rewrite (Z.div_mod i 64), (Z.div_mod j 64) by lia. congruence.
  - rewrite list_lookup_insert_ne.
    + rewrite decide_False by naive_solver. done.
    + intros Heq. apply Hdiv. apply Z2Nat.inj in Heq; [done|apply Z.div_pos; lia..].
Qed.
