(* ===== verification/Types.v ===== *)
(** * Data

    The internal representation of a block device (package blockdevice), the API
    objects (package api/v1alpha1) and the parts of the Kubernetes objects the sources
    read or write.  Field names are those of the Go structs; a field whose name is
    already taken in its module carries a prefix.  Integers are [Z] with their Go width
    in the comment; an empty record is the zero value of the struct. *)

From Stdlib Require Import ZArith.
From stdpp Require Import base list strings gmap.
From S2P Require Import Prelude.

Local Open Scope string_scope.
Local Open Scope Z_scope.

(** A Go map from strings to strings.  Where the difference between a nil and an empty
    map is visible the field is an [option]. *)
Notation strmap := (gmap string string).

(** m[k] on a possibly nil map; the zero value when the key is absent *)
Definition map_get (m : option strmap) (k : string) : string :=
  match m with Some m => default "" (m !! k) | None => "" end.

(** v, ok := m[k] *)
Definition map_lookup (m : option strmap) (k : string) : option string :=
  m ≫= fun m => m !! k.

(** ** Errors

    A Go error is one of the kinds the sources distinguish, or any other error with
    its message. *)
Inductive err :=
  | ErrNotFound
  | ErrAlreadyExists
  | ErrConflict
  | ErrNeedRescan
  | Err (msg : string).
#[global] Instance err_eq_dec : EqDecision err.
Proof. solve_decision. Defined.

(** A call that returns a value and an error: [inl] for a non-nil error. *)
Notation res A := (err + A)%type.

Definition IsNotFound (e : err) : bool := bool_decide (e = ErrNotFound).
Definition IsAlreadyExists (e : err) : bool := bool_decide (e = ErrAlreadyExists).
Definition IsConflict (e : err) : bool := bool_decide (e = ErrConflict).

(** ** Package blockdevice *)

Module blockdevice.

Record IdentifierT := MkIdentifierT {
  UUID : string;
  SysPath : string;
  DevPath : string
}.
#[global] Instance eta_IdentifierT : Eta IdentifierT := fun r =>
  MkIdentifierT (UUID r) (SysPath r) (DevPath r).
#[global] Instance IdentifierT_eq_dec : EqDecision IdentifierT.
Proof. solve_decision. Defined.
Definition empty_IdentifierT : IdentifierT :=
  MkIdentifierT "" "" "".

Record FileSystemInformation := MkFileSystemInformation {
  FileSystemUUID : string;
  FileSystem : string;
  MountPoint : list string
}.
#[global] Instance eta_FileSystemInformation : Eta FileSystemInformation := fun r =>
  MkFileSystemInformation (FileSystemUUID r) (FileSystem r) (MountPoint r).
#[global] Instance FileSystemInformation_eq_dec : EqDecision FileSystemInformation.
Proof. solve_decision. Defined.
Definition empty_FileSystemInformation : FileSystemInformation :=
  MkFileSystemInformation "" "" [].

(** Storage : uint64 *)
Record CapacityInformation := MkCapacityInformation {
  Storage : Z
}.
#[global] Instance eta_CapacityInformation : Eta CapacityInformation := fun r =>
  MkCapacityInformation (Storage r).
#[global] Instance CapacityInformation_eq_dec : EqDecision CapacityInformation.
Proof. solve_decision. Defined.
Definition empty_CapacityInformation : CapacityInformation :=
  MkCapacityInformation 0.

(** the three sizes : uint32 *)
Record DeviceAttribute := MkDeviceAttribute {
  DeviceType : string;
  DriveType : string;
  IDType : string;
  PhysicalBlockSize : Z;
  LogicalBlockSize : Z;
  HardwareSectorSize : Z;
  WWN : string;
  Vendor : string;
  Model : string;
  Serial : string;
  FirmwareRevision : string;
  Compliance : string
}.
#[global] Instance eta_DeviceAttribute : Eta DeviceAttribute := fun r =>
  MkDeviceAttribute (DeviceType r) (DriveType r) (IDType r) (PhysicalBlockSize r) (LogicalBlockSize r) (HardwareSectorSize r) (WWN r) (Vendor r) (Model r) (Serial r) (FirmwareRevision r) (Compliance r).
#[global] Instance DeviceAttribute_eq_dec : EqDecision DeviceAttribute.
Proof. solve_decision. Defined.
Definition empty_DeviceAttribute : DeviceAttribute :=
  MkDeviceAttribute "" "" "" 0 0 0 "" "" "" "" "" "".

Record DevLink := MkDevLink {
  Kind : string;
  Links : list string
}.
#[global] Instance eta_DevLink : Eta DevLink := fun r =>
  MkDevLink (Kind r) (Links r).
#[global] Instance DevLink_eq_dec : EqDecision DevLink.
Proof. solve_decision. Defined.
Definition empty_DevLink : DevLink :=
  MkDevLink "" [].

(** temperatures : int16 *)
Record TemperatureInformation := MkTemperatureInformation {
  CurrentTemperatureDataValid : bool;
  LowestTemperatureDataValid : bool;
  HighestTemperatureDataValid : bool;
  CurrentTemperature : Z;
  LowestTemperature : Z;
  HighestTemperature : Z
}.
#[global] Instance eta_TemperatureInformation : Eta TemperatureInformation := fun r =>
  MkTemperatureInformation (CurrentTemperatureDataValid r) (LowestTemperatureDataValid r) (HighestTemperatureDataValid r) (CurrentTemperature r) (LowestTemperature r) (HighestTemperature r).
#[global] Instance TemperatureInformation_eq_dec : EqDecision TemperatureInformation.
Proof. solve_decision. Defined.
Definition empty_TemperatureInformation : TemperatureInformation :=
  MkTemperatureInformation false false false 0 0 0.

(** PartitionNumber : uint8 *)
Record PartitionInformation := MkPartitionInformation {
  PartitionNumber : Z;
  PartitionEntryUUID : string;
  PartitionTableUUID : string;
  PartitionTableType : string
}.
#[global] Instance eta_PartitionInformation : Eta PartitionInformation := fun r =>
  MkPartitionInformation (PartitionNumber r) (PartitionEntryUUID r) (PartitionTableUUID r) (PartitionTableType r).
#[global] Instance PartitionInformation_eq_dec : EqDecision PartitionInformation.
Proof. solve_decision. Defined.
Definition empty_PartitionInformation : PartitionInformation :=
  MkPartitionInformation 0 "" "" "".

Record DeviceMapperInformation := MkDeviceMapperInformation {
  DMUUID : string;
  DevMapperPath : string
}.
#[global] Instance eta_DeviceMapperInformation : Eta DeviceMapperInformation := fun r =>
  MkDeviceMapperInformation (DMUUID r) (DevMapperPath r).
#[global] Instance DeviceMapperInformation_eq_dec : EqDecision DeviceMapperInformation.
Proof. solve_decision. Defined.
Definition empty_DeviceMapperInformation : DeviceMapperInformation :=
  MkDeviceMapperInformation "" "".

Record DependentBlockDevices := MkDependentBlockDevices {
  Parent : string;
  Partitions : list string;
  Holders : list string;
  Slaves : list string
}.
#[global] Instance eta_DependentBlockDevices : Eta DependentBlockDevices := fun r =>
  MkDependentBlockDevices (Parent r) (Partitions r) (Holders r) (Slaves r).
#[global] Instance DependentBlockDevices_eq_dec : EqDecision DependentBlockDevices.
Proof. solve_decision. Defined.
Definition empty_DependentBlockDevices : DependentBlockDevices :=
  MkDependentBlockDevices "" [] [] [].

Record DeviceUsage := MkDeviceUsage {
  InUse : bool;
  UsedBy : string
}.
#[global] Instance eta_DeviceUsage : Eta DeviceUsage := fun r =>
  MkDeviceUsage (InUse r) (UsedBy r).
#[global] Instance DeviceUsage_eq_dec : EqDecision DeviceUsage.
Proof. solve_decision. Defined.
Definition empty_DeviceUsage : DeviceUsage :=
  MkDeviceUsage false "".

(** RotationRate : uint16, byte counts : uint64; RotationalLatency is the float64 of
    an integer and is kept as that integer, the two other float64 fields are carried
    unchanged and are kept as bit patterns *)
Record SMARTStats := MkSMARTStats {
  RotationRate : Z;
  RotationalLatency : Z;
  TemperatureInfo : TemperatureInformation;
  TotalBytesRead : Z;
  TotalBytesWritten : Z;
  UtilizationRate : Z;
  PercentEnduranceUsed : Z
}.
#[global] Instance eta_SMARTStats : Eta SMARTStats := fun r =>
  MkSMARTStats (RotationRate r) (RotationalLatency r) (TemperatureInfo r) (TotalBytesRead r) (TotalBytesWritten r) (UtilizationRate r) (PercentEnduranceUsed r).
#[global] Instance SMARTStats_eq_dec : EqDecision SMARTStats.
Proof. solve_decision. Defined.
Definition empty_SMARTStats : SMARTStats :=
  MkSMARTStats 0 0 empty_TemperatureInformation 0 0 0 0.

Record StatusT := MkStatusT {
  State : string;
  ClaimPhase : string
}.
#[global] Instance eta_StatusT : Eta StatusT := fun r =>
  MkStatusT (State r) (ClaimPhase r).
#[global] Instance StatusT_eq_dec : EqDecision StatusT.
Proof. solve_decision. Defined.
Definition empty_StatusT : StatusT :=
  MkStatusT "" "".

Record BlockDevice := MkBlockDevice {
  Identifier : IdentifierT;
  NodeAttributes : strmap;
  Labels : option strmap;
  FSInfo : FileSystemInformation;
  Capacity : CapacityInformation;
  DevLinks : list DevLink;
  DeviceAttributes : DeviceAttribute;
  DMInfo : DeviceMapperInformation;
  DevUse : DeviceUsage;
  PartitionInfo : PartitionInformation;
  DependentDevices : DependentBlockDevices;
  SMARTInfo : SMARTStats;
  Status : StatusT
}.
#[global] Instance eta_BlockDevice : Eta BlockDevice := fun r =>
  MkBlockDevice (Identifier r) (NodeAttributes r) (Labels r) (FSInfo r) (Capacity r) (DevLinks r) (DeviceAttributes r) (DMInfo r) (DevUse r) (PartitionInfo r) (DependentDevices r) (SMARTInfo r) (Status r).
#[global] Instance BlockDevice_eq_dec : EqDecision BlockDevice.
Proof. solve_decision. Defined.
Definition empty_BlockDevice : BlockDevice :=
  MkBlockDevice empty_IdentifierT ∅ None empty_FileSystemInformation empty_CapacityInformation [] empty_DeviceAttribute empty_DeviceMapperInformation empty_DeviceUsage empty_PartitionInformation empty_DependentBlockDevices empty_SMARTStats empty_StatusT.

(** NodeAttribute keys *)
Definition HostName := "hostname".
Definition NodeName := "nodename".

Definition SparseBlockDeviceType := "sparse".
Definition BlockDeviceType := "blockdevice".
Definition BlockDevicePrefix := "blockdevice-".
Definition BlockDeviceTypeDisk := "disk".
Definition BlockDeviceTypePartition := "partition".
Definition BlockDeviceTypeLoop := "loop".
Definition BlockDeviceTypeDMDevice := "dm".
Definition BlockDeviceTypeLVM := "lvm".
Definition BlockDeviceTypeCrypt := "crypt".
Definition BlockDeviceTypeMultiPath := "mpath".

Definition DeviceMapperDeviceTypes : list string :=
  [BlockDeviceTypeDMDevice; BlockDeviceTypeLVM; BlockDeviceTypeCrypt; BlockDeviceTypeMultiPath].

Definition DriveTypeHDD := "HDD".
Definition DriveTypeSSD := "SSD".
Definition DriveTypeUnknown := "Unknown".

(** Values of Status.State *)
Definition Active := "Active".
Definition Inactive := "Inactive".
Definition Unknown := "Unknown".

(** StorageEngine *)
Definition CStor := "cstor".
Definition ZFSLocalPV := "zfs-localpv".
Definition Mayastor := "mayastor".
Definition LocalPV := "localpv".
Definition Jiva := "jiva".

(** Shorthands for the embedded and nested fields the sources reach directly. *)
Definition uuid_of (bd : BlockDevice) : string := UUID (Identifier bd).
Definition devpath (bd : BlockDevice) : string := DevPath (Identifier bd).
Definition syspath (bd : BlockDevice) : string := SysPath (Identifier bd).
Definition devtype (bd : BlockDevice) : string := DeviceType (DeviceAttributes bd).
Definition set_uuid (u : string) (bd : BlockDevice) : BlockDevice :=
  bd <| Identifier ::= fun i => i <| UUID := u |> |>.

End blockdevice.

(** ** Kubernetes metadata *)

Module metav1.

Record TypeMetaT := MkTypeMetaT {
  Kind : string;
  APIVersion : string
}.
#[global] Instance eta_TypeMetaT : Eta TypeMetaT := fun r =>
  MkTypeMetaT (Kind r) (APIVersion r).
#[global] Instance TypeMetaT_eq_dec : EqDecision TypeMetaT.
Proof. solve_decision. Defined.
Definition empty_TypeMetaT : TypeMetaT :=
  MkTypeMetaT "" "".

(** A resource version is opaque to clients; 0 stands for the empty one.  An object whose
    deletion timestamp is not zero is being deleted. *)
Record ObjectMetaT := MkObjectMetaT {
  Name : string;
  Namespace : string;
  UID : string;
  ResourceVersion : N;
  Labels : option strmap;
  Annotations : option strmap;
  Finalizers : list string;
  DeletionTimestamp : option Z
}.
#[global] Instance eta_ObjectMetaT : Eta ObjectMetaT := fun r =>
  MkObjectMetaT (Name r) (Namespace r) (UID r) (ResourceVersion r) (Labels r) (Annotations r) (Finalizers r) (DeletionTimestamp r).
#[global] Instance ObjectMetaT_eq_dec : EqDecision ObjectMetaT.
Proof. solve_decision. Defined.
Definition empty_ObjectMetaT : ObjectMetaT :=
  MkObjectMetaT "" "" "" 0%N None None [] None.

Record ObjectReference := MkObjectReference {
  RefKind : string;
  RefNamespace : string;
  RefName : string;
  RefUID : string;
  RefAPIVersion : string;
  RefResourceVersion : N
}.
#[global] Instance eta_ObjectReference : Eta ObjectReference := fun r =>
  MkObjectReference (RefKind r) (RefNamespace r) (RefName r) (RefUID r) (RefAPIVersion r) (RefResourceVersion r).
#[global] Instance ObjectReference_eq_dec : EqDecision ObjectReference.
Proof. solve_decision. Defined.
Definition empty_ObjectReference : ObjectReference :=
  MkObjectReference "" "" "" "" "" 0%N.

(** metav1.LabelSelectorRequirement and metav1.LabelSelector *)
Record LabelSelectorRequirement := MkLabelSelectorRequirement {
  Key : string;
  Operator : string;
  Values : list string
}.
#[global] Instance eta_LabelSelectorRequirement : Eta LabelSelectorRequirement := fun r =>
  MkLabelSelectorRequirement (Key r) (Operator r) (Values r).
#[global] Instance LabelSelectorRequirement_eq_dec : EqDecision LabelSelectorRequirement.
Proof. solve_decision. Defined.
Definition empty_LabelSelectorRequirement : LabelSelectorRequirement :=
  MkLabelSelectorRequirement "" "" [].

Record LabelSelector := MkLabelSelector {
  MatchLabels : option strmap;
  MatchExpressions : list LabelSelectorRequirement
}.
#[global] Instance eta_LabelSelector : Eta LabelSelector := fun r =>
  MkLabelSelector (MatchLabels r) (MatchExpressions r).
#[global] Instance LabelSelector_eq_dec : EqDecision LabelSelector.
Proof. solve_decision. Defined.
Definition empty_LabelSelector : LabelSelector :=
  MkLabelSelector None [].

End metav1.

(** ** Package api/v1alpha1 *)

Module apis.
Export metav1.

Record NodeAttribute := MkNodeAttribute {
  NodeName : string
}.
#[global] Instance eta_NodeAttribute : Eta NodeAttribute := fun r =>
  MkNodeAttribute (NodeName r).
#[global] Instance NodeAttribute_eq_dec : EqDecision NodeAttribute.
Proof. solve_decision. Defined.
Definition empty_NodeAttribute : NodeAttribute :=
  MkNodeAttribute "".

(** Storage : uint64, the others : uint32 *)
Record DeviceCapacity := MkDeviceCapacity {
  Storage : Z;
  PhysicalSectorSize : Z;
  LogicalSectorSize : Z
}.
#[global] Instance eta_DeviceCapacity : Eta DeviceCapacity := fun r =>
  MkDeviceCapacity (Storage r) (PhysicalSectorSize r) (LogicalSectorSize r).
#[global] Instance DeviceCapacity_eq_dec : EqDecision DeviceCapacity.
Proof. solve_decision. Defined.
Definition empty_DeviceCapacity : DeviceCapacity :=
  MkDeviceCapacity 0 0 0.

Record DeviceDetails := MkDeviceDetails {
  DeviceType : string;
  DriveType : string;
  LogicalBlockSize : Z;
  PhysicalBlockSize : Z;
  HardwareSectorSize : Z;
  Model : string;
  Compliance : string;
  Serial : string;
  Vendor : string;
  FirmwareRevision : string
}.
#[global] Instance eta_DeviceDetails : Eta DeviceDetails := fun r =>
  MkDeviceDetails (DeviceType r) (DriveType r) (LogicalBlockSize r) (PhysicalBlockSize r) (HardwareSectorSize r) (Model r) (Compliance r) (Serial r) (Vendor r) (FirmwareRevision r).
#[global] Instance DeviceDetails_eq_dec : EqDecision DeviceDetails.
Proof. solve_decision. Defined.
Definition empty_DeviceDetails : DeviceDetails :=
  MkDeviceDetails "" "" 0 0 0 "" "" "" "" "".

Record FileSystemInfo := MkFileSystemInfo {
  FSType : string;
  Mountpoint : string
}.
#[global] Instance eta_FileSystemInfo : Eta FileSystemInfo := fun r =>
  MkFileSystemInfo (FSType r) (Mountpoint r).
#[global] Instance FileSystemInfo_eq_dec : EqDecision FileSystemInfo.
Proof. solve_decision. Defined.
Definition empty_FileSystemInfo : FileSystemInfo :=
  MkFileSystemInfo "" "".

Record DeviceDevLink := MkDeviceDevLink {
  LinkKind : string;
  Links : list string
}.
#[global] Instance eta_DeviceDevLink : Eta DeviceDevLink := fun r =>
  MkDeviceDevLink (LinkKind r) (Links r).
#[global] Instance DeviceDevLink_eq_dec : EqDecision DeviceDevLink.
Proof. solve_decision. Defined.
Definition empty_DeviceDevLink : DeviceDevLink :=
  MkDeviceDevLink "" [].

Record DeviceSpec := MkDeviceSpec {
  AggregateDevice : string;
  Capacity : DeviceCapacity;
  ClaimRef : option ObjectReference;
  Details : DeviceDetails;
  DevLinks : list DeviceDevLink;
  FileSystem : FileSystemInfo;
  NodeAttributes : NodeAttribute;
  ParentDevice : string;
  Partitioned : string;
  Path : string
}.
#[global] Instance eta_DeviceSpec : Eta DeviceSpec := fun r =>
  MkDeviceSpec (AggregateDevice r) (Capacity r) (ClaimRef r) (Details r) (DevLinks r) (FileSystem r) (NodeAttributes r) (ParentDevice r) (Partitioned r) (Path r).
#[global] Instance DeviceSpec_eq_dec : EqDecision DeviceSpec.
Proof. solve_decision. Defined.
Definition empty_DeviceSpec : DeviceSpec :=
  MkDeviceSpec "" empty_DeviceCapacity None empty_DeviceDetails [] empty_FileSystemInfo empty_NodeAttribute "" "" "".

Record DeviceStatus := MkDeviceStatus {
  ClaimState : string;
  State : string
}.
#[global] Instance eta_DeviceStatus : Eta DeviceStatus := fun r =>
  MkDeviceStatus (ClaimState r) (State r).
#[global] Instance DeviceStatus_eq_dec : EqDecision DeviceStatus.
Proof. solve_decision. Defined.
Definition empty_DeviceStatus : DeviceStatus :=
  MkDeviceStatus "" "".

Record BlockDevice := MkBlockDevice {
  TypeMeta : TypeMetaT;
  ObjectMeta : ObjectMetaT;
  Spec : DeviceSpec;
  Status : DeviceStatus
}.
#[global] Instance eta_BlockDevice : Eta BlockDevice := fun r =>
  MkBlockDevice (TypeMeta r) (ObjectMeta r) (Spec r) (Status r).
#[global] Instance BlockDevice_eq_dec : EqDecision BlockDevice.
Proof. solve_decision. Defined.
Definition empty_BlockDevice : BlockDevice :=
  MkBlockDevice empty_TypeMetaT empty_ObjectMetaT empty_DeviceSpec empty_DeviceStatus.

Definition BlockDeviceUnclaimed := "Unclaimed".
Definition BlockDeviceReleased := "Released".
Definition BlockDeviceClaimed := "Claimed".
Definition BlockDeviceActive := "Active".
Definition BlockDeviceInactive := "Inactive".
Definition BlockDeviceUnknown := "Unknown".

Record DeviceClaimDetails := MkDeviceClaimDetails {
  BlockVolumeMode : string;
  DeviceFormat : string;
  AllowPartition : bool
}.
#[global] Instance eta_DeviceClaimDetails : Eta DeviceClaimDetails := fun r =>
  MkDeviceClaimDetails (BlockVolumeMode r) (DeviceFormat r) (AllowPartition r).
#[global] Instance DeviceClaimDetails_eq_dec : EqDecision DeviceClaimDetails.
Proof. solve_decision. Defined.
Definition empty_DeviceClaimDetails : DeviceClaimDetails :=
  MkDeviceClaimDetails "" "" false.

Record BlockDeviceNodeAttributes := MkBlockDeviceNodeAttributes {
  BDNodeName : string;
  BDHostName : string
}.
#[global] Instance eta_BlockDeviceNodeAttributes : Eta BlockDeviceNodeAttributes := fun r =>
  MkBlockDeviceNodeAttributes (BDNodeName r) (BDHostName r).
#[global] Instance BlockDeviceNodeAttributes_eq_dec : EqDecision BlockDeviceNodeAttributes.
Proof. solve_decision. Defined.
Definition empty_BlockDeviceNodeAttributes : BlockDeviceNodeAttributes :=
  MkBlockDeviceNodeAttributes "" "".

(** A v1.ResourceList maps a resource name to a quantity.  The sources read a quantity
    only through AsInt64, which fails when the value does not fit; a quantity is kept
    as that result. *)
Record DeviceClaimSpec := MkDeviceClaimSpec {
  Selector : option LabelSelector;
  Requests : gmap string (option Z);
  ClaimDeviceType : string;
  ClaimHostName : string;
  ClaimDetails : DeviceClaimDetails;
  BlockDeviceName : string;
  ClaimNodeAttributes : BlockDeviceNodeAttributes
}.
#[global] Instance eta_DeviceClaimSpec : Eta DeviceClaimSpec := fun r =>
  MkDeviceClaimSpec (Selector r) (Requests r) (ClaimDeviceType r) (ClaimHostName r) (ClaimDetails r) (BlockDeviceName r) (ClaimNodeAttributes r).
#[global] Instance DeviceClaimSpec_eq_dec : EqDecision DeviceClaimSpec.
Proof. solve_decision. Defined.
Definition empty_DeviceClaimSpec : DeviceClaimSpec :=
  MkDeviceClaimSpec None ∅ "" "" empty_DeviceClaimDetails "" empty_BlockDeviceNodeAttributes.

Record BlockDeviceClaim := MkBlockDeviceClaim {
  CTypeMeta : TypeMetaT;
  CObjectMeta : ObjectMetaT;
  CSpec : DeviceClaimSpec;
  Phase : string
}.
#[global] Instance eta_BlockDeviceClaim : Eta BlockDeviceClaim := fun r =>
  MkBlockDeviceClaim (CTypeMeta r) (CObjectMeta r) (CSpec r) (Phase r).
#[global] Instance BlockDeviceClaim_eq_dec : EqDecision BlockDeviceClaim.
Proof. solve_decision. Defined.
Definition empty_BlockDeviceClaim : BlockDeviceClaim :=
  MkBlockDeviceClaim empty_TypeMetaT empty_ObjectMetaT empty_DeviceClaimSpec "".

Definition ResourceStorage := "storage".
Definition VolumeModeBlock := "Block".
Definition VolumeModeFileSystem := "FileSystem".
Definition BlockDeviceClaimStatusEmpty := "".
Definition BlockDeviceClaimStatusPending := "Pending".
Definition BlockDeviceClaimStatusInvalidCapacity := "Invalid Capacity Request".
Definition BlockDeviceClaimStatusDone := "Bound".

(** Shorthands *)
Definition bd_name (b : BlockDevice) : string := Name (ObjectMeta b).
Definition bd_ns (b : BlockDevice) : string := Namespace (ObjectMeta b).
Definition bd_key (b : BlockDevice) : string * string := (bd_ns b, bd_name b).
Definition bd_rv (b : BlockDevice) : N := ResourceVersion (ObjectMeta b).
Definition bd_claimstate (b : BlockDevice) : string := ClaimState (Status b).
Definition bd_state (b : BlockDevice) : string := State (Status b).
Definition bd_claimref (b : BlockDevice) : option ObjectReference := ClaimRef (Spec b).
Definition bd_labels (b : BlockDevice) : option strmap := Labels (ObjectMeta b).
Definition bd_annotations (b : BlockDevice) : option strmap := Annotations (ObjectMeta b).
Definition bdc_name (c : BlockDeviceClaim) : string := Name (CObjectMeta c).
Definition bdc_key (c : BlockDeviceClaim) : string * string := (Namespace (CObjectMeta c), bdc_name c).
Definition bdc_rv (c : BlockDeviceClaim) : N := ResourceVersion (CObjectMeta c).
Definition bdc_finalizers (c : BlockDeviceClaim) : list string := Finalizers (CObjectMeta c).

End apis.

(** ** Jobs and nodes *)

Module batchv1.
Export metav1.

Record Toleration := MkToleration {
  TolKey : string;
  TolOperator : string;
  TolValue : string;
  TolEffect : string
}.
#[global] Instance eta_Toleration : Eta Toleration := fun r =>
  MkToleration (TolKey r) (TolOperator r) (TolValue r) (TolEffect r).
#[global] Instance Toleration_eq_dec : EqDecision Toleration.
Proof. solve_decision. Defined.
Definition empty_Toleration : Toleration :=
  MkToleration "" "" "" "".

Record Taint := MkTaint {
  TaintKey : string;
  TaintValue : string;
  TaintEffect : string
}.
#[global] Instance eta_Taint : Eta Taint := fun r =>
  MkTaint (TaintKey r) (TaintValue r) (TaintEffect r).
#[global] Instance Taint_eq_dec : EqDecision Taint.
Proof. solve_decision. Defined.
Definition empty_Taint : Taint :=
  MkTaint "" "" "".

Record VolumeMount := MkVolumeMount {
  MountVolume : string;
  MountPath : string
}.
#[global] Instance eta_VolumeMount : Eta VolumeMount := fun r =>
  MkVolumeMount (MountVolume r) (MountPath r).
#[global] Instance VolumeMount_eq_dec : EqDecision VolumeMount.
Proof. solve_decision. Defined.
Definition empty_VolumeMount : VolumeMount :=
  MkVolumeMount "" "".

Record Volume := MkVolume {
  VolumeName : string;
  HostPath : string
}.
#[global] Instance eta_Volume : Eta Volume := fun r =>
  MkVolume (VolumeName r) (HostPath r).
#[global] Instance Volume_eq_dec : EqDecision Volume.
Proof. solve_decision. Defined.
Definition empty_Volume : Volume :=
  MkVolume "" "".

Record Container := MkContainer {
  ContainerName : string;
  Image : string;
  Privileged : bool;
  Command : list string;
  Args : list string;
  VolumeMounts : list VolumeMount
}.
#[global] Instance eta_Container : Eta Container := fun r =>
  MkContainer (ContainerName r) (Image r) (Privileged r) (Command r) (Args r) (VolumeMounts r).
#[global] Instance Container_eq_dec : EqDecision Container.
Proof. solve_decision. Defined.
Definition empty_Container : Container :=
  MkContainer "" "" false [] [] [].

Record PodSpec := MkPodSpec {
  Volumes : list Volume;
  Tolerations : list Toleration;
  ServiceAccountName : string;
  Containers : list Container;
  NodeSelector : option strmap;
  ImagePullSecrets : list string;
  RestartPolicy : string
}.
#[global] Instance eta_PodSpec : Eta PodSpec := fun r =>
  MkPodSpec (Volumes r) (Tolerations r) (ServiceAccountName r) (Containers r) (NodeSelector r) (ImagePullSecrets r) (RestartPolicy r).
#[global] Instance PodSpec_eq_dec : EqDecision PodSpec.
Proof. solve_decision. Defined.
Definition empty_PodSpec : PodSpec :=
  MkPodSpec [] [] "" [] None [] "".

(** Succeeded : int32 of the job's status *)
Record Job := MkJob {
  JobMeta : ObjectMetaT;
  PodTemplate : PodSpec;
  Succeeded : Z
}.
#[global] Instance eta_Job : Eta Job := fun r =>
  MkJob (JobMeta r) (PodTemplate r) (Succeeded r).
#[global] Instance Job_eq_dec : EqDecision Job.
Proof. solve_decision. Defined.
Definition empty_Job : Job :=
  MkJob empty_ObjectMetaT empty_PodSpec 0.

Record Node := MkNode {
  NodeObjName : string;
  NodeLabels : option strmap;
  Taints : list Taint
}.
#[global] Instance eta_Node : Eta Node := fun r =>
  MkNode (NodeObjName r) (NodeLabels r) (Taints r).
#[global] Instance Node_eq_dec : EqDecision Node.
Proof. solve_decision. Defined.
Definition empty_Node : Node :=
  MkNode "" None [].

End batchv1.
