(* ===== verification/DeepCopy.v ===== *)
(** * api/v1alpha1: deep copies

    zz_generated.deepcopy.go: how resources are copied.  The rest of the development works
    with values; here a resource is what Go has, a structure with pointers, slices and maps in
    a shared memory, and the copies are shown to be independent of their originals, which is
    what makes the values of the other files adequate after a DeepCopy.

    The metadata of a resource is of apimachinery: its memory, its copying and the laws of
    that are assumptions of a section, [Copies] and [CopyLaws]. *)

From Stdlib Require Import ZArith.
From stdpp Require Import base list strings gmap.
From S2P Require Import Prelude Types.

Local Open Scope string_scope.

Notation loc := positive.

(** A value of Go type [A] in a memory [H]: what it denotes, unless a pointer dangles, the
    locations it reaches, and its copying *)
Class Copies (H A D : Type) := {
  den : H -> A -> option D;
  footprint : H -> A -> gset loc;
  DeepCopyInto : A -> H -> H * A
}.
Arguments den {H A D _} h a.
Arguments footprint {H A D _} h a.
Arguments DeepCopyInto {H A D _} a h.

Section Laws.
Context {C : Type}.
Notation heap := (gmap loc C).

(** [h2] has what [a] reaches in [h1]. *)
Definition agree (h1 h2 : heap) (ls : gset loc) : Prop := forall l, l ∈ ls -> h2 !! l = h1 !! l.

Class CopyLaws (A D : Type) `{Copies heap A D} : Prop := {
  copy_spec h a d h' a' :
    den h a = Some d -> DeepCopyInto a h = (h', a') ->
    h ⊆ h' /\ den h' a' = Some d /\ footprint h' a' ## dom h;
  den_local h1 h2 a d :
    den h1 a = Some d -> agree h1 h2 (footprint h1 a) -> den h2 a = Some d /\ footprint h2 a = footprint h1 a;
  footprint_dom h a d : den h a = Some d -> footprint h a ⊆ dom h
}.

Lemma agree_sub (h1 h2 : heap) ls : h1 ⊆ h2 -> ls ⊆ dom h1 -> agree h1 h2 ls.
Proof.
  intros Hsub Hls l Hl. apply Hls, elem_of_dom in Hl as [c Hc]. rewrite Hc. by eapply lookup_weaken.
Qed.

Lemma den_grows {A D} `{CopyLaws A D} h1 h2 a d :
  den h1 a = Some d -> h1 ⊆ h2 -> den h2 a = Some d /\ footprint h2 a = footprint h1 a.
Proof. intros Hd Hs. apply den_local; [done|]. apply agree_sub; [done|]. by eapply footprint_dom. Qed.

(** Writing through the copy leaves the original alone, and the other way round. *)
Lemma copy_isolated {A D} `{CopyLaws A D} h a d h' a' :
  den h a = Some d -> DeepCopyInto a h = (h', a') ->
  den h' a' = Some d /\ den h' a = Some d /\
  (forall h'', (forall l, l ∉ footprint h' a' -> h'' !! l = h' !! l) -> den h'' a = Some d) /\
  (forall h'', (forall l, l ∉ footprint h' a -> h'' !! l = h' !! l) -> den h'' a' = Some d).
Proof.
  intros Hd Hc. destruct (copy_spec _ _ _ _ _ Hd Hc) as (Hsub & Hd' & Hfresh).
  destruct (den_grows _ _ _ _ Hd Hsub) as [Hda Hfa]. pose proof (footprint_dom _ _ _ Hd) as Hdom.
  split_and!; [done|done| |].
  - intros h'' Hw. refine (proj1 (den_local h' h'' a d Hda _)). intros l Hl. apply Hw. rewrite Hfa in Hl. set_solver.
  - intros h'' Hw. refine (proj1 (den_local h' h'' a' d Hd' _)). intros l Hl. apply Hw. rewrite Hfa. set_solver.
Qed.

(** ** What the generated code is made of *)

(** A value without pointers: "*out = *in" *)
Definition flat_copies {A} : Copies heap A A := {|
  den _ a := Some a; footprint _ _ := ∅; DeepCopyInto a h := (h, a)
|}.
Lemma flat_laws {A} : CopyLaws A A (H := flat_copies).
Proof.
  split; cbn.
  - intros h a d h' a' [= ->] [= <- <-]. split_and!; [done|done|set_solver].
  - intros h1 h2 a d [= ->] _. done.
  - intros h a d _. set_solver.
Qed.

(** Two fields after each other *)
Global Instance pair_copies {A B DA DB} `{Copies heap A DA} `{Copies heap B DB} : Copies heap (A * B) (DA * DB) := {|
  den h p := match den h p.1, den h p.2 with Some a, Some b => Some (a, b) | _, _ => None end;
  footprint h p := footprint h p.1 ∪ footprint h p.2;
  DeepCopyInto p h :=
    let '(h, a) := DeepCopyInto p.1 h in
    let '(h, b) := DeepCopyInto p.2 h in
    (h, (a, b))
|}.
Global Instance pair_laws {A B DA DB} `{CopyLaws A DA} `{CopyLaws B DB} : CopyLaws (A * B) (DA * DB).
Proof.
  split; cbn.
  - intros h [a b] [da db] h2 [a' b']. cbn. destruct (den h a) as [xa|] eqn:Ha; [|done].
    destruct (den h b) as [xb|] eqn:Hb; [|done]. intros [= -> ->].
    destruct (DeepCopyInto a h) as [h1 a1] eqn:Hca. destruct (DeepCopyInto b h1) as [h3 b1] eqn:Hcb. intros [= -> -> ->].
    destruct (copy_spec _ _ _ _ _ Ha Hca) as (Hs1 & Hd1 & Hf1).
    destruct (den_grows _ _ _ _ Hb Hs1) as [Hb1 _]. destruct (copy_spec _ _ _ _ _ Hb1 Hcb) as (Hs2 & Hd2 & Hf2).
    destruct (den_grows _ _ _ _ Hd1 Hs2) as [Hd1' Hf1']. rewrite Hd1', Hd2, Hf1'. split_and!; [by etrans|done|].
    apply subseteq_dom in Hs1. set_solver.
  - intros h1 h2 [a b] [da db]. cbn. destruct (den h1 a) as [xa|] eqn:Ha; [|done].
    destruct (den h1 b) as [xb|] eqn:Hb; [|done]. intros [= -> ->] Hag.
    destruct (den_local h1 h2 a da Ha) as [-> ->]; [intros l Hl; apply Hag; set_solver|].
    destruct (den_local h1 h2 b db Hb) as [-> ->]; [intros l Hl; apply Hag; set_solver|]. done.
  - intros h [a b] [da db]. cbn. destruct (den h a) as [xa|] eqn:Ha; [|done].
    destruct (den h b) as [xb|] eqn:Hb; [|done]. intros _. apply footprint_dom in Ha, Hb. set_solver.
Qed.

(** The elements of a slice or the entries of a map *)
Fixpoint list_den {A D} `{Copies heap A D} (h : heap) (l : list A) : option (list D) :=
  match l with
  | [] => Some []
  | a :: l => match den h a, list_den h l with Some d, Some ds => Some (d :: ds) | _, _ => None end
  end.
Fixpoint list_copy {A D} `{Copies heap A D} (l : list A) (h : heap) : heap * list A :=
  match l with
  | [] => (h, [])
  | a :: l =>
      let '(h, a) := DeepCopyInto a h in
      let '(h, l) := list_copy l h in
      (h, a :: l)
  end.
Global Instance list_copies {A D} `{Copies heap A D} : Copies heap (list A) (list D) := {|
  den := list_den; footprint h l := ⋃ (map (footprint h) l); DeepCopyInto := list_copy
|}.
Global Instance list_laws {A D} `{CopyLaws A D} : CopyLaws (list A) (list D).
Proof.
  split.
  - intros h l. revert h. induction l as [|a l IH]; cbn; intros h d h' l' Hd Hc.
    { simplify_eq. cbn. split_and!; [done|done|set_solver]. }
    destruct (den h a) as [x|] eqn:Ha; [|done]. destruct (list_den h l) as [xs|] eqn:Hl; [|done].
    destruct (DeepCopyInto a h) as [h1 a1] eqn:Hca. destruct (list_copy l h1) as [h2 l1] eqn:Hcl. simplify_eq. cbn.
    destruct (copy_spec _ _ _ _ _ Ha Hca) as (Hs1 & Hd1 & Hf1).
    assert (list_den h1 l = Some xs) as Hl1.
    { clear -Hl Hs1 H0. revert xs Hl. induction l as [|b l IH]; cbn; intros xs; [done|].
      destruct (den h b) as [y|] eqn:Hb; [|done]. destruct (list_den h l) as [ys|]; [|done].
      destruct (den_grows _ _ _ _ Hb Hs1) as [-> _]. by rewrite (IH ys eq_refl). }
    destruct (IH _ _ _ _ Hl1 Hcl) as (Hs2 & Hd2 & Hf2). destruct (den_grows _ _ _ _ Hd1 Hs2) as [-> ->].
    cbn in Hd2, Hf2. rewrite Hd2. split_and!; [by etrans|done|]. apply subseteq_dom in Hs1. set_solver.
  - intros h1 h2 l. cbn. induction l as [|a l IH]; cbn; intros d Hd Hag; [done|].
    destruct (den h1 a) as [x|] eqn:Ha; [|done]. destruct (list_den h1 l) as [xs|]; [|done].
    destruct (den_local h1 h2 a x Ha) as [-> ->]; [intros k Hk; apply Hag; set_solver|].
    destruct (IH xs eq_refl) as [-> ->]; [intros k Hk; apply Hag; set_solver|]. done.
  - intros h l. cbn. induction l as [|a l IH]; cbn; intros d Hd; [set_solver|].
    destruct (den h a) as [x|] eqn:Ha; [|done]. destruct (list_den h l) as [xs|]; [|done].
    apply footprint_dom in Ha. specialize (IH xs eq_refl). set_solver.
Qed.

(** A structure of which some fields, [to r], are copied one by one and the others assigned *)
Lemma laws_via {R A D E} `{Copies heap R E} `{CopyLaws A D} (to : R -> A) (f : R -> D -> E) :
  (forall h r, den h r = f r <$> den h (to r)) ->
  (forall h r, footprint h r = footprint h (to r)) ->
  (forall h r h' r', DeepCopyInto r h = (h', r') -> DeepCopyInto (to r) h = (h', to r') /\ f r' = f r) ->
  CopyLaws R E.
Proof.
  intros Hden Hfoot Hcopy. split.
  - intros h r e h' r'. rewrite !Hden, Hfoot. intros (d & Hd & ->)%fmap_Some Hc. apply Hcopy in Hc as [Hc ->].
    destruct (copy_spec _ _ _ _ _ Hd Hc) as (? & -> & ?). done.
  - intros h1 h2 r e. rewrite !Hden, !Hfoot. intros (d & Hd & ->)%fmap_Some Hag.
    by destruct (den_local _ _ _ _ Hd Hag) as [-> ->].
  - intros h r e. rewrite Hden, Hfoot. intros (d & Hd & ->)%fmap_Some. by eapply footprint_dom.
Qed.

(** *** References *)

(** What can be stored at a location *)
Class Stored (A : Type) := { store : A -> C; load : C -> option A; load_store a : load (store a) = Some a }.

(** new(T), with the value that is then written there *)
Definition new {A} `{Stored A} (a : A) (h : heap) : heap * loc :=
  let l := fresh (dom h) in (<[l := store a]> h, l).

(** A reference of type [P]: nil, or a location and how the object there is read.  A
    reference in Go does not dangle; one that does here has no denotation. *)
Class Reference (P A : Type) `{Stored A} := {
  target : P -> option (loc * (C -> option A));
  nil_ : P;
  refer : loc -> A -> P;
  target_nil : target nil_ = None;
  target_refer l a : exists read, target (refer l a) = Some (l, read) /\ read (store a) = Some a
}.

Definition deref {P A} `{Reference P A} (h : heap) (p : P) : option (loc * option A) :=
  match target p with
  | None => None
  | Some (l, read) => Some (l, h !! l ≫= read)
  end.

Definition ref_den {P A D} `{Reference P A} `{Copies heap A D} (h : heap) (p : P) : option (option D) :=
  match deref h p with
  | None => Some None
  | Some (_, None) => None
  | Some (_, Some a) => Some <$> den h a
  end.
Definition ref_footprint {P A D} `{Reference P A} `{Copies heap A D} (h : heap) (p : P) : gset loc :=
  match deref h p with
  | None => ∅
  | Some (l, None) => {[ l ]}
  | Some (l, Some a) => {[ l ]} ∪ footprint h a
  end.
(** if in == nil { return nil }; out := new(T); in.DeepCopyInto(out); return out *)
Definition DeepCopy {P A D} `{Reference P A} `{Copies heap A D} (p : P) (h : heap) : heap * P :=
  match deref h p with
  | Some (_, Some a) =>
      let '(h, a) := DeepCopyInto a h in
      let '(h, l) := new a h in
      (h, refer l a)
  | _ => (h, nil_)
  end.
Definition ref_copies {P A D} `{Reference P A} `{Copies heap A D} : Copies heap P (option D) :=
  {| den := ref_den; footprint := ref_footprint; DeepCopyInto := DeepCopy |}.

Lemma ref_laws {P A D} `{Reference P A} `{CopyLaws A D} : CopyLaws P (option D) (H := ref_copies).
Proof.
  split; cbn; unfold ref_den, ref_footprint, DeepCopy, deref.
  - intros h p d h' p'. destruct (target p) as [[l read]|] eqn:Ht.
    2:{ intros [= <-] [= <- <-]. rewrite target_nil. split_and!; [done|done|set_solver]. }
    destruct (h !! l ≫= read) as [a|] eqn:Hl; [|done]. intros (x & Hx & ->)%fmap_Some.
    destruct (DeepCopyInto a h) as [h1 a1] eqn:Hc. cbn. intros [= <- <-].
    destruct (copy_spec _ _ _ _ _ Hx Hc) as (Hs & Hd & Hf).
    pose proof (is_fresh (dom h1)) as Hfr. set (k := fresh (dom h1)) in *.
    assert (h1 ⊆ <[k := store a1]> h1) as Hs1 by (apply insert_subseteq; by apply not_elem_of_dom).
    destruct (target_refer k a1) as (rd & -> & Hrd). rewrite lookup_insert_eq. cbn. rewrite Hrd.
    destruct (den_grows _ _ _ _ Hd Hs1) as [-> ->]. split_and!; [by etrans|done|].
    apply subseteq_dom in Hs. set_solver.
  - intros h1 h2 p d. destruct (target p) as [[l read]|]; [|done].
    destruct (h1 !! l ≫= read) as [a|] eqn:Hl; [|done]. intros (x & Hx & ->)%fmap_Some Hag.
    rewrite (Hag l) by set_solver. rewrite Hl.
    destruct (den_local h1 h2 a x Hx) as [-> ->]; [intros k Hk; apply Hag; set_solver|]. done.
  - intros h p d. destruct (target p) as [[l read]|]; [|set_solver].
    destruct (h !! l ≫= read) as [a|] eqn:Hl; [|done]. intros (x & Hx & ->)%fmap_Some.
    apply footprint_dom in Hx. assert (l ∈ dom h); [|set_solver].
    apply elem_of_dom. destruct (h !! l); [done|discriminate Hl].
Qed.
End Laws.

(** ** Pointers, slices and maps *)

Inductive pointer (A : Type) := Nil | Ref (l : loc).
Arguments Nil {A}.
Arguments Ref {A} l.

(** A slice is a window of an array, which others may share. *)
Inductive slice (A : Type) := NilSlice | Slice (array : loc) (off len : nat).
Arguments NilSlice {A}.
Arguments Slice {A} array off len.

(** A map has its entries in the order in which a range visits them. *)
Inductive gomap (A : Type) := NilMap | MapAt (l : loc).
Arguments NilMap {A}.
Arguments MapAt {A} l.

Definition window {A} (off len : nat) (xs : list A) : option (list A) :=
  if decide (off + len <= length xs)%nat then Some (take len (drop off xs)) else None.

Section References.
Context {C : Type}.
Notation heap := (gmap loc C).

#[export] Program Instance pointer_reference {A} `{Stored C A} : Reference (pointer A) A := {|
  target p := match p with Nil => None | Ref l => Some (l, load) end; nil_ := Nil; refer l _ := Ref l
|}.
Next Obligation. done. Qed.
Next Obligation. intros. eexists. split; [done|]. apply load_store. Qed.

#[export] Program Instance slice_reference {A} `{Stored C (list A)} : Reference (slice A) (list A) := {|
  target s := match s with NilSlice => None | Slice l off len => Some (l, fun c => load c ≫= window off len) end;
  nil_ := NilSlice; refer l xs := Slice l 0 (length xs)
|}.
Next Obligation. done. Qed.
Next Obligation.
  intros A Hst l xs. eexists. split; [done|]. cbn. rewrite load_store. cbn. unfold window.
  by rewrite decide_True, firstn_all by lia.
Qed.

#[export] Program Instance map_reference {A} `{Stored C (list (string * A))} : Reference (gomap A) (list (string * A)) := {|
  target m := match m with NilMap => None | MapAt l => Some (l, load) end; nil_ := NilMap; refer l _ := MapAt l
|}.
Next Obligation. done. Qed.
Next Obligation. intros. eexists. split; [done|]. apply load_store. Qed.

#[export] Instance pointer_copies {A D} `{Stored C A} `{Copies heap A D} : Copies heap (pointer A) (option D) := ref_copies.
#[export] Instance pointer_laws {A D} `{Stored C A} `{CopyLaws C A D} : CopyLaws (pointer A) (option D) := ref_laws.

(** The values of the development do not tell a nil slice from an empty one. *)
#[export] Instance slice_copies {A D} `{Stored C (list A)} `{Copies heap A D} : Copies heap (slice A) (list D) := {|
  den h s := default [] <$> ref_den h s; footprint := ref_footprint; DeepCopyInto := DeepCopy
|}.
#[export] Instance slice_laws {A D} `{Stored C (list A)} `{CopyLaws C A D} : CopyLaws (slice A) (list D).
Proof. pose proof (ref_laws (P := slice A) (D := list D)). apply (laws_via (H0 := ref_copies) id (fun _ => default [])); done. Qed.

#[export] Instance string_copies : Copies heap string string := flat_copies.
#[export] Instance string_laws : CopyLaws string string := flat_laws.
#[export] Instance map_copies {A D} `{Stored C (list (string * A))} `{Copies heap A D} : Copies heap (gomap A) (gmap string D) := {|
  den h m := (fun o => list_to_map (default [] o)) <$> ref_den h m; footprint := ref_footprint; DeepCopyInto := DeepCopy
|}.
#[export] Instance map_laws {A D} `{Stored C (list (string * A))} `{CopyLaws C A D} : CopyLaws (gomap A) (gmap string D).
Proof. pose proof (ref_laws (P := gomap A) (D := list (string * D))). apply (laws_via (H0 := ref_copies) id (fun _ o => list_to_map (default [] o))); done. Qed.
End References.

(** ** The resources in memory *)

Import apis.

Record goDeviceDevLink := MkGoDeviceDevLink { linkKind : string; links : slice string }.
#[global] Instance eta_goDeviceDevLink : Eta goDeviceDevLink := fun r => MkGoDeviceDevLink (linkKind r) (links r).

Record goDeviceSpec := MkGoDeviceSpec {
  aggregateDevice : string;
  capacity : DeviceCapacity;
  claimRef : pointer ObjectReference;
  details : DeviceDetails;
  devLinks : slice goDeviceDevLink;
  fileSystem : FileSystemInfo;
  nodeAttributes : NodeAttribute;
  parentDevice : string;
  partitioned : string;
  path : string
}.
#[global] Instance eta_goDeviceSpec : Eta goDeviceSpec := fun r =>
  MkGoDeviceSpec (aggregateDevice r) (capacity r) (claimRef r) (details r) (devLinks r) (fileSystem r)
    (nodeAttributes r) (parentDevice r) (partitioned r) (path r).

(** The structures of apimachinery and of resource.Quantity have types of their own. *)
Record goBlockDevice {OM : Type} := MkGoBlockDevice {
  typeMeta : TypeMetaT;
  objectMeta : OM;
  spec : goDeviceSpec;
  status : DeviceStatus
}.
Arguments goBlockDevice OM : clear implicits.
Arguments MkGoBlockDevice {OM} _ _ _ _.

Record goDeviceClaimResources {Q : Type} := MkGoDeviceClaimResources { requests : gomap Q }.
Arguments goDeviceClaimResources Q : clear implicits.
Arguments MkGoDeviceClaimResources {Q} _.

Record goDeviceClaimSpec {LS Q : Type} := MkGoDeviceClaimSpec {
  selector : pointer LS;
  resources : goDeviceClaimResources Q;
  claimDeviceType : string;
  claimHostName : string;
  claimDetails : DeviceClaimDetails;
  blockDeviceName : string;
  blockDeviceNodeAttributes : BlockDeviceNodeAttributes
}.
Arguments goDeviceClaimSpec LS Q : clear implicits.
Arguments MkGoDeviceClaimSpec {LS} {Q} _ _ _ _ _ _ _.

Record goDeviceClaimStatus := MkGoDeviceClaimStatus { statusPhase : string }.

Record goBlockDeviceClaim {OM LS Q : Type} := MkGoBlockDeviceClaim {
  claimTypeMeta : TypeMetaT;
  claimObjectMeta : OM;
  claimSpec : goDeviceClaimSpec LS Q;
  phase : string
}.
Arguments goBlockDeviceClaim OM LS Q : clear implicits.
Arguments MkGoBlockDeviceClaim {OM} {LS} {Q} _ _ _ _.

(** BlockDeviceList and BlockDeviceClaimList *)
Record goList {LM A : Type} := MkGoList { listTypeMeta : TypeMetaT; listMeta : LM; items : slice A }.
Arguments goList LM A : clear implicits.
Arguments MkGoList {LM} {A} _ _ _.

Section Generated.
Context {OM LM LS Q M DLM : Type}.

(** What a location holds; the last are the objects apimachinery allocates. *)
Inductive cell :=
  | Strings (xs : list string)
  | DevLinkArray (xs : list goDeviceDevLink)
  | ObjectReferenceCell (x : ObjectReference)
  | SelectorCell (x : LS)
  | ResourceList (xs : list (string * Q))
  | BlockDeviceCell (x : goBlockDevice OM)
  | BlockDeviceArray (xs : list (goBlockDevice OM))
  | BlockDeviceListCell (x : goList LM (goBlockDevice OM))
  | ClaimCell (x : goBlockDeviceClaim OM LS Q)
  | ClaimArray (xs : list (goBlockDeviceClaim OM LS Q))
  | ClaimListCell (x : goList LM (goBlockDeviceClaim OM LS Q))
  | DeviceSpecCell (x : goDeviceSpec)
  | DevLinkCell (x : goDeviceDevLink)
  | CapacityCell (x : DeviceCapacity)
  | DetailsCell (x : DeviceDetails)
  | FileSystemCell (x : FileSystemInfo)
  | NodeAttributeCell (x : NodeAttribute)
  | StatusCell (x : DeviceStatus)
  | ClaimSpecCell (x : goDeviceClaimSpec LS Q)
  | ClaimResourcesCell (x : goDeviceClaimResources Q)
  | ClaimDetailsCell (x : DeviceClaimDetails)
  | ClaimNodeAttributesCell (x : BlockDeviceNodeAttributes)
  | ClaimStatusCell (x : goDeviceClaimStatus)
  | Foreign (m : M).
Notation heap := (gmap loc cell).

#[export] Program Instance stored_strings : Stored (C := cell) (list string) :=
  {| store := Strings; load c := match c with Strings x => Some x | _ => None end |}.
Solve All Obligations with done.
#[export] Program Instance stored_devlinks : Stored (C := cell) (list goDeviceDevLink) :=
  {| store := DevLinkArray; load c := match c with DevLinkArray x => Some x | _ => None end |}.
Solve All Obligations with done.
#[export] Program Instance stored_reference : Stored (C := cell) ObjectReference :=
  {| store := ObjectReferenceCell; load c := match c with ObjectReferenceCell x => Some x | _ => None end |}.
Solve All Obligations with done.
#[export] Program Instance stored_selector : Stored (C := cell) LS :=
  {| store := SelectorCell; load c := match c with SelectorCell x => Some x | _ => None end |}.
Solve All Obligations with done.
#[export] Program Instance stored_requests : Stored (C := cell) (list (string * Q)) :=
  {| store := ResourceList; load c := match c with ResourceList x => Some x | _ => None end |}.
Solve All Obligations with done.
#[export] Program Instance stored_device : Stored (C := cell) (goBlockDevice OM) :=
  {| store := BlockDeviceCell; load c := match c with BlockDeviceCell x => Some x | _ => None end |}.
Solve All Obligations with done.
#[export] Program Instance stored_devices : Stored (C := cell) (list (goBlockDevice OM)) :=
  {| store := BlockDeviceArray; load c := match c with BlockDeviceArray x => Some x | _ => None end |}.
Solve All Obligations with done.
#[export] Program Instance stored_deviceList : Stored (C := cell) (goList LM (goBlockDevice OM)) :=
  {| store := BlockDeviceListCell; load c := match c with BlockDeviceListCell x => Some x | _ => None end |}.
Solve All Obligations with done.
#[export] Program Instance stored_claim : Stored (C := cell) (goBlockDeviceClaim OM LS Q) :=
  {| store := ClaimCell; load c := match c with ClaimCell x => Some x | _ => None end |}.
Solve All Obligations with done.
#[export] Program Instance stored_claims : Stored (C := cell) (list (goBlockDeviceClaim OM LS Q)) :=
  {| store := ClaimArray; load c := match c with ClaimArray x => Some x | _ => None end |}.
Solve All Obligations with done.
#[export] Program Instance stored_claimList : Stored (C := cell) (goList LM (goBlockDeviceClaim OM LS Q)) :=
  {| store := ClaimListCell; load c := match c with ClaimListCell x => Some x | _ => None end |}.
Solve All Obligations with done.

#[export] Program Instance stored_spec : Stored (C := cell) goDeviceSpec :=
  {| store := DeviceSpecCell; load c := match c with DeviceSpecCell x => Some x | _ => None end |}.
Solve All Obligations with done.
#[export] Program Instance stored_devlink : Stored (C := cell) goDeviceDevLink :=
  {| store := DevLinkCell; load c := match c with DevLinkCell x => Some x | _ => None end |}.
Solve All Obligations with done.
#[export] Program Instance stored_capacity : Stored (C := cell) DeviceCapacity :=
  {| store := CapacityCell; load c := match c with CapacityCell x => Some x | _ => None end |}.
Solve All Obligations with done.
#[export] Program Instance stored_details : Stored (C := cell) DeviceDetails :=
  {| store := DetailsCell; load c := match c with DetailsCell x => Some x | _ => None end |}.
Solve All Obligations with done.
#[export] Program Instance stored_fileSystem : Stored (C := cell) FileSystemInfo :=
  {| store := FileSystemCell; load c := match c with FileSystemCell x => Some x | _ => None end |}.
Solve All Obligations with done.
#[export] Program Instance stored_nodeAttribute : Stored (C := cell) NodeAttribute :=
  {| store := NodeAttributeCell; load c := match c with NodeAttributeCell x => Some x | _ => None end |}.
Solve All Obligations with done.
#[export] Program Instance stored_status : Stored (C := cell) DeviceStatus :=
  {| store := StatusCell; load c := match c with StatusCell x => Some x | _ => None end |}.
Solve All Obligations with done.
#[export] Program Instance stored_claimSpec : Stored (C := cell) (goDeviceClaimSpec LS Q) :=
  {| store := ClaimSpecCell; load c := match c with ClaimSpecCell x => Some x | _ => None end |}.
Solve All Obligations with done.
#[export] Program Instance stored_claimResources : Stored (C := cell) (goDeviceClaimResources Q) :=
  {| store := ClaimResourcesCell; load c := match c with ClaimResourcesCell x => Some x | _ => None end |}.
Solve All Obligations with done.
#[export] Program Instance stored_claimDetails : Stored (C := cell) DeviceClaimDetails :=
  {| store := ClaimDetailsCell; load c := match c with ClaimDetailsCell x => Some x | _ => None end |}.
Solve All Obligations with done.
#[export] Program Instance stored_claimNodeAttributes : Stored (C := cell) BlockDeviceNodeAttributes :=
  {| store := ClaimNodeAttributesCell; load c := match c with ClaimNodeAttributesCell x => Some x | _ => None end |}.
Solve All Obligations with done.
#[export] Program Instance stored_claimStatus : Stored (C := cell) goDeviceClaimStatus :=
  {| store := ClaimStatusCell; load c := match c with ClaimStatusCell x => Some x | _ => None end |}.
Solve All Obligations with done.

(** The copying of apimachinery's structures *)
Context `{!Copies heap OM ObjectMetaT} `{!Copies heap LM DLM} `{!Copies heap LS LabelSelector} `{!Copies heap Q (option Z)}.

#[export] Instance reference_copies : Copies heap ObjectReference ObjectReference := flat_copies.

(** *** BlockDevice *)

Definition DeviceDevLink_DeepCopyInto (in_ : goDeviceDevLink) (h : heap) : heap * goDeviceDevLink :=
  let '(h, l) := DeepCopyInto (links in_) h in
  (h, in_ <| links := l |>).
#[export] Instance DeviceDevLink_copies : Copies heap goDeviceDevLink DeviceDevLink := {|
  den h r := MkDeviceDevLink (linkKind r) <$> den h (links r);
  footprint h r := footprint h (links r);
  DeepCopyInto := DeviceDevLink_DeepCopyInto
|}.

Definition DeviceSpec_DeepCopyInto (in_ : goDeviceSpec) (h : heap) : heap * goDeviceSpec :=
  let '(h, ref) := DeepCopyInto (claimRef in_) h in
  let '(h, l) := DeepCopyInto (devLinks in_) h in
  (h, in_ <| claimRef := ref |> <| devLinks := l |>).
Definition spec_value (r : goDeviceSpec) (d : option ObjectReference * list DeviceDevLink) : DeviceSpec :=
  MkDeviceSpec (aggregateDevice r) (capacity r) d.1 (details r) d.2 (fileSystem r) (nodeAttributes r)
    (parentDevice r) (partitioned r) (path r).
#[export] Instance DeviceSpec_copies : Copies heap goDeviceSpec DeviceSpec := {|
  den h r := spec_value r <$> den h (claimRef r, devLinks r);
  footprint h r := footprint h (claimRef r, devLinks r);
  DeepCopyInto := DeviceSpec_DeepCopyInto
|}.

Definition BlockDevice_DeepCopyInto (in_ : goBlockDevice OM) (h : heap) : heap * goBlockDevice OM :=
  let '(h, m) := DeepCopyInto (objectMeta in_) h in
  let '(h, s) := DeepCopyInto (spec in_) h in
  (h, MkGoBlockDevice (typeMeta in_) m s (status in_)).
Definition device_value (r : goBlockDevice OM) (d : ObjectMetaT * DeviceSpec) : BlockDevice :=
  MkBlockDevice (typeMeta r) d.1 d.2 (status r).
#[export] Instance BlockDevice_copies : Copies heap (goBlockDevice OM) BlockDevice := {|
  den h r := device_value r <$> den h (objectMeta r, spec r);
  footprint h r := footprint h (objectMeta r, spec r);
  DeepCopyInto := BlockDevice_DeepCopyInto
|}.
Definition BlockDevice_DeepCopy : pointer (goBlockDevice OM) -> heap -> heap * pointer (goBlockDevice OM) := DeepCopy.

(** *** BlockDeviceClaim *)

(** "for key, val := range *in { ( *out)[key] = val.DeepCopy() }" *)
Definition DeviceClaimResources_DeepCopyInto (in_ : goDeviceClaimResources Q) (h : heap) : heap * goDeviceClaimResources Q :=
  let '(h, m) := DeepCopyInto (requests in_) h in
  (h, MkGoDeviceClaimResources m).
#[export] Instance DeviceClaimResources_copies : Copies heap (goDeviceClaimResources Q) (gmap string (option Z)) := {|
  den h r := den h (requests r); footprint h r := footprint h (requests r);
  DeepCopyInto := DeviceClaimResources_DeepCopyInto
|}.

Definition DeviceClaimSpec_DeepCopyInto (in_ : goDeviceClaimSpec LS Q) (h : heap) : heap * goDeviceClaimSpec LS Q :=
  let '(h, sel) := DeepCopyInto (selector in_) h in
  let '(h, res) := DeepCopyInto (resources in_) h in
  (h, MkGoDeviceClaimSpec sel res (claimDeviceType in_) (claimHostName in_) (claimDetails in_) (blockDeviceName in_)
        (blockDeviceNodeAttributes in_)).
Definition claimSpec_value (r : goDeviceClaimSpec LS Q) (d : option LabelSelector * gmap string (option Z)) : DeviceClaimSpec :=
  MkDeviceClaimSpec d.1 d.2 (claimDeviceType r) (claimHostName r) (claimDetails r) (blockDeviceName r) (blockDeviceNodeAttributes r).
#[export] Instance DeviceClaimSpec_copies : Copies heap (goDeviceClaimSpec LS Q) DeviceClaimSpec := {|
  den h r := claimSpec_value r <$> den h (selector r, resources r);
  footprint h r := footprint h (selector r, resources r);
  DeepCopyInto := DeviceClaimSpec_DeepCopyInto
|}.

Definition BlockDeviceClaim_DeepCopyInto (in_ : goBlockDeviceClaim OM LS Q) (h : heap) : heap * goBlockDeviceClaim OM LS Q :=
  let '(h, m) := DeepCopyInto (claimObjectMeta in_) h in
  let '(h, s) := DeepCopyInto (claimSpec in_) h in
  (h, MkGoBlockDeviceClaim (claimTypeMeta in_) m s (phase in_)).
Definition claim_value (r : goBlockDeviceClaim OM LS Q) (d : ObjectMetaT * DeviceClaimSpec) : BlockDeviceClaim :=
  MkBlockDeviceClaim (claimTypeMeta r) d.1 d.2 (phase r).
#[export] Instance BlockDeviceClaim_copies : Copies heap (goBlockDeviceClaim OM LS Q) BlockDeviceClaim := {|
  den h r := claim_value r <$> den h (claimObjectMeta r, claimSpec r);
  footprint h r := footprint h (claimObjectMeta r, claimSpec r);
  DeepCopyInto := BlockDeviceClaim_DeepCopyInto
|}.
Definition BlockDeviceClaim_DeepCopy :
  pointer (goBlockDeviceClaim OM LS Q) -> heap -> heap * pointer (goBlockDeviceClaim OM LS Q) := DeepCopy.

(** *** The parts of a resource *)

(** Without pointers: DeepCopyInto is "*out = *in" *)
Definition DeviceCapacity_DeepCopy : pointer DeviceCapacity -> heap -> heap * pointer DeviceCapacity := DeepCopy (H1 := flat_copies).
Definition DeviceDetails_DeepCopy : pointer DeviceDetails -> heap -> heap * pointer DeviceDetails := DeepCopy (H1 := flat_copies).
Definition FileSystemInfo_DeepCopy : pointer FileSystemInfo -> heap -> heap * pointer FileSystemInfo := DeepCopy (H1 := flat_copies).
Definition NodeAttribute_DeepCopy : pointer NodeAttribute -> heap -> heap * pointer NodeAttribute := DeepCopy (H1 := flat_copies).
Definition DeviceStatus_DeepCopy : pointer DeviceStatus -> heap -> heap * pointer DeviceStatus := DeepCopy (H1 := flat_copies).
Definition DeviceClaimDetails_DeepCopy : pointer DeviceClaimDetails -> heap -> heap * pointer DeviceClaimDetails := DeepCopy (H1 := flat_copies).
Definition BlockDeviceNodeAttributes_DeepCopy : pointer BlockDeviceNodeAttributes -> heap -> heap * pointer BlockDeviceNodeAttributes := DeepCopy (H1 := flat_copies).
Definition DeviceClaimStatus_DeepCopy : pointer goDeviceClaimStatus -> heap -> heap * pointer goDeviceClaimStatus := DeepCopy (H1 := flat_copies).

Definition DeviceDevLink_DeepCopy : pointer goDeviceDevLink -> heap -> heap * pointer goDeviceDevLink := DeepCopy.
Definition DeviceSpec_DeepCopy : pointer goDeviceSpec -> heap -> heap * pointer goDeviceSpec := DeepCopy.
Definition DeviceClaimResources_DeepCopy :
  pointer (goDeviceClaimResources Q) -> heap -> heap * pointer (goDeviceClaimResources Q) := DeepCopy.
Definition DeviceClaimSpec_DeepCopy :
  pointer (goDeviceClaimSpec LS Q) -> heap -> heap * pointer (goDeviceClaimSpec LS Q) := DeepCopy.

(** *** The lists *)

Definition List_DeepCopyInto {A D} `{!Stored (C := cell) (list A)} `{!Copies heap A D}
    (in_ : goList LM A) (h : heap) : heap * goList LM A :=
  let '(h, m) := DeepCopyInto (listMeta in_) h in
  let '(h, l) := DeepCopyInto (items in_) h in
  (h, MkGoList (listTypeMeta in_) m l).
#[export] Instance List_copies {A D} `{!Stored (C := cell) (list A)} `{!Copies heap A D} :
  Copies heap (goList LM A) (TypeMetaT * (DLM * list D)) := {|
  den h r := pair (listTypeMeta r) <$> den h (listMeta r, items r);
  footprint h r := footprint h (listMeta r, items r);
  DeepCopyInto := List_DeepCopyInto
|}.
Definition BlockDeviceList_DeepCopyInto : goList LM (goBlockDevice OM) -> heap -> heap * goList LM (goBlockDevice OM) :=
  List_DeepCopyInto.
Definition BlockDeviceClaimList_DeepCopyInto :
  goList LM (goBlockDeviceClaim OM LS Q) -> heap -> heap * goList LM (goBlockDeviceClaim OM LS Q) := List_DeepCopyInto.
Definition BlockDeviceList_DeepCopy :
  pointer (goList LM (goBlockDevice OM)) -> heap -> heap * pointer (goList LM (goBlockDevice OM)) := DeepCopy.
Definition BlockDeviceClaimList_DeepCopy :
  pointer (goList LM (goBlockDeviceClaim OM LS Q)) -> heap -> heap * pointer (goList LM (goBlockDeviceClaim OM LS Q)) := DeepCopy.

(** *** runtime.Object *)

(** An interface value: nil, or a type with a pointer, which may itself be nil *)
Inductive Object :=
  | NilObject
  | BlockDeviceObject (p : pointer (goBlockDevice OM))
  | BlockDeviceListObject (p : pointer (goList LM (goBlockDevice OM)))
  | ClaimObject (p : pointer (goBlockDeviceClaim OM LS Q))
  | ClaimListObject (p : pointer (goList LM (goBlockDeviceClaim OM LS Q))).

Definition copyObject {A} (mk : pointer A -> Object) (r : heap * pointer A) : heap * Object :=
  match r.2 with Nil => (r.1, NilObject) | Ref l => (r.1, mk (Ref l)) end.
Definition BlockDevice_DeepCopyObject in_ h := copyObject BlockDeviceObject (BlockDevice_DeepCopy in_ h).
Definition BlockDeviceList_DeepCopyObject in_ h := copyObject BlockDeviceListObject (BlockDeviceList_DeepCopy in_ h).
Definition BlockDeviceClaim_DeepCopyObject in_ h := copyObject ClaimObject (BlockDeviceClaim_DeepCopy in_ h).
Definition BlockDeviceClaimList_DeepCopyObject in_ h := copyObject ClaimListObject (BlockDeviceClaimList_DeepCopy in_ h).

(** ** The copies are independent *)

(** A copy has the value of its original, and what is then written to the memory of the one
    leaves the other as it was. *)
Definition independent {A D} `{!Copies heap A D} (copy : A -> heap -> heap * A) : Prop :=
  forall h a d h' a', den h a = Some d -> copy a h = (h', a') ->
  den h' a' = Some d /\ den h' a = Some d /\
  (forall h'', (forall l, l ∉ footprint h' a' -> h'' !! l = h' !! l) -> den h'' a = Some d) /\
  (forall h'', (forall l, l ∉ footprint h' a -> h'' !! l = h' !! l) -> den h'' a' = Some d).

Section Laws.
Context `{!CopyLaws (C := cell) OM ObjectMetaT} `{!CopyLaws (C := cell) LM DLM}
  `{!CopyLaws (C := cell) LS LabelSelector} `{!CopyLaws (C := cell) Q (option Z)}.

#[local] Instance reference_laws : CopyLaws (C := cell) ObjectReference ObjectReference := flat_laws.

Ltac struct_laws to f :=
  apply (laws_via to f); [intros; first [reflexivity | symmetry; apply option_fmap_id]|done|];
  intros h r h' r'; cbn;
  match goal with |- ?copy = _ -> _ => let k := get_head copy in unfold k end; cbn;
  repeat match goal with |- context [match ?x with (_, _) => _ end] => destruct x as [? ?] eqn:? end;
  intros [= <- <-]; done.

#[local] Instance DeviceDevLink_laws : CopyLaws (C := cell) goDeviceDevLink DeviceDevLink.
Proof. struct_laws links (fun r => MkDeviceDevLink (linkKind r)). Qed.
#[local] Instance DeviceSpec_laws : CopyLaws (C := cell) goDeviceSpec DeviceSpec.
Proof. struct_laws (fun r => (claimRef r, devLinks r)) spec_value. Qed.
#[local] Instance BlockDevice_laws : CopyLaws (C := cell) (goBlockDevice OM) BlockDevice.
Proof. struct_laws (fun r : goBlockDevice OM => (objectMeta r, spec r)) device_value. Qed.
#[local] Instance DeviceClaimResources_laws : CopyLaws (C := cell) (goDeviceClaimResources Q) (gmap string (option Z)).
Proof. struct_laws (requests (Q := Q)) (fun (_ : goDeviceClaimResources Q) (m : gmap string (option Z)) => m). Qed.
#[local] Instance DeviceClaimSpec_laws : CopyLaws (C := cell) (goDeviceClaimSpec LS Q) DeviceClaimSpec.
Proof. struct_laws (fun r : goDeviceClaimSpec LS Q => (selector r, resources r)) claimSpec_value. Qed.
#[local] Instance BlockDeviceClaim_laws : CopyLaws (C := cell) (goBlockDeviceClaim OM LS Q) BlockDeviceClaim.
Proof. struct_laws (fun r : goBlockDeviceClaim OM LS Q => (claimObjectMeta r, claimSpec r)) claim_value. Qed.
#[local] Instance List_laws {A D} `{!Stored (C := cell) (list A)} `{!Copies heap A D} `{!CopyLaws (C := cell) A D} :
  CopyLaws (C := cell) (goList LM A) (TypeMetaT * (DLM * list D)).
Proof.
  struct_laws (fun r : goList LM A => (listMeta r, items r)) (fun (r : goList LM A) (d : DLM * list D) => (listTypeMeta r, d)).
Qed.

(** C29. The generated copies of block devices, of claims and of their lists have the value
    of their original and share no memory with it: what a caller then changes in the copy,
    the claim reference, the links, the labels or the requests, is not seen through the
    original, and the other way round. *)
Theorem deepcopies_independent :
  independent BlockDevice_DeepCopy /\ independent BlockDeviceClaim_DeepCopy /\
  independent BlockDeviceList_DeepCopy /\ independent BlockDeviceClaimList_DeepCopy.
Proof. split_and!; intros h a d h' a' Hd Hc; by eapply copy_isolated. Qed.

(** So are the copies of their parts. *)
Lemma parts_independent :
  independent DeviceSpec_DeepCopy /\ independent DeviceDevLink_DeepCopy /\
  independent DeviceClaimSpec_DeepCopy /\ independent DeviceClaimResources_DeepCopy.
Proof. split_and!; intros h a d h' a' Hd Hc; by eapply copy_isolated. Qed.

Lemma flat_parts_independent {A} `{!Stored (C := cell) A} :
  independent (Copies4 := ref_copies (H1 := flat_copies)) (DeepCopy (P := pointer A) (H1 := flat_copies)).
Proof.
  intros h a d h' a' Hd Hc. pose proof (flat_laws (C := cell) (A := A)) as Hl.
  by eapply (copy_isolated (H := ref_copies (H1 := flat_copies)) (H0 := ref_laws)).
Qed.

(** A copied object is nil, and not a type with a nil pointer, just for a nil original. *)
Lemma DeepCopyObject_nil {A D} `{!Stored (C := cell) A} `{!Copies heap A D} (mk : pointer A -> Object) p h d :
  (forall q, mk q <> NilObject) -> den h p = Some d ->
  (copyObject mk (DeepCopy p h)).2 = NilObject <-> p = Nil.
Proof.
  intros Hmk. destruct p as [|l]; [done|]. cbn. unfold ref_den, DeepCopy, deref. cbn.
  destruct (h !! l ≫= load) as [a|]; [|done]. intros _. destruct (DeepCopyInto a h) as [h1 a1]. cbn.
  split; [intros []%Hmk|done].
Qed.
End Laws.
End Generated.

(** *** An instance *)

(** ObjectMeta with its labels in memory; the other structures without pointers *)
Module sample.

Record objectMetaInMemory := MkObjectMetaInMemory { plain : ObjectMetaT; labelsAt : pointer strmap }.
Notation cell := (cell (OM := objectMetaInMemory) (LM := string) (LS := LabelSelector) (Q := option Z) (M := strmap)).
Notation heap := (gmap loc cell).

#[local] Program Instance stored_labels : Stored (C := cell) strmap :=
  {| store := Foreign; load c := match c with Foreign x => Some x | _ => None end |}.
Solve All Obligations with done.
#[local] Instance labels_copies : Copies heap strmap strmap := flat_copies.
#[local] Instance labels_laws : CopyLaws (C := cell) strmap strmap := flat_laws.
#[local] Instance meta_copies : Copies heap objectMetaInMemory ObjectMetaT := {|
  den h r := (fun l => (plain r) <| Labels := l |>) <$> den h (labelsAt r);
  footprint h r := footprint h (labelsAt r);
  DeepCopyInto r h := let '(h, l) := DeepCopyInto (labelsAt r) h in (h, MkObjectMetaInMemory (plain r) l)
|}.
#[local] Instance meta_laws : CopyLaws (C := cell) objectMetaInMemory ObjectMetaT.
Proof.
  apply (laws_via labelsAt (fun r l => (plain r) <| Labels := l |>)); [done|done|].
  intros h r h' r'. cbn. destruct (DeepCopy (labelsAt r) h) as [h1 l]. by intros [= <- <-].
Qed.
#[local] Instance listMeta_copies : Copies heap string string := flat_copies.
#[local] Instance listMeta_laws : CopyLaws (C := cell) string string := flat_laws.
#[local] Instance selector_copies : Copies heap LabelSelector LabelSelector := flat_copies.
#[local] Instance selector_laws : CopyLaws (C := cell) LabelSelector LabelSelector := flat_laws.
#[local] Instance quantity_copies : Copies heap (option Z) (option Z) := flat_copies.
#[local] Instance quantity_laws : CopyLaws (C := cell) (option Z) (option Z) := flat_laws.

Definition reference : ObjectReference := MkObjectReference "BlockDeviceClaim" "openebs" "bdc-1" "7" "" 0%N.
(** A claimed device at location 1: its reference at 2, its labels at 3, its links at 4 and 5 *)
Definition memory : heap :=
  list_to_map [
    (1%positive, BlockDeviceCell (MkGoBlockDevice empty_TypeMetaT
       (MkObjectMetaInMemory (empty_ObjectMetaT <| Name := "blockdevice-1" |>) (Ref 3))
       (MkGoDeviceSpec "" empty_DeviceCapacity (Ref 2) empty_DeviceDetails (Slice 4 0 1) empty_FileSystemInfo
          empty_NodeAttribute "" "" "/dev/sdb") empty_DeviceStatus));
    (2%positive, ObjectReferenceCell reference);
    (3%positive, Foreign {[ "ndm.io/managed" := "true" ]});
    (4%positive, DevLinkArray [MkGoDeviceDevLink "by-id" (Slice 5 1 1)]);
    (5%positive, Strings ["/dev/a"; "/dev/b"])].
Definition device : BlockDevice :=
  empty_BlockDevice
    <| ObjectMeta := empty_ObjectMetaT <| Name := "blockdevice-1" |> <| Labels := Some {[ "ndm.io/managed" := "true" ]} |> |>
    <| Spec := empty_DeviceSpec <| ClaimRef := Some reference |> <| Path := "/dev/sdb" |>
         <| DevLinks := [MkDeviceDevLink "by-id" ["/dev/b"]] |> |>.

Lemma deepcopies_independent_witness :
  exists h' out, BlockDevice_DeepCopy (Ref 1) memory = (h', out) /\ out <> Ref 1 /\
  den h' out = Some (Some device) /\
  forall h'', (forall l, l ∉ footprint h' out -> h'' !! l = h' !! l) -> den h'' (Ref (A := goBlockDevice objectMetaInMemory) 1) = Some (Some device).
Proof.
  destruct (BlockDevice_DeepCopy (Ref 1) memory) as [h' out] eqn:Hc. exists h', out.
  assert (den memory (Ref (A := goBlockDevice objectMetaInMemory) 1) = Some (Some device)) as Hd by reflexivity.
  destruct (proj1 deepcopies_independent memory (Ref 1) (Some device) h' out Hd Hc) as (Ho & _ & Hw & _).
  split_and!; [done| |done|exact Hw].
  intros ->. vm_compute in Hc. discriminate Hc.
Defined.
End sample.
