(* ===== verification/Features.v ===== *)
(** * pkg/features

    Feature gates: the defaults, the parsing of the command line flags and the switching
    off of features whose dependencies are off.  Go iterates over the gates in an
    unspecified order; the order is an argument here and the result is shown not to
    depend on it. *)

From Stdlib Require Import Ascii.
From stdpp Require Import base list strings gmap.
From S2P Require Import Prelude GoStrings Types Util.

Local Open Scope string_scope.

Module features.

Notation featureFlag := (gmap string bool).

Definition GPTBasedUUID := "GPTBasedUUID".
Definition APIService := "APIService".
Definition UseOSDisk := "UseOSDisk".
Definition ChangeDetection := "ChangeDetection".
Definition PartitionTableUUID := "PartitionTableUUID".

Definition supportedFeatures : list string :=
  [GPTBasedUUID; APIService; UseOSDisk; ChangeDetection; PartitionTableUUID].

Definition defaultFeatureGates : featureFlag :=
  list_to_map [(GPTBasedUUID, true); (APIService, false); (UseOSDisk, false);
               (ChangeDetection, false); (PartitionTableUUID, false)].

Definition featureDependencies (f : string) : list string :=
  if decide (f = PartitionTableUUID) then [GPTBasedUUID] else [].

Definition NewFeatureGate : featureFlag := defaultFeatureGates.

Definition IsEnabled (fg : featureFlag) (f : string) : bool := default false (fg !! f).

Fixpoint containsFeature (features : list string) (f : string) : bool :=
  match features with
  | [] => false
  | feature :: features => if decide (f = feature) then true else containsFeature features f
  end.

(** The first loop of SetFeatureFlag: one flag of the command line after another, the
    gates changed so far are kept on an error. *)
Definition parseFeature (feature : string) : err + (string * bool) :=
  match Split feature "="%char with
  | [f] => inr (f, true)
  | [f; v] => inr (f, CheckTruthy v)
  | _ => inl (Err ("incorrect format. cannot parse feature " +:+ feature))
  end.

Fixpoint setFeatures (fg : featureFlag) (features : list string) : featureFlag * option err :=
  match features with
  | [] => (fg, None)
  | feature :: features =>
      match parseFeature feature with
      | inl e => (fg, Some e)
      | inr (f, isEnabled) =>
          if containsFeature supportedFeatures f
          then setFeatures (<[f := isEnabled]> fg) features
          else (fg, Some (Err ("unknown feature flag " +:+ f)))
      end
  end.

(** ValidateDependencies follows the dependencies of a feature; [n] bounds the length
    of a chain of dependencies.  It returns the flags, the memoized values and its
    answer. *)
Fixpoint ValidateDependencies (n : nat) (feature : string) (flags memo : featureFlag)
    : featureFlag * featureFlag * bool :=
  match memo !! feature with
  | Some value => (flags, memo, value)
  | None =>
      if negb (IsEnabled flags feature) then (flags, memo, false)
      else
        match n with
        | O => (flags, memo, false)
        | S n =>
            let fix loop dependencies flags memo :=
              match dependencies with
              | [] => (flags, memo)
              | dependency :: dependencies =>
                  let '(flags, memo, ok) := ValidateDependencies n dependency flags memo in
                  if negb ok then (<[feature := false]> flags, memo)
                  else loop dependencies flags memo
              end in
            let '(flags, memo) := loop (featureDependencies feature) flags memo in
            (flags, <[feature := IsEnabled flags feature]> memo, IsEnabled flags feature)
        end
  end.

(** The longest chain: PartitionTableUUID depends on GPTBasedUUID, which depends on
    nothing. *)
Definition fuel : nat := 2.

Fixpoint validateLoop (order : list string) (flags memo : featureFlag) : featureFlag :=
  match order with
  | [] => flags
  | feature :: order =>
      let '(flags, memo, _) := ValidateDependencies fuel feature flags memo in
      validateLoop order flags memo
  end.

(** [order] is the order in which Go iterates over the gates. *)
Definition SetFeatureFlag (order : list string) (fg : featureFlag) (features : list string)
    : featureFlag * option err :=
  match setFeatures fg features with
  | (fg, Some e) => (fg, Some e)
  | (fg, None) => (validateLoop order fg ∅, None)
  end.

(** ** What the gates are after parsing *)

(** A gate is off if it was not asked for or if a dependency is off. *)
Definition closed (fg : featureFlag) : featureFlag :=
  if IsEnabled fg PartitionTableUUID && negb (IsEnabled fg GPTBasedUUID)
  then <[PartitionTableUUID := false]> fg else fg.

Lemma IsEnabled_insert fg f g v :
  IsEnabled (<[f := v]> fg) g = if decide (f = g) then v else IsEnabled fg g.
Proof.
  unfold IsEnabled. case_decide; subst; [by rewrite lookup_insert_eq|by rewrite lookup_insert_ne].
Qed.

Lemma IsEnabled_closed fg f :
  IsEnabled (closed fg) f =
  if decide (f = PartitionTableUUID)
  then IsEnabled fg PartitionTableUUID && IsEnabled fg GPTBasedUUID else IsEnabled fg f.
Proof.
  unfold closed. destruct (IsEnabled fg PartitionTableUUID) eqn:Hp; cbn;
    [destruct (IsEnabled fg GPTBasedUUID) eqn:Hg; cbn|]; rewrite ?IsEnabled_insert;
    repeat case_decide; subst; congruence.
Qed.

Lemma closed_idem fg : closed (closed fg) = closed fg.
Proof.
  unfold closed at 1. rewrite !IsEnabled_closed.
  destruct (IsEnabled fg PartitionTableUUID), (IsEnabled fg GPTBasedUUID); done.
Qed.

(** The gates of the loop are the parsed ones or already the closed ones, and what is
    memoized is true of both. *)
Record loop_inv (fg flags memo : featureFlag) : Prop := {
  li_flags : flags = fg \/ flags = closed fg;
  li_memo f v : memo !! f = Some v -> IsEnabled flags f = v /\ IsEnabled (closed fg) f = v
}.

Lemma loop_inv_closed fg flags memo : loop_inv fg flags memo -> closed flags = closed fg.
Proof. intros [[->| ->] _]; [done|apply closed_idem]. Qed.

(** A feature without dependencies is answered as it is set. *)
Lemma Validate_leaf n fg flags memo f :
  featureDependencies f = [] -> f <> PartitionTableUUID -> loop_inv fg flags memo ->
  exists memo', ValidateDependencies (S n) f flags memo = (flags, memo', IsEnabled flags f) /\
    loop_inv fg flags memo'.
Proof.
  intros Hd Hf HI. cbn. destruct (memo !! f) eqn:Hm.
  { exists memo. apply (li_memo _ _ _ HI) in Hm as [-> _]. done. }
  destruct (IsEnabled flags f) eqn:He; cbn; [|by exists memo].
  rewrite Hd, He. eexists; split; [done|]. destruct HI as [Hfl Hmemo]. constructor; [done|].
  intros g v. destruct (decide (f = g)) as [<-|].
  - rewrite lookup_insert_eq. intros [= <-]. split; [done|].
    destruct Hfl as [->| ->]; [|done]. by rewrite IsEnabled_closed, decide_False.
  - rewrite lookup_insert_ne by done. apply Hmemo.
Qed.

(** Validating PartitionTableUUID closes the gates. *)
Lemma Validate_root fg flags memo :
  loop_inv fg flags memo ->
  exists memo' b, ValidateDependencies fuel PartitionTableUUID flags memo = (closed fg, memo', b) /\
    loop_inv fg (closed fg) memo'.
Proof.
  intros HI. pose proof (loop_inv_closed _ _ _ HI) as Hcl.
  assert (Hgpt : forall m, loop_inv fg flags m ->
    exists memo', ValidateDependencies 1 GPTBasedUUID flags m = (flags, memo', IsEnabled flags GPTBasedUUID) /\
      loop_inv fg flags memo') by (intros; by apply Validate_leaf).
  assert (Hfix : closed flags = flags -> flags = closed fg) by congruence.
  unfold fuel. cbn [ValidateDependencies]. destruct (memo !! PartitionTableUUID) as [v|] eqn:Hm.
  - pose proof (li_memo _ _ _ HI _ _ Hm) as [H1 H2]. exists memo, v.
    rewrite <- Hcl, IsEnabled_closed, decide_True, H1 in H2 by done.
    rewrite <- Hfix; [done|]. unfold closed. rewrite H1. by destruct v, (IsEnabled flags GPTBasedUUID).
  - destruct (IsEnabled flags PartitionTableUUID) eqn:He; cbn [negb].
    2:{ exists memo, false. rewrite <- Hfix; [done|]. unfold closed. by rewrite He. }
    change (featureDependencies PartitionTableUUID) with [GPTBasedUUID].
    destruct (Hgpt memo HI) as (m & Hv & HIm). cbn [ValidateDependencies] in Hv.
    rewrite Hv. clear Hv.
    assert (Hcm : forall b, IsEnabled (closed fg) PartitionTableUUID = b ->
      loop_inv fg (closed fg) (<[PartitionTableUUID := b]> m)).
    { intros b Hb. constructor; [by right|]. intros f v. destruct (decide (PartitionTableUUID = f)) as [<-|].
      - rewrite lookup_insert_eq. intros [= <-]. done.
      - rewrite lookup_insert_ne by done. intros Hf. by apply (li_memo _ _ _ HIm) in Hf as [_ ?]. }
    destruct (IsEnabled flags GPTBasedUUID) eqn:Hg; cbn [negb].
    + rewrite He. exists (<[PartitionTableUUID := true]> m), true.
      rewrite <- Hfix; [split; [done|]|unfold closed; by rewrite He, Hg].
      rewrite Hfix by (unfold closed; by rewrite He, Hg).
      apply Hcm. rewrite <- Hcl, IsEnabled_closed. cbn. by rewrite He, Hg.
    + assert (Hc : <[PartitionTableUUID := false]> flags = closed fg).
      { rewrite <- Hcl. unfold closed. by rewrite He, Hg. }
      rewrite Hc. eexists _, _. split; [done|]. by apply Hcm.
Qed.

Lemma validateLoop_closed order fg flags memo :
  loop_inv fg flags memo ->
  validateLoop order flags memo = flags \/ validateLoop order flags memo = closed fg.
Proof.
  revert flags memo. induction order as [|f order IH]; intros flags memo HI; cbn [validateLoop]; [by left|].
  destruct (decide (f = PartitionTableUUID)) as [->|Hf].
  - destruct (Validate_root _ _ _ HI) as (m & b & -> & HI'). right. by destruct (IH _ _ HI').
  - destruct (Validate_leaf 1 fg flags memo f) as (m & Hv & HI'); [by unfold featureDependencies; rewrite decide_False|done..|].
    unfold fuel. rewrite Hv. by apply IH.
Qed.

Lemma validateLoop_visits order fg flags memo :
  PartitionTableUUID ∈ order -> loop_inv fg flags memo -> validateLoop order flags memo = closed fg.
Proof.
  revert flags memo. induction order as [|f order IH]; intros flags memo Hin HI; [set_solver|].
  cbn [validateLoop]. destruct (decide (f = PartitionTableUUID)) as [->|Hf].
  - destruct (Validate_root _ _ _ HI) as (m & b & -> & HI').
    by destruct (validateLoop_closed order _ _ _ HI').
  - destruct (Validate_leaf 1 fg flags memo f) as (m & Hv & HI'); [by unfold featureDependencies; rewrite decide_False|done..|].
    unfold fuel. rewrite Hv. apply IH; [set_solver|done].
Qed.

(** Every iteration order that visits all gates closes them. *)
Lemma validateLoop_spec order fg :
  (forall f, is_Some (fg !! f) -> f ∈ order) -> validateLoop order fg ∅ = closed fg.
Proof.
  intros Hall.
  assert (HI : loop_inv fg fg ∅) by (constructor; [by left|intros f v Hv; by rewrite lookup_empty in Hv]).
  destruct (IsEnabled fg PartitionTableUUID) eqn:He.
  - apply validateLoop_visits; [|done]. apply Hall. unfold IsEnabled in He.
    by destruct (fg !! PartitionTableUUID).
  - assert (Hc : closed fg = fg) by (unfold closed; by rewrite He).
    destruct (validateLoop_closed order _ _ _ HI) as [->| ->]; congruence.
Qed.

Lemma containsFeature_elem l f : containsFeature l f = true <-> f ∈ l.
Proof.
  induction l as [|x l IH]; cbn; [set_solver|].
  case_decide as Hf; [|rewrite IH]; set_solver.
Qed.

(** What one flag of the command line asks for, and the last request for a gate. *)
Definition requests (features : list string) : list (string * bool) :=
  omap (fun s => match parseFeature s with inr fv => Some fv | inl _ => None end) features.

Fixpoint last_request (rs : list (string * bool)) (f : string) : option bool :=
  match rs with
  | [] => None
  | (g, v) :: rs =>
      match last_request rs f with
      | Some w => Some w
      | None => if decide (g = f) then Some v else None
      end
  end.

Definition asked (fg : featureFlag) (features : list string) (f : string) : bool :=
  match last_request (requests features) f with Some v => v | None => IsEnabled fg f end.

Lemma setFeatures_ok fg features fg' :
  setFeatures fg features = (fg', None) ->
  forall f, IsEnabled fg' f = asked fg features f.
Proof.
  unfold asked.
  revert fg. induction features as [|s l IH]; intros fg H f; [by simplify_eq/=|].
  cbn [setFeatures] in H. unfold requests. cbn [omap list_omap].
  destruct (parseFeature s) as [e|[g v]]; [done|].
  destruct (containsFeature supportedFeatures g); [|done].
  rewrite (IH _ H). cbn [last_request]. unfold requests. destruct (last_request _ f); [done|].
  rewrite IsEnabled_insert. by case_decide.
Qed.
End features.

(** C26. Parsing feature gates: when SetFeatureFlag succeeds, then whatever the order in
    which Go iterates over the gates, every gate is the last value asked for on the
    command line (or its value before), except that PartitionTableUUID is on only if
    GPTBasedUUID is. *)
Theorem SetFeatureFlag_spec order fg features fg' :
  (forall f, is_Some ((features.setFeatures fg features).1 !! f) -> f ∈ order) ->
  features.SetFeatureFlag order fg features = (fg', None) ->
  forall f, features.IsEnabled fg' f =
    if decide (f = features.PartitionTableUUID)
    then features.asked fg features features.PartitionTableUUID &&
         features.asked fg features features.GPTBasedUUID
    else features.asked fg features f.
Proof.
  unfold features.SetFeatureFlag. intros Hord H f.
  destruct (features.setFeatures fg features) as [fg1 [e|]] eqn:Hs; [done|].
  injection H as <-. cbn in Hord. rewrite features.validateLoop_spec by done.
  rewrite features.IsEnabled_closed.
  by rewrite !(features.setFeatures_ok _ _ _ Hs).
Qed.

(** A command line that turns PartitionTableUUID on and GPTBasedUUID off. *)
Lemma SetFeatureFlag_spec_witness :
  features.IsEnabled
    (features.SetFeatureFlag features.supportedFeatures features.NewFeatureGate
       ["PartitionTableUUID"; "GPTBasedUUID=false"; "APIService=yes"]).1
    features.PartitionTableUUID = false.
Proof.
  rewrite (SetFeatureFlag_spec features.supportedFeatures features.NewFeatureGate
    ["PartitionTableUUID"; "GPTBasedUUID=false"; "APIService=yes"]); [vm_compute; reflexivity| |vm_compute; reflexivity].
  intros f Hf. apply features.containsFeature_elem.
  cut (map_Forall (fun k _ => features.containsFeature features.supportedFeatures k = true)
    (features.setFeatures features.NewFeatureGate ["PartitionTableUUID"; "GPTBasedUUID=false"; "APIService=yes"]).1).
  { intros Hall. destruct Hf as [v Hv]. exact (Hall _ _ Hv). }
  apply map_Forall_to_list. vm_compute. repeat constructor.
Defined.
