(* ===== verification/Prog.v ===== *)
(** * Programs

    Code with effects is a tree of external calls: a program returns, panics, or makes
    a call and continues with its answer.  The calls are the operations of the API
    server, the operating system and the C libraries that the sources use; what they
    answer is left open here and is constrained, where a theorem needs it, by the laws
    of [ApiServer] or by the hypotheses of that theorem.

    [exec] runs a program against an oracle for the calls, so that concrete runs
    evaluate; [wp] is the weakest precondition of a program for any answers. *)

From Stdlib Require Import ZArith.
From stdpp Require Import base list strings gmap.
From S2P Require Import Prelude Types.

Local Open Scope string_scope.

(** ** Calls *)

(** gpt.Partition and gpt.Table of go-diskfs; sectors : uint64 *)
Record gptPartition := MkPartition { pStart : Z; pEnd : Z; pType : string; pLabel : string }.
Record gptTable := MkTable { LogicalSectorSize : Z; ProtectiveMBR : bool; tPartitions : list gptPartition }.

(** A device of libudev: the pointer to it, and what libudev knows of it *)
Record udevDevice := MkUdevDevice { udptr : Z; udProperty : string -> string; udDevtype : string }.

(** sg_io_hdr_t of the SCSI generic driver: what a caller fills in (the bytes behind
    [cmdp] and [dxferp] are part of it), and what the driver answers *)
Module sg.
Record sgIOHeader := MkSgIOHeader {
  interfaceID : Z; dxferDirection : Z; cmd : list Z; mxSBLen : Z; dxferLen : nat; timeout : Z
}.
Record sgIOReply := MkSgIOReply {
  status : Z; hostStatus : Z; driverStatus : Z; info : Z; data : list Z
}.
End sg.

(** driveInformationSAS_SATA of openSeaChest, as far as it is read: the strings are the
    bytes of the character arrays *)
Module drive.
Record driveInformation := MkDriveInformation {
  modelNumber : string; serialNumber : string; vendorID : string; firmwareRevision : string;
  worldWideName : Z; maxLBA : Z; logicalSectorSize : Z; physicalSectorSize : Z; rotationRate : Z;
  totalBytesRead : Z; totalBytesWritten : Z; deviceReportedUtilizationRate : Z; percentEnduranceUsed : Z;
  temperatureDataValid : bool; currentTemperature : Z;
  highestValid : bool; highestTemperature : Z; lowestValid : bool; lowestTemperature : Z
}.
End drive.

Inductive callE : Type -> Type :=
  (* API server: a write returns the stored object *)
  | BDGet (namespace name : string) : callE (res apis.BlockDevice)
  | BDList (namespace : option string) (sel : metav1.LabelSelector) : callE (res (list apis.BlockDevice))
  | BDCreate (bd : apis.BlockDevice) : callE (res apis.BlockDevice)
  | BDUpdate (bd : apis.BlockDevice) : callE (res apis.BlockDevice)
  | BDDelete (namespace name : string) : callE (res unit)
  | BDCGet (namespace name : string) : callE (res apis.BlockDeviceClaim)
  | BDCList (namespace : option string) : callE (res (list apis.BlockDeviceClaim))
  | BDCUpdate (bdc : apis.BlockDeviceClaim) : callE (res apis.BlockDeviceClaim)
  | JobGet (namespace name : string) : callE (res batchv1.Job)
  | JobCreate (job : batchv1.Job) : callE (res batchv1.Job)
  | JobDelete (namespace name : string) : callE (res unit)
  | NodeGet (name : string) : callE (res batchv1.Node)
  (* the libraries of the clients *)
  | GetConfig : callE (res unit)
  | NewManager (namespace : string) : callE (res unit)
  | AddToScheme : callE (res unit)
  | NewClient : callE (res unit)
  | SetupController (resource : string) : callE (res unit)
  | AddCheck (name : string) : callE (res unit)
  | ManagerStart : callE (res unit)
  | Listen (address : string) : callE (res unit)
  | Serve : callE (res unit)
  | ListenAndServe (port path : string) : callE (res unit)
  (* operating system *)
  | Hostname : callE (res string)
  | LookupEnv (name : string) : callE (option string)
  | ReadFile (path : string) : callE (res string)
  | ReadDir (path : string) : callE (res (list string))
  | EvalSymlinks (path : string) : callE (res string)
  | Stat (path : string) : callE (res (bool * Z))
  | CreateSparse (path : string) (size : Z) : callE (res unit)
  | OpenExcl (path : string) : callE (res unit)
  | OpenFile (path : string) : callE (res Z)
  | SeekStart (fd : Z) : callE (res Z)
  | ReadFull (fd : Z) (n : N) : callE (res string)
  | CloseFd (fd : Z) : callE (res unit)
  | CHeap : callE string       (* what lies behind a C buffer, up to a NUL *)
  | WriteFile (path content : string) : callE (res unit)
  | Processes : callE (res (list string))
  | Select (nfds : Z) (fds : list Z) : callE (Z * list Z)
  | EpollCreate : callE (res Z)
  | EpollCtl (epfd op fd events : Z) : callE (res unit)
  | EpollWait (epfd : Z) (maxevents : nat) : callE (list (Z * Z))
  (* libblkid *)
  | BlkidTag (devpath tag : string) : callE string
  (* libudev, SCSI generic driver, SeaChest *)
  | UdevNew : callE (option Z)
  | UdevUnref (udev : Z) : callE unit
  | UdevEnumerateNew (udev : Z) : callE (option Z)
  | UdevEnumerateFilter (enumerate : Z) (subsystem : string) : callE Z
  | UdevEnumerateScan (enumerate : Z) : callE Z
  | UdevEnumerateList (enumerate : Z) : callE (list string)
  | UdevEnumerateUnref (enumerate : Z) : callE unit
  | UdevFromSysPath (udev : Z) (syspath : string) : callE (option udevDevice)
  | UdevDeviceUnref (device : Z) : callE unit
  | UdevMonitorNew (udev : Z) (source : string) : callE (option Z)
  | UdevMonitorFilter (monitor : Z) (subsystem : string) : callE Z
  | UdevMonitorEnable (monitor : Z) : callE Z
  | UdevMonitorFd (monitor : Z) : callE Z
  | UdevReceive (monitor : Z) : callE (option (udevDevice * string))
  | UdevMonitorUnref (monitor : Z) : callE unit
  | SeachestGetDevice (devpath : string) : callE Z
  | SeachestDriveInformation (devpath : string) : callE (Z * drive.driveInformation)
  | SeachestCloseDevice (devpath : string) : callE Z
  | CapGet : callE (res Z)
  | SgIo (fd : Z) (header : sg.sgIOHeader) : callE (res sg.sgIOReply)
  (* go-diskfs on an open disk *)
  | DiskOpen (devpath : string) : callE (res unit)
  | DiskGetPartitionTable (devpath : string) : callE (res unit)
  | DiskPartition (devpath : string) (table : gptTable) : callE (res unit)
  (* other goroutines *)
  | GoRescan : callE unit.

(** ** Programs *)

Inductive prog (A : Type) :=
  | Ret (a : A)
  | Panic (msg : string)
  | Call (X : Type) (e : callE X) (k : X -> prog A).
Arguments Ret {A} a.
Arguments Panic {A} msg.
Arguments Call {A X} e k.

Fixpoint bind {A B} (p : prog A) (f : A -> prog B) : prog B :=
  match p with
  | Ret a => f a
  | Panic m => Panic m
  | Call e k => Call e (fun x => bind (k x) f)
  end.

Definition call {X} (e : callE X) : prog X := Call e Ret.

Declare Scope prog_scope.
Delimit Scope prog_scope with prog.
Notation "x <- p ;; q" := (bind p (fun x => q))
  (at level 100, p at next level, right associativity) : prog_scope.
Notation "' pat <- p ;; q" := (bind p (fun x => match x with pat => q end))
  (at level 100, pat pattern, p at next level, right associativity) : prog_scope.
Notation "p ;;; q" := (bind p (fun _ => q))
  (at level 100, right associativity) : prog_scope.
Local Open Scope prog_scope.

(** The effects of a loop over a slice, in order. *)
Fixpoint for_each {A S} (f : S -> A -> prog S) (s : S) (l : list A) : prog S :=
  match l with
  | [] => Ret s
  | x :: l => s <- f s x ;; for_each f s l
  end.

(** ** Running against an oracle *)

(** An oracle answers every call from its state. *)
Definition oracle (W : Type) := forall X, callE X -> W -> W * X.

(** The answers of a system that has nothing: no files, no objects. *)
Definition deaf X (e : callE X) : X :=
  match e in callE X return X with
  | BDGet _ _ | BDList _ _ | BDCreate _ | BDUpdate _ | BDDelete _ _ | BDCGet _ _ | BDCList _ | BDCUpdate _
  | JobGet _ _ | JobCreate _ | JobDelete _ _ | NodeGet _ | Hostname | ReadFile _ | ReadDir _ | EvalSymlinks _
  | GetConfig | NewManager _ | AddToScheme | NewClient | SetupController _ | AddCheck _ | ManagerStart | Listen _ | Serve | ListenAndServe _ _ | Processes | WriteFile _ _ | OpenFile _ | CloseFd _ | EpollCreate
  | EpollCtl _ _ _ _ | CapGet | SgIo _ _ | Stat _ | CreateSparse _ _ | OpenExcl _ | SeekStart _ | ReadFull _ _ | DiskOpen _ | DiskGetPartitionTable _
  | DiskPartition _ _ => inl ErrNotFound
  | LookupEnv _ => None
  | UdevNew | UdevEnumerateNew _ | UdevMonitorNew _ _ => None
  | UdevFromSysPath _ _ => None
  | UdevReceive _ => None
  | UdevEnumerateList _ => []
  | UdevUnref _ | UdevEnumerateUnref _ | UdevDeviceUnref _ | UdevMonitorUnref _ => tt
  | BlkidTag _ _ => ""
  | CHeap => ""
  | SeachestGetDevice _ | SeachestCloseDevice _ => 1%Z
  | SeachestDriveInformation _ => (1%Z, drive.MkDriveInformation "" "" "" "" 0 0 0 0 0 0 0 0 0 false 0 false 0 false 0)
  | EpollWait _ _ => []
  | UdevMonitorFilter _ _ | UdevMonitorEnable _ | UdevMonitorFd _ | UdevEnumerateFilter _ _ | UdevEnumerateScan _ => (-1)%Z
  | Select _ fds => ((-1)%Z, fds)
  | GoRescan => tt
  end.

(** ... but for the given files *)
Definition with_files (files : string -> res string) : oracle unit := fun X e w =>
  match e in callE X return unit * X with
  | ReadFile p => (w, files p)
  | e => (w, deaf _ e)
  end.

Inductive outcome (A : Type) := Returned (a : A) | Panicked (msg : string).
Arguments Returned {A} a.
Arguments Panicked {A} msg.

Fixpoint exec {W A} (o : oracle W) (p : prog A) (w : W) : W * outcome A :=
  match p with
  | Ret a => (w, Returned a)
  | Panic m => (w, Panicked m)
  | Call e k => let '(w, x) := o _ e w in exec o (k x) w
  end.

Lemma exec_bind {W A B} (o : oracle W) (p : prog A) (f : A -> prog B) w :
  exec o (bind p f) w =
  match exec o p w with
  | (w, Returned a) => exec o (f a) w
  | (w, Panicked m) => (w, Panicked m)
  end.
Proof.
  revert w. induction p as [a|m|X e k IH]; intros w; cbn; [done..|].
  destruct (o X e w) as [w' x]. apply IH.
Qed.

Section Exec.
Context {W : Type} (o : oracle W).

Lemma exec_call {X A} (e : callE X) (k : X -> prog A) w w' x :
  o X e w = (w', x) -> exec o (bind (call e) k) w = exec o (k x) w'.
Proof. intros Ho. cbn. by rewrite Ho. Qed.

Lemma exec_call_inv {X A} (e : callE X) (k : X -> prog A) w r :
  exec o (bind (call e) k) w = r -> exists w' x, o X e w = (w', x) /\ exec o (k x) w' = r.
Proof. cbn. destruct (o X e w) as [w' x]. eauto. Qed.

Lemma exec_bind_inv {A B} (p : prog A) (f : A -> prog B) w w' b :
  exec o (bind p f) w = (w', Returned b) ->
  exists w1 a, exec o p w = (w1, Returned a) /\ exec o (f a) w1 = (w', Returned b).
Proof.
  rewrite exec_bind. destruct (exec o p w) as [w1 [a|m]]; [|done]. eauto.
Qed.
End Exec.

(** ** Weakest preconditions

    What a program may assume and must guarantee about its calls, with a piece of
    knowledge [K] that grows with the answers: [may K e] is the obligation for making
    call [e], [says K e x] what is known of an answer [x], [learn K e x] the knowledge
    after it.  [panics] says whether a panic is allowed. *)
Record protocol := Protocol {
  know : Type;
  may : know -> forall X, callE X -> Prop;
  says : know -> forall X, callE X -> X -> Prop;
  learn : know -> forall X, callE X -> X -> know;
  panics : bool
}.

Section WP.
Context (P : protocol).

Fixpoint wp {A} (K : know P) (p : prog A) (Q : know P -> A -> Prop) : Prop :=
  match p with
  | Ret a => Q K a
  | Panic _ => panics P = true
  | Call e k => may P K _ e /\ forall x, says P K _ e x -> wp (learn P K _ e x) (k x) Q
  end.

Lemma wp_bind {A B} K (p : prog A) (f : A -> prog B) Q :
  wp K p (fun K a => wp K (f a) Q) -> wp K (bind p f) Q.
Proof.
  revert K. induction p as [a|m|X e k IH]; intros K; cbn; [done..|].
  intros [? Hk]. split; [done|]. intros x Hx. apply IH, Hk, Hx.
Qed.

Lemma wp_then {X B} K (e : callE X) (k : X -> prog B) Q :
  may P K X e -> (forall x, says P K X e x -> wp (learn P K X e x) (k x) Q) ->
  wp K (bind (call e) k) Q.
Proof. by split. Qed.

Lemma wp_mono {A} K (p : prog A) (Q R : know P -> A -> Prop) :
  (forall K a, Q K a -> R K a) -> wp K p Q -> wp K p R.
Proof.
  intros HQR. revert K. induction p as [a|m|X e k IH]; intros K; cbn; [auto..|].
  intros [? Hk]. split; [done|]. intros x Hx. apply IH, Hk, Hx.
Qed.

(** What the answers say only grows: with a preorder on knowledge under which the
    learning of the protocol is increasing, a postcondition may remember it. *)
Lemma wp_frame {A} (le : know P -> know P -> Prop) `{!PreOrder le} K (p : prog A) Q :
  (forall K X (e : callE X) x, le K (learn P K X e x)) ->
  wp K p Q -> wp K p (fun K' a => le K K' /\ Q K' a).
Proof.
  intros Hle. revert K. induction p as [a|m|X e k IH]; intros K; cbn; [|done|].
  { intros ?. by split. }
  intros [? Hk]. split; [done|]. intros x Hx.
  eapply wp_mono; [|apply IH, Hk, Hx]. cbn. intros K' a [? ?].
  split; [|done]. etransitivity; [apply Hle|done].
Qed.

(** The rule for a loop: an invariant every iteration keeps. *)
Lemma wp_for_each {A S} (I : know P -> S -> Prop) (f : S -> A -> prog S) K s l :
  (forall K s x, x ∈ l -> I K s -> wp K (f s x) I) ->
  I K s -> wp K (for_each f s l) I.
Proof.
  revert K s. induction l as [|x l IH]; intros K s Hf Hs; cbn; [done|].
  apply wp_bind. eapply wp_mono; [|apply Hf; [left|done]]. cbn.
  intros K' s' Hs'. apply IH; [|done]. intros. apply Hf; [by right|done].
Qed.
End WP.

(** ** Which calls a program can make *)

(** Every call [p] can make, for any answers, is one of [good]. *)
Fixpoint uses {A} (good : forall X, callE X -> bool) (p : prog A) : Prop :=
  match p with
  | Ret _ | Panic _ => True
  | Call e k => good _ e = true /\ forall x, uses good (k x)
  end.

Lemma uses_bind {A B} good (p : prog A) (f : A -> prog B) :
  uses good p -> (forall a, uses good (f a)) -> uses good (bind p f).
Proof.
  intros Hp Hf. induction p as [a|m|X e k IH]; cbn; [auto..|].
  destruct Hp as [? Hk]. split; [done|]. intros x. apply IH, Hk.
Qed.

Lemma uses_call {X} (good : forall X, callE X -> bool) (e : callE X) :
  good _ e = true -> uses good (call e).
Proof. by split. Qed.

Lemma uses_for_each {A S} good (f : S -> A -> prog S) s l :
  (forall s x, x ∈ l -> uses good (f s x)) -> uses good (for_each f s l).
Proof.
  revert s. induction l as [|x l IH]; intros s Hf; cbn; [done|].
  apply uses_bind; [apply Hf; left|]. intros a. apply IH. intros. apply Hf. by right.
Qed.

Lemma uses_weaken {A} (good good' : forall X, callE X -> bool) (p : prog A) :
  (forall X (e : callE X), good X e = true -> good' X e = true) -> uses good p -> uses good' p.
Proof.
  intros Hg. induction p as [a|m|X e k IH]; cbn; [auto..|]. intros [? Hk]. split; [auto|]. intros x. apply IH, Hk.
Qed.

(** A program whose calls are all allowed follows a protocol. *)
Lemma uses_wp (P : protocol) {A} (good : forall X, callE X -> bool) K (p : prog A) :
  panics P = true -> (forall K X (e : callE X), good X e = true -> may P K X e) ->
  uses good p -> wp P K p (fun _ _ => True).
Proof.
  intros Hp Hm. revert K. induction p as [a|m|X e k IH]; intros K; cbn; [auto..|].
  intros [? Hk]. split; [auto|]. intros x _. apply IH, Hk.
Qed.

(** A program whose calls teach nothing keeps what is known. *)
Lemma uses_wp_keeps (P : protocol) {A} (good : forall X, callE X -> bool) K (p : prog A) :
  panics P = true -> (forall X (e : callE X), good X e = true -> may P K X e /\ forall x, learn P K X e x = K) ->
  uses good p -> wp P K p (fun K' _ => K' = K).
Proof.
  intros Hp Hm. induction p as [a|m|X e k IH]; cbn; [auto..|].
  intros [Hg Hk]. destruct (Hm _ _ Hg) as [Hmay Hl]. split; [done|]. intros x _. rewrite Hl. apply IH, Hk.
Qed.

Create HintDb uses.

(** Walks through the branches of a program; calls of other programs are found in the
    hint database. *)
Ltac uses_step :=
  match goal with
  | |- uses _ (Ret _) => exact I
  | |- uses _ (Panic _) => exact I
  | |- uses _ (call _) => apply uses_call; reflexivity
  | |- uses _ (bind _ _) => apply uses_bind; [|intros]
  | |- uses _ (for_each _ _ _) => apply uses_for_each; intros
  | |- uses _ (match ?x with _ => _ end) => destruct x
  | |- uses _ (let _ := _ in _) => intros
  | _ => solve [eauto with uses]
  end.
Ltac uses_solve := repeat uses_step.

(** What a program can return, for any answers. *)
Fixpoint returns {A} (p : prog A) (R : A -> Prop) : Prop :=
  match p with
  | Ret a => R a
  | Panic _ => True
  | Call e k => forall x, returns (k x) R
  end.

Lemma returns_bind {A B} (p : prog A) (f : A -> prog B) S R :
  returns p S -> (forall a, S a -> returns (f a) R) -> returns (bind p f) R.
Proof.
  intros Hp Hf. induction p as [a|m|X e k IH]; cbn; [auto..|]. intros x. apply IH, Hp.
Qed.

Lemma returns_any {A} (p : prog A) : returns p (fun _ => True).
Proof. induction p as [a|m|X e k IH]; cbn; auto. Qed.

Lemma returns_mono {A} (p : prog A) (R S : A -> Prop) :
  (forall a, R a -> S a) -> returns p R -> returns p S.
Proof. intros HRS. induction p as [a|m|X e k IH]; cbn; auto. Qed.

Lemma returns_exec {W A} (o : oracle W) (p : prog A) R w w' a :
  returns p R -> exec o p w = (w', Returned a) -> R a.
Proof.
  revert w. induction p as [b|m|X e k IH]; intros w Hp; cbn.
  - intros [= _ <-]. done.
  - done.
  - destruct (o X e w) as [w1 x]. apply IH, Hp.
Qed.

Lemma uses_returns_wp (P : protocol) {A} (good : forall X, callE X -> bool) K (p : prog A) R :
  panics P = true -> (forall K X (e : callE X), good X e = true -> may P K X e) ->
  uses good p -> returns p R -> wp P K p (fun _ a => R a).
Proof.
  intros Hp Hm. revert K. induction p as [a|m|X e k IH]; intros K; cbn; [auto..|].
  intros [? Hk] Hr. split; [auto|]. intros x _. apply IH; [apply Hk|apply Hr].
Qed.

Lemma uses_returns_keeps (P : protocol) {A} (good : forall X, callE X -> bool) K (p : prog A) R :
  panics P = true -> (forall X (e : callE X), good X e = true -> may P K X e /\ forall x, learn P K X e x = K) ->
  uses good p -> returns p R -> wp P K p (fun K' a => K' = K /\ R a).
Proof.
  intros Hp Hm. induction p as [a|m|X e k IH]; cbn; [auto..|].
  intros [Hg Hk] Hr. destruct (Hm _ _ Hg) as [Hmay Hl]. split; [done|]. intros x _. rewrite Hl.
  apply IH; [apply Hk|apply Hr].
Qed.

(** A program that does not panic, for any answers. *)
Fixpoint total {A} (p : prog A) : Prop :=
  match p with
  | Ret _ => True
  | Panic _ => False
  | Call e k => forall x, total (k x)
  end.

Lemma total_bind {A B} (p : prog A) (f : A -> prog B) : total p -> (forall a, total (f a)) -> total (bind p f).
Proof. intros Hp Hf. induction p as [a|m|X e k IH]; cbn; [auto|done|]. intros x. apply IH, Hp. Qed.

Lemma total_for_each {A S} (f : S -> A -> prog S) s l : (forall s x, total (f s x)) -> total (for_each f s l).
Proof. intros Hf. revert s. induction l as [|x l IH]; intros s; cbn; [done|]. by apply total_bind. Qed.

Lemma total_exec {W A} (o : oracle W) (p : prog A) w : total p -> exists w' a, exec o p w = (w', Returned a).
Proof.
  revert w. induction p as [a|m|X e k IH]; intros w Hp; cbn; [by exists w, a|done|].
  destruct (o X e w) as [w1 x]. apply IH, Hp.
Qed.

(** Walks to the results of a program, forgetting what calls return. *)
Ltac returns_step :=
  match goal with
  | |- returns (bind _ _) _ => eapply returns_bind; [apply returns_any|intros ? _]
  | |- returns (match ?x with _ => _ end) _ => destruct x eqn:?
  | |- returns (Ret _) _ => cbn [returns]
  | |- returns (Panic _) _ => exact I
  end.
