(* ===== verification/K8sLib.v ===== *)
(** * Library functions of Kubernetes

    Pure functions of the Kubernetes libraries that the sources call.  They are
    parameters of the model; the laws the code relies on are stated apart, so that a
    theorem names the ones it uses. *)

From Stdlib Require Import ZArith.
From stdpp Require Import base list strings gmap.
From S2P Require Import Prelude Types.

Local Open Scope string_scope.

Class K8sLib := {
  (** jsonpath: parse an expression and format (with %v) the values it finds *)
  FindResults : string -> apis.BlockDevice -> res (list (list string));
  (** validation.IsValidLabelValue: the reasons why a label value is not valid *)
  IsValidLabelValue : string -> list string;
  (** metav1.LabelSelectorAsSelector: an error for a malformed selector *)
  LabelSelectorAsSelector : metav1.LabelSelector -> res metav1.LabelSelector;
  (** labels.Selector.Matches *)
  Matches : metav1.LabelSelector -> option strmap -> bool;
  (** a selector with the single requirement that a label does not exist *)
  MatchesDoesNotExist : string -> option strmap -> bool;
  (** reference.GetReference *)
  GetReference : apis.BlockDeviceClaim -> res metav1.ObjectReference
}.

(** A reference names the object it was made from. *)
Class ReferenceLaws `{K8sLib} := {
  GetReference_name c r : GetReference c = inr r -> metav1.RefName r = apis.bdc_name c;
  GetReference_uid c r : GetReference c = inr r -> metav1.RefUID r = metav1.UID (apis.CObjectMeta c);
  GetReference_kind c r :
    GetReference c = inr r -> metav1.Kind (apis.CTypeMeta c) <> "" ->
    metav1.RefKind r = metav1.Kind (apis.CTypeMeta c)
}.

(** A selector that converts matches only objects that carry its match labels. *)
Class SelectorLaws `{K8sLib} := {
  LabelSelectorAsSelector_id s s' : LabelSelectorAsSelector s = inr s' -> s' = s;
  Matches_labels s ls k v :
    Matches s ls = true -> map_lookup (metav1.MatchLabels s) k = Some v ->
    map_lookup ls k = Some v
}.

Class RequirementLaws `{K8sLib} := {
  MatchesDoesNotExist_iff k ls : MatchesDoesNotExist k ls = true <-> map_lookup ls k = None
}.

(** ** A concrete library

    Enough of the libraries to evaluate concrete runs: no jsonpath results, every label
    value valid, equality-based selectors, references filled from the object. *)

Definition matches_all (want : option strmap) (have : option strmap) : bool :=
  match want with
  | None => true
  | Some want =>
      forallb (fun kv => bool_decide (map_lookup have kv.1 = Some kv.2)) (map_to_list want)
  end.

Definition demo_reference (c : apis.BlockDeviceClaim) : metav1.ObjectReference :=
  metav1.MkObjectReference
    (metav1.Kind (apis.CTypeMeta c)) (metav1.Namespace (apis.CObjectMeta c)) (apis.bdc_name c)
    (metav1.UID (apis.CObjectMeta c)) (metav1.APIVersion (apis.CTypeMeta c)) (apis.bdc_rv c).

Definition DemoLib : K8sLib := {|
  FindResults := fun _ _ => inr [];
  IsValidLabelValue := fun _ => [];
  LabelSelectorAsSelector := fun s => inr s;
  Matches := fun s ls => matches_all (metav1.MatchLabels s) ls;
  MatchesDoesNotExist := fun k ls => bool_decide (map_lookup ls k = None);
  GetReference := fun c => inr (demo_reference c)
|}.

Lemma DemoLib_requirement : @RequirementLaws DemoLib.
Proof. constructor. intros k ls. apply bool_decide_eq_true. Qed.

Lemma DemoLib_reference : @ReferenceLaws DemoLib.
Proof. constructor; cbn; intros; by simplify_eq. Qed.

Lemma DemoLib_selector : @SelectorLaws DemoLib.
Proof.
  constructor; cbn.
  - intros s s' [= ->]. done.
  - intros s ls k v Hm Hk. destruct (metav1.MatchLabels s) as [m|]; [|done]. cbn in *.
    rewrite forallb_elem in Hm. specialize (Hm (k, v)).
    apply bool_decide_eq_true in Hm; [done|]. by apply elem_of_map_to_list.
Qed.
