(* ===== verification/Controller.v ===== *)
(** * cmd/ndm_daemonset/controller: configuration, filters, probes

    The read-only part of the daemon's Controller, the registration of filters and
    probes, and how they are applied to a device.  A filter or a probe is a program:
    it may read files, call libraries or panic. *)

From Stdlib Require Import ZArith Ascii Lia.
From stdpp Require Import base list strings gmap sorting.
From S2P Require Import Prelude GoStrings Types Prog Util Regex.

Local Open Scope string_scope.
Local Open Scope prog_scope.

(** ** ndmconfig.go *)

Record ProbeConfig := MkProbeConfig { pcKey : string; pcName : string; pcState : string }.
Record FilterConfig := MkFilterConfig {
  fcKey : string; fcName : string; fcState : string; fcInclude : string; fcExclude : string
}.
Record TagConfig := MkTagConfig { tcName : string; tcType : string; tcPattern : string; tcTagName : string }.
Record MetaConfig := MkMetaConfig { mcKey : string; mcName : string; mcType : string; mcPattern : string }.
Record NodeDiskManagerConfig := MkConfig {
  ProbeConfigs : list ProbeConfig;
  FilterConfigs : list FilterConfig;
  TagConfigs : list TagConfig;
  MetaConfigs : list MetaConfig
}.

Section SetNDMConfig.
(** encoding/json and the yaml package decode the file. *)
Context (json_Valid : string -> bool)
  (json_Unmarshal yaml_Unmarshal : string -> res NodeDiskManagerConfig).

Definition SetNDMConfig (ConfigFilePath : string) : prog (option NodeDiskManagerConfig) :=
  data <- call (ReadFile ConfigFilePath) ;;
  match data with
  | inl _ => Ret None
  | inr data =>
      match (if json_Valid data then json_Unmarshal data else yaml_Unmarshal data) with
      | inl _ => Ret None
      | inr ndmConfig => Ret (Some ndmConfig)
      end
  end.
End SetNDMConfig.

(** ** Filters and probes *)

(** filter.go: a filter's Include and Exclude *)
Record Filter := MkFilter {
  fName : string;
  fState : bool;
  Include : blockdevice.BlockDevice -> prog bool;
  Exclude : blockdevice.BlockDevice -> prog bool
}.

(** probe.go: a probe fills in what it knows of a device *)
Record Probe := MkProbe {
  Priority : Z;
  pName : string;
  pState : bool;
  Fill : blockdevice.BlockDevice -> prog blockdevice.BlockDevice
}.

(** The parts of Controller that the handlers only read.  [Gates] is the global
    features.FeatureGates. *)
Record Controller := MkController {
  cNamespace : string;
  NDMConfig : option NodeDiskManagerConfig;
  Filters : list Filter;
  Probes : list Probe;
  NodeAttributes : strmap;
  Gates : gmap string bool
}.

#[global] Instance eta_Controller : Eta Controller := fun r =>
  MkController (cNamespace r) (NDMConfig r) (Filters r) (Probes r) (NodeAttributes r) (Gates r).

(** *** filter.go *)

Definition ApplyFilter1 (f : Filter) (bd : blockdevice.BlockDevice) : prog bool :=
  b <- Include f bd ;; if b then Exclude f bd else Ret false.

Definition AddNewFilter (c : Controller) (f : Filter) : Controller :=
  c <| Filters ::= fun l => (l ++ [f])%list |>.

Fixpoint listFilter (l : list Filter) : list Filter :=
  match l with
  | [] => []
  | f :: l => if fState f then f :: listFilter l else listFilter l
  end.
Definition ListFilter (c : Controller) : list Filter := listFilter (Filters c).

Fixpoint applyFilters (l : list Filter) (bd : blockdevice.BlockDevice) : prog bool :=
  match l with
  | [] => Ret true
  | f :: l => b <- ApplyFilter1 f bd ;; if negb b then Ret false else applyFilters l bd
  end.
Definition ApplyFilter (c : Controller) (bd : blockdevice.BlockDevice) : prog bool :=
  applyFilters (ListFilter c) bd.

(** *** probe.go *)

(** sort.Sort on sortableProbes.  For the number of probes of the daemon Go sorts by
    insertion: the new element moves left while it is smaller than its neighbour. *)
Fixpoint insertProbe (p : Probe) (l : list Probe) : list Probe :=
  match l with
  | [] => [p]
  | q :: l => if decide (Priority p < Priority q)%Z then p :: q :: l else q :: insertProbe p l
  end.
Fixpoint sortProbes_aux (acc l : list Probe) : list Probe :=
  match l with
  | [] => acc
  | p :: l => sortProbes_aux (insertProbe p acc) l
  end.
Definition sortProbes (l : list Probe) : list Probe := sortProbes_aux [] l.

Definition AddNewProbe (c : Controller) (p : Probe) : Controller :=
  c <| Probes ::= fun l => sortProbes (l ++ [p])%list |>.

Fixpoint listProbe (allProbes : bool) (requested : list string) (l : list Probe) : list Probe :=
  match l with
  | [] => []
  | p :: l =>
      if pState p && (allProbes || Contains requested (pName p))
      then p :: listProbe allProbes requested l
      else listProbe allProbes requested l
  end.
Definition ListProbe (c : Controller) (requested : list string) : list Probe :=
  listProbe (bool_decide (length requested = 0)) requested (Probes c).

Definition FillBlockDeviceDetails (c : Controller) (bd : blockdevice.BlockDevice)
    (requested : list string) : prog blockdevice.BlockDevice :=
  let bd := bd <| blockdevice.NodeAttributes := NodeAttributes c |>
               <| blockdevice.Labels := Some ∅ |> in
  for_each (fun bd p => Fill p bd) bd (ListProbe c requested).

(** *** controller.go *)

Definition FalseString := "false".
Definition TrueString := "true".
Definition NDMBlockDeviceKind := "BlockDevice".
Definition HostNameKey := "hostname".
Definition NodeNameKey := "nodename".
Definition KubernetesHostNameLabel := "kubernetes.io/hostname".
Definition NDMVersion := "openebs.io/v1alpha1".
Definition OpenEBSReconcile := "openebs.io/reconcile".
Definition NDMNotPartitioned := "No".
Definition NDMActive := "Active".
Definition NDMInactive := "Inactive".
Definition NDMUnknown := "Unknown".
Definition NDMLabelPrefix := "ndm.io/".
Definition NDMDeviceTypeKey := "ndm.io/blockdevice-type".
Definition NDMManagedKey := "ndm.io/managed".
Definition nodeLabelsKey := "node-labels".
Definition deviceLabelsKey := "device-labels".
Definition NDMDefaultDeviceType := "blockdevice".
Definition BlockDeviceTagLabel := "openebs.io/block-device-tag".

Definition getNodeName : prog (res string) :=
  v <- call (LookupEnv "NODE_NAME") ;;
  Ret (match v with None => inl (Err "error getting node name") | Some v => inr v end).

Definition getNamespace : prog (res string) :=
  v <- call (LookupEnv "NAMESPACE") ;;
  Ret (match v with None => inl (Err "error getting namespace") | Some v => inr v end).

(** The patterns of the last node-labels entry of the configuration. *)
Definition labelPattern (cfg : option NodeDiskManagerConfig) : list string :=
  match cfg with
  | None => []
  | Some cfg =>
      fold_left (fun acc m => if decide (mcKey m = nodeLabelsKey) then Split (mcPattern m) ","%char else acc)
        (MetaConfigs cfg) []
  end.

(** Whether a node label is copied: the first pattern that matches, with a non-empty
    value; a pattern that is not a regular expression panics. *)
Fixpoint labelMatches (patterns : list string) (key value : string) : option bool :=
  match patterns with
  | [] => Some false
  | pattern :: patterns =>
      m ← IsMatchRegex pattern key;
      if m && negb (bool_decide (value = "")) then Some true else labelMatches patterns key value
  end.

Fixpoint copyLabels (patterns : list string) (labels : list (string * string)) (attrs : strmap)
    : option strmap :=
  match labels with
  | [] => Some attrs
  | (key, value) :: labels =>
      m ← labelMatches patterns key value;
      copyLabels patterns labels (if m : bool then <[key := value]> attrs else attrs)
  end.

Definition setNodeLabels (c : Controller) : prog (Controller * option err) :=
  let nodeName := default "" (NodeAttributes c !! NodeNameKey) in
  node <- call (NodeGet nodeName) ;;
  match node with
  | inl e => Ret (c, Some e)
  | inr node =>
      let hostName := map_get (batchv1.NodeLabels node) KubernetesHostNameLabel in
      let c := c <| NodeAttributes ::= fun m =>
                 <[HostNameKey := if decide (hostName = "") then nodeName else hostName]> m |> in
      let patterns := labelPattern (NDMConfig c) in
      if decide (0 < length patterns) then
        match copyLabels patterns (map_to_list (default ∅ (batchv1.NodeLabels node))) (NodeAttributes c) with
        | None => Panic "regexp: Compile"
        | Some attrs => Ret (c <| NodeAttributes := attrs |>, None)
        end
      else Ret (c, None)
  end.

Definition setNodeAttributes (c : Controller) : prog (Controller * option err) :=
  nodeName <- getNodeName ;;
  match nodeName with
  | inl _ => Ret (c, Some (Err "unable to set node attributes"))
  | inr nodeName =>
      let c := c <| NodeAttributes ::= fun m => <[NodeNameKey := nodeName]> m |> in
      '(c, e) <- setNodeLabels c ;;
      match e with
      | Some _ => Ret (c, Some (Err "unable to set node attributes"))
      | None => Ret (c, None)
      end
  end.

(** ** Probe order *)

Definition probes_sorted (l : list Probe) : Prop :=
  StronglySorted (fun p q => Priority p <= Priority q)%Z l.

Lemma insertProbe_perm p l : insertProbe p l ≡ₚ p :: l.
Proof.
  induction l as [|q l IH]; cbn; [done|]. case_decide; [done|].
  rewrite IH. apply Permutation_swap.
Qed.

Lemma insertProbe_sorted p l : probes_sorted l -> probes_sorted (insertProbe p l).
Proof.
  unfold probes_sorted. induction l as [|q l IH]; cbn; intros Hs.
  { repeat constructor. }
  apply StronglySorted_inv in Hs as [Hs Hq]. case_decide.
  - constructor; [by constructor|]. constructor; [lia|].
    eapply Forall_impl; [|exact Hq]. cbn. lia.
  - constructor; [by apply IH|]. rewrite insertProbe_perm. constructor; [lia|done].
Qed.

Lemma sortProbes_aux_spec acc l :
  probes_sorted acc -> probes_sorted (sortProbes_aux acc l) /\ sortProbes_aux acc l ≡ₚ (l ++ acc)%list.
Proof.
  revert acc. induction l as [|p l IH]; intros acc Hacc; cbn; [done|].
  destruct (IH (insertProbe p acc)) as [Hs Hp]; [by apply insertProbe_sorted|].
  split; [done|]. rewrite Hp, insertProbe_perm. apply Permutation_sym, Permutation_middle.
Qed.

Lemma AddNewProbe_perm c p :
  probes_sorted (Probes (AddNewProbe c p)) /\ Probes (AddNewProbe c p) ≡ₚ p :: Probes c.
Proof.
  destruct (sortProbes_aux_spec [] (Probes c ++ [p])%list) as [Hs Hp]; [constructor|].
  split; [exact Hs|]. change (sortProbes_aux [] (Probes c ++ [p])%list ≡ₚ p :: Probes c).
  rewrite Hp, app_nil_r, Permutation_app_comm. done.
Qed.

Lemma listFilter_sub l f : f ∈ listFilter l -> f ∈ l.
Proof. induction l as [|g l IH]; cbn; [done|]. case_match; set_solver. Qed.

Lemma listProbe_filter all req l :
  listProbe all req l =
  filter (fun p => pState p = true /\ (all = true \/ pName p ∈ req)) l.
Proof.
  induction l as [|p l IH]; [done|]. cbn [listProbe]. rewrite IH.
  destruct (pState p && (all || Contains req (pName p))) eqn:Hb.
  - rewrite filter_cons_True; [done|].
    rewrite andb_true_iff, orb_true_iff, Contains_elem in Hb. done.
  - rewrite filter_cons_False; [done|]. intros [Hs Hr].
    rewrite Hs, andb_true_l, orb_false_iff, Contains_elem_false in Hb. naive_solver.
Qed.
