(* ===== verification/Store.v ===== *)
(** * cmd/ndm_daemonset/controller: block device resources

    The conversion of a device into its API resource (blockdevice.go,
    disk_to_device_convertor.go) and the operations of the daemon on the resources in
    etcd (blockdevicestore.go, sparsefilegenerator.go). *)

From Stdlib Require Import ZArith Ascii Lia.
From stdpp Require Import base list strings gmap.
From S2P Require Import Prelude GoStrings Md5 Types Prog Util K8sLib Controller.

Local Open Scope string_scope.
Local Open Scope prog_scope.

(** ** blockdevice.go *)

Record FSInfo := MkFSInfo { fsFileSystem : string; fsMountPoint : string }.

Record DeviceInfo := MkDeviceInfo {
  diNodeAttributes : strmap;
  diLabels : option strmap;
  diUUID : string;
  diCapacity : Z;
  diModel : string;
  diSerial : string;
  diVendor : string;
  diPath : string;
  ByIdDevLinks : list string;
  ByPathDevLinks : list string;
  diFirmwareRevision : string;
  diLogicalBlockSize : Z;
  diPhysicalBlockSize : Z;
  diHardwareSectorSize : Z;
  diCompliance : string;
  diDeviceType : string;
  diDriveType : string;
  PartitionType : string;
  FileSystemInfo : FSInfo
}.

#[global] Instance eta_DeviceInfo : Eta DeviceInfo := fun r =>
  MkDeviceInfo (diNodeAttributes r) (diLabels r) (diUUID r) (diCapacity r) (diModel r) (diSerial r)
    (diVendor r) (diPath r) (ByIdDevLinks r) (ByPathDevLinks r) (diFirmwareRevision r)
    (diLogicalBlockSize r) (diPhysicalBlockSize r) (diHardwareSectorSize r) (diCompliance r)
    (diDeviceType r) (diDriveType r) (PartitionType r) (FileSystemInfo r).

Definition NewDeviceInfo : DeviceInfo :=
  MkDeviceInfo ∅ None "" 0 "" "" "" "" [] [] "" 0 0 0 "" "" "" "" (MkFSInfo "" "").

Definition BY_ID_LINK := "by-id".
Definition BY_PATH_LINK := "by-path".

(** disk_to_device_convertor.go: a later link of a kind replaces an earlier one *)
Fixpoint copyDevLinks (links : list blockdevice.DevLink) (di : DeviceInfo) : DeviceInfo :=
  match links with
  | [] => di
  | devlink :: links =>
      copyDevLinks links
        (if decide (blockdevice.Kind devlink = BY_ID_LINK)
         then di <| ByIdDevLinks := blockdevice.Links devlink |>
         else if decide (blockdevice.Kind devlink = BY_PATH_LINK)
         then di <| ByPathDevLinks := blockdevice.Links devlink |>
         else di)
  end.

Definition NewDeviceInfoFromBlockDevice (bd : blockdevice.BlockDevice) : DeviceInfo :=
  let attr := blockdevice.DeviceAttributes bd in
  let di := NewDeviceInfo
    <| diNodeAttributes := blockdevice.NodeAttributes bd |>
    <| diUUID := blockdevice.uuid_of bd |>
    <| diLabels := blockdevice.Labels bd |>
    <| diCapacity := blockdevice.Storage (blockdevice.Capacity bd) |>
    <| diModel := blockdevice.Model attr |>
    <| diSerial := blockdevice.Serial attr |>
    <| diVendor := blockdevice.Vendor attr |>
    <| diPath := blockdevice.devpath bd |>
    <| diFirmwareRevision := blockdevice.FirmwareRevision attr |> in
  let di := copyDevLinks (blockdevice.DevLinks bd) di in
  di <| diLogicalBlockSize := blockdevice.LogicalBlockSize attr |>
     <| diPhysicalBlockSize := blockdevice.PhysicalBlockSize attr |>
     <| diHardwareSectorSize := blockdevice.HardwareSectorSize attr |>
     <| diDriveType := blockdevice.DriveType attr |>
     <| diDeviceType := blockdevice.DeviceType attr |>
     <| diCompliance := blockdevice.Compliance attr |>
     <| FileSystemInfo :=
          MkFSInfo (blockdevice.FileSystem (blockdevice.FSInfo bd))
            (match blockdevice.MountPoint (blockdevice.FSInfo bd) with [] => "" | m :: _ => m end) |>.

Definition getDeviceDetails (di : DeviceInfo) : apis.DeviceDetails :=
  apis.MkDeviceDetails (diDeviceType di) (diDriveType di) (diLogicalBlockSize di)
    (diPhysicalBlockSize di) (diHardwareSectorSize di) (diModel di) (diCompliance di)
    (diSerial di) (diVendor di) (diFirmwareRevision di).

Definition getDeviceCapacity (di : DeviceInfo) : apis.DeviceCapacity :=
  apis.MkDeviceCapacity (diCapacity di) (diPhysicalBlockSize di) (diLogicalBlockSize di).

Definition getDeviceLinks (di : DeviceInfo) : list apis.DeviceDevLink :=
  ((if decide (length (ByIdDevLinks di) <> 0) then [apis.MkDeviceDevLink "by-id" (ByIdDevLinks di)] else []) ++
   (if decide (length (ByPathDevLinks di) <> 0) then [apis.MkDeviceDevLink "by-path" (ByPathDevLinks di)] else []))%list.

Definition getFileSystemInfo (fs : FSInfo) : apis.FileSystemInfo :=
  apis.MkFileSystemInfo (fsFileSystem fs) (fsMountPoint fs).

Definition getDeviceSpec (di : DeviceInfo) : apis.DeviceSpec :=
  apis.empty_DeviceSpec
    <| apis.NodeAttributes := apis.MkNodeAttribute (default "" (diNodeAttributes di !! NodeNameKey)) |>
    <| apis.Path := diPath di |>
    <| apis.Details := getDeviceDetails di |>
    <| apis.Capacity := getDeviceCapacity di |>
    <| apis.DevLinks := getDeviceLinks di |>
    <| apis.Partitioned := NDMNotPartitioned |>
    <| apis.FileSystem := getFileSystemInfo (FileSystemInfo di) |>.

(** The node attributes as labels: the hostname attribute becomes the Kubernetes
    hostname label.  Go writes them in map order, which matters only if an attribute is
    itself called like that label; the model writes the hostname last. *)
Definition attributeLabels (attrs : strmap) : strmap :=
  match attrs !! HostNameKey with
  | Some v => <[KubernetesHostNameLabel := v]> (delete HostNameKey attrs)
  | None => attrs
  end.

Definition getObjectMeta (di : DeviceInfo) : metav1.ObjectMetaT :=
  let labels := attributeLabels (diNodeAttributes di) in
  let labels := <[NDMDeviceTypeKey := NDMDefaultDeviceType]> labels in
  let labels := <[NDMManagedKey := TrueString]> labels in
  let labels := default ∅ (diLabels di) ∪ labels in
  metav1.empty_ObjectMetaT
    <| metav1.Labels := Some labels |>
    <| metav1.Annotations := Some ∅ |>
    <| metav1.Name := diUUID di |>.

Definition getTypeMeta (di : DeviceInfo) : metav1.TypeMetaT :=
  metav1.MkTypeMetaT NDMBlockDeviceKind NDMVersion.

Definition getStatus (di : DeviceInfo) : apis.DeviceStatus :=
  apis.MkDeviceStatus apis.BlockDeviceUnclaimed NDMActive.

(** RelaxedJSONPathExpression: the submatches of the two alternatives of the regular
    expression; a leading dot is dropped when something follows it. *)
Definition has_brace (c : ascii) : bool := bool_decide (c = "{"%char) || bool_decide (c = "}"%char).
Definition no_braces (s : string) : bool := all_bytes (fun c => negb (has_brace c)) s.
Definition drop_dot (s : string) : string :=
  match s with
  | String "." (String c s') => String c s'
  | _ => s
  end.
Fixpoint drop_last (s : string) : option (string * ascii) :=
  match s with
  | EmptyString => None
  | String c s' =>
      match drop_last s' with
      | None => Some ("", c)
      | Some (t, d) => Some (String c t, d)
      end
  end.
Definition jsonSubmatch (s : string) : option string :=
  let plain := if no_braces s && negb (bool_decide (s = "")) then Some (drop_dot s) else None in
  match s with
  | String "{" s' =>
      match drop_last s' with
      | Some (t, "}"%char) =>
          if no_braces t && negb (bool_decide (t = "")) then Some (drop_dot t) else plain
      | _ => plain
      end
  | _ => plain
  end.
Definition RelaxedJSONPathExpression (pathExpression : string) : res string :=
  if decide (String.length pathExpression = 0) then inr pathExpression
  else match jsonSubmatch pathExpression with
       | None => inl (Err "unexpected path string")
       | Some fieldSpec => inr ("{." +:+ fieldSpec +:+ "}")
       end.

Section WithLib.
Context `{K8sLib}.

(** The last device-labels entry of the configuration, split at commas. *)
Definition JsonPathFields (cfg : option NodeDiskManagerConfig) : list string :=
  match cfg with
  | None => []
  | Some cfg =>
      fold_left (fun acc m => if decide (mcKey m = deviceLabelsKey) then Split (mcType m) ","%char else acc)
        (MetaConfigs cfg) []
  end.

Definition addBdLabel (bd : apis.BlockDevice) (jsonPath : string) : res apis.BlockDevice :=
  match RelaxedJSONPathExpression (TrimSpace jsonPath) with
  | inl e => inl e
  | inr fields =>
      match FindResults fields bd with
      | inl e => inl e
      | inr values =>
          match values with
          | (_ :: _) :: _ =>
              let value := TrimSuffix (Join (concat values) ",") "," in
              if decide (0 < length (IsValidLabelValue value))
              then inl (Err "invalid Label found")
              else
                let last := List.last (Split jsonPath "."%char) "" in
                if negb (bool_decide (last = "")) && negb (bool_decide (value = ""))
                then inr (bd <| apis.ObjectMeta ::= fun m =>
                            m <| metav1.Labels ::= fun l =>
                              Some (<[NDMLabelPrefix +:+ last := value]> (default ∅ l)) |> |>)
                else inr bd
          | _ => inr bd
          end
      end
  end.

Fixpoint addBdLabels (bd : apis.BlockDevice) (paths : list string) : res apis.BlockDevice :=
  match paths with
  | [] => inr bd
  | jsonPath :: paths =>
      match addBdLabel bd jsonPath with
      | inl e => inl e
      | inr bd => addBdLabels bd paths
      end
  end.

Definition ToDevice (c : Controller) (di : DeviceInfo) : res apis.BlockDevice :=
  let blockDevice := apis.MkBlockDevice (getTypeMeta di) (getObjectMeta di) (getDeviceSpec di) (getStatus di) in
  match addBdLabels blockDevice (JsonPathFields (NDMConfig c)) with
  | inl _ => inl (Err "error in adding labels to the blockdevice")
  | inr bd => inr bd
  end.
End WithLib.

(** ** blockdevicestore.go *)

(** mergeMetadata: the old metadata with the new labels and annotations written over
    its own. *)
Definition mergeMap (new old : option strmap) : option strmap :=
  Some (default ∅ new ∪ default ∅ old).

Definition mergeMetadata (newMetadata oldMetadata : metav1.ObjectMetaT) : metav1.ObjectMetaT :=
  oldMetadata
    <| metav1.Labels ::= mergeMap (metav1.Labels newMetadata) |>
    <| metav1.Annotations ::= mergeMap (metav1.Annotations newMetadata) |>.

(** mergeMetadata writes into the maps of the object it was given.  These are the maps
    that object has afterwards: a nil map is replaced by a fresh one in the result only. *)
Definition mergedInPlace (new old : apis.BlockDevice) : apis.BlockDevice :=
  let over n o := match o with Some m => mergeMap n (Some m) | None => None end in
  old <| apis.ObjectMeta ::= fun m =>
        m <| metav1.Labels ::= over (apis.bd_labels new) |>
          <| metav1.Annotations ::= over (apis.bd_annotations new) |> |>.

Definition mergeBlockDeviceData (newBD oldBD : apis.BlockDevice) : apis.BlockDevice :=
  let oldBD := oldBD <| apis.TypeMeta := apis.TypeMeta newBD |>
                     <| apis.ObjectMeta ::= mergeMetadata (apis.ObjectMeta newBD) |> in
  if decide (apis.bd_claimstate oldBD <> apis.BlockDeviceUnclaimed)
  then oldBD
    <| apis.Spec ::= fun s =>
         s <| apis.NodeAttributes := apis.NodeAttributes (apis.Spec newBD) |>
           <| apis.Capacity ::= fun c => c <| apis.Storage := apis.Storage (apis.Capacity (apis.Spec newBD)) |> |>
           <| apis.Path := apis.Path (apis.Spec newBD) |>
           <| apis.DevLinks := apis.DevLinks (apis.Spec newBD) |> |>
    <| apis.Status ::= fun s => s <| apis.State := apis.bd_state newBD |> |>
  else oldBD <| apis.Spec := apis.Spec newBD |>
             <| apis.Status := apis.Status newBD |>.

(** The error of a call, [None] for nil. *)
Definition error_of {A} (r : res A) : option err :=
  match r with inl e => Some e | inr _ => None end.

Definition UpdateBlockDevice (blockDevice : apis.BlockDevice) (oldBlockDevice : option apis.BlockDevice)
    : prog (option err) :=
  old <- match oldBlockDevice with
         | Some old => Ret (inr old)
         | None => call (BDGet (apis.bd_ns blockDevice) (apis.bd_name blockDevice))
         end ;;
  match old with
  | inl e => Ret (Some e)
  | inr old =>
      r <- call (BDUpdate (mergeBlockDeviceData blockDevice old)) ;;
      Ret (error_of r)
  end.

Definition set_namespace (ns : string) (bd : apis.BlockDevice) : apis.BlockDevice :=
  bd <| apis.ObjectMeta ::= fun m => m <| metav1.Namespace := ns |> |>.

Definition CreateBlockDevice (c : Controller) (blockDevice : apis.BlockDevice) : prog (option err) :=
  let blockDevice := set_namespace (cNamespace c) blockDevice in
  r <- call (BDCreate blockDevice) ;;
  match error_of r with
  | None => Ret None
  | Some e =>
      if negb (IsAlreadyExists e) then Ret (Some e)
      else
        e <- UpdateBlockDevice blockDevice None ;;
        match e with
        | None => Ret None
        | Some e =>
            if negb (IsConflict e) then Ret (Some e)
            else
              (* a second attempt, whose error is dropped *)
              UpdateBlockDevice blockDevice None ;;; Ret None
        end
  end.

Definition set_state (st : string) (bd : apis.BlockDevice) : apis.BlockDevice :=
  bd <| apis.Status ::= fun s => s <| apis.State := st |> |>.

Definition DeactivateBlockDevice (blockDevice : apis.BlockDevice) : prog unit :=
  call (BDUpdate (set_state NDMInactive blockDevice)) ;;; Ret tt.

Definition GetBlockDevice (c : Controller) (name : string) : prog (res apis.BlockDevice) :=
  call (BDGet (cNamespace c) name).

(** DeleteBlockDevice names the object without its namespace. *)
Definition DeleteBlockDevice (name : string) : prog unit :=
  call (BDDelete "" name) ;;; Ret tt.

Definition reconcileDisabled (bd : apis.BlockDevice) : bool :=
  match map_lookup (apis.bd_annotations bd) OpenEBSReconcile with
  | Some val => CheckFalsy val
  | None => false
  end.

(** The loop of ListBlockDeviceResource: [for i := 0; i < len(items); i++], removing
    item [i] from the slice in place. *)
Fixpoint removeDisabled (fuel i : nat) (items : list apis.BlockDevice) : list apis.BlockDevice :=
  match fuel with
  | O => items
  | S fuel =>
      match items !! i with
      | None => items
      | Some item =>
          removeDisabled fuel (S i)
            (if reconcileDisabled item then (take i items ++ drop (S i) items)%list else items)
      end
  end.

(** The requirement on the managed label is built and then dropped (the result of
    sel.Add is not used), so the selector is empty; MatchingLabels replaces it when only
    this node's devices are listed. *)
Definition listSelector (c : Controller) (listAll : bool) : metav1.LabelSelector :=
  if listAll then metav1.empty_LabelSelector
  else metav1.empty_LabelSelector
    <| metav1.MatchLabels :=
         Some {[ KubernetesHostNameLabel := default "" (NodeAttributes c !! HostNameKey) ]} |>.

Definition ListBlockDeviceResource (c : Controller) (listAll : bool)
    : prog (list apis.BlockDevice * option err) :=
  r <- call (BDList None (listSelector c listAll)) ;;
  match r with
  | inl e => Ret ([], Some e)
  | inr items => Ret (removeDisabled (length items) 0 items, None)
  end.

(** GetExistingBlockDeviceResource; the position is kept because the result shares its
    maps with the item of the list. *)
Fixpoint findItem (P : apis.BlockDevice -> bool) (i : nat) (items : list apis.BlockDevice)
    : option (nat * apis.BlockDevice) :=
  match items with
  | [] => None
  | item :: items => if P item then Some (i, item) else findItem P (S i) items
  end.

Definition GetExistingBlockDeviceResource (items : list apis.BlockDevice) (uuid : string)
    : option (nat * apis.BlockDevice) :=
  findItem (fun item => bool_decide (uuid = apis.bd_name item)) 0 items.

(** *** sparsefilegenerator.go *)

Definition SparseFileName := "ndm-sparse.img".
Definition SparseBlockDevicePrefix := "sparse-".

Definition Getenv (name : string) : prog string :=
  v <- call (LookupEnv name) ;; Ret (default "" v).

(** os.Stat answers [inr] with whether the path is a directory and its size.  A failure
    other than "does not exist" leaves the file info nil, and its Mode panics. *)
Definition GetSparseFileDir : prog string :=
  sparseFileDir <- Getenv "SPARSE_FILE_DIR" ;;
  if decide (String.length sparseFileDir < 1) then Ret ""
  else
    info <- call (Stat sparseFileDir) ;;
    match info with
    | inl ErrNotFound => Ret ""
    | inl _ => Panic "invalid memory address or nil pointer dereference"
    | inr (isDir, _) => Ret (if isDir : bool then sparseFileDir else "")
    end.

Definition GetSparseFileCount : prog Z :=
  s <- Getenv "SPARSE_FILE_COUNT" ;;
  let s := if decide (String.length s < 1) then "1" else s in
  Ret (default 0%Z (Atoi s)).

Definition GetSparseBlockDeviceUUID (hostname sparseFile : string) : string :=
  SparseBlockDevicePrefix +:+ Hash (hostname +:+ sparseFile).

Definition GetActiveSparseBlockDevicesUUID (hostname : string) : prog (list string) :=
  dir <- GetSparseFileDir ;;
  files <- call (ReadDir dir) ;;
  match files with
  | inl _ => Ret []
  | inr files =>
      Ret (map (fun f => GetSparseBlockDeviceUUID hostname (path_join dir f))
             (List.filter (fun f => HasSuffix f SparseFileName) files))
  end.

Definition DeactivateStaleBlockDeviceResource (c : Controller) (devices : list string) : prog unit :=
  sparse <- GetActiveSparseBlockDevicesUUID (default "" (NodeAttributes c !! HostNameKey)) ;;
  let listDevices := (devices ++ sparse)%list in
  '(items, e) <- ListBlockDeviceResource c false ;;
  match e with
  | Some _ => Ret tt
  | None =>
      for_each (fun _ item =>
          if negb (Contains listDevices (apis.bd_name item)) then DeactivateBlockDevice item else Ret tt)
        tt items
  end.

Definition MarkBlockDeviceStatusToUnknown (c : Controller) : prog unit :=
  '(items, e) <- ListBlockDeviceResource c false ;;
  match e with
  | Some _ => Ret tt
  | None => for_each (fun _ item => call (BDUpdate (set_state NDMUnknown item)) ;;; Ret tt) tt items
  end.

Section Push.
Context `{K8sLib}.

Definition PushBlockDeviceResource (c : Controller) (oldBlockDevice : option apis.BlockDevice)
    (deviceDetails : DeviceInfo) : prog (option err) :=
  let deviceDetails := deviceDetails <| diNodeAttributes := NodeAttributes c |> in
  match ToDevice c deviceDetails with
  | inl e => Ret (Some e)
  | inr deviceAPI =>
      match oldBlockDevice with
      | Some old => UpdateBlockDevice deviceAPI (Some old)
      | None => CreateBlockDevice c deviceAPI
      end
  end.

Definition MarkSparseBlockDeviceStateActive (c : Controller) (sparseFile : string) : prog unit :=
  let di := NewDeviceInfo
    <| diUUID := GetSparseBlockDeviceUUID (default "" (NodeAttributes c !! HostNameKey)) sparseFile |>
    <| diNodeAttributes := NodeAttributes c |>
    <| diDeviceType := blockdevice.SparseBlockDeviceType |>
    <| diPath := sparseFile |> in
  info <- call (Stat sparseFile) ;;
  match info with
  | inl _ => Ret tt
  | inr (_, size) =>
      match ToDevice c (di <| diCapacity := size |>) with
      | inl _ => Ret tt
      | inr bd => CreateBlockDevice c bd ;;; Ret tt
      end
  end.
End Push.

Definition CheckAndCreateSparseFile (sparseFile : string) (size : Z) : prog (option err) :=
  info <- call (Stat sparseFile) ;;
  match info with
  | inl _ => e <- call (CreateSparse sparseFile size) ;; Ret (error_of e)
  | inr _ => Ret None
  end.
