(* ===== verification/Mount.v ===== *)
(** * pkg/mount

    mountutil.go and mountinfo.go: which device is mounted where, from the text of a
    mounts file, and which disk holds the root file system. *)

From Stdlib Require Import ZArith Ascii Lia.
From stdpp Require Import base list strings gmap.
From S2P Require Import Prelude GoStrings Types Prog Util Features.

Local Open Scope string_scope.
Local Open Scope prog_scope.

(** ** bufio.Scanner on the text of a file *)

Definition carriage_return : ascii := Ascii.ascii_of_nat 13.

(** A line without its carriage return *)
Fixpoint dropCR (s : string) : string :=
  match s with
  | EmptyString => ""
  | String c EmptyString => if decide (c = carriage_return) then "" else s
  | String c s => String c (dropCR s)
  end.

(** The lines of a text; what follows the last newline is a line unless it is empty. *)
Fixpoint last_line (ls : list string) : list string :=
  match ls with
  | [] => []
  | [l] => if decide (l = "") then [] else [l]
  | l :: ls => l :: last_line ls
  end.

(** Scanning stops at a line that does not fit into the buffer of 64 KiB. *)
Fixpoint take_fitting (ls : list string) : list string :=
  match ls with
  | [] => []
  | l :: ls => if (Z.of_nat (String.length l) <? 65536)%Z then l :: take_fitting ls else []
  end.

Definition ScanLines (s : string) : list string :=
  map dropCR (take_fitting (last_line (Split s newline))).

Module mount.

Record DeviceMountAttr := MkAttr { maDevPath : string; maMountPoint : list string; maFileSystem : string }.
#[global] Instance eta_attr : Eta DeviceMountAttr := fun a =>
  MkAttr (maDevPath a) (maMountPoint a) (maFileSystem a).
Definition noAttr : DeviceMountAttr := MkAttr "" [] "".

Record DiskMountUtil := NewMountUtil { filePath : string; devPath : string; mountPoint : string }.

Definition ErrAttributesNotFound : err :=
  Err "could not get device mount attributes, Path/MountPoint not present in mounts file".
Definition ErrCouldNotFindRootDevice : err := Err "could not find root device".

Definition index_panic {A} : prog A := Panic "index out of range".

(** os.Stat with every error but "does not exist" counting as existing *)
Definition fileExists (file : string) : prog bool :=
  r <- call (Stat file) ;;
  Ret (match r with inl e => negb (IsNotFound e) | inr _ => true end).

Definition getDeviceName (devPath : string) : prog string :=
  if HasPrefix devPath "/dev/mapper" then
    r <- call (EvalSymlinks devPath) ;;
    Ret (match r with inl _ => "" | inr deviceName => Replace1 deviceName "/dev/" "" end)
  else Ret (Replace1 devPath "/dev/" "").

Definition mergeDeviceMountAttrs (ma mb : DeviceMountAttr) : DeviceMountAttr :=
  let ma := if decide (maDevPath ma = "") then ma <| maDevPath := maDevPath mb |> else ma in
  if decide (maDevPath ma <> maDevPath mb) then ma
  else
    let ma := if decide (maFileSystem ma = "") then ma <| maFileSystem := maFileSystem mb |> else ma in
    if decide (maFileSystem ma <> "" /\ maFileSystem ma = maFileSystem mb)
    then ma <| maMountPoint ::= fun l => (l ++ maMountPoint mb)%list |>
    else ma.

Definition getPartitionName (m : DiskMountUtil) (mountLine : string) : prog (DeviceMountAttr * bool) :=
  if decide (String.length mountLine = 0) then Ret (noAttr, false)
  else
    match Split mountLine " "%char with
    | p0 :: p1 :: _ =>
        if decide (p1 = mountPoint m) then
          d <- getDeviceName p0 ;; Ret (noAttr <| maDevPath := d |>, true)
        else Ret (noAttr, false)
    | _ => index_panic
    end.

Definition getMountName (m : DiskMountUtil) (mountLine : string) : prog (DeviceMountAttr * bool) :=
  if decide (String.length mountLine = 0) then Ret (noAttr, false)
  else
    let parts := Split mountLine " "%char in
    if decide (head parts = Some (devPath m)) then
      match parts with
      | _ :: p1 :: p2 :: _ => Ret (MkAttr "" [p1] p2, true)
      | _ => index_panic
      end
    else Ret (noAttr, false).

(** The loop over the lines of the mounts file *)
Definition scanLine (fn : string -> prog (DeviceMountAttr * bool)) (s : DeviceMountAttr * bool) (line : string)
    : prog (DeviceMountAttr * bool) :=
  if negb (HasPrefix line "/dev") then Ret s
  else
    '(lineMountAttr, ok) <- fn line ;;
    Ret (if ok : bool then (mergeDeviceMountAttrs s.1 lineMountAttr, true) else s).
Definition scanMounts (fn : string -> prog (DeviceMountAttr * bool)) (lines : list string)
    : prog (DeviceMountAttr * bool) :=
  for_each (scanLine fn) (noAttr, false) lines.

Definition getDeviceMountAttr (m : DiskMountUtil) (fn : string -> prog (DeviceMountAttr * bool))
    : prog (DeviceMountAttr * option err) :=
  file <- call (ReadFile (filePath m)) ;;
  match file with
  | inl e => Ret (noAttr, Some e)
  | inr text =>
      '(mountAttr, found) <- scanMounts fn (ScanLines text) ;;
      Ret (mountAttr, if found : bool then None else Some ErrAttributesNotFound)
  end.

(** Identifier.DeviceBasicMountInfo *)
Definition DeviceBasicMountInfo (devPath mountsFilePath : string) : prog (DeviceMountAttr * option err) :=
  let mountUtil := NewMountUtil mountsFilePath devPath "" in
  getDeviceMountAttr mountUtil (getMountName mountUtil).

(** ** The disk of the root file system *)

Definition rootPrefix := "root=".

(** The device named by the arguments of one line of the kernel command line; [None] if
    no argument does. *)
Fixpoint rootDeviceOfArgs (args : list string) : option (res string) :=
  match args with
  | [] => None
  | arg :: args =>
      if negb (HasPrefix arg rootPrefix) then rootDeviceOfArgs args
      else
        match Split (drop_bytes (String.length rootPrefix) arg) "="%char with
        | t :: i :: _ => Some (inr ("/dev/disk/by-" +:+ ToLower t +:+ "/" +:+ i))
        | [t] => Some (if HasPrefix t "/dev" then inr t else inl ErrCouldNotFindRootDevice)
        | [] => Some (inl ErrCouldNotFindRootDevice)
        end
  end.

Fixpoint rootDeviceOfLines (lines : list string) : res string :=
  match lines with
  | [] => inl ErrCouldNotFindRootDevice
  | line :: lines =>
      let line := TrimSpace line in
      if decide (line = "") then rootDeviceOfLines lines
      else match rootDeviceOfArgs (Split line " "%char) with
           | Some r => r
           | None => rootDeviceOfLines lines
           end
  end.
Definition parseRootDeviceLink (text : string) : res string := rootDeviceOfLines (ScanLines text).

Definition procCmdLine := "/proc/cmdline".
Definition hostProcCmdLine := "/host/proc/cmdline".
Definition getCmdlineFile : prog string :=
  ok <- fileExists hostProcCmdLine ;; Ret (if ok : bool then hostProcCmdLine else procCmdLine).

Definition getRootPartition : prog (res string) :=
  path <- getCmdlineFile ;;
  file <- call (ReadFile path) ;;
  match file with
  | inl e => Ret (inl e)
  | inr text =>
      match parseRootDeviceLink text with
      | inl e => Ret (inl e)
      | inr path =>
          link <- call (EvalSymlinks path) ;;
          match link with
          | inl e => Ret (inl e)
          | inr link => d <- getDeviceName link ;; Ret (inr d)
          end
      end
  end.

Definition getLinkForPartition (partition : string) : string := "/sys/class/block/" +:+ partition.

Definition getSoftLinkForPartition (partition : string) : prog (res string) :=
  let softlink := getLinkForPartition partition in
  ok <- fileExists softlink ;;
  if negb ok && bool_decide (partition = "root") then
    r <- getRootPartition ;;
    Ret (match r with inl e => inl e | inr partition => inr (getLinkForPartition partition) end)
  else Ret (inr softlink).

(** The part [n] places after the first one that satisfies [P] and has that many after it *)
Fixpoint part_after (P : string -> bool) (n : nat) (parts : list string) : option string :=
  match parts with
  | [] => None
  | p :: rest =>
      if P p && bool_decide (n <= length rest) then rest !! (n - 1) else part_after P n rest
  end.

Definition getParentBlockDevice (sysPath : string) : option string :=
  let parts := Split sysPath "/"%char in
  match part_after (fun p => bool_decide (p = "block")) 1 parts with
  | Some d => Some d
  | None => part_after (fun p => bool_decide (p = "nvme") || bool_decide (p = "nvme-subsystem")) 2 parts
  end.

Definition getPartitionDevPath (gates : gmap string bool) (partition : string) : prog (res string) :=
  softlink <- getSoftLinkForPartition partition ;;
  match softlink with
  | inl e => Ret (inl e)
  | inr softlink =>
      link <- call (EvalSymlinks softlink) ;;
      match link with
      | inl e => Ret (inl e)
      | inr link =>
          if features.IsEnabled gates features.UseOSDisk
          then Ret (inr ("/dev/" +:+ List.last (Split link "/"%char) ""))
          else match getParentBlockDevice link with
               | None => Ret (inl (Err "could not find parent device"))
               | Some disk => Ret (inr ("/dev/" +:+ disk))
               end
      end
  end.

Definition GetDiskPath (gates : gmap string bool) (m : DiskMountUtil) : prog (res string) :=
  '(mountAttr, e) <- getDeviceMountAttr m (getPartitionName m) ;;
  match e with
  | Some e => Ret (inl e)
  | None =>
      devPath <- getPartitionDevPath gates (maDevPath mountAttr) ;;
      match devPath with
      | inl e => Ret (inl e)
      | inr devPath =>
          r <- call (EvalSymlinks devPath) ;;
          Ret (match r with inl e => inl e | inr _ => inr devPath end)
      end
  end.
End mount.

(** ** Reading back what a mounts file says *)

(** A line of a mounts file *)
Record mount_entry := MkEntry { meDev : string; meDir : string; meType : string; meRest : string }.
Definition print_entry (e : mount_entry) : string :=
  meDev e +:+ " " +:+ meDir e +:+ " " +:+ meType e +:+ " " +:+ meRest e.
Fixpoint print_mounts (es : list mount_entry) : string :=
  match es with [] => "" | e :: es => print_entry e +:+ String newline (print_mounts es) end.

(** What the kernel writes: fields are not empty, without spaces and newlines (they are
    written as octal escapes), and lines are short. *)
Definition plain (s : string) : Prop :=
  s <> "" /\ no_byte " "%char s = true /\ no_byte newline s = true.
Record entry_ok (e : mount_entry) : Prop := {
  ok_dev : plain (meDev e);
  ok_dir : plain (meDir e);
  ok_type : plain (meType e);
  ok_rest : no_byte newline (meRest e) = true;
  ok_cr : dropCR (print_entry e) = print_entry e;
  ok_len : (Z.of_nat (String.length (print_entry e)) < 65536)%Z
}.

Lemma print_entry_line e : entry_ok e -> no_byte newline (print_entry e) = true.
Proof.
  intros [(_ & _ & ?) (_ & _ & ?) (_ & _ & ?) ? _ _]. unfold print_entry.
  rewrite !no_byte_app. by repeat (apply andb_true_iff; split).
Qed.

Lemma ScanLines_print es : Forall entry_ok es -> ScanLines (print_mounts es) = map print_entry es.
Proof.
  intros Hes. unfold ScanLines.
  assert (Hs : Split (print_mounts es) newline = (map print_entry es ++ [""])%list).
  { induction Hes as [|e es He _ IH]; [done|]. cbn [print_mounts map app].
    rewrite Split_app by (by apply print_entry_line). by rewrite IH. }
  rewrite Hs. clear Hs.
  assert (Hl : last_line (map print_entry es ++ [""]) = map print_entry es).
  { clear. induction es as [|e es IH]; [done|]. cbn [map app last_line].
    destruct (map print_entry es ++ [""])%list eqn:Heq; [by destruct es|]. by rewrite IH. }
  rewrite Hl. clear Hl. induction Hes as [|e es He _ IH]; [done|]. cbn [map take_fitting].
  rewrite (proj2 (Z.ltb_lt _ _) (ok_len e He)). cbn [map]. by rewrite (ok_cr e He), IH.
Qed.

(** The mount points of a device: those of the lines for it that have the file system
    type of the first such line. *)
Definition lines_of (dev : string) (es : list mount_entry) : list mount_entry :=
  filter (fun e => meDev e = dev) es.
Definition mount_info (dev : string) (es : list mount_entry) : option mount.DeviceMountAttr :=
  match lines_of dev es with
  | [] => None
  | (e0 :: _) as l => Some (mount.MkAttr "" (map meDir (filter (fun e => meType e = meType e0) l)) (meType e0))
  end.

Section ReadBack.
Context (dev file : string) (Hdev : HasPrefix dev "/dev" = true).
Notation util := (mount.NewMountUtil file dev "").

Lemma print_entry_parts e :
  entry_ok e -> Split (print_entry e) " "%char = meDev e :: meDir e :: meType e :: Split (meRest e) " "%char.
Proof.
  intros [(_ & Hd & _) (_ & Hm & _) (_ & Ht & _) _ _ _]. unfold print_entry.
  assert (Hsp : forall t, " " +:+ t = String " " t) by done. rewrite !Hsp. by rewrite !Split_app.
Qed.

Lemma getMountName_entry e :
  entry_ok e ->
  mount.getMountName util (print_entry e) =
  if decide (meDev e = dev) then Ret (mount.MkAttr "" [meDir e] (meType e), true) else Ret (mount.noAttr, false).
Proof.
  intros He. unfold mount.getMountName. rewrite decide_False.
  - rewrite print_entry_parts by done. cbn [head mount.devPath].
    destruct (decide (meDev e = dev)) as [->|Hne]; [by rewrite decide_True|].
    rewrite decide_False by congruence. done.
  - unfold print_entry. rewrite length_string_app. destruct (ok_dev e He) as [Hne _].
    destruct (meDev e); [done|]. cbn. lia.
Qed.

Lemma prefix_entry e : meDev e = dev -> HasPrefix (print_entry e) "/dev" = true.
Proof.
  intros <-. apply HasPrefix_iff in Hdev as [t Ht]. apply HasPrefix_iff. unfold print_entry. rewrite Ht.
  rewrite string_app_assoc. eauto.
Qed.

Notation step := (mount.scanLine (mount.getMountName util)).

(** One line: lines for other devices are skipped. *)
Lemma step_entry s e :
  entry_ok e ->
  step s (print_entry e) =
  Ret (if decide (meDev e = dev)
       then (mount.mergeDeviceMountAttrs s.1 (mount.MkAttr "" [meDir e] (meType e)), true) else s).
Proof.
  intros He. unfold mount.scanLine. rewrite getMountName_entry by done. destruct (decide (meDev e = dev)) as [Hd|Hd].
  - by rewrite prefix_entry.
  - destruct (HasPrefix (print_entry e) "/dev"); reflexivity.
Qed.

Lemma merge_found mps fs d t :
  fs <> "" ->
  mount.mergeDeviceMountAttrs (mount.MkAttr "" mps fs) (mount.MkAttr "" [d] t) =
  mount.MkAttr "" (if decide (t = fs) then mps ++ [d] else mps)%list fs.
Proof.
  intros Hfs. unfold mount.mergeDeviceMountAttrs. cbn. destruct (decide ("" = "")); [|done]. cbn.
  rewrite (decide_False (P := fs = "")) by done. cbn. repeat case_decide; done || naive_solver.
Qed.

Lemma merge_first d t :
  t <> "" -> mount.mergeDeviceMountAttrs mount.noAttr (mount.MkAttr "" [d] t) = mount.MkAttr "" [d] t.
Proof.
  intros Ht. unfold mount.mergeDeviceMountAttrs. cbn. destruct (decide ("" = "")); [|done]. cbn.
  repeat case_decide; done || naive_solver.
Qed.

Lemma scan_found mps fs es :
  fs <> "" -> Forall entry_ok es ->
  for_each step (mount.MkAttr "" mps fs, true) (map print_entry es) =
  Ret (mount.MkAttr "" (mps ++ map meDir (filter (fun e => meType e = fs) (lines_of dev es)))%list fs, true).
Proof.
  intros Hfs Hes. revert mps. induction Hes as [|e es He _ IH]; intros mps.
  { cbn. by rewrite app_nil_r. }
  cbn [map for_each]. rewrite step_entry by done. cbn [bind fst]. unfold lines_of.
  destruct (decide (meDev e = dev)) as [Hd|Hd].
  - rewrite (filter_cons_True _ e), merge_found, IH by done.
    destruct (decide (meType e = fs)) as [Ht|Ht].
    + rewrite (filter_cons_True _ e) by done. cbn [map]. by rewrite <- app_assoc.
    + by rewrite (filter_cons_False _ e) by done.
  - rewrite (filter_cons_False _ e) by done. apply IH.
Qed.

Lemma scan_entries es :
  Forall entry_ok es ->
  for_each step (mount.noAttr, false) (map print_entry es) =
  Ret (match mount_info dev es with Some a => (a, true) | None => (mount.noAttr, false) end).
Proof.
  intros Hes. induction Hes as [|e es He Hes IH]; [done|].
  cbn [map for_each]. rewrite step_entry by done. cbn [bind fst]. unfold mount_info, lines_of.
  destruct (decide (meDev e = dev)) as [Hd|Hd].
  - rewrite (filter_cons_True _ e) by done. destruct (ok_type e He) as [Hne _].
    rewrite merge_first, scan_found by done. cbv beta iota. by rewrite (filter_cons_True _ e) by done.
  - rewrite (filter_cons_False _ e) by done. apply IH.
Qed.
End ReadBack.

(** C25. Reading a mounts file: for a mounts file as the kernel writes it, the mount
    attributes of a device are the file system type of its first line and, in order, the
    mount points of all its lines with that type; if it has no line the answer is the
    error that says so. *)
Theorem DeviceBasicMountInfo_spec {W} (o : oracle W) dev file w w' es :
  HasPrefix dev "/dev" = true -> Forall entry_ok es ->
  o _ (ReadFile file) w = (w', inr (print_mounts es)) ->
  exec o (mount.DeviceBasicMountInfo dev file) w =
  (w', Returned (match mount_info dev es with
                 | Some a => (a, None)
                 | None => (mount.noAttr, Some mount.ErrAttributesNotFound)
                 end)).
Proof.
  intros Hdev Hes Ho. unfold mount.DeviceBasicMountInfo, mount.getDeviceMountAttr.
  rewrite (exec_call o _ _ _ _ _ Ho), ScanLines_print by done.
  unfold mount.scanMounts. rewrite scan_entries by done. by destruct (mount_info dev es).
Qed.

Definition demo_mounts : list mount_entry :=
  [MkEntry "proc" "/proc" "proc" "rw 0 0"; MkEntry "/dev/sda4" "/" "ext4" "rw 0 0";
   MkEntry "/dev/sda4" "/var/lib/docker" "ext4" "rw 0 0"; MkEntry "/dev/sdb" "/mnt" "xfs" "rw 0 0"].

Lemma DeviceBasicMountInfo_spec_witness :
  exec (with_files (fun _ => inr (print_mounts demo_mounts)))
    (mount.DeviceBasicMountInfo "/dev/sda4" "/host/proc/1/mounts") tt =
  (tt, Returned (mount.MkAttr "" ["/"; "/var/lib/docker"] "ext4", None)).
Proof.
  rewrite (DeviceBasicMountInfo_spec _ "/dev/sda4" "/host/proc/1/mounts" tt tt demo_mounts); try reflexivity.
  repeat constructor; done.
Defined.

(** ** The disk of a sysfs path *)

Lemma part_after_first P n pre p rest :
  Forall (fun q => P q = false) pre -> P p = true -> n <= length rest ->
  mount.part_after P n (pre ++ p :: rest)%list = rest !! (n - 1).
Proof.
  intros Hpre Hp Hn. induction Hpre as [|q pre Hq _ IH]; cbn.
  - by rewrite Hp, bool_decide_eq_true_2.
  - by rewrite Hq.
Qed.

Lemma part_after_none P n parts : Forall (fun q => P q = false) parts -> mount.part_after P n parts = None.
Proof. induction 1 as [|q parts Hq _ IH]; [done|]. cbn. by rewrite Hq. Qed.

(** The disk of a partition, from its path in sysfs: the component after the first
    "block"; for NVMe, whose paths have no such component, the namespace, two components
    after "nvme" or "nvme-subsystem". *)
Theorem getParentBlockDevice_spec pre inst d post :
  Forall (fun p => no_byte "/"%char p = true) (pre ++ inst :: d :: post)%list -> "block" ∉ pre ->
  mount.getParentBlockDevice (Join (pre ++ "block" :: d :: post)%list "/") = Some d /\
  forall sub, sub = "nvme" \/ sub = "nvme-subsystem" -> "nvme" ∉ pre -> "nvme-subsystem" ∉ pre ->
    "block" ∉ inst :: d :: post ->
    mount.getParentBlockDevice (Join (pre ++ sub :: inst :: d :: post)%list "/") = Some d.
Proof.
  rewrite Forall_app, !Forall_cons_iff. intros (Hpre & Hx & Hd & Hpost) Hb. split.
  - unfold mount.getParentBlockDevice.
    rewrite Split_Join; [|by destruct pre|by rewrite Forall_app, !Forall_cons_iff].
    rewrite part_after_first; [done| |done|cbn; lia].
    apply Forall_forall. intros q Hq%list_elem_of_In. apply bool_decide_eq_false. congruence.
  - intros sub Hsub Hn1 Hn2 Hb2. unfold mount.getParentBlockDevice.
    rewrite Split_Join; [|by destruct pre|rewrite Forall_app, !Forall_cons_iff; by destruct Hsub as [-> | ->]].
    rewrite part_after_none, part_after_first; [done| |by destruct Hsub as [-> | ->]|cbn; lia|].
    + apply Forall_forall. intros q Hq%list_elem_of_In. rewrite orb_false_iff, !bool_decide_eq_false. split; congruence.
    + rewrite Forall_app, Forall_cons_iff. split_and!; [|by destruct Hsub as [-> | ->]|];
        apply Forall_forall; intros q Hq%list_elem_of_In; apply bool_decide_eq_false; congruence.
Qed.

Lemma getParentBlockDevice_spec_witness :
  mount.getParentBlockDevice "/sys/devices/pci0000:00/host0/block/sda/sda4" = Some "sda" /\
  mount.getParentBlockDevice "/sys/devices/pci0000:00/nvme/nvme0/nvme0n1/nvme0n1p1" = Some "nvme0n1".
Proof.
  split.
  - refine (proj1 (getParentBlockDevice_spec [""; "sys"; "devices"; "pci0000:00"; "host0"] "x" "sda" ["sda4"] _ _));
      [by repeat constructor|set_solver].
  - refine (proj2 (getParentBlockDevice_spec [""; "sys"; "devices"; "pci0000:00"] "nvme0" "nvme0n1" ["nvme0n1p1"] _ _)
      "nvme" _ _ _ _); [by repeat constructor|set_solver|by left|set_solver..].
Defined.
