(* ===== verification/Sysfs.v ===== *)
(** * pkg/sysfs

    device.go, syspath.go and util.go: what the kernel says of a block device under
    /sys — its parent, partitions, holders and slaves, its sizes and its type. *)

From Stdlib Require Import ZArith Ascii Lia.
From stdpp Require Import base list strings.
From S2P Require Import Prelude GoStrings Types Prog Util.

Local Open Scope string_scope.
Local Open Scope prog_scope.

Module sysfs.

Record Device := MkDevice { deviceName : string; path : string; sysPath : string }.

Definition BlockSubSystem := "block".
Definition NVMeSubSystem := "nvme".
Definition NVMeSubSysClass := "nvme-subsystem".
Definition sectorSize : Z := 512.
Definition sysFSDirectoryPath := "/sys/".

(** ** util.go *)

Definition readSysFSFileAsString (sysFilePath : string) : prog (res string) :=
  b <- call (ReadFile (Clean sysFilePath)) ;;
  Ret (match b with inl e => inl e | inr b => inr (TrimSuffix b (String newline "")) end).

Definition readSysFSFileAsInt64 (sysFilePath : string) : prog (res Z) :=
  b <- call (ReadFile (Clean sysFilePath)) ;;
  Ret (match b with
       | inl e => inl e
       | inr b =>
           match ParseInt (TrimSuffix b (String newline "")) 64 with
           | None => inl (Err "strconv.ParseInt")
           | Some z => inr z
           end
       end).

Definition addDevPrefix (devNames : list string) : list string := map (fun n => "/dev/" +:+ n) devNames.

(** ** syspath.go *)

Definition getDeviceSysPath (devicePath : string) : prog (res string) :=
  let blockDeviceSymLink :=
    if HasPrefix devicePath "/dev/"
    then sysFSDirectoryPath +:+ "class/block/" +:+ Replace1 devicePath "/dev/" ""
    else devicePath in
  r <- call (EvalSymlinks blockDeviceSymLink) ;;
  Ret (match r with inl e => inl e | inr sysPath => inr (sysPath +:+ "/") end).

(** What follows the first part that satisfies [P] *)
Fixpoint after_first (P : string -> bool) (parts : list string) : option (list string) :=
  match parts with
  | [] => None
  | p :: rest => if P p then Some rest else after_first P rest
  end.

Definition is_block (part : string) : bool := bool_decide (part = BlockSubSystem).
Definition is_nvme (part : string) : bool :=
  bool_decide (part = NVMeSubSystem) || bool_decide (part = NVMeSubSysClass).

(** The device at place [n] after the subsystem, unless it is this device itself *)
Definition other_device (s : Device) (n : nat) (rest : list string) : string * bool :=
  match rest !! n with
  | Some d => if decide (deviceName s <> d) then (d, true) else ("", false)
  | None => ("", false)
  end.

Definition getParent (s : Device) : string * bool :=
  let parts := Split (sysPath s) "/"%char in
  match after_first is_block parts with
  | Some rest => other_device s 0 rest
  | None =>
      match after_first is_nvme parts with
      | Some rest => other_device s 1 rest
      | None => ("", false)
      end
  end.

Definition getPartitions (s : Device) : prog (option (list string)) :=
  files <- call (ReadDir (sysPath s)) ;;
  Ret (match files with
       | inl _ => None
       | inr files => Some (List.filter (fun f => HasPrefix f (deviceName s)) files)
       end).

(** The entries of a directory of the device, if it exists *)
Definition entriesOf (dir : string) : prog (option (list string)) :=
  st <- call (Stat dir) ;;
  if (match st with inl e => IsNotFound e | inr _ => false end) then Ret None
  else
    files <- call (ReadDir dir) ;;
    Ret (match files with inl _ => None | inr files => Some files end).
Definition getHolders (s : Device) : prog (option (list string)) := entriesOf (sysPath s +:+ "holders/").
Definition getSlaves (s : Device) : prog (option (list string)) := entriesOf (sysPath s +:+ "slaves/").

Definition GetDependents (s : Device) : prog blockdevice.DependentBlockDevices :=
  let '(parent, ok) := getParent s in
  let parent := if ok : bool then parent else "" in
  partitions <- getPartitions s ;;
  holders <- getHolders s ;;
  slaves <- getSlaves s ;;
  Ret (blockdevice.MkDependentBlockDevices
         (if decide (String.length parent <> 0) then "/dev/" +:+ parent else parent)
         (addDevPrefix (default [] partitions))
         (addDevPrefix (default [] holders))
         (addDevPrefix (default [] slaves))).

(** The int64 results come with a value even in the case of an error: 0. *)
Definition or_zero (r : res Z) : Z := match r with inl _ => 0 | inr z => z end.

Definition GetLogicalBlockSize (s : Device) : prog (res Z) :=
  readSysFSFileAsInt64 (sysPath s +:+ "queue/logical_block_size").
Definition GetPhysicalBlockSize (s : Device) : prog (res Z) :=
  readSysFSFileAsInt64 (sysPath s +:+ "queue/physical_block_size").
Definition GetHardwareSectorSize (s : Device) : prog (res Z) :=
  readSysFSFileAsInt64 (sysPath s +:+ "queue/hw_sector_size").

Definition GetDriveType (s : Device) : prog (string * option err) :=
  rotational <- readSysFSFileAsInt64 (sysPath s +:+ "queue/rotational") ;;
  Ret (match rotational with
       | inl e => (blockdevice.DriveTypeUnknown, Some e)
       | inr rotational =>
           if decide (rotational = 1)%Z then (blockdevice.DriveTypeHDD, None)
           else if decide (rotational = 0)%Z then (blockdevice.DriveTypeSSD, None)
           else (blockdevice.DriveTypeUnknown, Some (Err "undefined rotational value"))
       end).

(** The product of two int64 wraps around. *)
Definition GetCapacityInBytes (s : Device) : prog (res Z) :=
  numberOfBlocks <- readSysFSFileAsInt64 (sysPath s +:+ "size") ;;
  Ret (match numberOfBlocks with
       | inl e => inl e
       | inr n =>
           if decide (n = 0)%Z then inl (Err "block count reported as zero")
           else inr (swrap 64 (n * sectorSize))
       end).

(** The slice expression panics on a name of fewer than three bytes. *)
Definition isDM (devName : string) : option bool :=
  if decide (String.length devName < 3) then None
  else Some (HasPrefix devName "dm-").

Definition dmType (dmUuid : string) : string :=
  let dmUuidPrefix := match Split dmUuid "-"%char with p :: _ => p | [] => "" end in
  let result :=
    if decide (0 < String.length dmUuid) then
      if decide (String.length dmUuidPrefix <> 0) then
        if bool_decide (4 < String.length dmUuidPrefix) && HasPrefix dmUuidPrefix "part"
        then blockdevice.BlockDeviceTypePartition else dmUuidPrefix
      else ""
    else "" in
  if decide (String.length result = 0) then blockdevice.BlockDeviceTypeDMDevice else result.

Definition GetDeviceType (s : Device) (devType : string) : prog (res string) :=
  if decide (devType = blockdevice.BlockDeviceTypePartition)
  then Ret (inr blockdevice.BlockDeviceTypePartition)
  else
    match isDM (deviceName s) with
    | None => Panic "slice bounds out of range"
    | Some true =>
        dmUuid <- readSysFSFileAsString (sysPath s +:+ "dm/uuid") ;;
        Ret (match dmUuid with
             | inl _ => inl (Err "unable to get DM_UUID")
             | inr dmUuid => inr (ToLower (dmType dmUuid))
             end)
    | Some false =>
        if HasPrefix (deviceName s) "loop" then Ret (inr (ToLower blockdevice.BlockDeviceTypeLoop))
        else if HasPrefix (deviceName s) "md" then
          mdLevel <- readSysFSFileAsString (sysPath s +:+ "md/level") ;;
          Ret (match mdLevel with
               | inl _ => inl (Err "unable to get raid level")
               | inr mdLevel => inr (ToLower (if decide (String.length mdLevel <> 0) then mdLevel else "md"))
               end)
        else Ret (inr (ToLower "disk"))
    end.

(** ** device.go *)

Definition NewSysFsDeviceFromDevPath (devPath : string) : prog (res Device) :=
  let devName := Replace1 devPath "/dev/" "" in
  if decide (String.length devName = 0) then Ret (inl (Err "device name empty"))
  else
    sysPath <- getDeviceSysPath devPath ;;
    Ret (match sysPath with inl e => inl e | inr sysPath => inr (MkDevice devName devPath sysPath) end).
End sysfs.

(** ** The parent of a device *)

Lemma after_first_app P pre p rest :
  (forall x, x ∈ pre -> P x = false) -> P p = true ->
  sysfs.after_first P (pre ++ p :: rest) = Some rest.
Proof.
  intros Hpre Hp. induction pre as [|q pre IH]; cbn; [by rewrite Hp|].
  rewrite Hpre by left. apply IH. intros. apply Hpre. by right.
Qed.

Lemma after_first_none P parts : (forall x, x ∈ parts -> P x = false) -> sysfs.after_first P parts = None.
Proof.
  intros Hp. induction parts as [|q parts IH]; cbn; [done|]. rewrite Hp by left.
  apply IH. intros. apply Hp. by right.
Qed.

(** A path under /sys with the given elements *)
Definition sys_path (s : sysfs.Device) (parts : list string) : Prop :=
  sysfs.sysPath s = Join parts "/" /\ parts <> [] /\ Forall (fun p => no_byte "/"%char p = true) parts.

Lemma sys_path_split s parts : sys_path s parts -> Split (sysfs.sysPath s) "/"%char = parts.
Proof. intros (-> & ? & ?). by apply Split_Join. Qed.

(** The parent in sysfs.  In a path .../block/disk/... the parent of the device is
    the disk right below the first "block"; in a path without "block" it is the
    namespace two levels below the first NVMe element.  In both cases a device that is
    its own disk has no parent. *)
Theorem getParent_spec s pre sub ctrl disk rest :
  (sys_path s (pre ++ "block" :: disk :: rest) -> "block" ∉ pre ->
   sysfs.getParent s = if decide (sysfs.deviceName s = disk) then ("", false) else (disk, true)) /\
  (sys_path s (pre ++ sub :: ctrl :: disk :: rest) -> ("block" ∉ pre ++ sub :: ctrl :: disk :: rest)%list ->
   sub ∈ ["nvme"; "nvme-subsystem"] -> (forall x, x ∈ pre -> x ∉ ["nvme"; "nvme-subsystem"]) ->
   sysfs.getParent s = if decide (sysfs.deviceName s = disk) then ("", false) else (disk, true)).
Proof.
  unfold sysfs.getParent. split.
  - intros Hs Hpre. rewrite (sys_path_split _ _ Hs), after_first_app; [|intros x Hx; apply bool_decide_eq_false; intros ->; done|done].
    cbn. by repeat case_decide.
  - intros Hs Hb Hsub Hpre. rewrite (sys_path_split _ _ Hs).
    rewrite after_first_none; [|intros x Hx; apply bool_decide_eq_false; intros ->; done].
    rewrite after_first_app; [cbn; by repeat case_decide| |].
    + intros x Hx%Hpre. unfold sysfs.is_nvme. apply orb_false_iff.
      split; apply bool_decide_eq_false; intros ->; apply Hx; [left|right; left].
    + unfold sysfs.is_nvme. apply orb_true_iff. rewrite !bool_decide_eq_true.
      rewrite !elem_of_cons in Hsub. destruct Hsub as [?|[?|?%elem_of_nil]]; auto; done.
Qed.

Lemma getParent_spec_witness :
  sysfs.getParent (sysfs.MkDevice "sda1" "/dev/sda1" "/sys/devices/ata1/block/sda/sda1/") = ("sda", true) /\
  sysfs.getParent (sysfs.MkDevice "nvme0n1p2" "/dev/nvme0n1p2" "/sys/devices/nvme/nvme0/nvme0n1/nvme0n1p2/")
    = ("nvme0n1", true).
Proof.
  split.
  - rewrite (proj1 (getParent_spec _ [""; "sys"; "devices"; "ata1"] "" "" "sda" ["sda1"; ""])); [done| |].
    + split; [done|split; [done|by repeat constructor]].
    + not_in.
  - rewrite (proj2 (getParent_spec _ [""; "sys"; "devices"] "nvme" "nvme0" "nvme0n1" ["nvme0n1p2"; ""])); [done| | |left|].
    + split; [done|split; [done|by repeat constructor]].
    + not_in.
    + intros x Hx. repeat (apply elem_of_cons in Hx as [->|Hx]; [not_in|]). by apply elem_of_nil in Hx.
Defined.

(** ** The type of a device *)

Lemma ToLower_nil s : ToLower s = "" -> s = "".
Proof. by destruct s. Qed.

Lemma dmType_nonempty u : sysfs.dmType u <> "".
Proof.
  unfold sysfs.dmType. cbv zeta.
  match goal with |- context [decide (String.length ?r = 0)] => generalize r end.
  intros r. case_decide as Hr; [done|]. by destruct r.
Qed.

Lemma exec_file {W} (o : oracle W) f w :
  exists w' r, exec o (sysfs.readSysFSFileAsString f) w = (w', Returned r).
Proof. unfold sysfs.readSysFSFileAsString. cbn. destruct (o _ _ w) as [w' x]. by eexists _, _. Qed.

(** sysfs.Device.GetDeviceType never returns an empty type: whatever the files under
    /sys say it reports an error or a type, a partition of udev stays a partition, and
    a device named loop... is a loop device.  The only panic is on a device whose name
    has fewer than three bytes. *)
Theorem GetDeviceType_spec {W} (o : oracle W) s t w :
  match snd (exec o (sysfs.GetDeviceType s t) w) with
  | Panicked _ => t <> "partition" /\ String.length (sysfs.deviceName s) < 3
  | Returned r =>
      (t = "partition" \/ 3 <= String.length (sysfs.deviceName s)) /\
      (t = "partition" -> r = inr "partition") /\
      (t <> "partition" -> HasPrefix (sysfs.deviceName s) "loop" = true -> r = inr "loop") /\
      r <> inr ""
  end.
Proof.
  unfold sysfs.GetDeviceType. unfold blockdevice.BlockDeviceTypePartition.
  case_decide as Ht; [cbn; repeat split; auto; done|].
  unfold sysfs.isDM. case_decide as Hl; [done|].
  assert (Hlen : 3 <= String.length (sysfs.deviceName s)) by lia.
  destruct (HasPrefix (sysfs.deviceName s) "dm-") eqn:Hdm.
  - destruct (exec_file o (sysfs.sysPath s +:+ "dm/uuid") w) as (w' & r & Hr).
    rewrite exec_bind, Hr. cbn [exec snd]. split; [by right|]. split; [done|]. split.
    + intros _ Hloop. apply HasPrefix_iff in Hdm as (x & Hx), Hloop as (y & Hy). rewrite Hx in Hy. done.
    + destruct r as [|u]; [done|]. intros [= Hn%ToLower_nil]. by destruct (dmType_nonempty u).
  - destruct (HasPrefix (sysfs.deviceName s) "loop") eqn:Hloop; [cbn [exec snd]; repeat split; auto; done|].
    destruct (HasPrefix (sysfs.deviceName s) "md"); [|cbn [exec snd]; repeat split; auto; done].
    destruct (exec_file o (sysfs.sysPath s +:+ "md/level") w) as (w' & r & Hr).
    rewrite exec_bind, Hr. cbn. split; [by right|]. split; [done|]. split; [done|].
    destruct r as [|l]; [done|]. intros [= Hn%ToLower_nil]. case_decide; [by subst|done].
Qed.
