(* ===== verification/Smart.v ===== *)
(** * pkg/smart and pkg/seachest

    SCSI and ATA commands through the SCSI generic driver: building command blocks,
    decoding what the device answers (the standard INQUIRY page, READ CAPACITY, the ATA
    IDENTIFY page), and collecting the attributes of a disk; and the accessors of what
    the openSeaChest library reports. *)

From Stdlib Require Import ZArith Ascii Lia SpecFloat.
From stdpp Require Import base list strings gmap numbers pretty.
From S2P Require Import Prelude GoStrings Md5 Regex Types Prog.

Local Open Scope string_scope.
Local Open Scope Z_scope.
Local Open Scope prog_scope.

(** ** fmt and encoding/binary *)

(** %x *)
Fixpoint hex_digits (fuel : nat) (z : Z) (acc : string) : string :=
  match fuel with
  | O => acc
  | S fuel =>
      let acc := String (hex_digit (z mod 16)) acc in
      if z / 16 =? 0 then acc else hex_digits fuel (z / 16) acc
  end.
Definition fmt_x (z : Z) : string := hex_digits 16 z "".
(** ... padded with zeros, %0[w]x, and with the prefix, %#0[w]x *)
Fixpoint zeros (n : nat) (s : string) : string :=
  match n with O => s | S n => String "0" (zeros n s) end.
Definition fmt_0x (w : nat) (z : Z) : string := let s := fmt_x z in zeros (w - String.length s) s.
Definition fmt_sharp_0x (w : nat) (z : Z) : string := "0x" +:+ fmt_0x w z.

(** Bytes, most significant first and least significant first *)
Definition be_uint (bs : list Z) : Z := fold_left (fun a b => a * 256 + b) bs 0.
Definition le_uint (bs : list Z) : Z := fold_right (fun b a => b + 256 * a) 0 bs.
Definition be_bytes (n : nat) (z : Z) : list Z := rev (md5.le_bytes n z).

Inductive ByteOrder := LittleEndian | BigEndian.
Definition uint_of (o : ByteOrder) (bs : list Z) : Z :=
  match o with LittleEndian => le_uint bs | BigEndian => be_uint bs end.

Fixpoint string_of_bytes (bs : list Z) : string :=
  match bs with [] => "" | b :: bs => String (Ascii.ascii_of_N (Z.to_N b)) (string_of_bytes bs) end.

(** [n] bytes from offset [i] *)
Definition slice (i n : nat) (bs : list Z) : list Z := take n (drop i bs).

Module smart.

(** ** types.go *)

Definition SGDxferFromDev := -3.
Definition SGInfoOk := 0.
Definition SGInfoOkMask := 1.
Definition DefaultTimeout := 20000.
Definition AtaIdentifyDevice := 236.

Definition Compliance := "Compliance".
Definition Vendor := "Vendor".
Definition Capacity := "Capacity".
Definition LogicalSectorSize := "LogicalSectorSize".
Definition PhysicalSectorSize := "PhysicalSectorSize".
Definition SerialNumber := "SerialNumber".
Definition WWN := "LuWWNDeviceID".
Definition FirmwareRev := "FirmwareRevision".
Definition ModelNumber := "ModelNumber".
Definition RPM := "RPM".
Definition ATAMajor := "ATAMajorVersion".
Definition ATAMinor := "ATAMinorVersion".
Definition AtATransport := "AtaTransport".
Definition SupportedBusType := "SCSI".

Definition SCSIInqErr := "SCSIInquiryError".
Definition SCSIReadCapErr := "SCSIReadcapacityError".
Definition ATAIdentifyErr := "AtaIdentifyError".
Definition SCSiGetLBSizeErr := "GetLogicalBlockSizeError".
Definition DetectSCSITypeErr := "DetectScsiTypeError".
Definition errorCheckConditions := "errorCheckingConditions".

(** A map literal, as the list of its entries *)
Definition lookup_in {A} (m : list (Z * A)) (k : Z) : option A := snd <$> find (fun e => fst e =? k) m.

Definition ataMajorVersions : list (Z * string) :=
  [(1, "ATA-1"); (2, "ATA-2"); (3, "ATA-3"); (4, "ATA-ATAPI-4"); (5, "ATA-ATAPI-5"); (6, "ATA-ATAPI-6");
   (7, "ATA-ATAPI-7"); (8, "ATA8-ACS"); (9, "ACS-2"); (10, "ACS-3"); (11, "ACS-4")].

Definition ataMinorVersions : list (Z * string) :=
  [(0x0001, "ATA-1 X3T9.2/781D prior to revision 4");
   (0x0002, "ATA-1 published, ANSI X3.221-1994");
   (0x0003, "ATA-1 X3T9.2/781D revision 4");
   (0x0004, "ATA-2 published, ANSI X3.279-1996");
   (0x0005, "ATA-2 X3T10/948D prior to revision 2k");
   (0x0006, "ATA-3 X3T10/2008D revision 1");
   (0x0007, "ATA-2 X3T10/948D revision 2k");
   (0x0008, "ATA-3 X3T10/2008D revision 0");
   (0x0009, "ATA-2 X3T10/948D revision 3");
   (0x000a, "ATA-3 published, ANSI X3.298-1997");
   (0x000b, "ATA-3 X3T10/2008D revision 6");
   (0x000c, "ATA-3 X3T13/2008D revision 7 and 7a");
   (0x000d, "ATA/ATAPI-4 X3T13/1153D version 6");
   (0x000e, "ATA/ATAPI-4 T13/1153D version 13");
   (0x000f, "ATA/ATAPI-4 X3T13/1153D version 7");
   (0x0010, "ATA/ATAPI-4 T13/1153D version 18");
   (0x0011, "ATA/ATAPI-4 T13/1153D version 15");
   (0x0012, "ATA/ATAPI-4 published, ANSI NCITS 317-1998");
   (0x0013, "ATA/ATAPI-5 T13/1321D version 3");
   (0x0014, "ATA/ATAPI-4 T13/1153D version 14");
   (0x0015, "ATA/ATAPI-5 T13/1321D revision 1");
   (0x0016, "ATA/ATAPI-5 published, ANSI NCITS 340-2000");
   (0x0017, "ATA/ATAPI-4 T13/1153D revision 17");
   (0x0018, "ATA/ATAPI-6 T13/1410D version 0");
   (0x0019, "ATA/ATAPI-6 T13/1410D version 3a");
   (0x001a, "ATA/ATAPI-7 T13/1532D version 1");
   (0x001b, "ATA/ATAPI-6 T13/1410D version 2");
   (0x001c, "ATA/ATAPI-6 T13/1410D version 1");
   (0x001d, "ATA/ATAPI-7 published, ANSI INCITS 397-2005");
   (0x001e, "ATA/ATAPI-7 T13/1532D version 0");
   (0x001f, "ACS-3 revision 3b");
   (0x0021, "ATA/ATAPI-7 T13/1532D version 4a");
   (0x0022, "ATA/ATAPI-6 published, ANSI INCITS 361-2002");
   (0x0027, "ATA8-ACS version 3c");
   (0x0028, "ATA8-ACS version 6");
   (0x0029, "ATA8-ACS version 4");
   (0x0031, "ACS-2 revision 2");
   (0x0033, "ATA8-ACS version 3e");
   (0x0039, "ATA8-ACS version 4c");
   (0x0042, "ATA8-ACS version 3f");
   (0x0052, "ATA8-ACS version 3b");
   (0x005e, "ACS-4 revision 5");
   (0x006d, "ACS-3 revision 5");
   (0x0082, "ACS-2 published, ANSI INCITS 482-2012");
   (0x0107, "ATA8-ACS version 2d");
   (0x010a, "ACS-3 published, ANSI INCITS 522-2014");
   (0x0110, "ACS-2 revision 3");
   (0x011b, "ACS-3 revision 4")].

Definition serialATAType : list (Z * string) :=
  [(0, " ATA8-AST"); (1, " SATA 1.0a"); (2, " SATA II Ext"); (3, " SATA 2.5"); (4, " SATA 2.6");
   (5, " SATA 3.0"); (6, " SATA 3.1"); (7, " SATA 3.2")].

Definition ScsiInqAttr : list string := [Compliance; Vendor; SerialNumber; ModelNumber; FirmwareRev].
Definition SimpleSCSIAttr : list string := [PhysicalSectorSize; LogicalSectorSize; Capacity].
Definition ATACSAttr : list string :=
  [WWN; AtATransport; ATAMajor; ATAMinor; RPM; LogicalSectorSize; PhysicalSectorSize].

(** Words are uint16 *)
Record ATACSPage := MkATACSPage {
  pgSerialNumber : list Z; MajorVer : Z; MinorVer : Z; SectorSize : Z; pgWWN : list Z;
  pgRotationRate : Z; AtaTransportMajor : Z
}.
Record InquiryResponse := MkInquiryResponse {
  Version : Z; VendorID : list Z; ProductID : list Z; ProductRev : list Z; inqSerialNumber : list Z
}.
Record SCSIDev := MkSCSIDev { DevName : string; fd : Z }.

(** BasicDiskAttr and ATADiskAttr, embedded in DiskAttr *)
Record DiskAttr := MkDiskAttr {
  daCompliance : string; daVendor : string; daModelNumber : string; daSerialNumber : string;
  daFirmwareRevision : string; daWWN : string; daCapacity : Z; daLBSize : Z; daPBSize : Z; daRotationRate : Z;
  daATAMajorVersion : string; daATAMinorVersion : string; daAtaTransport : string
}.
#[global] Instance eta_DiskAttr : Eta DiskAttr := fun d =>
  MkDiskAttr (daCompliance d) (daVendor d) (daModelNumber d) (daSerialNumber d) (daFirmwareRevision d) (daWWN d)
    (daCapacity d) (daLBSize d) (daPBSize d) (daRotationRate d) (daATAMajorVersion d) (daATAMinorVersion d)
    (daAtaTransport d).
Definition noDiskAttr : DiskAttr := MkDiskAttr "" "" "" "" "" "" 0 0 0 0 "" "" "".

(** ** smartutil.go *)

(** What init finds on the platforms of the images: amd64, arm64, arm/v7 and ppc64le *)
Definition NativeEndian : ByteOrder := LittleEndian.

Notation ErrorCollector := (gmap string err).
Definition Collect (c : ErrorCollector) (key : string) (e : option err) : ErrorCollector * bool :=
  match e with Some e => (<[key := e]> c, true) | None => (c, false) end.

(** bits.Len(i) - 1 *)
Definition MSignificantBit (i : Z) : Z := if i =? 0 then 0 else Z.log2 i.

(** ** ataidentify.go *)

(** [None] is the index panic on a slice of odd length *)
Fixpoint swapByteOrder (b : list Z) : option (list Z) :=
  match b with
  | [] => Some []
  | [_] => None
  | x :: y :: b => (fun t => y :: x :: t) <$> swapByteOrder b
  end.
Definition getSerialNumber (d : ATACSPage) : option (list Z) := swapByteOrder (pgSerialNumber d).

Definition wwn_word (d : ATACSPage) (i : nat) : Z := default 0 (pgWWN d !! i).
Definition NAA (d : ATACSPage) : Z := Z.shiftr (wwn_word d 0) 12.
Definition IEEEOUI (d : ATACSPage) : Z :=
  Z.lor (Z.shiftl (Z.land (wwn_word d 0) 0x0fff) 12) (Z.shiftr (wwn_word d 1) 4).
Definition UniqueID (d : ATACSPage) : Z :=
  Z.lor (Z.lor (Z.shiftl (Z.land (wwn_word d 1) 0xf) 32) (Z.shiftl (wwn_word d 2) 16)) (wwn_word d 3).
Definition getWWN (d : ATACSPage) : string :=
  fmt_x (NAA d) +:+ " " +:+ fmt_0x 6 (IEEEOUI d) +:+ " " +:+ fmt_0x 9 (UniqueID d).

Definition getSectorSize (d : ATACSPage) : Z * Z :=
  let LogSec := 512 in
  let PhySec := 512 in
  if negb (Z.land (SectorSize d) 0xc000 =? 0x4000) then (LogSec, PhySec)
  else
    let PhySec :=
      if negb (Z.land (SectorSize d) 0x2000 =? 0)
      then uwrap 32 (Z.shiftl PhySec (Z.land (SectorSize d) 0x0f)) else PhySec in
    (LogSec, PhySec).

Definition getATAMajorVersion (d : ATACSPage) : string :=
  if (MajorVer d =? 0) || (MajorVer d =? 0xffff) then "This device does not report ATA major version"
  else default "unknown" (lookup_in ataMajorVersions (MSignificantBit (MajorVer d))).

Definition getATAMinorVersion (d : ATACSPage) : string :=
  if (MinorVer d =? 0) || (MinorVer d =? 0xffff) then "This device does not report ATA minor version"
  else default "unknown" (lookup_in ataMinorVersions (MinorVer d)).

Definition IdentifySerialATAType (d : ATACSPage) : string :=
  let low := Z.land (AtaTransportMajor d) 0x0fff in
  match lookup_in serialATAType (MSignificantBit low) with
  | Some t => "Serial ATA" +:+ t
  | None => "Serial ATA" +:+ " SATA (" +:+ fmt_sharp_0x 3 low +:+ ")"
  end.

Definition ataTransport (d : ATACSPage) : string :=
  if (AtaTransportMajor d =? 0) || (AtaTransportMajor d =? 0xffff) then "This device does not report Transport"
  else
    let major := Z.shiftr (AtaTransportMajor d) 12 in
    if major =? 0x0 then "Parallel ATA"
    else if major =? 0x1 then IdentifySerialATAType d
    else if major =? 0xe then "PCIe (" +:+ fmt_sharp_0x 3 (Z.land (AtaTransportMajor d) 0x0fff) +:+ ")"
    else "Unknown (" +:+ fmt_sharp_0x 4 (AtaTransportMajor d) +:+ ")".

(** ** scsicommands.go *)

Definition SCSIModeSense := 0x1a.
Definition SCSIReadCapacity10 := 0x25.
Definition SCSIReadCapacity16 := 0x9e.
Definition SCSIReadCapacityServiceAction := 0x10.
Definition SCSIATAPassThru := 0x85.
Definition SCSIInquiry := 0x12.
Definition INQRespLen : nat := 56.

(** Arrays of bytes, given by their first elements; writing at an offset *)
Definition array (n : nat) (l : list Z) : list Z := take n (l ++ replicate n 0)%list.
Definition put (i : nat) (bs : list Z) (a : list Z) : list Z := (take i a ++ bs ++ drop (i + length bs) a)%list.

(** sgIOErr.Error *)
Definition sgIOErr (r : sg.sgIOReply) : err :=
  Err ("SCSI status: " +:+ fmt_sharp_0x 2 (sg.status r) +:+ ", host status: " +:+ fmt_sharp_0x 2 (sg.hostStatus r) +:+
       ", driver status: " +:+ fmt_sharp_0x 2 (sg.driverStatus r)).

(** The reply holds what the driver wrote to the buffer of the caller *)
Definition runSCSIGen (d : SCSIDev) (header : sg.sgIOHeader) : prog (res (list Z)) :=
  r <- call (SgIo (fd d) header) ;;
  match r with
  | inl e => Ret (inl e)
  | inr r => Ret (if negb (Z.land (sg.info r) SGInfoOkMask =? SGInfoOk) then inl (sgIOErr r) else inr (sg.data r))
  end.

(** The buffer has [n] bytes, zero where the driver did not write. *)
Definition sendSCSICDB (d : SCSIDev) (cdb : list Z) (n : nat) : prog (res (list Z)) :=
  let header := sg.MkSgIOHeader 83 SGDxferFromDev cdb 32 n DefaultTimeout in
  r <- runSCSIGen d header ;;
  Ret (match r with inl e => inl e | inr data => inr (array n data) end).

Definition getLBSize (d : SCSIDev) : prog (res Z) :=
  r <- sendSCSICDB d (array 10 [SCSIReadCapacity10]) 8 ;;
  Ret (match r with inl e => inl e | inr response => inr (be_uint (slice 4 4 response)) end).

Definition modeSense (d : SCSIDev) (pageNo subPageNo pageCtrl : Z) (disableBlockDesc : bool) : prog (res (list Z)) :=
  let cdb1 := if disableBlockDesc then Z.shiftl 1 3 else 0 in
  sendSCSICDB d [SCSIModeSense; cdb1; Z.lor (uwrap 8 (Z.shiftl pageCtrl 6)) pageNo; subPageNo; 64; 0] 64.

(** ** scsiinquirypage.go *)

Definition decodeInquiry (b : list Z) : InquiryResponse :=
  MkInquiryResponse (be_uint (slice 2 1 b)) (slice 8 8 b) (slice 16 16 b) (slice 32 4 b) (slice 36 20 b).

Definition scsiInquiry (d : SCSIDev) : prog (res InquiryResponse) :=
  r <- sendSCSICDB d (put 3 (be_bytes 2 (Z.of_nat INQRespLen)) (array 6 [SCSIInquiry])) INQRespLen ;;
  Ret (match r with inl e => inl e | inr respBuf => inr (decodeInquiry respBuf) end).

(** %.d of a byte: with precision zero, zero prints nothing *)
Definition spcVersion (version : Z) : string :=
  let v := uwrap 8 (version - 2) in if v =? 0 then "" else pretty v.
(** The values of getValue, by attribute *)
Definition getValue (inquiry : InquiryResponse) (attr : string) : string :=
  if decide (attr = Compliance) then "SPC-" +:+ spcVersion (Version inquiry)
  else if decide (attr = Vendor) then string_of_bytes (VendorID inquiry)
  else if decide (attr = ModelNumber) then string_of_bytes (ProductID inquiry)
  else if decide (attr = FirmwareRev) then string_of_bytes (ProductRev inquiry)
  else if decide (attr = SerialNumber) then string_of_bytes (inqSerialNumber inquiry)
  else "".

(** ** common.go *)

Definition errReadCapacityOverflow : err := Err "READ CAPACITY (10) overflow".

(** ^/dev/nvme\d+n\d+$ *)
Definition RegexNVMeDev : re :=
  Cat Bol (lits "/dev/nvme" (Cat (Plus Digit) (Cat (Chr "n") (Cat (Plus Digit) Eol)))).
Definition detectBusType (dname : string) : string :=
  if HasPrefix dname "/dev/sd" then "SCSI"
  else if HasPrefix dname "/dev/hd" then "IDE"
  else if MatchString RegexNVMeDev dname then "NVMe"
  else "unknown".

(** The implementations of the interface Dev *)
Inductive Dev := DevSCSI (d : SCSIDev) | DevSATA (d : SCSIDev).
Definition dev_of (d : Dev) : SCSIDev := match d with DevSCSI d | DevSATA d => d end.

Definition Open (name : string) : prog (res SCSIDev) :=
  r <- call (OpenFile name) ;;
  Ret (match r with inl e => inl e | inr fd => inr (MkSCSIDev name fd) end).
Definition Close (d : SCSIDev) : prog unit := call (CloseFd (fd d)) ;;; Ret tt.

Definition ata_vendor : list Z := [0x41; 0x54; 0x41; 0x20; 0x20; 0x20; 0x20; 0x20].
Definition detectSCSIType (name : string) : prog (res Dev) :=
  r <- Open name ;;
  match r with
  | inl e => Ret (inl e)
  | inr device =>
      r <- scsiInquiry device ;;
      match r with
      | inl e => Ret (inl e)
      | inr SCSIInquiry =>
          Ret (inr (if decide (VendorID SCSIInquiry = ata_vendor) then DevSATA device else DevSCSI device))
      end
  end.

Definition readDeviceCapacity10 (d : SCSIDev) : prog (res Z) :=
  r <- sendSCSICDB d (array 10 [SCSIReadCapacity10]) 8 ;;
  match r with
  | inl e => Ret (inl e)
  | inr respBuf =>
      let lastLBA := be_uint (slice 0 4 respBuf) in
      let LBsize := be_uint (slice 4 4 respBuf) in
      let DeviceCapacity := uwrap 64 ((lastLBA + 1) * LBsize) in
      Ret (if lastLBA =? 0xffffffff then inl errReadCapacityOverflow else inr DeviceCapacity)
  end.

Definition readDeviceCapacity16 (d : SCSIDev) : prog (res Z) :=
  let cdb := array 16 [SCSIReadCapacity16; SCSIReadCapacityServiceAction] in
  r <- sendSCSICDB d (put 10 (be_bytes 4 32) cdb) 32 ;;
  match r with
  | inl e => Ret (inl e)
  | inr respBuf =>
      let lastLBA := be_uint (slice 0 8 respBuf) in
      let LBsize := be_uint (slice 8 4 respBuf) in
      Ret (inr (uwrap 64 (uwrap 64 (lastLBA + 1) * LBsize)))
  end.

Definition readDeviceCapacity (d : SCSIDev) : prog (res Z) :=
  r <- readDeviceCapacity10 d ;;
  match r with
  | inl e => if decide (e = errReadCapacityOverflow) then readDeviceCapacity16 d else Ret (inl e)
  | inr c => Ret (inr c)
  end.

(** ** ioctl.go *)

Definition capSysRawIO := Z.shiftl 1 17.
Definition capSysAdmin := Z.shiftl 1 21.
Definition CheckBinaryPerm : prog (option err) :=
  r <- call CapGet ;;
  match r with
  | inl e => Ret (Some (Err "linux capget syscall has failed"))
  | inr effective =>
      Ret (if (Z.land effective capSysRawIO =? 0) && (Z.land effective capSysAdmin =? 0)
           then Some (Err "capSysRawIO and capSysAdmin are not in effect, device access will fail") else None)
  end.

Definition isConditionSatisfied (devPath : string) : prog (option err) :=
  if decide (devPath = "") then Ret (Some (Err "no disk device path given to get the disk details"))
  else
    e <- CheckBinaryPerm ;;
    match e with
    | Some _ => Ret (Some (Err "error while checking device access permissions"))
    | None =>
        Ret (if decide (detectBusType devPath <> SupportedBusType)
             then Some (Err "the device type is not supported yet") else None)
    end.

(** ** scsidevice.go *)

Definition getAttrValUsingSI (d : SCSIDev) (attrName : string) : prog (res string) :=
  r <- scsiInquiry d ;;
  Ret (match r with
       | inl e => inl (Err "error in sending SCSI Inquiry command")
       | inr InqRes => inr (getValue InqRes attrName)
       end).

Definition errNoAttr : err := Err "Value of attribute not found".
Definition getAttrValUsingSimpleSCSI (d : SCSIDev) (attrName : string) : prog (res string) :=
  if decide (attrName = LogicalSectorSize) then
    r <- getLBSize d ;;
    Ret (match r with inl _ => inl (Err "error in getting logical block size of the device") | inr s => inr (pretty s) end)
  else if decide (attrName = Capacity) then
    r <- readDeviceCapacity d ;;
    Ret (match r with inl _ => inl (Err "error in getting total capacity of the device") | inr c => inr (pretty c) end)
  else Ret (inl errNoAttr).

(** SCSIDev.getBasicDiskInfoByAttr *)
Definition scsiInfoByAttr (d : SCSIDev) (attrName : string) : prog (res string) :=
  if decide (attrName ∈ ScsiInqAttr) then getAttrValUsingSI d attrName
  else if decide (attrName ∈ SimpleSCSIAttr) then getAttrValUsingSimpleSCSI d attrName
  else Ret (inl errNoAttr).

Definition fillDiskInfoUsingSI (d : SCSIDev) (diskDetails : DiskAttr) : prog (DiskAttr * option err) :=
  r <- scsiInquiry d ;;
  match r with
  | inl e => Ret (diskDetails, Some e)
  | inr InqRes =>
      Ret (diskDetails <| daCompliance := getValue InqRes Compliance |> <| daVendor := getValue InqRes Vendor |>
             <| daModelNumber := getValue InqRes ModelNumber |> <| daFirmwareRevision := getValue InqRes FirmwareRev |>
             <| daSerialNumber := getValue InqRes SerialNumber |>, None)
  end.

(** An error is collected under a key, a value is put in its place *)
Definition fillNumber (key : string) (set : Z -> DiskAttr -> DiskAttr) (r : res Z) (s : DiskAttr * ErrorCollector)
    : DiskAttr * ErrorCollector :=
  match r with inl e => (s.1, (Collect s.2 key (Some e)).1) | inr v => (set v s.1, s.2) end.

(** SCSIDev.getBasicDiskInfo *)
Definition scsiBasicDiskInfo (d : SCSIDev) : prog (DiskAttr * ErrorCollector) :=
  '(diskDetails, e) <- fillDiskInfoUsingSI d noDiskAttr ;;
  let collector := (Collect ∅ SCSIInqErr e).1 in
  capacity <- readDeviceCapacity d ;;
  let s := fillNumber SCSIReadCapErr (fun c a => a <| daCapacity := c |>) capacity (diskDetails, collector) in
  LBSize <- getLBSize d ;;
  Ret (fillNumber SCSiGetLBSizeErr (fun l a => a <| daLBSize := l |>) LBSize s).

(** ** satadevice.go *)

Definition word (b : list Z) (i : nat) : Z := uint_of NativeEndian (slice (2 * i) 2 b).
Definition decodeIdentify (b : list Z) : ATACSPage :=
  MkATACSPage (slice 20 20 b) (word b 80) (word b 81) (word b 106) [word b 108; word b 109; word b 110; word b 111]
    (word b 217) (word b 222).

Definition ataIdentify (d : SCSIDev) : prog (res ATACSPage) :=
  let cdb16 := put 14 [AtaIdentifyDevice] (array 16 [SCSIATAPassThru; 0x08; 0x0e]) in
  r <- sendSCSICDB d cdb16 512 ;;
  Ret (match r with
       | inl _ => inl (Err "error in sending SCSICDB 16 for ATA device")
       | inr responseBuf => inr (decodeIdentify responseBuf)
       end).

Definition getAttrValUsingATACSPage (d : SCSIDev) (attrName : string) : prog (res string) :=
  r <- ataIdentify d ;;
  Ret (match r with
       | inl _ => inl (Err "error in sending ATAIdentifyCommand")
       | inr identifyBuf =>
           if decide (attrName = WWN) then inr (getWWN identifyBuf)
           else if decide (attrName = AtATransport) then inr (ataTransport identifyBuf)
           else if decide (attrName = ATAMajor) then inr (getATAMajorVersion identifyBuf)
           else if decide (attrName = ATAMinor) then inr (getATAMinorVersion identifyBuf)
           else if decide (attrName = RPM) then inr (pretty (pgRotationRate identifyBuf))
           else if decide (attrName = LogicalSectorSize) then inr (pretty (getSectorSize identifyBuf).1)
           else if decide (attrName = PhysicalSectorSize) then inr (pretty (getSectorSize identifyBuf).2)
           else inl errNoAttr
       end).

(** SATA.getBasicDiskInfoByAttr *)
Definition sataInfoByAttr (d : SCSIDev) (attrName : string) : prog (res string) :=
  if decide (attrName ∈ ScsiInqAttr) then getAttrValUsingSI d attrName
  else if decide (attrName ∈ ATACSAttr) then getAttrValUsingATACSPage d attrName
  else if decide (attrName ∈ SimpleSCSIAttr) then getAttrValUsingSimpleSCSI d attrName
  else Ret (inl errNoAttr).

Definition fillDiskInfoUsingATACSPage (d : SCSIDev) (diskDetails : DiskAttr) : prog (DiskAttr * option err) :=
  r <- ataIdentify d ;;
  match r with
  | inl e => Ret (diskDetails, Some e)
  | inr identifyBuf =>
      match getSerialNumber identifyBuf with
      | None => Panic "index out of range"
      | Some serial =>
          let '(LBSize, PBSize) := getSectorSize identifyBuf in
          Ret (diskDetails <| daSerialNumber := string_of_bytes serial |> <| daWWN := getWWN identifyBuf |>
                 <| daLBSize := LBSize |> <| daPBSize := PBSize |> <| daRotationRate := pgRotationRate identifyBuf |>
                 <| daAtaTransport := ataTransport identifyBuf |>
                 <| daATAMajorVersion := getATAMajorVersion identifyBuf |>
                 <| daATAMinorVersion := getATAMinorVersion identifyBuf |>, None)
      end
  end.

(** SATA.getBasicDiskInfo *)
Definition sataBasicDiskInfo (d : SCSIDev) : prog (DiskAttr * ErrorCollector) :=
  '(diskDetails, e) <- fillDiskInfoUsingATACSPage d noDiskAttr ;;
  let collector := (Collect ∅ ATAIdentifyErr e).1 in
  '(diskDetails, e) <- fillDiskInfoUsingSI d diskDetails ;;
  let collector := (Collect collector SCSIInqErr e).1 in
  capacity <- readDeviceCapacity d ;;
  Ret (fillNumber SCSIReadCapErr (fun c a => a <| daCapacity := c |>) capacity (diskDetails, collector)).

(** ** diskinfo.go *)

Definition getBasicDiskInfo (d : Dev) : prog (DiskAttr * ErrorCollector) :=
  match d with DevSCSI d => scsiBasicDiskInfo d | DevSATA d => sataBasicDiskInfo d end.
Definition getBasicDiskInfoByAttr (d : Dev) (attrName : string) : prog (res string) :=
  match d with DevSCSI d => scsiInfoByAttr d attrName | DevSATA d => sataInfoByAttr d attrName end.

(** Identifier.SCSIBasicDiskInfo *)
Definition SCSIBasicDiskInfo (DevPath : string) : prog (DiskAttr * ErrorCollector) :=
  e <- isConditionSatisfied DevPath ;;
  match e with
  | Some e => Ret (noDiskAttr, (Collect ∅ errorCheckConditions (Some e)).1)
  | None =>
      r <- detectSCSIType DevPath ;;
      match r with
      | inl e => Ret (noDiskAttr, (Collect ∅ DetectSCSITypeErr (Some e)).1)
      | inr d => r <- getBasicDiskInfo d ;; Close (dev_of d) ;;; Ret r
      end
  end.

(** Identifier.SCSIBasicDiskInfoByAttrName *)
Definition SCSIBasicDiskInfoByAttrName (DevPath attrName : string) : prog (res string) :=
  e <- isConditionSatisfied DevPath ;;
  match e with
  | Some e => Ret (inl e)
  | None =>
      if decide (attrName = "") then Ret (inl (Err "no attribute name specified to get the value"))
      else
        r <- detectSCSIType DevPath ;;
        match r with
        | inl e => Ret (inl (Err "error in detecting type of SCSI device"))
        | inr d =>
            r <- getBasicDiskInfoByAttr d attrName ;;
            Close (dev_of d) ;;;
            Ret (match r with inl _ => inl (Err "error getting attribute of disk") | inr v => inr v end)
        end
  end.
End smart.

(** ** pkg/seachest *)

Module seachest.
Import drive.

Definition SeachestErrors : list string :=
  ["Success"; "Failed"; "Not Supported"; "Cmd Failure"; "In-progress"; "Aborted"; "Bad Parameter";
   "Memory Allocation Failed"; "Cmd Passthrough Failed"; "Library Mismatch"; "Device Frozen"; "Permission Denied";
   "File Open Error"; "Incomplete RFTRS"; "Cmd Time-out"; "Warning - Not all device enumerated";
   "Invalid Checksum"; "Cmd not Available"; "Cmd Blocked"; "Cmd Interrupted"; "Unknown"].
(** The text of an error; an index panic beyond the table *)
Definition seachestError (e : Z) : prog string :=
  match (if e <? 0 then None else SeachestErrors !! Z.to_nat e) with
  | Some s => Ret s
  | None => Panic "index out of range"
  end.

Definition closeDevice (DevPath : string) : prog unit :=
  e <- call (SeachestCloseDevice DevPath) ;;
  if e =? 0 then Ret tt else seachestError e ;;; Ret tt.

(** Identifier.SeachestBasicDiskInfo: the drive, or the error *)
Definition SeachestBasicDiskInfo (DevPath : string) : prog (Z + driveInformation) :=
  e <- call (SeachestGetDevice DevPath) ;;
  if negb (e =? 0) then seachestError e ;;; Ret (inl e)
  else
    '(e, Drive) <- call (SeachestDriveInformation DevPath) ;;
    r <- (if negb (e =? 0) then seachestError e ;;; Ret (inl e) else Ret (inr Drive)) ;;
    closeDevice DevPath ;;;
    Ret r.

(** C.GoString of a character array: the bytes before the first NUL *)
Fixpoint GoString (s : string) : string :=
  match s with
  | EmptyString => ""
  | String c s => if decide (c = Ascii.zero) then "" else String c (GoString s)
  end.

Definition GetHostName (d : driveInformation) : string := "".
Definition GetModelNumber (d : driveInformation) : string := GoString (modelNumber d).
Definition GetUuid (d : driveInformation) : string := pretty (worldWideName d).
Definition GetCapacity (d : driveInformation) : Z := uwrap 64 (maxLBA d * logicalSectorSize d).
Definition GetSerialNumber (d : driveInformation) : string := GoString (serialNumber d).
Definition GetVendorID (d : driveInformation) : string := GoString (vendorID d).
Definition GetFirmwareRevision (d : driveInformation) : string := GoString (firmwareRevision d).
Definition GetLogicalSectorSize (d : driveInformation) : Z := logicalSectorSize d.
Definition GetPhysicalSectorSize (d : driveInformation) : Z := physicalSectorSize d.
Definition GetRotationRate (d : driveInformation) : Z := if 1 <? rotationRate d then rotationRate d else 0.
(** float64 is IEEE binary64; the division of the rate by 60 is one of integers, so a rate
    below 60 divides by zero *)
Definition float64_of (z : Z) : spec_float := binary_normalize 53 1024 z 0 false.
Definition GetRotationalLatency (d : driveInformation) : spec_float :=
  if 1 <? rotationRate d then
    let rps := float64_of (rotationRate d / 60) in
    SFdiv 53 1024 (float64_of 1) rps
  else S754_zero false.
Definition DriveType (d : driveInformation) : string :=
  if rotationRate d =? 0 then blockdevice.DriveTypeUnknown
  else if rotationRate d =? 1 then blockdevice.DriveTypeSSD
  else blockdevice.DriveTypeHDD.
Definition GetTotalBytesRead (d : driveInformation) : Z := totalBytesRead d.
Definition GetTotalBytesWritten (d : driveInformation) : Z := totalBytesWritten d.
Definition GetDeviceUtilizationRate (d : driveInformation) : Z := deviceReportedUtilizationRate d.
(** The two float64 fields are bit patterns; this is that of -1 *)
Definition float_minus_one : Z := 0xbff0000000000000.
Definition GetPercentEnduranceUsed (d : driveInformation) : Z :=
  if negb (percentEnduranceUsed d =? float_minus_one) then percentEnduranceUsed d else 0.
Definition GetTemperatureDataValidStatus (d : driveInformation) : bool := temperatureDataValid d.
Definition GetCurrentTemperature (d : driveInformation) : Z := currentTemperature d.
Definition GetHighestValid (d : driveInformation) : bool := highestValid d.
Definition GetHighestTemperature (d : driveInformation) : Z := highestTemperature d.
Definition GetLowestValid (d : driveInformation) : bool := lowestValid d.
Definition GetLowestTemperature (d : driveInformation) : Z := lowestTemperature d.
End seachest.
