(* ===== verification/SmartSpec.v ===== *)
(** * What pkg/smart reads from a disk

    The capacity, the world wide name, the sector sizes and the serial number decoded
    from the bytes of a device, and the file descriptors the code leaves open. *)

From Stdlib Require Import ZArith Ascii Lia.
From stdpp Require Import base list strings gmap numbers pretty.
From S2P Require Import Prelude GoStrings Md5 Regex Types Prog Smart.

Local Open Scope string_scope.
Local Open Scope Z_scope.

(** ** Numbers and bytes *)

Lemma be_uint_le bs : be_uint bs = le_uint (rev bs).
Proof.
  unfold be_uint, le_uint. rewrite <-fold_left_rev_right. generalize 0. induction (rev bs) as [|b l IH]; intros z; cbn; [done|].
  rewrite IH. lia.
Qed.

Lemma le_uint_le_bytes n z : 0 <= z < 256 ^ Z.of_nat n -> le_uint (md5.le_bytes n z) = z.
Proof.
  revert z. induction n as [|n IH]; intros z Hz; cbn [md5.le_bytes le_uint fold_right].
  - cbn in *. lia.
  - fold (le_uint (md5.le_bytes n (Z.shiftr z 8))).
    rewrite Nat2Z.inj_succ, Z.pow_succ_r in Hz by lia.
    rewrite IH; rewrite Z.shiftr_div_pow2 by lia; change (2 ^ 8) with 256.
    + change 255 with (Z.ones 8). rewrite Z.land_ones by lia. change (2 ^ 8) with 256.
      pose proof (Z.div_mod z 256). lia.
    + split; [apply Z.div_pos; lia|]. apply Z.div_lt_upper_bound; lia.
Qed.

Lemma be_uint_be_bytes n z : 0 <= z < 256 ^ Z.of_nat n -> be_uint (be_bytes n z) = z.
Proof. intros. unfold be_bytes. rewrite be_uint_le, rev_involutive. by apply le_uint_le_bytes. Qed.

Lemma length_be_bytes n z : length (be_bytes n z) = n.
Proof. unfold be_bytes. rewrite length_rev. apply le_bytes_length. Qed.

(** A field of a reply *)
Lemma slice_app i n a b c : length a = i -> length b = n -> slice i n (a ++ b ++ c)%list = b.
Proof. intros <- <-. unfold slice. by rewrite drop_app_length, take_app_length. Qed.

Lemma slice_first n b c : length b = n -> slice 0 n (b ++ c)%list = b.
Proof. apply (slice_app 0 n []). done. Qed.

Lemma slice_array i n m l : (i + n <= length l)%nat -> (i + n <= m)%nat -> slice i n (smart.array m l) = slice i n l.
Proof.
  intros Hl Hm. unfold slice, smart.array. rewrite !take_drop_commute, take_take.
  rewrite Nat.min_l by lia. by rewrite take_app_le by lia.
Qed.

(** ** READ CAPACITY *)

(** A disk with last block [L] of [B] bytes, as SBC describes its answers to READ
    CAPACITY(10) and (16): the fields are big-endian, and the shorter command answers
    0xffffffff for a block it cannot express. *)
Record block_disk {W} (o : oracle W) (fd L B : Z) : Prop := {
  bd_last : 0 <= L < 2 ^ 64;
  bd_block : 0 <= B < 2 ^ 32;
  bd_read10 h w : sg.cmd h = smart.array 10 [smart.SCSIReadCapacity10] ->
    exists w' st rest, o _ (SgIo fd h) w =
      (w', inr (sg.MkSgIOReply st 0 0 0 (be_bytes 4 (Z.min L 0xffffffff) ++ be_bytes 4 B ++ rest)%list));
  bd_read16 h w : take 2 (sg.cmd h) = [smart.SCSIReadCapacity16; smart.SCSIReadCapacityServiceAction] ->
    exists w' st rest, o _ (SgIo fd h) w =
      (w', inr (sg.MkSgIOReply st 0 0 0 (be_bytes 8 L ++ be_bytes 4 B ++ rest)%list))
}.

Definition header (cdb : list Z) (n : nat) : sg.sgIOHeader :=
  sg.MkSgIOHeader 83 smart.SGDxferFromDev cdb 32 n smart.DefaultTimeout.

Lemma sendSCSICDB_exec {W} (o : oracle W) d cdb n w w' st data :
  o _ (SgIo (smart.fd d) (header cdb n)) w =
  (w', inr (sg.MkSgIOReply st 0 0 0 data)) ->
  exec o (smart.sendSCSICDB d cdb n) w = (w', Returned (inr (smart.array n data))).
Proof. intros Ho. unfold smart.sendSCSICDB, smart.runSCSIGen. unfold header in Ho. cbn. by rewrite Ho. Qed.

Section Capacity.
Context {W : Type} (o : oracle W) (d : smart.SCSIDev) (L B : Z) (Hd : block_disk o (smart.fd d) L B).

Lemma read10_exec w :
  exists w', exec o (smart.readDeviceCapacity10 d) w =
    (w', Returned (if L <? 0xffffffff then inr ((L + 1) * B) else inl smart.errReadCapacityOverflow)).
Proof.
  pose proof (bd_last _ _ _ _ Hd). pose proof (bd_block _ _ _ _ Hd).
  destruct (bd_read10 _ _ _ _ Hd (header (smart.array 10 [smart.SCSIReadCapacity10]) 8) w eq_refl)
    as (w' & st & rest & Ho). exists w'.
  unfold smart.readDeviceCapacity10. rewrite exec_bind, (sendSCSICDB_exec _ _ _ _ _ _ _ _ Ho).
  rewrite !slice_array by (rewrite ?length_app, ?length_be_bytes; lia).
  rewrite (slice_app 4 4 (be_bytes 4 (Z.min L 0xffffffff)) (be_bytes 4 B)) by apply length_be_bytes.
  rewrite (slice_first 4) by apply length_be_bytes.
  rewrite !be_uint_be_bytes by lia. cbn [exec]. do 2 f_equal.
  destruct (Z.ltb_spec L 0xffffffff).
  - rewrite Z.min_l by lia. rewrite (proj2 (Z.eqb_neq _ _)) by lia. f_equal. apply uwrap_id. nia.
  - rewrite Z.min_r by lia. done.
Qed.

Lemma read16_exec w :
  exists w', exec o (smart.readDeviceCapacity16 d) w = (w', Returned (inr (uwrap 64 ((L + 1) * B)))).
Proof.
  pose proof (bd_last _ _ _ _ Hd). pose proof (bd_block _ _ _ _ Hd).
  destruct (bd_read16 _ _ _ _ Hd
    (header (smart.put 10 (be_bytes 4 32) (smart.array 16 [smart.SCSIReadCapacity16; smart.SCSIReadCapacityServiceAction])) 32)
    w eq_refl) as (w' & st & rest & Ho). exists w'.
  unfold smart.readDeviceCapacity16. cbv zeta. rewrite exec_bind, (sendSCSICDB_exec _ _ _ _ _ _ _ _ Ho).
  rewrite !slice_array by (rewrite ?length_app, ?length_be_bytes; lia).
  rewrite (slice_app 8 4 (be_bytes 8 L) (be_bytes 4 B)) by apply length_be_bytes.
  rewrite (slice_first 8) by apply length_be_bytes.
  rewrite !be_uint_be_bytes by (cbn; lia). cbn [exec]. do 3 f_equal.
  unfold uwrap. by rewrite Zmult_mod_idemp_l.
Qed.

Lemma readDeviceCapacity_exec w :
  exists w', exec o (smart.readDeviceCapacity d) w = (w', Returned (inr (uwrap 64 ((L + 1) * B)))).
Proof.
  pose proof (bd_last _ _ _ _ Hd). pose proof (bd_block _ _ _ _ Hd).
  unfold smart.readDeviceCapacity. destruct (read10_exec w) as [w1 H10]. rewrite exec_bind, H10.
  destruct (Z.ltb_spec L 0xffffffff).
  - exists w1. cbn [exec]. do 3 f_equal. symmetry. apply uwrap_id. nia.
  - rewrite decide_True by done. apply read16_exec.
Qed.
End Capacity.

(** C35. The capacity of a SCSI disk: for a disk whose last block is [L] and whose blocks
    have [B] bytes, reading the capacity always succeeds and gives the number of bytes of
    all blocks, [(L + 1) * B], in 64 bits - with READ CAPACITY(10) as long as [L] fits
    its answer, and with READ CAPACITY(16) beyond, where the shorter command answers
    0xffffffff. *)
Theorem readDeviceCapacity_spec {W} (o : oracle W) d L B w :
  block_disk o (smart.fd d) L B -> (L + 1) * B < 2 ^ 64 ->
  exists w', exec o (smart.readDeviceCapacity d) w = (w', Returned (inr ((L + 1) * B))).
Proof.
  intros Hd Hlt. destruct (readDeviceCapacity_exec o d L B Hd w) as [w' Hx]. exists w'. rewrite Hx.
  do 3 f_equal. apply uwrap_id. pose proof (bd_last _ _ _ _ Hd). pose proof (bd_block _ _ _ _ Hd). nia.
Qed.

(** A disk of 4 TB, beyond the reach of READ CAPACITY(10) *)
Definition big_disk : oracle unit := fun X e w =>
  match e in callE X return unit * X with
  | SgIo _ h =>
      (w, inr (sg.MkSgIOReply 0 0 0 0
         (if decide (sg.cmd h = smart.array 10 [smart.SCSIReadCapacity10])
          then be_bytes 4 0xffffffff ++ be_bytes 4 512 ++ []
          else be_bytes 8 7814037167 ++ be_bytes 4 512 ++ replicate 20 0)%list))
  | e => (w, deaf _ e)
  end.

Lemma big_disk_ok fd : block_disk big_disk fd 7814037167 512.
Proof.
  split; [lia|lia| |].
  - intros h w Hc. eexists _, _, _. cbn [big_disk]. rewrite decide_True by done. done.
  - intros h w Hc. eexists _, _, _. cbn [big_disk]. rewrite decide_False; [done|]. intros He. by rewrite He in Hc.
Qed.

Lemma readDeviceCapacity_spec_witness :
  exists w', exec big_disk (smart.readDeviceCapacity (smart.MkSCSIDev "/dev/sda" 3)) tt =
    (w', Returned (inr 4000787030016)).
Proof.
  apply (readDeviceCapacity_spec big_disk (smart.MkSCSIDev "/dev/sda" 3) 7814037167 512 tt); [apply big_disk_ok|lia].
Defined.

(** The two readers of a disk's capacity disagree: what pkg/seachest computes from
    the last block and the block size is one block short of the size of the disk, which
    pkg/smart computes. *)
Theorem seachest_capacity_short {W} (o : oracle W) dev L B w (i : drive.driveInformation) :
  block_disk o (smart.fd dev) L B -> (L + 1) * B < 2 ^ 64 ->
  drive.maxLBA i = L -> drive.logicalSectorSize i = B ->
  exists w' c, exec o (smart.readDeviceCapacity dev) w = (w', Returned (inr c)) /\
    seachest.GetCapacity i = c - B.
Proof.
  intros Hd Hlt HL HB. pose proof (bd_last _ _ _ _ Hd). pose proof (bd_block _ _ _ _ Hd).
  destruct (readDeviceCapacity_exec o dev L B Hd w) as [w' Hx]. exists w', (uwrap 64 ((L + 1) * B)). split; [done|].
  unfold seachest.GetCapacity. rewrite HL, HB, !uwrap_id by nia. lia.
Qed.

Lemma seachest_capacity_short_witness :
  seachest.GetCapacity
    (drive.MkDriveInformation "" "" "" "" 0 7814037167 512 4096 7200 0 0 0 0 false 0 false 0 false 0) =
  4000787030016 - 512.
Proof.
  destruct (seachest_capacity_short big_disk (smart.MkSCSIDev "/dev/sda" 3) 7814037167 512 tt
    (drive.MkDriveInformation "" "" "" "" 0 7814037167 512 4096 7200 0 0 0 0 false 0 false 0 false 0))
    as (w' & c & Hx & Hc); [apply big_disk_ok|lia|done|done|].
  rewrite Hc. f_equal. vm_compute in Hx. by injection Hx.
Defined.

(** ** Serial numbers *)

(** Swapping twice gives the bytes back. *)
Lemma swapByteOrder_involutive b c : smart.swapByteOrder b = Some c -> smart.swapByteOrder c = Some b.
Proof.
  revert b c. fix IH 1. intros [|x [|y b]] c; cbn; [by intros [= <-]|done|].
  destruct (smart.swapByteOrder b) as [t|] eqn:Ht; [|done]. cbn. intros [= <-]. cbn. by rewrite (IH _ _ Ht).
Qed.

Lemma swapByteOrder_length b c : smart.swapByteOrder b = Some c -> length c = length b.
Proof.
  revert b c. fix IH 1. intros [|x [|y b]] c; cbn; [by intros [= <-]|done|].
  destruct (smart.swapByteOrder b) as [t|] eqn:Ht; [|done]. cbn. intros [= <-]. cbn. by rewrite (IH _ _ Ht).
Qed.

(** It panics on slices of odd length only. *)
Lemma swapByteOrder_even b : is_Some (smart.swapByteOrder b) <-> Nat.even (length b) = true.
Proof.
  revert b. fix IH 1. intros [|x [|y b]]; cbn; [done|by split; [intros []|]|].
  rewrite fmap_is_Some. apply IH.
Qed.

(** ** World wide names *)

(** Reading hexadecimal digits *)
Definition hex_value (c : ascii) : Z :=
  let n := Z.of_N (Ascii.N_of_ascii c) in if n <? 58 then n - 48 else n - 87.
Fixpoint read_hex (acc : Z) (s : string) : Z :=
  match s with EmptyString => acc | String c s => read_hex (acc * 16 + hex_value c) s end.

Lemma hex_value_digit z : 0 <= z < 16 -> hex_value (hex_digit z) = z.
Proof.
  intros Hz. unfold hex_value, hex_digit. destruct (Z.ltb_spec z 10).
  - rewrite Ascii.N_ascii_embedding, Z2N.id by lia. rewrite (proj2 (Z.ltb_lt _ _)) by lia. lia.
  - rewrite Ascii.N_ascii_embedding, Z2N.id by lia. rewrite (proj2 (Z.ltb_ge _ _)) by lia. lia.
Qed.

Lemma read_hex_digits fuel z acc :
  (0 < fuel)%nat -> 0 <= z < 16 ^ Z.of_nat fuel -> read_hex 0 (hex_digits fuel z acc) = read_hex z acc.
Proof.
  revert z acc. induction fuel as [|fuel IH]; intros z acc Hf Hz; [lia|]. cbn [hex_digits].
  rewrite Nat2Z.inj_succ, Z.pow_succ_r in Hz by lia. pose proof (Z.div_mod z 16). pose proof (Z.mod_pos_bound z 16).
  destruct (Z.eqb_spec (z / 16) 0).
  - cbn. rewrite hex_value_digit by lia. f_equal. lia.
  - destruct fuel as [|fuel]; [cbn in Hz; nia|]. rewrite IH; [|lia|].
    + cbn. rewrite hex_value_digit by lia. f_equal. lia.
    + split; [apply Z.div_pos; lia|]. apply Z.div_lt_upper_bound; lia.
Qed.

Lemma read_hex_fmt_0x w z : 0 <= z < 2 ^ 64 -> read_hex 0 (fmt_0x w z) = z.
Proof.
  intros Hz. unfold fmt_0x. set (n := (_ - _)%nat).
  assert (Hn : forall s, read_hex 0 (zeros n s) = read_hex 0 s) by (induction n; cbn; auto).
  rewrite Hn. unfold fmt_x. by rewrite read_hex_digits by (cbn; lia).
Qed.

(** A printed number has no spaces. *)
Lemma hex_digits_no_space fuel z acc :
  no_byte " " acc = true -> no_byte " " (hex_digits fuel z acc) = true.
Proof.
  revert z acc. induction fuel as [|fuel IH]; intros z acc Ha; [done|]. cbn [hex_digits].
  assert (no_byte " " (String (hex_digit (z mod 16)) acc) = true).
  { cbn. rewrite Ha, andb_true_r. apply negb_true_iff, bool_decide_eq_false. intros Heq.
    pose proof (hex_value_digit (z mod 16)) as Hv. rewrite Heq in Hv. change (hex_value " ") with (-16) in Hv.
    pose proof (Z.mod_pos_bound z 16). lia. }
  destruct (_ =? 0); auto.
Qed.

Lemma fmt_0x_no_space w z : no_byte " " (fmt_0x w z) = true.
Proof.
  unfold fmt_0x. set (n := (_ - _)%nat). induction n as [|n IH]; [by apply hex_digits_no_space|done].
Qed.

(** Setting disjoint bits is adding. *)
Lemma lor_shiftl a b n : 0 <= n -> 0 <= b < 2 ^ n -> Z.lor (Z.shiftl a n) b = a * 2 ^ n + b.
Proof.
  intros Hn Hb. rewrite <-Z.shiftl_mul_pow2 by done.
  assert (Hland : Z.land (Z.shiftl a n) b = 0).
  { apply Z.bits_inj'. intros i Hi. rewrite Z.land_spec, Z.bits_0. destruct (Z.lt_ge_cases i n).
    - by rewrite Z.shiftl_spec_low.
    - rewrite <-(Z.mod_small b (2 ^ n)) by done. by rewrite Z.mod_pow2_bits_high, andb_false_r by lia. }
  by rewrite Z.add_nocarry_lxor, Z.lxor_lor by done.
Qed.

(** The number a printed name stands for *)
Definition read_wwn (s : string) : option Z :=
  match Split s " " with
  | [naa; oui; uid] => Some (read_hex 0 naa * 2 ^ 60 + read_hex 0 oui * 2 ^ 36 + read_hex 0 uid)
  | _ => None
  end.

(** The words of a number, most significant first *)
Definition wwn_words (n : Z) : list Z := [n / 2 ^ 48; n / 2 ^ 32 mod 2 ^ 16; n / 2 ^ 16 mod 2 ^ 16; n mod 2 ^ 16].

(** The fields of the name, in arithmetic *)
Section Fields.
Context (p : smart.ATACSPage) (w0 w1 w2 w3 : Z) (Hp : smart.pgWWN p = [w0; w1; w2; w3]).
Context (H0 : 0 <= w0 < 2 ^ 16) (H1 : 0 <= w1 < 2 ^ 16) (H2 : 0 <= w2 < 2 ^ 16) (H3 : 0 <= w3 < 2 ^ 16).

Lemma NAA_eq : smart.NAA p = w0 / 2 ^ 12.
Proof. unfold smart.NAA, smart.wwn_word. rewrite Hp. by rewrite Z.shiftr_div_pow2. Qed.

Lemma IEEEOUI_eq : smart.IEEEOUI p = w0 mod 2 ^ 12 * 2 ^ 12 + w1 / 2 ^ 4.
Proof.
  unfold smart.IEEEOUI, smart.wwn_word. rewrite Hp. cbn [lookup list_lookup].
  change (default 0 (Some w0)) with w0. change (default 0 (Some w1)) with w1.
  rewrite Z.shiftr_div_pow2 by lia. rewrite lor_shiftl; [|lia|].
  - change 0x0fff with (Z.ones 12). by rewrite Z.land_ones by lia.
  - split; [apply Z.div_pos; lia|]. apply Z.div_lt_upper_bound; lia.
Qed.

Lemma UniqueID_eq : smart.UniqueID p = w1 mod 2 ^ 4 * 2 ^ 32 + w2 * 2 ^ 16 + w3.
Proof.
  unfold smart.UniqueID, smart.wwn_word. rewrite Hp. cbn [lookup list_lookup].
  change (default 0 (Some w1)) with w1. change (default 0 (Some w2)) with w2. change (default 0 (Some w3)) with w3.
  rewrite (Z.shiftl_mul_pow2 w2) by lia. rewrite (lor_shiftl _ (w2 * 2 ^ 16)) by lia.
  replace (Z.land w1 15 * 2 ^ 32 + w2 * 2 ^ 16) with (Z.shiftl (Z.land w1 15 * 2 ^ 16 + w2) 16)
    by (rewrite Z.shiftl_mul_pow2 by lia; lia).
  rewrite lor_shiftl by lia. change 15 with (Z.ones 4). rewrite Z.land_ones by lia. lia.
Qed.
End Fields.

Lemma read_getWWN p n : 0 <= n < 2 ^ 64 -> smart.pgWWN p = wwn_words n -> read_wwn (smart.getWWN p) = Some n.
Proof.
  intros Hn Hp. unfold smart.getWWN, read_wwn.
  assert (Hsp : forall t, " " +:+ t = String " " t) by done. rewrite !Hsp.
  rewrite !Split_app by (apply fmt_0x_no_space || by apply hex_digits_no_space).
  rewrite Split_single by apply fmt_0x_no_space.
  change (fmt_x (smart.NAA p)) with (fmt_0x 0 (smart.NAA p)).
  assert (0 <= n / 2 ^ 48 < 2 ^ 16) by (split; [apply Z.div_pos; lia|apply Z.div_lt_upper_bound; lia]).
  unfold wwn_words in Hp. pose proof (fun z => Z.mod_pos_bound z (2 ^ 16) eq_refl) as Hm.
  assert (Hw : n = n / 2 ^ 48 * 2 ^ 48 + (n / 2 ^ 32 mod 2 ^ 16) * 2 ^ 32 + (n / 2 ^ 16 mod 2 ^ 16) * 2 ^ 16 + n mod 2 ^ 16)
    by (Z.div_mod_to_equations; lia).
  revert Hw Hp. generalize (Hm (n / 2 ^ 32)) (Hm (n / 2 ^ 16)) (Hm n).
  generalize (n / 2 ^ 32 mod 2 ^ 16) (n / 2 ^ 16 mod 2 ^ 16) (n mod 2 ^ 16). intros w1 w2 w3 ? ? ? Hw Hp.
  generalize dependent (n / 2 ^ 48). intros w0 ? Hw Hp.
  rewrite (NAA_eq p w0 w1 w2 w3), (IEEEOUI_eq p w0 w1 w2 w3), (UniqueID_eq p w0 w1 w2 w3) by done.
  assert (0 <= w0 / 2 ^ 12 < 16) by (split; [apply Z.div_pos; lia|apply Z.div_lt_upper_bound; lia]).
  assert (0 <= w1 / 2 ^ 4 < 2 ^ 12) by (split; [apply Z.div_pos; lia|apply Z.div_lt_upper_bound; lia]).
  pose proof (Z.mod_pos_bound w0 (2 ^ 12) eq_refl). pose proof (Z.mod_pos_bound w1 (2 ^ 4) eq_refl).
  rewrite !read_hex_fmt_0x by lia. f_equal.
  pose proof (Z.div_mod w0 (2 ^ 12)). pose proof (Z.div_mod w1 (2 ^ 4)). lia.
Qed.

(** ** The IDENTIFY page *)

(** What a device has to report; the serial number is 20 bytes in reading order *)
Record identity := MkIdentity {
  idSerial : list Z; idWWN : Z; idMajor : Z; idMinor : Z; idSector : Z; idRotation : Z; idTransport : Z
}.
Definition is_word (z : Z) : Prop := 0 <= z < 2 ^ 16.
Record identity_ok (d : identity) : Prop := {
  io_serial : length (idSerial d) = 20%nat;
  io_wwn : 0 <= idWWN d < 2 ^ 64;
  io_words : Forall is_word [idMajor d; idMinor d; idSector d; idRotation d; idTransport d]
}.

(** The page of ATA8-ACS for a device: words are little-endian, the two bytes of every word
    of a string are swapped, and the words in between say other things. *)
Definition word_bytes (z : Z) : list Z := md5.le_bytes 2 z.
Inductive identify_page (d : identity) : list Z -> Prop :=
  | page_of swapped g1 g2 g3 g4 g5 g6 g7 :
      smart.swapByteOrder swapped = Some (idSerial d) ->
      map length [g1; g2; g3; g4; g5; g6; g7] = [20; 120; 48; 2; 210; 8; 66]%nat ->
      identify_page d
        (g1 ++ swapped ++ g2 ++ word_bytes (idMajor d) ++ word_bytes (idMinor d) ++ g3 ++ word_bytes (idSector d) ++
         g4 ++ concat (map word_bytes (wwn_words (idWWN d))) ++ g5 ++ word_bytes (idRotation d) ++ g6 ++
         word_bytes (idTransport d) ++ g7)%list.

Lemma slice_skip i n a b : (length a <= i)%nat -> slice i n (a ++ b)%list = slice (i - length a) n b.
Proof. intros Hi. unfold slice. by rewrite drop_app_ge. Qed.

Lemma word_first z b : is_word z -> smart.word (word_bytes z ++ b) 0 = z.
Proof.
  intros Hz. unfold smart.word. rewrite slice_first by apply le_bytes_length. by apply le_uint_le_bytes.
Qed.

Lemma word_skip k i a b :
  length a = (2 * k)%nat -> (k <= i)%nat -> smart.word (a ++ b) i = smart.word b (i - k).
Proof.
  intros Ha Hi. unfold smart.word. rewrite slice_skip by lia. rewrite Ha. do 2 f_equal. lia.
Qed.

(** Walks to a word of a page whose parts have known lengths. *)
Ltac read_word :=
  repeat match goal with
  | |- smart.word (word_bytes _ ++ _) O = _ => apply word_first; assumption
  | |- smart.word (word_bytes ?z ++ _) _ = _ => rewrite (word_skip 1) by (apply le_bytes_length || lia); cbn [Nat.sub]
  | H : length ?a = ?n |- smart.word (?a ++ _) _ = _ =>
      let k := eval compute in (Nat.div2 n) in rewrite (word_skip k) by (exact H || lia); cbn [Nat.sub]
  end.

Lemma wwn_words_ok n : 0 <= n < 2 ^ 64 -> Forall is_word (wwn_words n).
Proof.
  intros Hn. pose proof (fun z => Z.mod_pos_bound z (2 ^ 16) eq_refl) as Hm.
  repeat constructor; try apply Hm; [apply Z.div_pos; lia|apply Z.div_lt_upper_bound; lia].
Qed.

Lemma decode_page d b :
  identity_ok d -> identify_page d b ->
  exists swapped, smart.swapByteOrder swapped = Some (idSerial d) /\
  smart.decodeIdentify b =
    smart.MkATACSPage swapped (idMajor d) (idMinor d) (idSector d) (wwn_words (idWWN d)) (idRotation d) (idTransport d).
Proof.
  intros [Hs Hw Hws] [sw g1 g2 g3 g4 g5 g6 g7 Hsw [= L1 L2 L3 L4 L5 L6 L7]].
  rewrite !Forall_cons_iff in Hws. destruct Hws as (? & ? & ? & ? & ? & _).
  pose proof (wwn_words_ok _ Hw) as Hwn. unfold wwn_words in Hwn. rewrite !Forall_cons_iff in Hwn.
  destruct Hwn as (? & ? & ? & ? & _).
  apply swapByteOrder_length in Hsw as Hl. rewrite Hs in Hl. symmetry in Hl.
  exists sw. split; [done|]. unfold smart.decodeIdentify, wwn_words. cbn [map concat]. rewrite app_nil_r, <-!app_assoc.
  f_equal; [by apply slice_app|read_word..]. f_equal; [read_word|]. f_equal; [read_word|]. f_equal; [read_word|].
  f_equal. read_word.
Qed.

(** The sizes of sectors a sector word stands for *)
Definition sector_sizes (w : Z) : Z * Z :=
  (512, if (w / 2 ^ 14 =? 1) && Z.testbit w 13 then 512 * 2 ^ (w mod 16) else 512).

Lemma land_shiftl w m k : 0 <= k -> Z.land w (Z.shiftl m k) = Z.land (Z.shiftr w k) m * 2 ^ k.
Proof.
  intros Hk. rewrite <-Z.shiftl_mul_pow2 by done. apply Z.bits_inj'. intros i Hi. rewrite Z.land_spec.
  destruct (Z.lt_ge_cases i k); [by rewrite !Z.shiftl_spec_low, andb_false_r by done|].
  rewrite !Z.shiftl_spec_high, Z.land_spec, Z.shiftr_spec by lia. do 2 f_equal. lia.
Qed.

Lemma getSectorSize_eq p : is_word (smart.SectorSize p) -> smart.getSectorSize p = sector_sizes (smart.SectorSize p).
Proof.
  unfold smart.getSectorSize, sector_sizes, is_word. set (w := smart.SectorSize p). intros Hw.
  change 0xc000 with (Z.shiftl (Z.ones 2) 14). change 0x2000 with (Z.shiftl (Z.ones 1) 13).
  change 0x0f with (Z.ones 4). rewrite !land_shiftl, !Z.land_ones by lia.
  rewrite (Z.shiftr_div_pow2 w 14) by lia.
  assert (0 <= w / 2 ^ 14 < 2 ^ 2) by (split; [apply Z.div_pos; lia|apply Z.div_lt_upper_bound; lia]).
  rewrite (Z.mod_small (w / 2 ^ 14)) by done.
  destruct (Z.eqb_spec (w / 2 ^ 14) 1) as [He|Hne]; [rewrite He; cbn [negb andb]|].
  - rewrite Z.testbit_odd. change (2 ^ 1) with 2. rewrite Zmod_odd. destruct (Z.odd (Z.shiftr w 13)); [|done].
    cbn [Z.mul negb]. do 2 f_equal. rewrite Z.shiftl_mul_pow2 by (apply Z.mod_pos_bound; lia).
    apply uwrap_id. pose proof (Z.mod_pos_bound w 16 eq_refl). change (2 ^ 4) with 16.
    pose proof (Z.pow_le_mono_r 2 (w mod 16) 15). pose proof (Z.pow_pos_nonneg 2 (w mod 16)). lia.
  - rewrite (proj2 (Z.eqb_neq _ _)) by lia. done.
Qed.


(** A disk with 4096-byte physical sectors *)
Definition demo_identity : identity :=
  MkIdentity (md5.bytes_of_string "WD-WCC4N0123456     ") 0x50014ee20a1b2c3d 0x1fe 0x28 0x6003 7200 0x101e.
Definition demo_page : list Z :=
  (replicate 20 0 ++ default [] (smart.swapByteOrder (idSerial demo_identity)) ++ replicate 120 0 ++
   word_bytes 0x1fe ++ word_bytes 0x28 ++ replicate 48 0 ++ word_bytes 0x6003 ++ replicate 2 0 ++
   concat (map word_bytes (wwn_words 0x50014ee20a1b2c3d)) ++ replicate 210 0 ++ word_bytes 7200 ++ replicate 8 0 ++
   word_bytes 0x101e ++ replicate 66 0)%list.


(** ** Open descriptors *)

(** Calls on a device that is open *)
Definition sg_only X (e : callE X) : bool := match e with SgIo _ _ => true | _ => false end.

Lemma sendSCSICDB_sg d cdb n : uses sg_only (smart.sendSCSICDB d cdb n).
Proof. unfold smart.sendSCSICDB, smart.runSCSIGen. cbv zeta. uses_solve. Qed.
#[local] Hint Resolve sendSCSICDB_sg : uses.

Lemma scsiInquiry_sg d : uses sg_only (smart.scsiInquiry d).
Proof. unfold smart.scsiInquiry. uses_solve. Qed.
#[local] Hint Resolve scsiInquiry_sg : uses.

Lemma readDeviceCapacity_sg d : uses sg_only (smart.readDeviceCapacity d).
Proof.
  unfold smart.readDeviceCapacity, smart.readDeviceCapacity10, smart.readDeviceCapacity16. cbv zeta. uses_solve.
Qed.
#[local] Hint Resolve readDeviceCapacity_sg : uses.

Lemma getBasicDiskInfo_sg d : uses sg_only (smart.getBasicDiskInfo d).
Proof.
  unfold smart.getBasicDiskInfo, smart.scsiBasicDiskInfo, smart.sataBasicDiskInfo, smart.fillDiskInfoUsingSI,
    smart.fillDiskInfoUsingATACSPage, smart.ataIdentify, smart.getLBSize. cbv zeta. uses_solve.
Qed.

(** What is known: the descriptors that are open *)
Definition fds : protocol := {|
  know := list Z;
  may K X e := True;
  says K X e x := True;
  learn K X e := match e in callE X return X -> list Z with
                 | OpenFile _ => fun r => match r with inr fd => fd :: K | inl _ => K end
                 | CloseFd fd => fun _ => filter (fun f => f <> fd) K
                 | _ => fun _ => K
                 end;
  panics := true
|}.

Lemma wp_fds_sg {A} K (p : prog A) Q : uses sg_only p -> (forall a, Q K a) -> wp fds K p Q.
Proof.
  intros Hp HQ. eapply wp_mono; [|apply (uses_wp_keeps fds sg_only); [done| |exact Hp]].
  - cbn. intros K' a ->. apply HQ.
  - intros X e He. split; [done|]. by destruct e.
Qed.

(** Asking a disk for its details closes what it opens, with one exception: whatever
    the system answers, when SCSIBasicDiskInfo returns, no descriptor it opened is still
    open, unless the type of the device could not be detected - then the descriptor of
    the device can be left open, once per attempt. *)
Theorem SCSIBasicDiskInfo_descriptors devPath :
  wp fds [] (smart.SCSIBasicDiskInfo devPath) (fun open r =>
    open = [] \/ (length open <= 1)%nat /\ is_Some (r.2 !! smart.DetectSCSITypeErr)).
Proof.
  unfold smart.SCSIBasicDiskInfo, smart.isConditionSatisfied, smart.CheckBinaryPerm.
  destruct (decide (devPath = "")); [by left|].
  cbn [bind call]. split; [done|]. intros r _. cbn [learn fds].
  destruct r as [e|eff]; [by left|]. cbn [bind]. destruct (_ && _); [by left|]. cbn [bind].
  destruct (decide _); [by left|]. cbn [bind]. unfold smart.detectSCSIType, smart.Open. cbn [bind call].
  split; [done|]. intros [e|fd] _; cbn [bind learn fds]; [by left|].
  apply wp_bind, wp_bind, wp_fds_sg; [apply scsiInquiry_sg|]. intros [e|inq]; cbn [wp bind].
  - right. split; [cbn; lia|]. cbn [smart.Collect fst snd]. by rewrite lookup_insert_eq.
  - apply wp_bind, wp_fds_sg; [apply getBasicDiskInfo_sg|]. intros r. cbn. split; [done|]. intros _ _. left.
    rewrite decide_False; [done|]. destruct (decide _); by intros [].
Qed.

(** The exception happens: a device that does not answer INQUIRY stays open. *)
Definition mute_disk : oracle (list Z) := fun X e w =>
  match e in callE X return list Z * X with
  | CapGet => (w, inr smart.capSysAdmin)
  | OpenFile _ => (3 :: w, inr 3)
  | CloseFd fd => (filter (fun f => f <> fd) w, inr tt)
  | e => (w, deaf _ e)
  end.

Example mute_disk_stays_open : fst (exec mute_disk (smart.SCSIBasicDiskInfo "/dev/sda") []) = [3].
Proof. by vm_compute. Qed.

(** A drive that reports a rate below one turn per second has an infinite latency. *)
Lemma GetRotationalLatency_slow d :
  1 < drive.rotationRate d < 60 -> seachest.GetRotationalLatency d = SpecFloat.S754_infinity false.
Proof.
  intros Hr. unfold seachest.GetRotationalLatency. rewrite (proj2 (Z.ltb_lt 1 _)) by lia.
  rewrite Z.div_small by lia. by vm_compute.
Qed.
