(* ===== verification/Exporter.v ===== *)
(** * ndm-exporter, pkg/metrics and db/kubernetes

    The two collectors of the exporter (collector/static.go and collector/seachest.go),
    the metrics they fill (pkg/metrics/static and pkg/metrics/smart), the client that lists
    block devices for them (db/kubernetes) and the start of the exporter (exporter.go).

    The metrics of the Prometheus client are maps from label values to numbers; what a
    request sends to the channel is the list of the series of the collectors. *)

From Stdlib Require Import ZArith Ascii Lia.
From stdpp Require Import base list strings gmap.
From S2P Require Import Prelude GoStrings Types Prog Smart.

Local Open Scope string_scope.
Local Open Scope prog_scope.

(** ** db/kubernetes *)

Module kubernetes.
Definition NamespaceENV := "NAMESPACE".
Definition KubernetesHostNameLabel := "kubernetes.io/hostname".

(** A client: the namespace, and whether it has been initialised *)
Record Client := MkClient { namespace : string; client : bool }.
#[global] Instance eta_Client : Eta Client := fun c => MkClient (namespace c) (client c).

Definition setNamespace (cl : Client) : prog (res Client) :=
  ns <- call (LookupEnv NamespaceENV) ;;
  Ret (match ns with
       | None => inl (Err "error getting namespace from ENV variable")
       | Some ns => inr (cl <| namespace := ns |>)
       end).

Definition InitClient (cl : Client) : prog (Client * option err) :=
  r <- call NewClient ;;
  Ret (match r with inl e => (cl, Some e) | inr _ => (cl <| client := true |>, None) end).

Definition New : prog (Client * option err) :=
  let c := MkClient "" false in
  cfg <- call GetConfig ;;
  match cfg with
  | inl e => Ret (c, Some e)
  | inr _ =>
      r <- setNamespace c ;;
      match r with inl e => Ret (c, Some e) | inr c => InitClient c end
  end.

Definition SetClient (cl : Client) : Client := cl <| client := true |>.

Definition RegisterAPI (cl : Client) : prog (option err) :=
  mgr <- call (NewManager (namespace cl)) ;;
  match mgr with
  | inl e => Ret (Some e)
  | inr _ => r <- call AddToScheme ;; Ret (match r with inl e => Some e | inr _ => None end)
  end.

(** convertBlockDeviceAPIToBlockDevice, which writes into [out] *)
Definition convertBlockDeviceAPIToBlockDevice (b : apis.BlockDevice) (out : blockdevice.BlockDevice)
    : blockdevice.BlockDevice :=
  let spec := apis.Spec b in
  out <| blockdevice.Identifier ::= fun i => i <| blockdevice.UUID := metav1.Name (apis.ObjectMeta b) |>
                                               <| blockdevice.DevPath := apis.Path spec |> |>
      <| blockdevice.NodeAttributes :=
           <[blockdevice.NodeName := apis.NodeName (apis.NodeAttributes spec)]>
             (<[blockdevice.HostName :=
                  default "" (default ∅ (metav1.Labels (apis.ObjectMeta b)) !! KubernetesHostNameLabel)]> ∅) |>
      <| blockdevice.FSInfo ::= fun f =>
           f <| blockdevice.FileSystem := apis.FSType (apis.FileSystem spec) |>
             <| blockdevice.MountPoint ::= fun l => (l ++ [apis.Mountpoint (apis.FileSystem spec)])%list |> |>
      <| blockdevice.DeviceAttributes ::= fun a => a <| blockdevice.DeviceType := apis.DeviceType (apis.Details spec) |> |>
      <| blockdevice.Status := blockdevice.MkStatusT (apis.State (apis.Status b)) (apis.ClaimState (apis.Status b)) |>.

(** The loop converts every item into the same variable. *)
Fixpoint convertItems (bd : blockdevice.BlockDevice) (items : list apis.BlockDevice) : list blockdevice.BlockDevice :=
  match items with
  | [] => []
  | b :: items => let bd := convertBlockDeviceAPIToBlockDevice b bd in bd :: convertItems bd items
  end.
Definition convertBlockDeviceAPIListToBlockDeviceList (items : list apis.BlockDevice) : list blockdevice.BlockDevice :=
  convertItems blockdevice.empty_BlockDevice items.

(** ListBlockDevice without filters, as the collectors call it *)
Definition ListBlockDevice (cl : Client) : prog (res (list blockdevice.BlockDevice)) :=
  r <- call (BDList (Some (namespace cl)) metav1.empty_LabelSelector) ;;
  Ret (match r with inl e => inl e | inr items => inr (convertBlockDeviceAPIListToBlockDeviceList items) end).

(** filter.go *)
Definition getFilterKey (key : string) : string :=
  if decide (key = blockdevice.HostName) then KubernetesHostNameLabel else key.
Definition GenerateLabelFilter (key value : string) : res (string * string) :=
  if decide (String.length key = 0 \/ String.length value = 0)
  then inl (Err "key/value is empty for label filter") else inr (getFilterKey key, value).

(** A selector of the labels package is a list of requirements; Add returns a new selector,
    which GenerateLabelFilterWithOp does not use.  NewRequirement checks its arguments. *)
Section Selector.
Context {Requirement : Type} (NewRequirement : string -> string -> list string -> res Requirement).

Definition selector_Add (sel : list Requirement) (r : Requirement) : list Requirement := (sel ++ [r])%list.

Definition GenerateLabelFilterWithOp (key op value : string) : res (list Requirement) :=
  if decide (String.length key = 0 \/ String.length value = 0 \/ String.length op = 0)
  then inl (Err "key/operator/value is empty for filter")
  else
    let sel := [] in
    match NewRequirement key op [value] with
    | inl _ => inl (Err "failed to create new requirement in label filter")
    | inr req => let _ := selector_Add sel req in inr sel
    end.

(** The selector has no requirements: it accepts any labels, whatever the operator. *)
Lemma GenerateLabelFilterWithOp_accepts (Matches : Requirement -> strmap -> bool) key op value sel labels :
  GenerateLabelFilterWithOp key op value = inr sel -> forallb (fun r => Matches r labels) sel = true.
Proof.
  unfold GenerateLabelFilterWithOp. case_decide; [done|]. by destruct (NewRequirement _ _ _); intros [= <-].
Qed.
End Selector.
End kubernetes.

(** ** Metrics *)

(** A float64: that of an integer, or one that is only carried, as its bits *)
Inductive float64 := OfInt (z : Z) | Carried (bits : Z).
#[global] Instance float64_eq_dec : EqDecision float64.
Proof. solve_decision. Defined.

(** The children of a GaugeVec or CounterVec, by label values *)
Notation vec := (gmap (list string) float64).
(** A series of a metric, as it is sent to the channel *)
Notation series := (string * list string * float64)%type.

(** A collector with its full name; [None] is a nil one *)
Inductive collector := Vec (name : string) (v : option vec) | Counter (name : string) (c : option Z).

Definition nil_panic {A} : prog A := Panic "invalid memory address or nil pointer dereference".

(** Collector.Collect *)
Definition emit (c : collector) : prog (list series) :=
  match c with
  | Vec name (Some v) => Ret (map (fun e => (name, e.1, e.2)) (map_to_list v))
  | Counter name (Some n) => Ret [(name, [], OfInt n)]
  | _ => nil_panic
  end.
Definition emitAll (cs : list collector) : prog (list series) :=
  for_each (fun out c => s <- emit c ;; Ret (out ++ s)%list) [] cs.

(** Counter.Inc *)
Definition inc (c : option Z) : prog (option Z) :=
  match c with Some n => Ret (Some (n + 1)%Z) | None => nil_panic end.
(** WithLabelValues(...).Set *)
Definition setVec (v : option vec) (labels : list string) (x : float64) : prog (option vec) :=
  match v with Some v => Ret (Some (<[labels := x]> v)) | None => nil_panic end.
(** WithLabelValues, which creates a child with value zero *)
Definition touchVec (v : option vec) (labels : list string) : prog (option vec) :=
  match v with
  | Some v => Ret (Some (match v !! labels with Some _ => v | None => <[labels := OfInt 0]> v end))
  | None => nil_panic
  end.

(** *** pkg/metrics/static *)

Module static.
Record Metrics := MkMetrics {
  blockDeviceState : option vec; rejectRequestCount : option Z; errorRequestCount : option Z
}.
#[global] Instance eta_Metrics : Eta Metrics := fun m =>
  MkMetrics (blockDeviceState m) (rejectRequestCount m) (errorRequestCount m).

Definition NodeNamespace := "node".
Definition withBlockDeviceState (m : Metrics) : Metrics := m <| blockDeviceState := Some ∅ |>.
Definition withRejectRequest (m : Metrics) : Metrics := m <| rejectRequestCount := Some 0%Z |>.
Definition withErrorRequest (m : Metrics) : Metrics := m <| errorRequestCount := Some 0%Z |>.
Definition NewMetrics : Metrics := withErrorRequest (withRejectRequest (withBlockDeviceState (MkMetrics None None None))).

Definition ErrorCollectors (m : Metrics) : list collector :=
  [Counter "node_reject_request_count" (rejectRequestCount m); Counter "node_error_request_count" (errorRequestCount m)].
Definition Collectors (m : Metrics) : list collector :=
  [Vec "node_block_device_state" (blockDeviceState m);
   Counter "node_reject_request_count" (rejectRequestCount m); Counter "node_error_request_count" (errorRequestCount m)].

Definition IncRejectRequestCounter (m : Metrics) : prog Metrics :=
  c <- inc (rejectRequestCount m) ;; Ret (m <| rejectRequestCount := c |>).
Definition IncErrorRequestCounter (m : Metrics) : prog Metrics :=
  c <- inc (errorRequestCount m) ;; Ret (m <| errorRequestCount := c |>).

Definition getState (state : string) : float64 :=
  if decide (state = blockdevice.Active) then OfInt 0
  else if decide (state = blockdevice.Inactive) then OfInt 1
  else if decide (state = blockdevice.Unknown) then OfInt 2
  else OfInt 2.

Definition attr (k : string) (bd : blockdevice.BlockDevice) : string :=
  default "" (blockdevice.NodeAttributes bd !! k).
Definition stateLabels (bd : blockdevice.BlockDevice) : list string :=
  [blockdevice.uuid_of bd; ReplaceAll (blockdevice.devpath bd) "/dev/" "";
   attr blockdevice.HostName bd; attr blockdevice.NodeName bd].

Definition SetMetrics (m : Metrics) (blockDevices : list blockdevice.BlockDevice) : prog Metrics :=
  for_each (fun m bd =>
    if decide (blockdevice.DeviceType (blockdevice.DeviceAttributes bd) = blockdevice.SparseBlockDeviceType) then Ret m
    else
      v <- setVec (blockDeviceState m) (stateLabels bd) (getState (blockdevice.State (blockdevice.Status bd))) ;;
      Ret (m <| blockDeviceState := v |>)) m blockDevices.
End static.

(** *** pkg/metrics/smart *)

Module smartmetrics.
Record Metrics := MkMetrics {
  CollectorType : string;
  blockDeviceCurrentTemperatureValid : option vec;
  blockDeviceCurrentTemperature : option vec;
  blockDeviceHighestTemperature : option vec;
  blockDeviceHighestTemperatureValid : option vec;
  blockDeviceLowestTemperature : option vec;
  blockDeviceLowestTemperatureValid : option vec;
  blockDeviceCapacity : option vec;
  blockDeviceTotalReadBytes : option vec;
  blockDeviceTotalWrittenBytes : option vec;
  blockDeviceUtilizationRate : option vec;
  blockDevicePercentEnduranceUsed : option vec;
  rejectRequestCount : option Z;
  errorRequestCount : option Z;
  mUUID : string; mPath : string; mHostName : string; mNodeName : string
}.
#[global] Instance eta_Metrics : Eta Metrics := fun m =>
  MkMetrics (CollectorType m) (blockDeviceCurrentTemperatureValid m) (blockDeviceCurrentTemperature m)
    (blockDeviceHighestTemperature m) (blockDeviceHighestTemperatureValid m) (blockDeviceLowestTemperature m)
    (blockDeviceLowestTemperatureValid m) (blockDeviceCapacity m) (blockDeviceTotalReadBytes m)
    (blockDeviceTotalWrittenBytes m) (blockDeviceUtilizationRate m) (blockDevicePercentEnduranceUsed m)
    (rejectRequestCount m) (errorRequestCount m) (mUUID m) (mPath m) (mHostName m) (mNodeName m).

Definition NewMetrics (collector : string) : Metrics :=
  MkMetrics collector None None None None None None None None None None None None None "" "" "" "".

Definition WithBlockDeviceCurrentTemperature (m : Metrics) := m <| blockDeviceCurrentTemperature := Some ∅ |>.
Definition WithBlockDeviceHighestTemperature (m : Metrics) := m <| blockDeviceHighestTemperature := Some ∅ |>.
Definition WithBlockDeviceLowestTemperature (m : Metrics) := m <| blockDeviceLowestTemperature := Some ∅ |>.
Definition WithBlockDeviceCurrentTemperatureValid (m : Metrics) := m <| blockDeviceCurrentTemperatureValid := Some ∅ |>.
Definition WithBlockDeviceHighestTemperatureValid (m : Metrics) := m <| blockDeviceHighestTemperatureValid := Some ∅ |>.
Definition WithBlockDeviceLowestTemperatureValid (m : Metrics) := m <| blockDeviceLowestTemperatureValid := Some ∅ |>.
Definition WithBlockDeviceCapacity (m : Metrics) := m <| blockDeviceCapacity := Some ∅ |>.
Definition WithBlockDeviceTotalBytesRead (m : Metrics) := m <| blockDeviceTotalReadBytes := Some ∅ |>.
Definition WithBlockDeviceTotalBytesWritten (m : Metrics) := m <| blockDeviceTotalWrittenBytes := Some ∅ |>.
Definition WithBlockDeviceUtilizationRate (m : Metrics) := m <| blockDeviceUtilizationRate := Some ∅ |>.
Definition WithBlockDevicePercentEnduranceUsed (m : Metrics) := m <| blockDevicePercentEnduranceUsed := Some ∅ |>.
Definition WithRejectRequest (m : Metrics) := m <| rejectRequestCount := Some 0%Z |>.
Definition WithErrorRequest (m : Metrics) := m <| errorRequestCount := Some 0%Z |>.

(** The full name of a metric *)
Definition fq (m : Metrics) (name : string) : string := CollectorType m +:+ "_" +:+ name.

Definition Collectors (m : Metrics) : list collector :=
  [Vec (fq m "block_device_current_temperature_valid") (blockDeviceCurrentTemperatureValid m);
   Vec (fq m "block_device_highest_temperature_valid") (blockDeviceHighestTemperatureValid m);
   Vec (fq m "block_device_lowest_temperature_valid") (blockDeviceLowestTemperatureValid m);
   Vec (fq m "block_device_current_temperature_celsius") (blockDeviceCurrentTemperature m);
   Vec (fq m "block_device_highest_temperature_celsius") (blockDeviceHighestTemperature m);
   Vec (fq m "block_device_lowest_temperature_celsius") (blockDeviceLowestTemperature m);
   Vec (fq m "block_device_total_read_bytes") (blockDeviceTotalReadBytes m);
   Vec (fq m "block_device_total_written_bytes") (blockDeviceTotalWrittenBytes m);
   Vec (fq m "block_device_utilization_rate_percent") (blockDeviceUtilizationRate m);
   Vec (fq m "block_device_endurance_used_percent") (blockDevicePercentEnduranceUsed m);
   Counter (fq m "reject_request_count") (rejectRequestCount m);
   Counter (fq m "error_request_count") (errorRequestCount m)].
Definition ErrorCollectors (m : Metrics) : list collector :=
  [Counter (fq m "reject_request_count") (rejectRequestCount m);
   Counter (fq m "error_request_count") (errorRequestCount m)].

Definition IncRejectRequestCounter (m : Metrics) : prog Metrics :=
  c <- inc (rejectRequestCount m) ;; Ret (m <| rejectRequestCount := c |>).
Definition IncErrorRequestCounter (m : Metrics) : prog Metrics :=
  c <- inc (errorRequestCount m) ;; Ret (m <| errorRequestCount := c |>).

Definition WithBlockDeviceUUID (uuid : string) (m : Metrics) := m <| mUUID := uuid |>.
Definition WithBlockDevicePath (path : string) (m : Metrics) := m <| mPath := ReplaceAll path "/dev/" "" |>.
Definition WithBlockDeviceHostName (h : string) (m : Metrics) := m <| mHostName := h |>.
Definition WithBlockDeviceNodeName (n : string) (m : Metrics) := m <| mNodeName := n |>.
Definition labels (m : Metrics) : list string := [mUUID m; mPath m; mHostName m; mNodeName m].

Definition getTemperatureValidity (isValid : bool) : float64 := OfInt (if isValid then 1 else 0).

Definition SetBlockDeviceCurrentTemperature (t : Z) (m : Metrics) : prog Metrics :=
  v <- setVec (blockDeviceCurrentTemperature m) (labels m) (OfInt t) ;; Ret (m <| blockDeviceCurrentTemperature := v |>).
Definition SetBlockDeviceHighestTemperature (t : Z) (m : Metrics) : prog Metrics :=
  v <- setVec (blockDeviceHighestTemperature m) (labels m) (OfInt t) ;; Ret (m <| blockDeviceHighestTemperature := v |>).
Definition SetBlockDeviceLowestTemperature (t : Z) (m : Metrics) : prog Metrics :=
  v <- setVec (blockDeviceLowestTemperature m) (labels m) (OfInt t) ;; Ret (m <| blockDeviceLowestTemperature := v |>).
(** The three validity setters write the same metric. *)
Definition SetBlockDeviceCurrentTemperatureValid (valid : bool) (m : Metrics) : prog Metrics :=
  v <- setVec (blockDeviceCurrentTemperatureValid m) (labels m) (getTemperatureValidity valid) ;;
  Ret (m <| blockDeviceCurrentTemperatureValid := v |>).
Definition SetBlockDeviceHighestTemperatureValid (valid : bool) (m : Metrics) : prog Metrics :=
  v <- setVec (blockDeviceCurrentTemperatureValid m) (labels m) (getTemperatureValidity valid) ;;
  Ret (m <| blockDeviceCurrentTemperatureValid := v |>).
Definition SetBlockDeviceLowestTemperatureValid (valid : bool) (m : Metrics) : prog Metrics :=
  v <- setVec (blockDeviceCurrentTemperatureValid m) (labels m) (getTemperatureValidity valid) ;;
  Ret (m <| blockDeviceCurrentTemperatureValid := v |>).
Definition SetBlockDeviceCapacity (c : Z) (m : Metrics) : prog Metrics :=
  v <- setVec (blockDeviceCapacity m) (labels m) (OfInt c) ;; Ret (m <| blockDeviceCapacity := v |>).
(** The child is created and the size is not used. *)
Definition SetBlockDeviceTotalBytesRead (size : Z) (m : Metrics) : prog Metrics :=
  v <- touchVec (blockDeviceTotalReadBytes m) (labels m) ;; Ret (m <| blockDeviceTotalReadBytes := v |>).
Definition SetBlockDeviceTotalBytesWritten (size : Z) (m : Metrics) : prog Metrics :=
  v <- touchVec (blockDeviceTotalWrittenBytes m) (labels m) ;; Ret (m <| blockDeviceTotalWrittenBytes := v |>).
Definition SetBlockDeviceUtilizationRate (size : Z) (m : Metrics) : prog Metrics :=
  v <- setVec (blockDeviceUtilizationRate m) (labels m) (Carried size) ;; Ret (m <| blockDeviceUtilizationRate := v |>).
Definition SetBlockDevicePercentEnduranceUsed (size : Z) (m : Metrics) : prog Metrics :=
  v <- setVec (blockDevicePercentEnduranceUsed m) (labels m) (Carried size) ;;
  Ret (m <| blockDevicePercentEnduranceUsed := v |>).
End smartmetrics.

(** ** Collectors *)

(** The mutex, the flag and the metrics of a collector; the two collectors differ in the
    metrics and in what a request does with them. *)
Record Collector (M : Type) := MkCollector { Client : kubernetes.Client; requestInProgress : bool; metrics : M }.
Arguments MkCollector {M} Client requestInProgress metrics.
Arguments Client {M} c.
Arguments requestInProgress {M} c.
Arguments metrics {M} c.
#[global] Instance eta_Collector M : Eta (Collector M) := fun c =>
  MkCollector (Client c) (requestInProgress c) (metrics c).

(** What the code of Collect under the mutex does: reject the request or enter *)
Definition collectEnter {M} (reject : M -> prog M) (c : Collector M) : prog (Collector M * bool) :=
  if requestInProgress c then m <- reject (metrics c) ;; Ret (c <| metrics := m |>, false)
  else Ret (c <| requestInProgress := true |>, true).

Definition setRequestProgressToFalse {M} (c : Collector M) : Collector M := c <| requestInProgress := false |>.

(** Collect: the request that enters runs [body] and then, deferred, resets the flag *)
Definition collectWith {M} (reject : M -> prog M) (body : Collector M -> prog (Collector M * list series))
    (c : Collector M) : prog (Collector M * list series) :=
  '(c, entered) <- collectEnter reject c ;;
  if entered : bool then '(c, out) <- body c ;; Ret (setRequestProgressToFalse c, out) else Ret (c, []).

(** What both do about an error: count it and send the counters only *)
Definition failed {M} (incError : M -> prog M) (errors : M -> list collector) (c : Collector M)
    : prog (Collector M * list series) :=
  m <- incError (metrics c) ;;
  out <- emitAll (errors m) ;;
  Ret (c <| metrics := m |>, out).

(** *** static.go *)

Module staticCollector.
Definition NewStaticMetricCollector (c : kubernetes.Client) : Collector static.Metrics :=
  MkCollector c false static.NewMetrics.

Definition fail : Collector static.Metrics -> prog (Collector static.Metrics * list series) :=
  failed static.IncErrorRequestCounter static.ErrorCollectors.

Definition body (mc : Collector static.Metrics) : prog (Collector static.Metrics * list series) :=
  '(cl, e) <- kubernetes.InitClient (Client mc) ;;
  let mc := mc <| Client := cl |> in
  match e with
  | Some _ => fail mc
  | None =>
      blockDevices <- kubernetes.ListBlockDevice cl ;;
      match blockDevices with
      | inl _ => fail mc
      | inr blockDevices =>
          m <- static.SetMetrics (metrics mc) blockDevices ;;
          out <- emitAll (static.Collectors m) ;;
          Ret (mc <| metrics := m |>, out)
      end
  end.

Definition Collect : Collector static.Metrics -> prog (Collector static.Metrics * list series) :=
  collectWith static.IncRejectRequestCounter body.
End staticCollector.

(** *** seachest.go *)

Module seachestCollector.
Import smartmetrics.

Definition SeachestCollectorNamespace := "seachest".

Definition NewSeachestMetricCollector (c : kubernetes.Client) : Collector Metrics :=
  MkCollector c false
    (WithErrorRequest (WithRejectRequest (WithBlockDevicePercentEnduranceUsed (WithBlockDeviceUtilizationRate
       (WithBlockDeviceTotalBytesWritten (WithBlockDeviceTotalBytesRead (WithBlockDeviceCapacity
         (WithBlockDeviceLowestTemperature (WithBlockDeviceHighestTemperature (WithBlockDeviceLowestTemperatureValid
           (WithBlockDeviceHighestTemperatureValid (WithBlockDeviceCurrentTemperatureValid
             (WithBlockDeviceCurrentTemperature (NewMetrics SeachestCollectorNamespace)))))))))))))).

(** getSeachestData, and what getMetricData copies of it into the device *)
Definition fillFromDrive (d : drive.driveInformation) (bd : blockdevice.BlockDevice) : blockdevice.BlockDevice :=
  bd <| blockdevice.Capacity ::= fun c => c <| blockdevice.Storage := seachest.GetCapacity d |> |>
     <| blockdevice.SMARTInfo ::= fun i =>
          i <| blockdevice.TemperatureInfo :=
                 blockdevice.MkTemperatureInformation
                   (seachest.GetTemperatureDataValidStatus d) (seachest.GetLowestValid d) (seachest.GetHighestValid d)
                   (seachest.GetCurrentTemperature d) (seachest.GetLowestTemperature d)
                   (seachest.GetHighestTemperature d) |>
            <| blockdevice.TotalBytesRead := seachest.GetTotalBytesRead d |>
            <| blockdevice.TotalBytesWritten := seachest.GetTotalBytesWritten d |>
            <| blockdevice.UtilizationRate := seachest.GetDeviceUtilizationRate d |>
            <| blockdevice.PercentEnduranceUsed := seachest.GetPercentEnduranceUsed d |> |>.

(** getSeachestData: an error is logged with its text *)
Definition getSeachestData (devPath : string) : prog (Z + drive.driveInformation) :=
  r <- seachest.SeachestBasicDiskInfo devPath ;;
  match r with
  | inl e => seachest.seachestError e ;;; seachest.seachestError e ;;; Ret (inl e)
  | inr d => Ret (inr d)
  end.

Definition getMetricData (bds : list blockdevice.BlockDevice) : prog (list blockdevice.BlockDevice * option err) :=
  '(bds, ok) <- for_each (fun s bd =>
    if decide (blockdevice.devtype bd = blockdevice.SparseBlockDeviceType) then Ret ((s.1 ++ [bd])%list, s.2)
    else
      r <- getSeachestData (blockdevice.devpath bd) ;;
      Ret (match r with
           | inl _ => ((s.1 ++ [bd])%list, s.2)
           | inr d => ((s.1 ++ [fillFromDrive d bd])%list, true)
           end)) ([], false) bds ;;
  Ret (bds, if ok : bool then None else Some (Err "getting seachest metrics for the blockdevices failed")).

Definition setOne (m : Metrics) (bd : blockdevice.BlockDevice) : prog Metrics :=
  let m := WithBlockDeviceNodeName (static.attr blockdevice.NodeName bd)
             (WithBlockDeviceHostName (static.attr blockdevice.HostName bd)
               (WithBlockDevicePath (blockdevice.devpath bd) (WithBlockDeviceUUID (blockdevice.uuid_of bd) m))) in
  let i := blockdevice.SMARTInfo bd in
  let t := blockdevice.TemperatureInfo i in
  m <- SetBlockDeviceCurrentTemperature (blockdevice.CurrentTemperature t) m ;;
  m <- SetBlockDeviceHighestTemperature (blockdevice.HighestTemperature t) m ;;
  m <- SetBlockDeviceLowestTemperature (blockdevice.LowestTemperature t) m ;;
  m <- SetBlockDeviceCurrentTemperatureValid (blockdevice.CurrentTemperatureDataValid t) m ;;
  m <- SetBlockDeviceHighestTemperatureValid (blockdevice.HighestTemperatureDataValid t) m ;;
  m <- SetBlockDeviceLowestTemperatureValid (blockdevice.LowestTemperatureDataValid t) m ;;
  m <- SetBlockDeviceCapacity (blockdevice.Storage (blockdevice.Capacity bd)) m ;;
  m <- SetBlockDeviceUtilizationRate (blockdevice.UtilizationRate i) m ;;
  m <- SetBlockDeviceTotalBytesRead (blockdevice.TotalBytesRead i) m ;;
  m <- SetBlockDeviceTotalBytesWritten (blockdevice.TotalBytesWritten i) m ;;
  SetBlockDevicePercentEnduranceUsed (blockdevice.PercentEnduranceUsed i) m.
Definition setMetricData (m : Metrics) (blockdevices : list blockdevice.BlockDevice) : prog Metrics :=
  for_each setOne m blockdevices.

Definition fail : Collector Metrics -> prog (Collector Metrics * list series) :=
  failed IncErrorRequestCounter ErrorCollectors.

Definition body (sc : Collector Metrics) : prog (Collector Metrics * list series) :=
  '(cl, e) <- kubernetes.InitClient (Client sc) ;;
  let sc := sc <| Client := cl |> in
  match e with
  | Some _ => fail sc
  | None =>
      blockDevices <- kubernetes.ListBlockDevice cl ;;
      match blockDevices with
      | inl _ => fail sc
      | inr blockDevices =>
          '(blockDevices, e) <- getMetricData blockDevices ;;
          match e with
          | Some _ => fail sc
          | None =>
              m <- setMetricData (metrics sc) blockDevices ;;
              out <- emitAll (Collectors m) ;;
              Ret (sc <| metrics := m |>, out)
          end
      end
  end.

Definition Collect : Collector Metrics -> prog (Collector Metrics * list series) :=
  collectWith IncRejectRequestCounter body.
End seachestCollector.

(** ** exporter.go *)

Module exporter.
Definition ClusterLevel := "cluster".
Definition NodeLevel := "node".

(** The collector that is registered with the Prometheus handler *)
Inductive Registered := RegStatic (c : Collector static.Metrics) | RegSeachest (c : Collector smartmetrics.Metrics).

(** Exporter.Run up to the start of the server, which then serves the collector *)
Definition Run (mode : string) : prog (res Registered) :=
  if decide (mode <> ClusterLevel /\ mode <> NodeLevel)
  then Ret (inl (Err ("unknown mode '" +:+ mode +:+ "' selected for starting exporter")))
  else
    '(client, e) <- kubernetes.New ;;
    match e with
    | Some e => Ret (inl e)
    | None =>
        e <- kubernetes.RegisterAPI client ;;
        match e with
        | Some e => Ret (inl e)
        | None =>
            Ret (inr (if decide (mode = ClusterLevel)
                      then RegStatic (staticCollector.NewStaticMetricCollector client)
                      else RegSeachest (seachestCollector.NewSeachestMetricCollector client)))
        end
    end.
End exporter.
