(* ===== verification/ExporterSpec.v ===== *)
(** * What the exporter serves

    Requests exclude one another; the static collector serves the state of every block
    device that is not sparse; and where the series of the SMART metrics are not what
    the device reports. *)

From Stdlib Require Import ZArith Ascii Lia.
From stdpp Require Import base list strings gmap.
From S2P Require Import Prelude GoStrings Types Prog Smart Exporter.

Local Open Scope string_scope.
Local Open Scope prog_scope.

(** ** Concurrent requests *)

(** The requests that run the body of Collect *)
Record requests (M : Type) := MkRequests { coll : Collector M; inside : list nat }.
Arguments MkRequests {M} coll inside.
Arguments coll {M} r.
Arguments inside {M} r.

Section Requests.
Context {M W : Type} (o : oracle W) (reject : M -> prog M) (body : Collector M -> prog (Collector M * list series)).

(** Requests interleave: the code under the mutex is one step, the deferred call another;
    in between a request changes client and metrics bit by bit, and completes the body. *)
Inductive rstep : requests M -> requests M -> Prop :=
  | r_enter n c c' l w w' (b : bool) :
      n ∉ l -> exec o (collectEnter reject c) w = (w', Returned (c', b)) ->
      rstep (MkRequests c l) (MkRequests c' (if b then n :: l else l))
  | r_work n c l cl m :
      n ∈ l -> rstep (MkRequests c l) (MkRequests (c <| Client := cl |> <| metrics := m |>) l)
  | r_body n c c' l w w' out :
      n ∈ l -> exec o (body c) w = (w', Returned (c', out)) -> rstep (MkRequests c l) (MkRequests c' l)
  | r_leave n c l1 l2 :
      rstep (MkRequests c (l1 ++ n :: l2)%list) (MkRequests (setRequestProgressToFalse c) (l1 ++ l2)%list).

Definition exclusive (r : requests M) : Prop :=
  (length (inside r) <= 1)%nat /\ (requestInProgress (coll r) = true <-> inside r <> []).

Lemma collectEnter_spec c w w' c' b :
  exec o (collectEnter reject c) w = (w', Returned (c', b)) ->
  b = negb (requestInProgress c) /\ requestInProgress c' = true.
Proof.
  unfold collectEnter. destruct (requestInProgress c) eqn:Hp.
  - intros (w1 & m & _ & [= _ <- <-])%exec_bind_inv. done.
  - by intros [= _ <- <-].
Qed.

(** A body leaves the flag alone *)
Definition keeps_flag : Prop := forall c, returns (body c) (fun r => requestInProgress r.1 = requestInProgress c).

Lemma rstep_exclusive r r' : keeps_flag -> exclusive r -> rstep r r' -> exclusive r'.
Proof.
  intros Hb [Hlen Hflag] Hs.
  destruct Hs as [n c c' l w w' b Hn Hx|n c l cl m Hn|n c c' l w w' out Hn Hx|n c l1 l2]; unfold exclusive in *; cbn in *.
  - apply collectEnter_spec in Hx as [-> ->]. destruct (requestInProgress c) eqn:Hp; cbn.
    + split; [done|]. split; [|done]. intros _. by apply Hflag.
    + assert (l = []) as -> by (destruct l; [done|]; by specialize (proj2 Hflag ltac:(done))). cbn. split; [lia|done].
  - done.
  - eapply returns_exec in Hx; [|apply Hb]. cbn in Hx. by rewrite Hx.
  - rewrite length_app in *. cbn in *. split; [lia|]. split; [done|]. destruct l1, l2; cbn in *; (done || lia).
Qed.

Lemma reachable_exclusive c0 r :
  keeps_flag -> requestInProgress c0 = false -> rtc rstep (MkRequests c0 []) r -> exclusive r.
Proof.
  intros Hb H0 Hr. assert (Hi : exclusive (MkRequests c0 [])) by (split; [cbn; lia|by cbn; rewrite H0]).
  revert Hi. induction Hr as [r|r1 r2 r3 Hs _ IH]; intros Hi; [exact Hi|]. by eapply IH, rstep_exclusive.
Qed.
End Requests.

Lemma failed_keeps_flag {M} incError errors (c : Collector M) :
  returns (failed incError errors c) (fun r => requestInProgress r.1 = requestInProgress c).
Proof. unfold failed. by repeat returns_step. Qed.

Lemma static_body_keeps_flag : keeps_flag staticCollector.body.
Proof.
  intros c. unfold staticCollector.body, staticCollector.fail.
  repeat first [returns_step|exact (failed_keeps_flag _ _ _)|done].
Qed.

Lemma seachest_body_keeps_flag : keeps_flag seachestCollector.body.
Proof.
  intros c. unfold seachestCollector.body, seachestCollector.fail.
  repeat first [returns_step|exact (failed_keeps_flag _ _ _)|done].
Qed.


(** ** The static metrics *)

Definition is_sparse (bd : blockdevice.BlockDevice) : bool :=
  bool_decide (blockdevice.devtype bd = blockdevice.SparseBlockDeviceType).
Definition stateOf (bd : blockdevice.BlockDevice) : float64 := static.getState (blockdevice.State (blockdevice.Status bd)).

(** The children after a listing *)
Definition putState (v : vec) (bd : blockdevice.BlockDevice) : vec :=
  if is_sparse bd then v else <[static.stateLabels bd := stateOf bd]> v.

Lemma SetMetrics_eq m v bds :
  static.blockDeviceState m = Some v ->
  static.SetMetrics m bds = Ret (m <| static.blockDeviceState := Some (fold_left putState bds v) |>).
Proof.
  revert m v. induction bds as [|bd bds IH]; intros m v Hm; unfold static.SetMetrics; cbn [for_each fold_left].
  - rewrite <-Hm. by destruct m.
  - unfold putState at 2, is_sparse. change (blockdevice.DeviceType (blockdevice.DeviceAttributes bd)) with (blockdevice.devtype bd).
    case_decide; [rewrite bool_decide_eq_true_2 by done|rewrite bool_decide_eq_false_2 by done]; cbn [bind].
    + by apply IH.
    + rewrite Hm. cbn [setVec bind]. unfold static.SetMetrics in IH. erewrite IH by done. done.
Qed.

(** Every series of the result is that of a device, or was there before; the last device
    with given labels decides. *)
Lemma putState_origin bds v l x :
  fold_left putState bds v !! l = Some x ->
  v !! l = Some x \/ exists bd, bd ∈ bds /\ is_sparse bd = false /\ static.stateLabels bd = l /\ stateOf bd = x.
Proof.
  revert v. induction bds as [|bd bds IH]; intros v; cbn [fold_left]; [auto|].
  intros [Hv|(b & Hb & ?)]%IH; [|right; exists b; set_solver].
  unfold putState in Hv. destruct (is_sparse bd) eqn:Hs; [auto|].
  apply lookup_insert_Some in Hv as [[<- <-]|[_ Hv]]; [|auto]. right. exists bd. set_solver.
Qed.

Lemma putState_keeps bds v l :
  (forall bd, bd ∈ bds -> static.stateLabels bd <> l) -> fold_left putState bds v !! l = v !! l.
Proof.
  revert v. induction bds as [|bd bds IH]; intros v Hl; cbn [fold_left]; [done|].
  rewrite IH by set_solver. unfold putState. destruct (is_sparse bd); [done|].
  rewrite lookup_insert_ne; [done|]. apply Hl. left.
Qed.

Lemma putState_lookup bds v bd :
  NoDup (map static.stateLabels bds) -> bd ∈ bds -> is_sparse bd = false ->
  fold_left putState bds v !! static.stateLabels bd = Some (stateOf bd).
Proof.
  revert v. induction bds as [|b bds IH]; intros v; cbn [map fold_left]; [set_solver|].
  intros Hnd Hin Hs. inversion Hnd as [|? ? Hb Hnd']; subst. apply elem_of_cons in Hin as [->|Hin]; [|by apply IH].
  rewrite putState_keeps.
  - unfold putState. rewrite Hs. apply lookup_insert_eq.
  - intros b' Hb' He. apply Hb. rewrite <-He. by apply (list_elem_of_fmap_2 static.stateLabels).
Qed.

(** What the listing gives the collector of an object *)
Definition item_labels (b : apis.BlockDevice) : list string :=
  static.stateLabels (kubernetes.convertBlockDeviceAPIToBlockDevice b blockdevice.empty_BlockDevice).
Definition item_type (b : apis.BlockDevice) : string := apis.DeviceType (apis.Details (apis.Spec b)).
Definition item_state (b : apis.BlockDevice) : string := apis.State (apis.Status b).

(** The variable that is reused shows in the mount points only. *)
Lemma convertItems_elem items bd0 bd :
  bd ∈ kubernetes.convertItems bd0 items ->
  exists b bd1, b ∈ items /\ bd = kubernetes.convertBlockDeviceAPIToBlockDevice b bd1.
Proof.
  revert bd0. induction items as [|b items IH]; intros bd0; cbn; [set_solver|].
  intros [->|(b' & bd1 & ? & ?)%IH]%elem_of_cons; [exists b, bd0|exists b', bd1]; set_solver.
Qed.

Lemma convertItems_has items bd0 b :
  b ∈ items -> exists bd1, kubernetes.convertBlockDeviceAPIToBlockDevice b bd1 ∈ kubernetes.convertItems bd0 items.
Proof.
  revert bd0. induction items as [|b' items IH]; intros bd0; cbn; [set_solver|].
  intros [->|Hb]%elem_of_cons; [exists bd0; left|]. edestruct IH as [bd1 ?]; [done|]. exists bd1. right. done.
Qed.

Lemma convert_labels b bd0 : static.stateLabels (kubernetes.convertBlockDeviceAPIToBlockDevice b bd0) = item_labels b.
Proof. done. Qed.
Lemma convert_type b bd0 : blockdevice.devtype (kubernetes.convertBlockDeviceAPIToBlockDevice b bd0) = item_type b.
Proof. done. Qed.
Lemma convert_state b bd0 : stateOf (kubernetes.convertBlockDeviceAPIToBlockDevice b bd0) = static.getState (item_state b).
Proof. done. Qed.
Lemma convertItems_labels items bd0 : map static.stateLabels (kubernetes.convertItems bd0 items) = map item_labels items.
Proof. revert bd0. induction items as [|b items IH]; intros bd0; cbn [kubernetes.convertItems map]; [done|]. by rewrite IH. Qed.

(** What the cluster exporter serves: a request that finds the collector free, with the
    API server answering, always succeeds, and sends for every listed block device that is
    not sparse one series with its name, path, host and node, whose value is 0, 1 or 2 for
    an Active, Inactive or other state; every other state series it sends was already
    there before the request, and it leaves the collector free. *)
Theorem static_collect {W} (o : oracle W) c v nr ne w w1 w2 items :
  requestInProgress c = false -> metrics c = static.MkMetrics (Some v) (Some nr) (Some ne) ->
  o _ NewClient w = (w1, inr tt) ->
  o _ (BDList (Some (kubernetes.namespace (Client c))) metav1.empty_LabelSelector) w1 = (w2, inr items) ->
  NoDup (map item_labels items) ->
  exists c' out, exec o (staticCollector.Collect c) w = (w2, Returned (c', out)) /\ requestInProgress c' = false /\
    (forall b, b ∈ items -> item_type b <> blockdevice.SparseBlockDeviceType ->
       ("node_block_device_state", item_labels b, static.getState (item_state b)) ∈ out) /\
    (forall l x, ("node_block_device_state", l, x) ∈ out ->
       v !! l = Some x \/ exists b, b ∈ items /\ item_type b <> blockdevice.SparseBlockDeviceType /\
         item_labels b = l /\ static.getState (item_state b) = x).
Proof.
  intros Hfree Hm Hc Hl Hnd.
  set (bds := kubernetes.convertBlockDeviceAPIListToBlockDeviceList items).
  set (v' := fold_left putState bds v).
  eexists _, _. split_and!.
  - unfold staticCollector.Collect, collectWith, collectEnter. rewrite Hfree. cbn [bind exec].
    unfold staticCollector.body, kubernetes.InitClient, kubernetes.ListBlockDevice. cbn [bind call exec]. rewrite Hc.
    cbn [bind exec]. cbn in Hl |- *. rewrite Hl. cbn [exec bind].
    erewrite SetMetrics_eq by (cbn; by rewrite Hm). cbn. rewrite Hm. cbn. reflexivity.
  - done.
  - intros b Hb Ht. destruct (convertItems_has items blockdevice.empty_BlockDevice b Hb) as [bd1 Hin].
    do 2 (apply elem_of_app; left). apply list_elem_of_fmap. exists (item_labels b, static.getState (item_state b)). split; [done|].
    apply elem_of_map_to_list. rewrite <-(convert_labels b bd1), <-(convert_state b bd1).
    apply putState_lookup; [unfold bds, kubernetes.convertBlockDeviceAPIListToBlockDeviceList; by rewrite convertItems_labels|done|].
    unfold is_sparse. by apply bool_decide_eq_false.
  - intros l x [[Hin|[=]%list_elem_of_singleton]%elem_of_app|[=]%list_elem_of_singleton]%elem_of_app.
    apply list_elem_of_fmap in Hin as ([l' x'] & [= <- <-] & Hin%elem_of_map_to_list).
    apply putState_origin in Hin as [Hin|(bd & Hbd & Hs & <- & <-)]; [by left|right].
    apply convertItems_elem in Hbd as (b & bd1 & Hb & ->). exists b. split_and!; [done| |done|done].
    unfold is_sparse in Hs. by apply bool_decide_eq_false in Hs.
Qed.

(** Two devices, one of them sparse, and a device that is gone *)
Definition demo_item (name path type state : string) : apis.BlockDevice :=
  apis.empty_BlockDevice
    <| apis.ObjectMeta ::= fun m => m <| metav1.Name := name |> |>
    <| apis.Spec ::= fun s => s <| apis.Path := path |> <| apis.Details ::= fun d => d <| apis.DeviceType := type |> |> |>
    <| apis.Status := apis.MkDeviceStatus "Unclaimed" state |>.
Definition demo_items : list apis.BlockDevice :=
  [demo_item "bd-1" "/dev/sdb" "disk" "Inactive"; demo_item "sparse-1" "/var/x.img" "sparse" "Active"].
Definition demo_api : oracle unit := fun X e w =>
  match e in callE X return unit * X with
  | NewClient => (w, inr tt)
  | BDList _ _ => (w, inr demo_items)
  | e => (w, deaf _ e)
  end.

Lemma static_collect_witness :
  exists c' out, exec demo_api (staticCollector.Collect
    (staticCollector.NewStaticMetricCollector (kubernetes.MkClient "openebs" true))) tt = (tt, Returned (c', out)) /\
    ("node_block_device_state", ["bd-1"; "sdb"; ""; ""], OfInt 1) ∈ out.
Proof.
  destruct (static_collect demo_api (staticCollector.NewStaticMetricCollector (kubernetes.MkClient "openebs" true))
              ∅ 0 0 tt tt tt demo_items) as (c' & out & Hx & _ & Hin & _); [done..| |].
  - repeat constructor; rewrite ?elem_of_cons, ?elem_of_nil; naive_solver.
  - exists c', out. split; [exact Hx|].
    apply (Hin (demo_item "bd-1" "/dev/sdb" "disk" "Inactive")); [left|done].
Defined.

(** ** The SMART metrics *)

Section Seachest.
Import smartmetrics.

Definition all_zero (v : option vec) : Prop := match v with None => True | Some v => map_Forall (fun _ x => x = OfInt 0) v end.
Definition none_set (v : option vec) : Prop := match v with None => True | Some v => v = ∅ end.

(** What never changes in the metrics *)
Record unset (m : Metrics) : Prop := {
  us_type : CollectorType m = seachestCollector.SeachestCollectorNamespace;
  us_high : none_set (blockDeviceHighestTemperatureValid m);
  us_low : none_set (blockDeviceLowestTemperatureValid m);
  us_read : all_zero (blockDeviceTotalReadBytes m);
  us_written : all_zero (blockDeviceTotalWrittenBytes m)
}.

Lemma touchVec_zero v l : all_zero v -> returns (touchVec v l) all_zero.
Proof.
  destruct v as [v|]; [|done]. cbn. intros Hv. destruct (v !! l); [done|]. by apply map_Forall_insert_2.
Qed.

(** A setter of another metric keeps what is unset. *)
Ltac keeps_unset :=
  intros [Ht Hh Hl Hr Hw];
  first [ eapply returns_bind; [apply returns_any|]; intros ? _; by constructor
        | eapply returns_bind; [by apply touchVec_zero|]; intros ? ?; by constructor ].

Lemma unset_CurrentTemperature t m : unset m -> returns (SetBlockDeviceCurrentTemperature t m) unset.
Proof. keeps_unset. Qed.
Lemma unset_HighestTemperature t m : unset m -> returns (SetBlockDeviceHighestTemperature t m) unset.
Proof. keeps_unset. Qed.
Lemma unset_LowestTemperature t m : unset m -> returns (SetBlockDeviceLowestTemperature t m) unset.
Proof. keeps_unset. Qed.
Lemma unset_CurrentTemperatureValid t m : unset m -> returns (SetBlockDeviceCurrentTemperatureValid t m) unset.
Proof. keeps_unset. Qed.
Lemma unset_HighestTemperatureValid t m : unset m -> returns (SetBlockDeviceHighestTemperatureValid t m) unset.
Proof. keeps_unset. Qed.
Lemma unset_LowestTemperatureValid t m : unset m -> returns (SetBlockDeviceLowestTemperatureValid t m) unset.
Proof. keeps_unset. Qed.
Lemma unset_Capacity t m : unset m -> returns (SetBlockDeviceCapacity t m) unset.
Proof. keeps_unset. Qed.
Lemma unset_TotalBytesRead t m : unset m -> returns (SetBlockDeviceTotalBytesRead t m) unset.
Proof. keeps_unset. Qed.
Lemma unset_TotalBytesWritten t m : unset m -> returns (SetBlockDeviceTotalBytesWritten t m) unset.
Proof. keeps_unset. Qed.
Lemma unset_UtilizationRate t m : unset m -> returns (SetBlockDeviceUtilizationRate t m) unset.
Proof. keeps_unset. Qed.
Lemma unset_PercentEnduranceUsed t m : unset m -> returns (SetBlockDevicePercentEnduranceUsed t m) unset.
Proof. keeps_unset. Qed.

Create HintDb unset.
#[local] Hint Resolve unset_CurrentTemperature unset_HighestTemperature unset_LowestTemperature
  unset_CurrentTemperatureValid unset_HighestTemperatureValid unset_LowestTemperatureValid unset_Capacity
  unset_TotalBytesRead unset_TotalBytesWritten unset_UtilizationRate unset_PercentEnduranceUsed : unset.

Lemma setOne_unset m bd : unset m -> returns (seachestCollector.setOne m bd) unset.
Proof.
  intros Hm. unfold seachestCollector.setOne. cbv zeta.
  assert (Hl : unset (WithBlockDeviceNodeName (static.attr blockdevice.NodeName bd)
    (WithBlockDeviceHostName (static.attr blockdevice.HostName bd)
      (WithBlockDevicePath (blockdevice.devpath bd) (WithBlockDeviceUUID (blockdevice.uuid_of bd) m)))))
    by (by destruct Hm; constructor).
  repeat lazymatch goal with
  | |- returns (bind _ _) _ => apply (returns_bind _ _ unset); [auto with unset|intros ? ?]
  end. auto with unset.
Qed.

Lemma setMetricData_unset bds m : unset m -> returns (seachestCollector.setMetricData m bds) unset.
Proof.
  unfold seachestCollector.setMetricData. revert m. induction bds as [|bd bds IH]; intros m Hm; [done|].
  cbn [for_each]. eapply returns_bind; [by apply setOne_unset|]. intros m' Hm'. by apply IH.
Qed.

(** What a series sent by the collector is not *)
Definition unsaid (s : series) : Prop :=
  s.1.1 <> "seachest_block_device_highest_temperature_valid" /\
  s.1.1 <> "seachest_block_device_lowest_temperature_valid" /\
  s.1.1 <> "seachest_block_device_capacity_bytes" /\
  (s.1.1 = "seachest_block_device_total_read_bytes" \/ s.1.1 = "seachest_block_device_total_written_bytes" ->
   s.2 = OfInt 0).

Lemma emit_unsaid c :
  match c with
  | Vec n (Some v) => forall l x, v !! l = Some x -> unsaid (n, l, x)
  | Counter n (Some k) => unsaid (n, [], OfInt k)
  | _ => True
  end -> returns (emit c) (Forall unsaid).
Proof.
  destruct c as [n [v|]|n [k|]]; cbn; [|done|intros H; constructor; [exact H|constructor]|done].
  intros Hv. apply List.Forall_forall. intros s Hs. apply list_elem_of_In in Hs.
  apply list_elem_of_fmap in Hs as ([l x] & -> & Hin%elem_of_map_to_list). by apply Hv.
Qed.

Lemma emitAll_unsaid cs out :
  Forall (fun c => returns (emit c) (Forall unsaid)) cs -> Forall unsaid out ->
  returns (for_each (fun out c => bind (emit c) (fun s => Ret (out ++ s)%list)) out cs) (Forall unsaid).
Proof.
  intros Hcs. revert out. induction Hcs as [|c cs Hc _ IH]; intros out Ho; [done|]. cbn [for_each].
  eapply returns_bind; [|intros a Ha; apply IH, Ha].
  eapply returns_bind; [exact Hc|]. intros s Hs. cbn. by apply Forall_app.
Qed.
(** All the collectors are unsaid about metrics that are unset. *)
Lemma Collectors_unsaid m : unset m -> Forall (fun c => returns (emit c) (Forall unsaid)) (Collectors m).
Proof.
  intros [Ht Hh Hl Hr Hw]. unfold Collectors, fq. rewrite Ht. repeat constructor; apply emit_unsaid.
  all: repeat case_match; try done; try (unfold unsaid; cbn; intros; split_and!; (done || naive_solver)).
Qed.

Lemma ErrorCollectors_unsaid m : unset m -> Forall (fun c => returns (emit c) (Forall unsaid)) (ErrorCollectors m).
Proof.
  intros Hm%Collectors_unsaid. unfold Collectors in Hm. do 10 apply Forall_inv_tail in Hm. exact Hm.
Qed.

Definition good_reply (r : Collector Metrics * list series) : Prop := unset (metrics r.1) /\ Forall unsaid r.2.

Lemma fail_good c : unset (metrics c) -> returns (seachestCollector.fail c) good_reply.
Proof.
  intros Hc. unfold seachestCollector.fail, failed. eapply returns_bind.
  - apply (returns_bind _ _ (fun _ => True)); [apply returns_any|]. intros n _. cbn.
    instantiate (1 := unset). by destruct Hc.
  - intros m Hm. eapply returns_bind; [by apply emitAll_unsaid; [apply ErrorCollectors_unsaid|]|]. by intros out Ho.
Qed.

Lemma body_good c : unset (metrics c) -> returns (seachestCollector.body c) good_reply.
Proof.
  intros Hc. unfold seachestCollector.body.
  eapply returns_bind; [apply returns_any|]. intros [cl [e|]] _; [by apply fail_good|].
  eapply returns_bind; [apply returns_any|]. intros [e|bds] _; [by apply fail_good|].
  eapply returns_bind; [apply returns_any|]. intros [bds' [e|]] _; [by apply fail_good|].
  eapply returns_bind; [by apply setMetricData_unset|]. intros m Hm.
  eapply returns_bind; [by apply emitAll_unsaid; [apply Collectors_unsaid|]|]. by intros out Ho.
Qed.

Lemma Collect_good c : unset (metrics c) -> returns (seachestCollector.Collect c) good_reply.
Proof.
  intros Hc. unfold seachestCollector.Collect, collectWith, collectEnter.
  destruct (requestInProgress c); cbn [bind returns].
  - eapply (returns_bind _ _ (fun r => unset (metrics r.1) /\ r.2 = false)).
    + eapply (returns_bind _ _ unset); [|by intros m Hm].
      apply (returns_bind _ _ (fun _ => True)); [apply returns_any|]. intros n _. by destruct Hc.
    + intros [c' b] [Hc' Hb]. cbn in Hc', Hb. subst b. by split.
  - eapply returns_bind; [by apply body_good|]. by intros [c' out] [? ?].
Qed.

(** Scrapes of the collector, one after another, with any answers of the system *)
Inductive scraped (cl : kubernetes.Client) : Collector Metrics -> list series -> Prop :=
  | scraped_new : scraped cl (seachestCollector.NewSeachestMetricCollector cl) []
  | scraped_next {W} (o : oracle W) c out w w' c' out' :
      scraped cl c out -> exec o (seachestCollector.Collect c) w = (w', Returned (c', out')) -> scraped cl c' out'.

(** What the node exporter never says: however often it is scraped and whatever the
    devices report, no scrape contains a series for the validity of the highest or of the
    lowest temperature, nor one for the capacity, and the total bytes read and written
    are always reported as zero. *)
Theorem seachest_never_says cl c out s :
  scraped cl c out -> s ∈ out ->
  s.1.1 <> "seachest_block_device_highest_temperature_valid" /\
  s.1.1 <> "seachest_block_device_lowest_temperature_valid" /\
  s.1.1 <> "seachest_block_device_capacity_bytes" /\
  (s.1.1 = "seachest_block_device_total_read_bytes" \/ s.1.1 = "seachest_block_device_total_written_bytes" ->
   s.2 = OfInt 0).
Proof.
  intros Hs Hin. assert (Hg : good_reply (c, out)).
  { clear Hin. induction Hs as [|W o c out w w' c' out' _ IH Hx]; [by repeat constructor|].
    eapply returns_exec in Hx; [exact Hx|]. apply Collect_good, IH. }
  destruct Hg as [_ Ho]. rewrite List.Forall_forall in Ho. apply Ho. by apply list_elem_of_In.
Qed.
End Seachest.

(** A hot drive that reports everything *)
Definition demo_drive : drive.driveInformation :=
  drive.MkDriveInformation "" "" "" "" 0 7814037167 512 4096 7200 1000 2000 0 0 true 40 true 60 true 20.
Definition demo_node : oracle unit := fun X e w =>
  match e in callE X return unit * X with
  | NewClient => (w, inr tt)
  | BDList _ _ => (w, inr demo_items)
  | SeachestGetDevice _ | SeachestCloseDevice _ => (w, 0%Z)
  | SeachestDriveInformation _ => (w, (0%Z, demo_drive))
  | e => (w, deaf _ e)
  end.

Lemma seachest_never_says_witness :
  exists c out, scraped (kubernetes.MkClient "openebs" true) c out /\
    ("seachest_block_device_total_read_bytes", ["bd-1"; "sdb"; ""; ""], OfInt 1000) ∉ out.
Proof.
  set (c0 := seachestCollector.NewSeachestMetricCollector (kubernetes.MkClient "openebs" true)).
  destruct (exec demo_node (seachestCollector.Collect c0) tt) as [w [[c out]|]] eqn:Hx.
  - assert (Hs : scraped (kubernetes.MkClient "openebs" true) c out) by (eapply scraped_next; [apply scraped_new|exact Hx]).
    exists c, out. split; [exact Hs|]. intros Hin.
    pose proof (seachest_never_says _ c out _ Hs Hin) as (_ & _ & _ & Hz). by discriminate Hz; left.
  - exfalso. assert (Hp : match snd (exec demo_node (seachestCollector.Collect c0) tt) with
                          | Returned _ => true | Panicked _ => false end = true) by (vm_compute; reflexivity).
    by rewrite Hx in Hp.
Defined.

(** ** Listing devices *)

(** C38. What a listing of block devices gives the exporter: one device for every object, in
    order, with its name, path, state and claim state - but with the mount points of all
    the objects before it as well, because the loop converts every object into the same
    variable and appends. *)
Theorem convertList_spec items i b :
  items !! i = Some b ->
  exists bd, kubernetes.convertBlockDeviceAPIListToBlockDeviceList items !! i = Some bd /\
    blockdevice.uuid_of bd = metav1.Name (apis.ObjectMeta b) /\ blockdevice.devpath bd = apis.Path (apis.Spec b) /\
    blockdevice.Status bd = blockdevice.MkStatusT (apis.State (apis.Status b)) (apis.ClaimState (apis.Status b)) /\
    blockdevice.MountPoint (blockdevice.FSInfo bd) =
      map (fun b => apis.Mountpoint (apis.FileSystem (apis.Spec b))) (take (S i) items).
Proof.
  unfold kubernetes.convertBlockDeviceAPIListToBlockDeviceList.
  assert (Hgen : forall bd0 i, items !! i = Some b ->
    exists bd, kubernetes.convertItems bd0 items !! i = Some bd /\
      blockdevice.uuid_of bd = metav1.Name (apis.ObjectMeta b) /\ blockdevice.devpath bd = apis.Path (apis.Spec b) /\
      blockdevice.Status bd = blockdevice.MkStatusT (apis.State (apis.Status b)) (apis.ClaimState (apis.Status b)) /\
      blockdevice.MountPoint (blockdevice.FSInfo bd) =
        (blockdevice.MountPoint (blockdevice.FSInfo bd0) ++
         map (fun b => apis.Mountpoint (apis.FileSystem (apis.Spec b))) (take (S i) items))%list); [|apply Hgen].
  induction items as [|a items IH]; intros bd0 j Hj; [done|]. destruct j as [|j].
  - injection Hj as ->. by eexists.
  - destruct (IH (kubernetes.convertBlockDeviceAPIToBlockDevice a bd0) j Hj) as (bd & ? & ? & ? & ? & Hm).
    exists bd. split_and!; [done..|]. rewrite Hm. cbn. by rewrite <-app_assoc.
Qed.

Definition mounted_items : list apis.BlockDevice :=
  map (fun m => (demo_item "bd" "/dev/sdb" "disk" "Active")
                  <| apis.Spec ::= fun s => s <| apis.FileSystem := apis.MkFileSystemInfo "ext4" m |> |>) ["/a"; "/b"].

Lemma convertList_spec_witness :
  exists bd, kubernetes.convertBlockDeviceAPIListToBlockDeviceList mounted_items !! 1%nat = Some bd /\
    blockdevice.MountPoint (blockdevice.FSInfo bd) = ["/a"; "/b"].
Proof.
  edestruct (convertList_spec mounted_items 1) as (bd & Hl & _ & _ & _ & Hm); [reflexivity|].
  exists bd. split; [exact Hl|exact Hm].
Defined.
