(* ===== verification/Upgrade.v ===== *)
(** * pkg/upgrade

    The tasks before an upgrade: v040_041 renames the finalizer of the claims, v041_042
    copies the host name of a claim to its node attributes.  Both list the claims and
    update the ones that need it, stopping at the first error. *)

From Stdlib Require Import ZArith.
From stdpp Require Import base list strings.
From S2P Require Import Prelude GoStrings Types Prog Util.

Local Open Scope string_scope.
Local Open Scope prog_scope.

Module upgrade.

(** UpgradeTask: the error of the last run; from and to are not used *)
Record UpgradeTask := NewUpgradeTask { from : string; to : string; uErr : option err }.
#[global] Instance eta_UpgradeTask : Eta UpgradeTask := fun p => NewUpgradeTask (from p) (to p) (uErr p).

(** The loop over the claims: [change] says how a claim is to be updated, if at all *)
Fixpoint upgradeItems (change : apis.BlockDeviceClaim -> option apis.BlockDeviceClaim)
    (items : list apis.BlockDeviceClaim) : prog (option err) :=
  match items with
  | [] => Ret None
  | claim :: items =>
      match change claim with
      | None => upgradeItems change items
      | Some claim =>
          r <- call (BDCUpdate claim) ;;
          match r with inl e => Ret (Some e) | inr _ => upgradeItems change items end
      end
  end.

(** PreUpgrade *)
Definition PreUpgrade (change : apis.BlockDeviceClaim -> option apis.BlockDeviceClaim) (p : UpgradeTask)
    : prog (UpgradeTask * bool) :=
  r <- call (BDCList None) ;;
  match r with
  | inl e => Ret (p <| uErr := Some e |>, false)
  | inr items =>
      e <- upgradeItems change items ;;
      match e with
      | Some e => Ret (p <| uErr := Some e |>, false)
      | None => Ret (p, true)
      end
  end.

Definition IsSuccess (p : UpgradeTask) : option err := uErr p.

(** *** v040_041 *)

Definition oldBDCFinalizer := "blockdeviceclaim.finalizer".
Definition newBDCFinalizer := "openebs.io/bdc-protection".

Definition renameFinalizer (claim : apis.BlockDeviceClaim) : option apis.BlockDeviceClaim :=
  if Contains (apis.bdc_finalizers claim) oldBDCFinalizer
  then Some (claim <| apis.CObjectMeta ::= fun m => m <| metav1.Finalizers ::= fun l =>
                       (RemoveString l oldBDCFinalizer ++ [newBDCFinalizer])%list |> |>)
  else None.

(** *** v041_042 *)

Definition copyHostName (claim : apis.BlockDeviceClaim) : option apis.BlockDeviceClaim :=
  let spec := apis.CSpec claim in
  if bool_decide (String.length (apis.ClaimHostName spec) <> 0) &&
     bool_decide (String.length (apis.BDHostName (apis.ClaimNodeAttributes spec)) = 0)
  then Some (claim <| apis.CSpec ::= fun s => s <| apis.ClaimNodeAttributes ::= fun a =>
                       a <| apis.BDHostName := apis.ClaimHostName spec |> |> |>)
  else None.

Definition PreUpgrade_041_042 := PreUpgrade copyHostName.
End upgrade.

Import upgrade.

(** A claim after a task *)
Definition upgraded (change : apis.BlockDeviceClaim -> option apis.BlockDeviceClaim) (c : apis.BlockDeviceClaim) :=
  default c (change c).

Lemma renameFinalizer_spec c :
  let f := apis.bdc_finalizers c in
  let f' := apis.bdc_finalizers (upgraded renameFinalizer c) in
  oldBDCFinalizer ∉ f' /\ (oldBDCFinalizer ∈ f -> newBDCFinalizer ∈ f') /\
  (forall x, x <> oldBDCFinalizer -> x <> newBDCFinalizer -> x ∈ f' <-> x ∈ f).
Proof.
  cbv zeta. unfold upgraded, renameFinalizer. destruct (Contains _ _) eqn:Hc.
  - change (apis.bdc_finalizers (default c (Some ?x))) with (apis.bdc_finalizers x).
    unfold apis.bdc_finalizers at 1 3 5. cbn. rewrite Contains_elem in Hc.
    setoid_rewrite elem_of_app. setoid_rewrite elem_of_RemoveString. unfold oldBDCFinalizer, newBDCFinalizer in *.
    set_solver.
  - rewrite Contains_elem_false in Hc. cbn. set_solver.
Qed.

(** A task changes a claim at most once. *)
Lemma renameFinalizer_once c : renameFinalizer (upgraded renameFinalizer c) = None.
Proof.
  unfold renameFinalizer at 1. destruct (Contains _ _) eqn:Hc; [|done].
  apply Contains_elem in Hc. by destruct (proj1 (renameFinalizer_spec c) Hc).
Qed.

Lemma copyHostName_once c : copyHostName (upgraded copyHostName c) = None.
Proof.
  unfold upgraded, copyHostName at 2. destruct (_ && _) eqn:Hc; unfold copyHostName.
  - bools. destruct Hc as [Hh _]. cbn. rewrite (bool_decide_eq_false_2 (String.length _ = 0)) by done.
    by rewrite andb_false_r.
  - change (default c None) with c. by rewrite Hc.
Qed.

Lemma upgradeItems_none {W} (o : oracle W) change items w :
  (forall c, c ∈ items -> change c = None) -> exec o (upgradeItems change items) w = (w, Returned None).
Proof.
  induction items as [|c items IH]; intros Hc; cbn [upgradeItems]; [done|].
  rewrite Hc by left. apply IH. intros c' ?. apply Hc. by right.
Qed.

(** A run over claims that need no change lists them and does nothing else. *)
Lemma PreUpgrade_idle {W} (o : oracle W) change p w w1 items :
  o _ (BDCList None) w = (w1, inr items) -> (forall c, c ∈ items -> change c = None) ->
  exec o (PreUpgrade change p) w = (w1, Returned (p, true)).
Proof.
  intros Hl Hc. unfold PreUpgrade. cbn [bind call exec]. rewrite Hl, exec_bind.
  by rewrite (upgradeItems_none o change items w1 Hc).
Qed.

(** A run that succeeds has written the change of every claim that needs one, in order,
    and nothing else. *)
Fixpoint writes {W} (o : oracle W) (cs : list apis.BlockDeviceClaim) (w w' : W) : Prop :=
  match cs with
  | [] => w' = w
  | c :: cs => exists w1 c', o _ (BDCUpdate c) w = (w1, inr c') /\ writes o cs w1 w'
  end.

Lemma upgradeItems_writes {W} (o : oracle W) change items w w' :
  exec o (upgradeItems change items) w = (w', Returned None) -> writes o (omap change items) w w'.
Proof.
  revert w. induction items as [|c items IH]; intros w; cbn [upgradeItems]; [by intros [= ->]|].
  cbn [omap list_omap]. destruct (change c) as [c'|]; [|apply IH].
  cbn [bind call exec]. destruct (o _ (BDCUpdate c') w) as [w1 [e|r]] eqn:Ho; [done|].
  intros Hx. exists w1, r. split; [done|]. by apply IH.
Qed.


(** One claim of the old version *)
Definition old_claim : apis.BlockDeviceClaim :=
  apis.empty_BlockDeviceClaim <| apis.CObjectMeta ::= fun m => m <| metav1.Finalizers := ["x"; oldBDCFinalizer] |> |>.
Definition claims_api : oracle (list apis.BlockDeviceClaim) := fun X e w =>
  match e in callE X return list apis.BlockDeviceClaim * X with
  | BDCList _ => (w, inr w)
  | BDCUpdate c => ([c], inr c)
  | e => (w, deaf _ e)
  end.

