(* ===== verification/Filters.v ===== *)
(** * cmd/ndm_daemonset/filter

    The four filters of the daemon: which devices they let through.  A filter is
    registered with the controller and, if enabled, started; its lists are what Start
    left in it. *)

From Stdlib Require Import ZArith Ascii Lia.
From stdpp Require Import base list strings gmap.
From S2P Require Import Prelude GoStrings Regex Types Prog Util Features Controller Mount.

Local Open Scope string_scope.
Local Open Scope prog_scope.

Module filter.

(** The entry of the configuration for a filter: the first with its key *)
Definition configFor (key : string) (cfg : option NodeDiskManagerConfig) : option FilterConfig :=
  match cfg with
  | None => None
  | Some cfg => find (fun fc => bool_decide (fcKey fc = key)) (FilterConfigs cfg)
  end.

(** ** vendorfilter.go *)

Definition vendorFilterKey := "vendor-filter".
Definition defaultExcludedVendors : list string := ["OpenEBS"].

Record vendorFilter := MkVendor { vfExclude : list string; vfInclude : list string }.

Definition vendorStart (includeVendors excludeVendors : string) : vendorFilter :=
  MkVendor
    (defaultExcludedVendors ++
       (if decide (excludeVendors <> "") then Split excludeVendors ","%char else []))%list
    (if decide (includeVendors <> "") then Split includeVendors ","%char else []).

Definition vendorInclude (vf : vendorFilter) (bd : blockdevice.BlockDevice) : bool :=
  if decide (length (vfInclude vf) = 0) then true
  else ContainsIgnoredCase (vfInclude vf) (blockdevice.Vendor (blockdevice.DeviceAttributes bd)).

Definition vendorExclude (vf : vendorFilter) (bd : blockdevice.BlockDevice) : bool :=
  if decide (length (vfExclude vf) = 0) then true
  else negb (ContainsIgnoredCase (vfExclude vf) (blockdevice.Vendor (blockdevice.DeviceAttributes bd))).

(** Name, state, include and exclude list *)
Definition vendorConfig (cfg : option NodeDiskManagerConfig) : string * bool * string * string :=
  match configFor vendorFilterKey cfg with
  | Some fc => (fcName fc, CheckTruthy (fcState fc), fcInclude fc, fcExclude fc)
  | None => ("vendor filter", true, "", "")
  end.

(** newVendorFilter, started if it is enabled *)
Definition newVendorFilter (name : string) (state : bool) (inc exc : string) : Controller.Filter :=
  let vf := if state then vendorStart inc exc else MkVendor [] [] in
  MkFilter name state (fun bd => Ret (vendorInclude vf bd)) (fun bd => Ret (vendorExclude vf bd)).

Definition vendorFilterRegister (ctrl : Controller) : Controller :=
  let '(name, state, inc, exc) := vendorConfig (NDMConfig ctrl) in
  AddNewFilter ctrl (newVendorFilter name state inc exc).

(** ** pathfilter.go *)

Definition pathFilterKey := "path-filter".
Definition SYMLINK := "symlink".

Record pathFilter := MkPath { pfExclude : list string; pfInclude : list string }.

Definition pathStart (includePaths excludePaths : string) : pathFilter :=
  MkPath (if decide (excludePaths <> "") then Split excludePaths ","%char else [])
         (if decide (includePaths <> "") then Split includePaths ","%char else []).

(** Both directions match the same paths: the mapper path of a mapper device and the
    device path by keyword, the symbolic links exactly. *)
Definition pathMatches (keys : list string) (bd : blockdevice.BlockDevice) : bool :=
  (Contains blockdevice.DeviceMapperDeviceTypes (blockdevice.devtype bd) &&
   MatchIgnoredCase keys (blockdevice.DevMapperPath (blockdevice.DMInfo bd))) ||
  MatchIgnoredCase keys (blockdevice.devpath bd) ||
  existsb (fun link => bool_decide (blockdevice.Kind link = SYMLINK) &&
                       existsb (Contains keys) (blockdevice.Links link)) (blockdevice.DevLinks bd).

Definition pathInclude (pf : pathFilter) (bd : blockdevice.BlockDevice) : bool :=
  if decide (length (pfInclude pf) = 0) then true else pathMatches (pfInclude pf) bd.

Definition pathExclude (pf : pathFilter) (bd : blockdevice.BlockDevice) : bool :=
  if decide (length (pfExclude pf) = 0) then true else negb (pathMatches (pfExclude pf) bd).

Definition pathConfig (cfg : option NodeDiskManagerConfig) : string * bool * string * string :=
  match configFor pathFilterKey cfg with
  | Some fc => (fcName fc, CheckTruthy (fcState fc), fcInclude fc, fcExclude fc)
  | None => ("path filter", true, "", "loop")
  end.

Definition newPathFilter (name : string) (state : bool) (inc exc : string) : Controller.Filter :=
  let pf := if state then pathStart inc exc else MkPath [] [] in
  MkFilter name state (fun bd => Ret (pathInclude pf bd)) (fun bd => Ret (pathExclude pf bd)).

Definition pathFilterRegister (ctrl : Controller) : Controller :=
  let '(name, state, inc, exc) := pathConfig (NDMConfig ctrl) in
  AddNewFilter ctrl (newPathFilter name state inc exc).

(** ** osdiskexcludefilter.go *)

Definition osDiskExcludeFilterKey := "os-disk-exclude-filter".
Definition defaultMountFilePath := "/proc/self/mounts".
Definition hostMountFilePath := "/host/proc/1/mounts".
Definition defaultMountPoints : list string := ["/"; "/etc/hosts"].

(** The disks of the mount points that can be resolved, from the mounts of the host
    first *)
Definition osDiskStart (gates : gmap string bool) (mountPoints : list string) : prog (list string) :=
  for_each (fun excludeDevPaths mountPoint =>
      r <- mount.GetDiskPath gates (mount.NewMountUtil hostMountFilePath "" mountPoint) ;;
      match r with
      | inr devPath => Ret (excludeDevPaths ++ [devPath])%list
      | inl _ =>
          r <- mount.GetDiskPath gates (mount.NewMountUtil defaultMountFilePath "" mountPoint) ;;
          Ret (match r with inr devPath => (excludeDevPaths ++ [devPath])%list | inl _ => excludeDevPaths end)
      end)
    [] mountPoints.

(** The pattern for a disk and its partitions; [None] where a pattern does not compile *)
Definition osDiskRegex (excludeDevPath : string) : option string :=
  numbered ← IsMatchRegex ".+[0-9]+$" excludeDevPath;
  Some ("^" +:+ excludeDevPath +:+ (if numbered : bool then "(p[0-9]+)?$" else "[0-9]*$")).

Definition osDiskMatches (excludeDevPath path : string) : option bool :=
  regex ← osDiskRegex excludeDevPath; IsMatchRegex regex path.

Fixpoint osDiskExclude (excludeDevPaths : list string) (bd : blockdevice.BlockDevice) : prog bool :=
  match excludeDevPaths with
  | [] => Ret true
  | excludeDevPath :: rest =>
      match osDiskMatches excludeDevPath (blockdevice.devpath bd) with
      | None => Panic "regexp: Compile"
      | Some true => Ret false
      | Some false => osDiskExclude rest bd
      end
  end.

Definition osDiskConfig (cfg : option NodeDiskManagerConfig) : string * bool * list string :=
  match configFor osDiskExcludeFilterKey cfg with
  | Some fc => (fcName fc, CheckTruthy (fcState fc), Split (fcExclude fc) ","%char)
  | None => ("os disk exclude filter", true, defaultMountPoints)
  end.

Definition newNonOsDiskFilter (name : string) (state : bool) (paths : list string) : Controller.Filter :=
  MkFilter name state (fun _ => Ret true) (osDiskExclude paths).

Definition oSDiskExcludeFilterRegister (ctrl : Controller) : prog Controller :=
  let '(name, state, mountPoints) := osDiskConfig (NDMConfig ctrl) in
  paths <- (if state : bool then osDiskStart (Gates ctrl) mountPoints else Ret []) ;;
  Ret (AddNewFilter ctrl (newNonOsDiskFilter name state paths)).

(** ** devicevalidityfilter.go *)

Definition isValidDevPath (bd : blockdevice.BlockDevice) : bool :=
  negb (bool_decide (String.length (blockdevice.devpath bd) = 0)).
Definition isValidCapacity (bd : blockdevice.BlockDevice) : bool :=
  negb (bool_decide (blockdevice.Storage (blockdevice.Capacity bd) = 0%Z)).
Definition isValidDMDevice (bd : blockdevice.BlockDevice) : bool :=
  negb (Contains blockdevice.DeviceMapperDeviceTypes (blockdevice.devtype bd) &&
        bool_decide (String.length (blockdevice.DMUUID (blockdevice.DMInfo bd)) = 0)).
Definition isValidPartition (bd : blockdevice.BlockDevice) : bool :=
  negb (bool_decide (blockdevice.devtype bd = blockdevice.BlockDeviceTypePartition) &&
        bool_decide (String.length (blockdevice.PartitionEntryUUID (blockdevice.PartitionInfo bd)) = 0)).

Definition excludeValidationFuncs : list (blockdevice.BlockDevice -> bool) :=
  [isValidDevPath; isValidCapacity; isValidDMDevice; isValidPartition].

Definition validityExclude (fs : list (blockdevice.BlockDevice -> bool)) (bd : blockdevice.BlockDevice) : bool :=
  forallb (fun vf => vf bd) fs.

Definition newDeviceValidityFilter : Controller.Filter :=
  MkFilter "device validity filter" true (fun _ => Ret true)
    (fun bd => Ret (validityExclude excludeValidationFuncs bd)).

Definition deviceValidityFilterRegister (ctrl : Controller) : Controller :=
  AddNewFilter ctrl newDeviceValidityFilter.

(** ** filter.go: registration in the order of RegisteredFilters *)

Definition Start (ctrl : Controller) : prog Controller :=
  ctrl <- oSDiskExcludeFilterRegister ctrl ;;
  Ret (deviceValidityFilterRegister (pathFilterRegister (vendorFilterRegister ctrl))).

End filter.

(** ** Which devices pass *)

(** A device path: no newline and nothing that has a meaning in a pattern *)
Definition plain_path (p : string) : Prop := literal p = true /\ no_byte newline p = true.

(** The disk [p] itself and its partitions, by the naming scheme of the kernel: a
    partition number, after a "p" if the name of the disk ends in a digit. *)
Definition disk_or_partition (p path : string) : Prop :=
  path = p \/
  (exists n, n <> "" /\ all_digits n = true /\
     (~ ends_in_digit p /\ path = p +:+ n \/ ends_in_digit p /\ path = p +:+ "p" +:+ n)).

Lemma osDiskMatches_spec p path :
  plain_path p -> exists b, filter.osDiskMatches p path = Some b /\ (b = true <-> disk_or_partition p path).
Proof.
  intros [Hl Hn]. unfold filter.osDiskMatches, filter.osDiskRegex.
  destruct (IsMatchRegex_numbered p Hn) as (num & -> & Hnum). cbn [mbind option_bind].
  unfold disk_or_partition. destruct num.
  - destruct (IsMatchRegex_parts p path Hl) as (b & -> & Hb). exists b. split; [done|]. rewrite Hb.
    assert (ends_in_digit p) by (by apply Hnum). naive_solver.
  - destruct (IsMatchRegex_digits p path Hl) as (b & -> & Hb). exists b. split; [done|]. rewrite Hb.
    assert (He : ~ ends_in_digit p) by (intros He%Hnum; done). split.
    + intros (t & -> & Ht). destruct (decide (t = "")) as [->|]; [left; by rewrite string_app_nil_r|].
      right. exists t. split_and!; [done|done|]. by left.
    + intros [->|(n & ? & ? & [[_ ->]|[? _]])]; [|by exists n|done].
      exists "". by rewrite string_app_nil_r.
Qed.

Lemma osDisk_outcome paths bd :
  Forall plain_path paths ->
  exists b, filter.osDiskExclude paths bd = Ret b /\
    (b = false <-> exists p, p ∈ paths /\ disk_or_partition p (blockdevice.devpath bd)).
Proof.
  induction 1 as [|p paths Hp _ IH].
  { exists true. split; [done|]. split; [done|]. by intros (p & ?%not_elem_of_nil & _). }
  cbn [filter.osDiskExclude]. destruct (osDiskMatches_spec p (blockdevice.devpath bd) Hp) as (m & -> & Hm).
  destruct m.
  - exists false. split; [done|]. split; [|done]. intros _. exists p. split; [left|]. by apply Hm.
  - destruct IH as (b & -> & Hb). exists b. split; [done|]. rewrite Hb. setoid_rewrite elem_of_cons.
    split; [naive_solver|]. intros (q & [->|Hq] & Hd); [|eauto]. apply Hm in Hd. done.
Qed.

(** C14. The OS disk is never used: for any list of plain device paths, the filter does
    not panic and rejects a device exactly if it is one of these disks or one of their
    partitions (sda1 of sda, nvme0n1p1 of nvme0n1, and neither sdaa of sda nor nvme0n10 of
    nvme0n1). *)
Theorem osDiskExclude_spec paths bd :
  Forall plain_path paths ->
  exists b, filter.osDiskExclude paths bd = Ret b /\
    (b = false <-> exists p, p ∈ paths /\ disk_or_partition p (blockdevice.devpath bd)).
Proof. apply osDisk_outcome. Qed.

(** A device with a path *)
Definition at_path (p : string) : blockdevice.BlockDevice :=
  blockdevice.empty_BlockDevice <| blockdevice.Identifier ::= fun i => i <| blockdevice.DevPath := p |> |>.

Lemma osDiskExclude_spec_witness :
  filter.osDiskExclude ["/dev/sda"; "/dev/nvme0n1"] (at_path "/dev/nvme0n1p2") = Ret false /\
  exists p, p ∈ ["/dev/sda"; "/dev/nvme0n1"] /\ disk_or_partition p (blockdevice.devpath (at_path "/dev/nvme0n1p2")).
Proof.
  assert (Hf : filter.osDiskExclude ["/dev/sda"; "/dev/nvme0n1"] (at_path "/dev/nvme0n1p2") = Ret false) by (by vm_compute).
  split; [exact Hf|].
  destruct (osDiskExclude_spec ["/dev/sda"; "/dev/nvme0n1"] (at_path "/dev/nvme0n1p2")) as (b & Hb & Hiff).
  - by repeat constructor.
  - apply Hiff. rewrite Hf in Hb. by injection Hb as <-.
Defined.

(** ** The filters together *)

(** The device passes the vendor filter with lists [inc] and [exc]. *)
Definition vendor_ok (inc exc : list string) (bd : blockdevice.BlockDevice) : Prop :=
  let v := blockdevice.Vendor (blockdevice.DeviceAttributes bd) in
  (inc = [] \/ exists k, k ∈ inc /\ ToLower k = ToLower v) /\ ~ exists k, k ∈ exc /\ ToLower k = ToLower v.

(** Some path of the device contains a keyword, or a link of it is one. *)
Definition path_hit (keys : list string) (bd : blockdevice.BlockDevice) : Prop :=
  (exists k, k ∈ keys /\ StrContains (ToLower (blockdevice.devpath bd)) (ToLower k) = true) \/
  (blockdevice.devtype bd ∈ blockdevice.DeviceMapperDeviceTypes /\
   exists k, k ∈ keys /\ StrContains (ToLower (blockdevice.DevMapperPath (blockdevice.DMInfo bd))) (ToLower k) = true) \/
  (exists link l, link ∈ blockdevice.DevLinks bd /\ blockdevice.Kind link = filter.SYMLINK /\
     l ∈ blockdevice.Links link /\ l ∈ keys).

(** A device the daemon can describe. *)
Definition valid_device (bd : blockdevice.BlockDevice) : Prop :=
  blockdevice.devpath bd <> "" /\ blockdevice.Storage (blockdevice.Capacity bd) <> 0%Z /\
  (blockdevice.devtype bd ∈ blockdevice.DeviceMapperDeviceTypes -> blockdevice.DMUUID (blockdevice.DMInfo bd) <> "") /\
  (blockdevice.devtype bd = blockdevice.BlockDeviceTypePartition ->
   blockdevice.PartitionEntryUUID (blockdevice.PartitionInfo bd) <> "").

(** The keywords of a comma-separated list *)
Definition keywords (s : string) : list string := if decide (s <> "") then Split s ","%char else [].

Lemma vendor_spec inc exc bd :
  filter.vendorInclude (filter.vendorStart inc exc) bd && filter.vendorExclude (filter.vendorStart inc exc) bd = true <->
  vendor_ok (keywords inc) ("OpenEBS" :: keywords exc) bd.
Proof.
  unfold filter.vendorInclude, filter.vendorExclude, vendor_ok. cbn [filter.vendorStart filter.vfInclude filter.vfExclude].
  fold (keywords inc) (keywords exc). rewrite andb_true_iff. apply Morphisms_Prop.and_iff_morphism.
  - case_decide as Hl; [apply length_zero_iff_nil in Hl; naive_solver|]. rewrite ContainsIgnoredCase_iff.
    split; [eauto|]. intros [Hn|?]; [by rewrite Hn in Hl|done].
  - rewrite decide_False by done. by rewrite negb_true_iff, <- not_true_iff_false, ContainsIgnoredCase_iff.
Qed.

Lemma path_hit_spec keys bd : filter.pathMatches keys bd = true <-> path_hit keys bd.
Proof.
  unfold filter.pathMatches, path_hit.
  assert (Hm : forall s, MatchIgnoredCase keys s = true <->
    exists k, k ∈ keys /\ StrContains (ToLower s) (ToLower k) = true).
  { intros s. rewrite MatchIgnoredCase_iff. setoid_rewrite StrContains_iff. naive_solver. }
  rewrite !orb_true_iff, andb_true_iff, Contains_elem, !Hm, existsb_elem.
  setoid_rewrite andb_true_iff. setoid_rewrite bool_decide_eq_true. setoid_rewrite existsb_elem.
  setoid_rewrite Contains_elem. naive_solver.
Qed.

Lemma path_spec inc exc bd :
  filter.pathInclude (filter.pathStart inc exc) bd && filter.pathExclude (filter.pathStart inc exc) bd = true <->
  (keywords inc = [] \/ path_hit (keywords inc) bd) /\ ~ path_hit (keywords exc) bd.
Proof.
  unfold filter.pathInclude, filter.pathExclude. cbn [filter.pathStart filter.pfInclude filter.pfExclude].
  fold (keywords inc) (keywords exc). rewrite andb_true_iff. apply Morphisms_Prop.and_iff_morphism.
  - case_decide as Hl; [apply length_zero_iff_nil in Hl; naive_solver|]. rewrite path_hit_spec.
    split; [eauto|]. intros [Hn|?]; [by rewrite Hn in Hl|done].
  - case_decide as Hl; [|by rewrite negb_true_iff, <- not_true_iff_false, path_hit_spec].
    apply length_zero_iff_nil in Hl. rewrite Hl. split; [|done]. intros _. unfold path_hit. set_solver.
Qed.

Lemma string_length_zero s : String.length s = 0 <-> s = "".
Proof. by destruct s. Qed.

Lemma validity_spec bd : filter.validityExclude filter.excludeValidationFuncs bd = true <-> valid_device bd.
Proof.
  unfold filter.validityExclude, valid_device. cbn.
  unfold filter.isValidDevPath, filter.isValidCapacity, filter.isValidDMDevice, filter.isValidPartition.
  rewrite !andb_true_iff, !negb_true_iff, !andb_false_iff, !bool_decide_eq_false, !string_length_zero, Contains_elem_false.
  destruct (decide (blockdevice.devtype bd ∈ blockdevice.DeviceMapperDeviceTypes));
    destruct (decide (blockdevice.devtype bd = blockdevice.BlockDeviceTypePartition)); tauto.
Qed.

(** Filters that only look at the device decide by conjunction. *)
Lemma applyFilters_all (g : Controller.Filter -> bool) bd l :
  (forall f, f ∈ l -> fState f = true -> ApplyFilter1 f bd = Ret (g f)) ->
  applyFilters (listFilter l) bd = Ret (forallb (fun f => negb (fState f) || g f) l).
Proof.
  induction l as [|f l IH]; intros Hl; [done|]. cbn [listFilter forallb].
  assert (IH' : applyFilters (listFilter l) bd = Ret (forallb (fun f => negb (fState f) || g f) l))
    by (apply IH; intros; apply Hl; [by right|done]).
  destruct (fState f) eqn:Hs; [|done]. cbn [applyFilters negb orb]. rewrite Hl by (done || left).
  cbn [bind]. by destruct (g f).
Qed.

(** The result of a program that makes no calls *)
Definition value (p : prog bool) : bool := match p with Ret b => b | _ => false end.

Definition decides (f : Controller.Filter) (bd : blockdevice.BlockDevice) (P : Prop) : Prop :=
  ApplyFilter1 f bd = Ret (value (ApplyFilter1 f bd)) /\
  (negb (fState f) || value (ApplyFilter1 f bd) = true <-> (fState f = true -> P)).

Lemma andb_if (a b : bool) : (if a then Ret b else Ret false) = Ret (a && b).
Proof. by destruct a. Qed.

Lemma vendor_decides n st inc exc bd :
  decides (filter.newVendorFilter n st inc exc) bd (vendor_ok (keywords inc) ("OpenEBS" :: keywords exc) bd).
Proof.
  unfold decides, filter.newVendorFilter, ApplyFilter1. cbn [Include Exclude fState bind]. rewrite andb_if.
  split; [done|]. destruct st; cbn [negb orb value]; [rewrite vendor_spec|]; naive_solver.
Qed.

Lemma path_decides n st inc exc bd :
  decides (filter.newPathFilter n st inc exc) bd
    ((keywords inc = [] \/ path_hit (keywords inc) bd) /\ ~ path_hit (keywords exc) bd).
Proof.
  unfold decides, filter.newPathFilter, ApplyFilter1. cbn [Include Exclude fState bind]. rewrite andb_if.
  split; [done|]. destruct st; cbn [negb orb value]; [rewrite path_spec|]; naive_solver.
Qed.

Lemma validity_decides bd : decides filter.newDeviceValidityFilter bd (valid_device bd).
Proof.
  unfold decides, filter.newDeviceValidityFilter, ApplyFilter1. cbn [Include Exclude fState bind].
  split; [done|]. cbn [negb orb value]. rewrite validity_spec. naive_solver.
Qed.

Lemma osDisk_decides n st paths bd :
  Forall plain_path paths ->
  decides (filter.newNonOsDiskFilter n st paths) bd
    (forall p, p ∈ paths -> ~ disk_or_partition p (blockdevice.devpath bd)).
Proof.
  intros Hpl. unfold decides, filter.newNonOsDiskFilter, ApplyFilter1. cbn [Include Exclude fState bind].
  assert (Hex : exists b, filter.osDiskExclude paths bd = Ret b /\
    (b = false <-> exists p, p ∈ paths /\ disk_or_partition p (blockdevice.devpath bd))) by (by apply osDisk_outcome).
  destruct Hex as (b & -> & Hb). split; [done|]. destruct st, b; cbn; naive_solver.
Qed.

(** C13. What a device must satisfy to be handled at all: after the filters have been
    registered from the configuration, a device passes exactly if it is not one of the
    disks found for the configured mount points or a partition of one, its vendor is
    allowed and not excluded (never OpenEBS's own), its paths match an include keyword if
    there are any and no exclude keyword, each only as far as that filter is enabled, and
    it has a path, a capacity and the identifier of its kind. *)
Theorem Start_filters {W} (o : oracle W) c0 w w' paths bd :
  let '(_, os, mps) := filter.osDiskConfig (NDMConfig c0) in
  let '(_, vs, vinc, vexc) := filter.vendorConfig (NDMConfig c0) in
  let '(_, ps, pinc, pexc) := filter.pathConfig (NDMConfig c0) in
  Filters c0 = [] ->
  exec o (if os : bool then filter.osDiskStart (Gates c0) mps else Ret []) w = (w', Returned paths) ->
  Forall plain_path paths ->
  exists c b, exec o (filter.Start c0) w = (w', Returned c) /\ ApplyFilter c bd = Ret b /\
    (b = true <->
     (os = true -> forall p, p ∈ paths -> ~ disk_or_partition p (blockdevice.devpath bd)) /\
     (vs = true -> vendor_ok (keywords vinc) ("OpenEBS" :: keywords vexc) bd) /\
     (ps = true -> (keywords pinc = [] \/ path_hit (keywords pinc) bd) /\ ~ path_hit (keywords pexc) bd) /\
     valid_device bd).
Proof.
  destruct (filter.osDiskConfig _) as [[n1 os] mps] eqn:Ho.
  destruct (filter.vendorConfig _) as [[[n2 vs] vinc] vexc] eqn:Hv.
  destruct (filter.pathConfig _) as [[[n3 ps] pinc] pexc] eqn:Hp. intros Hf Hex Hpl.
  unfold filter.Start, filter.oSDiskExcludeFilterRegister, filter.vendorFilterRegister, filter.pathFilterRegister,
    filter.deviceValidityFilterRegister.
  rewrite Ho, exec_bind, exec_bind, Hex. cbn [exec].
  change (NDMConfig (AddNewFilter c0 ?f)) with (NDMConfig c0). rewrite Hv.
  change (NDMConfig (AddNewFilter (AddNewFilter c0 ?f) ?g)) with (NDMConfig c0). rewrite Hp.
  eexists _, _. split; [reflexivity|]. unfold ApplyFilter, ListFilter.
  set (fs := Filters _). assert (Hfs : fs = [filter.newNonOsDiskFilter n1 os paths; filter.newVendorFilter n2 vs vinc vexc;
    filter.newPathFilter n3 ps pinc pexc; filter.newDeviceValidityFilter]).
  { unfold fs. cbn. by rewrite Hf. }
  pose proof (osDisk_decides n1 os paths bd Hpl) as [R1 D1].
  pose proof (vendor_decides n2 vs vinc vexc bd) as [R2 D2].
  pose proof (path_decides n3 ps pinc pexc bd) as [R3 D3]. pose proof (validity_decides bd) as [R4 D4].
  rewrite Hfs, (applyFilters_all (fun f => value (ApplyFilter1 f bd))).
  2:{ intros f Hin _. set_unfold in Hin. naive_solver. }
  split; [reflexivity|]. cbn [forallb]. rewrite !andb_true_iff, D1, D2, D3, D4. clear.
  cbn [fState filter.newNonOsDiskFilter filter.newVendorFilter filter.newPathFilter filter.newDeviceValidityFilter].
  naive_solver.
Qed.

(** A host whose root is on sda4 *)
Definition demo_host : oracle unit := fun X e w =>
  match e in callE X return unit * X with
  | ReadFile _ => (w, inr ("/dev/sda4 / ext4 rw 0 0" +:+ String newline ""))
  | Stat _ => (w, inr (false, 0%Z))
  | EvalSymlinks p => (w, inr (if decide (p = "/sys/class/block/sda4") then "/sys/devices/pci0/block/sda/sda4" else p))
  | e => (w, deaf _ e)
  end.
Definition demo_controller : Controller := MkController "openebs" None [] [] ∅ ∅.

Lemma Start_filters_witness :
  exists c b, exec demo_host (filter.Start demo_controller) tt = (tt, Returned c) /\
    ApplyFilter c (at_path "/dev/sda1") = Ret b /\
    (b = true <->
     (true = true -> forall p, p ∈ ["/dev/sda"] -> ~ disk_or_partition p "/dev/sda1") /\
     (true = true -> vendor_ok (keywords "") ("OpenEBS" :: keywords "") (at_path "/dev/sda1")) /\
     (true = true -> (keywords "" = [] \/ path_hit (keywords "") (at_path "/dev/sda1")) /\
        ~ path_hit (keywords "loop") (at_path "/dev/sda1")) /\
     valid_device (at_path "/dev/sda1")).
Proof.
  exact (Start_filters demo_host demo_controller tt tt ["/dev/sda"] (at_path "/dev/sda1") eq_refl
    ltac:(by vm_compute) ltac:(by repeat constructor)).
Defined.
