(* ===== verification/Partition.v ===== *)
(** * pkg/partition and pkg/blkid

    The GPT layout the daemon writes on a disk that cannot be identified otherwise.
    Sectors are uint64: the arithmetic wraps. *)

From Stdlib Require Import ZArith Lia.
From stdpp Require Import base list strings.
From S2P Require Import Prelude Types Prog.

Local Open Scope string_scope.
Local Open Scope prog_scope.
Local Open Scope Z_scope.

(** pkg/blkid *)
Module blkid.
Definition GetTagValue (devPath tag : string) : prog string := call (BlkidTag devPath tag).
Definition GetOnDiskFileSystem (devPath : string) : prog string := GetTagValue devPath "TYPE".
Definition GetOnDiskLabel (devPath : string) : prog string := GetTagValue devPath "LABEL".
Definition GetPartitionTableUUID (devPath : string) : prog string := GetTagValue devPath "PTUUID".
Definition GetPartitionEntryUUID (devPath : string) : prog string := GetTagValue devPath "PARTUUID".
End blkid.

Module partition.

Definition BytesRequiredForGPTPartitionEntries : Z := 16384.
Definition GPTPartitionStartByte : Z := 1048576.
Definition NoOfLogicalBlocksForGPTHeader : Z := 1.
Definition OpenEBSNDMPartitionName := "OpenEBS_NDM".
Definition LinuxFilesystem := "0FC63DAF-8483-4772-8E79-3D69D8477DE4".

Definition u64 (z : Z) : Z := z mod 2 ^ 64.

Record Disk := MkDisk { DevPath : string; DiskSize : Z; LogicalBlockSize : Z; table : gptTable }.
#[global] Instance eta_Disk : Eta Disk := fun d =>
  MkDisk (DevPath d) (DiskSize d) (LogicalBlockSize d) (table d).

Definition createPartitionTable (d : Disk) : res Disk :=
  if decide (DiskSize d = 0) then inl (Err "disk size is zero, unable to initialize partition table")
  else
    let d := if decide (LogicalBlockSize d = 0) then d <| LogicalBlockSize := 512 |> else d in
    inr (d <| table := MkTable (LogicalBlockSize d) true [] |>).

Definition PrimaryPartitionTableSize (d : Disk) : Z :=
  u64 (BytesRequiredForGPTPartitionEntries / LogicalBlockSize d + NoOfLogicalBlocksForGPTHeader).

Definition startSector (d : Disk) : Z :=
  if decide (tPartitions (table d) = []) then GPTPartitionStartByte / LogicalBlockSize d else 0.

Definition endSector (d : Disk) : Z :=
  u64 (u64 (DiskSize d / LogicalBlockSize d - PrimaryPartitionTableSize d) - 1).

Definition addPartition (d : Disk) : Disk :=
  d <| table ::= fun t =>
      MkTable (LogicalSectorSize t) (ProtectiveMBR t)
        (tPartitions t ++ [MkPartition (startSector d) (endSector d) LinuxFilesystem OpenEBSNDMPartitionName]) |>.

Definition applyPartitionTable (d : Disk) : prog (option err) :=
  if decide (length (tPartitions (table d)) = 0%nat)
  then Ret (Some (Err "no partitions specified in partition table"))
  else
    r <- call (DiskPartition (DevPath d) (table d)) ;;
    match r with
    | inl _ => Ret (Some (Err "unable to create/write partition table."))
    | inr _ => Ret None
    end.

(** Both operations first make sure that the disk has no partition table and no file
    system. *)
Definition CreateSinglePartition (d : Disk) : prog (option err) :=
  fd <- call (DiskOpen (DevPath d)) ;;
  match fd with
  | inl _ => Ret (Some (Err "error opening disk fd for disk"))
  | inr _ =>
      t <- call (DiskGetPartitionTable (DevPath d)) ;;
      match t with
      | inr _ => Ret (Some (Err "disk contains a partition table, cannot create a single partition"))
      | inl _ =>
          fs <- blkid.GetOnDiskFileSystem (DevPath d) ;;
          if decide (String.length fs <> 0%nat)
          then Ret (Some (Err "disk contains a known filesystem, cannot create a single partition"))
          else match createPartitionTable d with
               | inl e => Ret (Some e)
               | inr d => applyPartitionTable (addPartition d)
               end
      end
  end.

Definition CreatePartitionTable (d : Disk) : prog (option err) :=
  fd <- call (DiskOpen (DevPath d)) ;;
  match fd with
  | inl _ => Ret (Some (Err "error opening disk fd for disk"))
  | inr _ =>
      t <- call (DiskGetPartitionTable (DevPath d)) ;;
      match t with
      | inr _ => Ret (Some (Err "disk contains a partition table, cannot create a new partition table"))
      | inl _ =>
          fs <- blkid.GetOnDiskFileSystem (DevPath d) ;;
          if decide (String.length fs <> 0%nat)
          then Ret (Some (Err "disk contains a known filesystem, cannot create a partition table"))
          else match createPartitionTable d with
               | inl e => Ret (Some e)
               | inr d =>
                   r <- call (DiskPartition (DevPath d) (table d)) ;;
                   match r with
                   | inl _ => Ret (Some (Err "unable to create/write partition table."))
                   | inr _ => Ret None
                   end
               end
      end
  end.

(** ** The layout of a GPT disk

    Sector 0 holds the protective MBR, sector 1 the header, the next sectors the
    entries; the last sector is the backup header and the sectors before it the backup
    entries. *)
Definition entrySectors (bs : Z) : Z := (16384 + bs - 1) / bs.
Definition firstUsable (bs : Z) : Z := 2 + entrySectors bs.
Definition lastUsable (size bs : Z) : Z := size / bs - 2 - entrySectors bs.

(** Block sizes of real disks: the entries fill whole sectors and the start byte is
    aligned. *)
Definition block_size_ok (bs : Z) : Prop := bs ∈ [512; 1024; 2048; 4096].

Lemma endSector_small d :
  PrimaryPartitionTableSize d + 1 <= DiskSize d / LogicalBlockSize d < 2 ^ 64 ->
  endSector d = DiskSize d / LogicalBlockSize d - PrimaryPartitionTableSize d - 1.
Proof.
  intros H. unfold endSector, u64.
  assert (0 <= PrimaryPartitionTableSize d) by (apply Z.mod_pos_bound; lia).
  rewrite (Z.mod_small (DiskSize d / _ - _)) by lia. rewrite Z.mod_small by lia. done.
Qed.

Lemma entrySectors_table d :
  block_size_ok (LogicalBlockSize d) ->
  PrimaryPartitionTableSize d = entrySectors (LogicalBlockSize d) + 1.
Proof.
  unfold block_size_ok, PrimaryPartitionTableSize. generalize (LogicalBlockSize d). intros bs Hbs.
  rewrite !elem_of_cons, elem_of_nil in Hbs. by destruct_or! Hbs; subst bs.
Qed.

Lemma tableSize_range d :
  0 < LogicalBlockSize d -> 1 <= PrimaryPartitionTableSize d <= 16385.
Proof.
  intros Hb. unfold PrimaryPartitionTableSize, u64, NoOfLogicalBlocksForGPTHeader,
    BytesRequiredForGPTPartitionEntries.
  assert (0 <= 16384 / LogicalBlockSize d) by (apply Z.div_pos; lia).
  assert (16384 / LogicalBlockSize d <= 16384) by (apply Z.div_le_upper_bound; nia).
  rewrite Z.mod_small; lia.
Qed.

Lemma start_after_table bs : block_size_ok bs -> firstUsable bs <= GPTPartitionStartByte / bs.
Proof.
  unfold block_size_ok. rewrite !elem_of_cons, elem_of_nil.
  intros Hbs. destruct_or! Hbs; try done; subst bs; vm_compute; discriminate.
Qed.
End partition.

(** C27. The partition the daemon creates starts at one mebibyte, after the primary GPT,
    and ends exactly at the last usable sector, before the backup GPT; on a disk that is
    large enough it is not empty. *)
Theorem addPartition_layout d :
  partition.block_size_ok (partition.LogicalBlockSize d) ->
  tPartitions (partition.table d) = [] ->
  partition.DiskSize d < 2 ^ 64 ->
  2 * 2 ^ 20 <= partition.DiskSize d ->
  exists p, tPartitions (partition.table (partition.addPartition d)) = [p] /\
    pStart p * partition.LogicalBlockSize d = 2 ^ 20 /\
    partition.firstUsable (partition.LogicalBlockSize d) <= pStart p <= pEnd p /\
    pEnd p = partition.lastUsable (partition.DiskSize d) (partition.LogicalBlockSize d).
Proof.
  intros Hbs Ht Hmax Hmin. unfold partition.addPartition. cbn. rewrite Ht. cbn.
  eexists; split; [done|]. cbn. unfold partition.startSector. rewrite decide_True by done.
  pose proof (partition.start_after_table _ Hbs) as Hstart.
  pose proof (partition.entrySectors_table _ Hbs) as Htab.
  set (bs := partition.LogicalBlockSize d) in *.
  assert (Hq : 2 * (2 ^ 20 / bs) <= partition.DiskSize d / bs < 2 ^ 64 /\
    partition.entrySectors bs <= 32 /\ 256 <= 2 ^ 20 / bs /\ 2 ^ 20 / bs * bs = 2 ^ 20).
  { unfold partition.block_size_ok in Hbs. rewrite !elem_of_cons, elem_of_nil in Hbs.
    destruct_or! Hbs; try done; rewrite Hbs in *; cbn; (split; [|done]).
    all: split; [|apply Z.div_lt_upper_bound; lia].
    all: match goal with
         | |- context [2 ^ 20 / ?b] =>
             let v := eval vm_compute in (2 ^ 20 / b) in change (2 ^ 20 / b) with v
         end; apply Z.div_le_lower_bound; lia. }
  destruct Hq as (Hq & He & Hs & Hm). unfold partition.GPTPartitionStartByte in *.
  change 1048576 with (2 ^ 20) in *.
  rewrite partition.endSector_small by (fold bs; lia). fold bs.
  unfold partition.lastUsable. rewrite Htab. split; [done|]. lia.
Qed.

Lemma addPartition_layout_witness :
  exists p, tPartitions (partition.table (partition.addPartition
    (partition.MkDisk "/dev/sdb" (10 * 2 ^ 30) 512 (MkTable 512 true [])))) = [p] /\
    pStart p * 512 = 2 ^ 20 /\ partition.firstUsable 512 <= pStart p <= pEnd p /\
    pEnd p = partition.lastUsable (10 * 2 ^ 30) 512.
Proof.
  apply (addPartition_layout (partition.MkDisk "/dev/sdb" (10 * 2 ^ 30) 512 (MkTable 512 true [])));
    [unfold partition.block_size_ok; left|reflexivity|reflexivity|vm_compute; discriminate].
Defined.

(** On a disk with no more sectors than the backup GPT needs the subtraction wraps:
    the end sector of the partition is within 16386 of the largest uint64, far beyond
    the disk, and the partition is handed to the library with that end. *)
Theorem endSector_wraps d :
  0 <= partition.DiskSize d ->
  0 < partition.LogicalBlockSize d ->
  partition.DiskSize d / partition.LogicalBlockSize d <= partition.PrimaryPartitionTableSize d ->
  2 ^ 64 - 16386 <= partition.endSector d < 2 ^ 64.
Proof.
  intros H0 Hb Hle. unfold partition.endSector.
  assert (0 <= partition.DiskSize d / partition.LogicalBlockSize d) by (apply Z.div_pos; lia).
  pose proof (partition.tableSize_range d Hb) as Hp.
  set (q := partition.DiskSize d / _) in *. set (p := partition.PrimaryPartitionTableSize d) in *.
  unfold partition.u64. split; [|apply Z.mod_pos_bound; lia].
  destruct (decide (q = p)) as [->|].
  - rewrite Z.sub_diag. vm_compute. discriminate.
  - replace ((q - p) mod 2 ^ 64) with (q - p + 2 ^ 64).
    + rewrite Z.mod_small by lia. lia.
    + apply (Z.mod_unique_pos _ _ (-1)); lia.
Qed.

Lemma endSector_wraps_witness :
  2 ^ 64 - 16386 <=
  partition.endSector (partition.MkDisk "/dev/sdb" 4096 512 (MkTable 512 true [])) < 2 ^ 64.
Proof.
  apply endSector_wraps; vm_compute; first [done|intros [=]].
Defined.
