(* ===== verification/Uuid.v ===== *)
(** * cmd/ndm_daemonset/probe/uuid.go

    The name of the resource of a device: which identifier is used for which kind of
    device, and what the name looks like. *)

From Stdlib Require Import ZArith Lia.
From stdpp Require Import base list strings gmap.
From S2P Require Import Prelude GoStrings Md5 Types Prog Util Features Controller.

Local Open Scope string_scope.
Local Open Scope prog_scope.

(** os.Hostname with its error ignored *)
Definition hostname : prog string :=
  h <- call Hostname ;; Ret (match h with inr h => h | inl _ => "" end).

Definition mkUUID (uuidField : string) : string :=
  blockdevice.BlockDevicePrefix +:+ Hash uuidField.

(** The field that identifies a device, [None] when there is none. *)
Definition uuidField (gates : gmap string bool) (bd : blockdevice.BlockDevice) : prog (option string) :=
  let attr := blockdevice.DeviceAttributes bd in
  let part := blockdevice.PartitionInfo bd in
  if decide (blockdevice.DeviceType attr = blockdevice.BlockDeviceTypeLoop) then
    hostName <- hostname ;; Ret (Some (hostName +:+ blockdevice.devpath bd))
  else if Contains blockdevice.DeviceMapperDeviceTypes (blockdevice.DeviceType attr) then
    Ret (Some (blockdevice.DMUUID (blockdevice.DMInfo bd)))
  else if decide (blockdevice.DeviceType attr = blockdevice.BlockDeviceTypePartition) then
    Ret (Some (blockdevice.PartitionEntryUUID part))
  else if decide (0 < String.length (blockdevice.WWN attr)) then
    Ret (Some (blockdevice.WWN attr +:+ blockdevice.Serial attr))
  else if decide (0 < String.length (blockdevice.FileSystemUUID (blockdevice.FSInfo bd))) then
    Ret (Some (blockdevice.FileSystemUUID (blockdevice.FSInfo bd)))
  else if features.IsEnabled gates features.PartitionTableUUID &&
          bool_decide (0 < String.length (blockdevice.PartitionTableType part)) then
    if decide (String.length (blockdevice.PartitionTableUUID part) = 0) then Ret None
    else Ret (Some (blockdevice.PartitionTableUUID part))
  else Ret None.

Definition generateUUID (gates : gmap string bool) (bd : blockdevice.BlockDevice) : prog (option string) :=
  f <- uuidField gates bd ;; Ret (option_map mkUUID f).

Definition localDiskModels : list string := ["EphemeralDisk"; "Virtual_disk"; "QEMU_HARDDISK"].

(** Whether the legacy identifier depends on the host and the path. *)
Definition uuidUsesPath (bd : blockdevice.BlockDevice) : bool :=
  let attr := blockdevice.DeviceAttributes bd in
  bool_decide (String.length (blockdevice.IDType attr) = 0) || Contains localDiskModels (blockdevice.Model attr).

Definition generateLegacyUUID (bd : blockdevice.BlockDevice) : prog (string * bool) :=
  let attr := blockdevice.DeviceAttributes bd in
  let uid := blockdevice.WWN attr +:+ blockdevice.Model attr +:+ blockdevice.Serial attr +:+ blockdevice.Vendor attr in
  if uuidUsesPath bd then
    host <- hostname ;; Ret (mkUUID (uid +:+ host +:+ blockdevice.devpath bd), true)
  else Ret (mkUUID uid, false).

Definition generateUUIDFromPartitionTable (bd : blockdevice.BlockDevice) : option string :=
  let uuidField := blockdevice.PartitionTableUUID (blockdevice.PartitionInfo bd) in
  if decide (0 < String.length uuidField) then Some (mkUUID uuidField) else None.

(** ** Shape of names *)

Definition valid_name (u : string) : Prop :=
  exists h, u = "blockdevice-" +:+ h /\ String.length h = 32 /\ all_bytes is_hex h = true.

Lemma mkUUID_valid f : valid_name (mkUUID f).
Proof. exists (Hash f). split; [done|]. split; [apply Hash_length|apply Hash_hex]. Qed.

Lemma mkUUID_inj_hash a b : mkUUID a = mkUUID b -> Hash a = Hash b.
Proof. apply string_app_inj_l. Qed.
