(* ===== verification/Handlers.v ===== *)
(** * cmd/ndm_daemonset/probe: the handling of device events

    addhandler.go, deletehandler.go, changehandler.go and eventhandler.go.  The state
    of a handler is the hierarchy cache of the controller and the list of resources
    read at the start of the event; the latter is state because an update writes into
    the label and annotation maps of the list's items. *)

From Stdlib Require Import ZArith Ascii Lia.
From stdpp Require Import base list strings gmap.
From S2P Require Import Prelude GoStrings Md5 Types Prog Util Features K8sLib Controller Store Partition Uuid.

Local Open Scope string_scope.
Local Open Scope prog_scope.

Record PState := MkPState {
  BDHierarchy : gmap string blockdevice.BlockDevice;
  bdAPIList : list apis.BlockDevice
}.
#[global] Instance eta_PState : Eta PState := fun s => MkPState (BDHierarchy s) (bdAPIList s).

Definition internalUUIDSchemeAnnotation := "internal.openebs.io/uuid-scheme".
Definition legacyUUIDScheme := "legacy".
Definition gptUUIDScheme := "gpt".
Definition internalFSUUIDAnnotation := "internal.openebs.io/fsuuid".
Definition internalPartitionUUIDAnnotation := "internal.openebs.io/partition-uuid".

(** An existing resource: an item of the list at its position, or an object of its own
    from a Get. *)
Inductive existing :=
  | NoBD
  | FromList (i : nat) (bd : apis.BlockDevice)
  | Fetched (bd : apis.BlockDevice).

Definition existing_bd (e : existing) : option apis.BlockDevice :=
  match e with NoBD => None | FromList _ bd | Fetched bd => Some bd end.

Definition of_find (r : option (nat * apis.BlockDevice)) : existing :=
  match r with None => NoBD | Some (i, bd) => FromList i bd end.

(** ** Hierarchy cache *)

Definition addBlockDeviceToHierarchyCache (st : PState) (bd : blockdevice.BlockDevice) : PState * bool :=
  let ok := bool_decide (is_Some (BDHierarchy st !! blockdevice.devpath bd)) in
  (st <| BDHierarchy ::= fun h => <[blockdevice.devpath bd := bd]> h |>, ok).

Definition removeBlockDeviceFromHierarchyCache (st : PState) (bd : blockdevice.BlockDevice) : PState * bool :=
  match BDHierarchy st !! blockdevice.devpath bd with
  | None => (st, false)
  | Some _ => (st <| BDHierarchy ::= fun h => delete (blockdevice.devpath bd) h |>, true)
  end.

(** ** Looking up resources by annotation *)

Definition annotationIs (key value : string) (bd : apis.BlockDevice) : bool :=
  match map_lookup (apis.bd_annotations bd) key with
  | None => false
  | Some v => bool_decide (v = value)
  end.

Definition getExistingBDWithFsUuid (bd : blockdevice.BlockDevice) (items : list apis.BlockDevice) : existing :=
  let u := blockdevice.FileSystemUUID (blockdevice.FSInfo bd) in
  if decide (String.length u = 0) then NoBD
  else of_find (findItem (annotationIs internalFSUUIDAnnotation u) 0 items).

Definition getExistingBDWithPartitionUUID (bd : blockdevice.BlockDevice) (items : list apis.BlockDevice) : existing :=
  let u := blockdevice.PartitionTableUUID (blockdevice.PartitionInfo bd) in
  if decide (String.length u = 0) then NoBD
  else of_find (findItem (annotationIs internalPartitionUUIDAnnotation u) 0 items).

Section Handlers.
Context `{K8sLib} (c : Controller).

Definition set_annotations (a : strmap) (bd : apis.BlockDevice) : apis.BlockDevice :=
  bd <| apis.ObjectMeta ::= fun m => m <| metav1.Annotations := Some a |> |>.

(** createOrUpdateWithAnnotation; the maps of an item of the list are written to even
    when the update fails. *)
Definition createOrUpdateWithAnnotation (st : PState) (annotation : strmap)
    (bd : blockdevice.BlockDevice) (existingBD : existing) : prog (PState * option err) :=
  match ToDevice c (NewDeviceInfoFromBlockDevice bd) with
  | inl e => Ret (st, Some e)
  | inr bdAPI =>
      let bdAPI := set_annotations annotation bdAPI in
      match existingBD with
      | NoBD => e <- CreateBlockDevice c bdAPI ;; Ret (st, e)
      | Fetched old => e <- UpdateBlockDevice bdAPI (Some old) ;; Ret (st, e)
      | FromList i old =>
          e <- UpdateBlockDevice bdAPI (Some old) ;;
          Ret (st <| bdAPIList ::= fun l => <[i := mergedInPlace bdAPI old]> l |>, e)
      end
  end.

Definition gptAnnotation : strmap := {[ internalUUIDSchemeAnnotation := gptUUIDScheme ]}.

Definition createOrUpdateWithFSUUID (st : PState) (bd : blockdevice.BlockDevice) (existingBD : existing) :=
  createOrUpdateWithAnnotation st
    (<[internalUUIDSchemeAnnotation := legacyUUIDScheme]>
      {[ internalFSUUIDAnnotation := blockdevice.FileSystemUUID (blockdevice.FSInfo bd) ]})
    bd existingBD.

Definition createOrUpdateWithPartitionUUID (st : PState) (bd : blockdevice.BlockDevice) (existingBD : existing) :=
  createOrUpdateWithAnnotation st
    (<[internalUUIDSchemeAnnotation := legacyUUIDScheme]>
      {[ internalPartitionUUIDAnnotation := blockdevice.PartitionTableUUID (blockdevice.PartitionInfo bd) ]})
    bd existingBD.

(** ** Devices that are not managed *)

Definition deviceInUseByMayastor (bd : blockdevice.BlockDevice) : bool :=
  if negb (blockdevice.InUse (blockdevice.DevUse bd)) then true
  else if decide (blockdevice.UsedBy (blockdevice.DevUse bd) <> blockdevice.Mayastor) then true
  else false.

Definition deviceInUseByZFSLocalPV (st : PState) (bd : blockdevice.BlockDevice) : prog (PState * res bool) :=
  let continue :=
    if negb (blockdevice.InUse (blockdevice.DevUse bd)) then Ret (st, inr true)
    else if decide (blockdevice.UsedBy (blockdevice.DevUse bd) <> blockdevice.ZFSLocalPV) then Ret (st, inr true)
    else
      match generateUUIDFromPartitionTable bd with
      | None => Ret (st, inl (Err "error generating uuid for zfs-localPV disk"))
      | Some uuid =>
          let bd := blockdevice.set_uuid uuid bd in
          match ToDevice c (NewDeviceInfoFromBlockDevice bd) with
          | inl e => Ret (st, inl e)
          | inr bdAPI =>
              let bdAPI := bdAPI <| apis.ObjectMeta ::= fun m => m <| metav1.Labels ::= fun l =>
                Some (<[BlockDeviceTagLabel := blockdevice.ZFSLocalPV]> (default ∅ l)) |> |> in
              e <- CreateBlockDevice c bdAPI ;;
              Ret (st, match e with Some e => inl e | None => inr false end)
          end
      end in
  if decide (blockdevice.devtype bd = blockdevice.BlockDeviceTypePartition) then
    match BDHierarchy st !! blockdevice.Parent (blockdevice.DependentDevices bd) with
    | None => Ret (st, inl (Err "error in getting parent device from device hierarchy"))
    | Some parentBD =>
        if blockdevice.InUse (blockdevice.DevUse parentBD) &&
           bool_decide (blockdevice.UsedBy (blockdevice.DevUse parentBD) = blockdevice.ZFSLocalPV)
        then Ret (st, inr false)
        else continue
    end
  else continue.

Definition handleUnmanagedDevices (st : PState) (bd : blockdevice.BlockDevice) : prog (PState * res bool) :=
  if negb (deviceInUseByMayastor bd) then Ret (st, inr false)
  else deviceInUseByZFSLocalPV st bd.

Definition isParentDeviceInUse (st : PState) (bd : blockdevice.BlockDevice) : res bool :=
  if decide (blockdevice.devtype bd <> blockdevice.BlockDeviceTypePartition) then inr false
  else match BDHierarchy st !! blockdevice.Parent (blockdevice.DependentDevices bd) with
       | None => inl (Err "cannot find parent device")
       | Some parentBD => inr (blockdevice.InUse (blockdevice.DevUse parentBD))
       end.

(** ** Upgrade of devices in use under the legacy scheme *)

(** The two engines differ in the annotation they look up and write. *)
Definition upgradeInUse (byAnnotation : list apis.BlockDevice -> existing)
    (push : PState -> blockdevice.BlockDevice -> existing -> prog (PState * option err))
    (st : PState) (bd : blockdevice.BlockDevice) : prog (PState * res bool) :=
  let done (r : prog (PState * option err)) : prog (PState * res bool) :=
    '(st, e) <- r ;; Ret (st, match e with Some e => inl e | None => inr false end) in
  let legacy :=
    '(legacyUUID, isVirt) <- generateLegacyUUID bd ;;
    let existingLegacyBD :=
      match byAnnotation (bdAPIList st) with
      | NoBD => of_find (GetExistingBlockDeviceResource (bdAPIList st) legacyUUID)
      | r => r
      end in
    match existing_bd existingLegacyBD with
    | None => done (push st (blockdevice.set_uuid legacyUUID bd) NoBD)
    | Some old =>
        if decide (apis.bd_claimstate old <> apis.BlockDeviceUnclaimed)
        then done (push st (blockdevice.set_uuid (apis.bd_name old) bd) existingLegacyBD)
        else if isVirt : bool
        then done (push st (blockdevice.set_uuid (apis.bd_name old) bd) existingLegacyBD)
        else Ret (st, inl (Err "unreachable state"))
    end in
  uuid <- generateUUID (Gates c) bd ;;
  match uuid with
  | None => legacy
  | Some uuid =>
      match GetExistingBlockDeviceResource (bdAPIList st) uuid with
      | None => legacy
      | Some (_, existingBD) =>
          if decide (apis.bd_claimstate existingBD <> apis.BlockDeviceUnclaimed)
          then Ret (st, inr true)
          else Ret (st, inl (Err "unreachable state"))
      end
  end.

Definition upgradeDeviceInUseByCStor (st : PState) (bd : blockdevice.BlockDevice) :=
  upgradeInUse (getExistingBDWithPartitionUUID bd) createOrUpdateWithPartitionUUID st bd.

Definition upgradeDeviceInUseByLocalPV (st : PState) (bd : blockdevice.BlockDevice) :=
  upgradeInUse (getExistingBDWithFsUuid bd) createOrUpdateWithFSUUID st bd.

Definition upgradeBD (st : PState) (bd : blockdevice.BlockDevice) : prog (PState * res bool) :=
  let use := blockdevice.DevUse bd in
  if negb (blockdevice.InUse use) then Ret (st, inr true)
  else if decide (blockdevice.UsedBy use = blockdevice.LocalPV) then upgradeDeviceInUseByLocalPV st bd
  else if decide (blockdevice.UsedBy use = blockdevice.CStor) then upgradeDeviceInUseByCStor st bd
  else Ret (st, inr true).

(** ** Add *)

Definition createBlockDeviceResourceIfNoHolders (st : PState) (bd : blockdevice.BlockDevice)
    : prog (PState * option err) :=
  if decide (0 < length (blockdevice.Holders (blockdevice.DependentDevices bd))) then Ret (st, None)
  else
    createOrUpdateWithAnnotation st gptAnnotation bd
      (of_find (GetExistingBlockDeviceResource (bdAPIList st) (blockdevice.uuid_of bd))).

(** A device without an identifier and without partitions or holders gets a partition
    table; the new partition, or the rescan, brings the next event. *)
Definition makeIdentifiable (bd : blockdevice.BlockDevice) : prog (option err) :=
  let deps := blockdevice.DependentDevices bd in
  if bool_decide (0 < length (blockdevice.Partitions deps)) ||
     bool_decide (0 < length (blockdevice.Holders deps)) then Ret None
  else
    let d := partition.MkDisk (blockdevice.devpath bd) (blockdevice.Storage (blockdevice.Capacity bd))
               (blockdevice.LogicalBlockSize (blockdevice.DeviceAttributes bd)) (MkTable 0 false []) in
    if features.IsEnabled (Gates c) features.PartitionTableUUID then
      e <- partition.CreatePartitionTable d ;;
      Ret (match e with Some e => Some e | None => Some ErrNeedRescan end)
    else partition.CreateSinglePartition d.

(** A partition whose resource does not exist yet: its parent decides. *)
Definition addNewPartition (st : PState) (bd : blockdevice.BlockDevice) : prog (PState * option err) :=
  match BDHierarchy st !! blockdevice.Parent (blockdevice.DependentDevices bd) with
  | None => Ret (st, Some (Err "cannot get parent device"))
  | Some parentBD =>
      parentUUID <- generateUUID (Gates c) parentBD ;;
      match parentUUID with
      | None => createBlockDeviceResourceIfNoHolders st bd
      | Some parentUUID =>
          r <- GetBlockDevice c parentUUID ;;
          match r with
          | inl e => if IsNotFound e then createBlockDeviceResourceIfNoHolders st bd else Ret (st, Some e)
          | inr parentBDAPI =>
              if decide (apis.bd_claimstate parentBDAPI <> apis.BlockDeviceUnclaimed) then Ret (st, None)
              else
                DeactivateBlockDevice parentBDAPI ;;;
                createOrUpdateWithAnnotation st gptAnnotation bd
                  (of_find (GetExistingBlockDeviceResource (bdAPIList st) (blockdevice.uuid_of bd)))
          end
      end
  end.

(** The part of addBlockDevice for a device whose UUID is known. *)
Definition addIdentified (st : PState) (bd : blockdevice.BlockDevice) (uuid : string)
    : prog (PState * option err) :=
  let bd := blockdevice.set_uuid uuid bd in
  let st := (addBlockDeviceToHierarchyCache st bd).1 in
  r <- GetBlockDevice c uuid ;;
  match r with
  | inl e =>
      if IsNotFound e then
        if decide (blockdevice.devtype bd = blockdevice.BlockDeviceTypePartition)
        then addNewPartition st bd
        else if decide (0 < length (blockdevice.Partitions (blockdevice.DependentDevices bd)))
        then Ret (st, None)
        else createBlockDeviceResourceIfNoHolders st bd
      else Ret (st, Some e)
  | inr bdAPI =>
      if decide (apis.bd_claimstate bdAPI <> apis.BlockDeviceUnclaimed)
      then createOrUpdateWithAnnotation st gptAnnotation bd (Fetched bdAPI)
      else createOrUpdateWithAnnotation st gptAnnotation bd
             (of_find (GetExistingBlockDeviceResource (bdAPIList st) (blockdevice.uuid_of bd)))
  end.

Definition addBlockDevice (st : PState) (bd : blockdevice.BlockDevice) : prog (PState * option err) :=
  '(st, r) <- handleUnmanagedDevices st bd ;;
  match r with
  | inl e => Ret (st, Some e)
  | inr false => Ret (st, None)
  | inr true =>
      match isParentDeviceInUse st bd with
      | inl e => Ret (st, Some e)
      | inr true => Ret (st, None)
      | inr false =>
          '(st, r) <- upgradeBD st bd ;;
          match r with
          | inl e => Ret (st, Some e)
          | inr false => Ret (st, None)
          | inr true =>
              uuid <- generateUUID (Gates c) bd ;;
              match uuid with
              | None => e <- makeIdentifiable bd ;; Ret (st, e)
              | Some uuid => addIdentified st bd uuid
              end
          end
      end
  end.

(** ** Delete *)

(** The resources are tried in order; the first that exists is deactivated. *)
Definition deleteBlockDevice (st : PState) (bd : blockdevice.BlockDevice) : prog PState :=
  match removeBlockDeviceFromHierarchyCache st bd with
  | (st, false) => Ret st
  | (st, true) =>
      let items := bdAPIList st in
      let byLegacy :=
        '(legacyUUID, _) <- generateLegacyUUID bd ;;
        match GetExistingBlockDeviceResource items legacyUUID with
        | Some (_, b) => DeactivateBlockDevice b ;;; Ret st
        | None => Ret st
        end in
      let byPartition :=
        match existing_bd (getExistingBDWithPartitionUUID bd items) with
        | Some b =>
            if decide (blockdevice.devtype bd <> blockdevice.BlockDeviceTypePartition)
            then DeactivateBlockDevice b ;;; Ret st
            else byLegacy
        | None => byLegacy
        end in
      let byFs :=
        match existing_bd (getExistingBDWithFsUuid bd items) with
        | Some b => DeactivateBlockDevice b ;;; Ret st
        | None => byPartition
        end in
      let byTable :=
        match generateUUIDFromPartitionTable bd with
        | Some u =>
            match GetExistingBlockDeviceResource items u with
            | Some (_, b) => DeactivateBlockDevice b ;;; Ret st
            | None => byFs
            end
        | None => byFs
        end in
      uuid <- generateUUID (Gates c) bd ;;
      match uuid with
      | Some u =>
          match GetExistingBlockDeviceResource items u with
          | Some (_, b) => DeactivateBlockDevice b ;;; Ret st
          | None => byTable
          end
      | None => byTable
      end
  end.

(** ** Change *)

Definition haveEqualMountPoints (old new : blockdevice.BlockDevice) : bool :=
  let m := blockdevice.MountPoint (blockdevice.FSInfo old) in
  let m' := blockdevice.MountPoint (blockdevice.FSInfo new) in
  bool_decide (length m = length m') && forallb (Contains m) m'.

Definition unchanged (old new : blockdevice.BlockDevice) : bool :=
  bool_decide (blockdevice.Storage (blockdevice.Capacity old) = blockdevice.Storage (blockdevice.Capacity new)) &&
  bool_decide (blockdevice.FileSystem (blockdevice.FSInfo old) = blockdevice.FileSystem (blockdevice.FSInfo new)) &&
  haveEqualMountPoints old new.

Definition changeBlockDevice (st : PState) (bd : blockdevice.BlockDevice) (requestedProbes : list string)
    : prog (PState * option err) :=
  let bdCopy := bd in
  bd <- FillBlockDeviceDetails c bd requestedProbes ;;
  bd <- (if decide (blockdevice.uuid_of bd = "") then
           uuid <- generateUUID (Gates c) bd ;;
           Ret (option_map (fun u => blockdevice.set_uuid u bd) uuid)
         else Ret (Some bd)) ;;
  match bd with
  | None => Ret (st, Some (Err "could not identify device uniquely"))
  | Some bd =>
      if unchanged bdCopy bd then Ret (st, None)
      else
        let st := (addBlockDeviceToHierarchyCache st bd).1 in
        ok <- ApplyFilter c bd ;;
        if negb ok then Ret (st, None)
        else
          match ToDevice c (NewDeviceInfoFromBlockDevice bd) with
          | inl e => Ret (st, Some e)
          | inr apiBlockdevice =>
              e <- UpdateBlockDevice (set_namespace (cNamespace c) apiBlockdevice) None ;;
              Ret (st, e)
          end
  end.

(** ** Events *)

Definition isParentOrSlaveDevice (bd : blockdevice.BlockDevice) (erroredDevices : list string) : bool :=
  existsb (fun e =>
      bool_decide (blockdevice.Parent (blockdevice.DependentDevices bd) = e) ||
      Contains (blockdevice.Slaves (blockdevice.DependentDevices bd)) e)
    erroredDevices.

Record AddState := MkAdd { aState : PState; isNeedRescan : bool; erroredDevices : list string }.

Definition addOne (requestedProbes : list string) (s : AddState) (device : blockdevice.BlockDevice)
    : prog AddState :=
  device <- FillBlockDeviceDetails c device requestedProbes ;;
  let st := (addBlockDeviceToHierarchyCache (aState s) device).1 in
  let s := MkAdd st (isNeedRescan s) (erroredDevices s) in
  ok <- ApplyFilter c device ;;
  if negb ok then Ret s
  else if features.IsEnabled (Gates c) features.GPTBasedUUID then
    if isParentOrSlaveDevice device (erroredDevices s) then Ret s
    else
      '(st, e) <- addBlockDevice st device ;;
      match e with
      | None => Ret (MkAdd st (isNeedRescan s) (erroredDevices s))
      | Some ErrNeedRescan => Ret (MkAdd st true (erroredDevices s))
      | Some _ => Ret (MkAdd st true (erroredDevices s ++ [blockdevice.devpath device])%list)
      end
  else if decide (blockdevice.devtype device = blockdevice.BlockDeviceTypePartition) then Ret s
  else
    let deviceInfo := NewDeviceInfoFromBlockDevice device in
    match of_find (GetExistingBlockDeviceResource (bdAPIList st) (diUUID deviceInfo)) with
    | FromList i old =>
        let di := deviceInfo <| diNodeAttributes := NodeAttributes c |> in
        e <- PushBlockDeviceResource c (Some old) deviceInfo ;;
        let st := match ToDevice c di with
                  | inr new => st <| bdAPIList ::= fun l => <[i := mergedInPlace new old]> l |>
                  | inl _ => st
                  end in
        Ret (MkAdd st (isNeedRescan s || bool_decide (is_Some e)) (erroredDevices s))
    | _ =>
        e <- PushBlockDeviceResource c None deviceInfo ;;
        Ret (MkAdd st (isNeedRescan s || bool_decide (is_Some e)) (erroredDevices s))
    end.

Definition addBlockDeviceEvent (st : PState) (devices : list blockdevice.BlockDevice)
    (requestedProbes : list string) : prog PState :=
  '(items, e) <- ListBlockDeviceResource c true ;;
  match e with
  | Some _ => call GoRescan ;;; Ret st
  | None =>
      s <- for_each (addOne requestedProbes) (MkAdd (st <| bdAPIList := items |>) false []) devices ;;
      (if isNeedRescan s then call GoRescan else Ret tt) ;;;
      Ret (aState s)
  end.

Definition deleteOne (s : PState * bool) (device : blockdevice.BlockDevice) : prog (PState * bool) :=
  let '(st, isDeactivated) := s in
  if features.IsEnabled (Gates c) features.GPTBasedUUID then
    st <- deleteBlockDevice st device ;; Ret (st, isDeactivated)
  else if decide (blockdevice.devtype device = blockdevice.BlockDeviceTypePartition) then Ret s
  else
    match GetExistingBlockDeviceResource (bdAPIList st) (blockdevice.uuid_of device) with
    | None => Ret (st, false)
    | Some (_, b) => DeactivateBlockDevice b ;;; Ret s
    end.

Definition deleteBlockDeviceEvent (st : PState) (devices : list blockdevice.BlockDevice) : prog PState :=
  '(items, _) <- ListBlockDeviceResource c false ;;
  '(st, isDeactivated) <- for_each deleteOne (st <| bdAPIList := items |>, true) devices ;;
  (if negb isDeactivated && negb (features.IsEnabled (Gates c) features.GPTBasedUUID)
   then call GoRescan else Ret tt) ;;;
  Ret st.

(** Go iterates over the cache in an unspecified order and sees an entry that is
    written during the iteration; [order] is that order. *)
Definition changeBlockDeviceEvent (order : list string) (st : PState)
    (devices : list blockdevice.BlockDevice) (requestedProbes : list string) (allBlockDevices : bool)
    : prog PState :=
  let one st path :=
    match BDHierarchy st !! path with
    | Some bd => '(st, _) <- changeBlockDevice st bd requestedProbes ;; Ret st
    | None => Ret st
    end in
  if allBlockDevices then for_each one st order
  else for_each (fun st bd => one st (blockdevice.devpath bd)) st devices.
End Handlers.
