(* ===== verification/Udev.v ===== *)
(** * pkg/udev and the udev probe

    common.go of pkg/udev (what is read from a libudev device), and of
    cmd/ndm_daemonset/probe/udevprobe.go the scan of the system, the translation of
    udev events and the filling of a device. *)

From Stdlib Require Import ZArith Ascii Lia.
From stdpp Require Import base list strings gmap.
From S2P Require Import Prelude GoStrings Md5 Types Prog Util Features K8sLib Sysfs Controller Store Uuid Handlers.

Local Open Scope string_scope.
Local Open Scope prog_scope.

Module udev.

Definition UDEV_SUBSYSTEM := "block".
Definition UDEV_SYSTEM := "disk".
Definition UDEV_SOURCE := "udev".
Definition UDEV_PARTITION := "partition".
Definition UDEV_WWN := "ID_WWN".
Definition UDEV_SERIAL := "ID_SERIAL_SHORT".
Definition UDEV_SERIAL_FULL := "ID_SERIAL".
Definition UDEV_BUS := "ID_BUS".
Definition UDEV_MODEL := "ID_MODEL".
Definition UDEV_VENDOR := "ID_VENDOR".
Definition UDEV_TYPE := "ID_TYPE".
Definition UDEV_MAJOR := "MAJOR".
Definition UDEV_MINOR := "MINOR".
Definition UDEV_DEVTYPE := "DEVTYPE".
Definition UDEV_SYSPATH_PREFIX := "/sys/dev/block/".
Definition UDEV_DEVNAME := "DEVNAME".
Definition UDEV_DEVLINKS := "DEVLINKS".
Definition BY_ID_LINK := "by-id".
Definition BY_PATH_LINK := "by-path".
Definition LINK_ID_INDEX := 4.
Definition UDEV_FS_TYPE := "ID_FS_TYPE".
Definition UDEV_FS_UUID := "ID_FS_UUID".
Definition UDEV_PARTITION_TABLE_TYPE := "ID_PART_TABLE_TYPE".
Definition UDEV_PARTITION_TABLE_UUID := "ID_PART_TABLE_UUID".
Definition UDEV_PARTITION_NUMBER := "ID_PART_ENTRY_NUMBER".
Definition UDEV_PARTITION_UUID := "ID_PART_ENTRY_UUID".
Definition UDEV_PARTITION_TYPE := "ID_PART_ENTRY_TYPE".
Definition UDEV_DM_UUID := "DM_UUID".
Definition UDEV_DM_NAME := "DM_NAME".
Definition SYMLINK := "symlink".

(** *** The objects of libudev: udev.go, enumerate.go, device.go, monitor.go

    An object is the pointer to it; a NULL pointer is an error of the wrapper. *)
Definition newUdev (ptr : option Z) : res Z :=
  match ptr with
  | None => inl (Err "unable to create Udevice object for null struct struct_udev")
  | Some p => inr p
  end.
Definition NewUdev : prog (res Z) := u <- call UdevNew ;; Ret (newUdev u).
Definition NewUdevEnumerate (u : Z) : prog (res Z) :=
  e <- call (UdevEnumerateNew u) ;;
  Ret (match e with
       | None => inl (Err "unable to create Udevenumerate object for for null struct struct_udev_enumerate")
       | Some e => inr e
       end).
Definition newUdevDevice (ptr : option udevDevice) : res udevDevice :=
  match ptr with
  | None => inl (Err "unable to create Udevice object for null struct struct_udev_device")
  | Some d => inr d
  end.
Definition NewDeviceFromSysPath (u : Z) (sysPath : string) : prog (res udevDevice) :=
  d <- call (UdevFromSysPath u sysPath) ;; Ret (newUdevDevice d).
Definition newUdeviceMonitor (ptr : option Z) : res Z :=
  match ptr with
  | None => inl (Err "unable to create Udevenumerate object for for null struct struct_udev_monitor")
  | Some m => inr m
  end.
Definition NewDeviceFromNetlink (u : Z) (source : string) : prog (res Z) :=
  m <- call (UdevMonitorNew u source) ;; Ret (newUdeviceMonitor m).

(** A negative return value is an error *)
Definition AddSubsystemFilter (ue : Z) (subSystem : string) : prog (option err) :=
  ret <- call (UdevEnumerateFilter ue subSystem) ;;
  Ret (if (ret <? 0)%Z then Some (Err "unable to apply subsystem filter") else None).
Definition ScanDevices (ue : Z) : prog (option err) :=
  ret <- call (UdevEnumerateScan ue) ;;
  Ret (if (ret <? 0)%Z then Some (Err "unable to scan device list") else None).

Record UdevDiskDetails := MkDetails {
  udWWN : string; udModel : string; udSerial : string; udVendor : string; udPath : string;
  ByIdDevLinks : list string; ByPathDevLinks : list string; SymLinks : list string;
  DiskType : string; udIDType : string; udFileSystem : string; PartitionType : string;
  udPartitionNumber : Z; udPartitionTableType : string; DMPath : string
}.

Definition GetUid (device : udevDevice) : prog string :=
  let v := udProperty device in
  let uid := v UDEV_WWN +:+ v UDEV_MODEL +:+ v UDEV_SERIAL +:+ v UDEV_VENDOR in
  let idtype := v UDEV_TYPE in
  let model := v UDEV_MODEL in
  let localDiskModels := ["EphemeralDisk"; "Virtual_disk"; "QEMU_HARDDISK"] in
  uid <- (if bool_decide (String.length idtype = 0) || Contains localDiskModels model then
            host <- hostname ;; Ret (uid +:+ host +:+ v UDEV_DEVNAME)
          else Ret uid) ;;
  Ret ("blockdevice-" +:+ Hash uid).

Definition IsDisk (device : udevDevice) : bool := bool_decide (udDevtype device = UDEV_SYSTEM).
Definition IsParitition (device : udevDevice) : bool := bool_decide (udDevtype device = UDEV_PARTITION).

(** uint8 of the number, 0 if it is not one *)
Definition GetPartitionNumber (device : udevDevice) : Z :=
  match Atoi (udProperty device UDEV_PARTITION_NUMBER) with
  | None => 0
  | Some partNo => uwrap 8 partNo
  end.

Definition GetSyspath (device : udevDevice) : string :=
  UDEV_SYSPATH_PREFIX +:+ udProperty device UDEV_MAJOR +:+ ":" +:+ udProperty device UDEV_MINOR.
Definition GetPath (device : udevDevice) : string := udProperty device UDEV_DEVNAME.

(** by-id, by-path and all links *)
Definition devLinks := (list string * list string * list string)%type.
Definition addLink (device : udevDevice) (m : devLinks) (link : string) : prog devLinks :=
  let '(byIdLink, byPathLink, symLink) := m in
  let symLink := (symLink ++ [link])%list in
  let parts := Split link "/"%char in
  if Contains parts BY_ID_LINK then
    match parts !! LINK_ID_INDEX with
    | None => Panic "index out of range"
    | Some p =>
        if HasPrefix p (udProperty device UDEV_BUS) && HasSuffix p (udProperty device UDEV_SERIAL_FULL)
        then Ret (link :: byIdLink, byPathLink, symLink)
        else Ret ((byIdLink ++ [link])%list, byPathLink, symLink)
    end
  else if Contains parts BY_PATH_LINK then Ret (byIdLink, (byPathLink ++ [link])%list, symLink)
  else Ret (byIdLink, byPathLink, symLink).
Definition GetDevLinks (device : udevDevice) : prog devLinks :=
  for_each (addLink device) ([], [], []) (Split (udProperty device UDEV_DEVLINKS) " "%char).

Definition DiskInfoFromLibudev (device : udevDevice) : prog UdevDiskDetails :=
  '(byId, byPath, symlinks) <- GetDevLinks device ;;
  let v := udProperty device in
  let dmName := v UDEV_DM_NAME in
  Ret (MkDetails (v UDEV_WWN) (v UDEV_MODEL) (v UDEV_SERIAL) (v UDEV_VENDOR) (v UDEV_DEVNAME)
         byId byPath symlinks (udDevtype device) (v UDEV_TYPE) (v UDEV_FS_TYPE) (v UDEV_PARTITION_TYPE)
         (GetPartitionNumber device) (v UDEV_PARTITION_TABLE_TYPE)
         (if decide (String.length dmName <> 0) then "/dev/mapper/" +:+ dmName else "")).
End udev.

(** ** udevprobe.go *)

(** controller.EventMessage, and the types of udevevent *)
Record EventMessage := MkEventMessage {
  Action : string;
  Devices : list blockdevice.BlockDevice;
  RequestedProbes : list string;
  AllBlockDevices : bool
}.
Inductive UdevEventType := EventTypeAdd | EventTypeRemove | EventTypeChange.
#[global] Instance UdevEventType_eq_dec : EqDecision UdevEventType.
Proof. solve_decision. Defined.
Record UdevEvent := MkUdevEvent { evDevice : udevDevice; eventType : UdevEventType }.

Definition AttachEA := "add".
Definition DetachEA := "remove".
Definition ChangeEA := "change".

(** monitor.process: the event of a device the monitor received, if it is about a disk
    or a partition *)
Definition monitorEvent (device : udevDevice) (action : string) : option (res UdevEventType) :=
  if negb (udev.IsDisk device) && negb (udev.IsParitition device) then None
  else Some (if decide (action = AttachEA) then inr EventTypeAdd
             else if decide (action = DetachEA) then inr EventTypeRemove
             else if decide (action = ChangeEA) then inr EventTypeChange
             else inl (Err "unknown udev action")).

Module udevProbe.

(** The objects of libudev a probe holds *)
Record udevProbe := MkUdevProbe {
  upUdev : option Z; upDevice : option udevDevice; upEnumerate : option Z
}.

Definition nilDereference {A} : prog A := Panic "invalid memory address or nil pointer dereference".

(** nil when an object could not be made *)
Definition newUdevProbe : prog (option udevProbe) :=
  r <- udev.NewUdev ;;
  match r with
  | inl _ => Ret None
  | inr udev =>
      r <- udev.NewUdevEnumerate udev ;;
      Ret (match r with
           | inl _ => None
           | inr udevEnumerate => Some (MkUdevProbe (Some udev) None (Some udevEnumerate))
           end)
  end.
Definition newUdevProbeForFillDiskDetails (sysPath : string) : prog (res udevProbe) :=
  r <- udev.NewUdev ;;
  match r with
  | inl e => Ret (inl e)
  | inr udev =>
      r <- udev.NewDeviceFromSysPath udev sysPath ;;
      Ret (match r with
           | inl e => inl e
           | inr udevDevice => inr (MkUdevProbe (Some udev) (Some udevDevice) None)
           end)
  end.

Definition free (up : option udevProbe) : prog unit :=
  match up with
  | None => nilDereference
  | Some up =>
      match upUdev up with Some u => call (UdevUnref u) | None => Ret tt end ;;;
      match upDevice up with Some d => call (UdevDeviceUnref (udptr d)) | None => Ret tt end ;;;
      match upEnumerate up with Some e => call (UdevEnumerateUnref e) | None => Ret tt end
  end.

(** FillBlockDeviceDetails *)
Definition Fill (bd : blockdevice.BlockDevice) : prog blockdevice.BlockDevice :=
  r <- newUdevProbeForFillDiskDetails (blockdevice.syspath bd) ;;
  match r with
  | inl _ => Ret bd
  | inr probe =>
      device <- match upDevice probe with Some d => Ret d | None => nilDereference end ;;
      d <- udev.DiskInfoFromLibudev device ;;
      let link kind links := if decide (length links <> 0) then [blockdevice.MkDevLink kind links] else [] in
      let bd := bd <| blockdevice.Identifier ::= fun i => i <| blockdevice.DevPath := udev.udPath d |> |>
                   <| blockdevice.DeviceAttributes ::= fun a =>
                        a <| blockdevice.Model := udev.udModel d |> <| blockdevice.WWN := udev.udWWN d |>
                          <| blockdevice.Serial := udev.udSerial d |> <| blockdevice.Vendor := udev.udVendor d |>
                          <| blockdevice.IDType := udev.udIDType d |> |>
                   <| blockdevice.DMInfo ::= fun i => i <| blockdevice.DevMapperPath := udev.DMPath d |> |>
                   <| blockdevice.DevLinks ::= fun l =>
                        (l ++ link udev.BY_ID_LINK (udev.ByIdDevLinks d)
                           ++ link udev.BY_PATH_LINK (udev.ByPathDevLinks d)
                           ++ link udev.SYMLINK (udev.SymLinks d))%list |>
                   <| blockdevice.FSInfo ::= fun f => f <| blockdevice.FileSystem := udev.udFileSystem d |> |>
                   <| blockdevice.PartitionInfo ::= fun p =>
                        p <| blockdevice.PartitionTableType := udev.udPartitionTableType d |> |> in
      free (Some probe) ;;;
      Ret (if decide (udev.DiskType d = blockdevice.BlockDeviceTypePartition)
           then bd <| blockdevice.PartitionInfo ::= fun p =>
                        p <| blockdevice.PartitionNumber := udev.udPartitionNumber d |> |>
           else bd)
  end.

(** Dependents and type from sysfs, with the type of udev as the fallback; nothing is
    filled in without the sysfs device *)
Definition fillSysfs (udevDeviceType : string) (bd : blockdevice.BlockDevice) : prog blockdevice.BlockDevice :=
  r <- sysfs.NewSysFsDeviceFromDevPath (blockdevice.devpath bd) ;;
  match r with
  | inl _ => Ret bd
  | inr sysfsDevice =>
      dependents <- sysfs.GetDependents sysfsDevice ;;
      deviceType <- sysfs.GetDeviceType sysfsDevice udevDeviceType ;;
      Ret (bd <| blockdevice.DependentDevices := dependents |>
              <| blockdevice.DeviceAttributes ::= fun a =>
                   a <| blockdevice.DeviceType :=
                          match deviceType with inl _ => udevDeviceType | inr t => t end |> |>)
  end.

(** The fields of a device that are used to name it *)
Definition identify (device : udevDevice) (bd : blockdevice.BlockDevice) : blockdevice.BlockDevice :=
  let v := udProperty device in
  bd <| blockdevice.DeviceAttributes ::= fun a =>
          a <| blockdevice.WWN := v udev.UDEV_WWN |> <| blockdevice.Serial := v udev.UDEV_SERIAL |> |>
     <| blockdevice.PartitionInfo ::= fun p =>
          p <| blockdevice.PartitionTableUUID := v udev.UDEV_PARTITION_TABLE_UUID |>
            <| blockdevice.PartitionEntryUUID := v udev.UDEV_PARTITION_UUID |> |>
     <| blockdevice.FSInfo ::= fun f => f <| blockdevice.FileSystemUUID := v udev.UDEV_FS_UUID |> |>
     <| blockdevice.DMInfo ::= fun i => i <| blockdevice.DMUUID := v udev.UDEV_DM_UUID |> |>.

Definition processUdevEvent (udevProbeName sysfsProbeName : string) (event : UdevEvent) : prog EventMessage :=
  let '(MkUdevEvent device action) := event in
  uuid <- udev.GetUid device ;;
  let v := udProperty device in
  let bd := blockdevice.empty_BlockDevice
              <| blockdevice.Identifier ::= fun i => i <| blockdevice.DevPath := udev.GetPath device |> |> in
  if decide (action = EventTypeChange) then
    call (UdevDeviceUnref (udptr device)) ;;;
    Ret (MkEventMessage ChangeEA [bd] [udevProbeName; sysfsProbeName] false)
  else
    let bd := bd <| blockdevice.Identifier ::= fun i =>
                      i <| blockdevice.UUID := uuid |> <| blockdevice.SysPath := udev.GetSyspath device |> |>
                 <| blockdevice.DeviceAttributes ::= fun a =>
                      a <| blockdevice.DeviceType := v udev.UDEV_DEVTYPE |>
                        <| blockdevice.Model := v udev.UDEV_MODEL |>
                        <| blockdevice.Vendor := v udev.UDEV_VENDOR |>
                        <| blockdevice.IDType := v udev.UDEV_TYPE |> |> in
    let bd := identify device bd in
    bd <- (if decide (action = EventTypeRemove) then Ret bd else fillSysfs (v udev.UDEV_DEVTYPE) bd) ;;
    call (UdevDeviceUnref (udptr device)) ;;;
    Ret (MkEventMessage (if decide (action = EventTypeAdd) then AttachEA else DetachEA) [bd] [] false).

(** One entry of the scan: the device, and its legacy UID if those are in use *)
Definition scanOne (c : Controller) (u : Z) (s : list blockdevice.BlockDevice * list string) (syspath : string)
    : prog (list blockdevice.BlockDevice * list string) :=
  r <- udev.NewDeviceFromSysPath u syspath ;;
  match r with
  | inl _ => Ret s
  | inr device =>
      s <- (if udev.IsDisk device || udev.IsParitition device then
              let '(diskInfo, disksUid) := s in
              let bd := blockdevice.empty_BlockDevice in
              '(bd, disksUid) <-
                (if features.IsEnabled (Gates c) features.GPTBasedUUID then Ret (identify device bd, disksUid)
                 else
                   uuid <- udev.GetUid device ;;
                   Ret (bd <| blockdevice.Identifier ::= fun i => i <| blockdevice.UUID := uuid |> |>,
                        (disksUid ++ [uuid])%list)) ;;
              let bd := bd <| blockdevice.Identifier ::= fun i =>
                                i <| blockdevice.SysPath := udev.GetSyspath device |>
                                  <| blockdevice.DevPath := udev.GetPath device |> |> in
              bd <- fillSysfs (udProperty device udev.UDEV_DEVTYPE) bd ;;
              Ret ((diskInfo ++ [bd])%list, disksUid)
            else Ret s) ;;
      call (UdevDeviceUnref (udptr device)) ;;;
      Ret s
  end.

(** scan; [acquired] is the result of TryAcquire on the semaphore of the scans.  A nil probe
    is dereferenced. *)
Definition scan (c : Controller) (acquired : bool) (up : option udevProbe) (st : PState)
    : prog (PState * res EventMessage) :=
  if negb acquired then Ret (st, inl (Err "Scan is in progress"))
  else
    match up with
    | None => nilDereference
    | Some (MkUdevProbe (Some u) _ (Some enumerate)) =>
        e <- udev.AddSubsystemFilter enumerate udev.UDEV_SUBSYSTEM ;;
        match e with
        | Some e => Ret (st, inl e)
        | None =>
            e <- udev.ScanDevices enumerate ;;
            match e with
            | Some e => Ret (st, inl e)
            | None =>
                let st := st <| BDHierarchy := ∅ |> in
                entries <- call (UdevEnumerateList enumerate) ;;
                '(diskInfo, disksUid) <- for_each (scanOne c u) ([], []) entries ;;
                DeactivateStaleBlockDeviceResource c disksUid ;;;
                Ret (st, inr (MkEventMessage AttachEA diskInfo [] false))
            end
        end
    | Some _ => Ret (st, inl (Err "unable to scan udev and udev enumerate is nil"))
    end.

(** The scan of Start, and Rescan, which gives the objects of its probe back *)
Definition startScan (c : Controller) (acquired : bool) (st : PState) : prog (PState * res EventMessage) :=
  probeEvent <- newUdevProbe ;; scan c acquired probeEvent st.
Definition Rescan (c : Controller) (acquired : bool) (st : PState) : prog (PState * res EventMessage) :=
  probe <- newUdevProbe ;;
  r <- scan c acquired probe st ;;
  free probe ;;;
  Ret r.

(** listen: one message of the channel *)
Definition listen `{K8sLib} (c : Controller) (order : list string) (st : PState) (msg : EventMessage) : prog PState :=
  if decide (Action msg = AttachEA) then addBlockDeviceEvent c st (Devices msg) (RequestedProbes msg)
  else if decide (Action msg = DetachEA) then deleteBlockDeviceEvent c st (Devices msg)
  else if decide (Action msg = ChangeEA)
  then changeBlockDeviceEvent c order st (Devices msg) (RequestedProbes msg) (AllBlockDevices msg)
  else Ret st.
End udevProbe.

(** ** Names of devices before and after an upgrade *)

(** udev's own identifier is the one the handlers compute from a filled device. *)
Lemma GetUid_legacy device bd :
  blockdevice.WWN (blockdevice.DeviceAttributes bd) = udProperty device udev.UDEV_WWN ->
  blockdevice.Model (blockdevice.DeviceAttributes bd) = udProperty device udev.UDEV_MODEL ->
  blockdevice.Serial (blockdevice.DeviceAttributes bd) = udProperty device udev.UDEV_SERIAL ->
  blockdevice.Vendor (blockdevice.DeviceAttributes bd) = udProperty device udev.UDEV_VENDOR ->
  blockdevice.IDType (blockdevice.DeviceAttributes bd) = udProperty device udev.UDEV_TYPE ->
  blockdevice.devpath bd = udProperty device udev.UDEV_DEVNAME ->
  udev.GetUid device = bind (generateLegacyUUID bd) (fun r => Ret r.1).
Proof.
  intros Hw Hm Hs Hv Hi Hp. unfold udev.GetUid, generateLegacyUUID, uuidUsesPath.
  rewrite Hw, Hm, Hs, Hv, Hi, Hp.
  change ["EphemeralDisk"; "Virtual_disk"; "QEMU_HARDDISK"] with localDiskModels.
  by destruct (_ || _).
Qed.

(** The device an event carries has the attributes of udev. *)
Definition carries (device : udevDevice) (bd : blockdevice.BlockDevice) : Prop :=
  let v := udProperty device in
  let a := blockdevice.DeviceAttributes bd in
  blockdevice.WWN a = v udev.UDEV_WWN /\ blockdevice.Model a = v udev.UDEV_MODEL /\
  blockdevice.Serial a = v udev.UDEV_SERIAL /\ blockdevice.Vendor a = v udev.UDEV_VENDOR /\
  blockdevice.IDType a = v udev.UDEV_TYPE /\ blockdevice.devpath bd = v udev.UDEV_DEVNAME.

Lemma fillSysfs_carries device t bd :
  carries device bd ->
  returns (udevProbe.fillSysfs t bd) (fun b => carries device b /\ blockdevice.uuid_of b = blockdevice.uuid_of bd).
Proof. intros H. unfold udevProbe.fillSysfs. by repeat returns_step. Qed.

Lemma GetUid_exec {W} (o : oracle W) h device :
  (forall w, o _ Hostname w = (w, h)) ->
  exists u, (forall w, exec o (udev.GetUid device) w = (w, Returned u)) /\
    forall bd, carries device bd -> exists b, forall w, exec o (generateLegacyUUID bd) w = (w, Returned (u, b)).
Proof.
  intros Hh.
  assert (Hl : forall bd, exists u b, forall w, exec o (generateLegacyUUID bd) w = (w, Returned (u, b))).
  { intros bd. unfold generateLegacyUUID. destruct (uuidUsesPath bd); [|by eexists _, _].
    eexists _, _. intros w. unfold hostname. cbn. rewrite Hh. reflexivity. }
  set (v := udProperty device).
  set (bd0 := blockdevice.empty_BlockDevice
    <| blockdevice.Identifier ::= fun i => i <| blockdevice.DevPath := v udev.UDEV_DEVNAME |> |>
    <| blockdevice.DeviceAttributes ::= fun a =>
         a <| blockdevice.WWN := v udev.UDEV_WWN |> <| blockdevice.Model := v udev.UDEV_MODEL |>
           <| blockdevice.Serial := v udev.UDEV_SERIAL |> <| blockdevice.Vendor := v udev.UDEV_VENDOR |>
           <| blockdevice.IDType := v udev.UDEV_TYPE |> |>).
  destruct (Hl bd0) as (u & b0 & Hu). exists u.
  assert (Hg : forall w, exec o (udev.GetUid device) w = (w, Returned u)).
  { intros w. rewrite (GetUid_legacy device bd0) by done. by rewrite exec_bind, Hu. }
  split; [done|]. intros bd (? & ? & ? & ? & ? & ?). destruct (Hl bd) as (u' & b & Hu').
  exists b. intros w. specialize (Hg w). rewrite (GetUid_legacy device bd), exec_bind, Hu' in Hg by done.
  injection Hg as ->. apply Hu'.
Qed.

(** A host that has a name and nothing else, and a virtual disk *)
Definition deaf_host : oracle unit := fun X e w =>
  match e in callE X return unit * X with
  | Hostname => (w, inr "node1")
  | e => (w, deaf _ e)
  end.
Definition demo_device : udevDevice :=
  MkUdevDevice 1 (fun k =>
    if decide (k = udev.UDEV_VENDOR) then "virt" else if decide (k = udev.UDEV_MODEL) then "WD"
    else if decide (k = udev.UDEV_DEVNAME) then "/dev/sdb" else "") "disk".

(** C24. The legacy name of a device is the same everywhere: the UUID that an add or
    remove event carries from udev is the one the handlers generate (generateLegacyUUID)
    from the device in that event, whatever sysfs says meanwhile.  It needs the
    hostname not to change between the two. *)
Theorem processUdevEvent_legacy {W} (o : oracle W) h up sp device action w w' msg :
  (forall w, o _ Hostname w = (w, h)) -> action <> EventTypeChange ->
  exec o (udevProbe.processUdevEvent up sp (MkUdevEvent device action)) w = (w', Returned msg) ->
  exists bd, Devices msg = [bd] /\ carries device bd /\
    exists b, exec o (generateLegacyUUID bd) w' = (w', Returned (blockdevice.uuid_of bd, b)).
Proof.
  intros Hh Ha Hrun. destruct (GetUid_exec o h device Hh) as (u & Hu & Hleg).
  unfold udevProbe.processUdevEvent in Hrun. rewrite exec_bind, Hu in Hrun. cbv zeta in Hrun.
  rewrite decide_False in Hrun by done.
  apply exec_bind_inv in Hrun as (w1 & bd & Hbd & Hrun).
  apply exec_call_inv in Hrun as (w2 & [] & _ & [= -> <-]).
  exists bd. split; [done|].
  assert (Hc : carries device bd /\ blockdevice.uuid_of bd = u).
  { revert Hbd. case_decide; [by intros [= _ <-]|]. intros Hx.
    eapply returns_exec in Hx; [|by apply (fillSysfs_carries device)]. by destruct Hx. }
  destruct Hc as [Hc <-]. split; [done|]. destruct (Hleg bd Hc) as [b Hb]. by exists b.
Qed.

Lemma processUdevEvent_legacy_witness :
  exists bd b, exec deaf_host (generateLegacyUUID bd) tt = (tt, Returned (blockdevice.uuid_of bd, b)) /\
    blockdevice.devpath bd = "/dev/sdb".
Proof.
  destruct (exec deaf_host (udevProbe.processUdevEvent "udev probe" "sysfs probe" (MkUdevEvent demo_device EventTypeAdd)) tt)
    as [[] [msg|m]] eqn:Hrun.
  - destruct (processUdevEvent_legacy deaf_host (inr "node1") "udev probe" "sysfs probe" demo_device EventTypeAdd
                tt tt msg) as (bd & _ & Hc & b & Hb); [done|done|done|].
    exists bd, b. split; [exact Hb|]. apply Hc.
  - assert (Hp : match snd (exec deaf_host (udevProbe.processUdevEvent "udev probe" "sysfs probe"
                   (MkUdevEvent demo_device EventTypeAdd)) tt) with Returned _ => true | Panicked _ => false end = true) by (vm_compute; reflexivity).
    by rewrite Hrun in Hp.
Defined.
