(* ===== verification/Probes.v ===== *)
(** * cmd/ndm_daemonset/probe: the probes

    What each probe fills into a device, their registration with the controller, and
    the order in which they run. *)

From Stdlib Require Import ZArith Ascii Lia.
From stdpp Require Import base list strings gmap.
From S2P Require Import Prelude GoStrings Regex Types Prog Util Features Controller Mount Sysfs Smart Partition Udev.

Local Open Scope string_scope.
Local Open Scope prog_scope.

(** ** pkg/spdk *)

Definition spdkSignature := "SPDKBLOB".
(** At most the first eight bytes are compared. *)
Definition IsSPDKSignatureExist (signature : string) : bool :=
  let signature := if decide (8 < String.length signature) then String.substring 0 8 signature else signature in
  bool_decide (signature = spdkSignature).

(** sizeof struct spdk_bs_super_block, whose members are padded to their alignment *)
Definition sizeof_super_block : N := 4104.

(** C.GoString: the bytes before the first NUL, which need not be in the buffer *)
Fixpoint before_nul (s : string) : string * bool :=
  match s with
  | EmptyString => ("", false)
  | String c s => if decide (c = zero) then ("", true) else let '(t, b) := before_nul s in (String c t, b)
  end.
Definition goString (buf : string) : prog string :=
  let '(s, terminated) := before_nul buf in
  if terminated : bool then Ret s else beyond <- call CHeap ;; Ret (s +:+ beyond).

(** The signature is at the start of the block; the file is closed on return. *)
Definition GetSPDKSuperBlockSignature (devPath : string) : prog (res string) :=
  f <- call (OpenFile devPath) ;;
  match f with
  | inl e => Ret (inl e)
  | inr f =>
      r <- (e <- call (SeekStart f) ;;
            match e with
            | inl e => Ret (inl e)
            | inr _ =>
                buf <- call (ReadFull f sizeof_super_block) ;;
                match buf with
                | inl e => Ret (inl (Err ("error reading from " +:+ devPath)))
                | inr buf => s <- goString buf ;; Ret (inr s)
                end
            end) ;;
      call (CloseFd f) ;;;
      Ret r
  end.

(** A write to a map that has not been made panics. *)
Definition set_label (k v : string) (bd : blockdevice.BlockDevice) : prog blockdevice.BlockDevice :=
  match blockdevice.Labels bd with
  | None => Panic "assignment to entry in nil map"
  | Some m => Ret (bd <| blockdevice.Labels := Some (<[k := v]> m) |>)
  end.

(** ** sysfsprobe.go *)
Module sysfsProbe.

(** [f] on the attributes, unless the field is already there *)
Definition fill_size (get : blockdevice.DeviceAttribute -> Z) (read : prog (res Z))
    (set : Z -> blockdevice.DeviceAttribute -> blockdevice.DeviceAttribute) (bd : blockdevice.BlockDevice)
    : prog blockdevice.BlockDevice :=
  if decide (get (blockdevice.DeviceAttributes bd) = 0%Z) then
    r <- read ;;
    Ret (bd <| blockdevice.DeviceAttributes ::= set (uwrap 32 (sysfs.or_zero r)) |>)
  else Ret bd.

Definition fillSizes (dev : sysfs.Device) (bd : blockdevice.BlockDevice) : prog blockdevice.BlockDevice :=
  bd <- fill_size blockdevice.LogicalBlockSize (sysfs.GetLogicalBlockSize dev)
          (fun z a => a <| blockdevice.LogicalBlockSize := z |>) bd ;;
  bd <- fill_size blockdevice.PhysicalBlockSize (sysfs.GetPhysicalBlockSize dev)
          (fun z a => a <| blockdevice.PhysicalBlockSize := z |>) bd ;;
  bd <- fill_size blockdevice.HardwareSectorSize (sysfs.GetHardwareSectorSize dev)
          (fun z a => a <| blockdevice.HardwareSectorSize := z |>) bd ;;
  let driveType := blockdevice.DriveType (blockdevice.DeviceAttributes bd) in
  if decide (driveType = "" \/ driveType = blockdevice.DriveTypeUnknown) then
    r <- sysfs.GetDriveType dev ;;
    Ret (bd <| blockdevice.DeviceAttributes ::= fun a => a <| blockdevice.DriveType := fst r |> |>)
  else Ret bd.

Definition Fill (bd : blockdevice.BlockDevice) : prog blockdevice.BlockDevice :=
  r <- sysfs.NewSysFsDeviceFromDevPath (blockdevice.devpath bd) ;;
  match r with
  | inl _ => Ret bd
  | inr sysFsDevice =>
      capacity <- sysfs.GetCapacityInBytes sysFsDevice ;;
      let bd := bd <| blockdevice.Capacity ::= fun c =>
                        c <| blockdevice.Storage := uwrap 64 (sysfs.or_zero capacity) |> |> in
      if decide (blockdevice.devtype bd = blockdevice.BlockDeviceTypePartition) then
        let parentDev := blockdevice.Parent (blockdevice.DependentDevices bd) in
        if decide (parentDev = "") then Ret bd
        else
          r <- sysfs.NewSysFsDeviceFromDevPath parentDev ;;
          match r with
          | inl _ => Ret bd
          | inr parentSysFsDevice => fillSizes parentSysFsDevice bd
          end
      else fillSizes sysFsDevice bd
  end.
End sysfsProbe.

(** ** mountprobe.go *)
Module mountProbe.
Definition HostMountsFilePath := "/host/proc/1/mounts".

Definition Fill (bd : blockdevice.BlockDevice) : prog blockdevice.BlockDevice :=
  if decide (blockdevice.devpath bd = "") then Ret bd
  else
    '(basicMountInfo, e) <- mount.DeviceBasicMountInfo (blockdevice.devpath bd) HostMountsFilePath ;;
    match e with
    | Some e =>
        Ret (if decide (e = mount.ErrAttributesNotFound)
             then bd <| blockdevice.FSInfo ::= fun f => f <| blockdevice.MountPoint := [] |> |> else bd)
    | None =>
        Ret (bd <| blockdevice.FSInfo ::= fun f =>
                     let f := f <| blockdevice.MountPoint := mount.maMountPoint basicMountInfo |> in
                     if decide (blockdevice.FileSystem f = "")
                     then f <| blockdevice.FileSystem := mount.maFileSystem basicMountInfo |> else f |>)
    end.
End mountProbe.

(** ** blkidprobe.go *)
Module blkidProbe.
Definition fill_empty (s : string) (read : prog string) : prog string :=
  if decide (String.length s = 0) then read else Ret s.

Definition Fill (bd : blockdevice.BlockDevice) : prog blockdevice.BlockDevice :=
  let di := blockdevice.devpath bd in
  fs <- fill_empty (blockdevice.FileSystem (blockdevice.FSInfo bd)) (blkid.GetOnDiskFileSystem di) ;;
  let bd := bd <| blockdevice.FSInfo ::= fun f => f <| blockdevice.FileSystem := fs |> |> in
  ptuuid <- fill_empty (blockdevice.PartitionTableUUID (blockdevice.PartitionInfo bd)) (blkid.GetPartitionTableUUID di) ;;
  let bd := bd <| blockdevice.PartitionInfo ::= fun p => p <| blockdevice.PartitionTableUUID := ptuuid |> |> in
  partuuid <- fill_empty (blockdevice.PartitionEntryUUID (blockdevice.PartitionInfo bd)) (blkid.GetPartitionEntryUUID di) ;;
  Ret (bd <| blockdevice.PartitionInfo ::= fun p => p <| blockdevice.PartitionEntryUUID := partuuid |> |>).
End blkidProbe.

(** ** usedbyprobe.go *)
Module usedbyProbe.
Definition k8sLocalVolumePath1 := "kubernetes.io/local-volume".
Definition k8sLocalVolumePath2 := "kubernetes.io~local-volume".
Definition zfsFileSystemLabel := "zfs_member".
Definition NDMZpoolName := "ndm.io/zpool-name".
Definition EBUSY : err := Err "device or resource busy".

Definition isLocalVolume (mountPoint : string) : bool :=
  StrContains mountPoint k8sLocalVolumePath1 || StrContains mountPoint k8sLocalVolumePath2.

Definition getBlockDeviceZFSPartition (bd : blockdevice.BlockDevice) : prog (option string) :=
  match blockdevice.Partitions (blockdevice.DependentDevices bd) with
  | [p0; p1] =>
      match IsMatchRegex ".+[0-9]+$" (blockdevice.devpath bd) with
      | None => Panic "regexp: Compile"
      | Some numbered =>
          let p := if numbered : bool then "p" else "" in
          let dataPartition := blockdevice.devpath bd +:+ p +:+ "1" in
          let metaPartition := blockdevice.devpath bd +:+ p +:+ "9" in
          Ret (if decide (p0 = dataPartition /\ p1 = metaPartition) then Some dataPartition else None)
      end
  | _ => Ret None
  end.

(** The error is only logged. *)
Definition isBlockDeviceInUseByKernel (path : string) : prog bool :=
  r <- call (OpenExcl (Clean path)) ;;
  Ret (match r with inl e => bool_decide (e = EBUSY) | inr _ => false end).

Definition use (by_ : string) (bd : blockdevice.BlockDevice) : blockdevice.BlockDevice :=
  bd <| blockdevice.DevUse := blockdevice.MkDeviceUsage true by_ |>.

(** The zfs part: [None] if there is no zfs on [devPath] *)
Definition fillZFS (devPath : string) (bd : blockdevice.BlockDevice) : prog (option blockdevice.BlockDevice) :=
  fstype <- blkid.GetOnDiskFileSystem devPath ;;
  zpool <- blkid.GetOnDiskLabel devPath ;;
  if decide (fstype = zfsFileSystemLabel) then
    let bd := bd <| blockdevice.DevUse ::= fun u => u <| blockdevice.InUse := true |> |>
                 <| blockdevice.FSInfo ::= fun f => f <| blockdevice.FileSystem := zfsFileSystemLabel |> |> in
    bd <- set_label NDMZpoolName zpool bd ;;
    ok <- isBlockDeviceInUseByKernel (blockdevice.devpath bd) ;;
    Ret (Some (bd <| blockdevice.DevUse ::= fun u =>
                       u <| blockdevice.UsedBy :=
                              if ok : bool then blockdevice.ZFSLocalPV else blockdevice.CStor |> |>))
  else Ret None.

Definition fillSPDK (bd : blockdevice.BlockDevice) : prog blockdevice.BlockDevice :=
  signature <- GetSPDKSuperBlockSignature (blockdevice.devpath bd) ;;
  let signature := match signature with inl _ => "" | inr s => s end in
  Ret (if IsSPDKSignatureExist signature then use blockdevice.Mayastor bd else bd).

Definition Fill (bd : blockdevice.BlockDevice) : prog blockdevice.BlockDevice :=
  if decide (blockdevice.devpath bd = "") then Ret bd
  else if existsb isLocalVolume (blockdevice.MountPoint (blockdevice.FSInfo bd))
  then Ret (use blockdevice.LocalPV bd)
  else
    lookup <- (if decide (blockdevice.devtype bd <> udev.UDEV_PARTITION) then getBlockDeviceZFSPartition bd
               else Ret (Some (blockdevice.devpath bd))) ;;
    r <- match lookup with Some devPath => fillZFS devPath bd | None => Ret None end ;;
    match r with
    | Some bd => Ret bd
    | None => fillSPDK bd
    end.
End usedbyProbe.

(** ** smartprobe.go *)
Module smartProbe.
Definition Fill (bd : blockdevice.BlockDevice) : prog blockdevice.BlockDevice :=
  if decide (blockdevice.devpath bd = "") then Ret bd
  else
    '(info, _) <- smart.SCSIBasicDiskInfo (blockdevice.devpath bd) ;;
    let keep old new := if decide (old = 0 /\ new <> 0)%Z then new else old in
    Ret (bd <| blockdevice.DeviceAttributes ::= fun a =>
                 a <| blockdevice.Compliance := smart.daCompliance info |>
                   <| blockdevice.FirmwareRevision := smart.daFirmwareRevision info |>
                   <| blockdevice.LogicalBlockSize ::= fun z => keep z (smart.daLBSize info) |>
                   <| blockdevice.PhysicalBlockSize ::= fun z => keep z (smart.daPBSize info) |> |>
            <| blockdevice.Capacity ::= fun c =>
                 c <| blockdevice.Storage ::= fun z => keep z (smart.daCapacity info) |> |>).
End smartProbe.

(** ** seachestprobe.go *)
Module seachestProbe.
Definition Fill (bd : blockdevice.BlockDevice) : prog blockdevice.BlockDevice :=
  if decide (blockdevice.devpath bd = "") then Ret bd
  else
    r <- seachest.SeachestBasicDiskInfo (blockdevice.devpath bd) ;;
    match r with
    | inl _ => Ret bd
    | inr d =>
        let nz new old := if decide (old = 0)%Z then new else old in
        let temp (valid : bool) new old : Z := if valid then new else old in
        Ret (bd <| blockdevice.DeviceAttributes ::= fun a =>
                     a <| blockdevice.FirmwareRevision ::= fun s => if decide (s = "") then seachest.GetFirmwareRevision d else s |>
                       <| blockdevice.LogicalBlockSize ::= nz (seachest.GetLogicalSectorSize d) |>
                       <| blockdevice.PhysicalBlockSize ::= nz (seachest.GetPhysicalSectorSize d) |>
                       <| blockdevice.DriveType ::= fun s =>
                            if decide (s = "" \/ s = blockdevice.DriveTypeUnknown) then seachest.DriveType d else s |> |>
                <| blockdevice.SMARTInfo ::= fun i =>
                     i <| blockdevice.RotationRate ::= nz (seachest.GetRotationRate d) |>
                       <| blockdevice.TotalBytesRead ::= nz (seachest.GetTotalBytesRead d) |>
                       <| blockdevice.TotalBytesWritten ::= nz (seachest.GetTotalBytesWritten d) |>
                       <| blockdevice.UtilizationRate ::= nz (seachest.GetDeviceUtilizationRate d) |>
                       <| blockdevice.PercentEnduranceUsed ::= nz (seachest.GetPercentEnduranceUsed d) |>
                       <| blockdevice.TemperatureInfo ::= fun t =>
                            t <| blockdevice.CurrentTemperatureDataValid := seachest.GetTemperatureDataValidStatus d |>
                              <| blockdevice.CurrentTemperature ::= temp (seachest.GetTemperatureDataValidStatus d) (seachest.GetCurrentTemperature d) |>
                              <| blockdevice.HighestTemperatureDataValid := seachest.GetHighestValid d |>
                              <| blockdevice.HighestTemperature ::= temp (seachest.GetHighestValid d) (seachest.GetHighestTemperature d) |>
                              <| blockdevice.LowestTemperatureDataValid := seachest.GetLowestValid d |>
                              <| blockdevice.LowestTemperature ::= temp (seachest.GetLowestValid d) (seachest.GetLowestTemperature d) |> |> |>)
    end.
End seachestProbe.

(** ** customtagprobe.go *)
Module customTagProbe.
Definition tagTypePath := "path".
Definition labelValidatorRegex := "(([A-Za-z0-9][-A-Za-z0-9_.]*)?[A-Za-z0-9])?".

Record tag := MkTag { tagType : string; regex : string; label : string }.

(** The tags of the configuration: the checks of the type and of the label only log. *)
Definition newTags (cfg : option NodeDiskManagerConfig) : prog (list tag) :=
  match cfg with
  | None => Ret []
  | Some cfg =>
      for_each (fun tags tc =>
        match IsMatchRegex labelValidatorRegex (tcTagName tc) with
        | None => Panic "regexp: Compile"
        | Some _ => Ret (tags ++ [MkTag (tcType tc) (tcPattern tc) (tcTagName tc)])%list
        end) [] (TagConfigs cfg)
  end.

Definition fillTag (bd : blockdevice.BlockDevice) (t : tag) : prog blockdevice.BlockDevice :=
  let fieldToMatch := if decide (tagType t = tagTypePath) then blockdevice.devpath bd else "" in
  match IsMatchRegex (regex t) fieldToMatch with
  | None => Panic "regexp: Compile"
  | Some true => set_label BlockDeviceTagLabel (label t) bd
  | Some false => Ret bd
  end.
Definition Fill (tags : list tag) (bd : blockdevice.BlockDevice) : prog blockdevice.BlockDevice :=
  for_each fillTag bd tags.
End customTagProbe.

(** ** probe.go: registration *)
Module probe.

(** Name and state of a probe: the first entry of the configuration with its key *)
Definition configured (cfg : option NodeDiskManagerConfig) (key name : string) : string * bool :=
  match cfg with
  | None => (name, true)
  | Some cfg =>
      match find (fun pc => bool_decide (pcKey pc = key)) (ProbeConfigs cfg) with
      | Some pc => (pcName pc, CheckTruthy (pcState pc))
      | None => (name, true)
      end
  end.

Definition register (priority : Z) (name_state : string * bool)
    (fill : blockdevice.BlockDevice -> prog blockdevice.BlockDevice) (ctrl : Controller) : Controller :=
  AddNewProbe ctrl (MkProbe priority (fst name_state) (snd name_state) fill).

Definition seachestProbeRegister (ctrl : Controller) : Controller :=
  register 6 (configured (NDMConfig ctrl) "seachest-probe" "seachest probe") seachestProbe.Fill ctrl.
Definition smartProbeRegister (ctrl : Controller) : Controller :=
  register 3 (configured (NDMConfig ctrl) "smart-probe" "smart probe") smartProbe.Fill ctrl.
Definition mountProbeRegister (ctrl : Controller) : Controller :=
  register 4 (configured (NDMConfig ctrl) "mount-probe" "mount probe") mountProbe.Fill ctrl.
Definition udevProbeRegister (ctrl : Controller) : Controller :=
  register 1 (configured (NDMConfig ctrl) "udev-probe" "udev probe") udevProbe.Fill ctrl.
Definition sysfsProbeRegister (ctrl : Controller) : Controller :=
  register 2 (configured (NDMConfig ctrl) "sysfs-probe" "sysfs probe") sysfsProbe.Fill ctrl.
Definition usedbyProbeRegister (ctrl : Controller) : Controller :=
  register 5 (configured (NDMConfig ctrl) "used-by-probe" "used-by probe") usedbyProbe.Fill ctrl.
Definition customTagProbeRegister (ctrl : Controller) : prog Controller :=
  tags <- customTagProbe.newTags (NDMConfig ctrl) ;;
  Ret (register 7 ("Custom Tag Probe", true) (customTagProbe.Fill tags) ctrl).
Definition blkidProbeRegister (ctrl : Controller) : Controller :=
  register 4 ("blkid probe", true) blkidProbe.Fill ctrl.

(** Start, in the order of RegisteredProbes *)
Definition Start (ctrl : Controller) : prog Controller :=
  let ctrl := usedbyProbeRegister (sysfsProbeRegister (udevProbeRegister (mountProbeRegister
                (smartProbeRegister (seachestProbeRegister ctrl))))) in
  ctrl <- customTagProbeRegister ctrl ;;
  Ret (blkidProbeRegister ctrl).
End probe.

(** ** The order of the probes *)

(** The probes run in a fixed order.  Whatever the configuration names and enables,
    registration leaves them sorted: udev first, then sysfs, SMART, the mount table,
    blkid (which is registered last but shares the priority of the mount probe), the
    used-by probe after both of those, SeaChest and the tags. *)
Theorem Start_order ctrl :
  Probes ctrl = [] ->
  returns (probe.Start ctrl) (fun c => exists tags,
    map Fill (Probes c) =
      [udevProbe.Fill; sysfsProbe.Fill; smartProbe.Fill; mountProbe.Fill; blkidProbe.Fill;
       usedbyProbe.Fill; seachestProbe.Fill; customTagProbe.Fill tags]).
Proof.
  intros Hc. unfold probe.Start, probe.customTagProbeRegister.
  eapply returns_bind; [|intros c Hr; exact Hr].
  eapply returns_bind; [apply returns_any|]. intros tags _. cbn [returns]. exists tags.
  destruct ctrl as [ns cfg fs ps na gs]. cbn in Hc. subst ps. reflexivity.
Qed.

(** ** Tags *)

(** The pattern is an option that is not anchored: it matches the empty text. *)
Lemma labelValidator_accepts s : IsMatchRegex customTagProbe.labelValidatorRegex s = Some true.
Proof.
  assert (Ho : match MustCompile customTagProbe.labelValidatorRegex with Some (Cat (Alt _ Eps) Eps) => true | _ => false end = true)
    by (vm_compute; reflexivity).
  unfold IsMatchRegex. destruct (MustCompile customTagProbe.labelValidatorRegex) as [[| | | | | |[| | | | | | |a []|] []| |]|]; try done.
  cbn [mbind option_bind]. f_equal. apply search_spec. exists "", s, true, s.
  split; [done|]. eapply m_cat; [apply m_alt_r|]; apply m_eps.
Qed.

Definition tag_of (tc : TagConfig) : customTagProbe.tag :=
  customTagProbe.MkTag (tcType tc) (tcPattern tc) (tcTagName tc).

(** The custom tag probe keeps every tag of the configuration, in order: the check
    of the label never rejects one, since the pattern is not anchored, and a type that
    is not supported is only logged.  Such a tag is then matched against the empty
    string. *)
Theorem newTags_keeps cfg :
  customTagProbe.newTags (Some cfg) = Ret (map tag_of (TagConfigs cfg)) /\
  forall bd t, customTagProbe.tagType t <> "path" -> IsMatchRegex (customTagProbe.regex t) "" = Some true ->
    customTagProbe.fillTag bd t = set_label BlockDeviceTagLabel (customTagProbe.label t) bd.
Proof.
  split.
  - unfold customTagProbe.newTags.
    assert (Hl : forall l acc, for_each (fun tags tc =>
        match IsMatchRegex customTagProbe.labelValidatorRegex (tcTagName tc) with
        | None => Panic "regexp: Compile"
        | Some _ => Ret (tags ++ [customTagProbe.MkTag (tcType tc) (tcPattern tc) (tcTagName tc)])%list
        end) acc l = Ret (acc ++ map tag_of l)%list).
    { induction l as [|tc l IH]; intros acc; cbn [for_each map]; [by rewrite app_nil_r|].
      rewrite labelValidator_accepts. cbn [bind]. rewrite IH, <-app_assoc. done. }
    by rewrite Hl.
  - intros bd t Ht Hm. unfold customTagProbe.fillTag. by rewrite decide_False, Hm.
Qed.

(** ** What the probes report of a host

    A host whose files, links, disk tags and open devices are given. *)
Record host := MkHost {
  hFile : string -> res string;
  hLink : string -> res string;
  hTag : string -> string -> string;
  hOpenExcl : string -> res unit;
  hOpen : string -> res Z;
  hSeek : Z -> res Z;
  hRead : Z -> N -> res string;
  hHeap : string
}.
Definition on_host (h : host) : oracle unit := fun X e w =>
  match e in callE X return unit * X with
  | ReadFile p => (w, hFile h p)
  | EvalSymlinks p => (w, hLink h p)
  | BlkidTag dev tag => (w, hTag h dev tag)
  | OpenExcl p => (w, hOpenExcl h p)
  | OpenFile p => (w, hOpen h p)
  | SeekStart fd => (w, hSeek h fd)
  | ReadFull fd n => (w, hRead h fd n)
  | CHeap => (w, hHeap h)
  | e => (w, deaf _ e)
  end.

Lemma substring_drop n s : String.substring 0 n s +:+ drop_bytes n s = s.
Proof.
  revert s. induction n as [|n IH]; intros [|c s]; try done. cbn [String.substring drop_bytes].
  by rewrite string_app_cons, IH.
Qed.

(** A prefix without a NUL can be looked for in the C string or in the buffer: what is
    behind a long enough buffer does not matter. *)
Lemma HasPrefix_c_string buf beyond p :
  (forall t1 t2, p <> t1 +:+ String zero t2) -> String.length p <= String.length buf ->
  HasPrefix (let '(s, b) := before_nul buf in if b : bool then s else s +:+ beyond) p = HasPrefix buf p.
Proof.
  revert buf. induction p as [|c p IH]; intros buf Hp Hlen; [done|].
  destruct buf as [|d buf]; [cbn in Hlen; lia|]. cbn [before_nul].
  assert (Hc : c <> zero) by (intros ->; by apply (Hp "" p)).
  destruct (decide (d = zero)) as [->|Hd].
  - cbn. by rewrite decide_False by done.
  - specialize (IH buf). destruct (before_nul buf) as [t []]; rewrite ?string_app_cons; cbn [HasPrefix];
      (destruct (decide (c = d)); [|done]); (apply IH; [|cbn in Hlen; lia]);
      intros t1 t2 ->; by apply (Hp (String c t1) t2).
Qed.

Section UsedBy.
Context (h : host).
(** io.ReadFull returns all the bytes it was asked for. *)
Hypothesis ReadFull_length : forall fd n s, hRead h fd n = inr s -> String.length s = N.to_nat n.

(** The device zfs would be on: the partition itself, or the first of the two
    partitions zfs creates on a whole disk, numbered 1 and 9. *)
Definition zfs_device (bd : blockdevice.BlockDevice) (dev : string) : Prop :=
  let p := blockdevice.devpath bd in
  if decide (blockdevice.devtype bd = "partition") then dev = p
  else
    exists sep, (ends_in_digit p /\ sep = "p" \/ ~ ends_in_digit p /\ sep = "") /\
      dev = p +:+ sep +:+ "1" /\
      blockdevice.Partitions (blockdevice.DependentDevices bd) = [dev; p +:+ sep +:+ "9"].

Definition on_zfs (bd : blockdevice.BlockDevice) : Prop :=
  exists dev, zfs_device bd dev /\ hTag h dev "TYPE" = "zfs_member".
Definition local_volume (bd : blockdevice.BlockDevice) : Prop :=
  exists m, m ∈ blockdevice.MountPoint (blockdevice.FSInfo bd) /\
    (StrContains m "kubernetes.io/local-volume" = true \/ StrContains m "kubernetes.io~local-volume" = true).
Definition spdk_blob (bd : blockdevice.BlockDevice) : Prop :=
  exists fd o block, hOpen h (blockdevice.devpath bd) = inr fd /\ hSeek h fd = inr o /\
    hRead h fd sizeof_super_block = inr block /\ HasPrefix block "SPDKBLOB" = true.

(** Who uses a device, by priority *)
Inductive usage (bd : blockdevice.BlockDevice) : blockdevice.DeviceUsage -> Prop :=
  | u_local : local_volume bd -> usage bd (blockdevice.MkDeviceUsage true blockdevice.LocalPV)
  | u_zfs : ~ local_volume bd -> on_zfs bd -> hOpenExcl h (Clean (blockdevice.devpath bd)) = inl usedbyProbe.EBUSY ->
      usage bd (blockdevice.MkDeviceUsage true blockdevice.ZFSLocalPV)
  | u_cstor : ~ local_volume bd -> on_zfs bd -> hOpenExcl h (Clean (blockdevice.devpath bd)) <> inl usedbyProbe.EBUSY ->
      usage bd (blockdevice.MkDeviceUsage true blockdevice.CStor)
  | u_spdk : ~ local_volume bd -> ~ on_zfs bd -> spdk_blob bd ->
      usage bd (blockdevice.MkDeviceUsage true blockdevice.Mayastor)
  | u_none : ~ local_volume bd -> ~ on_zfs bd -> ~ spdk_blob bd -> usage bd (blockdevice.DevUse bd).

Lemma IsSPDK_prefix s : IsSPDKSignatureExist s = HasPrefix s "SPDKBLOB".
Proof.
  unfold IsSPDKSignatureExist. change spdkSignature with "SPDKBLOB". cbv zeta.
  apply Bool.eq_iff_eq_true. rewrite bool_decide_eq_true, HasPrefix_iff. case_decide as Hl; split.
  - intros Hs. exists (drop_bytes 8 s). by rewrite <-Hs, substring_drop.
  - intros [t ->]. rewrite !string_app_cons, string_app_nil_l. by destruct t.
  - intros ->. by exists "".
  - intros [t ->]. destruct t; [done|]. rewrite !string_app_cons, string_app_nil_l in Hl. cbn in Hl. lia.
Qed.

Lemma zfs_lookup bd :
  no_byte newline (blockdevice.devpath bd) = true ->
  exists r,
    (if decide (blockdevice.devtype bd <> udev.UDEV_PARTITION) then usedbyProbe.getBlockDeviceZFSPartition bd
     else Ret (Some (blockdevice.devpath bd))) = Ret r /\ forall dev, r = Some dev <-> zfs_device bd dev.
Proof.
  intros Hn. unfold zfs_device, udev.UDEV_PARTITION. cbv zeta.
  destruct (decide (blockdevice.devtype bd = "partition")) as [Ht|Ht].
  { rewrite decide_False by (intros Hne; by apply Hne). eexists. split; [done|]. intros. naive_solver. }
  rewrite decide_True by done. unfold usedbyProbe.getBlockDeviceZFSPartition.
  destruct (IsMatchRegex_numbered _ Hn) as (num & -> & Hnum).
  destruct (blockdevice.Partitions _) as [|p0 [|p1 [|]]];
    try (exists None; split; [done|]; intros dev; split; [done|]; intros (? & _ & _ & ?); done).
  eexists. split; [reflexivity|]. intros dev. set (sep := if num then "p" else "").
  assert (Hsep : forall q, (ends_in_digit (blockdevice.devpath bd) /\ q = "p" \/
                            ~ ends_in_digit (blockdevice.devpath bd) /\ q = "") <-> q = sep).
  { intros q. unfold sep. rewrite <-Hnum. destruct num; naive_solver. }
  setoid_rewrite Hsep. case_decide as Hp.
  - destruct Hp as [-> ->]. split; [intros [= <-]; by exists sep|]. intros (q & -> & -> & _). done.
  - split; [done|]. intros (q & -> & -> & [= -> ->]). by destruct Hp.
Qed.

Lemma local_volume_existsb bd :
  existsb usedbyProbe.isLocalVolume (blockdevice.MountPoint (blockdevice.FSInfo bd)) = true <-> local_volume bd.
Proof.
  rewrite existsb_elem. unfold local_volume, usedbyProbe.isLocalVolume.
  by setoid_rewrite orb_true_iff.
Qed.

(** What the probe does not touch: everything that identifies the device *)
Definition same_device (bd bd' : blockdevice.BlockDevice) : Prop :=
  blockdevice.Identifier bd' = blockdevice.Identifier bd /\
  blockdevice.DeviceAttributes bd' = blockdevice.DeviceAttributes bd /\
  blockdevice.PartitionInfo bd' = blockdevice.PartitionInfo bd /\
  blockdevice.DependentDevices bd' = blockdevice.DependentDevices bd /\
  blockdevice.MountPoint (blockdevice.FSInfo bd') = blockdevice.MountPoint (blockdevice.FSInfo bd).

Lemma fillZFS_spec dev bd m :
  blockdevice.Labels bd = Some m ->
  exists r, exec (on_host h) (usedbyProbe.fillZFS dev bd) tt = (tt, Returned r) /\
    if decide (hTag h dev "TYPE" = "zfs_member") then
      exists bd', r = Some bd' /\ same_device bd bd' /\
        blockdevice.DevUse bd' = blockdevice.MkDeviceUsage true
          (if decide (hOpenExcl h (Clean (blockdevice.devpath bd)) = inl usedbyProbe.EBUSY)
           then blockdevice.ZFSLocalPV else blockdevice.CStor)
    else r = None.
Proof.
  intros Hm. unfold usedbyProbe.fillZFS, blkid.GetOnDiskFileSystem, blkid.GetOnDiskLabel, blkid.GetTagValue. cbn [exec bind call on_host].
  unfold usedbyProbe.zfsFileSystemLabel. case_decide as Ht; [|by eexists].
  unfold set_label. cbn. rewrite Hm. cbn.
  eexists. split; [reflexivity|]. eexists. split; [reflexivity|]. split; [done|]. cbn. f_equal.
  unfold blockdevice.devpath. destruct (hOpenExcl h _) as [e|]; [|done].
  case_decide as He; case_bool_decide; naive_solver.
Qed.

Lemma signature_exec dev :
  exists r, exec (on_host h) (GetSPDKSuperBlockSignature dev) tt = (tt, Returned r) /\
    (HasPrefix (match r with inl _ => "" | inr s => s end) "SPDKBLOB" = true <->
     exists fd o block, hOpen h dev = inr fd /\ hSeek h fd = inr o /\
       hRead h fd sizeof_super_block = inr block /\ HasPrefix block "SPDKBLOB" = true).
Proof.
  unfold GetSPDKSuperBlockSignature, goString. cbn [exec bind call on_host].
  destruct (hOpen h dev) as [e|fd] eqn:Ho; [eexists; split; [done|]; split; [done|]; intros (? & ? & ? & ? & ? & ? & _); congruence|]. cbn [exec bind call on_host].
  destruct (hSeek h fd) as [e|o] eqn:Hs; [eexists; split; [done|]; split; [done|]; intros (? & ? & ? & ? & ? & ? & _); congruence|]. cbn [exec bind call on_host].
  destruct (hRead h fd sizeof_super_block) as [e|block] eqn:Hr; [eexists; split; [done|]; split; [done|]; intros (? & ? & ? & ? & ? & ? & _); congruence|].
  pose proof (HasPrefix_c_string block (hHeap h) "SPDKBLOB") as Hc.
  exists (inr (let '(s, b) := before_nul block in if b : bool then s else s +:+ hHeap h)). split.
  - cbn [exec bind call on_host]. by destruct (before_nul block) as [t []].
  - rewrite Hc; [split; [by intros ?; exists fd, o, block|]; intros (? & ? & ? & ? & ? & ? & ?); congruence| |].
    + intros t1 t2 Heq. repeat (destruct t1 as [|? t1]; [rewrite string_app_nil_l in Heq; discriminate Heq|];
        rewrite string_app_cons in Heq; injection Heq as _ Heq). by destruct t1.
    + rewrite (ReadFull_length _ _ _ Hr). unfold sizeof_super_block. cbn [String.length]. lia.
Qed.

Lemma fillSPDK_spec bd :
  ~ local_volume bd -> ~ on_zfs bd ->
  exists bd', exec (on_host h) (usedbyProbe.fillSPDK bd) tt = (tt, Returned bd') /\
    usage bd (blockdevice.DevUse bd') /\ same_device bd bd'.
Proof.
  intros Hl Hz. unfold usedbyProbe.fillSPDK. rewrite exec_bind.
  destruct (signature_exec (blockdevice.devpath bd)) as (r & -> & Hr). cbn [exec]. cbv zeta. rewrite IsSPDK_prefix.
  eexists. split; [reflexivity|]. destruct (HasPrefix _ _); (split; [|done]); [apply u_spdk|apply u_none]; try done.
  - by apply Hr.
  - intros Hb. by apply Hr in Hb.
Qed.

(** The used-by probe.  On any host it returns, and reports exactly who uses the
    device: a Kubernetes local volume mounted from it; else zfs on it (or on the first
    partition of the pair that zfs makes on a disk), as a ZFS local volume if the device
    cannot be opened exclusively and as cStor if it can; else SPDK by its signature; else
    the use is left as it was.  What identifies the device does not change. *)
Theorem usedby_spec bd m :
  blockdevice.devpath bd <> "" -> no_byte newline (blockdevice.devpath bd) = true ->
  blockdevice.Labels bd = Some m ->
  exists bd', exec (on_host h) (usedbyProbe.Fill bd) tt = (tt, Returned bd') /\
    usage bd (blockdevice.DevUse bd') /\ same_device bd bd'.
Proof.
  intros Hp Hn Hm. unfold usedbyProbe.Fill. rewrite decide_False by done.
  destruct (existsb _ _) eqn:Hl.
  { apply local_volume_existsb in Hl. eexists. split; [reflexivity|]. split; [by constructor|done]. }
  assert (Hnl : ~ local_volume bd) by (rewrite <-local_volume_existsb; by rewrite Hl).
  destruct (zfs_lookup bd Hn) as (r & -> & Hr). cbn [bind].
  assert (Hspdk : ~ on_zfs bd -> exists bd', exec (on_host h) (usedbyProbe.fillSPDK bd) tt = (tt, Returned bd') /\
    usage bd (blockdevice.DevUse bd') /\ same_device bd bd').
  { intros Hz. by apply fillSPDK_spec. }
  destruct r as [dev|]; cbn [bind]; [|apply Hspdk; intros (dev & Hz & _); by apply Hr in Hz].
  rewrite exec_bind. destruct (fillZFS_spec dev bd m Hm) as (r & -> & Hzfs).
  case_decide as Ht; [|subst; apply Hspdk; intros (dev' & Hz & Ht'); apply Hr in Hz; naive_solver].
  destruct Hzfs as (bd' & -> & Hsame & Hu). exists bd'. split; [done|]. split; [|done].
  assert (Hz : on_zfs bd) by (exists dev; split; [by apply Hr|done]).
  rewrite Hu. case_decide; [by apply u_zfs|by apply u_cstor].
Qed.
End UsedBy.

(** ** Capacity *)

Section Capacity.
Context (h : host).

Lemma NewSysFsDevice_exec name sp :
  name <> "" -> hLink h ("/sys/class/block/" +:+ name) = inr sp ->
  exec (on_host h) (sysfs.NewSysFsDeviceFromDevPath ("/dev/" +:+ name)) tt =
    (tt, Returned (inr (sysfs.MkDevice name ("/dev/" +:+ name) (sp +:+ "/")))).
Proof.
  intros Hn Hl. unfold sysfs.NewSysFsDeviceFromDevPath, sysfs.getDeviceSysPath.
  rewrite Replace1_app, string_app_nil_l by done. cbv zeta.
  rewrite decide_False by (by destruct name). rewrite exec_bind.
  rewrite (proj2 (HasPrefix_iff _ _)) by eauto.
  change (sysfs.sysFSDirectoryPath +:+ "class/block/" +:+ name) with ("/sys/class/block/" +:+ name).
  cbn [exec bind call on_host]. by rewrite Hl.
Qed.

Lemma GetCapacity_exec s text n :
  hFile h (Clean (sysfs.sysPath s +:+ "size")) = inr text ->
  ParseInt (TrimSuffix text (String newline "")) 64 = Some n -> (0 <= n < 2 ^ 55)%Z ->
  exists r, exec (on_host h) (sysfs.GetCapacityInBytes s) tt = (tt, Returned r) /\
    uwrap 64 (sysfs.or_zero r) = (512 * n)%Z.
Proof.
  intros Hf Hn Hr. unfold sysfs.GetCapacityInBytes, sysfs.readSysFSFileAsInt64.
  cbn [exec bind call on_host]. rewrite Hf, Hn. eexists. split; [reflexivity|].
  case_decide; cbn [sysfs.or_zero]; [by subst|].
  rewrite uwrap_swrap, uwrap_id by (unfold sysfs.sectorSize; lia). unfold sysfs.sectorSize. lia.
Qed.

Lemma fill_size_exec get read set bd :
  (exists r, exec (on_host h) read tt = (tt, Returned r)) ->
  exists z, exec (on_host h) (sysfsProbe.fill_size get read set bd) tt =
    (tt, Returned (if decide (get (blockdevice.DeviceAttributes bd) = 0%Z)
                   then bd <| blockdevice.DeviceAttributes ::= set z |> else bd)).
Proof.
  intros [r Hr]. unfold sysfsProbe.fill_size. case_decide; [|by exists 0%Z].
  rewrite exec_bind, Hr. by eexists.
Qed.

Lemma NewSysFsDevice_total dev :
  exists r, exec (on_host h) (sysfs.NewSysFsDeviceFromDevPath dev) tt = (tt, Returned r).
Proof. unfold sysfs.NewSysFsDeviceFromDevPath. cbv zeta. case_decide; by eexists. Qed.

Lemma read_int_exec f : exists r, exec (on_host h) (sysfs.readSysFSFileAsInt64 f) tt = (tt, Returned r).
Proof. by eexists. Qed.

(** The sizes a device already has are kept, and so is its capacity. *)
Definition sizes_kept (bd bd' : blockdevice.BlockDevice) : Prop :=
  let a := blockdevice.DeviceAttributes bd in
  let a' := blockdevice.DeviceAttributes bd' in
  blockdevice.Capacity bd' = blockdevice.Capacity bd /\
  (blockdevice.LogicalBlockSize a <> 0%Z -> blockdevice.LogicalBlockSize a' = blockdevice.LogicalBlockSize a) /\
  (blockdevice.PhysicalBlockSize a <> 0%Z -> blockdevice.PhysicalBlockSize a' = blockdevice.PhysicalBlockSize a) /\
  (blockdevice.HardwareSectorSize a <> 0%Z -> blockdevice.HardwareSectorSize a' = blockdevice.HardwareSectorSize a).

Lemma fillSizes_exec dev bd :
  exists bd', exec (on_host h) (sysfsProbe.fillSizes dev bd) tt = (tt, Returned bd') /\ sizes_kept bd bd'.
Proof.
  unfold sysfsProbe.fillSizes.
  do 3 (rewrite exec_bind; edestruct fill_size_exec as [? ->]; [apply read_int_exec|]).
  match goal with |- context [exec _ (if decide (blockdevice.DriveType (blockdevice.DeviceAttributes ?b) = _ \/ _) then _ else _) _] =>
    assert (Hk : sizes_kept bd b) by (repeat (case_decide; cbn in *); by repeat split);
    revert Hk; generalize b
  end.
  intros bd1 Hk. case_decide; [|by eexists]. eexists. split; [reflexivity|]. exact Hk.
Qed.
End Capacity.

(** The capacity of a device.  If the kernel says that a device has n sectors, the
    sysfs probe reports 512 n bytes, for every device of less than 2^55 sectors: the
    product is an int64 and may overflow, but converting it to uint64 gives the right
    number back.  Block sizes that are already known are kept. *)
Theorem sysfs_capacity h bd name sp text n :
  name <> "" -> blockdevice.devpath bd = "/dev/" +:+ name ->
  hLink h ("/sys/class/block/" +:+ name) = inr sp ->
  hFile h (Clean (sp +:+ "/" +:+ "size")) = inr text ->
  ParseInt (TrimSuffix text (String newline "")) 64 = Some n -> (0 <= n < 2 ^ 55)%Z ->
  exists bd', exec (on_host h) (sysfsProbe.Fill bd) tt = (tt, Returned bd') /\
    blockdevice.Storage (blockdevice.Capacity bd') = (512 * n)%Z /\
    (forall bs, blockdevice.LogicalBlockSize (blockdevice.DeviceAttributes bd) = bs -> bs <> 0%Z ->
       blockdevice.LogicalBlockSize (blockdevice.DeviceAttributes bd') = bs).
Proof.
  intros Hname Hp Hl Hf Hn Hr. unfold sysfsProbe.Fill.
  rewrite Hp, exec_bind, (NewSysFsDevice_exec h name sp) by done.
  destruct (GetCapacity_exec h (sysfs.MkDevice name ("/dev/" +:+ name) (sp +:+ "/")) text n) as (r & Hc & Hu);
    [cbn [sysfs.sysPath]; by rewrite string_app_assoc|done..|].
  rewrite exec_bind, Hc. cbv zeta.
  match goal with |- context [blockdevice.devtype ?b] => set (bd1 := b) end.
  assert (Hdone : forall bd', sizes_kept bd1 bd' ->
    blockdevice.Storage (blockdevice.Capacity bd') = (512 * n)%Z /\
    (forall bs, blockdevice.LogicalBlockSize (blockdevice.DeviceAttributes bd) = bs -> bs <> 0%Z ->
       blockdevice.LogicalBlockSize (blockdevice.DeviceAttributes bd') = bs)).
  { intros bd' (-> & Hbs & _). split; [exact Hu|]. intros bs <- Hbs0. by apply Hbs. }
  assert (Hself : sizes_kept bd1 bd1) by done.
  case_decide; [|destruct (fillSizes_exec h (sysfs.MkDevice name ("/dev/" +:+ name) (sp +:+ "/")) bd1) as (? & -> & ?); eauto].
  case_decide; [by eauto|].
  rewrite exec_bind. destruct (NewSysFsDevice_total h (blockdevice.Parent (blockdevice.DependentDevices bd1))) as [[e|d] ->]; [by eauto|].
  destruct (fillSizes_exec h d bd1) as (? & -> & ?). eauto.
Qed.

Definition demo_probe_host : host :=
  MkHost (fun f => if decide (f = "/sys/devices/ata1/block/sdb/size") then inr ("2097152" +:+ String newline "") else inl ErrNotFound)
         (fun _ => inr "/sys/devices/ata1/block/sdb") (fun dev tag => if decide (tag = "TYPE") then "zfs_member" else "tank")
         (fun _ => inr tt) (fun _ => inl ErrNotFound) (fun _ => inl ErrNotFound) (fun _ _ => inl ErrNotFound) "".
Definition demo_disk : blockdevice.BlockDevice :=
  blockdevice.empty_BlockDevice
    <| blockdevice.Identifier := blockdevice.MkIdentifierT "" "" "/dev/sdb" |>
    <| blockdevice.Labels := Some ∅ |>
    <| blockdevice.DependentDevices := blockdevice.MkDependentBlockDevices "" ["/dev/sdb1"; "/dev/sdb9"] [] [] |>.

Lemma sysfs_capacity_witness :
  exists bd', exec (on_host demo_probe_host) (sysfsProbe.Fill demo_disk) tt = (tt, Returned bd') /\
    blockdevice.Storage (blockdevice.Capacity bd') = (2 ^ 30)%Z.
Proof.
  destruct (sysfs_capacity demo_probe_host demo_disk "sdb" "/sys/devices/ata1/block/sdb"
              ("2097152" +:+ String newline "") 2097152) as (bd' & ? & Hs & _); [done..|by vm_compute|by vm_compute|lia|].
  exists bd'. by rewrite Hs.
Defined.

Lemma usedby_spec_witness :
  exists bd', exec (on_host demo_probe_host) (usedbyProbe.Fill demo_disk) tt = (tt, Returned bd') /\
    blockdevice.DevUse bd' = blockdevice.MkDeviceUsage true blockdevice.CStor.
Proof.
  destruct (usedby_spec demo_probe_host ltac:(done) demo_disk ∅) as (bd' & Hx & _ & _); [done..|].
  exists bd'. split; [exact Hx|].
  assert (Hu : match snd (exec (on_host demo_probe_host) (usedbyProbe.Fill demo_disk) tt) with
               | Returned b => bool_decide (blockdevice.DevUse b = blockdevice.MkDeviceUsage true blockdevice.CStor)
               | Panicked _ => false
               end = true) by (vm_compute; reflexivity).
  rewrite Hx in Hu. by apply bool_decide_eq_true in Hu.
Defined.

Lemma Start_order_witness :
  returns (probe.Start (MkController "openebs" None [] [] ∅ ∅)) (fun c => length (Probes c) = 8).
Proof.
  eapply returns_mono; [|by apply Start_order]. cbn. intros c [tags Ht].
  by rewrite <-(length_map Fill), Ht.
Defined.
