(* ===== verification/Events.v ===== *)
(** * pkg/udevevent and pkg/epoll

    Where events come from: the udev monitor with its subscriptions (udevevent/monitor.go,
    with the wrappers of pkg/udev it uses), and the watchers of files (epoll/epoll.go) that
    the mount probe sets up (probe/mountprobe.go).

    A subscription and a watcher are shared by pointer; a subscription is identified here
    by the number of its channel. *)

From Stdlib Require Import ZArith Ascii Lia.
From stdpp Require Import base list strings gmap.
From S2P Require Import Prelude GoStrings Types Prog Util Udev.

Local Open Scope string_scope.
Local Open Scope prog_scope.

Module udevevent.

Record Subscription := MkSubscription { targetChannel : nat; subscribedTypes : list UdevEventType }.
#[global] Instance Subscription_eq_dec : EqDecision Subscription.
Proof. solve_decision. Defined.

(** The variable [subscriptions], and the channels: how many were made, which are closed *)
Record state := MkState { subscriptions : list Subscription; made : nat; closed : list nat }.
#[global] Instance eta_state : Eta state := fun s => MkState (subscriptions s) (made s) (closed s).

Definition ErrInvalidSubscription : err := Err "invailid subscription".

Definition Subscribe (eventTypes : list UdevEventType) (s : state) : state * Subscription :=
  let eventTypes := if decide (length eventTypes = 0) then [EventTypeAdd; EventTypeRemove; EventTypeChange] else eventTypes in
  let subscription := MkSubscription (made s) eventTypes in
  (s <| subscriptions ::= fun l => (l ++ [subscription])%list |> <| made ::= S |>, subscription).

(** The index of the last subscription that is [sub] *)
Fixpoint deleteIndex (sub : Subscription) (idx : nat) (l : list Subscription) : option nat :=
  match l with
  | [] => None
  | subscription :: l =>
      match deleteIndex sub (S idx) l with
      | Some i => Some i
      | None => if decide (targetChannel subscription = targetChannel sub) then Some idx else None
      end
  end.

(** A subscription that is not registered has index -1, which no slice accepts. *)
Definition Unsubscribe (sub : option Subscription) (s : state) : prog (state * option err) :=
  match sub with
  | None => Ret (s, Some ErrInvalidSubscription)
  | Some sub =>
      let subs := subscriptions s in
      if decide (targetChannel sub ∈ closed s) then Panic "close of closed channel"
      else
        let s := s <| closed ::= cons (targetChannel sub) |> in
        match deleteIndex sub 0 subs with
        | None => Panic "slice bounds out of range"
        | Some i =>
            let subs :=
              if decide (S i = length subs) then take i subs
              else if decide (i = 0) then drop 1 subs
              else (take i subs ++ drop (S i) subs)%list in
            Ret (s <| subscriptions := subs |>, None)
        end
  end.

(** The channels that get the event *)
Definition dispatchEvent (event : UdevEvent) (s : state) : prog (list nat) :=
  for_each (fun sent sub =>
    if bool_decide (eventType event ∈ subscribedTypes sub) then
      if decide (targetChannel sub ∈ closed s) then Panic "send on closed channel"
      else Ret (sent ++ [targetChannel sub])%list
    else Ret sent) [] (subscriptions s).

(** *** The monitor *)

(** The wrappers of pkg/udev: a negative return value is an error *)
Definition AddSubsystemFilter (um : Z) (key : string) : prog (option err) :=
  ret <- call (UdevMonitorFilter um key) ;;
  Ret (if (ret <? 0)%Z then Some (Err "unable to apply filter") else None).
Definition EnableReceiving (um : Z) : prog (option err) :=
  ret <- call (UdevMonitorEnable um) ;;
  Ret (if (ret <? 0)%Z then Some (Err "unable to enable receiving udev") else None).
Definition GetFd (um : Z) : prog (Z * option err) :=
  ret <- call (UdevMonitorFd um) ;;
  Ret (ret, if (ret <? 0)%Z then Some (Err "unable to get fd from monitor") else None).
Definition ReceiveDevice (um : Z) : prog (res (udevDevice * string)) :=
  r <- call (UdevReceive um) ;;
  Ret (match r with
       | None => inl (Err "unable to create Udevice object for null struct struct_udev_device")
       | Some r => inr r
       end).

(** The pointers of a monitor *)
Record monitor := MkMonitor { mUdev : Z; udevMonitor : Z }.

Definition newMonitor : prog (res monitor) :=
  r <- udev.NewUdev ;;
  match r with
  | inl e => Ret (inl e)
  | inr u =>
      r <- udev.NewDeviceFromNetlink u udev.UDEV_SOURCE ;;
      match r with
      | inl e => Ret (inl e)
      | inr um =>
          e <- AddSubsystemFilter um udev.UDEV_SUBSYSTEM ;;
          match e with
          | Some e => Ret (inl e)
          | None =>
              e <- EnableReceiving um ;;
              Ret (match e with Some e => inl e | None => inr (MkMonitor u um) end)
          end
      end
  end.
Definition setup (m : monitor) : prog (Z * option err) := GetFd (udevMonitor m).

Definition fd_panic {A} (r : option A) : prog A :=
  match r with Some a => Ret a | None => Panic "index out of range" end.

(** process: the error it reports, and the events it sent with their channels *)
Definition process (m : monitor) (fd : Z) (s : state) : prog (option err * list (nat * UdevEvent)) :=
  fds <- fd_panic (FD_SET (FD_ZERO FdSet_zero) fd) ;;
  '(ret, fds) <- call (Select (fd + 1) fds) ;;
  if (ret <=? 0)%Z then Ret (Some (Err "unable to apply select call"), [])
  else
    isset <- fd_panic (FD_ISSET fds fd) ;;
    if negb isset then Ret (Some (Err "unable to set fd"), [])
    else
      r <- ReceiveDevice (udevMonitor m) ;;
      match r with
      | inl e => Ret (Some e, [])
      | inr (device, action) =>
          match monitorEvent device action with
          | None => call (UdevDeviceUnref (udptr device)) ;;; Ret (None, [])
          | Some (inl e) => Ret (Some e, [])
          | Some (inr eventType) =>
              let event := MkUdevEvent device eventType in
              sent <- dispatchEvent event s ;;
              Ret (None, map (fun ch => (ch, event)) sent)
          end
      end.

(** The goroutine of Monitor, up to its loop: the errors it reports, the monitor and the
    descriptor it goes on with.  It goes on with a nil monitor when that could not be made,
    and the loop never ends, so that the deferred free is not reached. *)
Definition monitorStart : prog (list err * monitor * Z) :=
  r <- newMonitor ;;
  match r with
  | inl e => Panic "invalid memory address or nil pointer dereference"
  | inr m => '(fd, e) <- setup m ;; Ret (match e with Some e => [e] | None => [] end, m, fd)
  end.
End udevevent.

(** ** Subscriptions *)

Import udevevent.

(** The states of the package *)
Inductive sub_state : state -> Prop :=
  | sub_init : sub_state (MkState [] 0 [])
  | sub_subscribe s types : sub_state s -> sub_state (Subscribe types s).1
  | sub_unsubscribe s s' sub e : sub_state s -> Unsubscribe sub s = Ret (s', e) -> sub_state s'.

(** The channels of the subscriptions are different, were made, and are open. *)
Record sub_inv (s : state) : Prop := {
  si_nodup : NoDup (map targetChannel (subscriptions s));
  si_made : forall sub, sub ∈ subscriptions s -> targetChannel sub < made s;
  si_open : forall sub, sub ∈ subscriptions s -> targetChannel sub ∉ closed s;
  si_closed : forall ch, ch ∈ closed s -> ch < made s
}.

Lemma deleteIndex_Some sub idx l i :
  deleteIndex sub idx l = Some i ->
  exists x, idx <= i /\ l !! (i - idx) = Some x /\ targetChannel x = targetChannel sub.
Proof.
  revert idx. induction l as [|y l IH]; intros idx; cbn; [done|].
  destruct (deleteIndex sub (S idx) l) as [j|] eqn:Hd.
  - intros [= ->]. apply IH in Hd as (x & Hle & Hx & Ht). exists x. split_and!; [lia| |done].
    by replace (i - idx) with (S (i - S idx)) by lia.
  - case_decide; [|done]. intros [= <-]. exists y. by rewrite Nat.sub_diag.
Qed.

Lemma deleteIndex_None sub idx l :
  deleteIndex sub idx l = None -> forall x, x ∈ l -> targetChannel x <> targetChannel sub.
Proof.
  revert idx. induction l as [|y l IH]; intros idx; cbn; [set_solver|].
  destruct (deleteIndex sub (S idx) l) eqn:Hd; [done|]. case_decide; [done|].
  intros _ x [->|Hx]%elem_of_cons; [done|]. by eapply IH.
Qed.

(** Removing the subscription at its index is removing it. *)
Lemma remove_at (l : list Subscription) i x :
  NoDup (map targetChannel l) -> l !! i = Some x ->
  (take i l ++ drop (S i) l)%list = filter (fun y => targetChannel y <> targetChannel x) l.
Proof.
  revert i. induction l as [|y l IH]; intros i Hnd Hi; [done|]. cbn in Hnd.
  inversion Hnd as [|? ? Hy Hnd']; subst. clear Hnd. rename Hnd' into Hnd. destruct i as [|i].
  - injection Hi as ->. rewrite filter_cons_False by naive_solver. cbn. rewrite drop_0.
    assert (Hk : forall z, z ∈ l -> targetChannel z <> targetChannel x).
    { intros z Hz He. apply Hy. rewrite <-He. by apply (list_elem_of_fmap_2 targetChannel). }
    clear -Hk. induction l as [|z l IH]; [done|]. rewrite filter_cons_True by (apply Hk; left).
    f_equal. apply IH. intros. apply Hk. by right.
  - rewrite filter_cons_True.
    + cbn. f_equal. by apply IH.
    + intros He. apply Hy. rewrite He. apply (list_elem_of_fmap_2 targetChannel). by eapply list_elem_of_lookup_2.
Qed.

Lemma Unsubscribe_spec s sub :
  sub_inv s -> sub ∈ subscriptions s ->
  Unsubscribe (Some sub) s =
  Ret (MkState (filter (fun y => targetChannel y <> targetChannel sub) (subscriptions s)) (made s)
         (targetChannel sub :: closed s), None).
Proof.
  intros [Hnd _ Hopen _] Hin. unfold Unsubscribe. rewrite decide_False by (by apply Hopen).
  destruct (deleteIndex sub 0 (subscriptions s)) as [i|] eqn:Hd.
  - apply deleteIndex_Some in Hd as (x & _ & Hx & Ht). rewrite Nat.sub_0_r in Hx.
    rewrite <-Ht, <-(remove_at _ i x) by done. destruct s as [l m c]. cbn in *. do 3 f_equal.
    assert (i < length l) by (by eapply lookup_lt_Some). repeat case_decide; [|by subst|done].
    rewrite drop_ge by lia. by rewrite app_nil_r.
  - by destruct (deleteIndex_None _ _ _ Hd sub Hin).
Qed.

Lemma Unsubscribe_returns s sub s' e :
  Unsubscribe sub s = Ret (s', e) -> s' = s \/ exists sub', sub = Some sub' /\
    exists x, x ∈ subscriptions s /\ targetChannel x = targetChannel sub'.
Proof.
  unfold Unsubscribe. destruct sub as [sub|]; [|intros [= <- <-]; by left].
  case_decide; [done|]. destruct (deleteIndex sub 0 (subscriptions s)) as [i|] eqn:Hd; [|done].
  intros _. right. exists sub. split; [done|]. apply deleteIndex_Some in Hd as (x & _ & Hx & Ht).
  exists x. split; [by eapply list_elem_of_lookup_2|done].
Qed.

Lemma Unsubscribe_channel sub x s :
  targetChannel x = targetChannel sub -> Unsubscribe (Some sub) s = Unsubscribe (Some x) s.
Proof.
  intros He. unfold Unsubscribe. rewrite He.
  assert (Hd : forall idx l, deleteIndex sub idx l = deleteIndex x idx l).
  { intros idx l. revert idx. induction l as [|y l IH]; intros idx; cbn; [done|]. by rewrite IH, He. }
  by rewrite Hd.
Qed.

Lemma sub_state_inv s : sub_state s -> sub_inv s.
Proof.
  induction 1 as [|s types _ IH|s s' sub e _ IH Hu].
  - split; [constructor|set_solver..].
  - destruct IH as [Hnd Hm Ho Hc]. split; cbn.
    + rewrite map_app, Permutation_app_comm. cbn. constructor; [|done].
      intros (sub & He & Hs)%list_elem_of_fmap. apply Hm in Hs. lia.
    + intros sub [Hs| ->%list_elem_of_singleton]%elem_of_app; [apply Hm in Hs|cbn]; lia.
    + intros sub [Hs| ->%list_elem_of_singleton]%elem_of_app; [by apply Ho|]. cbn. intros Hin%Hc. lia.
    + intros ch Hin%Hc. lia.
  - destruct (Unsubscribe_returns _ _ _ _ Hu) as [->|(sub' & -> & x & Hx & Ht)]; [done|].
    rewrite (Unsubscribe_channel sub' x), (Unsubscribe_spec s x IH Hx) in Hu by done. injection Hu as <- <-.
    destruct IH as [Hnd Hm Ho Hc]. split; cbn.
    + by apply NoDup_map_filter.
    + intros sub [_ Hs]%list_elem_of_filter. by apply Hm.
    + intros sub [Hne Hs]%list_elem_of_filter. apply not_elem_of_cons. split; [done|]. by apply Ho.
    + intros ch [->|Hin]%elem_of_cons; [by apply Hm|by apply Hc].
Qed.

Lemma dispatchEvent_spec s ev :
  sub_inv s ->
  dispatchEvent ev s = Ret (map targetChannel (filter (fun sub => eventType ev ∈ subscribedTypes sub) (subscriptions s))).
Proof.
  intros [_ _ Ho _]. unfold dispatchEvent.
  assert (Hg : forall l sent, (forall sub, sub ∈ l -> targetChannel sub ∉ closed s) ->
    for_each (fun sent sub =>
      if bool_decide (eventType ev ∈ subscribedTypes sub) then
        if decide (targetChannel sub ∈ closed s) then Panic "send on closed channel"
        else Ret (sent ++ [targetChannel sub])%list
      else Ret sent) sent l =
    Ret (sent ++ map targetChannel (filter (fun sub => eventType ev ∈ subscribedTypes sub) l))%list).
  { induction l as [|sub l IH]; intros sent Hl; cbn [for_each]; [by rewrite app_nil_r|].
    rewrite filter_cons. case_bool_decide.
    - rewrite decide_False by (apply Hl; left). rewrite decide_True by done. cbn [bind map]. rewrite IH by set_solver.
      by rewrite <-app_assoc.
    - rewrite decide_False by done. cbn [bind]. apply IH. set_solver. }
  by rewrite Hg.
Qed.

(** Subscriptions to udev events, in every state that subscribing and unsubscribing
    can reach: an event goes to each subscription that asked for its type, once and in the
    order of subscription, and to no other, without ever sending on a closed channel;
    unsubscribing removes exactly that subscription and is possible once - a second time
    panics. *)
Theorem subscriptions_spec s ev sub s' :
  sub_state s ->
  dispatchEvent ev s = Ret (map targetChannel (filter (fun sub => eventType ev ∈ subscribedTypes sub) (subscriptions s))) /\
  (sub ∈ subscriptions s -> exists s1, Unsubscribe (Some sub) s = Ret (s1, None) /\
     subscriptions s1 = filter (fun y => targetChannel y <> targetChannel sub) (subscriptions s) /\
     exists m, Unsubscribe (Some sub) s1 = Panic m) /\
  (forall types, s' = (Subscribe types s).1 ->
     subscriptions s' = (subscriptions s ++ [(Subscribe types s).2])%list /\
     (types <> [] -> subscribedTypes (Subscribe types s).2 = types)).
Proof.
  intros Hs%sub_state_inv. split_and!.
  - by apply dispatchEvent_spec.
  - intros Hin. rewrite Unsubscribe_spec by done. eexists. split_and!; [done|done|].
    eexists. unfold Unsubscribe. rewrite decide_True; [done|]. left.
  - intros types ->. split; [done|]. by destruct types.
Qed.

(** Two subscriptions, one of them for changes only *)
Definition demo_subs : state := (Subscribe [EventTypeChange] (Subscribe [] (MkState [] 0 [])).1).1.

Lemma subscriptions_spec_witness :
  dispatchEvent (MkUdevEvent demo_device EventTypeAdd) demo_subs = Ret [0] /\
  dispatchEvent (MkUdevEvent demo_device EventTypeChange) demo_subs = Ret [0; 1].
Proof.
  assert (Hs : sub_state demo_subs) by (do 2 apply sub_subscribe; apply sub_init).
  split.
  - exact (proj1 (subscriptions_spec demo_subs (MkUdevEvent demo_device EventTypeAdd) (MkSubscription 0 []) demo_subs Hs)).
  - exact (proj1 (subscriptions_spec demo_subs (MkUdevEvent demo_device EventTypeChange) (MkSubscription 0 []) demo_subs Hs)).
Defined.

(** Without a monitor the goroutine panics; it does not merely report the error. *)
Lemma monitorStart_panics {W} (o : oracle W) w w1 :
  o _ UdevNew w = (w1, None) -> exists m, exec o monitorStart w = (w1, Panicked m).
Proof. intros Ho. unfold monitorStart, newMonitor. cbn. rewrite Ho. cbn. by eexists. Qed.

(** ** pkg/epoll *)

Module epoll.

(** Event types are the bits of syscall.EPOLL* *)
Definition EPOLLIN : Z := 1.
Definition EPOLLPRI : Z := 2.
Definition EPOLLOUT : Z := 4.
Definition EPOLLERR : Z := 8.
Definition EPOLLHUP : Z := 16.
Definition EPOLL_CTL_ADD : Z := 1.
Definition EPOLL_CTL_DEL : Z := 2.

Definition ErrFileAlreadyWatched : err := Err "file being watched already".
Definition ErrInvalidEventType : err := Err "invalid event type".
Definition ErrWatcherNotFound : err := Err "watcher not found".

Record Watcher := MkWatcher { wfd : Z; FileName : string; EventTypes : list Z }.
#[global] Instance eta_Watcher : Eta Watcher := fun w => MkWatcher (wfd w) (FileName w) (EventTypes w).
Record Event := MkEvent { fileName : string; events : Z }.

(** [eventChan]: not there, open or closed; [nilMaps]: the two maps are nil, which reads
    as empty and panics when written *)
Inductive chan := NoChan | OpenChan | ClosedChan.
Record Epoll := MkEpoll {
  watchers : list Watcher; fileToWatcher : gmap string Watcher; fdToWatcher : gmap Z Watcher;
  eventChan : chan; eventChanSize : Z; epfd : Z; active : bool; nilMaps : bool
}.
#[global] Instance eta_Epoll : Eta Epoll := fun e =>
  MkEpoll (watchers e) (fileToWatcher e) (fdToWatcher e) (eventChan e) (eventChanSize e) (epfd e) (active e) (nilMaps e).

(** New, with the option BufferSize *)
Definition New (size : Z) : prog (res Epoll) :=
  r <- call EpollCreate ;;
  Ret (match r with inl e => inl e | inr epfd => inr (MkEpoll [] ∅ ∅ NoChan size epfd false false) end).

Definition Start (e : Epoll) : res Epoll :=
  if (epfd e =? 0)%Z then inl (Err "invalid epoll struct")
  else if active e then inl (Err "epoll already started")
  else inr (e <| eventChan := OpenChan |> <| active := true |>).

Definition Stop (e : Epoll) : Epoll :=
  if negb (active e) then e else e <| active := false |> <| eventChan := ClosedChan |>.

Definition Close (e : Epoll) : prog Epoll :=
  let e := Stop e in
  call (CloseFd (epfd e)) ;;;
  for_each (fun _ w => call (CloseFd (wfd w)) ;;; Ret tt) tt (watchers e) ;;;
  Ret (e <| fdToWatcher := ∅ |> <| fileToWatcher := ∅ |> <| nilMaps := true |> <| eventChan := NoChan |>
         <| watchers := [] |>).

Definition isValidEventType (evt : Z) : bool :=
  bool_decide (evt ∈ [EPOLLERR; EPOLLHUP; EPOLLIN; EPOLLOUT; EPOLLPRI]).

Definition addToEpoll (e : Epoll) (fd : Z) (evts : list Z) : prog (option err) :=
  let evs := fold_left Z.lor evts 0%Z in
  r <- call (EpollCtl (epfd e) EPOLL_CTL_ADD fd evs) ;;
  Ret (match r with inl e => Some e | inr _ => None end).
Definition deleteFromEpoll (e : Epoll) (fd : Z) : prog (option err) :=
  r <- call (EpollCtl (epfd e) EPOLL_CTL_DEL fd 0) ;;
  Ret (match r with inl e => Some e | inr _ => None end).

Definition AddWatcher (e : Epoll) (w : Watcher) : prog (Epoll * option err) :=
  if negb (forallb isValidEventType (EventTypes w)) then Ret (e, Some ErrInvalidEventType)
  else
    match fileToWatcher e !! FileName w with
    | Some _ => Ret (e, Some ErrFileAlreadyWatched)
    | None =>
        fd <- call (OpenFile (FileName w)) ;;
        match fd with
        | inl er => Ret (e, Some er)
        | inr fd =>
            let w := w <| wfd := fd |> in
            er <- addToEpoll e fd (EventTypes w) ;;
            match er with
            | Some er => Ret (e, Some er)
            | None =>
                if nilMaps e then Panic "assignment to entry in nil map" else
                Ret (e <| watchers ::= fun l => (l ++ [w])%list |>
                       <| fileToWatcher ::= fun m => <[FileName w := w]> m |>
                       <| fdToWatcher ::= fun m => <[fd := w]> m |>, None)
            end
        end
    end.

Definition DeleteWatcher (e : Epoll) (file : string) : prog (Epoll * option err) :=
  match fileToWatcher e !! file with
  | None => Ret (e, Some ErrWatcherNotFound)
  | Some w =>
      er <- deleteFromEpoll e (wfd w) ;;
      match er with
      | Some er => Ret (e, Some er)
      | None => Ret (e <| fileToWatcher ::= fun m => delete file m |>
                       <| fdToWatcher ::= fun m => delete (wfd w) m |>, None)
      end
  end.

(** The event it sends, if the descriptor is watched *)
Definition dispatchEvent (e : Epoll) (ev : Z * Z) : prog (option Event) :=
  match fdToWatcher e !! ev.1 with
  | None => Ret None
  | Some w =>
      match eventChan e with
      | ClosedChan => Panic "send on closed channel"
      | _ => Ret (Some (MkEvent (FileName w) ev.2))
      end
  end.

(** listen: one round of the loop while the epoll is active and nothing else runs *)
Definition listenRound (e : Epoll) : prog (list Event) :=
  evs <- call (EpollWait (epfd e) 2) ;;
  for_each (fun sent ev => r <- dispatchEvent e ev ;; Ret (sent ++ option_list r)%list) [] (take 2 evs).

(** Where the goroutine of listen is: at the head of its loop, in EpollWait, at the event
    it dispatches next, sending one, or returned.  It reads the epoll the owner may be
    changing; [listen_step] is what it does by itself, what EpollWait tells it, and what it
    sends.  A send on a nil channel blocks. *)
Inductive listener :=
  | AtLoop
  | Waiting
  | Dispatching (evs : list (Z * Z))
  | Sending (ev : Event) (evs : list (Z * Z))
  | Finished.
Inductive action := Silent | Receives (evs : list (Z * Z)) | Sends (ev : Event).

Inductive listen_step (e : Epoll) : listener -> action -> listener -> Prop :=
  | listen_loop : listen_step e AtLoop Silent (if active e then Waiting else Finished)
  | listen_wait evs : listen_step e Waiting (Receives evs) (Dispatching (take 2 evs))
  | listen_round : listen_step e (Dispatching []) Silent AtLoop
  | listen_event ev evs :
      listen_step e (Dispatching (ev :: evs)) Silent
        (if negb (active e) then AtLoop else
         match fdToWatcher e !! ev.1 with
         | None => Dispatching evs
         | Some w => Sending (MkEvent (FileName w) ev.2) evs
         end)
  | listen_send ev evs : eventChan e = OpenChan -> listen_step e (Sending ev evs) (Sends ev) (Dispatching evs).

(** Its next step panics: a send on a closed channel *)
Definition listen_panics (e : Epoll) (l : listener) : Prop :=
  eventChan e = ClosedChan /\ exists ev evs, l = Sending ev evs.

Definition IsType (ev : Event) (evt : Z) : bool := negb (Z.land (events ev) evt =? 0)%Z.
End epoll.

(** ** Watchers *)

Import epoll.

(** The two maps agree, and their watchers are open. *)
Record ep_inv (e : Epoll) : Prop := {
  ep_file f w : fileToWatcher e !! f = Some w -> FileName w = f /\ fdToWatcher e !! wfd w = Some w /\ w ∈ watchers e;
  ep_fd fd w : fdToWatcher e !! fd = Some w -> wfd w = fd /\ fileToWatcher e !! FileName w = Some w
}.

(** The states of an epoll; a descriptor the system gives for a file is not that of a
    watcher, whose files stay open. *)
Inductive ep_state {W} (o : oracle W) : Epoll -> Prop :=
  | ep_new size s s' e : exec o (epoll.New size) s = (s', Returned (inr e)) -> ep_state o e
  | ep_start e e' : ep_state o e -> epoll.Start e = inr e' -> ep_state o e'
  | ep_stop e : ep_state o e -> ep_state o (epoll.Stop e)
  | ep_close e e' s s' : ep_state o e -> exec o (epoll.Close e) s = (s', Returned e') -> ep_state o e'
  | ep_add e w s s' e' er :
      ep_state o e ->
      (forall s1 fd, o _ (OpenFile (FileName w)) s = (s1, inr fd) -> fd ∉ map wfd (watchers e)) ->
      exec o (AddWatcher e w) s = (s', Returned (e', er)) -> ep_state o e'
  | ep_delete e f s s' e' er :
      ep_state o e -> exec o (DeleteWatcher e f) s = (s', Returned (e', er)) -> ep_state o e'.

Lemma AddWatcher_exec {W} (o : oracle W) e w s s' e' er :
  exec o (AddWatcher e w) s = (s', Returned (e', er)) ->
  e' = e \/
  exists s1 fd, o _ (OpenFile (FileName w)) s = (s1, inr fd) /\ fileToWatcher e !! FileName w = None /\
    let w := w <| wfd := fd |> in
    e' = e <| watchers ::= fun l => (l ++ [w])%list |> <| fileToWatcher ::= fun m => <[FileName w := w]> m |>
           <| fdToWatcher ::= fun m => <[fd := w]> m |>.
Proof.
  unfold AddWatcher. destruct (negb _); [intros [= <- <- <-]; by left|].
  destruct (fileToWatcher e !! FileName w) eqn:Hf; [intros [= <- <- <-]; by left|].
  intros (s1 & [e1|fd] & Ho & Hx)%exec_call_inv; [injection Hx as <- <- <-; by left|].
  unfold addToEpoll in Hx. apply exec_bind_inv in Hx as (s2 & er2 & _ & Hx).
  destruct er2; [injection Hx as <- <- <-; by left|]. destruct (nilMaps e); [done|].
  injection Hx as <- <- <-. right. by exists s1, fd.
Qed.

Lemma DeleteWatcher_exec {W} (o : oracle W) e f s s' e' er :
  exec o (DeleteWatcher e f) s = (s', Returned (e', er)) ->
  e' = e \/ exists w, fileToWatcher e !! f = Some w /\
    e' = e <| fileToWatcher ::= fun m => delete f m |> <| fdToWatcher ::= fun m => delete (wfd w) m |>.
Proof.
  unfold DeleteWatcher. destruct (fileToWatcher e !! f) as [w|] eqn:Hf; [|intros [= <- <- <-]; by left].
  intros (s1 & er2 & _ & Hx)%exec_bind_inv. destruct er2; injection Hx as <- <- <-; [by left|]. right. by exists w.
Qed.

Lemma ep_inv_add e w fd :
  ep_inv e -> fd ∉ map wfd (watchers e) -> fileToWatcher e !! FileName w = None -> wfd w = fd ->
  ep_inv (e <| watchers ::= fun l => (l ++ [w])%list |> <| fileToWatcher ::= fun m => <[FileName w := w]> m |>
            <| fdToWatcher ::= fun m => <[fd := w]> m |>).
Proof.
  intros [Hf Hd] Hfresh Hnone Hw. split; cbn.
  - intros f w' [[<- <-]|[Hne Hl]]%lookup_insert_Some.
    + split_and!; [done|rewrite Hw; apply lookup_insert_eq|set_solver].
    + destruct (Hf _ _ Hl) as (? & ? & Hin). split_and!; [done| |set_solver]. rewrite lookup_insert_ne; [done|].
      intros ->. apply Hfresh. by apply (list_elem_of_fmap_2 wfd).
  - intros fd' w' [[<- <-]|[Hne Hl]]%lookup_insert_Some; [split; [done|apply lookup_insert_eq]|].
    destruct (Hd _ _ Hl) as [? Hl']. split; [done|]. rewrite lookup_insert_ne; [done|]. intros He. congruence.
Qed.

Lemma ep_inv_delete e f w :
  ep_inv e -> fileToWatcher e !! f = Some w ->
  ep_inv (e <| fileToWatcher ::= fun m => delete f m |> <| fdToWatcher ::= fun m => delete (wfd w) m |>).
Proof.
  intros [Hf Hd] Hw. destruct (Hf _ _ Hw) as (HF & HD & _). split; cbn.
  - intros f' w' [Hne Hl]%lookup_delete_Some. destruct (Hf _ _ Hl) as (? & Hl' & ?). split_and!; [done| |done].
    rewrite lookup_delete_ne; [done|]. intros He. rewrite <-He, HD in Hl'. congruence.
  - intros fd w' [Hne Hl]%lookup_delete_Some. destruct (Hd _ _ Hl) as [He Hl']. split; [done|].
    rewrite lookup_delete_ne; [done|]. intros He'. rewrite <-He' in Hl'. congruence.
Qed.

Lemma ep_state_inv {W} (o : oracle W) e : ep_state o e -> ep_inv e.
Proof.
  induction 1 as [size s s' e Hx|e e' _ IH Hx|e _ IH|e e' s s' _ IH Hx|e w s s' e' er _ IH Hfd Hx|e f s s' e' er _ IH Hx].
  - unfold epoll.New in Hx. apply exec_call_inv in Hx as (s1 & [er|epfd] & _ & [= _ <-]). by split.
  - unfold epoll.Start in Hx. repeat (case_match; [done|]). injection Hx as <-. by destruct IH.
  - unfold epoll.Stop. destruct (negb _); [done|]. by destruct IH.
  - unfold epoll.Close in Hx. apply exec_call_inv in Hx as (s1 & x & _ & Hx).
    apply exec_bind_inv in Hx as (s2 & y & _ & [= _ <-]). by split.
  - apply AddWatcher_exec in Hx as [->|(s1 & fd & Ho & Hn & ->)]; [done|].
    by apply (ep_inv_add e (w <| wfd := fd |>)); [|apply (Hfd s1)|..].
  - apply DeleteWatcher_exec in Hx as [->|(w & Hw & ->)]; [done|]. by apply ep_inv_delete.
Qed.

Lemma for_each_sent {W} (o : oracle W) e : eventChan e <> ClosedChan -> forall evs sent s,
  exec o (for_each (fun sent ev => r <- epoll.dispatchEvent e ev ;; Ret (sent ++ option_list r)%list) sent evs) s =
  (s, Returned (sent ++ omap (fun ev => (fun w => MkEvent (FileName w) ev.2) <$> fdToWatcher e !! ev.1) evs)%list).
Proof.
  intros Hc evs. induction evs as [|ev evs IH]; intros sent s; [cbn; by rewrite app_nil_r|].
  cbn [for_each]. rewrite exec_bind.
  assert (Hd : exec o (r <- epoll.dispatchEvent e ev ;; Ret (sent ++ option_list r)%list) s =
    (s, Returned (sent ++ option_list ((fun w => MkEvent (FileName w) ev.2) <$> fdToWatcher e !! ev.1))%list)).
  { unfold epoll.dispatchEvent. destruct (fdToWatcher e !! ev.1); [|done]. by destruct (eventChan e). }
  rewrite Hd, IH, <-app_assoc. do 3 f_equal. cbn. by destruct (fdToWatcher e !! ev.1).
Qed.


(** A host whose mounts file is descriptor 3 and ready *)
Definition mounts_ready : oracle unit := fun X e w =>
  match e in callE X return unit * X with
  | EpollCreate => (w, inr 7%Z)
  | OpenFile _ => (w, inr 3%Z)
  | EpollCtl _ _ _ _ => (w, inr tt)
  | EpollWait _ _ => (w, [(3, 8); (9, 1)]%Z)
  | e => (w, deaf _ e)
  end.

Definition mounts_watcher : Watcher := MkWatcher 0 "/host/proc/1/mounts" [EPOLLERR; EPOLLPRI].
Definition added_epoll : Epoll :=
  let w := mounts_watcher <| wfd := 3%Z |> in
  MkEpoll [w] {[FileName w := w]} {[3%Z := w]} NoChan 10 7 false false.
Definition mounts_epoll : Epoll := added_epoll <| eventChan := OpenChan |> <| active := true |>.

