(* ===== verification/EpollRun.v ===== *)
(** * pkg/epoll: the owner and the listener

    Start makes a goroutine that waits for events and sends them on the channel of the epoll
    (listen), while the owner goes on calling Start, Stop and the rest: the two share the
    fields of the epoll and no lock.  [listen_step] of Events is what the goroutine does;
    here it runs beside its owner. *)

From Stdlib Require Import ZArith Lia.
From stdpp Require Import base list strings gmap relations.
From S2P Require Import Prelude Prog Events.

Import epoll.

(** An epoll in use: the buffer of its channel and the goroutines of listen that Start made *)
Record epoll_run := MkEpollRun { ep : Epoll; buffer : list Event; listeners : list listener }.
#[global] Instance eta_epoll_run : Eta epoll_run := fun s => MkEpollRun (ep s) (buffer s) (listeners s).

(** Steps of the goroutines and of the owner, who calls Stop only if [stops].  An event is
    sent to the buffer while it has room, or straight to an owner that waits for one. *)
Inductive epoll_step (stops : bool) : epoll_run -> epoll_run -> Prop :=
  | run_silent s i l l' :
      listeners s !! i = Some l -> listen_step (ep s) l Silent l' ->
      epoll_step stops s (s <| listeners ::= <[i := l']> |>)
  | run_wait s i l l' evs :
      listeners s !! i = Some l -> listen_step (ep s) l (Receives evs) l' ->
      epoll_step stops s (s <| listeners ::= <[i := l']> |>)
  | run_send s i l l' ev :
      listeners s !! i = Some l -> listen_step (ep s) l (Sends ev) l' ->
      length (buffer s) < Z.to_nat (eventChanSize (ep s)) ->
      epoll_step stops s (s <| buffer ::= fun q => (q ++ [ev])%list |> <| listeners ::= <[i := l']> |>)
  | run_handover s i l l' ev :
      listeners s !! i = Some l -> listen_step (ep s) l (Sends ev) l' -> buffer s = [] ->
      epoll_step stops s (s <| listeners ::= <[i := l']> |>)
  | run_receive s ev q : buffer s = ev :: q -> epoll_step stops s (s <| buffer := q |>)
  | run_start s e :
      epoll.Start (ep s) = inr e ->
      epoll_step stops s (s <| ep := e |> <| buffer := [] |> <| listeners ::= fun l => (l ++ [AtLoop])%list |>)
  | run_stop s : stops = true -> epoll_step stops s (s <| ep ::= epoll.Stop |>).

Lemma Start_inr e e' :
  epoll.Start e = inr e' <-> epfd e <> 0%Z /\ active e = false /\ e' = e <| eventChan := OpenChan |> <| active := true |>.
Proof.
  unfold epoll.Start. destruct (Z.eqb_spec (epfd e) 0); [naive_solver|]. destruct (active e); naive_solver.
Qed.

(** Without Stop: one listener at most, and its channel stays open. *)
Definition one_listener (s : epoll_run) : Prop :=
  (active (ep s) = false /\ listeners s = []) \/
  (active (ep s) = true /\ eventChan (ep s) = OpenChan /\ exists l, listeners s = [l] /\ l <> Finished).

Lemma listen_step_goes e l a l' : active e = true -> listen_step e l a l' -> l' <> Finished.
Proof. intros Ha H. inversion H; subst; rewrite ?Ha; cbn; by repeat case_match. Qed.

Lemma one_listener_step s s' : one_listener s -> epoll_step false s s' -> one_listener s'.
Proof.
  intros Hs Hst.
  assert (Hl : forall i l a l', listeners s !! i = Some l -> listen_step (ep s) l a l' ->
    active (ep s) = true /\ eventChan (ep s) = OpenChan /\ <[i := l']> (listeners s) = [l'] /\ l' <> Finished).
  { intros i l a l' Hi Hstep. destruct Hs as [[_ Hn]|(Ha & Hc & l0 & Hn & _)]; rewrite Hn in Hi |- *; [done|].
    apply list_lookup_singleton_Some in Hi as [-> ->]. split_and!; [done..|by eapply listen_step_goes]. }
  inversion Hst as [? i l l' Hi Hstep|? i l l' evs Hi Hstep|? i l l' ev Hi Hstep _|? i l l' ev Hi Hstep _|? ev q _|? e Hstart|]; subst;
    [destruct (Hl _ _ _ _ Hi Hstep) as (? & ? & Heq & ?); right; cbn; rewrite Heq; eauto..|done| |done].
  apply Start_inr in Hstart as (_ & Ha & ->). destruct Hs as [[_ Hn]|[Ha' _]]; [|congruence].
  right. cbn. rewrite Hn. split_and!; [done..|]. by exists AtLoop.
Qed.

Lemma one_listener_run e s :
  active e = false -> rtc (epoll_step false) (MkEpollRun e [] []) s -> one_listener s.
Proof.
  intros He. apply (rtc_ind_r (fun s => one_listener s)); [by left|]. intros s1 s2 _ Hst IH. by eapply one_listener_step.
Qed.

(** ** Runs with Stop *)

Lemma run_started e :
  epfd e <> 0%Z -> active e = false ->
  rtc (epoll_step true) (MkEpollRun e [] [])
    (MkEpollRun (e <| eventChan := OpenChan |> <| active := true |>) [] [Waiting]).
Proof.
  intros Hfd Ha. eapply rtc_l; [eapply run_start; by apply Start_inr|]. cbn.
  eapply rtc_l; [eapply (run_silent _ _ 0); [done|apply listen_loop]|]. apply rtc_refl.
Qed.

Lemma run_into_closed e fd w :
  active e = true -> fdToWatcher e !! fd = Some w ->
  rtc (epoll_step true) (MkEpollRun e [] [Waiting])
    (MkEpollRun (epoll.Stop e) [] [Sending (MkEvent (FileName w) 0) []]).
Proof.
  intros Ha Hw.
  eapply rtc_l; [by eapply (run_wait _ _ 0 Waiting _ [(fd, 0%Z)]); [|apply listen_wait]|].
  eapply rtc_l; [by eapply (run_silent _ _ 0); [|apply listen_event]|]. cbn. rewrite Ha, Hw.
  apply rtc_once. by apply (run_stop true (MkEpollRun e [] [_])).
Qed.

Lemma run_restarted e :
  epfd e <> 0%Z -> active e = true ->
  rtc (epoll_step true) (MkEpollRun e [] [Waiting])
    (MkEpollRun (e <| eventChan := OpenChan |>) [] [Waiting; Waiting]).
Proof.
  intros Hfd Ha. eapply rtc_l; [by apply run_stop|]. cbn. unfold epoll.Stop. rewrite Ha. cbn.
  eapply rtc_l; [eapply run_start; by apply Start_inr|]. cbn.
  eapply rtc_l; [eapply (run_silent _ _ 1); [done|apply listen_loop]|]. cbn. destruct e; cbn in Ha; subst. apply rtc_refl.
Qed.

(** C33. Stop does not wait for the listener (pkg/epoll).  While nobody calls Stop, an epoll
    has one listener at most and it never panics; but from every epoll that can be started and
    watches a descriptor there is a run of Start, one event and Stop in which the listener
    sends on the channel Stop closed, which panics, and a run of Start, Stop and Start after
    which two listeners wait, the first having missed the stop. *)
Theorem epoll_stop_races e e1 fd w :
  epoll.Start e = inr e1 -> fdToWatcher e !! fd = Some w ->
  (forall s, rtc (epoll_step false) (MkEpollRun e [] []) s ->
     length (listeners s) <= 1 /\ Forall (fun l => ~ listen_panics (ep s) l) (listeners s)) /\
  (exists s, rtc (epoll_step true) (MkEpollRun e [] []) s /\ Exists (listen_panics (ep s)) (listeners s)) /\
  (exists s, rtc (epoll_step true) (MkEpollRun e [] []) s /\ active (ep s) = true /\ listeners s = [Waiting; Waiting]).
Proof.
  intros Hs Hw. apply Start_inr in Hs as (Hfd & Ha & ->). split_and!.
  - intros s [[_ Hn]|(_ & Hc & l & Hn & _)]%one_listener_run; [| |done]; rewrite Hn; [cbn; split; [lia|done]|].
    split; [done|]. apply Forall_singleton. intros [Hcl _]. congruence.
  - eexists. split; [etrans; [by apply run_started|by eapply run_into_closed]|].
    constructor. split; [done|by eexists _, _].
  - eexists. split; [etrans; [by apply run_started|by apply run_restarted]|]. done.
Qed.

Lemma epoll_stop_races_witness :
  exists s, rtc (epoll_step true) (MkEpollRun added_epoll [] []) s /\ Exists (listen_panics (ep s)) (listeners s).
Proof.
  apply (epoll_stop_races added_epoll mounts_epoll 3 (mounts_watcher <| wfd := 3%Z |>)); reflexivity.
Defined.
