(* ===== verification/Libmount.v ===== *)
(** * pkg/mount/libmount and the mount events of the mount probe

    filesystem.go, mount_table.go, parse.go and mount_table_diff.go: mount tables read
    from a mounts file, and the difference of two of them; probe/mountprobe.go: the loop
    that turns changes of the mounts file into messages for the handlers. *)

From Stdlib Require Import ZArith Ascii Lia.
From stdpp Require Import base list strings gmap sorting.
From S2P Require Import Prelude GoStrings Types Features Prog Mount Udev Events.

Local Open Scope string_scope.
Local Open Scope prog_scope.

Module libmount.

(** ** filesystem.go *)

(** [tab] says whether the file system belongs to a mount table *)
Record Filesystem := MkFilesystem {
  tab : bool; id : Z; source : string; tagName : string; tagValue : string;
  target : string; fsType : string; vfsOpts : string; fsOpts : string
}.
#[global] Instance eta_Filesystem : Eta Filesystem := fun f =>
  MkFilesystem (tab f) (id f) (source f) (tagName f) (tagValue f) (target f) (fsType f) (vfsOpts f) (fsOpts f).
#[global] Instance Filesystem_eq_dec : EqDecision Filesystem.
Proof. solve_decision. Defined.

Definition NewFilesystem : Filesystem := MkFilesystem false 0 "" "" "" "" "" "" "".

Definition SetTag (name value : string) (fs : Filesystem) : Filesystem :=
  fs <| tagName := name |> <| tagValue := value |>.
Definition SetSource (src : string) (fs : Filesystem) : Filesystem := fs <| source := src |>.
Definition SetTarget (t : string) (fs : Filesystem) : Filesystem := fs <| target := t |>.
Definition SetFsType (t : string) (fs : Filesystem) : Filesystem := fs <| fsType := t |>.

(** A filter on a file system, which may be nil *)
Definition FsFilter := option Filesystem -> bool.
Definition SourceFilter (s : string) : FsFilter := fun f =>
  match f with None => false | Some f => bool_decide (source f = s) end.
Definition TargetFilter (t : string) : FsFilter := fun f =>
  match f with None => false | Some f => bool_decide (target f = t) end.
Definition IDFilter (i : Z) : FsFilter := fun f =>
  match f with None => false | Some f => bool_decide (id f = i) end.
Definition TargetContainsFilter (substr : string) : FsFilter := fun f =>
  match f with None => false | Some f => StrContains (target f) substr end.
Definition SourceContainsFilter (substr : string) : FsFilter := fun f =>
  match f with None => false | Some f => StrContains (source f) substr end.

(** ** parse.go *)

Inductive MountTabFormat := MntFmtGuess | MntFmtFstab | MntFmtMountInfo | MntFmtUtab | MntFmtSwaps.

Definition ErrInvalidToken : err := Err "invalid token error".
Definition parseTagString (token : string) : string * string * option err :=
  match SplitN2 token "="%char with
  | [tag; val] => (tag, val, None)
  | _ => ("", "", Some ErrInvalidToken)
  end.

Definition isValidTagName (tag : string) : bool :=
  bool_decide (tag ∈ ["ID"; "UUID"; "LABEL"; "PARTUUID"; "PARTLABEL"]).

Definition parseSourceToken (fs : Filesystem) (token : string) : Filesystem :=
  let '(tag, val, e) := parseTagString token in
  SetSource token
    (match e with
     | Some _ => if isValidTagName tag then SetTag tag val fs else fs
     | None => fs
     end).

(** mountsParser.Parse *)
Definition parseMounts (line : string) : prog (res Filesystem) :=
  match Fields line with
  | t0 :: t1 :: t2 :: _ => Ret (inr (SetFsType t2 (SetTarget t1 (parseSourceToken NewFilesystem t0))))
  | _ => mount.index_panic
  end.
(** mountInfoParser.Parse *)
Definition parseMountInfo (line : string) : prog (res Filesystem) := Ret (inl (Err "not implemented")).

Definition NewParser (format : MountTabFormat) : string -> prog (res Filesystem) :=
  match format with MntFmtMountInfo => parseMountInfo | _ => parseMounts end.

(** ** mount_table.go *)

Record MountTab := MkMountTab {
  format : MountTabFormat; fileName : string; entries : list Filesystem;
  allowFilters : list FsFilter; denyFilters : list FsFilter
}.
#[global] Instance eta_MountTab : Eta MountTab := fun m =>
  MkMountTab (format m) (fileName m) (entries m) (allowFilters m) (denyFilters m).
Definition empty_MountTab : MountTab := MkMountTab MntFmtGuess "" [] [] [].

Definition ErrInvalidArgument : err := Err "invalid argument provided".
Definition ErrFilesystemBusy : err := Err "filesystem busy".
Definition ErrDeniedByFilters : err := Err "fs denied by filters".

Definition MountTabOpt := MountTab -> prog (res MountTab).
Definition FromFile (file : string) (f : MountTabFormat) : MountTabOpt := fun mt =>
  r <- call (Stat file) ;;
  Ret (match r with inl e => inl e | inr _ => inr (mt <| format := f |> <| fileName := file |>) end).
Definition WithAllowFilter (f : FsFilter) : MountTabOpt := fun mt =>
  Ret (inr (mt <| allowFilters ::= fun l => (l ++ [f])%list |>)).
Definition WithDenyFilter (f : FsFilter) : MountTabOpt := fun mt =>
  Ret (inr (mt <| denyFilters ::= fun l => (l ++ [f])%list |>)).

Definition applyFilters (mt : MountTab) (fs : option Filesystem) : bool :=
  let isAllowed := bool_decide (allowFilters mt = []) in
  let isDenied := fold_left (fun d filter => d || filter fs) (denyFilters mt) false in
  let isAllowed := fold_left (fun a filter => a || filter fs) (allowFilters mt) isAllowed in
  negb isDenied && isAllowed.

Definition AddFilesystem (mt : MountTab) (fs : option Filesystem) : res MountTab :=
  match fs with
  | None => inl ErrInvalidArgument
  | Some f =>
      if tab f then inl ErrFilesystemBusy
      else if negb (applyFilters mt fs) then inl ErrDeniedByFilters
      else inr (mt <| entries ::= fun l => (l ++ [f <| tab := true |>])%list |>)
  end.

Definition Size (mt : MountTab) : nat := length (entries mt).

Definition Find (mt : MountTab) (filters : list FsFilter) : option Filesystem :=
  if bool_decide (filters = []) then None
  else find (fun entry => fold_left (fun r filter => r && filter (Some entry)) filters true) (entries mt).

Fixpoint parseLines (mt : MountTab) (lines : list string) : prog (res MountTab) :=
  match lines with
  | [] => Ret (inr mt)
  | line :: lines =>
      fs <- NewParser (format mt) line ;;
      match fs with
      | inl e => Ret (inl e)
      | inr fs =>
          match AddFilesystem mt (Some fs) with
          | inl e => if decide (e = ErrDeniedByFilters) then parseLines mt lines else Ret (inl e)
          | inr mt => parseLines mt lines
          end
      end
  end.

Definition parseFile (mt : MountTab) : prog (res MountTab) :=
  file <- call (ReadFile (fileName mt)) ;;
  match file with inl e => Ret (inl e) | inr text => parseLines mt (ScanLines text) end.

Fixpoint applyOpts (mt : MountTab) (opts : list MountTabOpt) : prog (res MountTab) :=
  match opts with
  | [] => Ret (inr mt)
  | opt :: opts =>
      r <- opt mt ;; match r with inl e => Ret (inl e) | inr mt => applyOpts mt opts end
  end.
Definition NewMountTab (opts : list MountTabOpt) : prog (res MountTab) :=
  r <- applyOpts empty_MountTab opts ;;
  match r with
  | inl e => Ret (inl e)
  | inr mt => if decide (fileName mt <> "") then parseFile mt else Ret (inr mt)
  end.

(** ** mount_table_diff.go *)

Inductive MountAction := MountActionMount | MountActionUmount | MountActionMove | MountActionRemount.
#[global] Instance MountAction_eq_dec : EqDecision MountAction.
Proof. solve_decision. Defined.

Record MountTabDiffEntry := MkDiffEntry { oldFs : option Filesystem; newFs : option Filesystem; action : MountAction }.
#[global] Instance eta_DiffEntry : Eta MountTabDiffEntry := fun d =>
  MkDiffEntry (oldFs d) (newFs d) (action d).
Notation MountTabDiff := (list MountTabDiffEntry).

Definition AddDiffEntry (md : MountTabDiff) (o n : option Filesystem) (a : MountAction) : MountTabDiff :=
  (md ++ [MkDiffEntry o n a])%list.

Definition isMountOf (s : string) (i : Z) (d : MountTabDiffEntry) : bool :=
  match newFs d with
  | None => false
  | Some f => bool_decide (action d = MountActionMount) && bool_decide (id f = i) && bool_decide (source f = s)
  end.
(** The position of the entry, which the caller changes in place *)
Definition getMountEntry (md : MountTabDiff) (s : string) (i : Z) : option nat :=
  fst <$> list_find (fun d => isMountOf s i d = true) md.

Definition same (fs : Filesystem) : list FsFilter := [SourceFilter (source fs); TargetFilter (target fs)].

Definition diffNew (oldTab : MountTab) (diffTable : MountTabDiff) (n : Filesystem) : MountTabDiff :=
  match Find oldTab (same n) with
  | None => AddDiffEntry diffTable None (Some n) MountActionMount
  | Some o =>
      if bool_decide (vfsOpts o <> vfsOpts n) || bool_decide (fsOpts o <> fsOpts n)
      then AddDiffEntry diffTable (Some o) (Some n) MountActionRemount else diffTable
  end.

Definition diffOld (newTab : MountTab) (diffTable : MountTabDiff) (o : Filesystem) : MountTabDiff :=
  match Find newTab (same o) with
  | Some _ => diffTable
  | None =>
      match getMountEntry diffTable (source o) (id o) with
      | None => AddDiffEntry diffTable (Some o) None MountActionUmount
      | Some i => alter (fun de => de <| oldFs := Some o |> <| action := MountActionMove |>) i diffTable
      end
  end.

Definition GenerateDiff (oldTab newTab : option MountTab) : MountTabDiff :=
  let oldTab := default empty_MountTab oldTab in
  let newTab := default empty_MountTab newTab in
  let oldTabSize := Size oldTab in
  let newTabSize := Size newTab in
  if bool_decide (newTabSize = 0) && bool_decide (oldTabSize = 0) then []
  else if bool_decide (oldTabSize = 0) then
    fold_left (fun d entry => AddDiffEntry d None (Some entry) MountActionMount) (entries newTab) []
  else if bool_decide (newTabSize = 0) then
    fold_left (fun d entry => AddDiffEntry d (Some entry) None MountActionUmount) (entries oldTab) []
  else fold_left (diffOld newTab) (entries oldTab) (fold_left (diffNew oldTab) (entries newTab) []).

(** The source of an entry; [None] is the nil dereference *)
Definition diffSource (d : MountTabDiffEntry) : option string :=
  source <$> (if decide (action d = MountActionUmount) then oldFs d else newFs d).
(** The keys of the map come in any order, which the sort hides *)
Definition ListSources (md : MountTabDiff) : option (list string) :=
  (fun srcs => merge_sort String.le (remove_dups srcs)) <$> mapM diffSource md.
End libmount.

(** ** probe/mountprobe.go *)

Module mountWatch.
Import libmount.

Definition newMountTable (mountsFileName : string) : prog (res MountTab) :=
  NewMountTab
    [FromFile mountsFileName MntFmtFstab;
     WithAllowFilter (SourceContainsFilter "/dev/");
     WithDenyFilter (SourceFilter "overlay");
     WithDenyFilter (TargetContainsFilter "/var/lib/kubelet/pod");
     WithDenyFilter (TargetContainsFilter "/var/lib/docker");
     WithDenyFilter (TargetContainsFilter "/run/docker")].

Definition device_at (dev : string) : blockdevice.BlockDevice :=
  blockdevice.empty_BlockDevice <| blockdevice.Identifier ::= fun i => i <| blockdevice.DevPath := dev |> |>.

(** The messages it sends *)
Definition processDiff (mountProbeName : string) (diff : MountTabDiff) : prog (list EventMessage) :=
  match ListSources diff with
  | None => Panic "nil pointer dereference"
  | Some changedDevices =>
      let devices := map device_at changedDevices in
      Ret (if decide (devices = []) then [] else [MkEventMessage ChangeEA devices [mountProbeName] false])
  end.

Definition defaultMsg : EventMessage := MkEventMessage ChangeEA [] [] true.

(** listen: what one event of the mounts file does to the table the probe remembers, and
    the messages it sends.  After a failure the code goes on with a nil table. *)
Definition onEvent (mountsFileName mountProbeName : string) (mountTable : option MountTab)
    : prog (option MountTab * list EventMessage) :=
  r <- newMountTable mountsFileName ;;
  let '(newTable, sent) := match r with inl _ => (None, [defaultMsg]) | inr mt => (Some mt, []) end in
  msgs <- processDiff mountProbeName (GenerateDiff mountTable newTable) ;;
  Ret (newTable, (sent ++ msgs)%list).

(** The epoll of the probe, and the error if the file cannot be watched *)
Definition setupEpoll (mountsFileName : string) : prog (res epoll.Epoll) :=
  ep <- epoll.New 10 ;;
  match ep with
  | inl e => Ret (inl e)
  | inr ep =>
      r <- epoll.AddWatcher ep (epoll.MkWatcher 0 mountsFileName [epoll.EPOLLERR; epoll.EPOLLPRI]) ;;
      Ret (match r with (_, Some e) => inl e | (ep, None) => inr ep end)
  end.

(** Start: what the listening loop starts with, when it is started *)
Definition Start (fg : features.featureFlag) (mountsFileName : string) : prog (option (epoll.Epoll * MountTab)) :=
  if negb (features.IsEnabled fg features.ChangeDetection) then Ret None
  else
    ep <- setupEpoll mountsFileName ;;
    match ep with
    | inl _ => Ret None
    | inr ep =>
        mt <- newMountTable mountsFileName ;;
        Ret (match mt with inl _ => None | inr mt => Some (ep, mt) end)
    end.

(** listen, after the epoll has been started: one round of the epoll and what the probe
    does with the events of that round *)
Definition listenRound (mountsFileName mountProbeName : string) (ep : epoll.Epoll) (mountTable : option MountTab)
    : prog (option MountTab * list EventMessage) :=
  evs <- epoll.listenRound ep ;;
  for_each (fun '(mt, sent) _ =>
              r <- onEvent mountsFileName mountProbeName mt ;; Ret (r.1, (sent ++ r.2)%list))
           (mountTable, []) evs.
End mountWatch.

(** ** What a difference names *)

Import libmount.

(** A device is mounted at a place by a table, which may be nil *)
Definition mounted (mt : option MountTab) (s t : string) : Prop :=
  exists f, f ∈ entries (default empty_MountTab mt) /\ source f = s /\ target f = t.
(** Both tables have the mount, with other options *)
Definition remounted (old new : option MountTab) (s : string) : Prop :=
  exists n o, n ∈ entries (default empty_MountTab new) /\ source n = s /\
    Find (default empty_MountTab old) (same n) = Some o /\ (vfsOpts o <> vfsOpts n \/ fsOpts o <> fsOpts n).

Lemma Find_same_None mt f : Find mt (same f) = None <-> ~ mounted (Some mt) (source f) (target f).
Proof.
  unfold Find. rewrite bool_decide_eq_false_2 by done. rewrite find_None_iff. unfold mounted. cbn.
  split.
  - intros Hn (g & Hg & Hs & Ht). specialize (Hn g Hg). rewrite Hs, Ht in Hn. by rewrite !bool_decide_eq_true_2 in Hn.
  - intros Hn g Hg. destruct (decide (source g = source f)) as [Hs|Hs]; [|by rewrite bool_decide_eq_false_2].
    destruct (decide (target g = target f)) as [Ht|Ht]; [|by rewrite (bool_decide_eq_false_2 (target g = _)), andb_false_r].
    destruct Hn. eauto.
Qed.

(** The sources of the entries, in order; a difference never has an entry without one *)
Definition sources (md : MountTabDiff) : list (option string) := map diffSource md.

Lemma sources_AddDiffEntry md o n a :
  sources (AddDiffEntry md o n a) = (sources md ++ [diffSource (MkDiffEntry o n a)])%list.
Proof. apply map_app. Qed.

(** Turning a mount into a move keeps the source. *)
Lemma sources_move md s i k o :
  getMountEntry md s i = Some k ->
  sources (alter (fun de => de <| oldFs := Some o |> <| action := MountActionMove |>) k md) = sources md /\
  Some s ∈ sources md.
Proof.
  unfold getMountEntry. rewrite fmap_Some. intros ([j d] & (Hd & Hm & _)%list_find_Some & ->). change (j, d).1 with j.
  unfold isMountOf in Hm. destruct (newFs d) as [f|] eqn:Hf; [|done]. bools. destruct Hm as [[Ha _] Hs].
  assert (Hsrc : diffSource d = Some s) by (unfold diffSource; rewrite decide_False by congruence; rewrite Hf; cbn; congruence).
  split.
  - apply list_eq. intros m. unfold sources. rewrite !list_lookup_fmap.
    destruct (decide (m = j)) as [->|Hne]; [|by rewrite list_lookup_alter_ne].
    rewrite list_lookup_alter_eq, Hd. change (Some (diffSource (d <| oldFs := Some o |> <| action := MountActionMove |>)) = Some (diffSource d)).
    rewrite Hsrc. f_equal. unfold diffSource. rewrite decide_False by done. change (source <$> newFs d = Some s). by rewrite Hf, <-Hs.
  - rewrite <-Hsrc. apply (list_elem_of_fmap_2 diffSource). by eapply list_elem_of_lookup_2.
Qed.

Definition changes (old : MountTab) (n : Filesystem) : Prop :=
  ~ mounted (Some old) (source n) (target n) \/
  exists o, Find old (same n) = Some o /\ (vfsOpts o <> vfsOpts n \/ fsOpts o <> fsOpts n).

Lemma sources_diffNew old md n x :
  x ∈ sources (diffNew old md n) <-> x ∈ sources md \/ x = Some (source n) /\ changes old n.
Proof.
  unfold diffNew, changes. rewrite <-Find_same_None. destruct (Find old (same n)) as [o|] eqn:Hf.
  - destruct (_ || _) eqn:Ho.
    + rewrite sources_AddDiffEntry, elem_of_app, list_elem_of_singleton. cbn.
      assert (vfsOpts o <> vfsOpts n \/ fsOpts o <> fsOpts n) by (by bools). naive_solver.
    + assert (~ (vfsOpts o <> vfsOpts n \/ fsOpts o <> fsOpts n)) by (bools; naive_solver). naive_solver.
  - rewrite sources_AddDiffEntry, elem_of_app, list_elem_of_singleton. cbn. naive_solver.
Qed.

Lemma sources_diffOld new md o x :
  x ∈ sources (diffOld new md o) <->
  x ∈ sources md \/ x = Some (source o) /\ ~ mounted (Some new) (source o) (target o).
Proof.
  unfold diffOld. rewrite <-Find_same_None. destruct (Find new (same o)) as [n|]; [naive_solver|].
  destruct (getMountEntry md (source o) (id o)) as [k|] eqn:Hk.
  - apply (sources_move _ _ _ _ o) in Hk as [-> ?]. naive_solver.
  - rewrite sources_AddDiffEntry, elem_of_app, list_elem_of_singleton. cbn. naive_solver.
Qed.

(** A fold whose steps each add what [P] says adds what [P] says of some element. *)
Lemma sources_fold {A} (step : MountTabDiff -> A -> MountTabDiff) (P : A -> option string -> Prop) :
  (forall md a x, x ∈ sources (step md a) <-> x ∈ sources md \/ P a x) ->
  forall l md x, x ∈ sources (fold_left step l md) <-> x ∈ sources md \/ exists a, a ∈ l /\ P a x.
Proof.
  intros Hstep l. induction l as [|a l IH]; intros md x; cbn [fold_left].
  - set_solver.
  - rewrite IH, Hstep. set_solver.
Qed.

Lemma sources_GenerateDiff old new x :
  x ∈ sources (GenerateDiff old new) <->
  exists s, x = Some s /\
    ((exists t, mounted new s t /\ ~ mounted old s t) \/ (exists t, mounted old s t /\ ~ mounted new s t) \/
     remounted old new s).
Proof.
  unfold GenerateDiff, remounted. set (o := default empty_MountTab old). set (n := default empty_MountTab new).
  change (mounted old) with (mounted (Some o)). change (mounted new) with (mounted (Some n)).
  assert (Hnil : forall mt, bool_decide (Size mt = 0) = true -> entries mt = []).
  { intros mt. rewrite bool_decide_eq_true. apply length_zero_iff_nil. }
  assert (Hout : forall mt s t, entries mt = [] -> ~ mounted (Some mt) s t).
  { intros mt s t He (f & Hf & _). cbn in Hf. rewrite He in Hf. set_solver. }
  destruct (bool_decide (Size o = 0)) eqn:Ho.
  - apply Hnil in Ho. assert (Hf : forall f, Find o f = None) by (intros f; unfold Find; rewrite Ho; by case_bool_decide).
    destruct (bool_decide (Size n = 0)) eqn:Hn; cbn [andb].
    + apply Hnil in Hn. split; [set_solver|].
      intros (s & -> & [(t & Hm & _)|[(t & Hm & _)|(a & b & _ & _ & Hm & _)]]); [by apply Hout in Hm..|by rewrite Hf in Hm].
    + rewrite (sources_fold _ (fun n x => x = Some (source n))); [|intros; rewrite sources_AddDiffEntry; set_solver].
      split.
      * intros [[]%elem_of_nil|(f & Hin & ->)]. eexists. split; [done|]. left. exists (target f).
        split; [by exists f|by apply Hout].
      * intros (s & -> & [(t & (f & Hin & <- & _) & _)|[(t & Hm & _)|(a & b & _ & _ & Hm & _)]]);
          [set_solver|by apply Hout in Hm|by rewrite Hf in Hm].
  - rewrite andb_false_r. destruct (bool_decide (Size n = 0)) eqn:Hn.
    + apply Hnil in Hn.
      rewrite (sources_fold _ (fun n x => x = Some (source n))); [|intros; rewrite sources_AddDiffEntry; set_solver].
      split.
      * intros [[]%elem_of_nil|(f & Hin & ->)]. eexists. split; [done|]. right. left. exists (target f).
        split; [by exists f|by apply Hout].
      * intros (s & -> & [(t & Hm & _)|[(t & (f & Hin & <- & _) & _)|(a & b & Hin & _)]]);
          [by apply Hout in Hm|set_solver|rewrite Hn in Hin; set_solver].
    + rewrite (sources_fold _ _ (sources_diffOld n)), (sources_fold _ _ (sources_diffNew o)).
      unfold changes, mounted. set_solver.
Qed.

(** ** The list of sources *)

Lemma ListSources_spec md :
  None ∉ sources md ->
  exists srcs, ListSources md = Some srcs /\ Sorted String.le srcs /\ NoDup srcs /\
    forall s, s ∈ srcs <-> Some s ∈ sources md.
Proof.
  intros Hn. assert (Hm : exists l, mapM diffSource md = Some l /\ sources md = map Some l).
  { induction md as [|d md IH]; [by exists []|].
    change (sources (d :: md)) with (diffSource d :: sources md) in *. apply not_elem_of_cons in Hn as [Hd Hn].
    destruct (IH Hn) as (l & Hm & Hl). destruct (diffSource d) as [s|] eqn:Hs; [|done]. exists (s :: l). cbn. rewrite Hs, Hl. cbn. by rewrite Hm. }
  destruct Hm as (l & Hm & Hl). unfold ListSources. rewrite Hm. eexists. split; [reflexivity|]. split_and!.
  - apply (Sorted_merge_sort String.le).
  - rewrite (merge_sort_Permutation String.le). apply NoDup_remove_dups.
  - intros s. rewrite (merge_sort_Permutation String.le), elem_of_remove_dups, Hl. split.
    + apply (list_elem_of_fmap_2 Some).
    + intros (y & [= ->] & ?)%(list_elem_of_fmap_1 Some). done.
Qed.

(** ** Reading a mounts file *)

(** A field of a mounts file: the kernel writes white space as octal escapes. *)
Definition field_byte (c : ascii) : bool := negb (is_space c) && (Ascii.N_of_ascii c <? 128)%N.
Definition field (s : string) : Prop := s <> "" /\ all_bytes field_byte s = true.

Record mounts_line (e : mount_entry) : Prop := {
  ml_entry : entry_ok e;
  ml_dev : field (meDev e);
  ml_dir : field (meDir e);
  ml_type : field (meType e)
}.

Lemma Fields_aux_word cur s t :
  all_bytes field_byte s = true -> cur +:+ s <> "" ->
  Fields_aux cur (s +:+ String " " t) = (cur +:+ s) :: Fields t.
Proof.
  revert cur. induction s as [|c s IH]; intros cur; cbn [all_bytes].
  - rewrite string_app_nil_l, string_app_nil_r. intros _ Hc. cbn. by rewrite decide_False.
  - rewrite andb_true_iff. intros [Hc Hs] Hne. rewrite string_app_cons. cbn [Fields_aux].
    unfold field_byte in Hc. apply andb_true_iff in Hc as [Hc _]. rewrite (proj1 (negb_true_iff _) Hc).
    rewrite IH; [|done|]; rewrite string_app_assoc, string_app_cons, string_app_nil_l; done.
Qed.

Lemma Fields_word s t : field s -> Fields (s +:+ String " " t) = s :: Fields t.
Proof.
  intros [Hne Hs]. unfold Fields at 1. rewrite Fields_aux_word; rewrite ?string_app_nil_l; done.
Qed.

Lemma Fields_entry e :
  mounts_line e -> exists rest, Fields (print_entry e) = meDev e :: meDir e :: meType e :: rest.
Proof.
  intros [_ Hd Hp Ht]. unfold print_entry. assert (Hsp : forall t, " " +:+ t = String " " t) by done. rewrite !Hsp.
  rewrite !Fields_word by done. by eexists.
Qed.

(** The table entry of a line: the tag of the source is never recorded *)
Definition fs_of (e : mount_entry) : Filesystem :=
  NewFilesystem <| source := meDev e |> <| target := meDir e |> <| fsType := meType e |>.

Lemma parseSourceToken_eq fs token : parseSourceToken fs token = SetSource token fs.
Proof.
  unfold parseSourceToken, parseTagString. destruct (SplitN2 token "=") as [|tag [|val [|]]]; done.
Qed.

Lemma parseMounts_entry e : mounts_line e -> parseMounts (print_entry e) = Ret (inr (fs_of e)).
Proof.
  intros He. unfold parseMounts. destruct (Fields_entry e He) as [rest ->]. by rewrite parseSourceToken_eq.
Qed.

Lemma parseLines_entries mt es :
  format mt = MntFmtFstab -> Forall mounts_line es ->
  parseLines mt (map print_entry es) =
  Ret (inr (mt <| entries ::= fun l =>
    (l ++ map (fun e => (fs_of e) <| tab := true |>)
            (filter (fun e => applyFilters mt (Some (fs_of e)) = true) es))%list |>)).
Proof.
  intros Hf Hes. revert mt Hf. induction Hes as [|e es He _ IH]; intros mt Hf; cbn [map parseLines].
  { rewrite filter_nil. cbn. rewrite app_nil_r. by destruct mt. }
  unfold NewParser. rewrite Hf, parseMounts_entry by done. cbn [bind AddFilesystem tab]. change (tab (fs_of e)) with false.
  cbn iota. rewrite filter_cons. destruct (applyFilters mt (Some (fs_of e))) eqn:Ha; cbn [negb].
  - rewrite IH by done. cbn. rewrite <-app_assoc. cbn. done.
  - rewrite IH by done. done.
Qed.

(** ** Events of the mounts file *)

(** The lines the probe looks at *)
Definition watched (e : mount_entry) : bool :=
  StrContains (meDev e) "/dev/" && negb (bool_decide (meDev e = "overlay")) &&
  negb (StrContains (meDir e) "/var/lib/kubelet/pod") && negb (StrContains (meDir e) "/var/lib/docker") &&
  negb (StrContains (meDir e) "/run/docker").

Definition table_of (mt : MountTab) (es : list mount_entry) : Prop :=
  entries mt = map (fun e => (fs_of e) <| tab := true |>) (filter (fun e => watched e = true) es).

(** newMountTable makes two calls. *)
Lemma newMountTable_calls file :
  file <> "" ->
  exists k1 k2, mountWatch.newMountTable file = Call (Stat file) k1 /\
    (forall e, k1 (inl e) = Ret (inl e)) /\ (forall x, k1 (inr x) = Call (ReadFile file) k2) /\
    (forall e, k2 (inl e) = Ret (inl e)) /\
    (forall es, Forall mounts_line es -> exists mt, k2 (inr (print_mounts es)) = Ret (inr mt) /\ table_of mt es).
Proof.
  intros Hfile. unfold mountWatch.newMountTable, NewMountTab. cbn [applyOpts FromFile bind call].
  eexists _, _. split_and!; [reflexivity|done|intros x; cbn; rewrite decide_True by done; reflexivity|done|].
  intros es Hes. cbn. rewrite ScanLines_print by (eapply Forall_impl; [apply ml_entry|done]).
  rewrite parseLines_entries by done. eexists. split; [reflexivity|].
  unfold table_of. cbn. f_equal. apply list_filter_iff. intros e.
  unfold applyFilters, watched. cbn. rewrite !negb_orb, andb_comm, !andb_assoc. done.
Qed.

Section Events.
Context {W : Type} (o : oracle W) (file : string) (Hfile : file <> "").

(** The file exists in [w] and says [es] *)
Definition says_mounts (w w' : W) (es : list mount_entry) : Prop :=
  exists w1 x, o _ (Stat file) w = (w1, inr x) /\ o _ (ReadFile file) w1 = (w', inr (print_mounts es)).

Lemma newMountTable_spec w w' es :
  Forall mounts_line es -> says_mounts w w' es ->
  exists mt, exec o (mountWatch.newMountTable file) w = (w', Returned (inr mt)) /\ table_of mt es.
Proof.
  intros Hes (w1 & x & Hst & Hrd). destruct (newMountTable_calls file Hfile) as (k1 & k2 & -> & _ & H1 & _ & H2).
  destruct (H2 es Hes) as (mt & Hmt & Ht). exists mt. split; [|done].
  cbn [exec]. rewrite Hst, H1. cbn [exec]. rewrite Hrd, Hmt. done.
Qed.

End Events.

(** The probe sees device [s] mounted at [t] *)
Definition seen (es : list mount_entry) (s t : string) : Prop :=
  exists e, e ∈ es /\ watched e = true /\ meDev e = s /\ meDir e = t.

Lemma mounted_table mt es s t : table_of mt es -> mounted (Some mt) s t <-> seen es s t.
Proof.
  intros Ht. unfold mounted, seen. cbn. rewrite Ht. split.
  - intros (f & (e & -> & [Hw He]%list_elem_of_filter)%list_elem_of_fmap & Hs & Htg). eauto 6.
  - intros (e & He & Hw & <- & <-). exists ((fs_of e) <| tab := true |>). split; [|done].
    apply list_elem_of_fmap. exists e. split; [done|]. by apply list_elem_of_filter.
Qed.

(** Mount tables that are read never differ in options, which are not parsed. *)
Lemma table_not_remounted mt0 es0 mt1 es1 s :
  table_of mt0 es0 -> table_of mt1 es1 -> ~ remounted (Some mt0) (Some mt1) s.
Proof.
  intros H0 H1 (n & p & Hn & _ & Hp & Ho). cbn in Hn. rewrite H1 in Hn.
  apply list_elem_of_fmap in Hn as (e & -> & _). unfold Find in Hp. rewrite bool_decide_eq_false_2 in Hp by done.
  apply find_elem in Hp as [Hp _]. rewrite H0 in Hp. apply list_elem_of_fmap in Hp as (e' & -> & _).
  by destruct Ho.
Qed.

(** The mount points of a device differ in two mounts files *)
Definition moved (es0 es1 : list mount_entry) (s : string) : Prop :=
  exists t, (seen es1 s t /\ ~ seen es0 s t) \/ (seen es0 s t /\ ~ seen es1 s t).

Lemma processDiff_spec name mt0 mt1 es0 es1 :
  table_of mt0 es0 -> table_of mt1 es1 ->
  exists devs, Sorted String.le devs /\ NoDup devs /\ (forall s, s ∈ devs <-> moved es0 es1 s) /\
    mountWatch.processDiff name (GenerateDiff (Some mt0) (Some mt1)) =
    Ret (if decide (devs = []) then [] else [MkEventMessage ChangeEA (map mountWatch.device_at devs) [name] false]).
Proof.
  intros H0 H1. destruct (ListSources_spec (GenerateDiff (Some mt0) (Some mt1))) as (devs & Hl & Hs & Hnd & Hin).
  { intros (s & [=] & _)%sources_GenerateDiff. }
  exists devs. split_and!; [done..| |].
  - intros s. rewrite Hin, sources_GenerateDiff. unfold moved.
    pose proof (table_not_remounted mt0 es0 mt1 es1 s H0 H1).
    setoid_rewrite (mounted_table mt0 es0 _ _ H0). setoid_rewrite (mounted_table mt1 es1 _ _ H1). naive_solver.
  - unfold mountWatch.processDiff. rewrite Hl. cbn. by destruct devs.
Qed.

(** Every change of the mounts file reaches the handlers, and nothing else does:
    when the file said [es0] and says [es1] at the next event, the mount probe does not
    panic, remembers the new table and, if the mount points of some device under watch
    differ, sends one message that names exactly the devices whose mount points differ,
    each once and in order; if none differ it sends nothing. *)
Theorem mount_events {W} (o : oracle W) file name w0 w1 w2 w3 es0 es1 :
  file <> "" -> Forall mounts_line es0 -> Forall mounts_line es1 ->
  says_mounts o file w0 w1 es0 -> says_mounts o file w2 w3 es1 ->
  exists mt0 mt1 devs,
    exec o (mountWatch.newMountTable file) w0 = (w1, Returned (inr mt0)) /\
    exec o (mountWatch.newMountTable file) w2 = (w3, Returned (inr mt1)) /\
    Sorted String.le devs /\ NoDup devs /\ (forall s, s ∈ devs <-> moved es0 es1 s) /\
    exec o (mountWatch.onEvent file name (Some mt0)) w2 =
    (w3, Returned (Some mt1,
       if decide (devs = []) then []
       else [MkEventMessage ChangeEA (map mountWatch.device_at devs) [name] false])).
Proof.
  intros Hf He0 He1 Hs0 Hs1.
  destruct (newMountTable_spec o file Hf w0 w1 es0 He0 Hs0) as (mt0 & Hx0 & Ht0).
  destruct (newMountTable_spec o file Hf w2 w3 es1 He1 Hs1) as (mt1 & Hx1 & Ht1).
  destruct (processDiff_spec name mt0 mt1 es0 es1 Ht0 Ht1) as (devs & ? & ? & ? & Hx).
  exists mt0, mt1, devs. split_and!; [done..|].
  unfold mountWatch.onEvent. rewrite exec_bind, Hx1, Hx. done.
Qed.

(** A volume is mounted on a data disk while the root file system stays. *)
Definition before_mount : list mount_entry :=
  [MkEntry "/dev/sda1" "/" "ext4" "rw 0 0"; MkEntry "overlay" "/var/lib/docker/x" "overlay" "rw 0 0"].
Definition after_mount : list mount_entry := (before_mount ++ [MkEntry "/dev/sdb" "/data" "xfs" "rw 0 0"])%list.

(** The file says one and then the other *)
Definition changing_mounts : oracle (list (list mount_entry)) := fun X e w =>
  match e in callE X return list (list mount_entry) * X with
  | Stat _ => (w, inr (false, 0%Z))
  | ReadFile _ => match w with es :: w => (w, inr (print_mounts es)) | [] => ([], inl ErrNotFound) end
  | e => (w, deaf _ e)
  end.

Lemma mount_events_witness :
  exists mt0 mt1 devs,
    exec changing_mounts (mountWatch.onEvent "/host/proc/1/mounts" "mount probe" (Some mt0)) [after_mount] =
    ([], Returned (Some mt1, [MkEventMessage ChangeEA (map mountWatch.device_at devs) ["mount probe"] false])) /\
    "/dev/sdb" ∈ devs.
Proof.
  destruct (mount_events changing_mounts "/host/proc/1/mounts" "mount probe"
              [before_mount; after_mount] [after_mount] [after_mount] [] before_mount after_mount)
    as (mt0 & mt1 & devs & _ & _ & _ & _ & Hd & Hx).
  - done.
  - repeat constructor; done.
  - repeat constructor; done.
  - by eexists _, _.
  - by eexists _, _.
  - assert (Hin : "/dev/sdb" ∈ devs).
    { apply Hd. exists "/data". left. split.
      - exists (MkEntry "/dev/sdb" "/data" "xfs" "rw 0 0"). split; [|done]. unfold after_mount. set_solver.
      - intros (e & He & _ & Hdev & _). unfold before_mount in He. set_solver. }
    exists mt0, mt1, devs. split; [|done]. destruct devs; [set_solver|exact Hx].
Defined.

(** A started mount probe watches its mounts file *)
Lemma Start_watches {W} (o : oracle W) fg f s s' ep mt :
  exec o (mountWatch.Start fg f) s = (s', Returned (Some (ep, mt))) ->
  features.IsEnabled fg features.ChangeDetection = true /\ ep_state o ep /\
  exists w, epoll.fileToWatcher ep !! f = Some w /\ epoll.EventTypes w = [epoll.EPOLLERR; epoll.EPOLLPRI].
Proof.
  unfold mountWatch.Start. destruct (features.IsEnabled _ _); [|done]. cbn [negb].
  intros (s1 & [e|ep'] & Hs & Hx)%exec_bind_inv; [done|].
  apply exec_bind_inv in Hx as (s2 & [e|mt'] & _ & [= _ -> ->]).
  unfold mountWatch.setupEpoll in Hs. apply exec_bind_inv in Hs as (s3 & [e|ep0] & Hn & Hs); [done|].
  apply exec_bind_inv in Hs as (s4 & [ep1 [e|]] & Ha & [= _ ->]).
  assert (H0 : epoll.watchers ep0 = [] /\ epoll.fileToWatcher ep0 = ∅).
  { unfold epoll.New in Hn. by apply exec_call_inv in Hn as (? & [?|?] & _ & [= _ <-]). }
  destruct H0 as [H0 H1]. split; [done|]. split.
  - eapply ep_add; [by eapply ep_new| |exact Ha]. rewrite H0. intros. apply not_elem_of_nil.
  - unfold epoll.AddWatcher in Ha. cbn in Ha. rewrite H1, lookup_empty in Ha.
    apply exec_call_inv in Ha as (s5 & [e|fd] & _ & Ha); [done|].
    apply exec_call_inv in Ha as (s6 & [e|] & _ & Ha); [done|].
    destruct (epoll.nilMaps ep0); [done|]. injection Ha as _ <-. eexists. split; [apply lookup_insert_eq|done].
Qed.
