(* ===== verification/MountPipeline.v ===== *)
(** * From the mounts file to the handlers

    How a change of the mounts reaches the daemon: the kernel marks the mounts file, the
    goroutine of the epoll (pkg/epoll, listen) puts an event into its channel, which has room
    for ten, and the goroutine of the mount probe (listen of probe/mountprobe.go) takes it,
    reads the file and sends the devices that changed to the handlers.  Mounts go on changing
    meanwhile.  [watch_step] interleaves the kernel and the two goroutines, call by call. *)

From Stdlib Require Import ZArith Lia.
From S2P Require Import Prelude GoStrings Types Features Prog Mount Udev Events EpollRun Libmount.
From stdpp Require Import base strings gmap relations sorting list.

Local Open Scope string_scope.
Local Open Scope prog_scope.

Import libmount epoll.

(** What a reading of the mounts file found: nothing if it failed *)
Notation view := (option (list mount_entry)).

(** ** The goroutines *)

(** The mount probe waits for an event, handles one, sends its messages, or has left its loop. *)
Inductive probe_at :=
  | Ranging
  | Handling (p : prog (option MountTab * list EventMessage))
  | Reporting (msgs : list EventMessage)
  | Stopped.

(** [mounts] and [changed] are the kernel's: what the file says, and whether it changed since
    EpollWait last reported it.  [found], [read] and [sent] are not of the program: what the
    event being handled and those before it found in the file, and the messages sent *)
Record watch := MkWatch {
  mounts : list mount_entry;
  changed : bool;
  epoll_ : Epoll;
  listening : listener;
  channel : list Event;
  probe : probe_at;
  mountTable : option MountTab;
  found : view;
  read : list view;
  sent : list EventMessage
}.
#[global] Instance eta_watch : Eta watch := fun s =>
  MkWatch (mounts s) (changed s) (epoll_ s) (listening s) (channel s) (probe s) (mountTable s) (found s) (read s) (sent s).

(** The host's answers: the file may fail to be read, and says the mounts otherwise. *)
Definition answered (s : watch) X (e : callE X) : X -> Prop :=
  match e in callE X return X -> Prop with
  | ReadFile _ => fun x => forall text, x = inr text -> text = print_mounts (mounts s)
  | _ => fun _ => True
  end.
Definition finds (s : watch) X (e : callE X) : X -> view :=
  match e in callE X return X -> view with
  | ReadFile _ => fun x => match x with inr _ => Some (mounts s) | inl _ => found s end
  | _ => fun _ => found s
  end.

Section Watch.
Context (file name : string) (fd : Z).

Inductive watch_step : watch -> watch -> Prop :=
  | w_mount s es : Forall mounts_line es -> watch_step s (s <| mounts := es |> <| changed := true |>)
  | w_listen s l : listen_step (epoll_ s) (listening s) Silent l -> watch_step s (s <| listening := l |>)
  | w_wait s evs l :
      listen_step (epoll_ s) (listening s) (Receives evs) l ->
      watch_step s (s <| listening := l |> <| changed ::= fun ch => if decide (fd ∈ (take 2 evs).*1) then false else ch |>)
  | w_send s ev l :
      listen_step (epoll_ s) (listening s) (Sends ev) l ->
      length (channel s) < Z.to_nat (eventChanSize (epoll_ s)) ->
      watch_step s (s <| listening := l |> <| channel ::= fun q => (q ++ [ev])%list |>)
  | w_take s ev q :
      probe s = Ranging -> channel s = ev :: q ->
      watch_step s (s <| channel := q |> <| found := None |>
                      <| probe := Handling (mountWatch.onEvent file name (mountTable s)) |>)
  | w_closed s :
      probe s = Ranging -> channel s = [] -> eventChan (epoll_ s) = ClosedChan ->
      watch_step s (s <| probe := Stopped |> <| epoll_ ::= epoll.Stop |>)
  | w_call s X (e : callE X) k x :
      probe s = Handling (Call e k) -> answered s X e x ->
      watch_step s (s <| probe := Handling (k x) |> <| found := finds s X e x |>)
  | w_handled s mt msgs :
      probe s = Handling (Ret (mt, msgs)) ->
      watch_step s (s <| probe := Reporting msgs |> <| mountTable := mt |> <| read ::= fun l => (l ++ [found s])%list |>)
  | w_report s msg msgs :
      probe s = Reporting (msg :: msgs) ->
      watch_step s (s <| probe := Reporting msgs |> <| sent ::= fun l => (l ++ [msg])%list |>)
  | w_reported s : probe s = Reporting [] -> watch_step s (s <| probe := Ranging |>).

(** mountProbe.Start put the file under watch, read it, and started the epoll; what changed
    after the file was opened is marked. *)
Record started (s : watch) : Prop := {
  st_active : active (epoll_ s) = true;
  st_chan : eventChan (epoll_ s) = OpenChan;
  st_room : (0 < eventChanSize (epoll_ s))%Z;
  st_watcher : exists w, fdToWatcher (epoll_ s) !! fd = Some w;
  st_listening : listening s = AtLoop;
  st_channel : channel s = [];
  st_probe : probe s = Ranging;
  st_sent : sent s = [];
  st_mounts : Forall mounts_line (mounts s);
  st_read : exists es mt, read s = [Some es] /\ mountTable s = Some mt /\ table_of mt es /\ (changed s = true \/ es = mounts s)
}.

(** ** One event *)

(** The messages for a change from [es0] to [es1] *)
Definition names_changes (es0 es1 : list mount_entry) (msgs : list EventMessage) : Prop :=
  exists devs, Sorted String.le devs /\ NoDup devs /\ (forall d, d ∈ devs <-> moved es0 es1 d) /\
    msgs = if decide (devs = []) then [] else [MkEventMessage ChangeEA (map mountWatch.device_at devs) [name] false].
Definition reports (v0 v1 : view) (msgs : list EventMessage) : Prop :=
  exists ms, names_changes (default [] v0) (default [] v1) ms /\
    msgs = ((if v1 then [] else [mountWatch.defaultMsg]) ++ ms)%list.

Definition opt_table (mt : option MountTab) (v : view) : Prop :=
  match mt, v with Some mt, Some es => table_of mt es | None, None => True | _, _ => False end.

Lemma processDiff_views mt0 mt1 v0 v1 :
  opt_table mt0 v0 -> opt_table mt1 v1 ->
  exists ms, names_changes (default [] v0) (default [] v1) ms /\
    mountWatch.processDiff name (GenerateDiff mt0 mt1) = Ret ms.
Proof.
  intros H0 H1.
  assert (Ht : forall mt v, opt_table mt v -> table_of (default empty_MountTab mt) (default [] v)) by (intros [] []; done).
  destruct (processDiff_spec name _ _ _ _ (Ht _ _ H0) (Ht _ _ H1)) as (devs & ? & ? & ? & Hx).
  eexists. split; [by exists devs|exact Hx].
Qed.

(** The handling of an event that found [v1] is over. *)
Definition ended (v0 v1 : view) (p : prog (option MountTab * list EventMessage)) : Prop :=
  exists mt msgs, p = Ret (mt, msgs) /\ opt_table mt v1 /\ reports v0 v1 msgs.

Lemma onEvent_calls mt v0 :
  file <> "" -> opt_table mt v0 ->
  exists k1 k2, mountWatch.onEvent file name mt = Call (Stat file) k1 /\
    (forall e, ended v0 None (k1 (inl e))) /\ (forall x, k1 (inr x) = Call (ReadFile file) k2) /\
    (forall e, ended v0 None (k2 (inl e))) /\
    (forall es, Forall mounts_line es -> ended v0 (Some es) (k2 (inr (print_mounts es)))).
Proof.
  intros Hf H0. destruct (newMountTable_calls file Hf) as (k1 & k2 & Hn & He1 & H1 & He2 & H2).
  unfold mountWatch.onEvent. rewrite Hn. cbn [bind].
  assert (Hnone : forall e : err, ended v0 None
    (bind (Ret (inl e)) (fun r => let '(newTable, sent) := match r with inl _ => (None, [mountWatch.defaultMsg]) | inr mt => (Some mt, []) end in
      msgs <- mountWatch.processDiff name (GenerateDiff mt newTable) ;; Ret (newTable, (sent ++ msgs)%list)))).
  { intros e. cbn [bind]. destruct (processDiff_views mt None v0 None H0 I) as (ms & Hms & ->).
    cbn. eexists _, _. split; [reflexivity|]. split; [done|]. by exists ms. }
  eexists _, _. split_and!; [reflexivity| | | |].
  - intros e. cbv beta. rewrite He1. apply (Hnone e).
  - intros x. cbv beta. rewrite H1. reflexivity.
  - intros e. cbv beta. rewrite He2. apply (Hnone e).
  - intros es Hes. cbv beta. destruct (H2 es Hes) as (mt' & -> & Ht). cbn [bind].
    destruct (processDiff_views mt (Some mt') v0 (Some es) H0 Ht) as (ms & Hms & ->).
    eexists _, _. split; [reflexivity|]. split; [done|]. by exists ms.
Qed.

(** ** The invariant *)

(** The messages of a sequence of readings *)
Inductive story : list view -> list EventMessage -> Prop :=
  | story_start v : story [v] []
  | story_next vs v0 v1 msgs ms :
      story vs msgs -> last vs = Some v0 -> reports v0 v1 ms -> story (vs ++ [v1]) (msgs ++ ms).

Definition pending (p : probe_at) : list EventMessage := match p with Reporting msgs => msgs | _ => [] end.

(** Another event is on its way to the probe *)
Definition reported (l : listener) : Prop :=
  match l with Dispatching evs => fd ∈ evs.*1 | Sending _ _ => True | _ => False end.
Definition coming (s : watch) : Prop := changed s = true \/ channel s <> [] \/ reported (listening s).
(** [v] is what the file says, unless it failed to be read or will be read again *)
Definition current (s : watch) (v : view) : Prop := coming s \/ v = None \/ v = Some (mounts s).

Definition before_read (v0 : view) (p : prog (option MountTab * list EventMessage)) : Prop :=
  match p with
  | Call e k =>
      match e in callE X return (X -> prog _) -> Prop with
      | ReadFile _ => fun k => (forall e, ended v0 None (k (inl e))) /\
          (forall es, Forall mounts_line es -> ended v0 (Some es) (k (inr (print_mounts es))))
      | _ => fun _ => False
      end k
  | _ => False
  end.
Definition before_stat (v0 : view) (p : prog (option MountTab * list EventMessage)) : Prop :=
  match p with
  | Call e k =>
      match e in callE X return (X -> prog _) -> Prop with
      | Stat _ => fun k => (forall e, ended v0 None (k (inl e))) /\ (forall x, before_read v0 (k (inr x)))
      | _ => fun _ => False
      end k
  | _ => False
  end.

Definition probe_ok (s : watch) (v0 : view) : Prop :=
  match probe s with
  | Ranging | Reporting _ => current s v0
  | Handling p => (found s = None /\ (before_stat v0 p \/ before_read v0 p)) \/ (ended v0 (found s) p /\ current s (found s))
  | Stopped => False
  end.

Record watch_inv (s : watch) : Prop := {
  wi_active : active (epoll_ s) = true;
  wi_chan : eventChan (epoll_ s) = OpenChan;
  wi_room : (0 < eventChanSize (epoll_ s))%Z;
  wi_watcher : exists w, fdToWatcher (epoll_ s) !! fd = Some w;
  wi_listening : listening s <> Finished;
  wi_channel : length (channel s) <= Z.to_nat (eventChanSize (epoll_ s));
  wi_mounts : Forall mounts_line (mounts s);
  wi_story : story (read s) (sent s ++ pending (probe s));
  wi_probe : exists v0, last (read s) = Some v0 /\ opt_table (mountTable s) v0 /\ probe_ok s v0
}.

Lemma started_inv s : started s -> watch_inv s.
Proof.
  intros [Ha Hc Hroom Hw Hl Hq Hp Hs Hm (es & mt & Hr & Hmt & Ht & Hch)].
  split; [done|done|done|done|by rewrite Hl|rewrite Hq; cbn; lia|done|rewrite Hr, Hs, Hp; apply story_start|].
  exists (Some es). rewrite Hr, Hmt. split_and!; [done|done|]. unfold probe_ok, current, coming. rewrite Hp.
  destruct Hch as [?| ->]; auto.
Qed.

(** What the goroutine of the epoll does by itself *)
Lemma reported_step s a l :
  watch_inv s -> listen_step (epoll_ s) (listening s) a l -> reported (listening s) ->
  reported l \/ exists ev, a = Sends ev.
Proof.
  intros Hi Hst. inversion Hst as [Heq|evs Heq|Heq|ev evs Heq|ev evs Hc Heq]; subst; cbn; [done|done|set_solver| |eauto].
  rewrite (wi_active s Hi). cbn. intros [Hev|Hin]%elem_of_cons.
  - destruct (wi_watcher s Hi) as (w & Hw). rewrite <-Hev, Hw. by left.
  - destruct (fdToWatcher (epoll_ s) !! ev.1); by left.
Qed.

(** Steps that leave the probe alone *)
Lemma probe_ok_coming s s' v0 :
  probe s' = probe s -> found s' = found s -> (forall v, current s v -> current s' v) -> probe_ok s v0 -> probe_ok s' v0.
Proof.
  intros Hp Hf Hc. unfold probe_ok. rewrite Hp, Hf. destruct (probe s); [apply Hc| |apply Hc|done].
  intros [?|[? ?%Hc]]; auto.
Qed.

Lemma ended_once v0 v1 X (e : callE X) k : ~ ended v0 v1 (Call e k).
Proof. by intros (mt & msgs & [=] & _). Qed.

Lemma call_ok s v0 X (e : callE X) k x :
  watch_inv s -> probe s = Handling (Call e k) -> probe_ok s v0 -> answered s X e x ->
  probe_ok (s <| probe := Handling (k x) |> <| found := finds s X e x |>) v0.
Proof.
  intros Hi Hp Hok Hx. unfold probe_ok in Hok. rewrite Hp in Hok.
  destruct Hok as [[Hf [Hok|Hok]]|[[]%ended_once _]]; cbn in Hok; destruct e; try done; destruct Hok as [He Hr];
    unfold probe_ok; cbn; rewrite Hf.
  - destruct x as [er|x]; [|by left; auto]. right. split; [apply He|]. right. by left.
  - right. destruct x as [er|text].
    + split; [apply He|]. right. by left.
    + cbn in Hx. rewrite (Hx text eq_refl). split; [apply Hr, (wi_mounts s Hi)|]. right. by right.
Qed.

Lemma watch_inv_step s s' : file <> "" -> watch_inv s -> watch_step s s' -> watch_inv s'.
Proof.
  intros Hf Hi Hst. pose proof Hi as [Ha Hc Hsize Hw Hl Hq Hm Hs (v0 & Hlast & Ht & Hok)].
  assert (Hlisten : forall a l, listen_step (epoll_ s) (listening s) a l -> l <> Finished) by (intros; by eapply listen_step_goes).
  inversion Hst as [? es Hes|? l Hstep|? evs l Hstep|? ev l Hstep Hroom|? ev q Hp Hch|? Hp Hch Hcl|? X e k x Hp Hx|? mt msgs Hp|? msg msgs Hp|? Hp];
    subst.
  - split; try done. exists v0. split_and!; [done..|]. eapply probe_ok_coming; [..|exact Hok]; [done..|]. by left; left.
  - split; try done; [by eapply Hlisten|]. exists v0. split_and!; [done..|].
    eapply probe_ok_coming; [..|exact Hok]; [done..|]. intros v [[?|[?|Hr]]|?]; [by left; left|by left; right; left| |by right].
    left. right. right. by destruct (reported_step s _ _ Hi Hstep Hr) as [?|(ev & [=])].
  - split; try done; [by eapply Hlisten|]. exists v0. split_and!; [done..|].
    eapply probe_ok_coming; [..|exact Hok]; [done..|]. inversion Hstep as [|? Heq| | |]; subst.
    intros v [[Hch|[?|Hr]]|?]; [left|by left; right; left|by rewrite <-Heq in Hr|by right].
    unfold coming. cbn. case_decide; [by right; right|by left].
  - split; try done; [by eapply Hlisten|cbn; rewrite length_app; cbn; lia|]. exists v0. split_and!; [done..|].
    eapply probe_ok_coming; [..|exact Hok]; [done..|]. intros v _. left. right. left. cbn. by destruct (channel s).
  - split; try done; [cbn; rewrite Hch in Hq; cbn in Hq; lia|cbn; by rewrite Hp in Hs|]. exists v0. split_and!; [done..|].
    left. split; [done|]. left. destruct (onEvent_calls _ v0 Hf Ht) as (k1 & k2 & -> & He1 & H1 & He2 & H2).
    split; [done|]. intros x. rewrite H1. done.
  - congruence.
  - split; try done; [cbn; by rewrite Hp in Hs|]. exists v0. split_and!; [done..|]. by apply call_ok.
  - unfold probe_ok in Hok. rewrite Hp in Hok, Hs. cbn in Hs. rewrite app_nil_r in Hs.
    destruct Hok as [[_ [[]|[]]]|[(mt' & msgs' & [= <- <-] & Ht' & Hr) Hcur]].
    split; try done; [by eapply story_next|]. exists (found s). cbn. split_and!; [by rewrite last_snoc|done..].
  - split; try done; [cbn; rewrite Hp in Hs; by rewrite <-app_assoc|]. exists v0. split_and!; [done..|].
    unfold probe_ok in *. by rewrite Hp in Hok.
  - split; try done; [cbn; by rewrite Hp in Hs|]. exists v0. split_and!; [done..|]. unfold probe_ok in *. by rewrite Hp in Hok.
Qed.

Lemma watch_inv_steps s s' : file <> "" -> watch_inv s -> rtc watch_step s s' -> watch_inv s'.
Proof. intros Hf Hi. induction 1; [done|]. eauto using watch_inv_step. Qed.
Lemma watch_inv_run s0 s : file <> "" -> started s0 -> rtc watch_step s0 s -> watch_inv s.
Proof. intros Hf H0%started_inv. by apply watch_inv_steps. Qed.

(** ** Nothing is lost *)

Lemma seen_dec es d t : seen es d t \/ ~ seen es d t.
Proof.
  destruct (decide (Exists (fun e => watched e = true /\ meDev e = d /\ meDir e = t) es)) as [He|He];
    [left|right; intros (e & Hin & Hw & Hd & Ht); apply He]; [|apply Exists_exists; eauto].
  apply Exists_exists in He as (e & Hin & Hw & Hd & Ht). by exists e.
Qed.

Lemma moved_trans es1 es0 es2 d : moved es0 es2 d -> moved es0 es1 d \/ moved es1 es2 d.
Proof.
  intros (t & [[H2 H0]|[H0 H2]]); destruct (seen_dec es1 d t); [left|right|right|left]; exists t; auto.
Qed.

(** The messages ask to look at a device *)
Definition asks (msgs : list EventMessage) (d : string) : Prop :=
  exists msg, msg ∈ msgs /\ mountWatch.device_at d ∈ Devices msg.

Lemma reports_asks v0 v1 ms d : reports v0 v1 ms -> moved (default [] v0) (default [] v1) d -> asks ms d.
Proof.
  intros (ms' & (devs & _ & _ & Hin & ->) & ->) Hm%Hin. destruct (decide (devs = [])) as [->|]; [by apply elem_of_nil in Hm|].
  eexists. split; [apply elem_of_app; right; by apply list_elem_of_singleton|]. cbn. by apply (list_elem_of_fmap_2 mountWatch.device_at).
Qed.

Lemma story_asks vs msgs v0 v d :
  story vs msgs -> head vs = Some v0 -> last vs = Some v -> moved (default [] v0) (default [] v) d -> asks msgs d.
Proof.
  intros Hs. revert v. induction Hs as [v'|vs v1 v2 msgs ms Hs IH Hl Hr]; intros v Hh Hv Hm.
  - cbn in Hh, Hv. simplify_eq. destruct Hm as (t & [[? []]|[? []]]); done.
  - rewrite last_snoc in Hv. injection Hv as <-. destruct vs as [|v' vs]; [done|]. 
    destruct (moved_trans (default [] v1) _ _ _ Hm) as [Hm'|Hm'].
    + destruct (IH v1 Hh Hl Hm') as (msg & ? & ?). exists msg. set_solver.
    + destruct (reports_asks _ _ _ _ Hr Hm') as (msg & ? & ?). exists msg. set_solver.
Qed.

Lemma story_failed vs msgs : story vs msgs -> last vs = Some None -> head vs = Some None \/ mountWatch.defaultMsg ∈ msgs.
Proof.
  intros [v|vs' v0 v1 msgs' ms Hs Hl (ms' & _ & ->)]; [cbn; auto|]. rewrite last_snoc. intros [= ->]. right. set_solver.
Qed.

(** Nothing is under way, and the probe waits for the next event. *)
Definition at_rest (s : watch) : Prop :=
  changed s = false /\ channel s = [] /\ probe s = Ranging /\ ~ reported (listening s).

Lemma head_read s s' v : watch_step s s' -> head (read s) = Some v -> head (read s') = Some v.
Proof. intros Hst Hh. inversion Hst; subst; try done. cbn. by destruct (read s). Qed.

Lemma head_read_run s s' v : rtc watch_step s s' -> head (read s) = Some v -> head (read s') = Some v.
Proof. induction 1; [done|]. intros. by eauto using head_read. Qed.

(** What is known at rest: the probe has the table of the mounts, and asked for every device
    whose mount points changed since [es0]; or its last reading failed, and it asked for all. *)
Definition settled (es0 : list mount_entry) (s : watch) : Prop :=
  (exists mt, mountTable s = Some mt /\ table_of mt (mounts s) /\ forall d, moved es0 (mounts s) d -> asks (sent s) d) \/
  (mountTable s = None /\ mountWatch.defaultMsg ∈ sent s).

Lemma rest_settled s es0 : watch_inv s -> head (read s) = Some (Some es0) -> at_rest s -> settled es0 s.
Proof.
  intros [_ _ _ _ _ _ _ Hs (v0 & Hlast & Ht & Hok)] Hhead (Hch & Hempty & Hp & Hrep).
  unfold probe_ok in Hok. rewrite Hp in Hok, Hs. cbn in Hs. rewrite app_nil_r in Hs.
  destruct Hok as [[?|[?|?]]|[->| ->]]; [congruence|done|done| |].
  - right. split; [by destruct (mountTable s)|]. by destruct (story_failed _ _ Hs Hlast) as [?|?]; [congruence|].
  - left. destruct (mountTable s) as [mt|]; [|done]. exists mt. split_and!; [done..|].
    intros d Hd. by eapply (story_asks _ _ (Some es0) (Some (mounts s))).
Qed.

(** ** Nothing is stuck *)

(** [s] gets to a state with [P] without another mount *)
Definition gets (s : watch) (P : watch -> Prop) : Prop :=
  exists s', rtc watch_step s s' /\ mounts s' = mounts s /\ P s'.

Lemma gets_refl s (P : watch -> Prop) : P s -> gets s P.
Proof. intros. by exists s. Qed.
Lemma gets_step s s' (P : watch -> Prop) : watch_step s s' -> mounts s' = mounts s -> gets s' P -> gets s P.
Proof. intros Hst Hm (s2 & ? & Hm' & ?). exists s2. split_and!; [by eapply rtc_l|congruence|done]. Qed.
Lemma gets_trans s (P Q : watch -> Prop) : gets s P -> (forall s', rtc watch_step s s' -> P s' -> gets s' Q) -> gets s Q.
Proof.
  intros (s1 & Hr & Hm & Hp) Hn. destruct (Hn s1 Hr Hp) as (s2 & Hr' & Hm' & ?). exists s2.
  split_and!; [by etrans|congruence|done].
Qed.

Lemma gets_mono s (P Q : watch -> Prop) : gets s P -> (forall s', P s' -> Q s') -> gets s Q.
Proof. intros (s1 & ? & ? & ?) Hpq. exists s1. auto. Qed.

Definition same_events (s s' : watch) : Prop :=
  changed s' = changed s /\ epoll_ s' = epoll_ s /\ listening s' = listening s /\ channel s' = channel s.

Lemma reporting_ends s msgs : probe s = Reporting msgs -> gets s (fun s' => probe s' = Ranging /\ same_events s s').
Proof.
  revert s. induction msgs as [|msg msgs IH]; intros s Hp; [by eapply gets_step; [by apply w_reported|..|by apply gets_refl]|].
  eapply gets_step; [by eapply w_report|done|]. by eapply gets_mono; [apply IH|].
Qed.

Lemma ended_reports s v0 v p :
  probe s = Handling p -> ended v0 v p -> gets s (fun s' => probe s' = Ranging /\ same_events s s').
Proof.
  intros Hp (mt & msgs & -> & _). eapply gets_step; [by eapply w_handled|done|]. by eapply gets_mono; [eapply reporting_ends|].
Qed.

Lemma handling_ends s : watch_inv s -> gets s (fun s' => probe s' = Ranging /\ same_events s s').
Proof.
  intros [_ _ _ _ _ _ Hm _ (v0 & _ & _ & Hok)]. unfold probe_ok in Hok.
  destruct (probe s) as [|p|msgs|] eqn:Hp; [by apply gets_refl| |by eapply reporting_ends|done].
  assert (Hread : forall s p, probe s = Handling p -> Forall mounts_line (mounts s) -> before_read v0 p ->
    gets s (fun s' => probe s' = Ranging /\ same_events s s')).
  { clear. intros s p Hp Hm Hb. destruct p as [| |X e k]; [done..|]. cbn in Hb. destruct e; try done. destruct Hb as [_ Hr].
    eapply gets_step; [eapply (w_call _ _ _ _ (inr (print_mounts (mounts s)))); [done|by intros ? [= <-]]|done|].
    by eapply gets_mono; [eapply (ended_reports _ v0 (Some (mounts s))); [done|by apply Hr]|]. }
  destruct Hok as [[_ [Hb|Hb]]|[He _]]; [|by eapply Hread|by eapply ended_reports].
  destruct p as [| |X e k]; [done..|]. cbn in Hb. destruct e; try done. destruct Hb as [_ Hr].
  eapply gets_step; [by eapply (w_call _ _ _ _ (inr (false, 0%Z)))|done|]. by eapply gets_mono; [eapply Hread|].
Qed.

Lemma channel_drains s :
  file <> "" -> watch_inv s ->
  gets s (fun s' => probe s' = Ranging /\ channel s' = [] /\ changed s' = changed s /\ listening s' = listening s).
Proof.
  intros Hf. remember (channel s) as q eqn:Hq. revert s Hq. induction q as [|ev q IH]; intros s Hq Hi;
    (eapply gets_trans; [by apply handling_ends|]); intros s1 Hr (Hp & Hch & _ & Hl & Hq').
  - apply gets_refl. split_and!; congruence.
  - eapply gets_step; [eapply (w_take s1 ev q); congruence|done|].
    eapply gets_mono; [apply IH|]; [done| |cbn; intros s2; rewrite Hch, Hl; done].
    eapply watch_inv_step; [done| |eapply (w_take s1 ev q); congruence]. by eapply (watch_inv_steps s).
Qed.

(** How far the goroutine of the epoll is from EpollWait *)
Definition ahead (l : listener) : nat :=
  match l with Waiting | Finished => 0 | AtLoop => 1 | Dispatching evs => 2 + 2 * length evs | Sending _ evs => 3 + 2 * length evs end.

Lemma listener_waits s :
  file <> "" -> watch_inv s ->
  gets s (fun s' => listening s' = Waiting /\ probe s' = Ranging /\ channel s' = [] /\ changed s' = changed s).
Proof.
  intros Hf. remember (ahead (listening s)) as n eqn:Hn. revert s Hn.
  induction n as [n IH] using lt_wf_ind. intros s Hn Hi.
  assert (Hgo : forall s', watch_step s s' -> mounts s' = mounts s -> changed s' = changed s -> ahead (listening s') < n ->
    gets s (fun s' => listening s' = Waiting /\ probe s' = Ranging /\ channel s' = [] /\ changed s' = changed s)).
  { intros s' Hst Hm Hch Hlt. eapply gets_step; [done..|]. eapply gets_mono; [by eapply IH; [..|by eapply watch_inv_step]|].
    by rewrite Hch. }
  destruct (listening s) as [| |[|ev evs]|ev evs|] eqn:Hl; subst n.
  - eapply Hgo; [apply w_listen; rewrite Hl; apply listen_loop|done..|]. cbn. rewrite (wi_active s Hi). cbn. lia.
  - eapply gets_mono; [by apply channel_drains|]. cbn. intros s'. rewrite Hl. naive_solver.
  - eapply Hgo; [apply w_listen; rewrite Hl; apply listen_round|done..|]. cbn. lia.
  - eapply Hgo; [apply w_listen; rewrite Hl; apply listen_event|done..|]. cbn. rewrite (wi_active s Hi). cbn.
    destruct (fdToWatcher (epoll_ s) !! ev.1); cbn; lia.
  - eapply gets_trans; [by apply channel_drains|]. cbn. intros s1 Hr (Hp & Hq & Hch & Hl1).
    pose proof (watch_inv_steps _ _ Hf Hi Hr) as Hi1. rewrite Hl in Hl1.
    assert (Hst : watch_step s1 (s1 <| listening := Dispatching evs |> <| channel ::= fun q => (q ++ [ev])%list |>)).
    { apply w_send; [rewrite Hl1; by apply listen_send, wi_chan|]. rewrite Hq. pose proof (wi_room s1 Hi1). cbn. lia. }
    eapply gets_step; [exact Hst|done|].
    eapply gets_mono; [eapply (IH (2 + 2 * length evs)); [cbn; lia|done|by eapply watch_inv_step]|].
    cbn. by rewrite Hch.
  - by destruct (wi_listening s Hi).
Qed.

Lemma watch_rests s : file <> "" -> watch_inv s -> gets s at_rest.
Proof.
  intros Hf Hi. eapply gets_trans; [by apply listener_waits|]. intros s1 Hr1 (Hl & Hp & Hq & _).
  destruct (changed s1) eqn:Hch; [|apply gets_refl; unfold at_rest; rewrite Hl; by split_and!; [..|intros []]].
  assert (Hst : watch_step s1 (s1 <| listening := Dispatching (take 2 [(fd, 2%Z)]) |>
    <| changed ::= fun ch => if decide (fd ∈ (take 2 [(fd, 2%Z)]).*1) then false else ch |>)).
  { apply w_wait. rewrite Hl. apply listen_wait. }
  eapply gets_step; [exact Hst|done|].
  eapply gets_mono; [apply listener_waits; [done|]; eapply watch_inv_step; [done| |exact Hst]; by eapply watch_inv_steps|].
  intros s2 (Hl2 & Hp2 & Hq2 & Hch2). unfold at_rest. rewrite Hl2. split_and!; [|done..|by intros []].
  rewrite Hch2. cbn. rewrite decide_True; [done|]. set_solver.
Qed.

End Watch.

(** ** The probe that Start started *)

Lemma setupEpoll_exec {W} (o : oracle W) file s s' e :
  exec o (mountWatch.setupEpoll file) s = (s', Returned (inr e)) ->
  exists epfd fd, let w := MkWatcher fd file [EPOLLERR; EPOLLPRI] in
    e = MkEpoll [w] {[file := w]} {[fd := w]} NoChan 10 epfd false false.
Proof.
  unfold mountWatch.setupEpoll, epoll.New. intros (s1 & ep & Hn & Hx)%exec_bind_inv.
  apply exec_call_inv in Hn as (s2 & [er|epfd] & _ & [= _ <-]); [done|].
  apply exec_bind_inv in Hx as (s3 & [e' er] & Ha & Hx). destruct er; [done|]. injection Hx as _ <-.
  unfold AddWatcher in Ha. cbn in Ha. rewrite lookup_empty in Ha. cbn in Ha.
  apply exec_call_inv in Ha as (s4 & [er|fd] & _ & Ha); [done|].
  apply exec_call_inv in Ha as (s5 & [er|] & _ & Ha); [done|]. injection Ha as _ <-. by exists epfd, fd.
Qed.

(** Start leaves a probe from which [mounts_followed] goes on, when the mounts file is one
    the kernel writes; [es] is what it read, and the mounts may have changed since. *)
Lemma Start_started {W} (o : oracle W) fg file s s' e mt :
  file <> "" ->
  (forall w w' text, o _ (ReadFile file) w = (w', inr text) -> exists es, Forall mounts_line es /\ text = print_mounts es) ->
  exec o (mountWatch.Start fg file) s = (s', Returned (Some (e, mt))) -> epfd e <> 0%Z ->
  exists e' fd es, epoll.Start e = inr e' /\
    forall cur ch, Forall mounts_line cur -> ch = true \/ es = cur ->
      started fd (MkWatch cur ch e' AtLoop [] Ranging (Some mt) None [Some es] []).
Proof.
  intros Hf Hread. unfold mountWatch.Start. destruct (negb _); [done|]. intros (s1 & [er|e1] & Hs & Hx)%exec_bind_inv Hfd; [done|].
  apply exec_bind_inv in Hx as (s2 & [er|mt'] & Hn & [= _ -> ->]).
  destruct (setupEpoll_exec _ _ _ _ _ Hs) as (epfd & fd & ->).
  destruct (newMountTable_calls file Hf) as (k1 & k2 & Heq & He1 & H1 & He2 & H2). rewrite Heq in Hn.
  apply exec_call_inv in Hn as (s3 & [er|x] & _ & Hn); [by rewrite He1 in Hn|]. rewrite H1 in Hn.
  apply exec_call_inv in Hn as (s4 & [er|text] & Ho & Hn); [by rewrite He2 in Hn|].
  destruct (Hread _ _ _ Ho) as (es & Hes & ->). destruct (H2 es Hes) as (mt' & Hmt & Ht). rewrite Hmt in Hn. injection Hn as _ ->.
  eexists _, fd, es. split; [by apply Start_inr|]. intros cur ch Hcur Hch.
  split; try done; [cbn; eexists; apply lookup_insert_eq|]. by exists es, mt.
Qed.

(** A probe that has just started on the mounts of [before_mount] *)
Definition sample_watch : watch :=
  MkWatch before_mount false mounts_epoll AtLoop [] Ranging
    (Some (empty_MountTab <| entries := map (fun e => (fs_of e) <| tab := true |>) (filter (fun e => watched e = true) before_mount) |>))
    None [Some before_mount] [].

