(* ===== verification/Lifecycle.v ===== *)
(** * The life cycle of a block device resource

    What NDM as a whole promises to the users of its resources, independently of how
    the daemon and the operator do it: the states of a claim on a device, the
    transitions between them, and the evidence each transition needs.  The handlers are
    proved against [ndm_protocol]: whatever the API server answers, each write they
    make is a transition from a version of the object they have read. *)

From Stdlib Require Import ZArith.
From stdpp Require Import base list strings gmap.
From S2P Require Import Prelude Types Prog.

Local Open Scope string_scope.

(** ** States *)

Inductive phase :=
  | Free                                        (* may be claimed *)
  | Held (ref : option metav1.ObjectReference)  (* claimed by [ref] *)
  | Dirty                                       (* released, data not wiped yet *)
  | Odd (s : string).                           (* a claim state NDM does not write *)

Definition phase_of (b : apis.BlockDevice) : phase :=
  if decide (apis.bd_claimstate b = apis.BlockDeviceUnclaimed) then Free
  else if decide (apis.bd_claimstate b = apis.BlockDeviceClaimed) then Held (apis.bd_claimref b)
  else if decide (apis.bd_claimstate b = apis.BlockDeviceReleased) then Dirty
  else Odd (apis.bd_claimstate b).

(** A stored device is claimed exactly if it has a claim reference. *)
Definition wf_bd (b : apis.BlockDevice) : Prop :=
  is_Some (apis.bd_claimref b) <-> apis.bd_claimstate b = apis.BlockDeviceClaimed.

Definition BlockDeviceClaimFinalizer := "openebs.io/bdc-protection".
Definition BlockDeviceFinalizer := "openebs.io/bd-protection".

Definition deleting (c : apis.BlockDeviceClaim) : Prop :=
  is_Some (metav1.DeletionTimestamp (apis.CObjectMeta c)).

(** ** Evidence: what a program has read and written so far *)

Record evidence := Evidence {
  read_bd : list apis.BlockDevice;
  wrote_bd : list apis.BlockDevice;
  read_bdc : list apis.BlockDeviceClaim;
  read_job : list (string * string * batchv1.Job)
}.
Definition no_evidence : evidence := Evidence [] [] [] [].

Definition evidence_le (K K' : evidence) : Prop :=
  read_bd K ⊆ read_bd K' /\ wrote_bd K ⊆ wrote_bd K' /\
  read_bdc K ⊆ read_bdc K' /\ read_job K ⊆ read_job K'.

#[global] Instance evidence_le_preorder : PreOrder evidence_le.
Proof. split; [|intros ???]; unfold evidence_le; intuition set_solver. Qed.

(** ** Transitions *)

Section Transitions.
(** The finalizer that keeps a claimed device from being deleted. *)
Definition protected (b : apis.BlockDevice) : Prop :=
  BlockDeviceFinalizer ∈ metav1.Finalizers (apis.ObjectMeta b).

Inductive bd_step (K : evidence) (b b' : apis.BlockDevice) : Prop :=
  (* everything but the claim may change *)
  | step_keep :
      apis.bd_claimstate b' = apis.bd_claimstate b ->
      apis.bd_claimref b' = apis.bd_claimref b -> bd_step K b b'
  (* a free, active device is claimed for a claim that is not being deleted *)
  | step_claim c ref :
      c ∈ read_bdc K -> ~ deleting c ->
      apis.bd_state b = apis.BlockDeviceActive -> phase_of b = Free ->
      apis.bd_claimref b' = Some ref ->
      metav1.RefName ref = apis.bdc_name c ->
      metav1.RefUID ref = metav1.UID (apis.CObjectMeta c) ->
      apis.bd_claimstate b' = apis.BlockDeviceClaimed ->
      protected b' -> bd_step K b b'
  (* the holder of a device gives it back when it is being deleted *)
  | step_release c ref :
      c ∈ read_bdc K -> deleting c ->
      apis.bdc_finalizers c = [BlockDeviceClaimFinalizer] ->
      apis.bd_claimstate b = apis.BlockDeviceClaimed -> apis.bd_claimref b = Some ref ->
      metav1.RefName ref = apis.bdc_name c ->
      metav1.RefUID ref = metav1.UID (apis.CObjectMeta c) ->
      apis.bd_claimref b' = None -> apis.bd_claimstate b' = apis.BlockDeviceReleased ->
      bd_step K b b'
  (* a released device is free again after a cleanup job for it has succeeded *)
  | step_clean ns job :
      (ns, "cleanup-" +:+ apis.bd_name b, job) ∈ read_job K ->
      (0 < batchv1.Succeeded job)%Z ->
      phase_of b = Dirty -> apis.bd_claimref b' = apis.bd_claimref b ->
      apis.bd_claimstate b' = apis.BlockDeviceUnclaimed -> bd_step K b b'.

(** A claim is bound only to a device that was claimed for it before, and loses its
    protection only after a device held by it was released. *)
Inductive bdc_step (K : evidence) (c c' : apis.BlockDeviceClaim) : Prop :=
  | step_pending :
      apis.CSpec c' = apis.CSpec c -> apis.CObjectMeta c' = apis.CObjectMeta c ->
      apis.Phase c <> apis.BlockDeviceClaimStatusDone ->
      apis.Phase c' = apis.BlockDeviceClaimStatusPending -> bdc_step K c c'
  | step_bind b ref :
      apis.Phase c <> apis.BlockDeviceClaimStatusDone -> ~ deleting c ->
      apis.Phase c' = apis.BlockDeviceClaimStatusDone ->
      b ∈ wrote_bd K -> apis.bd_claimstate b = apis.BlockDeviceClaimed ->
      apis.bd_claimref b = Some ref -> protected b ->
      metav1.RefName ref = apis.bdc_name c -> metav1.RefUID ref = metav1.UID (apis.CObjectMeta c) ->
      apis.BlockDeviceName (apis.CSpec c') = apis.bd_name b ->
      BlockDeviceClaimFinalizer ∈ apis.bdc_finalizers c' -> bdc_step K c c'
  | step_unprotect b :
      deleting c -> apis.bdc_finalizers c = [BlockDeviceClaimFinalizer] ->
      apis.bdc_finalizers c' = [] -> apis.CSpec c' = apis.CSpec c -> apis.Phase c' = apis.Phase c ->
      b ∈ wrote_bd K -> apis.bd_claimstate b = apis.BlockDeviceReleased ->
      bdc_step K c c'.

(** A new resource is free. *)
Definition bd_initial (b : apis.BlockDevice) : Prop :=
  apis.bd_claimstate b = apis.BlockDeviceUnclaimed /\ apis.bd_claimref b = None.

(** ** The protocol of the programs *)

Definition ndm_may (K : evidence) (X : Type) (e : callE X) : Prop :=
  match e with
  | BDCreate b => bd_initial b
  | BDUpdate b =>
      exists b0, b0 ∈ read_bd K /\ apis.bd_key b0 = apis.bd_key b /\ apis.bd_rv b0 = apis.bd_rv b /\
        bd_step K b0 b
  | BDDelete _ _ => False
  | BDCUpdate c =>
      exists c0, c0 ∈ read_bdc K /\ apis.bdc_key c0 = apis.bdc_key c /\ apis.bdc_rv c0 = apis.bdc_rv c /\
        metav1.UID (apis.CObjectMeta c0) = metav1.UID (apis.CObjectMeta c) /\ bdc_step K c0 c
  | _ => True
  end.

(** What is known of an answer: an object read was stored, under the key asked for. *)
Definition ndm_says (K : evidence) (X : Type) (e : callE X) : X -> Prop :=
  match e in callE X return X -> Prop with
  | BDGet ns n => fun x => forall b, x = inr b -> wf_bd b /\ apis.bd_key b = (ns, n)
  | BDList _ _ => fun x => forall l b, x = inr l -> b ∈ l -> wf_bd b
  | BDCGet ns n => fun x => forall c, x = inr c -> apis.bdc_key c = (ns, n)
  | JobGet ns n => fun x => forall j, x = inr j ->
      (0 <= batchv1.Succeeded j)%Z /\ metav1.Name (batchv1.JobMeta j) = n
  | _ => fun _ => True
  end.

Definition ndm_learn (K : evidence) (X : Type) (e : callE X) : X -> evidence :=
  match e in callE X return X -> evidence with
  | BDGet _ _ => fun x =>
      match x with inr b => Evidence (b :: read_bd K) (wrote_bd K) (read_bdc K) (read_job K) | inl _ => K end
  | BDList _ _ => fun x =>
      match x with inr l => Evidence (l ++ read_bd K) (wrote_bd K) (read_bdc K) (read_job K) | inl _ => K end
  | BDUpdate b => fun x =>
      match x with inr _ => Evidence (read_bd K) (b :: wrote_bd K) (read_bdc K) (read_job K) | inl _ => K end
  | BDCGet _ _ => fun x =>
      match x with inr c => Evidence (read_bd K) (wrote_bd K) (c :: read_bdc K) (read_job K) | inl _ => K end
  | BDCList _ => fun x =>
      match x with inr l => Evidence (read_bd K) (wrote_bd K) (l ++ read_bdc K) (read_job K) | inl _ => K end
  | JobGet ns n => fun x =>
      match x with inr j => Evidence (read_bd K) (wrote_bd K) (read_bdc K) ((ns, n, j) :: read_job K) | inl _ => K end
  | _ => fun _ => K
  end.

Definition ndm_protocol (allow_panic : bool) : protocol := {|
  know := evidence;
  may := ndm_may;
  says := ndm_says;
  learn := ndm_learn;
  panics := allow_panic
|}.

Lemma ndm_learn_le K X (e : callE X) x : evidence_le K (ndm_learn K X e x).
Proof.
  unfold evidence_le. destruct e; cbn; try set_solver;
    destruct x; cbn; repeat split; set_solver.
Qed.

Lemma ndm_learn_weaken ap A K (p : prog A) Q :
  wp (ndm_protocol ap) K p Q ->
  wp (ndm_protocol ap) K p (fun K' a => evidence_le K K' /\ Q K' a).
Proof. apply (wp_frame (ndm_protocol ap) evidence_le), ndm_learn_le. Qed.

(** *** Rules for programs under the protocol *)

Definition anything {A} : evidence -> A -> Prop := fun _ _ => True.

Section Rules.
Context (ap : bool).

Lemma wp_bind_mono {A B} K (p : prog A) (f : A -> prog B) R Q :
  wp (ndm_protocol ap) K p R ->
  (forall K' a, evidence_le K K' -> R K' a -> wp (ndm_protocol ap) K' (f a) Q) ->
  wp (ndm_protocol ap) K (bind p f) Q.
Proof.
  intros Hp Hf. apply wp_bind. eapply wp_mono; [|apply ndm_learn_weaken, Hp].
  cbn. intros K' a [? ?]. by apply Hf.
Qed.

Lemma wp_bind_any {A B} K (p : prog A) (f : A -> prog B) Q :
  wp (ndm_protocol ap) K p anything ->
  (forall K' a, evidence_le K K' -> wp (ndm_protocol ap) K' (f a) Q) ->
  wp (ndm_protocol ap) K (bind p f) Q.
Proof. intros Hp Hf. eapply wp_bind_mono; [exact Hp|]. auto. Qed.

(** One call and its continuation; the evidence grows by the answer. *)
Lemma wp_call {X B} K (e : callE X) (k : X -> prog B) Q :
  ndm_may K X e ->
  (forall x, ndm_says K X e x -> evidence_le K (ndm_learn K X e x) ->
     wp (ndm_protocol ap) (ndm_learn K X e x) (k x) Q) ->
  wp (ndm_protocol ap) K (bind (call e) k) Q.
Proof. intros Hm Hk. split; [done|]. intros x Hx. apply Hk; [done|apply ndm_learn_le]. Qed.
End Rules.

(** More evidence never hurts. *)
Lemma bd_step_mono K K' b b' : evidence_le K K' -> bd_step K b b' -> bd_step K' b b'.
Proof.
  intros (_ & _ & Hc & Hj) []; [by apply step_keep|eapply step_claim|eapply step_release|eapply step_clean]; eauto.
Qed.

Lemma bdc_step_mono K K' c c' : evidence_le K K' -> bdc_step K c c' -> bdc_step K' c c'.
Proof.
  intros (_ & Hw & _ & _) []; [by apply step_pending|eapply step_bind|eapply step_unprotect]; eauto.
Qed.
End Transitions.

Notation wp_safe := (wp (ndm_protocol true)).
Notation wp_total := (wp (ndm_protocol false)).

(** A program that never panics is safe. *)
Lemma wp_total_safe {A} K (p : prog A) Q : wp_total K p Q -> wp_safe K p Q.
Proof.
  revert K. induction p as [a|m|X e k IH]; intros K; cbn; [done..|].
  intros [? Hk]. split; [done|]. intros x Hx. apply IH, Hk, Hx.
Qed.
