(* ===== verification/DaemonSafe.v ===== *)
(** * The daemon follows the protocol

    Every program of the daemon, for any answers of the API server, the system and the
    probes, only creates free resources and only makes updates that keep the claim of a
    resource it has read ([ndm_protocol] of Lifecycle).  A program may panic. *)

From Stdlib Require Import ZArith Lia.
From stdpp Require Import base list strings gmap.
From S2P Require Import Prelude GoStrings Md5 Types Prog Util Features K8sLib Controller Store Partition Uuid Handlers Lifecycle.

Local Open Scope string_scope.

Create HintDb daemon.

Section Daemon.
Context `{K8sLib}.

(** A version of an object that was read, up to what is not its identity or claim. *)
Definition derived (K : evidence) (b : apis.BlockDevice) : Prop :=
  exists b0, b0 ∈ read_bd K /\ wf_bd b0 /\ apis.bd_key b0 = apis.bd_key b /\
    apis.bd_rv b0 = apis.bd_rv b /\ apis.bd_claimstate b0 = apis.bd_claimstate b /\
    apis.bd_claimref b0 = apis.bd_claimref b.

Lemma derived_mono K K' b : evidence_le K K' -> derived K b -> derived K' b.
Proof. intros (Hr & _) (b0 & ? & ?). exists b0. split; [by apply Hr|done]. Qed.

Lemma derived_read K b : b ∈ read_bd K -> wf_bd b -> derived K b.
Proof. intros. by exists b. Qed.

(** *** Writes of the store *)

Lemma update_keep K b b' :
  derived K b -> apis.bd_key b' = apis.bd_key b -> apis.bd_rv b' = apis.bd_rv b ->
  apis.bd_claimstate b' = apis.bd_claimstate b -> apis.bd_claimref b' = apis.bd_claimref b ->
  ndm_may K _ (BDUpdate b').
Proof.
  intros (b0 & ? & _ & Hk & Hr & Hs & Hc) ????. exists b0.
  repeat split; [done|congruence..|]. apply step_keep; congruence.
Qed.

Lemma merge_key new old : apis.bd_key (mergeBlockDeviceData new old) = apis.bd_key old.
Proof. unfold mergeBlockDeviceData. case_decide; done. Qed.
Lemma merge_rv new old : apis.bd_rv (mergeBlockDeviceData new old) = apis.bd_rv old.
Proof. unfold mergeBlockDeviceData. case_decide; done. Qed.

(** Merging never changes who holds a device. *)
Lemma merge_claim new old :
  bd_initial new -> wf_bd old ->
  apis.bd_claimstate (mergeBlockDeviceData new old) = apis.bd_claimstate old /\
  apis.bd_claimref (mergeBlockDeviceData new old) = apis.bd_claimref old.
Proof.
  intros [Hs Hr] Hwf. unfold mergeBlockDeviceData. case_decide as Hd; [done|].
  change (apis.bd_claimstate old = apis.BlockDeviceUnclaimed) in Hd.
  change (apis.bd_claimstate new = apis.bd_claimstate old /\
          apis.bd_claimref new = apis.bd_claimref old).
  split; [congruence|]. rewrite Hr. destruct (apis.bd_claimref old) as [r|] eqn:Hc; [|done].
  assert (Hcl : apis.bd_claimstate old = apis.BlockDeviceClaimed) by (apply Hwf; rewrite Hc; eauto).
  by rewrite Hd in Hcl.
Qed.

Lemma derived_wf K b : derived K b -> wf_bd b.
Proof.
  intros (b0 & _ & Hwf & _ & _ & Hs & Hr). unfold wf_bd in *. by rewrite <- Hs, <- Hr.
Qed.

Lemma UpdateBlockDevice_safe K new old :
  bd_initial new -> (forall b, old = Some b -> derived K b) ->
  wp_safe K (UpdateBlockDevice new old) anything.
Proof.
  intros Hi Hold. unfold UpdateBlockDevice.
  apply wp_bind_mono with (R := fun K' r => forall b, r = inr b -> derived K' b).
  - destruct old as [b|]; cbn; [naive_solver|]. split; [done|].
    intros x Hx b ->. apply derived_read; [cbn; set_solver|]. by apply (Hx b).
  - intros K' [e|b] _ Hb; cbn; [done|]. specialize (Hb b eq_refl).
    destruct (merge_claim new b Hi) as [Hs Hr]; [by eapply derived_wf|]. split; [|done].
    apply (update_keep _ b); [done|apply merge_key|apply merge_rv|done..].
Qed.

Lemma set_namespace_initial ns b : bd_initial b -> bd_initial (set_namespace ns b).
Proof. done. Qed.

Lemma CreateBlockDevice_safe K c new :
  bd_initial new -> wp_safe K (CreateBlockDevice c new) anything.
Proof.
  intros Hi. unfold CreateBlockDevice. set (b := set_namespace (cNamespace c) new).
  assert (Hup : forall K', wp_safe K' (UpdateBlockDevice b None) anything)
    by (intros; by apply UpdateBlockDevice_safe).
  apply wp_call; [done|]. intros x _ _. destruct x as [e|b']; [|done]. unfold error_of.
  destruct (IsAlreadyExists e); [|done]. apply wp_bind_any; [apply Hup|].
  intros K' [e'|] _; [|done]. destruct (IsConflict e'); [|done].
  apply wp_bind_any; [apply Hup|done].
Qed.

Lemma set_state_safe K s b : derived K b -> ndm_may K _ (BDUpdate (set_state s b)).
Proof. intros. by apply (update_keep K b). Qed.

Lemma DeactivateBlockDevice_safe K b :
  derived K b -> wp_safe K (DeactivateBlockDevice b) anything.
Proof. intros. cbn. split; [by apply set_state_safe|done]. Qed.

Lemma findItem_elem P i l j b : findItem P i l = Some (j, b) -> b ∈ l.
Proof.
  revert i. induction l as [|x l IH]; intros i; cbn; [done|].
  destruct (P x); [intros [= _ ->]; left|intros ?%IH; by right].
Qed.

Lemma removeDisabled_sub n i l : removeDisabled n i l ⊆ l.
Proof.
  revert i l. induction n as [|n IH]; intros i l; cbn; [done|].
  destruct (l !! i) as [x|]; [|done]. etransitivity; [apply IH|].
  destruct (reconcileDisabled x); [|done].
  intros y [Hy|Hy]%elem_of_app; [by eapply elem_of_take in Hy as (? & ? & _); eapply list_elem_of_lookup_2|].
  rewrite <- (take_drop (S i) l). set_solver.
Qed.

(** The list of an event holds objects that were read. *)
Definition list_ok (K : evidence) (l : list apis.BlockDevice) : Prop := forall b, b ∈ l -> derived K b.

Lemma list_ok_mono K K' l : evidence_le K K' -> list_ok K l -> list_ok K' l.
Proof. intros ? Hl b Hb. eapply derived_mono; eauto. Qed.

Lemma ListBlockDeviceResource_safe K c all :
  wp_safe K (ListBlockDeviceResource c all) (fun K' r => list_ok K' r.1).
Proof.
  cbn. split; [done|]. intros [e|l] Hx; cbn; [intros b Hb; set_solver|].
  intros b Hb%removeDisabled_sub. apply derived_read; [cbn; set_solver|]. by apply (Hx l).
Qed.

(** *** Conversion *)

Lemma addBdLabels_claim b paths b' :
  addBdLabels b paths = inr b' ->
  apis.bd_claimstate b' = apis.bd_claimstate b /\ apis.bd_claimref b' = apis.bd_claimref b.
Proof.
  revert b. induction paths as [|p paths IH]; intros b Hb; cbn in Hb; [by simplify_eq|].
  destruct (addBdLabel b p) as [e|b1] eqn:H1; [done|].
  apply IH in Hb as [-> ->]. unfold addBdLabel in H1. repeat case_match; by simplify_eq.
Qed.

Lemma ToDevice_initial c di b : ToDevice c di = inr b -> bd_initial b.
Proof.
  unfold ToDevice. destruct (addBdLabels _ _) as [e|b1] eqn:Hb; [done|]. intros [= <-].
  apply addBdLabels_claim in Hb as [Hs Hr]. done.
Qed.

(** *** Handlers *)

Definition st_ok (K : evidence) (st : PState) : Prop := list_ok K (bdAPIList st).
Definition ex_ok (K : evidence) (e : existing) : Prop := forall b, existing_bd e = Some b -> derived K b.
(** The postcondition of a handler: its list still holds objects that were read. *)
Definition keeps {A} : evidence -> PState * A -> Prop := fun K r => st_ok K r.1.

Lemma st_ok_mono K K' st : evidence_le K K' -> st_ok K st -> st_ok K' st.
Proof. apply list_ok_mono. Qed.

Lemma ex_ok_mono K K' e : evidence_le K K' -> ex_ok K e -> ex_ok K' e.
Proof. intros Hle He b Hb. eapply derived_mono; eauto. Qed.

Lemma find_ok K P l : list_ok K l -> ex_ok K (of_find (findItem P 0 l)).
Proof.
  intros Hl b. destruct (findItem P 0 l) as [[i b']|] eqn:Hf; cbn; [|done].
  intros [= <-]. apply Hl. by eapply findItem_elem.
Qed.

Lemma FsUuid_ok K bd l : list_ok K l -> ex_ok K (getExistingBDWithFsUuid bd l).
Proof. intros. unfold getExistingBDWithFsUuid. case_decide; [done|by apply find_ok]. Qed.

Lemma PartitionUUID_ok K bd l : list_ok K l -> ex_ok K (getExistingBDWithPartitionUUID bd l).
Proof. intros. unfold getExistingBDWithPartitionUUID. case_decide; [done|by apply find_ok]. Qed.

Lemma hostname_safe K : wp_safe K hostname anything.
Proof. split; done. Qed.

Lemma generateUUID_safe K g bd : wp_safe K (generateUUID g bd) anything.
Proof.
  unfold generateUUID. apply wp_bind_any; [|done]. unfold uuidField.
  repeat case_match; done.
Qed.

Lemma generateLegacyUUID_safe K bd : wp_safe K (generateLegacyUUID bd) anything.
Proof.
  unfold generateLegacyUUID. by case_match.
Qed.

Lemma mergedInPlace_derived K new old : derived K old -> derived K (mergedInPlace new old).
Proof. intros (b0 & ?). by exists b0. Qed.

Lemma createOrUpdate_safe c K st annotation bd ex :
  st_ok K st -> ex_ok K ex ->
  wp_safe K (createOrUpdateWithAnnotation c st annotation bd ex) keeps.
Proof.
  intros Hst Hex. unfold createOrUpdateWithAnnotation.
  destruct (ToDevice c _) as [e|b] eqn:Hb; [done|].
  assert (Hi : bd_initial (set_annotations annotation b)) by (apply ToDevice_initial in Hb; done).
  destruct ex as [|i old|old]; (eapply wp_bind_any; [first
    [by apply CreateBlockDevice_safe
    |apply UpdateBlockDevice_safe; [done|intros ? [= <-]; by apply Hex]]|]).
  1, 3: intros K' e Hle; eapply st_ok_mono; eauto.
  intros K' e Hle b' Hb'. apply (derived_mono K); [done|].
  apply list_elem_of_lookup_1 in Hb' as [j Hj]. cbn in Hj.
  apply list_lookup_insert_Some in Hj as [(_ & <- & _)|[_ Hj]].
  - apply mergedInPlace_derived. by apply Hex.
  - apply Hst. by eapply list_elem_of_lookup_2.
Qed.

Lemma createIfNoHolders_safe c K st bd :
  st_ok K st -> wp_safe K (createBlockDeviceResourceIfNoHolders c st bd) keeps.
Proof.
  intros Hst. unfold createBlockDeviceResourceIfNoHolders. case_decide; [done|].
  apply createOrUpdate_safe; [done|]. by apply find_ok.
Qed.

Lemma handleUnmanaged_safe c K st bd :
  st_ok K st -> wp_safe K (handleUnmanagedDevices c st bd) keeps.
Proof.
  intros Hst. unfold handleUnmanagedDevices, deviceInUseByZFSLocalPV.
  repeat (case_match; try done);
    match goal with H : ToDevice _ _ = inr _ |- _ => apply ToDevice_initial in H end;
    (eapply wp_bind_any; [by apply CreateBlockDevice_safe|]);
    intros K' ? Hle; by eapply st_ok_mono.
Qed.

Lemma upgradeInUse_safe c byA push K st bd :
  st_ok K st -> (forall K l, list_ok K l -> ex_ok K (byA l)) ->
  (forall K st bd ex, st_ok K st -> ex_ok K ex -> wp_safe K (push st bd ex) keeps) ->
  wp_safe K (upgradeInUse c byA push st bd) keeps.
Proof.
  intros Hst HbyA Hpush. unfold upgradeInUse.
  eapply wp_bind_any; [apply generateUUID_safe|]. intros K1 u Hle1.
  assert (Hdone : forall K st bd ex, st_ok K st -> ex_ok K ex ->
    wp_safe K (bind (push st bd ex) (fun '(st, e) => Ret (st, match e with Some e => inl e | None => inr false end)))
      (keeps (A := res bool))).
  { intros. eapply wp_bind_mono; [by apply Hpush|]. intros K' [st' e] _ Hk. exact Hk. }
  apply (st_ok_mono _ _ _ Hle1) in Hst.
  destruct u as [u|]; [destruct (GetExistingBlockDeviceResource _ u) as [[i b]|]; [by case_decide|]|];
    (eapply wp_bind_any; [apply generateLegacyUUID_safe|]); intros K2 [lu virt] Hle2;
    apply (st_ok_mono _ _ _ Hle2) in Hst; pose proof (HbyA K2 _ Hst) as Hex;
    pose proof (find_ok K2 (fun item => bool_decide (lu = apis.bd_name item)) _ Hst) as Hf;
    match goal with |- context [existing_bd ?x] => assert (ex_ok K2 x); [|set (ex := x) in *] end.
  1, 3: by destruct (byA (bdAPIList st)).
  all: clearbody ex; destruct (existing_bd ex); [case_decide; [|case_match; [|done]]|];
    apply Hdone; done.
Qed.

Lemma upgradeBD_safe c K st bd : st_ok K st -> wp_safe K (upgradeBD c st bd) keeps.
Proof.
  intros Hst. unfold upgradeBD. repeat (case_match; try done); apply upgradeInUse_safe; try done.
  - intros. by apply FsUuid_ok.
  - intros. by apply createOrUpdate_safe.
  - intros. by apply PartitionUUID_ok.
  - intros. by apply createOrUpdate_safe.
Qed.

Lemma CreateSinglePartition_safe K d : wp_safe K (partition.CreateSinglePartition d) anything.
Proof.
  unfold partition.CreateSinglePartition, partition.applyPartitionTable.
  repeat first [done|apply wp_call; [done|intros ? _ _]|case_match].
Qed.

Lemma CreatePartitionTable_safe K d : wp_safe K (partition.CreatePartitionTable d) anything.
Proof.
  unfold partition.CreatePartitionTable.
  repeat first [done|apply wp_call; [done|intros ? _ _]|case_match].
Qed.

Lemma makeIdentifiable_safe c K bd : wp_safe K (makeIdentifiable c bd) anything.
Proof.
  unfold makeIdentifiable. case_match; [done|]. case_match.
  - eapply wp_bind_any; [apply CreatePartitionTable_safe|done].
  - apply CreateSinglePartition_safe.
Qed.

(** A resource fetched by name. *)
Lemma GetBlockDevice_safe c K name :
  wp_safe K (GetBlockDevice c name) (fun K' r => forall b, r = inr b -> derived K' b).
Proof.
  split; [done|]. intros x Hx b ->. apply derived_read; [cbn; left|]. by apply (Hx b).
Qed.

Lemma addNewPartition_safe c K st bd : st_ok K st -> wp_safe K (addNewPartition c st bd) keeps.
Proof.
  intros Hst. unfold addNewPartition. destruct (BDHierarchy st !! _) as [parent|]; [|done].
  eapply wp_bind_any; [apply generateUUID_safe|]. intros K1 u Hle1.
  apply (st_ok_mono _ _ _ Hle1) in Hst.
  destruct u as [u|]; [|by apply createIfNoHolders_safe].
  eapply wp_bind_mono; [apply GetBlockDevice_safe|]. intros K2 r Hle2 Hr.
  apply (st_ok_mono _ _ _ Hle2) in Hst.
  destruct r as [e|b]; [case_match; [by apply createIfNoHolders_safe|done]|].
  case_decide; [done|].
  eapply wp_bind_any; [apply DeactivateBlockDevice_safe; by apply Hr|]. intros K3 _ Hle3.
  apply (st_ok_mono _ _ _ Hle3) in Hst. apply createOrUpdate_safe; [done|by apply find_ok].
Qed.

Lemma addIdentified_safe c K st bd u : st_ok K st -> wp_safe K (addIdentified c st bd u) keeps.
Proof.
  intros Hst. unfold addIdentified.
  eapply wp_bind_mono; [apply GetBlockDevice_safe|]. intros K1 r Hle1 Hr.
  apply (st_ok_mono _ _ _ Hle1) in Hst.
  destruct r as [e|b].
  - repeat case_match; try done; [by apply addNewPartition_safe|by apply createIfNoHolders_safe].
  - case_decide; apply createOrUpdate_safe; [done| |done|by apply find_ok].
    intros b' [= <-]. by apply Hr.
Qed.

Lemma addBlockDevice_safe c K st bd : st_ok K st -> wp_safe K (addBlockDevice c st bd) keeps.
Proof.
  intros Hst. unfold addBlockDevice.
  eapply wp_bind_mono; [by apply handleUnmanaged_safe|]. intros K1 [st1 r] _ Hst1. cbn in Hst1.
  destruct r as [|[]]; [done| |done].
  destruct (isParentDeviceInUse st1 bd) as [|[]]; [done|done|].
  eapply wp_bind_mono; [by apply upgradeBD_safe|]. intros K2 [st2 r] _ Hst2. cbn in Hst2.
  destruct r as [|[]]; [done| |done].
  eapply wp_bind_any; [apply generateUUID_safe|]. intros K3 u Hle3.
  apply (st_ok_mono _ _ _ Hle3) in Hst2.
  destruct u as [u|]; [by apply addIdentified_safe|].
  eapply wp_bind_any; [apply makeIdentifiable_safe|]. intros K4 e Hle4. by eapply st_ok_mono.
Qed.

Lemma remove_ok K st bd st' ok :
  removeBlockDeviceFromHierarchyCache st bd = (st', ok) -> st_ok K st -> st_ok K st'.
Proof. unfold removeBlockDeviceFromHierarchyCache. case_match; by intros [= <- _]. Qed.

(** Deactivating an item of the list. *)
Lemma deactivate_safe K (st : PState) b :
  st_ok K st -> derived K b ->
  wp_safe K (bind (DeactivateBlockDevice b) (fun _ => Ret st)) st_ok.
Proof.
  intros Hst Hb. eapply wp_bind_any; [by apply DeactivateBlockDevice_safe|].
  intros K' _ Hle. by eapply st_ok_mono.
Qed.

Lemma deleteBlockDevice_safe c K st bd : st_ok K st -> wp_safe K (deleteBlockDevice c st bd) st_ok.
Proof.
  intros Hst. unfold deleteBlockDevice.
  destruct (removeBlockDeviceFromHierarchyCache st bd) as [st' ok] eqn:Hr.
  eapply remove_ok in Hst; [|exact Hr]. destruct ok; [|done].
  eapply wp_bind_any; [apply generateUUID_safe|]. intros K1 u Hle1.
  apply (st_ok_mono _ _ _ Hle1) in Hst.
  pose proof (FsUuid_ok K1 bd _ Hst) as Hfs. pose proof (PartitionUUID_ok K1 bd _ Hst) as Hpt.
  assert (Hget : forall K v i b, st_ok K st' -> GetExistingBlockDeviceResource (bdAPIList st') v = Some (i, b) -> derived K b).
  { intros K' v i b Hs Hf. apply Hs. by eapply findItem_elem. }
  repeat (case_match; try done); try (apply deactivate_safe; eauto; done);
    (eapply wp_bind_any; [apply generateLegacyUUID_safe|]); intros K2 [lu virt] Hle2;
    apply (st_ok_mono _ _ _ Hle2) in Hst; repeat (case_match; try done); apply deactivate_safe; eauto.
Qed.

(** *** Probes and filters

    A controller whose probes and filters follow the protocol themselves; the ones of
    the daemon make no write at all. *)
Class QuietController (c : Controller) : Prop := {
  probe_safe p bd K : p ∈ Probes c -> wp_safe K (Fill p bd) anything;
  include_safe f bd K : f ∈ Filters c -> wp_safe K (Include f bd) anything;
  exclude_safe f bd K : f ∈ Filters c -> wp_safe K (Exclude f bd) anything
}.

Section Quiet.
Context (c : Controller) `{!QuietController c}.

Lemma FillBlockDeviceDetails_safe K bd req : wp_safe K (FillBlockDeviceDetails c bd req) anything.
Proof.
  apply (wp_for_each (ndm_protocol true) anything); [|done].
  intros K' bd' p Hp _. apply probe_safe. unfold ListProbe in Hp.
  rewrite listProbe_filter in Hp. by apply list_elem_of_filter in Hp as [_ ?].
Qed.

Lemma ApplyFilter_safe K bd : wp_safe K (ApplyFilter c bd) anything.
Proof.
  unfold ApplyFilter, ListFilter.
  assert (Hl : forall f, f ∈ listFilter (Filters c) -> f ∈ Filters c) by (intros; by apply listFilter_sub).
  revert K. induction (listFilter (Filters c)) as [|f l IH]; intros K; [done|].
  cbn [applyFilters]. eapply wp_bind_any.
  - unfold ApplyFilter1. eapply wp_bind_any; [apply include_safe; apply Hl; left|].
    intros K' [] _; [|done]. apply exclude_safe, Hl. left.
  - intros K' [] _; [|done]. apply IH. intros g Hg. apply Hl. by right.
Qed.

Lemma changeBlockDevice_safe K st bd req :
  st_ok K st -> wp_safe K (changeBlockDevice c st bd req) keeps.
Proof.
  intros Hst. unfold changeBlockDevice.
  eapply wp_bind_any; [apply FillBlockDeviceDetails_safe|]. intros K1 bd1 Hle1.
  eapply wp_bind_any.
  { case_decide; [|done]. eapply wp_bind_any; [apply generateUUID_safe|done]. }
  intros K2 [bd2|] Hle2; (assert (Hst2 : st_ok K2 st) by (eapply st_ok_mono; [|exact Hst]; by etransitivity)); [|done].
  case_match; [done|]. eapply wp_bind_any; [apply ApplyFilter_safe|]. intros K3 ok Hle3.
  apply (st_ok_mono _ _ _ Hle3) in Hst2. destruct ok; [|done].
  destruct (ToDevice c _) as [e|b] eqn:Hb; [done|].
  eapply wp_bind_any.
  { apply UpdateBlockDevice_safe; [|done]. apply ToDevice_initial in Hb. done. }
  intros K4 e Hle4. by eapply st_ok_mono.
Qed.

Lemma PushBlockDeviceResource_safe K old di :
  (forall b, old = Some b -> derived K b) ->
  wp_safe K (PushBlockDeviceResource c old di) anything.
Proof.
  intros Hold. unfold PushBlockDeviceResource.
  destruct (ToDevice c _) as [e|b] eqn:Hb; [done|]. apply ToDevice_initial in Hb.
  destruct old; [by apply UpdateBlockDevice_safe|by apply CreateBlockDevice_safe].
Qed.

Lemma addOne_safe K req s bd :
  st_ok K (aState s) -> wp_safe K (addOne c req s bd) (fun K' s => st_ok K' (aState s)).
Proof.
  intros Hst. unfold addOne.
  eapply wp_bind_any; [apply FillBlockDeviceDetails_safe|]. intros K1 d Hle1.
  apply (st_ok_mono _ _ _ Hle1) in Hst.
  set (st := (addBlockDeviceToHierarchyCache (aState s) d).1).
  change (st_ok K1 st) in Hst.
  eapply wp_bind_any; [apply ApplyFilter_safe|]. intros K2 ok Hle2.
  apply (st_ok_mono _ _ _ Hle2) in Hst.
  destruct ok; [|done]. cbn [negb]. case_match.
  - case_match; [done|]. eapply wp_bind_mono; [by apply addBlockDevice_safe|].
    intros K3 [st3 e] _ Hst3. by destruct e as [[]|].
  - case_decide; [done|].
    pose proof (find_ok K2 (fun item => bool_decide (diUUID (NewDeviceInfoFromBlockDevice d) = apis.bd_name item)) _ Hst) as Hf.
    destruct (of_find _) as [|i old|b] eqn:Hof; (eapply wp_bind_any;
      [apply PushBlockDeviceResource_safe; first [done|intros ? [= <-]; apply Hf; by rewrite Hof]|]);
      intros K3 e Hle3; try by eapply st_ok_mono.
    destruct (ToDevice c _); [by eapply st_ok_mono|]. cbn.
    intros b' Hb'. apply (derived_mono K2); [done|].
    apply list_elem_of_lookup_1 in Hb' as [j Hj].
    apply list_lookup_insert_Some in Hj as [(_ & <- & _)|[_ Hj]].
    + apply mergedInPlace_derived, Hf. done.
    + apply Hst. by eapply list_elem_of_lookup_2.
Qed.

Lemma addBlockDeviceEvent_safe K st devices req :
  wp_safe K (addBlockDeviceEvent c st devices req) anything.
Proof.
  unfold addBlockDeviceEvent.
  eapply wp_bind_mono; [apply ListBlockDeviceResource_safe|]. intros K1 [items e] _ Hitems.
  destruct e; [apply wp_call; done|].
  eapply wp_bind_mono.
  - apply (wp_for_each (ndm_protocol true) (fun K s => st_ok K (aState s))).
    + intros K' s d _ Hs. by apply addOne_safe.
    + exact Hitems.
  - intros K2 s _ _. eapply wp_bind_any; [|done]. by case_match.
Qed.

Lemma deleteOne_safe K s bd :
  st_ok K s.1 -> wp_safe K (deleteOne c s bd) keeps.
Proof.
  intros Hst. destruct s as [st b]. unfold deleteOne. case_match.
  - eapply wp_bind_mono; [by apply deleteBlockDevice_safe|]. done.
  - case_decide; [done|].
    destruct (GetExistingBlockDeviceResource _ _) as [[i b']|] eqn:Hf; [|done].
    eapply wp_bind_any; [apply DeactivateBlockDevice_safe; apply Hst; by eapply findItem_elem|].
    intros K' _ Hle. by eapply st_ok_mono.
Qed.

Lemma deleteBlockDeviceEvent_safe K st devices :
  wp_safe K (deleteBlockDeviceEvent c st devices) anything.
Proof.
  unfold deleteBlockDeviceEvent.
  eapply wp_bind_mono; [apply ListBlockDeviceResource_safe|]. intros K1 [items e] _ Hitems.
  eapply wp_bind_mono.
  - apply (wp_for_each (ndm_protocol true) keeps); [|exact Hitems].
    intros K' s d _ Hs. by apply deleteOne_safe.
  - intros K2 [st2 b] _ _. eapply wp_bind_any; [|done]. by case_match.
Qed.

Lemma changeBlockDeviceEvent_safe order K st devices req all :
  st_ok K st -> wp_safe K (changeBlockDeviceEvent c order st devices req all) anything.
Proof.
  intros Hst. apply (wp_mono (ndm_protocol true) K _ st_ok); [done|].
  assert (Hone : forall K st path, st_ok K st ->
    wp_safe K (match BDHierarchy st !! path with
               | Some bd => bind (changeBlockDevice c st bd req) (fun '(st, _) => Ret st)
               | None => Ret st end) st_ok).
  { intros K' st' path Hs. case_match; [|done].
    eapply wp_bind_mono; [by apply changeBlockDevice_safe|]. intros K2 [st2 e] _ Hk. exact Hk. }
  unfold changeBlockDeviceEvent. destruct all;
    (apply (wp_for_each (ndm_protocol true) st_ok); [|done]); intros; by apply Hone.
Qed.

Lemma DeactivateStale_safe K devices :
  wp_safe K (DeactivateStaleBlockDeviceResource c devices) anything.
Proof.
  unfold DeactivateStaleBlockDeviceResource.
  eapply wp_bind_any.
  { unfold GetActiveSparseBlockDevicesUUID, GetSparseFileDir, Getenv.
    repeat first [done|progress cbn|split; [done|]; intros ? _|case_match]. }
  intros K1 sparse Hle1.
  eapply wp_bind_mono; [apply ListBlockDeviceResource_safe|]. intros K2 [items e] _ Hitems.
  destruct e; [done|].
  eapply wp_mono with (Q := fun K' _ => list_ok K' items); [done|].
  apply (wp_for_each (ndm_protocol true) (fun K' _ => list_ok K' items)); [|done].
  intros K3 u item Hitem Hl. destruct (negb _); [|done].
  eapply wp_mono; [|apply ndm_learn_weaken, DeactivateBlockDevice_safe; by apply Hl].
  cbn. intros K4 _ [Hle _]. by eapply list_ok_mono.
Qed.

Lemma MarkUnknown_safe K : wp_safe K (MarkBlockDeviceStatusToUnknown c) anything.
Proof.
  unfold MarkBlockDeviceStatusToUnknown.
  eapply wp_bind_mono; [apply ListBlockDeviceResource_safe|]. intros K2 [items e] _ Hitems.
  destruct e; [done|].
  eapply wp_mono with (Q := fun K' _ => list_ok K' items); [done|].
  apply (wp_for_each (ndm_protocol true) (fun K' _ => list_ok K' items)); [|done].
  intros K3 u item Hitem Hl. apply wp_call; [apply set_state_safe; by apply Hl|].
  intros x _ Hle. by eapply list_ok_mono.
Qed.

Lemma MarkSparse_safe K file : wp_safe K (MarkSparseBlockDeviceStateActive c file) anything.
Proof.
  unfold MarkSparseBlockDeviceStateActive. apply wp_call; [done|]. intros x _ _.
  destruct x as [e|[d size]]; [done|].
  destruct (ToDevice c _) as [e|b] eqn:Hb; [done|]. apply ToDevice_initial in Hb.
  eapply wp_bind_any; [by apply CreateBlockDevice_safe|done].
Qed.
End Quiet.
End Daemon.
