(* ===== verification/Daemon.v ===== *)
(** * The daemon as it is put together

    cmd/ndm_daemonset/app/command/start.go registers the filters and the probes with
    the controller.  The probes and filters of the daemon only look at the host: a
    controller put together this way is one for which the event handlers follow the
    life cycle of a device. *)

From Stdlib Require Import ZArith Lia.
From stdpp Require Import base list strings gmap.
From S2P Require Import Prelude GoStrings Types Prog Util Features K8sLib Controller Store Mount Filters Sysfs Smart SmartSpec Partition Uuid Handlers Udev Probes Lifecycle DaemonSafe.

Local Open Scope string_scope.
Local Open Scope prog_scope.

(** NewNodeDiskManager of start.go: filters first, then probes *)
Definition daemonStart (ctrl : Controller) : prog Controller :=
  ctrl <- filter.Start ctrl ;; probe.Start ctrl.

(** Calls that look at the host, without libudev: no request to the API server, nothing
    written *)
Definition host_plain X (e : callE X) : bool :=
  match e with
  | Hostname | LookupEnv _ | ReadFile _ | ReadDir _ | EvalSymlinks _ | Stat _ | OpenExcl _ | BlkidTag _ _
  | SeekStart _ | ReadFull _ _ | CHeap | OpenFile _ | CloseFd _ | CapGet | SgIo _ _
  | SeachestGetDevice _ | SeachestDriveInformation _ | SeachestCloseDevice _ => true
  | _ => false
  end.
(** ... and with it *)
Definition host_only X (e : callE X) : bool :=
  match e with
  | UdevNew | UdevUnref _ | UdevEnumerateNew _ | UdevEnumerateFilter _ _ | UdevEnumerateScan _ | UdevEnumerateList _
  | UdevEnumerateUnref _ | UdevFromSysPath _ _ | UdevDeviceUnref _ => true
  | e => host_plain _ e
  end.

Lemma plain_host {A} (p : prog A) : uses host_plain p -> uses host_only p.
Proof. apply uses_weaken. by intros X []. Qed.
#[export] Hint Resolve plain_host : uses.

Lemma host_only_safe {A} K (p : prog A) : uses host_only p -> wp_safe K p anything.
Proof. apply uses_wp; [done|]. intros K' X []; done. Qed.

(** ** Filters *)

Lemma osDiskExclude_host paths bd : uses host_plain (filter.osDiskExclude paths bd).
Proof. induction paths as [|p l IH]; cbn; [done|]. by repeat case_match. Qed.

Definition host_filter (f : Filter) : Prop :=
  (forall bd, uses host_plain (Include f bd)) /\ (forall bd, uses host_plain (Exclude f bd)).
(** Of the probes only the udev probe uses libudev. *)
Definition host_fill (fill : blockdevice.BlockDevice -> prog blockdevice.BlockDevice) : Prop :=
  (forall bd, uses host_plain (fill bd)) \/ fill = udevProbe.Fill.

(** What both registrations keep *)
Definition host_controller (c : Controller) : Prop :=
  Forall host_filter (Filters c) /\ Forall (fun p => host_fill (Fill p)) (Probes c).

Lemma AddNewFilter_host c f : host_controller c -> host_filter f -> host_controller (AddNewFilter c f).
Proof. intros [? ?] ?. split; [|done]. apply Forall_app_2; [done|]. constructor; [done|constructor]. Qed.

Lemma filter_Start_host ctrl : host_controller ctrl -> returns (filter.Start ctrl) host_controller.
Proof.
  intros Hc. unfold filter.Start, filter.oSDiskExcludeFilterRegister.
  destruct (filter.osDiskConfig _) as [[name state] points].
  apply (returns_bind _ _ host_controller).
  { repeat returns_step. apply AddNewFilter_host; [done|]. split; intros; [done|apply osDiskExclude_host]. }
  intros c Hc1. cbn [returns].
  unfold filter.deviceValidityFilterRegister, filter.pathFilterRegister, filter.vendorFilterRegister.
  repeat case_match; repeat (apply AddNewFilter_host; [|by split]); done.
Qed.

(** ** Probes *)

Lemma sysfs_device_host dev : uses host_plain (sysfs.NewSysFsDeviceFromDevPath dev).
Proof. unfold sysfs.NewSysFsDeviceFromDevPath, sysfs.getDeviceSysPath. uses_solve. Qed.
#[export] Hint Resolve sysfs_device_host : uses.

Lemma sysfs_int_host f : uses host_plain (sysfs.readSysFSFileAsInt64 f).
Proof. unfold sysfs.readSysFSFileAsInt64. uses_solve. Qed.
#[export] Hint Resolve sysfs_int_host : uses.

Lemma sysfs_string_host f : uses host_plain (sysfs.readSysFSFileAsString f).
Proof. unfold sysfs.readSysFSFileAsString. uses_solve. Qed.
#[export] Hint Resolve sysfs_string_host : uses.

Lemma fillSizes_host dev bd : uses host_plain (sysfsProbe.fillSizes dev bd).
Proof.
  unfold sysfsProbe.fillSizes, sysfsProbe.fill_size, sysfs.GetLogicalBlockSize, sysfs.GetPhysicalBlockSize,
    sysfs.GetHardwareSectorSize, sysfs.GetDriveType. cbv zeta. uses_solve.
Qed.
#[export] Hint Resolve fillSizes_host : uses.

Lemma sysfsProbe_host bd : uses host_plain (sysfsProbe.Fill bd).
Proof. unfold sysfsProbe.Fill, sysfs.GetCapacityInBytes. cbv zeta. uses_solve. Qed.

Lemma set_label_host k v bd : uses host_plain (set_label k v bd).
Proof. unfold set_label. uses_solve. Qed.
#[export] Hint Resolve set_label_host : uses.

Lemma usedbyProbe_host bd : uses host_plain (usedbyProbe.Fill bd).
Proof.
  unfold usedbyProbe.Fill, usedbyProbe.getBlockDeviceZFSPartition, usedbyProbe.fillZFS, usedbyProbe.fillSPDK, GetSPDKSuperBlockSignature, goString,
    usedbyProbe.isBlockDeviceInUseByKernel, blkid.GetOnDiskFileSystem, blkid.GetOnDiskLabel, blkid.GetTagValue. cbv zeta. uses_solve.
Qed.

Lemma blkidProbe_host bd : uses host_plain (blkidProbe.Fill bd).
Proof.
  unfold blkidProbe.Fill, blkidProbe.fill_empty, blkid.GetOnDiskFileSystem, blkid.GetPartitionTableUUID, blkid.GetPartitionEntryUUID,
    blkid.GetTagValue.
  cbv zeta. uses_solve.
Qed.

Lemma udevProbe_host bd : uses host_only (udevProbe.Fill bd).
Proof.
  unfold udevProbe.Fill, udevProbe.newUdevProbeForFillDiskDetails, udevProbe.nilDereference, udevProbe.free, udev.NewUdev,
    udev.newUdev, udev.NewDeviceFromSysPath, udev.newUdevDevice, udev.DiskInfoFromLibudev, udev.GetDevLinks, udev.addLink. cbv zeta. uses_solve.
Qed.

Lemma mountProbe_host bd : uses host_plain (mountProbe.Fill bd).
Proof.
  unfold mountProbe.Fill, mount.DeviceBasicMountInfo, mount.getDeviceMountAttr, mount.scanMounts, mount.scanLine,
    mount.getMountName, mount.index_panic. cbv zeta. uses_solve.
Qed.

Lemma getBasicDiskInfo_host d : uses host_plain (smart.getBasicDiskInfo d).
Proof. eapply uses_weaken; [|apply getBasicDiskInfo_sg]. by intros X []. Qed.
Lemma scsiInquiry_host d : uses host_plain (smart.scsiInquiry d).
Proof. eapply uses_weaken; [|apply scsiInquiry_sg]. by intros X []. Qed.
#[local] Hint Resolve getBasicDiskInfo_host scsiInquiry_host : uses.

Lemma smartProbe_host bd : uses host_plain (smartProbe.Fill bd).
Proof.
  unfold smartProbe.Fill, smart.SCSIBasicDiskInfo, smart.isConditionSatisfied, smart.CheckBinaryPerm,
    smart.detectSCSIType, smart.Open, smart.Close. cbv zeta. uses_solve.
Qed.

Lemma seachestProbe_host bd : uses host_plain (seachestProbe.Fill bd).
Proof.
  unfold seachestProbe.Fill, seachest.SeachestBasicDiskInfo, seachest.closeDevice, seachest.seachestError.
  cbv zeta. uses_solve.
Qed.

Lemma customTagProbe_host tags bd : uses host_plain (customTagProbe.Fill tags bd).
Proof. unfold customTagProbe.Fill, customTagProbe.fillTag. cbv zeta. uses_solve. Qed.

Lemma register_host prio ns fill c :
  host_controller c -> host_fill fill -> host_controller (probe.register prio ns fill c).
Proof.
  intros [? Hp] ?. split; [done|]. unfold probe.register. rewrite (proj2 (AddNewProbe_perm _ _)). by constructor.
Qed.

Lemma probe_Start_host ctrl : host_controller ctrl -> returns (probe.Start ctrl) host_controller.
Proof.
  intros Hc. unfold probe.Start, probe.customTagProbeRegister. cbv zeta.
  apply (returns_bind _ _ host_controller); [|intros c Hc1; apply register_host; [done|left; apply blkidProbe_host]].
  eapply returns_bind; [apply returns_any|]. intros tags _. cbn [returns].
  apply register_host; [|left; apply customTagProbe_host].
  repeat (apply register_host; [|first [by right|left;
    first [apply usedbyProbe_host|apply sysfsProbe_host|apply mountProbe_host|apply smartProbe_host|apply seachestProbe_host]]]). done.
Qed.

Lemma host_controller_quiet c : host_controller c -> QuietController c.
Proof.
  intros [Hf Hp]. split.
  - intros p bd K Hin. apply host_only_safe. rewrite List.Forall_forall in Hp.
    destruct (Hp p) as [Hfill|Hfill]; [by apply list_elem_of_In|by apply plain_host|rewrite Hfill; apply udevProbe_host].
  - intros f bd K Hin. apply host_only_safe, plain_host. rewrite List.Forall_forall in Hf. by apply Hf, list_elem_of_In.
  - intros f bd K Hin. apply host_only_safe, plain_host. rewrite List.Forall_forall in Hf. by apply Hf, list_elem_of_In.
Qed.

(** The controller of a daemon that has started *)
Lemma daemonStart_host ctrl : Filters ctrl = [] -> Probes ctrl = [] -> returns (daemonStart ctrl) host_controller.
Proof.
  intros Hf Hp. eapply returns_bind; [apply filter_Start_host; split; rewrite ?Hf, ?Hp; constructor|].
  intros c Hc. by apply probe_Start_host.
Qed.



(** ** The scan *)

Lemma scanOne_host c u s p : uses host_only (udevProbe.scanOne c u s p).
Proof.
  unfold udevProbe.scanOne, udev.NewDeviceFromSysPath, udev.newUdevDevice, udevProbe.fillSysfs, udev.GetUid, hostname,
    sysfs.GetDependents, sysfs.getPartitions, sysfs.getHolders, sysfs.getSlaves, sysfs.entriesOf, sysfs.GetDeviceType.
  cbv zeta. uses_solve.
Qed.

Lemma newUdevProbe_host : uses host_only udevProbe.newUdevProbe.
Proof. unfold udevProbe.newUdevProbe, udev.NewUdev, udev.NewUdevEnumerate. uses_solve. Qed.

Lemma free_host up : uses host_only (udevProbe.free up).
Proof. unfold udevProbe.free, udevProbe.nilDereference. uses_solve. Qed.

Lemma scan_safe K c acquired up st : wp_safe K (udevProbe.scan c acquired up st) anything.
Proof.
  unfold udevProbe.scan, udev.AddSubsystemFilter, udev.ScanDevices. destruct acquired; [|done]. cbn [negb].
  destruct up as [[[u|] d [en|]]|]; [|done..].
  eapply wp_bind_any; [by apply host_only_safe|]. intros K1 [e|] _; [done|].
  eapply wp_bind_any; [by apply host_only_safe|]. intros K2 [e|] _; [done|].
  eapply wp_bind_any; [by apply host_only_safe|]. intros K3 entries _.
  eapply wp_bind_any; [apply host_only_safe, uses_for_each; intros; apply scanOne_host|].
  intros K4 [ds us] _. eapply wp_bind_any; [by apply DeactivateStale_safe|done].
Qed.

Lemma startScan_safe K c acquired st : wp_safe K (udevProbe.startScan c acquired st) anything.
Proof. eapply wp_bind_any; [apply host_only_safe, newUdevProbe_host|]. intros K1 up _. apply scan_safe. Qed.

Lemma Rescan_safe K c acquired st : wp_safe K (udevProbe.Rescan c acquired st) anything.
Proof.
  eapply wp_bind_any; [apply host_only_safe, newUdevProbe_host|]. intros K1 up _.
  eapply wp_bind_any; [apply scan_safe|]. intros K2 r _.
  eapply wp_bind_any; [apply host_only_safe, free_host|done].
Qed.
