(* ===== verification/Pipeline.v ===== *)
(** * From libudev to the handlers

    How an event of udev reaches the resources: the goroutine of the monitor
    (udevevent/monitor.go) hands it to the goroutine of the udev probe
    (listenUdevEventMonitor of probe/udevprobe.go), which turns it into a message for the
    goroutine of the handlers (listen); the scans and the mount probe send their messages to
    the same channel.  All of them hold objects of libudev.

    The objects are counted by libudev and given back by hand.  [refs] is the discipline a
    program has to follow; the goroutines are interleaved call by call in [step]. *)

From Stdlib Require Import ZArith Ascii Lia.
From stdpp Require Import base list strings gmap.
From S2P Require Import Prelude GoStrings Types Prog Util Features K8sLib Sysfs Controller Store Partition Uuid Handlers Udev Events DaemonSafe Daemon.

Local Open Scope string_scope.
Local Open Scope prog_scope.

(** ** Objects of libudev *)

Inductive kind := KUdev | KEnumerate | KDevice | KMonitor.
#[global] Instance kind_eq_dec : EqDecision kind.
Proof. solve_decision. Defined.
#[global] Instance kind_countable : Countable kind.
Proof.
  apply (inj_countable' (fun k => match k with KUdev => 0 | KEnumerate => 1 | KDevice => 2 | KMonitor => 3 end)
    (fun n => match n with 0 => KUdev | 1 => KEnumerate | 2 => KDevice | _ => KMonitor end)).
  by intros [].
Qed.
Notation handle := (kind * Z)%type.
Notation dev d := (KDevice, udptr d).

(** The object a call is given, the one it frees, and the one it makes *)
Definition needs X (e : callE X) : option handle :=
  match e with
  | UdevUnref u | UdevEnumerateNew u | UdevFromSysPath u _ | UdevMonitorNew u _ => Some (KUdev, u)
  | UdevEnumerateFilter e _ | UdevEnumerateScan e | UdevEnumerateList e | UdevEnumerateUnref e => Some (KEnumerate, e)
  | UdevDeviceUnref d => Some (KDevice, d)
  | UdevMonitorFilter m _ | UdevMonitorEnable m | UdevMonitorFd m | UdevReceive m | UdevMonitorUnref m => Some (KMonitor, m)
  | _ => None
  end.
Definition frees X (e : callE X) : bool :=
  match e with
  | UdevUnref _ | UdevEnumerateUnref _ | UdevDeviceUnref _ | UdevMonitorUnref _ => true
  | _ => false
  end.
Definition makes X (e : callE X) : X -> option handle :=
  match e in callE X return X -> option handle with
  | UdevNew => fun x => pair KUdev <$> x
  | UdevEnumerateNew _ => fun x => pair KEnumerate <$> x
  | UdevFromSysPath _ _ => fun x => (fun d => dev d) <$> x
  | UdevMonitorNew _ _ => fun x => pair KMonitor <$> x
  | UdevReceive _ => fun x => (fun r => dev r.1) <$> x
  | _ => fun _ => None
  end.

(** A program is given a set of objects: it uses only those it holds, and what libudev
    makes is not one of the objects that are there. *)
Definition after (K : gset handle) X (e : callE X) (x : X) : gset handle :=
  (if frees X e then K ∖ list_to_set (option_list (needs X e)) else K) ∪ list_to_set (option_list (makes X e x)).
Definition refs : protocol := {|
  know := gset handle;
  may K X e := match needs X e with Some h => h ∈ K | None => True end;
  says K X e x := match makes X e x with Some h => h ∉ K | None => True end;
  learn := after;
  panics := true
|}.

(** ** The goroutines *)

(** The subscription of udevProbe.Start *)
Definition startSubscription (gates : gmap string bool) : udevevent.state * udevevent.Subscription :=
  udevevent.Subscribe
    (if features.IsEnabled gates features.ChangeDetection
     then [EventTypeAdd; EventTypeRemove; EventTypeChange] else [EventTypeAdd; EventTypeRemove])
    (udevevent.MkState [] 0 []).

(** UdevEventType.String *)
Definition eventTypeString (uevt : UdevEventType) : string :=
  match uevt with EventTypeAdd => "add" | EventTypeRemove => "remove" | EventTypeChange => "change" end.

(** The message says what happened and to which device. *)
Definition answers (ev : UdevEvent) (msg : EventMessage) : Prop :=
  Action msg = eventTypeString (eventType ev) /\
  exists bd, Devices msg = [bd] /\ blockdevice.devpath bd = udev.GetPath (evDevice ev).

(** [monitor]: process, as far as it got; [pending]: the events it is sending; [probe]: the
    message listenUdevEventMonitor is making; [others]: the goroutines that scan, and those
    that have a message to send; [handler]: the handling of a message by listen.  The rest is
    not of the program: [received], the events that went to the subscription so far, [sent],
    the messages the udev probe put on EventMessageChannel, and [handled], all messages listen
    took from it *)
Record goroutines := MkGoroutines {
  live : gset handle;
  monitor : prog (option err * list (nat * UdevEvent));
  pending : list (nat * UdevEvent);
  probe : option (prog EventMessage);
  others : list (prog (option EventMessage));
  handler : option (prog PState);
  received : list UdevEvent;
  sent : list EventMessage;
  handled : list EventMessage
}.
#[global] Instance eta_goroutines : Eta goroutines := fun s =>
  MkGoroutines (live s) (monitor s) (pending s) (probe s) (others s) (handler s) (received s) (sent s) (handled s).

(** What other goroutines run, and the message they send in the end: the scan of Start,
    rescans, and the mount probe when it saw a change *)
Definition scanMessage (r : PState * res EventMessage) : option EventMessage :=
  match r.2 with inl _ => None | inr msg => Some msg end.
Inductive other_program : prog (option EventMessage) -> Prop :=
  | op_start c acquired st : other_program (r <- udevProbe.startScan c acquired st ;; Ret (scanMessage r))
  | op_rescan c acquired st : other_program (r <- udevProbe.Rescan c acquired st ;; Ret (scanMessage r))
  | op_mount msg : other_program (Ret (Some msg)).

Section Pipeline.
Context `{K8sLib} (c : Controller) (m : udevevent.monitor) (fd : Z) (udevProbeName sysfsProbeName : string).

Definition process : prog (option err * list (nat * UdevEvent)) :=
  udevevent.process m fd (startSubscription (Gates c)).1.

(** One step of one goroutine.  The channel of a subscription has no buffer: the monitor
    goes on when its events have been taken.  Its errors are only logged.  Nor has
    EventMessageChannel a buffer: a message is sent when listen takes it.  The cache of devices
    is shared and replaced by scans, so a message may be handled with any. *)
Inductive step : goroutines -> goroutines -> Prop :=
  | step_monitor s X (e : callE X) k x :
      monitor s = Call e k -> pending s = [] -> says refs (live s) X e x ->
      step s (s <| live ::= fun L => after L X e x |> <| monitor := k x |>)
  | step_dispatch s err evs :
      monitor s = Ret (err, evs) -> pending s = [] ->
      step s (s <| monitor := process |> <| pending := evs |>
                <| received ::= fun l => (l ++ evs.*2)%list |>)
  | step_take s ch ev evs :
      pending s = (ch, ev) :: evs -> ch = udevevent.targetChannel (startSubscription (Gates c)).2 -> probe s = None ->
      step s (s <| pending := evs |>
                <| probe := Some (udevProbe.processUdevEvent udevProbeName sysfsProbeName ev) |>)
  | step_probe s X (e : callE X) k x :
      probe s = Some (Call e k) -> says refs (live s) X e x ->
      step s (s <| live ::= fun L => after L X e x |> <| probe := Some (k x) |>)
  | step_send s msg order st :
      probe s = Some (Ret msg) -> handler s = None ->
      step s (s <| probe := None |> <| sent ::= fun l => (l ++ [msg])%list |>
                <| handler := Some (udevProbe.listen c order st msg) |> <| handled ::= fun l => (l ++ [msg])%list |>)
  | step_spawn s p :
      other_program p -> step s (s <| others ::= fun l => (l ++ [p])%list |>)
  | step_other s i X (e : callE X) k x :
      others s !! i = Some (Call e k) -> says refs (live s) X e x ->
      step s (s <| live ::= fun L => after L X e x |> <| others ::= <[i := k x]> |>)
  | step_other_send s i msg order st :
      others s !! i = Some (Ret (Some msg)) -> handler s = None ->
      step s (s <| others ::= <[i := Ret None]> |>
                <| handler := Some (udevProbe.listen c order st msg) |> <| handled ::= fun l => (l ++ [msg])%list |>)
  | step_handler s X (e : callE X) k x :
      handler s = Some (Call e k) -> says refs (live s) X e x ->
      step s (s <| live ::= fun L => after L X e x |> <| handler := Some (k x) |>)
  | step_handled s st :
      handler s = Some (Ret st) -> step s (s <| handler := None |>).

(** From a monitor that was set up (monitorStart), with nothing else running *)
Inductive reachable : goroutines -> Prop :=
  | reach_init L :
      (KMonitor, udevevent.udevMonitor m) ∈ L -> reachable (MkGoroutines L process [] None [] None [] [] [])
  | reach_step s s' : reachable s -> step s s' -> reachable s'.
End Pipeline.

(** ** Ownership

    Every object that is there belongs to one goroutine. *)

Inductive owner := Monitor | Pending | Probe | Handler | Other (i : nat).
#[global] Instance owner_eq_dec : EqDecision owner.
Proof. solve_decision. Defined.

Implicit Types (O : gmap handle owner) (t : owner) (h : handle).

Definition owned O t : gset handle := dom (filter (fun ht => ht.2 = t) O).

Lemma elem_of_owned O t h : h ∈ owned O t <-> O !! h = Some t.
Proof.
  unfold owned. rewrite elem_of_dom. split.
  - intros [t' Ht]. apply map_lookup_filter_Some in Ht as [Ht Heq]. cbn in Heq. by subst.
  - intros Ht. exists t. by apply map_lookup_filter_Some.
Qed.

(** A call by the owner [t] *)
Definition owned_after O t X (e : callE X) (x : X) : gmap handle owner :=
  let O := if frees X e then match needs X e with Some h => delete h O | None => O end else O in
  match makes X e x with Some h => <[h := t]> O | None => O end.

Lemma makes_not_frees X (e : callE X) x : frees X e = true -> makes X e x = None.
Proof. by destruct e. Qed.

Lemma owned_after_dom O t X (e : callE X) x : dom (owned_after O t X e x) = after (dom O) X e x.
Proof.
  unfold owned_after, after. apply leibniz_equiv.
  destruct (frees X e), (needs X e), (makes X e x); cbn; rewrite ?dom_insert, ?dom_delete; set_solver.
Qed.

(** A call changes what its owner has, as the protocol says, and nothing of the others. *)
Lemma owned_after_self O t X (e : callE X) x :
  may refs (owned O t) X e -> says refs (dom O) X e x ->
  owned (owned_after O t X e x) t = after (owned O t) X e x.
Proof.
  cbn. intros Hm Hs. apply set_eq. intros h. unfold owned_after, after. rewrite elem_of_owned.
  destruct (frees X e) eqn:Hf.
  - rewrite (makes_not_frees X e x Hf). destruct (needs X e) as [h'|]; cbn.
    + rewrite elem_of_owned in Hm. rewrite lookup_delete_Some, elem_of_union, elem_of_difference, elem_of_owned. set_solver.
    + rewrite elem_of_union, elem_of_difference, elem_of_owned. set_solver.
  - destruct (makes X e x) as [h'|]; cbn.
    + rewrite elem_of_dom, <- eq_None_not_Some in Hs.
      rewrite lookup_insert_Some, elem_of_union, elem_of_owned. set_solver.
    + rewrite elem_of_union, elem_of_owned. set_solver.
Qed.

Lemma owned_after_other O t t' X (e : callE X) x :
  t' <> t -> may refs (owned O t) X e -> says refs (dom O) X e x ->
  owned (owned_after O t X e x) t' = owned O t'.
Proof.
  cbn. intros Hne Hm Hs. apply set_eq. intros h. unfold owned_after. rewrite !elem_of_owned.
  destruct (frees X e) eqn:Hf.
  - rewrite (makes_not_frees X e x Hf). destruct (needs X e) as [h'|]; [|done].
    rewrite elem_of_owned in Hm. rewrite lookup_delete_Some. naive_solver.
  - destruct (makes X e x) as [h'|]; [|done].
    rewrite elem_of_dom, <- eq_None_not_Some in Hs. rewrite lookup_insert_Some. naive_solver.
Qed.

(** ** The programs *)

(** Calls that have nothing to do with objects of libudev *)
Definition no_object X (e : callE X) : bool :=
  match e with UdevNew => false | e => bool_decide (needs _ e = None) end.

Lemma no_object_makes X (e : callE X) x : no_object X e = true -> makes X e x = None.
Proof. by destruct e. Qed.

Lemma no_object_refs {A} K (p : prog A) R :
  uses no_object p -> returns p R -> wp refs K p (fun K' a => K' = K /\ R a).
Proof.
  apply uses_returns_keeps; [done|]. intros X e He.
  assert (Hn : needs X e = None) by (by destruct e). cbn. rewrite Hn. split; [done|].
  intros x. unfold after. rewrite Hn, (no_object_makes X e x He). destruct (frees X e); set_solver.
Qed.

Lemma no_object_keeps {A} K (p : prog A) : uses no_object p -> wp refs K p (fun K' _ => K' = K).
Proof. intros Hp. eapply wp_mono; [|by apply no_object_refs, returns_any]. by intros K' a [-> _]. Qed.

Lemma GetUid_objects d : uses no_object (udev.GetUid d).
Proof. unfold udev.GetUid, hostname. cbv zeta. uses_solve. Qed.

Lemma sysfs_string_objects f : uses no_object (sysfs.readSysFSFileAsString f).
Proof. unfold sysfs.readSysFSFileAsString. uses_solve. Qed.
#[export] Hint Resolve sysfs_string_objects : uses.

Lemma fillSysfs_objects devtype bd : uses no_object (udevProbe.fillSysfs devtype bd).
Proof.
  unfold udevProbe.fillSysfs, sysfs.NewSysFsDeviceFromDevPath, sysfs.getDeviceSysPath, sysfs.GetDependents, sysfs.getPartitions, sysfs.getHolders, sysfs.getSlaves,
    sysfs.entriesOf, sysfs.GetDeviceType. cbv zeta. uses_solve.
Qed.

Lemma DiskInfo_objects d : uses no_object (udev.DiskInfoFromLibudev d).
Proof. unfold udev.DiskInfoFromLibudev, udev.GetDevLinks, udev.addLink. cbv zeta. uses_solve. Qed.

Lemma DeactivateStale_objects c ds : uses no_object (DeactivateStaleBlockDeviceResource c ds).
Proof.
  unfold DeactivateStaleBlockDeviceResource, GetActiveSparseBlockDevicesUUID, ListBlockDeviceResource,
    DeactivateBlockDevice, GetSparseFileDir, Getenv. cbv zeta. uses_solve.
Qed.

(** *** Making and freeing *)

Lemma wp_ret (P : protocol) {A} K (a : A) Q : Q K a -> wp P K (Ret a) Q.
Proof. done. Qed.

(** A call that makes an object, or frees one *)
Lemma wp_makes {X B} K (e : callE X) (k : X -> prog B) Q :
  may refs K X e -> frees X e = false ->
  (forall x, makes X e x = None -> wp refs K (k x) Q) ->
  (forall x h, makes X e x = Some h -> h ∉ K -> wp refs ({[h]} ∪ K) (k x) Q) ->
  wp refs K (bind (call e) k) Q.
Proof.
  intros Hm Hf Hn Hs. apply wp_then; [done|]. intros x. cbn. unfold after. rewrite Hf.
  destruct (makes X e x) as [h|] eqn:He; intros Hx; cbn.
  - replace (K ∪ ({[h]} ∪ ∅)) with ({[h]} ∪ K) by set_solver. by eapply Hs.
  - replace (K ∪ ∅) with K by set_solver. by apply Hn.
Qed.

Lemma wp_frees (K : gset handle) (e : callE unit) h (Q : gset handle -> unit -> Prop) :
  needs unit e = Some h -> frees unit e = true -> h ∈ K -> Q (K ∖ {[h]}) tt -> wp refs K (call e) Q.
Proof.
  intros Hn Hf Hin HQ. split; [cbn; by rewrite Hn|]. intros [] _. cbn. unfold after.
  rewrite Hf, (makes_not_frees unit e tt Hf), Hn. cbn.
  by replace (K ∖ ({[h]} ∪ ∅) ∪ ∅) with (K ∖ {[h]}) by set_solver.
Qed.

Lemma newUdevProbe_refs K :
  wp refs K udevProbe.newUdevProbe (fun K' r =>
    match r with
    | Some up => exists u en, up = udevProbe.MkUdevProbe (Some u) None (Some en) /\
        (KUdev, u) ∉ K /\ (KEnumerate, en) ∉ K /\ K' = {[(KUdev, u); (KEnumerate, en)]} ∪ K
    | None => K' = K \/ exists u, (KUdev, u) ∉ K /\ K' = {[(KUdev, u)]} ∪ K
    end).
Proof.
  unfold udevProbe.newUdevProbe, udev.NewUdev, udev.NewUdevEnumerate. apply wp_bind, wp_makes; [done|done| |].
  - intros [u|]; [done|]. intros _. cbn. by left.
  - intros [u|] h; [|done]. intros [= <-] Hu. cbn [wp udev.newUdev]. apply wp_bind, wp_makes; [cbn; set_solver|done| |].
    + intros [en|]; [done|]. intros _. cbn. eauto.
    + intros [en|] h; [|done]. intros [= <-] Hen. cbn. exists u, en. split_and!; [done|done|set_solver|set_solver].
Qed.

Lemma free_refs K u en :
  (KUdev, u) ∈ K -> (KEnumerate, en) ∈ K ->
  wp refs K (udevProbe.free (Some (udevProbe.MkUdevProbe (Some u) None (Some en))))
    (fun K' _ => K' = K ∖ {[(KUdev, u); (KEnumerate, en)]}).
Proof.
  intros Hu Hen. cbn [udevProbe.free udevProbe.upUdev udevProbe.upDevice udevProbe.upEnumerate].
  apply wp_bind, (wp_frees _ _ (KUdev, u)); [done..|]. apply wp_bind. change (wp refs (K ∖ {[(KUdev, u)]})
    (call (UdevEnumerateUnref en)) (fun K' _ => K' = K ∖ {[(KUdev, u); (KEnumerate, en)]})).
  apply (wp_frees _ _ (KEnumerate, en)); [done|done|set_solver|]. set_solver.
Qed.

Lemma scanOne_refs K c u s path :
  (KUdev, u) ∈ K -> wp refs K (udevProbe.scanOne c u s path) (fun K' _ => K' = K).
Proof.
  intros Hu. unfold udevProbe.scanOne, udev.NewDeviceFromSysPath. apply wp_bind, wp_makes; [done|done| |].
  - by intros [d|].
  - intros [d|] h; [|done]. intros [= <-] Hd. cbn [wp udev.newUdevDevice]. apply wp_bind.
    eapply wp_mono; [|apply no_object_keeps].
    + cbv beta. intros K' s' ->. apply wp_bind. eapply wp_frees; [done|done|set_solver|]. cbn. set_solver.
    + destruct (udev.IsDisk d || udev.IsParitition d); [|done]. destruct s as [ds us]. cbv zeta.
      apply uses_bind; [destruct (features.IsEnabled _ _); [done|]|].
      * apply uses_bind; [apply GetUid_objects|done].
      * intros [bd us']. apply uses_bind; [apply fillSysfs_objects|done].
Qed.

Lemma scan_refs K c acquired u d en st :
  (KUdev, u) ∈ K -> (KEnumerate, en) ∈ K ->
  wp refs K (udevProbe.scan c acquired (Some (udevProbe.MkUdevProbe (Some u) d (Some en))) st) (fun K' _ => K' = K).
Proof.
  intros Hu Hen. unfold udevProbe.scan, udev.AddSubsystemFilter, udev.ScanDevices. destruct acquired; [|done]. cbn [negb].
  apply wp_bind, wp_makes; [done|done|intros ret _|done]. apply wp_ret. destruct (ret <? 0)%Z; [done|].
  apply wp_bind, wp_makes; [done|done|intros ret' _|done]. apply wp_ret. destruct (ret' <? 0)%Z; [done|].
  apply wp_makes; [done|done|intros entries _|done]. apply wp_bind.
  eapply wp_mono; [|apply (wp_for_each refs (fun K' _ => K' = K)); [|done]]; cbv beta.
  - intros K' [ds us] ->. apply wp_bind. eapply wp_mono; [|apply no_object_keeps, DeactivateStale_objects].
    by intros K' [] ->.
  - intros K' s path _ ->. by apply scanOne_refs.
Qed.

Lemma Rescan_refs K c acquired st : wp refs K (udevProbe.Rescan c acquired st) (fun K' _ => K' = K).
Proof.
  unfold udevProbe.Rescan. apply wp_bind. eapply wp_mono; [|apply newUdevProbe_refs]. cbv beta.
  intros K1 [up|] Hup; apply wp_bind; [|by destruct acquired].
  destruct Hup as (u & en & -> & Hu & Hen & ->).
  eapply wp_mono; [|apply scan_refs; set_solver]. cbv beta. intros K2 r ->. apply wp_bind.
  eapply wp_mono; [|apply free_refs; set_solver]. cbn. intros K3 _ ->. set_solver.
Qed.

Lemma startScan_refs K c acquired st :
  wp refs K (udevProbe.startScan c acquired st) (fun K' _ =>
    K ⊆ K' /\ (acquired = true -> exists u en, K' = {[(KUdev, u); (KEnumerate, en)]} ∪ K)).
Proof.
  unfold udevProbe.startScan. apply wp_bind. eapply wp_mono; [|apply newUdevProbe_refs]. cbv beta.
  intros K1 [up|] Hup.
  - destruct Hup as (u & en & -> & Hu & Hen & ->). eapply wp_mono; [|apply scan_refs; set_solver].
    cbv beta. intros K2 r ->. split; [set_solver|eauto].
  - destruct acquired; [done|]. cbn. split; [|done]. destruct Hup as [->|(u & _ & ->)]; set_solver.
Qed.

Lemma Fill_refs K bd :
  wp refs K (udevProbe.Fill bd) (fun K' bd' =>
    K' = K \/ (bd' = bd /\ exists u, (KUdev, u) ∉ K /\ K' = {[(KUdev, u)]} ∪ K)).
Proof.
  unfold udevProbe.Fill, udevProbe.newUdevProbeForFillDiskDetails, udev.NewUdev, udev.NewDeviceFromSysPath.
  apply wp_bind, wp_bind, wp_makes; [done|done| |].
  { intros [u|]; [done|]. intros _. by left. }
  intros [u|] h; [|done]. intros [= <-] Hu. cbn [wp udev.newUdev].
  apply wp_bind, wp_makes; [cbn; set_solver|done| |].
  - intros [d|]; [done|]. intros _. right. eauto.
  - intros [d|] h; [|done]. intros [= <-] Hd. apply wp_ret. cbn [udev.newUdevDevice].
    apply wp_bind, wp_ret, wp_bind. eapply wp_mono; [|apply no_object_keeps, DiskInfo_objects]. cbv beta. intros K' i ->.
    apply wp_bind. unfold udevProbe.free. cbn [udevProbe.upUdev udevProbe.upDevice udevProbe.upEnumerate].
    apply wp_bind. eapply wp_frees; [done|done|set_solver|].
    apply wp_bind. eapply wp_frees; [done|done|set_solver|]. cbn. left. set_solver.
Qed.

Lemma fillSysfs_devpath devtype bd :
  returns (udevProbe.fillSysfs devtype bd) (fun b => blockdevice.devpath b = blockdevice.devpath bd).
Proof. unfold udevProbe.fillSysfs. by repeat returns_step. Qed.

Lemma processUdevEvent_refs (K : gset handle) up sp ev :
  dev (evDevice ev) ∈ K ->
  wp refs K (udevProbe.processUdevEvent up sp ev) (fun K' msg => K' = K ∖ {[dev (evDevice ev)]} /\ answers ev msg).
Proof.
  intros Hd. destruct ev as [d action]. unfold udevProbe.processUdevEvent. apply wp_bind.
  eapply wp_mono; [|apply no_object_keeps, GetUid_objects]. cbv beta zeta. intros K' u ->.
  case_decide as Ha.
  - subst action. apply wp_bind. eapply wp_frees; [done|done|done|]. cbn. split; [done|]. split; [done|]. by eexists.
  - apply wp_bind. eapply wp_mono; [|apply (no_object_refs _ _ (fun b => blockdevice.devpath b = udev.GetPath d))].
    + cbv beta. intros K' bd [-> Hbd]. apply wp_bind. eapply wp_frees; [done|done|done|]. cbn.
      split; [done|]. split; [by destruct action|]. by exists bd.
    + case_decide; [done|]. apply fillSysfs_objects.
    + case_decide; [done|]. apply fillSysfs_devpath.
Qed.

(** What the monitor hands on: at most one event, of a device it got, or a device that is
    neither handed on nor freed *)
Lemma process_refs (c : Controller) (mo : udevevent.monitor) (fd : Z) (K : gset handle) :
  (KMonitor, udevevent.udevMonitor mo) ∈ K ->
  wp refs K (process c mo fd) (fun K' r =>
    (r.2 = [] /\ (K' = K \/ exists d, dev d ∉ K /\ K' = {[dev d]} ∪ K)) \/
    (exists ev, r.2 = [(0, ev)] /\ dev (evDevice ev) ∉ K /\ K' = {[dev (evDevice ev)]} ∪ K)).
Proof.
  intros Hm. unfold process, udevevent.process, udevevent.ReceiveDevice. apply wp_bind.
  destruct (FD_SET _ _) as [fds|]; [|done]. apply wp_ret. apply wp_makes; [done|done|intros [ret fds'] _|done].
  destruct (ret <=? 0)%Z; [by left; split; [|left]|]. apply wp_bind.
  destruct (FD_ISSET _ _) as [[]|]; [|by left; split; [|left]|done]. apply wp_ret. cbn [negb].
  apply wp_bind, wp_makes; [done|done| |].
  { intros [r|]; [done|]. intros _. left. split; [done|by left]. }
  intros [[d action]|] h; [|done]. intros [= <-] Hd. apply wp_ret.
  destruct (monitorEvent d action) as [[e|ty]|].
  - left. split; [done|right; eauto].
  - set (ev := MkUdevEvent d ty). apply wp_bind.
    assert (Hds : exists l, udevevent.dispatchEvent ev (startSubscription (Gates c)).1 = Ret l /\ (l = [] \/ l = [0])).
    { unfold startSubscription. destruct (features.IsEnabled (Gates c) _), ty; eauto. }
    destruct Hds as (l & -> & [-> | ->]); [left|right].
    + split; [done|right; eauto].
    + exists ev. done.
  - apply wp_bind. eapply wp_frees; [done|done|set_solver|]. left. split; [done|left; set_solver].
Qed.

(** *** The handlers

    Of the probes only the udev probe deals with objects of libudev, and it keeps to the
    discipline whatever else there is. *)

Definition keeps_refs {A : Type} (p : prog A) : Prop := forall K : gset handle, wp refs K p (fun _ _ => True).

Lemma keeps_refs_plain {A} (p : prog A) : uses no_object p -> keeps_refs p.
Proof. intros Hp K. eapply wp_mono; [|by apply no_object_keeps]. done. Qed.

Lemma keeps_refs_bind {A B} (p : prog A) (f : A -> prog B) :
  keeps_refs p -> (forall a, keeps_refs (f a)) -> keeps_refs (bind p f).
Proof. intros Hp Hf K. apply wp_bind. eapply wp_mono; [|apply Hp]. intros K' a _. apply Hf. Qed.

Lemma keeps_refs_for_each {A S} (f : S -> A -> prog S) s l :
  (forall s x, x ∈ l -> keeps_refs (f s x)) -> keeps_refs (for_each f s l).
Proof. intros Hf K. apply wp_for_each; [|done]. intros K' s' x Hx _. by apply Hf. Qed.

Lemma host_plain_objects {A} (p : prog A) : uses host_plain p -> uses no_object p.
Proof. apply uses_weaken. by intros X []. Qed.

Create HintDb refs.
Ltac refs_step :=
  match goal with
  | |- keeps_refs (Ret _) => by intros ?
  | |- keeps_refs (Panic _) => by intros ?
  | |- keeps_refs (call _) => apply keeps_refs_plain; by split
  | |- keeps_refs (bind _ _) => apply keeps_refs_bind; [|intros]
  | |- keeps_refs (for_each _ _ _) => apply keeps_refs_for_each; intros
  | |- keeps_refs (match ?x with _ => _ end) => destruct x
  | |- keeps_refs (let _ := _ in _) => intros
  | _ => solve [eauto with refs]
  end.

Section HandlersRefs.
Context `{K8sLib} (c : Controller) (Hc : host_controller c).

Lemma Fill_keeps p bd : p ∈ Probes c -> keeps_refs (Controller.Fill p bd).
Proof.
  intros Hp. destruct Hc as [_ Hps]. rewrite List.Forall_forall in Hps.
  destruct (Hps p) as [Hf|Hf]; [by apply list_elem_of_In|by apply keeps_refs_plain, host_plain_objects|].
  rewrite Hf. intros K. eapply wp_mono; [|apply Fill_refs]. done.
Qed.

Lemma FillBlockDeviceDetails_keeps bd requested : keeps_refs (FillBlockDeviceDetails c bd requested).
Proof.
  apply keeps_refs_for_each. intros b p Hp. apply Fill_keeps. unfold ListProbe in Hp.
  rewrite listProbe_filter in Hp. by apply list_elem_of_filter in Hp as [_ ?].
Qed.

Lemma ApplyFilter_keeps bd : keeps_refs (ApplyFilter c bd).
Proof.
  unfold ApplyFilter, ListFilter.
  assert (Hl : forall f, f ∈ listFilter (Filters c) -> host_filter f).
  { intros f Hf%listFilter_sub. destruct Hc as [Hfs _]. rewrite List.Forall_forall in Hfs. by apply Hfs, list_elem_of_In. }
  induction (listFilter (Filters c)) as [|f l IH]; [by intros K|]. cbn [applyFilters].
  destruct (Hl f ltac:(left)) as [Hi He]. apply keeps_refs_bind.
  - apply keeps_refs_plain, host_plain_objects. unfold ApplyFilter1. uses_solve.
  - intros b. destruct (negb b); [by intros K|]. apply IH. intros f' Hf'. apply Hl. by right.
Qed.
#[local] Hint Resolve FillBlockDeviceDetails_keeps ApplyFilter_keeps : refs.

(** The rest only talks to the API server and to the disk. *)
Lemma UpdateBlockDevice_objects b old : uses no_object (UpdateBlockDevice b old).
Proof. unfold UpdateBlockDevice. cbv zeta. uses_solve. Qed.
#[local] Hint Resolve UpdateBlockDevice_objects : uses.

Lemma CreateBlockDevice_objects b : uses no_object (CreateBlockDevice c b).
Proof. unfold CreateBlockDevice. cbv zeta. uses_solve. Qed.
#[local] Hint Resolve CreateBlockDevice_objects : uses.

Lemma generateUUID_objects g bd : uses no_object (generateUUID g bd).
Proof. unfold generateUUID, uuidField, hostname. cbv zeta. uses_solve. Qed.
Lemma generateLegacyUUID_objects bd : uses no_object (generateLegacyUUID bd).
Proof. unfold generateLegacyUUID, hostname. cbv zeta. uses_solve. Qed.
#[local] Hint Resolve generateUUID_objects generateLegacyUUID_objects : uses.

Lemma createOrUpdate_objects st a bd e : uses no_object (createOrUpdateWithAnnotation c st a bd e).
Proof. unfold createOrUpdateWithAnnotation. cbv zeta. uses_solve. Qed.
#[local] Hint Resolve createOrUpdate_objects : uses.

Lemma upgradeInUse_objects f push st bd :
  (forall st bd e, uses no_object (push st bd e)) -> uses no_object (upgradeInUse c f push st bd).
Proof. intros Hp. unfold upgradeInUse. cbv zeta. uses_solve. Qed.

Lemma makeIdentifiable_objects bd : uses no_object (makeIdentifiable c bd).
Proof.
  unfold makeIdentifiable, partition.CreatePartitionTable, partition.CreateSinglePartition,
    partition.applyPartitionTable, blkid.GetOnDiskFileSystem, blkid.GetTagValue. cbv zeta. uses_solve.
Qed.
#[local] Hint Resolve makeIdentifiable_objects : uses.

Lemma addBlockDevice_objects st bd : uses no_object (addBlockDevice c st bd).
Proof.
  assert (Hh : uses no_object (handleUnmanagedDevices c st bd)).
  { unfold handleUnmanagedDevices, deviceInUseByZFSLocalPV. cbv zeta. uses_solve. }
  assert (Hu : forall st, uses no_object (upgradeBD c st bd)).
  { intros st'. unfold upgradeBD, upgradeDeviceInUseByLocalPV, upgradeDeviceInUseByCStor. cbv zeta.
    uses_solve; apply upgradeInUse_objects; intros; apply createOrUpdate_objects. }
  unfold addBlockDevice, addIdentified, addNewPartition, createBlockDeviceResourceIfNoHolders, GetBlockDevice,
    DeactivateBlockDevice. cbv zeta. uses_solve.
Qed.
Lemma deleteBlockDevice_objects st bd : uses no_object (deleteBlockDevice c st bd).
Proof. unfold deleteBlockDevice, DeactivateBlockDevice. cbv zeta. uses_solve. Qed.
Lemma PushBlockDevice_objects old di : uses no_object (PushBlockDeviceResource c old di).
Proof. unfold PushBlockDeviceResource. cbv zeta. uses_solve. Qed.
Lemma ListBlockDevice_objects all : uses no_object (ListBlockDeviceResource c all).
Proof. unfold ListBlockDeviceResource. uses_solve. Qed.
#[local] Hint Resolve addBlockDevice_objects deleteBlockDevice_objects PushBlockDevice_objects ListBlockDevice_objects : uses.

Lemma plain_keeps {A} (p : prog A) : uses no_object p -> keeps_refs p.
Proof. apply keeps_refs_plain. Qed.
#[local] Hint Resolve plain_keeps : refs.
#[local] Hint Resolve addBlockDevice_objects deleteBlockDevice_objects PushBlockDevice_objects ListBlockDevice_objects
  generateUUID_objects UpdateBlockDevice_objects : refs.

Lemma listen_keeps order st msg : keeps_refs (udevProbe.listen c order st msg).
Proof.
  unfold udevProbe.listen, addBlockDeviceEvent, addOne, deleteBlockDeviceEvent, deleteOne, changeBlockDeviceEvent,
    changeBlockDevice, DeactivateBlockDevice. cbv zeta. repeat refs_step.
Qed.
End HandlersRefs.

(** ** The goroutines keep to what they own *)

Lemma owned_transfer O h t1 t2 t :
  O !! h = Some t1 -> t <> t1 -> t <> t2 -> owned (<[h := t2]> O) t = owned O t.
Proof.
  intros Hh H1 H2. apply set_eq. intros h'. rewrite !elem_of_owned, lookup_insert_Some. naive_solver.
Qed.

Lemma dom_transfer O h t1 t2 : O !! h = Some t1 -> dom (<[h := t2]> O) = dom O.
Proof. intros Hh. apply leibniz_equiv. rewrite dom_insert. apply elem_of_dom_2 in Hh. set_solver. Qed.

Lemma owned_sub O t : owned O t ⊆ dom O.
Proof. intros h. rewrite elem_of_owned. apply elem_of_dom_2. Qed.

(** A call by the owner is allowed by what is there. *)
Lemma may_live O t X (e : callE X) : may refs (owned O t) X e -> may refs (dom O) X e.
Proof. cbn. destruct (needs X e); [|done]. apply owned_sub. Qed.

Lemma says_owned O t X (e : callE X) x : says refs (dom O) X e x -> says refs (owned O t) X e x.
Proof. cbn. destruct (makes X e x); [|done]. intros Hn Hi. by apply Hn, (owned_sub O t). Qed.

(** One call of a goroutine: its own precondition moves on, the others keep theirs. *)
Lemma wp_owned O t X (e : callE X) {A} (k : X -> prog A) x Q :
  wp refs (owned O t) (Call e k) Q -> says refs (dom O) X e x ->
  wp refs (owned (owned_after O t X e x) t) (k x) Q /\
  forall t', t' <> t -> owned (owned_after O t X e x) t' = owned O t'.
Proof.
  intros [Hm Hk] Hs. split.
  - rewrite owned_after_self by done. by apply Hk, says_owned.
  - intros t' Ht'. by apply owned_after_other.
Qed.

Lemma other_program_refs K p : other_program p -> wp refs K p (fun _ _ => True).
Proof.
  destruct 1; [apply wp_bind..|done].
  - by eapply wp_mono; [|apply startScan_refs].
  - by eapply wp_mono; [|apply Rescan_refs].
Qed.

Section Invariant.
Context `{K8sLib} (c : Controller) (m : udevevent.monitor) (fd : Z) (up sp : string).
Hypothesis Hhost : host_controller c.

(** The monitor keeps its own object and hands on at most one device. *)
Definition monitor_post (K : gset handle) (r : option err * list (nat * UdevEvent)) : Prop :=
  (KMonitor, udevevent.udevMonitor m) ∈ K /\
  (r.2 = [] \/ exists ev, r.2 = [(0, ev)] /\ dev (evDevice ev) ∈ K).

Lemma process_post K :
  (KMonitor, udevevent.udevMonitor m) ∈ K -> wp refs K (process c m fd) monitor_post.
Proof.
  intros Hm. eapply wp_mono; [|by apply process_refs]. cbv beta.
  intros K' r [[Hr [-> | (d & _ & ->)]] | (ev & Hr & _ & ->)].
  - split; [done|by left].
  - split; [set_solver|by left].
  - split; [set_solver|right]. exists ev. split; [done|set_solver].
Qed.

(** The message in the making is about the event [cur]. *)
Definition probe_inv O (p : option (prog EventMessage)) (cur : list UdevEvent) : Prop :=
  match p with
  | None => cur = []
  | Some p => exists ev, cur = [ev] /\ wp refs (owned O Probe) p (fun _ msg => answers ev msg)
  end.
Definition handler_inv O (p : option (prog PState)) : Prop :=
  match p with None => True | Some p => wp refs (owned O Handler) p (fun _ _ => True) end.

(** The goroutines, each with what it owns *)
Record own_inv (s : goroutines) O (cur : list UdevEvent) : Prop := {
  inv_dom : dom O = live s;
  inv_monitor : wp refs (owned O Monitor) (monitor s) monitor_post;
  inv_pending : pending s = [] \/ exists ev, pending s = [(0, ev)] /\ O !! dev (evDevice ev) = Some Pending;
  inv_probe : probe_inv O (probe s) cur;
  inv_handler : handler_inv O (handler s);
  inv_others : forall i p, others s !! i = Some p -> wp refs (owned O (Other i)) p (fun _ _ => True)
}.
(** What became of the events *)
Record log_inv (s : goroutines) (done cur : list UdevEvent) : Prop := {
  inv_received : received s = (done ++ cur ++ (pending s).*2)%list;
  inv_sent : Forall2 answers done (sent s);
  inv_handled : sent s `sublist_of` handled s
}.

Lemma own_init L :
  (KMonitor, udevevent.udevMonitor m) ∈ L ->
  own_inv (MkGoroutines L (process c m fd) [] None [] None [] [] []) (gset_to_gmap Monitor L) [].
Proof.
  intros HL. split; cbn; [apply dom_gset_to_gmap| |by left|done|done|done].
  apply process_post. apply elem_of_owned. by apply lookup_gset_to_gmap_Some.
Qed.

(** A call of the goroutine [t]: the others keep what they own, and their preconditions *)
Lemma own_call s s' O cur t X (e : callE X) x :
  own_inv s O cur -> (forall t', t' <> t -> owned (owned_after O t X e x) t' = owned O t') -> t <> Pending ->
  live s' = after (live s) X e x -> pending s' = pending s ->
  (if decide (t = Monitor) then wp refs (owned (owned_after O t X e x) Monitor) (monitor s') monitor_post
   else monitor s' = monitor s) ->
  (if decide (t = Probe) then probe_inv (owned_after O t X e x) (probe s') cur else probe s' = probe s) ->
  (if decide (t = Handler) then handler_inv (owned_after O t X e x) (handler s') else handler s' = handler s) ->
  (forall i p, others s' !! i = Some p ->
     (t = Other i /\ wp refs (owned (owned_after O t X e x) (Other i)) p (fun _ _ => True)) \/
     (t <> Other i /\ others s !! i = Some p)) ->
  own_inv s' (owned_after O t X e x) cur.
Proof.
  intros [Hd Hm Hp Hpr Hh Ho] Hkeep Ht Hl Hpe Hm' Hpr' Hh' Ho'. split.
  - by rewrite owned_after_dom, Hd, Hl.
  - destruct (decide (t = Monitor)); [by subst|]. by rewrite Hkeep, Hm' by done.
  - rewrite Hpe. destruct Hp as [Hnil|(ev & Hev & HO)]; [by left|right]. exists ev. split; [done|].
    by rewrite <- elem_of_owned, Hkeep, elem_of_owned by done.
  - destruct (decide (t = Probe)); [done|]. rewrite Hpr'. unfold probe_inv. by rewrite Hkeep by done.
  - destruct (decide (t = Handler)); [done|]. rewrite Hh'. unfold handler_inv. by rewrite Hkeep by done.
  - intros i p Hi. destruct (Ho' i p Hi) as [[-> ?]|[Hne Hi']]; [done|]. rewrite Hkeep by done. by apply Ho.
Qed.

(** What changes hands without a call: [h] goes from [t1] to [t2]. *)
Lemma own_keep s s' O cur :
  own_inv s O cur -> live s' = live s -> monitor s' = monitor s -> pending s' = pending s ->
  probe s' = probe s -> handler_inv O (handler s') ->
  (forall i p, others s' !! i = Some p -> others s !! i = Some p \/ wp refs (owned O (Other i)) p (fun _ _ => True)) ->
  own_inv s' O cur.
Proof.
  intros [Hd Hm Hp Hpr Hh Ho] Hl Hm' Hp' Hpr' Hh' Ho'. split; rewrite ?Hl, ?Hm', ?Hp', ?Hpr'; try done.
  intros i p Hi. destruct (Ho' i p Hi); [by apply Ho|done].
Qed.

Lemma own_call_monitor s O cur X (e : callE X) k x :
  own_inv s O cur -> monitor s = Call e k -> says refs (live s) X e x ->
  exists O', own_inv (s <| live ::= fun L => after L X e x |> <| monitor := k x |>) O' cur.
Proof.
  intros Hi He Hx. pose proof Hi as [Hd Hm _ _ _ _]. rewrite <- Hd in Hx. rewrite He in Hm.
  destruct (wp_owned O Monitor X e k x _ Hm Hx) as [Hk Hkeep]. eexists. eapply (own_call s); [done..|].
  intros i p Hp. by right.
Qed.

Lemma own_call_probe s O cur X (e : callE X) k x :
  own_inv s O cur -> probe s = Some (Call e k) -> says refs (live s) X e x ->
  exists O', own_inv (s <| live ::= fun L => after L X e x |> <| probe := Some (k x) |>) O' cur.
Proof.
  intros Hi He Hx. pose proof Hi as [Hd _ _ Hpr _ _]. rewrite <- Hd in Hx. rewrite He in Hpr.
  destruct Hpr as (ev & -> & Hpr). destruct (wp_owned O Probe X e k x _ Hpr Hx) as [Hk Hkeep].
  eexists. eapply (own_call s); [done..| |done|]; [by exists ev|]. intros i p Hp. by right.
Qed.

Lemma own_call_handler s O cur X (e : callE X) k x :
  own_inv s O cur -> handler s = Some (Call e k) -> says refs (live s) X e x ->
  exists O', own_inv (s <| live ::= fun L => after L X e x |> <| handler := Some (k x) |>) O' cur.
Proof.
  intros Hi He Hx. pose proof Hi as [Hd _ _ _ Hh _]. rewrite <- Hd in Hx. rewrite He in Hh.
  destruct (wp_owned O Handler X e k x _ Hh Hx) as [Hk Hkeep]. eexists. eapply (own_call s); [done..|].
  intros i p Hp. by right.
Qed.

Lemma own_call_other s O cur i X (e : callE X) k x :
  own_inv s O cur -> others s !! i = Some (Call e k) -> says refs (live s) X e x ->
  exists O', own_inv (s <| live ::= fun L => after L X e x |> <| others ::= <[i := k x]> |>) O' cur.
Proof.
  intros Hi He Hx. pose proof Hi as [Hd _ _ _ _ Ho]. rewrite <- Hd in Hx.
  destruct (wp_owned O (Other i) X e k x _ (Ho i _ He) Hx) as [Hk Hkeep]. eexists. eapply (own_call s); [done..|].
  cbn. intros j p [[-> [<- _]]|[Hne Hj]]%list_lookup_insert_Some; [by left|right]. split; [congruence|done].
Qed.

(** The monitor hands its device to the channel, the probe takes it from there. *)
Lemma own_dispatch s O cur err evs :
  own_inv s O cur -> monitor s = Ret (err, evs) -> pending s = [] ->
  exists O', own_inv (s <| monitor := process c m fd |> <| pending := evs |>
                        <| received ::= fun l => (l ++ evs.*2)%list |>) O' cur.
Proof.
  intros [Hd Hm Hp Hpr Hh Ho] He Hnil. rewrite He in Hm.
  destruct Hm as [Hmon [Hevs|(ev & Hevs & Hev)]]; cbn in Hevs; subst evs.
  - exists O. split; cbn; [done|by apply process_post|by left|done..].
  - exists (<[dev (evDevice ev) := Pending]> O). rewrite elem_of_owned in Hev. split; cbn.
    + by rewrite (dom_transfer O _ Monitor).
    + apply process_post. rewrite elem_of_owned in *. by rewrite lookup_insert_ne.
    + right. exists ev. by rewrite lookup_insert_eq.
    + unfold probe_inv. by rewrite (owned_transfer O _ Monitor).
    + unfold handler_inv. by rewrite (owned_transfer O _ Monitor).
    + intros i p Hi. rewrite (owned_transfer O _ Monitor) by done. by apply Ho.
Qed.

Lemma own_take s O cur ch ev evs :
  own_inv s O cur -> pending s = (ch, ev) :: evs -> probe s = None ->
  exists O', own_inv (s <| pending := evs |> <| probe := Some (udevProbe.processUdevEvent up sp ev) |>) O' [ev] /\
    cur = [] /\ evs = [].
Proof.
  intros [Hd Hm Hp Hpr Hh Ho] He Hnone. rewrite Hnone in Hpr.
  destruct Hp as [Hp|(ev' & Hp & Hev)]; rewrite Hp in He; [done|]. injection He as <- <- <-.
  exists (<[dev (evDevice ev') := Probe]> O). split; [|done]. split; cbn.
  - by rewrite (dom_transfer O _ Pending).
  - by rewrite (owned_transfer O _ Pending).
  - by left.
  - exists ev'. split; [done|]. eapply wp_mono; [|apply processUdevEvent_refs].
    + by intros K msg [_ ?].
    + apply elem_of_owned. by rewrite lookup_insert_eq.
  - unfold handler_inv. by rewrite (owned_transfer O _ Pending).
  - intros i p Hi. rewrite (owned_transfer O _ Pending) by done. by apply Ho.
Qed.

Lemma goroutines_step s s' O d cur :
  own_inv s O cur -> log_inv s d cur -> step c m fd up sp s s' ->
  exists O' d' cur', own_inv s' O' cur' /\ log_inv s' d' cur'.
Proof.
  intros Hi [Hr Hs Hh] Hstep. destruct Hstep as [s X e k x He _ Hx|s err evs He Hnil|s ch ev evs He _ Hn|s X e k x He Hx
    |s msg order st He Hn|s p Hp|s i X e k x He Hx|s i msg order st He Hn|s X e k x He Hx|s st He].
  - destruct (own_call_monitor s O cur X e k x Hi He Hx) as [O' ?]. by exists O', d, cur.
  - destruct (own_dispatch s O cur err evs Hi He Hnil) as [O' ?]. exists O', d, cur. split; [done|].
    split; cbn; [|done|done]. by rewrite Hr, Hnil, app_nil_r, <- app_assoc.
  - destruct (own_take s O cur ch ev evs Hi He Hn) as (O' & ? & -> & ->). exists O', d, [ev]. split; [done|].
    split; cbn; [|done|done]. by rewrite Hr, He.
  - destruct (own_call_probe s O cur X e k x Hi He Hx) as [O' ?]. by exists O', d, cur.
  - pose proof Hi as [Hd Hm Hpe Hpr _ Ho]. rewrite He in Hpr. destruct Hpr as (ev & -> & Hmsg).
    exists O, (d ++ [ev])%list, []. split; [split; cbn; try done; by apply listen_keeps|]. split; cbn.
    + by rewrite Hr, <- app_assoc.
    + apply Forall2_app; [done|]. constructor; [exact Hmsg|constructor].
    + by apply sublist_app.
  - exists O, d, cur. split; [|done]. apply (own_keep s); [done..|apply Hi|].
    cbn. intros i q [Hq|[_ Hq]]%lookup_app_Some; [by left|right].
    apply list_lookup_singleton_Some in Hq as [_ <-]. by apply other_program_refs.
  - destruct (own_call_other s O cur i X e k x Hi He Hx) as [O' ?]. by exists O', d, cur.
  - exists O, d, cur. split.
    + apply (own_keep s); [done..|by apply listen_keeps|].
      cbn. intros j p [[-> [<- _]]|[_ Hj]]%list_lookup_insert_Some; [by right|by left].
    + split; cbn; [done|done|]. by apply sublist_inserts_r.
  - destruct (own_call_handler s O cur X e k x Hi He Hx) as [O' ?]. by exists O', d, cur.
  - exists O, d, cur. split; [|done]. apply (own_keep s); [done..|]. cbn. intros i p Hip. by left.
Qed.

Lemma goroutines_inv s : reachable c m fd up sp s -> exists O d cur, own_inv s O cur /\ log_inv s d cur.
Proof.
  induction 1 as [L HL|s s' _ (O & d & cur & Ho & Hl) Hstep]; [|by eapply goroutines_step].
  exists (gset_to_gmap Monitor L), [], []. split; [by apply own_init|]. split; cbn; [done|constructor|constructor].
Qed.
End Invariant.

(** ** What holds at any time *)

(** The next call of a goroutine is about an object that is there. *)
Definition next_ok {A : Type} (L : gset handle) (p : prog A) : Prop :=
  match p with Call e _ => may refs L _ e | _ => True end.

Lemma wp_next_ok {A} O t (p : prog A) Q : wp refs (owned O t) p Q -> next_ok (dom O) p.
Proof. destruct p; [done..|]. intros [Hm _]. by apply (may_live O t). Qed.


(** A monitor that receives the disk of [demo_device] and hands it to the probe *)
Definition demo_monitor := udevevent.MkMonitor 1 2.
Definition demo_event := MkUdevEvent demo_device EventTypeAdd.

Lemma demo_reachable `{K8sLib} c (fds : list Z) :
  FD_SET (FD_ZERO FdSet_zero) 3 = Some fds -> FD_ISSET fds 3 = Some true ->
  exists s, reachable c demo_monitor 3 "udev probe" "sysfs probe" s /\ received s = [demo_event] /\
    probe s = Some (udevProbe.processUdevEvent "udev probe" "sysfs probe" demo_event).
Proof.
  intros Hset Hisset. pose (R := reachable c demo_monitor 3 "udev probe" "sysfs probe").
  assert (Hm : exists k, process c demo_monitor 3 = Call (Select 4 fds) k /\
    exists k', k (1%Z, fds) = Call (UdevReceive 2) k' /\ k' (Some (demo_device, "add")) = Ret (None, [(0, demo_event)])).
  { unfold process, udevevent.process. rewrite Hset. eexists. split; [reflexivity|]. cbn. rewrite Hisset.
    eexists. split; [reflexivity|]. cbn. destruct (features.IsEnabled (Gates c) _); reflexivity. }
  destruct Hm as (k & Hp & k' & Hk & Hk').
  set (L := {[(KMonitor, 2%Z)]} : gset handle).
  assert (H1 : R (MkGoroutines L (k (1%Z, fds)) [] None [] None [] [] [])).
  { eapply reach_step; [apply (reach_init _ _ _ _ _ L); set_solver|].
    pose proof (step_monitor c demo_monitor 3 "udev probe" "sysfs probe"
      (MkGoroutines L (process c demo_monitor 3) [] None [] None [] [] []) _ _ k (1%Z, fds) Hp eq_refl I) as Hs.
    cbn in Hs. unfold after in Hs. cbn in Hs. by rewrite union_empty_r_L in Hs. }
  assert (H2 : R (MkGoroutines (after L _ (UdevReceive 2) (Some (demo_device, "add"))) (Ret (None, [(0, demo_event)]))
                    [] None [] None [] [] [])).
  { rewrite <- Hk'. eapply reach_step; [exact H1|].
    refine (step_monitor _ _ _ _ _ (MkGoroutines L (k (1%Z, fds)) [] None [] None [] [] []) _ _ k'
              (Some (demo_device, "add")) Hk eq_refl _).
    cbn. set_solver. }
  eexists. split; [eapply reach_step; [eapply reach_step; [exact H2|]|]|].
  - by eapply step_dispatch.
  - eapply (step_take _ _ _ _ _ _ 0 demo_event []); [reflexivity| |reflexivity].
    unfold startSubscription. by destruct (features.IsEnabled (Gates c) _).
  - done.
Qed.

#[local] Existing Instance DemoLib.
Definition demo_controller : Controller :=
  MkController "openebs" None [] [MkProbe 1 "udev probe" true udevProbe.Fill] ∅ ∅.




