(* ===== verification/Boot.v ===== *)
(** * Starting the daemon

    cmd/ndm_daemonset/controller/controller.go: a controller is created once the resources
    it works with are known to the API server, and gets its options;
    sparsefilegenerator.go: the sparse files a daemon offers as devices;
    cmd/ndm_daemonset/app/command: the commands start and device list. *)

From Stdlib Require Import ZArith Ascii Lia.
From stdpp Require Import base list strings gmap pretty.
From S2P Require Import Prelude GoStrings Strconv Types Prog Util Features K8sLib Controller Store Filters Probes Lifecycle DaemonSafe Daemon.

Local Open Scope string_scope.
Local Open Scope prog_scope.

(** ** controller.go *)

Definition newClientSet : prog (option err) := r <- call NewClient ;; Ret (error_of r).

(** The loop of WaitForBlockDeviceCRD; [false] when the fuel ran out *)
Fixpoint WaitForBlockDeviceCRD (fuel : nat) (c : Controller) : prog bool :=
  match fuel with
  | O => Ret false
  | S fuel =>
      '(_, e) <- ListBlockDeviceResource c false ;;
      match e with
      | Some _ => newClientSet ;;; WaitForBlockDeviceCRD fuel c
      | None => Ret true
      end
  end.

(** NewController; nobody uses the controller it returns with an error.  [None] when the
    fuel ran out.  [gates] are the feature gates, which are global. *)
Definition NewController (fuel : nat) (gates : gmap string bool) : prog (option (res Controller)) :=
  cfg <- call GetConfig ;;
  match cfg with
  | inl e => Ret (Some (inl e))
  | inr _ =>
      ns <- getNamespace ;;
      match ns with
      | inl e => Ret (Some (inl e))
      | inr ns =>
          let c := MkController ns None [] [] ∅ gates in
          mgr <- call (NewManager ns) ;;
          match mgr with
          | inl e => Ret (Some (inl e))
          | inr _ =>
              scheme <- call AddToScheme ;;
              match scheme with
              | inl e => Ret (Some (inl e))
              | inr _ =>
                  e <- newClientSet ;;
                  match e with
                  | Some e => Ret (Some (inl e))
                  | None =>
                      ok <- WaitForBlockDeviceCRD fuel c ;;
                      Ret (if ok : bool then Some (inr c) else None)
                  end
              end
          end
      end
  end.

Section Options.
Context (json_Valid : string -> bool)
  (json_Unmarshal yaml_Unmarshal : string -> res NodeDiskManagerConfig).

Definition SetControllerOptions (ConfigFilePath : string) (c : Controller) : prog (Controller * option err) :=
  cfg <- SetNDMConfig json_Valid json_Unmarshal yaml_Unmarshal ConfigFilePath ;;
  setNodeAttributes (c <| NDMConfig := cfg |> <| Filters := [] |> <| Probes := [] |> <| NodeAttributes := ∅ |>).
End Options.

(** ** sparsefilegenerator.go *)

Definition SparseFileDefaultSize : Z := 1073741824.
Definition SparseFileMinSize : Z := 1073741824.

Definition GetSparseFileSize : prog Z :=
  s <- Getenv "SPARSE_FILE_SIZE" ;;
  if decide (String.length s < 1) then Ret SparseFileDefaultSize
  else
    Ret (match ParseFloat s with
         | None => 0%Z
         | Some fileSize =>
             let sparseFileSize := float_to_int64 fileSize in
             if (sparseFileSize <? SparseFileMinSize)%Z then SparseFileMinSize else sparseFileSize
         end).

Definition sparseFilePath (dir : string) (i : nat) : string :=
  path_join dir (Itoa (Z.of_nat i) +:+ "-" +:+ SparseFileName).

Definition InitializeSparseFiles `{K8sLib} (c : Controller) : prog unit :=
  sparseFileDir <- GetSparseFileDir ;;
  sparseFileSize <- GetSparseFileSize ;;
  sparseFileCount <- GetSparseFileCount ;;
  if decide (String.length sparseFileDir < 1 \/ (sparseFileSize < 1)%Z \/ (sparseFileCount < 1)%Z) then Ret tt
  else
    for_each (fun _ i =>
        let sparseFile := sparseFilePath sparseFileDir i in
        e <- CheckAndCreateSparseFile sparseFile sparseFileSize ;;
        match e with
        | Some _ => Ret tt
        | None => MarkSparseBlockDeviceStateActive c sparseFile
        end) tt (seq 0 (Z.to_nat sparseFileCount)).

(** ** app/command *)

(** The verbs %-<n>s and %-<n>d of fmt: padded on the right to a width in runes; a byte that
    continues a rune is not counted *)
Fixpoint RuneCount (s : string) : nat :=
  match s with
  | EmptyString => 0
  | String c s => (if decide (128 <= nat_of_ascii c < 192)%nat then 0 else 1) + RuneCount s
  end.
Fixpoint spaces (n : nat) : string := match n with O => "" | S n => String " "%char (spaces n) end.
Definition pad (n : nat) (s : string) : string := s +:+ spaces (n - RuneCount s).

(** The template defaultDeviceList: a line for each device under a line of titles *)
Definition deviceRow (bd : apis.BlockDevice) : string :=
  pad 45 (apis.bd_name bd) +:+ pad 10 (apis.Path (apis.Spec bd)) +:+
  pad 15 (Itoa (apis.Storage (apis.Capacity (apis.Spec bd)))) +:+ pad 10 (apis.bd_state bd) +:+
  pad 25 (apis.Serial (apis.Details (apis.Spec bd))) +:+ pad 20 (apis.Model (apis.Details (apis.Spec bd))) +:+
  pad 20 (apis.Vendor (apis.Details (apis.Spec bd))).
Definition deviceTitles : string :=
  pad 45 "NAME" +:+ pad 10 "PATH" +:+ pad 15 "CAPACITY" +:+ pad 10 "STATUS" +:+ pad 25 "SERIAL" +:+
  pad 20 "MODEL" +:+ pad 20 "VENDOR".
Definition defaultDeviceList (items : list apis.BlockDevice) : string :=
  let lines := match items with [] => ["No disk resource present."] | _ => deviceTitles :: map deviceRow items end in
  Join (lines ++ [""])%list (String newline "").

Section Commands.
Context `{K8sLib} (json_Valid : string -> bool)
  (json_Unmarshal yaml_Unmarshal : string -> res NodeDiskManagerConfig).

(** start.go, up to Controller.Start; [inl] is the error it prints before it exits.  The API
    service, whose goroutine is started in between, is a component of its own. *)
Definition start (fuel : nat) (gates : gmap string bool) (ConfigFilePath : string) : prog (option (res Controller)) :=
  ctrl <- NewController fuel gates ;;
  match ctrl with
  | None => Ret None
  | Some (inl e) => Ret (Some (inl e))
  | Some (inr ctrl) =>
      '(ctrl, e) <- SetControllerOptions json_Valid json_Unmarshal yaml_Unmarshal ConfigFilePath ctrl ;;
      match e with
      | Some e => Ret (Some (inl e))
      | None =>
          ctrl <- daemonStart ctrl ;;
          Ret (Some (inr ctrl))
      end
  end.

(** run: what happens after the signal; [cancelled] when it came before run was called *)
Definition run (c : Controller) (cancelled : bool) : prog (option err) :=
  if cancelled then Ret (Some (Err "context canceled"))
  else MarkBlockDeviceStatusToUnknown c ;;; Ret None.

(** Controller.Start, with the wait for the signal between the two; klog.Fatalf ends the
    process *)
Definition Start (c : Controller) (cancelled : bool) : prog unit :=
  InitializeSparseFiles c ;;;
  e <- run c cancelled ;;
  match e with Some _ => Panic "error running controller" | None => Ret tt end.

(** commands.go: the feature gates are set before a command runs.  [order] is the order in
    which Go iterates over the gates. *)
Definition withFeatureGates {A} (order flags : list string) (command : gmap string bool -> prog A) : prog A :=
  match features.SetFeatureFlag order features.NewFeatureGate flags with
  | (_, Some _) => Panic "error setting feature gate"
  | (gates, None) => command gates
  end.

(** deviceList: what it prints *)
Definition deviceList (fuel : nat) (gates : gmap string bool) (ConfigFilePath : string)
    : prog (option (res string)) :=
  ctrl <- NewController fuel gates ;;
  match ctrl with
  | None => Ret None
  | Some (inl e) => Ret (Some (inl e))
  | Some (inr ctrl) =>
      '(ctrl, e) <- SetControllerOptions json_Valid json_Unmarshal yaml_Unmarshal ConfigFilePath ctrl ;;
      match e with
      | Some e => Ret (Some (inl e))
      | None =>
          '(items, e) <- ListBlockDeviceResource ctrl false ;;
          Ret (Some (match e with Some e => inl e | None => inr (defaultDeviceList items) end))
      end
  end.
End Commands.

(** ** What the list command prints *)

Lemma no_byte_spaces n : no_byte newline (spaces n) = true.
Proof. induction n as [|n IH]; [done|]. cbn. by rewrite IH. Qed.

Lemma no_byte_pad n s : no_byte newline (pad n s) = no_byte newline s.
Proof. unfold pad. by rewrite no_byte_app, no_byte_spaces, andb_true_r. Qed.

Lemma no_byte_Itoa z : no_byte newline (Itoa z) = true.
Proof.
  assert (Hp : forall x : N, no_byte newline (pretty x) = true).
  { intros x. destruct (pretty_digits x) as [Hd _]. unfold no_byte. induction (pretty x) as [|c s IH]; [done|].
    cbn in Hd |- *. apply andb_true_iff in Hd as [Hc Hs]. rewrite IH by done. rewrite andb_true_r.
    destruct (decide (c = newline)) as [->|]; [done|]. by apply negb_true_iff, bool_decide_false. }
  unfold Itoa. destruct z as [|p|p]; [done|apply (Hp (N.pos p))|].
  change (pretty (Z.neg p)) with ("-" +:+ pretty (N.pos p)). by rewrite no_byte_app, Hp.
Qed.

(** Fields without line breaks *)
Definition printable (bd : apis.BlockDevice) : Prop :=
  Forall (fun s => no_byte newline s = true)
    [apis.bd_name bd; apis.Path (apis.Spec bd); apis.bd_state bd; apis.Serial (apis.Details (apis.Spec bd));
     apis.Model (apis.Details (apis.Spec bd)); apis.Vendor (apis.Details (apis.Spec bd))].

(** The output has one line for each device, in their order, after one line of titles. *)
Lemma defaultDeviceList_lines items :
  items <> [] -> Forall printable items ->
  Split (defaultDeviceList items) newline = (deviceTitles :: map deviceRow items ++ [""])%list.
Proof.
  intros Hne Hp. unfold defaultDeviceList. destruct items as [|bd items]; [done|].
  rewrite Split_Join; [done|by destruct items|]. apply Forall_app_2; [|by repeat constructor].
  constructor; [by vm_compute|]. rewrite List.Forall_map. eapply List.Forall_impl; [|exact Hp].
  intros b Hb. unfold printable in Hb. rewrite !List.Forall_cons_iff in Hb. destruct Hb as (? & ? & ? & ? & ? & ? & _).
  unfold deviceRow. rewrite !no_byte_app, !no_byte_pad, no_byte_Itoa. by rewrite !andb_true_iff.
Qed.

(** ** Waiting for the resources *)

Section Wait.
Context {W : Type} (o : oracle W) (left : W -> nat).

(** The API server will know the resources: every failing list brings that nearer, and
    nothing else moves it away. *)
Record becomes_available : Prop := {
  ba_keeps X (e : callE X) w : (left (o X e w).1 <= left w)%nat;
  ba_nearer ns sel w w' e : o _ (BDList ns sel) w = (w', inl e) -> (left w' < left w)%nat
}.
Context (Hba : becomes_available).

Lemma WaitForBlockDeviceCRD_step fuel c w :
  exec o (WaitForBlockDeviceCRD (S fuel) c) w =
  match o _ (BDList None (listSelector c false)) w with
  | (w, inl _) => exec o (WaitForBlockDeviceCRD fuel c) (o _ NewClient w).1
  | (w, inr _) => (w, Returned true)
  end.
Proof.
  cbn [WaitForBlockDeviceCRD]. unfold ListBlockDeviceResource. cbn [bind call exec].
  destruct (o _ (BDList None _) w) as [w1 [e|items]]; [|done]. cbn. by destruct (o _ NewClient w1).
Qed.

Lemma WaitForBlockDeviceCRD_returns c w :
  exists w', forall fuel, (left w < fuel)%nat -> exec o (WaitForBlockDeviceCRD fuel c) w = (w', Returned true).
Proof.
  remember (left w) as n eqn:Hn. revert w Hn. induction (Nat.lt_wf_0 n) as [n _ IH]; intros w ->.
  destruct (o _ (BDList None (listSelector c false)) w) as [w1 r] eqn:Ho.
  destruct r as [e|items].
  - pose proof (ba_nearer Hba _ _ _ _ _ Ho). pose proof (ba_keeps Hba _ NewClient w1).
    destruct (IH (left (o _ NewClient w1).1) ltac:(lia) _ eq_refl) as (w' & Hw). exists w'. intros [|fuel] Hf; [lia|].
    rewrite WaitForBlockDeviceCRD_step, Ho. apply Hw. lia.
  - exists w1. intros [|fuel] Hf; [lia|]. by rewrite WaitForBlockDeviceCRD_step, Ho.
Qed.

(** What NewController answers, once it is past the calls before the wait *)
Definition controller_or_error (gates : gmap string bool) (r : res Controller) : Prop :=
  match r with
  | inl _ => True
  | inr c => exists ns w1 w2, o _ (LookupEnv "NAMESPACE") w1 = (w2, Some ns) /\ c = MkController ns None [] [] ∅ gates
  end.

(** C34. Creating a controller ends (NewController and WaitForBlockDeviceCRD of
    controller.go).  When the API server will eventually list block devices, so that every
    failing attempt is one of finitely many, NewController returns after at most one round
    of its loop more than there are failures: it does not panic, the result does not depend
    on the number of rounds allowed beyond that, and it is an error or a controller for the
    namespace of the environment with nothing registered. *)
Theorem NewController_returns gates w :
  exists w' r, controller_or_error gates r /\
    forall fuel, (left w < fuel)%nat -> exec o (NewController fuel gates) w = (w', Returned (Some r)).
Proof.
  unfold NewController, getNamespace, newClientSet.
  assert (Hstop : forall (w' : W) (e : err), exists w'' (r : res Controller), controller_or_error gates r /\
    forall fuel, (left w < fuel)%nat -> (w', Returned (Some (inl e))) = (w'', Returned (Some r)))
    by (intros w' e; by exists w', (inl e)).
  cbn [exec bind call]. pose proof (ba_keeps Hba _ GetConfig w) as H1.
  destruct (o _ GetConfig w) as [w1 [e|[]]]; [apply Hstop|]. cbn in H1 |- *.
  pose proof (ba_keeps Hba _ (LookupEnv "NAMESPACE") w1) as H2.
  destruct (o _ (LookupEnv "NAMESPACE") w1) as [w2 [ns|]] eqn:Hns; [|apply Hstop]. cbn in H2 |- *.
  pose proof (ba_keeps Hba _ (NewManager ns) w2) as H3.
  destruct (o _ (NewManager ns) w2) as [w3 [e|[]]]; [apply Hstop|]. cbn in H3 |- *.
  pose proof (ba_keeps Hba _ AddToScheme w3) as H4.
  destruct (o _ AddToScheme w3) as [w4 [e|[]]]; [apply Hstop|]. cbn in H4 |- *.
  pose proof (ba_keeps Hba _ NewClient w4) as H5.
  destruct (o _ NewClient w4) as [w5 [e|[]]]; [apply Hstop|]. cbn in H5 |- *.
  destruct (WaitForBlockDeviceCRD_returns (MkController ns None [] [] ∅ gates) w5) as (w' & Hw).
  exists w', (inr (MkController ns None [] [] ∅ gates)). split; [by exists ns, w1, w2|].
  intros fuel Hf. rewrite exec_bind, Hw by lia. done.
Qed.
End Wait.

(** A server that answers after two failures *)
Definition late_server : oracle nat := fun X e w =>
  match e in callE X return nat * X with
  | BDList _ _ => match w with O => (O, inr []) | S w => (w, inl ErrNotFound) end
  | GetConfig | AddToScheme | NewClient | NewManager _ => (w, inr tt)
  | LookupEnv _ => (w, Some "openebs")
  | e => (w, deaf _ e)
  end.

Lemma NewController_returns_witness :
  exists w' r, controller_or_error late_server ∅ r /\
    exec late_server (NewController 3 ∅) 2 = (w', Returned (Some r)).
Proof.
  destruct (NewController_returns late_server (fun w => w)) with (gates := ∅ : gmap string bool) (w := 2) as (w' & r & Hr & Hx).
  - split.
    + intros X [] w; cbn; try lia. destruct w; cbn; lia.
    + intros ns sel [|w] w' e [=]; lia.
  - exists w', r. split; [exact Hr|]. apply Hx. lia.
Defined.

(** With a server that never lists the loop has no end. *)
Lemma WaitForBlockDeviceCRD_waits {W} (o : oracle W) c :
  (forall sel w, exists w' e, o _ (BDList None sel) w = (w', inl e)) ->
  forall fuel w, (exec o (WaitForBlockDeviceCRD fuel c) w).2 = Returned false.
Proof.
  intros Hdown fuel. induction fuel as [|fuel IH]; intros w; [done|].
  rewrite WaitForBlockDeviceCRD_step. destruct (Hdown (listSelector c false) w) as (w1 & e & ->). apply IH.
Qed.

(** ** Sparse files *)

(** What is known: the directories, and the files whose os.Stat failed *)
Record sparse_know := SparseKnow { skDirs : list string; skGone : list string }.

(** A sparse file is only created in a directory of the host, under one of the names of
    the daemon, with at least the minimal size, and where os.Stat failed. *)
Definition sparse_protocol : protocol := {|
  know := sparse_know;
  may K X e := match e with
               | CreateSparse p size =>
                   p ∈ skGone K /\ (SparseFileMinSize <= size < 2 ^ 63)%Z /\
                   exists dir i, dir ∈ skDirs K /\ p = sparseFilePath dir i
               | BDDelete _ _ | BDCUpdate _ | JobCreate _ | JobDelete _ _ | WriteFile _ _ | DiskPartition _ _ => False
               | _ => True
               end;
  says K X e x := True;
  learn K X e := match e in callE X return X -> sparse_know with
                 | Stat p => fun r => match r with
                                      | inl _ => SparseKnow (skDirs K) (p :: skGone K)
                                      | inr (true, _) => SparseKnow (p :: skDirs K) (filter (fun q => q <> p) (skGone K))
                                      | inr (false, _) => SparseKnow (skDirs K) (filter (fun q => q <> p) (skGone K))
                                      end
                 | CreateSparse p _ => fun _ => SparseKnow (skDirs K) (filter (fun q => q <> p) (skGone K))
                 | _ => fun _ => K
                 end;
  panics := true
|}.

Definition dirs_le (K K' : sparse_know) : Prop := skDirs K ⊆ skDirs K'.
#[local] Instance dirs_le_preorder : PreOrder dirs_le.
Proof. unfold dirs_le. split; [by intros K f|]. intros K1 K2 K3 H1 H2 f Hf. by apply H2, H1. Qed.

Lemma dirs_le_learn K X (e : callE X) x : dirs_le K (learn sparse_protocol K X e x).
Proof. unfold dirs_le. destruct e; try done. intros f Hf. cbn in *. destruct x as [|[[] ?]]; cbn; set_solver. Qed.

Definition sparse_calls X (e : callE X) : bool :=
  match e with
  | Stat _ | BDGet _ _ | BDCreate _ | BDUpdate _ => true
  | _ => false
  end.

Lemma MarkSparse_calls `{K8sLib} c f : uses sparse_calls (MarkSparseBlockDeviceStateActive c f).
Proof.
  unfold MarkSparseBlockDeviceStateActive, CreateBlockDevice. cbv zeta. uses_solve.
  all: unfold UpdateBlockDevice; cbv zeta; uses_solve.
Qed.

Definition env_only X (e : callE X) : bool := match e with LookupEnv _ => true | _ => false end.

Lemma wp_env {A} K (p : prog A) R :
  uses env_only p -> returns p R -> wp sparse_protocol K p (fun K' a => K' = K /\ R a).
Proof. apply uses_returns_keeps; [done|]. intros X []; by try split. Qed.

(** The directory is one the host has. *)
Lemma GetSparseFileDir_known K :
  wp sparse_protocol K GetSparseFileDir (fun K' dir => dir = "" \/ dir ∈ skDirs K').
Proof.
  unfold GetSparseFileDir. apply wp_bind. eapply wp_mono; [|apply (wp_env _ _ (fun _ => True)); [by repeat split|apply returns_any]].
  cbn. intros K' dir _. case_decide; [by left|].
  apply wp_then; [done|]. intros [e|[[] size]] _; [destruct e; by try left|right; cbn; left|by left].
Qed.

Lemma GetSparseFileSize_range : returns GetSparseFileSize (fun z => z = 0 \/ SparseFileMinSize <= z < 2 ^ 63)%Z.
Proof.
  unfold GetSparseFileSize. eapply returns_bind; [apply returns_any|]. intros s _.
  case_decide; cbn -[Z.pow]; [right; unfold SparseFileDefaultSize, SparseFileMinSize; lia|].
  destruct (ParseFloat s) as [f|]; [right|by left]. pose proof (float_to_int64_range f).
  destruct (_ <? _)%Z eqn:Hl; [unfold SparseFileMinSize; lia|]. apply Z.ltb_ge in Hl. lia.
Qed.

Lemma CheckAndCreate_safe K p size :
  (SparseFileMinSize <= size < 2 ^ 63)%Z -> (exists dir i, dir ∈ skDirs K /\ p = sparseFilePath dir i) ->
  wp sparse_protocol K (CheckAndCreateSparseFile p size) (fun K' _ => dirs_le K K').
Proof.
  intros Hs Hp. unfold CheckAndCreateSparseFile. eapply wp_mono;
    [|apply (wp_frame sparse_protocol dirs_le _ _ (fun _ _ => True) dirs_le_learn)]; [by intros ? ? [? _]|].
  split; [done|]. intros [e|[]] _; [|done]. split; [|done]. cbn. split; [left|done].
Qed.

(** The sparse files of the daemon (InitializeSparseFiles of sparsefilegenerator.go).
    Whatever the environment says and the host and the API server answer, the daemon
    creates a file only where os.Stat just failed, so that the data of a file it finds is
    kept, in a directory the host has, under the name <i>-ndm-sparse.img, and with
    at least 1 GiB and less than 2^63 bytes even if SPARSE_FILE_SIZE is not a number,
    negative, tiny, infinite or out of range; it deletes and claims nothing. *)
Theorem InitializeSparseFiles_safe `{K8sLib} c :
  wp sparse_protocol (SparseKnow [] []) (InitializeSparseFiles c) (fun _ _ => True).
Proof.
  unfold InitializeSparseFiles. apply wp_bind. eapply wp_mono; [|apply GetSparseFileDir_known]. cbv beta.
  intros K dir Hdir. apply wp_bind.
  eapply wp_mono; [|apply wp_env; [|apply GetSparseFileSize_range]; by unfold GetSparseFileSize; uses_solve]. cbv beta.
  intros K' size [-> Hsize]. apply wp_bind.
  eapply wp_mono; [|apply (wp_env _ _ (fun _ => True)); [by repeat split|apply returns_any]]. cbv beta.
  intros K' count [-> _]. case_decide as Hskip; [done|].
  assert (Hmin : (SparseFileMinSize <= size < 2 ^ 63)%Z) by lia.
  destruct Hdir as [->|Hdir]; [cbn in Hskip; lia|].
  eapply wp_mono; [|apply (wp_for_each sparse_protocol (fun K _ => dir ∈ skDirs K)); [|exact Hdir]]; [done|].
  clear K Hdir. intros K [] i _ Hdir. apply wp_bind.
  eapply wp_mono; [|apply CheckAndCreate_safe; [exact Hmin|by exists dir, i]]. cbv beta.
  intros K' e HK. assert (Hdir' : dir ∈ skDirs K') by (by apply HK). destruct e; [done|].
  eapply wp_mono; [|apply (wp_frame sparse_protocol dirs_le _ _ (fun _ _ => True) dirs_le_learn),
    (uses_wp sparse_protocol sparse_calls), MarkSparse_calls; [done|by intros ? ? []]].
  cbn. intros K2 _ [Hle _]. by apply Hle.
Qed.

(** A size of the environment between 1 GiB and 8 PiB is taken as it is. *)
Lemma GetSparseFileSize_exact {W} (o : oracle W) w w' n :
  (SparseFileMinSize <= n < 2 ^ 53)%Z -> o _ (LookupEnv "SPARSE_FILE_SIZE") w = (w', Some (Itoa n)) ->
  exec o GetSparseFileSize w = (w', Returned n).
Proof.
  intros Hn Ho. unfold GetSparseFileSize, Getenv. cbn [bind call exec]. rewrite Ho. unfold default, from_option, id.
  assert (Hne : Itoa n <> "") by (destruct n as [|p|p]; [done|apply (pretty_digits (N.pos p))|done]).
  rewrite decide_False by (destruct (Itoa n); [done|cbn; lia]). unfold SparseFileMinSize in *.
  destruct (ParseFloat_Itoa n) as (f & -> & Hf); [lia|]. rewrite Hf. cbn [exec].
  rewrite (proj2 (Z.ltb_ge _ _)) by lia. done.
Qed.
