(* ===== verification/NodeApi.v ===== *)
(** * api-service/node/services: the requests of the node service

    What the gRPC service of the daemon answers: the block devices of the node by type,
    the details of one, huge pages, the iSCSI initiator, the node's name, a rescan and the
    version. *)

From Stdlib Require Import ZArith Ascii Lia.
From stdpp Require Import base list strings gmap.
From S2P Require Import Prelude GoStrings Strconv Types Prog Util K8sLib Controller Store Sysfs Smart Handlers Udev Lifecycle DaemonSafe Daemon Boot.

Local Open Scope string_scope.
Local Open Scope prog_scope.

Module services.

(** google.golang.org/grpc/status: the errors of a request *)
Inductive code := NotFound | Internal | AlreadyExists.
Record status := Errorf { stCode : code; stMsg : string }.

Definition ConfigFilePath := "/host/node-disk-manager.config".

(** protos.BlockDevice *)
Record BlockDevice := MkBlockDevice { Name : string; Type_ : string; Partitions_ : list string }.

(** ** listBlockDevice.go *)

Record AllBlockDevices := MkAll {
  Parents : list string; Partitions : list string; LVMs : list string; RAIDs : list string;
  Holders : list string; Slaves : list string; Loops : list string; Sparse : list string
}.
#[global] Instance eta_AllBlockDevices : Eta AllBlockDevices := fun a =>
  MkAll (Parents a) (Partitions a) (LVMs a) (RAIDs a) (Holders a) (Slaves a) (Loops a) (Sparse a).
Definition none_found : AllBlockDevices := MkAll [] [] [] [] [] [] [] [].

Definition deviceType (bd : apis.BlockDevice) : string := apis.DeviceType (apis.Details (apis.Spec bd)).
Definition devicePath (bd : apis.BlockDevice) : string := apis.Path (apis.Spec bd).

(** A device that is not sparse, with its dependents *)
Definition addDevice (a : AllBlockDevices) (bd : apis.BlockDevice) (deps : blockdevice.DependentBlockDevices)
    : AllBlockDevices :=
  let path := devicePath bd in
  let ty := deviceType bd in
  if decide (ty = "loop") then
    a <| Loops ::= fun l => (l ++ [path])%list |>
      <| Partitions ::= fun l => (l ++ blockdevice.Partitions deps)%list |>
  else if decide (ty = "partition") then
    a <| Partitions ::= fun l => AddUniqueStringtoSlice l path |>
      <| Parents ::= fun l => AddUniqueStringtoSlice l (blockdevice.Parent deps) |>
      <| Holders ::= fun l => (l ++ blockdevice.Holders deps)%list |>
  else if decide (ty = "disk") then
    a <| Parents ::= fun l => AddUniqueStringtoSlice l path |>
      <| Partitions ::= fun l => (l ++ blockdevice.Partitions deps)%list |>
  else if decide (ty = "lvm") then
    a <| LVMs ::= fun l => AddUniqueStringtoSlice l path |>
      <| Slaves ::= fun l => (l ++ blockdevice.Slaves deps)%list |>
      <| Holders ::= fun l => (l ++ blockdevice.Holders deps)%list |>
  else if StrContains ty "raid" then
    a <| RAIDs ::= fun l => AddUniqueStringtoSlice l path |>
      <| Slaves ::= fun l => (l ++ blockdevice.Slaves deps)%list |>
      <| Holders ::= fun l => (l ++ blockdevice.Holders deps)%list |>
  else a.

(** One iteration of GetAllTypes *)
Definition addType (a : AllBlockDevices) (bd : apis.BlockDevice) : prog AllBlockDevices :=
  if decide (deviceType bd = "sparse") then Ret (a <| Sparse ::= fun l => (l ++ [devicePath bd])%list |>)
  else
    sysfsDevice <- sysfs.NewSysFsDeviceFromDevPath (devicePath bd) ;;
    match sysfsDevice with
    | inl _ => Ret a
    | inr sysfsDevice => depDevices <- sysfs.GetDependents sysfsDevice ;; Ret (addDevice a bd depDevices)
    end.

(** GetAllTypes: what it leaves in the variable [all] *)
Definition GetAllTypes (BL : list apis.BlockDevice) : prog AllBlockDevices := for_each addType none_found BL.

Definition FilterPartitions (name : string) (pns : list string) : list string :=
  if decide (length pns = 0) then (pns ++ [name])%list
  else List.filter (fun pn => StrContains pn name) pns.

(** The answer built from [all] *)
Definition response (all : AllBlockDevices) : list BlockDevice :=
  (map (fun name => MkBlockDevice name "Disk" (FilterPartitions name (Partitions all))) (Parents all) ++
   map (fun name => MkBlockDevice name "LVM" []) (LVMs all) ++
   map (fun name => MkBlockDevice name "RAID" []) (RAIDs all) ++
   map (fun name => MkBlockDevice name "Loop" (FilterPartitions name (Partitions all))) (Loops all) ++
   map (fun name => MkBlockDevice name "Sparse" []) (Sparse all))%list.

Section Requests.
Context (json_Valid : string -> bool)
  (json_Unmarshal yaml_Unmarshal : string -> res NodeDiskManagerConfig).

(** The controller of a request; [None] when the fuel ran out *)
Definition requestController (fuel : nat) (gates : gmap string bool) : prog (option (status + Controller)) :=
  ctrl <- NewController fuel gates ;;
  match ctrl with
  | None => Ret None
  | Some (inl _) => Ret (Some (inl (Errorf NotFound "Namespace not found")))
  | Some (inr ctrl) =>
      '(ctrl, e) <- SetControllerOptions json_Valid json_Unmarshal yaml_Unmarshal ConfigFilePath ctrl ;;
      Ret (Some (match e with
                 | Some _ => inl (Errorf Internal "Error setting config to controller")
                 | None => inr ctrl
                 end))
  end.

Definition ListBlockDevices (fuel : nat) (gates : gmap string bool) : prog (option (status + list BlockDevice)) :=
  ctrl <- requestController fuel gates ;;
  match ctrl with
  | None => Ret None
  | Some (inl e) => Ret (Some (inl e))
  | Some (inr ctrl) =>
      '(blockDeviceList, e) <- ListBlockDeviceResource ctrl false ;;
      match e with
      | Some _ => Ret (Some (inl (Errorf Internal "Error fetching list of disks")))
      | None => all <- GetAllTypes blockDeviceList ;; Ret (Some (inr (response all)))
      end
  end.

(** *** rescan.go; [acquired] is the result of TryAcquire on the semaphore of the scans, and
    the message is for the handlers of the daemon *)
Definition Rescan (fuel : nat) (gates : gmap string bool) (acquired : bool)
    : prog (option (status + string * EventMessage)) :=
  ctrl <- requestController fuel gates ;;
  match ctrl with
  | None => Ret None
  | Some (inl e) => Ret (Some (inl e))
  | Some (inr ctrl) =>
      r <- udevProbe.Rescan ctrl acquired (MkPState ∅ []) ;;
      Ret (Some (match r.2 with
                 | inl _ => inl (Errorf AlreadyExists "Rescan failed")
                 | inr msg => inr ("Rescan initiated", msg)
                 end))
  end.
End Requests.

(** ** listBlockDeviceDetails.go: the fields of protos.BlockDeviceDetails are those of
    smart's attributes *)
Definition ListBlockDeviceDetails (bd : BlockDevice) : prog (status + smart.DiskAttr) :=
  '(info, err) <- smart.SCSIBasicDiskInfo (Name bd) ;;
  Ret (if decide (err = ∅) then inr info else inl (Errorf Internal "Error fetching disk details")).

(** ** hugepages.go *)

Definition hugepagesPath := "/sys/kernel/mm/hugepages/hugepages-2048kB/nr_hugepages".

Definition SetHugepages (pages : Z) : prog (status + bool) :=
  e <- call (WriteFile hugepagesPath (Itoa pages)) ;;
  Ret (match e with
       | inl _ => inl (Errorf Internal "Error setting hugepages")
       | inr _ => inr true
       end).

Definition GetHugepages : prog (status + Z) :=
  hugepages <- call (ReadFile hugepagesPath) ;;
  Ret (match hugepages with
       | inl _ => inl (Errorf Internal "Error fetching the number of hugepages set on the node")
       | inr hugepages =>
           match ParseInt (TrimRightNewline hugepages) 32 with
           | None => inl (Errorf Internal "Error converting the number of hugepages set on the node")
           | Some pages => inr pages
           end
       end).

(** ** iscsiStatus.go *)

Definition iscsiServiceName := "iscsid".
Definition ISCSIStatus : prog (status + bool) :=
  processList <- call Processes ;;
  Ret (match processList with
       | inl _ => inl (Errorf Internal "Error fetching the processes")
       | inr processList => inr (existsb (fun p => StrContains p iscsiServiceName) processList)
       end).

(** ** nodeName.go, version.go; the version is filled in by the linker *)
Definition NodeName : prog string := Getenv "NODE_NAME".
Definition FindVersion (Version GitCommit : string) : string * string := (Version, GitCommit).
End services.

(** ** The answer of ListBlockDevices *)

Import services.

(** How a device of the API server is listed; a partition is listed with its disk *)
Definition kind (bd : apis.BlockDevice) : option string :=
  let ty := deviceType bd in
  if decide (ty = "sparse") then Some "Sparse"
  else if decide (ty = "loop") then Some "Loop"
  else if decide (ty = "partition") then None
  else if decide (ty = "disk") then Some "Disk"
  else if decide (ty = "lvm") then Some "LVM"
  else if StrContains ty "raid" then Some "RAID" else None.

Definition names (k : string) (a : AllBlockDevices) : list string :=
  if decide (k = "Disk") then Parents a
  else if decide (k = "LVM") then LVMs a
  else if decide (k = "RAID") then RAIDs a
  else if decide (k = "Loop") then Loops a
  else if decide (k = "Sparse") then Sparse a else [].

Definition uniq (a : AllBlockDevices) : Prop := NoDup (Parents a) /\ NoDup (LVMs a) /\ NoDup (RAIDs a).

Lemma addDevice_uniq a bd deps : uniq a -> uniq (addDevice a bd deps).
Proof.
  intros (? & ? & ?). unfold addDevice. repeat case_match; repeat split; cbn; by try apply AddUniqueStringtoSlice_NoDup.
Qed.

Lemma addDevice_names a bd deps k p : deviceType bd <> "sparse" ->
  p ∈ names k (addDevice a bd deps) <->
  p ∈ names k a \/ (kind bd = Some k /\ p = devicePath bd) \/
  (k = "Disk" /\ deviceType bd = "partition" /\ p = blockdevice.Parent deps).
Proof.
  intros Hs. unfold addDevice, kind, names. rewrite (decide_False (P := deviceType bd = "sparse")) by done.
  repeat case_decide; subst; try congruence; try destruct (StrContains _ _); cbn;
    rewrite ?elem_of_AddUnique, ?elem_of_app, ?list_elem_of_singleton.
  all: intuition congruence.
Qed.

(** What the types say of the devices handled so far *)
Definition resolves {W} (o : oracle W) (path : string) : Prop :=
  forall w, exists w' d, exec o (sysfs.NewSysFsDeviceFromDevPath path) w = (w', Returned (inr d)).

Record types_ok {W} (o : oracle W) (seen : list apis.BlockDevice) (a : AllBlockDevices) : Prop := {
  to_uniq : uniq a;
  to_sound k p : p ∈ names k a -> exists bd, bd ∈ seen /\
    (kind bd = Some k /\ p = devicePath bd \/ k = "Disk" /\ deviceType bd = "partition");
  to_complete bd k : bd ∈ seen -> kind bd = Some k -> deviceType bd = "sparse" \/ resolves o (devicePath bd) ->
    devicePath bd ∈ names k a
}.

Lemma types_ok_grow {W} (o : oracle W) seen a a' bd :
  types_ok o seen a -> uniq a' ->
  (forall k p, p ∈ names k a -> p ∈ names k a') ->
  (forall k p, p ∈ names k a' -> p ∈ names k a \/
    (kind bd = Some k /\ p = devicePath bd) \/ (k = "Disk" /\ deviceType bd = "partition")) ->
  (forall k, kind bd = Some k -> deviceType bd = "sparse" \/ resolves o (devicePath bd) -> devicePath bd ∈ names k a') ->
  types_ok o (seen ++ [bd]) a'.
Proof.
  intros [Hu Hs Hc] Hu' Hmon Hnew Hbd. split; [done|..].
  - intros k p Hp. destruct (Hnew _ _ Hp) as [Hold|Hold].
    + destruct (Hs _ _ Hold) as (b & ? & ?). exists b. set_solver.
    + exists bd. set_solver.
  - intros b k Hb Hk Hr. apply elem_of_app in Hb as [Hb|Hb%list_elem_of_singleton]; [by eapply Hmon, Hc|].
    subst. by apply Hbd.
Qed.

Lemma addType_ok {W} (o : oracle W) seen a bd w w' a' :
  types_ok o seen a -> exec o (addType a bd) w = (w', Returned a') -> types_ok o (seen ++ [bd]) a'.
Proof.
  intros Hok Hx. unfold addType in Hx. case_decide as Hs.
  - injection Hx as _ <-. assert (Hk : kind bd = Some "Sparse") by (unfold kind; by rewrite Hs).
    apply (types_ok_grow o seen a); [done|by destruct Hok|..].
    + intros k p. unfold names. repeat case_decide; cbn; set_solver.
    + intros k p. rewrite Hk. unfold names. repeat case_decide; subst; cbn; set_solver.
    + intros k. rewrite Hk. intros [= <-] _. cbn. set_solver.
  - apply exec_bind_inv in Hx as (w1 & [e|d] & Hd & Hx).
    + injection Hx as _ <-. apply (types_ok_grow o seen a); [done|by destruct Hok|auto..|].
      intros k _ [?|Hr]; [done|]. destruct (Hr w) as (? & ? & Hr'). by rewrite Hr' in Hd.
    + apply exec_bind_inv in Hx as (w2 & deps & _ & [= _ <-]). apply (types_ok_grow o seen a); [done|..].
      * apply addDevice_uniq. by destruct Hok.
      * intros k p Hp. rewrite addDevice_names by done. by left.
      * intros k p. rewrite addDevice_names by done. naive_solver.
      * intros k Hk _. rewrite addDevice_names by done. naive_solver.
Qed.

Lemma for_each_addType_ok {W} (o : oracle W) BL : forall seen a w w' a',
  types_ok o seen a -> exec o (for_each addType a BL) w = (w', Returned a') -> types_ok o (seen ++ BL) a'.
Proof.
  induction BL as [|bd BL IH]; intros seen a w w' a' Hok Hx; cbn in Hx.
  - injection Hx as _ <-. by rewrite app_nil_r.
  - apply exec_bind_inv in Hx as (w1 & a1 & H1 & Hx). rewrite cons_middle, app_assoc.
    eapply IH; [|exact Hx]. by eapply addType_ok.
Qed.

Lemma entriesOf_total dir : total (sysfs.entriesOf dir).
Proof. unfold sysfs.entriesOf. apply total_bind; [done|]. intros r. by destruct (match r with inl _ => _ | inr _ => _ end). Qed.

Lemma GetAllTypes_total BL : total (GetAllTypes BL).
Proof.
  apply total_for_each. intros a bd. unfold addType. case_decide; [done|].
  apply total_bind.
  - unfold sysfs.NewSysFsDeviceFromDevPath, sysfs.getDeviceSysPath. by case_decide.
  - intros [e|d]; [done|]. apply total_bind; [|done]. unfold sysfs.GetDependents. destruct (sysfs.getParent d).
    apply total_bind; [done|]. intros ?. apply total_bind; [apply entriesOf_total|]. intros ?.
    apply total_bind; [apply entriesOf_total|done].
Qed.

(** The names of the entries of a type *)
Definition listed (k : string) (l : list BlockDevice) : list string :=
  map Name (List.filter (fun d => bool_decide (Type_ d = k)) l).

Lemma listed_app k l1 l2 : listed k (l1 ++ l2) = (listed k l1 ++ listed k l2)%list.
Proof. unfold listed. by rewrite List.filter_app, map_app. Qed.

Lemma listed_map k k' (g : string -> list string) l :
  listed k (map (fun n => MkBlockDevice n k' (g n)) l) = if decide (k' = k) then l else [].
Proof.
  unfold listed. induction l as [|n l IH]; cbn; [by case_decide|].
  destruct (decide (k' = k)) as [->|Hne].
  - rewrite bool_decide_eq_true_2 by done. cbn. by rewrite IH.
  - by rewrite bool_decide_eq_false_2.
Qed.

Lemma listed_response k a : listed k (response a) = names k a.
Proof.
  unfold response. rewrite !listed_app, (listed_map k "Disk"), (listed_map k "LVM" (fun _ => [])),
    (listed_map k "RAID" (fun _ => [])), (listed_map k "Loop"), (listed_map k "Sparse" (fun _ => [])).
  unfold names. repeat case_decide; subst; try congruence; cbn; by rewrite ?app_nil_r.
Qed.

(** The devices a node lists (GetAllTypes and ListBlockDevices of
    api-service/node/services).  For any devices of the API server, whatever sysfs answers,
    the types are found without a panic, and in the answer built from them: no disk, LVM
    or RAID device is listed twice; a device is listed as LVM, RAID, loop or sparse only
    if one of the devices has that type and path, and as a disk only if it is a disk or
    some device is a partition; and every device that is not a partition and is sparse or
    known to sysfs is listed under its type. *)
Theorem ListBlockDevices_lists {W} (o : oracle W) (BL : list apis.BlockDevice) (w : W) :
  exists w' all, exec o (GetAllTypes BL) w = (w', Returned all) /\
    (forall k, k ∈ ["Disk"; "LVM"; "RAID"] -> NoDup (listed k (response all))) /\
    (forall k p, p ∈ listed k (response all) -> exists bd, bd ∈ BL /\
      (kind bd = Some k /\ p = devicePath bd \/ k = "Disk" /\ deviceType bd = "partition")) /\
    (forall bd k, bd ∈ BL -> kind bd = Some k -> deviceType bd = "sparse" \/ resolves o (devicePath bd) ->
      devicePath bd ∈ listed k (response all)).
Proof.
  destruct (total_exec o _ w (GetAllTypes_total BL)) as (w' & all & Hx). exists w', all. split; [done|].
  assert (H0 : types_ok o [] none_found).
  { split; [repeat split; constructor| |intros bd k []%elem_of_nil].
    intros k p. unfold names. repeat case_decide; cbn; intros []%elem_of_nil. }
  destruct (for_each_addType_ok o BL [] _ _ _ _ H0 Hx) as [(H1 & H2 & H3) Hs Hc].
  split_and!; [|intros k p; rewrite listed_response; apply Hs|intros bd k ? ? ?; rewrite listed_response; by apply Hc].
  intros k Hk. rewrite listed_response.
  repeat (apply elem_of_cons in Hk as [->|Hk]; [done|]). by apply elem_of_nil in Hk.
Qed.

(** ** Huge pages *)

Lemma TrimRightNewline_digits s : all_bytes (fun c => negb (bool_decide (c = newline))) s = true ->
  TrimRightNewline (s +:+ String newline "") = s.
Proof.
  induction s as [|c s IH]; [done|]. cbn [all_bytes]. intros [Hc Hs]%andb_true_iff.
  rewrite string_app_cons. cbn [TrimRightNewline]. rewrite IH by done. destruct s; [|done].
  apply negb_true_iff, bool_decide_eq_false in Hc. by rewrite decide_False.
Qed.

Lemma all_bytes_mono (P Q : ascii -> bool) s :
  (forall c, P c = true -> Q c = true) -> all_bytes P s = true -> all_bytes Q s = true.
Proof. intros HPQ. induction s as [|c s IH]; cbn; [done|]. rewrite !andb_true_iff. naive_solver. Qed.

Lemma Itoa_no_newline z : all_bytes (fun c => negb (bool_decide (c = newline))) (Itoa z) = true.
Proof.
  assert (Hd : forall x : N, all_bytes (fun c => negb (bool_decide (c = newline))) (pretty.pretty x) = true).
  { intros x. eapply all_bytes_mono; [|apply pretty_digits]. intros c Hc.
    apply negb_true_iff, bool_decide_eq_false. intros ->. vm_compute in Hc. done. }
  destruct z as [|p|p]; [done|apply Hd|]. change (Itoa (Z.neg p)) with (String "-" (pretty.pretty (N.pos p))).
  cbn [all_bytes]. by rewrite Hd.
Qed.

(** The number of huge pages that is read is the one that was set
    (SetHugepages and GetHugepages of hugepages.go), for every 32-bit number, on a host
    whose kernel grants the pages: a successful write to its file is what the next read
    returns, with a newline. *)
Theorem hugepages_roundtrip {W} (o : oracle W) (pages : Z) (w w1 : W) :
  (- 2 ^ 31 <= pages < 2 ^ 31)%Z ->
  (forall w w' content, o _ (WriteFile hugepagesPath content) w = (w', inr tt) ->
    exists w'', o _ (ReadFile hugepagesPath) w' = (w'', inr (content +:+ String newline ""))) ->
  exec o (SetHugepages pages) w = (w1, Returned (inr true)) ->
  exists w2, exec o GetHugepages w1 = (w2, Returned (inr pages)).
Proof.
  intros Hp Hfile Hx. unfold SetHugepages in Hx. apply exec_call_inv in Hx as (w' & [e|[]] & Hw & [= ->]).
  destruct (Hfile _ _ _ Hw) as (w2 & Hr). exists w2. unfold GetHugepages. cbn [bind call exec]. rewrite Hr.
  by rewrite TrimRightNewline_digits, ParseInt_Itoa by (done || apply Itoa_no_newline).
Qed.

(** A kernel file *)
Definition kernel_file : oracle string := fun X e w =>
  match e in callE X return string * X with
  | WriteFile _ content => (content +:+ String newline "", inr tt)
  | ReadFile _ => (w, inr w)
  | e => (w, deaf _ e)
  end.

Lemma hugepages_roundtrip_witness :
  exists w2, exec kernel_file GetHugepages ("512" +:+ String newline "") = (w2, Returned (inr 512%Z)).
Proof.
  apply (hugepages_roundtrip kernel_file 512 "0"); [lia| |reflexivity].
  intros w w' content [= <-]. by eexists.
Defined.

(** ** Partitions *)

(** A disk gets the partitions of every disk whose name begins with its own, and itself
    when no partition is known. *)
Example FilterPartitions_others :
  FilterPartitions "/dev/sda" ["/dev/sda1"; "/dev/sdaa1"; "/dev/sdb1"] = ["/dev/sda1"; "/dev/sdaa1"] /\
  FilterPartitions "/dev/sda" [] = ["/dev/sda"].
Proof. by vm_compute. Qed.
