(* ===== verification/DaemonSpec.v ===== *)
(** * What the daemon does to disks and resources

    Properties of the event handlers beyond the claim life cycle: which disks may get a
    partition table, how names are chosen, how a resource is merged, what a list of
    resources contains, and which events write at all. *)

From Stdlib Require Import ZArith Lia.
From stdpp Require Import base list strings gmap.
From S2P Require Import Prelude GoStrings Md5 Types Prog Util Features K8sLib Controller Store Partition Uuid Handlers Lifecycle DaemonSafe.

Local Open Scope string_scope.
Local Open Scope prog_scope.

(** ** Writing partition tables *)

(** No identifier that generateUUID would use. *)
Definition unidentified (gates : gmap string bool) (bd : blockdevice.BlockDevice) : Prop :=
  blockdevice.devtype bd <> blockdevice.BlockDeviceTypeLoop /\
  blockdevice.devtype bd ∉ blockdevice.DeviceMapperDeviceTypes /\
  blockdevice.devtype bd <> blockdevice.BlockDeviceTypePartition /\
  blockdevice.WWN (blockdevice.DeviceAttributes bd) = "" /\
  blockdevice.FileSystemUUID (blockdevice.FSInfo bd) = "" /\
  (features.IsEnabled gates features.PartitionTableUUID = true ->
   blockdevice.PartitionTableType (blockdevice.PartitionInfo bd) = "" \/
   blockdevice.PartitionTableUUID (blockdevice.PartitionInfo bd) = "").

Lemma length_zero s : String.length s = 0 -> s = "".
Proof. by destruct s. Qed.

Lemma not_positive s : ~ 0 < String.length s -> s = "".
Proof. intros. apply length_zero. lia. Qed.

(** A device has no UUID exactly when it has no identifier, whatever the host name is. *)
Lemma uuidField_cases gates bd :
  (unidentified gates bd /\ uuidField gates bd = Ret None) \/
  (~ unidentified gates bd /\ exists f, uuidField gates bd = Ret (Some f) \/
     uuidField gates bd = (h <- hostname ;; Ret (Some (h +:+ f)))).
Proof.
  unfold uuidField. unfold unidentified, blockdevice.devtype.
  case_decide as H1; [right; split; [tauto|]; eauto|].
  destruct (Contains _ _) eqn:H2; [right; split; [rewrite Contains_elem in H2; tauto|]; eauto|].
  case_decide as H3; [right; split; [tauto|]; eauto|].
  case_decide as H4; [right; split; [intros Hu; destruct Hu as (_ & _ & _ & Hw & _); rewrite Hw in H4; cbn in H4; lia|]; eauto|].
  case_decide as H5; [right; split; [intros Hu; destruct Hu as (_ & _ & _ & _ & Hw & _); rewrite Hw in H5; cbn in H5; lia|]; eauto|].
  apply Contains_elem_false in H2. apply not_positive in H4, H5.
  destruct (features.IsEnabled gates _) eqn:Hg; cbn [andb].
  - case_bool_decide as H6.
    + case_decide as H7; [left; apply length_zero in H7; tauto|].
      right. split; [|eauto]. intros (_ & _ & _ & _ & _ & Hp).
      destruct (Hp eq_refl) as [E|E]; rewrite E in *; cbn in *; lia.
    + left. apply not_positive in H6. tauto.
  - left. naive_solver.
Qed.

(** What has been learnt about the disks: paths on which no partition table, and no file
    system, was found. *)
Record disk_know := DiskKnow { no_table : list string; no_fs : list string }.

(** A partition table is written only to the device being added, if it is found empty. *)
Definition blank_protocol (gates : gmap string bool) (bd : blockdevice.BlockDevice) : protocol := {|
  know := disk_know;
  may K X e :=
    match e with
    | DiskPartition path _ =>
        path = blockdevice.devpath bd /\ path ∈ no_table K /\ path ∈ no_fs K /\ unidentified gates bd /\
        blockdevice.Partitions (blockdevice.DependentDevices bd) = [] /\
        blockdevice.Holders (blockdevice.DependentDevices bd) = [] /\
        ~ (blockdevice.InUse (blockdevice.DevUse bd) = true /\
           blockdevice.UsedBy (blockdevice.DevUse bd) ∈
             [blockdevice.Mayastor; blockdevice.ZFSLocalPV; blockdevice.CStor; blockdevice.LocalPV])
    | _ => True
    end;
  says K X e x := True;
  learn K X e :=
    match e in callE X return X -> disk_know with
    | DiskGetPartitionTable path => fun x =>
        match x with inl _ => DiskKnow (path :: no_table K) (no_fs K) | inr _ => K end
    | BlkidTag path tag => fun x =>
        if decide (tag = "TYPE" /\ x = "") then DiskKnow (no_table K) (path :: no_fs K) else K
    | _ => fun _ => K
    end;
  panics := true
|}.

(** The calls of the code that keeps the resources: it does not touch disks. *)
Definition store_call (X : Type) (e : callE X) : bool :=
  match e with
  | BDGet _ _ | BDList _ _ | BDCreate _ | BDUpdate _ | Hostname => true
  | _ => false
  end.

Section Store.
Context `{K8sLib} (c : Controller).

Lemma UpdateBlockDevice_uses b old : uses store_call (UpdateBlockDevice b old).
Proof. unfold UpdateBlockDevice. uses_solve. Qed.
#[local] Hint Resolve UpdateBlockDevice_uses : uses.

Lemma CreateBlockDevice_uses b : uses store_call (CreateBlockDevice c b).
Proof. unfold CreateBlockDevice. uses_solve. Qed.
#[local] Hint Resolve CreateBlockDevice_uses : uses.

Lemma createOrUpdate_uses st a bd ex : uses store_call (createOrUpdateWithAnnotation c st a bd ex).
Proof. unfold createOrUpdateWithAnnotation. uses_solve. Qed.
#[local] Hint Resolve createOrUpdate_uses : uses.

Lemma hostname_uses : uses store_call hostname.
Proof. unfold hostname. uses_solve. Qed.
#[local] Hint Resolve hostname_uses : uses.

Lemma generateUUID_uses gates bd : uses store_call (generateUUID gates bd).
Proof. unfold generateUUID, uuidField. uses_solve. Qed.
Lemma generateLegacyUUID_uses bd : uses store_call (generateLegacyUUID bd).
Proof. unfold generateLegacyUUID. uses_solve. Qed.
#[local] Hint Resolve generateUUID_uses generateLegacyUUID_uses : uses.

Lemma upgradeInUse_uses by_ann push st bd :
  (forall st bd ex, uses store_call (push st bd ex)) -> uses store_call (upgradeInUse c by_ann push st bd).
Proof. intros Hp. unfold upgradeInUse. uses_solve. Qed.

Lemma upgradeBD_uses st bd : uses store_call (upgradeBD c st bd).
Proof.
  unfold upgradeBD, upgradeDeviceInUseByLocalPV, upgradeDeviceInUseByCStor.
  uses_solve; apply upgradeInUse_uses; intros; apply createOrUpdate_uses.
Qed.

Lemma handleUnmanaged_uses st bd : uses store_call (handleUnmanagedDevices c st bd).
Proof. unfold handleUnmanagedDevices, deviceInUseByZFSLocalPV. uses_solve. Qed.

Lemma createIfNoHolders_uses st bd : uses store_call (createBlockDeviceResourceIfNoHolders c st bd).
Proof. unfold createBlockDeviceResourceIfNoHolders. uses_solve. Qed.
#[local] Hint Resolve createIfNoHolders_uses : uses.

Lemma Deactivate_uses b : uses store_call (DeactivateBlockDevice b).
Proof. unfold DeactivateBlockDevice. uses_solve. Qed.
#[local] Hint Resolve Deactivate_uses : uses.

Lemma addIdentified_uses st bd u : uses store_call (addIdentified c st bd u).
Proof. unfold addIdentified, addNewPartition, GetBlockDevice. uses_solve. Qed.
End Store.
#[export] Hint Resolve UpdateBlockDevice_uses CreateBlockDevice_uses createOrUpdate_uses hostname_uses
  generateUUID_uses generateLegacyUUID_uses upgradeBD_uses handleUnmanaged_uses createIfNoHolders_uses
  Deactivate_uses addIdentified_uses : uses.

Section Blank.
Context `{K8sLib} (c : Controller) (bd : blockdevice.BlockDevice).

Notation used_by l :=
  (blockdevice.InUse (blockdevice.DevUse bd) = true /\ blockdevice.UsedBy (blockdevice.DevUse bd) ∈ l).

Lemma handleUnmanaged_returns st :
  returns (handleUnmanagedDevices c st bd)
    (fun r => r.2 = inr true -> ~ used_by [blockdevice.Mayastor; blockdevice.ZFSLocalPV]).
Proof.
  unfold handleUnmanagedDevices, deviceInUseByMayastor, deviceInUseByZFSLocalPV.
  repeat returns_step; cbn; intros Heq; simplify_eq; intros [Hu Hin]; rewrite ?Hu in *; try done.
  all: repeat case_match; simplify_eq; apply elem_of_cons in Hin as [?|?%list_elem_of_singleton]; congruence.
Qed.

Lemma upgradeInUse_returns by_ann push st :
  unidentified (Gates c) bd -> returns (upgradeInUse c by_ann push st bd) (fun r => r.2 <> inr true).
Proof.
  intros Hu. unfold upgradeInUse, generateUUID.
  destruct (uuidField_cases (Gates c) bd) as [[_ ->]|[? _]]; [|tauto]. cbn [bind option_map].
  repeat returns_step; cbn; repeat case_match; congruence.
Qed.

Lemma upgradeBD_returns st :
  unidentified (Gates c) bd ->
  returns (upgradeBD c st bd) (fun r => r.2 = inr true -> ~ used_by [blockdevice.CStor; blockdevice.LocalPV]).
Proof.
  intros Hu. unfold upgradeBD. destruct (blockdevice.InUse _) eqn:Hi; cbn [negb]; [|cbn; naive_solver].
  case_decide; [|case_decide].
  1,2: eapply returns_mono; [|by apply upgradeInUse_returns]; done.
  cbn. intros _ [_ Hin]. apply elem_of_cons in Hin as [?|?%list_elem_of_singleton]; congruence.
Qed.
End Blank.

Section BlankAdd.
Context `{K8sLib} (c : Controller).
Notation blank bd := (blank_protocol (Gates c) bd).

Lemma store_blank {A} bd K (p : prog A) R :
  uses store_call p -> returns p R -> wp (blank bd) K p (fun _ a => R a).
Proof. apply uses_returns_wp; [done|]. intros K' X e. by destruct e. Qed.

(** A device that may get a table. *)
Definition may_partition (bd : blockdevice.BlockDevice) : Prop :=
  forall K t, blockdevice.devpath bd ∈ no_table K -> blockdevice.devpath bd ∈ no_fs K ->
    may (blank bd) K _ (DiskPartition (blockdevice.devpath bd) t).

Lemma createPartitionTable_path d d' : partition.createPartitionTable d = inr d' -> partition.DevPath d' = partition.DevPath d.
Proof. unfold partition.createPartitionTable. repeat case_decide; intros Hd; by simplify_eq. Qed.

Lemma CreateSinglePartition_blank bd K d :
  may_partition bd -> partition.DevPath d = blockdevice.devpath bd ->
  wp (blank bd) K (partition.CreateSinglePartition d) (fun _ _ => True).
Proof.
  intros Hmay Hd. unfold partition.CreateSinglePartition. rewrite Hd.
  apply wp_then; [done|]. intros [e1|u1] _; [done|]. apply wp_then; [done|]. intros [e2|u2] _; [|done].
  apply wp_then; [done|]. intros fs _. case_decide as Hfs; [done|].
  assert (fs = "") as -> by (apply length_zero; lia).
  destruct (partition.createPartitionTable d) as [e|d'] eqn:Hc; [done|].
  apply createPartitionTable_path in Hc. unfold partition.applyPartitionTable. case_decide; [done|].
  change (partition.DevPath (partition.addPartition d')) with (partition.DevPath d'). rewrite Hc, Hd.
  apply wp_then; [|by intros [e|u] _]. apply Hmay; cbn; left.
Qed.

Lemma CreatePartitionTable_blank bd K d :
  may_partition bd -> partition.DevPath d = blockdevice.devpath bd ->
  wp (blank bd) K (partition.CreatePartitionTable d) (fun _ _ => True).
Proof.
  intros Hmay Hd. unfold partition.CreatePartitionTable. rewrite Hd.
  apply wp_then; [done|]. intros [e1|u1] _; [done|]. apply wp_then; [done|]. intros [e2|u2] _; [|done].
  apply wp_then; [done|]. intros fs _. case_decide as Hfs; [done|].
  assert (fs = "") as -> by (apply length_zero; lia).
  destruct (partition.createPartitionTable d) as [e|d'] eqn:Hc; [done|].
  apply createPartitionTable_path in Hc. rewrite Hc, Hd.
  apply wp_then; [|by intros [e|u] _]. apply Hmay; cbn; left.
Qed.

(** The device is added although it cannot be identified. *)
Lemma makeIdentifiable_blank bd K :
  unidentified (Gates c) bd ->
  ~ (blockdevice.InUse (blockdevice.DevUse bd) = true /\
     blockdevice.UsedBy (blockdevice.DevUse bd) ∈
       [blockdevice.Mayastor; blockdevice.ZFSLocalPV; blockdevice.CStor; blockdevice.LocalPV]) ->
  wp (blank bd) K (makeIdentifiable c bd) (fun _ _ => True).
Proof.
  intros Hu Huse. unfold makeIdentifiable. cbv zeta.
  destruct (blockdevice.Partitions _) eqn:Hp; [|done].
  destruct (blockdevice.Holders _) eqn:Hh; [|done]. cbn [length]. rewrite !bool_decide_eq_false_2 by lia. cbn [orb].
  assert (Hmay : may_partition bd) by (intros K' t ??; cbn; tauto).
  destruct (features.IsEnabled _ _); [|by apply CreateSinglePartition_blank].
  apply wp_bind. eapply wp_mono; [|by apply CreatePartitionTable_blank]. done.
Qed.
End BlankAdd.

Lemma generateUUID_some gates bd :
  ~ unidentified gates bd -> returns (generateUUID gates bd) (fun u => u <> None).
Proof.
  intros Hu. unfold generateUUID.
  destruct (uuidField_cases gates bd) as [[? _]|[_ (f & [-> | ->])]]; [done|done|].
  unfold hostname. cbn. intros [e|h]; done.
Qed.


(** ** Names *)


(** ** Lists of resources *)

(** What the index loop keeps: after a removed item the next one is not looked at. *)
Fixpoint kept_items (l : list apis.BlockDevice) : list apis.BlockDevice :=
  match l with
  | [] => []
  | b :: l =>
      if reconcileDisabled b then match l with [] => [] | b' :: l' => b' :: kept_items l' end
      else b :: kept_items l
  end.

Lemma removeDisabled_kept n l pre :
  length l <= n -> removeDisabled n (length pre) (pre ++ l)%list = (pre ++ kept_items l)%list.
Proof.
  revert l pre. induction n as [|n IH]; intros l pre Hl.
  { destruct l; cbn in Hl; [done|lia]. }
  cbn [removeDisabled]. destruct l as [|b l].
  { cbn [kept_items]. rewrite app_nil_r, lookup_ge_None_2 by lia. done. }
  rewrite list_lookup_middle by done. cbn [kept_items]. cbn in Hl.
  destruct (reconcileDisabled b).
  - rewrite take_app_length, (drop_app_ge _ _ (S (length pre))) by lia.
    replace (S (length pre) - length pre) with 1 by lia. cbn [drop].
    destruct l as [|b' l].
    { rewrite !app_nil_r. destruct n; cbn [removeDisabled]; [done|]. by rewrite lookup_ge_None_2 by lia. }
    specialize (IH l (pre ++ [b'])%list). rewrite length_app in IH. cbn in IH, Hl.
    rewrite Nat.add_1_r, <- !app_assoc in IH. cbn in IH. apply IH. lia.
  - specialize (IH l (pre ++ [b])%list). rewrite length_app in IH. cbn in IH.
    rewrite Nat.add_1_r, <- !app_assoc in IH. cbn in IH. apply IH. lia.
Qed.

(** No two neighbours with reconciliation disabled. *)
Fixpoint isolated (l : list apis.BlockDevice) : Prop :=
  match l with
  | b :: ((b' :: _) as l') => ~ (reconcileDisabled b = true /\ reconcileDisabled b' = true) /\ isolated l'
  | _ => True
  end.

Lemma kept_isolated l : isolated l -> kept_items l = List.filter (fun b => negb (reconcileDisabled b)) l.
Proof.
  induction l as [l IH] using (induction_ltof1 _ (@length _)). unfold ltof in IH.
  destruct l as [|b [|b' l]]; cbn; [done|by destruct (reconcileDisabled b)|].
  intros [Hb Hl]. destruct (reconcileDisabled b) eqn:E1; cbn.
  - destruct (reconcileDisabled b') eqn:E2; [tauto|]. cbn. f_equal. apply IH; [cbn; lia|].
    by destruct l; [|destruct Hl].
  - f_equal. exact (IH (b' :: l) ltac:(cbn; lia) Hl).
Qed.

(** C28. The list of resources the daemon works on: ListBlockDeviceResource returns what
    the API server lists without the resources whose reconciliation is disabled by
    annotation, as long as no two neighbours are; in general the item that follows a
    removed one is kept without being looked at, so that of two neighbouring disabled
    resources the second one is still reconciled. *)
Theorem ListBlockDeviceResource_items {W} (o : oracle W) c all w w' items :
  o _ (BDList None (listSelector c all)) w = (w', inr items) ->
  exec o (ListBlockDeviceResource c all) w = (w', Returned (kept_items items, None)) /\
  (isolated items -> kept_items items = List.filter (fun b => negb (reconcileDisabled b)) items) /\
  (forall b1 b2 l, reconcileDisabled b1 = true -> items = b1 :: b2 :: l -> kept_items items = b2 :: kept_items l).
Proof.
  intros Ho. split_and!.
  - unfold ListBlockDeviceResource. cbn. rewrite Ho. cbn.
    pose proof (removeDisabled_kept (length items) items [] ltac:(lia)) as Hk. cbn in Hk. by rewrite Hk.
  - apply kept_isolated.
  - intros b1 b2 l Hb ->. cbn. by rewrite Hb.
Qed.

(** An error can be lost: when a resource exists already, the first attempt to update
    it runs into a conflict and the second fails for whatever reason, CreateBlockDevice
    returns no error although nothing was written. *)
Theorem CreateBlockDevice_drops_error {W} (o : oracle W) c bd w0 w1 w2 w3 w4 w5 old old' e :
  let new := set_namespace (cNamespace c) bd in
  o _ (BDCreate new) w0 = (w1, inl ErrAlreadyExists) ->
  o _ (BDGet (cNamespace c) (apis.bd_name bd)) w1 = (w2, inr old) ->
  o _ (BDUpdate (mergeBlockDeviceData new old)) w2 = (w3, inl ErrConflict) ->
  o _ (BDGet (cNamespace c) (apis.bd_name bd)) w3 = (w4, inr old') ->
  o _ (BDUpdate (mergeBlockDeviceData new old')) w4 = (w5, inl e) ->
  exec o (CreateBlockDevice c bd) w0 = (w5, Returned None).
Proof.
  intros new H0 H1 H2 H3 H4. unfold CreateBlockDevice, UpdateBlockDevice.
  rewrite (exec_call o _ _ _ _ _ H0). cbn [error_of].
  change (negb (IsAlreadyExists ErrAlreadyExists)) with false. cbv iota.
  rewrite exec_bind, (exec_call o _ _ _ _ _ H1), (exec_call o _ _ _ _ _ H2). cbn [error_of exec].
  change (negb (IsConflict ErrConflict)) with false. cbv iota.
  by rewrite exec_bind, (exec_call o _ _ _ _ _ H3), (exec_call o _ _ _ _ _ H4).
Qed.

(** ** Deleting *)

(** At most one write, which marks an item of the list as inactive. *)
Definition once_protocol (items : list apis.BlockDevice) : protocol := {|
  know := nat;
  may K X e :=
    match e with
    | Hostname => True
    | BDUpdate b => K = 0 /\ exists item, item ∈ items /\ b = set_state NDMInactive item
    | _ => False
    end;
  says K X e x := True;
  learn K X e := match e in callE X return X -> nat with BDUpdate _ => fun _ => S K | _ => fun _ => K end;
  panics := false
|}.

Lemma findItem_in P i l r : findItem P i l = Some r -> r.2 ∈ l.
Proof.
  revert i. induction l as [|b l IH]; intros i; cbn; [done|].
  destruct (P b); [intros [= <-]; left|]. intros ?%IH. by right.
Qed.

Lemma existing_in items e b : existing_bd e = Some b -> (exists P, e = of_find (findItem P 0 items)) -> b ∈ items.
Proof.
  intros He [P ->]. destruct (findItem P 0 items) as [[i b']|] eqn:Hf; [|done]. cbn in He. injection He as <-.
  by apply findItem_in in Hf.
Qed.

Section Delete.
Context (c : Controller) (items : list apis.BlockDevice).

Lemma deactivate_once {A} b (st : A) :
  b ∈ items -> wp (once_protocol items) 0 (DeactivateBlockDevice b ;;; Ret st) (fun _ st' => st' = st).
Proof. intros Hb. split; [|done]. split; [done|]. eauto. Qed.

Lemma hostname_once {B} (k : string -> prog B) Q :
  (forall h, wp (once_protocol items) 0 (k h) Q) -> wp (once_protocol items) 0 (bind hostname k) Q.
Proof. intros Hk. split; [done|]. intros x _. apply Hk. Qed.

Lemma generateUUID_once {B} gates bd (k : option string -> prog B) Q :
  (forall u, wp (once_protocol items) 0 (k u) Q) -> wp (once_protocol items) 0 (bind (generateUUID gates bd) k) Q.
Proof.
  intros Hk. unfold generateUUID.
  destruct (uuidField_cases gates bd) as [[_ ->]|[_ (f & [-> | ->])]]; [apply Hk..|].
  split; [done|]. intros x _. apply Hk.
Qed.

Lemma generateLegacyUUID_once {B} bd (k : string * bool -> prog B) Q :
  (forall u, wp (once_protocol items) 0 (k u) Q) -> wp (once_protocol items) 0 (bind (generateLegacyUUID bd) k) Q.
Proof.
  intros Hk. unfold generateLegacyUUID. destruct (uuidUsesPath bd); [|apply Hk].
  split; [done|]. intros x _. apply Hk.
Qed.
End Delete.

(** One more way of finding the resource. *)
Lemma try_once {A} items (f : option (nat * apis.BlockDevice)) (k : prog A) st :
  (forall r, f = Some r -> r.2 ∈ items) ->
  wp (once_protocol items) 0 k (fun _ st' => st' = st) ->
  wp (once_protocol items) 0
    (match f with Some (_, b) => DeactivateBlockDevice b ;;; Ret st | None => k end) (fun _ st' => st' = st).
Proof. intros Hf Hk. destruct f as [[i b]|]; [|done]. apply deactivate_once. by apply (Hf (i, b)). Qed.

Lemma byFs_in items bd b : existing_bd (getExistingBDWithFsUuid bd items) = Some b -> b ∈ items.
Proof. unfold getExistingBDWithFsUuid. case_decide; [done|]. intros Hb. eapply existing_in; eauto. Qed.
Lemma byPartition_in items bd b : existing_bd (getExistingBDWithPartitionUUID bd items) = Some b -> b ∈ items.
Proof. unfold getExistingBDWithPartitionUUID. case_decide; [done|]. intros Hb. eapply existing_in; eauto. Qed.

(** C19. Removing a device: deleteBlockDevice takes the device out of the hierarchy cache,
    leaves the rest of its state alone, never panics, and makes at most one write, which
    marks one of the listed resources inactive and changes nothing else in it. *)
Theorem deleteBlockDevice_once c st bd :
  wp (once_protocol (bdAPIList st)) 0 (deleteBlockDevice c st bd)
    (fun _ st' => BDHierarchy st' = delete (blockdevice.devpath bd) (BDHierarchy st) /\
                  bdAPIList st' = bdAPIList st).
Proof.
  unfold deleteBlockDevice, removeBlockDeviceFromHierarchyCache.
  destruct (BDHierarchy st !! blockdevice.devpath bd) eqn:Hl; [|split; [by rewrite delete_id|done]].
  set (st' := st <| BDHierarchy ::= _ |>). change (bdAPIList st') with (bdAPIList st).
  apply (wp_mono _ _ _ (fun _ s => s = st')); [by intros _ s ->|].
  assert (Hin : forall P r, findItem P 0 (bdAPIList st) = Some r -> r.2 ∈ bdAPIList st)
    by (intros; by eapply findItem_in).
  assert (Hlegacy : wp (once_protocol (bdAPIList st)) 0
    ('(legacyUUID, _) <- generateLegacyUUID bd ;;
     match GetExistingBlockDeviceResource (bdAPIList st) legacyUUID with
     | Some (_, b) => DeactivateBlockDevice b ;;; Ret st'
     | None => Ret st'
     end) (fun _ s => s = st')).
  { apply generateLegacyUUID_once. intros [u ?]. apply try_once; [apply Hin|done]. }
  apply generateUUID_once. intros u.
  destruct u as [u|]; [apply try_once; [apply Hin|]|];
    (destruct (generateUUIDFromPartitionTable bd) as [t|]; [apply try_once; [apply Hin|]|]);
    (destruct (existing_bd (getExistingBDWithFsUuid _ _)) eqn:Hf; [apply deactivate_once; by eapply byFs_in|]);
    (destruct (existing_bd (getExistingBDWithPartitionUUID _ _)) eqn:Hp; [|exact Hlegacy]);
    (case_decide; [apply deactivate_once; by eapply byPartition_in|exact Hlegacy]).
Qed.

(** Devices that are attached are not in danger of being marked inactive. *)
Definition stale_protocol (attached : list string) : protocol := {|
  know := unit;
  may K X e :=
    match e with
    | BDUpdate b => exists item, apis.bd_name item ∉ attached /\ b = set_state NDMInactive item
    | BDCreate _ | BDDelete _ _ | BDCUpdate _ | DiskPartition _ _ | JobCreate _ | JobDelete _ _ => False
    | _ => True
    end;
  says K X e x := True;
  learn K X e x := K;
  panics := true
|}.

(** The sparse files of the node are read without any write. *)
Lemma sparse_uuids_stale attached h :
  wp (stale_protocol attached) tt (GetActiveSparseBlockDevicesUUID h) (fun _ _ => True).
Proof.
  apply (uses_wp (stale_protocol attached) (fun X e =>
    match e with LookupEnv _ | Stat _ | ReadDir _ => true | _ => false end)).
  - done.
  - intros K X e He. by destruct e.
  - unfold GetActiveSparseBlockDevicesUUID, GetSparseFileDir, Getenv. uses_solve.
Qed.


(** ** Devices that are left alone *)

Section HandsOff.
Context `{K8sLib} (c : Controller) (st : PState) (bd : blockdevice.BlockDevice).

Definition in_use_by (engine : string) (d : blockdevice.BlockDevice) : Prop :=
  blockdevice.InUse (blockdevice.DevUse d) = true /\ blockdevice.UsedBy (blockdevice.DevUse d) = engine.

(** In use by Mayastor, or a partition of a disk that is in use (and not itself the
    device of a ZFS pool). *)
Definition hands_off : Prop :=
  in_use_by blockdevice.Mayastor bd \/
  (blockdevice.devtype bd = blockdevice.BlockDeviceTypePartition /\ ~ in_use_by blockdevice.ZFSLocalPV bd /\
   exists parent, BDHierarchy st !! blockdevice.Parent (blockdevice.DependentDevices bd) = Some parent /\
     blockdevice.InUse (blockdevice.DevUse parent) = true).

Lemma hands_off_noop : hands_off -> addBlockDevice c st bd = Ret (st, None).
Proof.
  intros [[Hu Hm]|(Ht & Hz & parent & Hp & Hu)]; unfold addBlockDevice, handleUnmanagedDevices.
  - unfold deviceInUseByMayastor. rewrite Hu, decide_False by (intros Hne; by apply Hne). done.
  - destruct (deviceInUseByMayastor bd); [|done]. cbn [negb].
    unfold deviceInUseByZFSLocalPV. rewrite decide_True, Hp, Hu by done. cbn [andb].
    case_bool_decide; [done|].
    assert (Hpar : isParentDeviceInUse st bd = inr true).
    { unfold isParentDeviceInUse. rewrite decide_False, Hp, Hu by (intros Hne; by apply Hne). done. }
    destruct (blockdevice.InUse (blockdevice.DevUse bd)) eqn:Hi; cbn [negb bind]; [|by rewrite Hpar].
    rewrite decide_True by (intros ?; apply Hz; by split). cbn [bind]. by rewrite Hpar.
Qed.
End HandsOff.


(** ** Changes *)

(** Mount points: for lists of mount points without repetition the comparison that
    decides whether a device has changed is equality as sets. *)
Theorem haveEqualMountPoints_sets old new :
  NoDup (blockdevice.MountPoint (blockdevice.FSInfo old)) ->
  NoDup (blockdevice.MountPoint (blockdevice.FSInfo new)) ->
  haveEqualMountPoints old new = true <->
  blockdevice.MountPoint (blockdevice.FSInfo old) ≡ₚ blockdevice.MountPoint (blockdevice.FSInfo new).
Proof.
  intros Ho Hn. unfold haveEqualMountPoints. rewrite andb_true_iff, bool_decide_eq_true, forallb_elem.
  setoid_rewrite Contains_elem. split.
  - intros [Hlen Hsub]. symmetry. apply submseteq_length_Permutation; [by apply NoDup_submseteq|lia].
  - intros Hp. split; [by rewrite Hp|]. intros x Hx. by rewrite Hp.
Qed.

(** Nothing changed, nothing written: if the probes find the same size, file system
    and mount points, a change event makes no call after the probes ran, leaves the cache
    as it is and succeeds. *)
Theorem changeBlockDevice_unchanged `{K8sLib} {W} (o : oracle W) c st bd req w w1 bd1 :
  exec o (FillBlockDeviceDetails c bd req) w = (w1, Returned bd1) ->
  blockdevice.uuid_of bd1 <> "" -> unchanged bd bd1 = true ->
  exec o (changeBlockDevice c st bd req) w = (w1, Returned (st, None)).
Proof.
  intros Hf Hu Hc. unfold changeBlockDevice. rewrite exec_bind, Hf, decide_False by done.
  cbn [bind]. by rewrite Hc.
Qed.

(** ** Merging *)

Lemma mergeMap_idem n o : mergeMap n (mergeMap n o) = mergeMap n o.
Proof. unfold mergeMap. cbn. by rewrite map_union_assoc, (map_union_idemp (default ∅ n)). Qed.

Lemma mergeMap_lookup n o k : map_lookup (mergeMap n o) k = match map_lookup n k with Some v => Some v | None => map_lookup o k end.
Proof.
  unfold mergeMap, map_lookup. cbn. rewrite lookup_union.
  destruct n as [n|], o as [o|]; cbn; rewrite ?lookup_empty; try destruct (n !! k); try destruct (o !! k); done.
Qed.

Lemma merge_idem new old :
  bd_initial new -> mergeBlockDeviceData new (mergeBlockDeviceData new old) = mergeBlockDeviceData new old.
Proof.
  intros [Hs _]. destruct old as [ot om os [oc ost]], new as [nt nm ns [nc nst]]. cbn in Hs.
  unfold mergeBlockDeviceData. cbn. destruct (decide (oc <> apis.BlockDeviceUnclaimed)) as [Hc|Hc]; cbn.
  - rewrite decide_True by done. unfold mergeMetadata. cbn. by rewrite !mergeMap_idem.
  - rewrite decide_False by (intros Hne; by apply Hne). unfold mergeMetadata. cbn. by rewrite !mergeMap_idem.
Qed.


(** ** Probes *)

Lemma filter_sorted (P : Probe -> Prop) `{!forall p, Decision (P p)} l :
  probes_sorted l -> probes_sorted (filter P l).
Proof.
  unfold probes_sorted. induction 1 as [|p l Hl IH Hp]; [constructor|]. destruct (decide (P p)).
  - rewrite filter_cons_True by done. constructor; [done|]. apply Forall_forall. intros q Hq%list_elem_of_In.
    apply list_elem_of_filter in Hq as [_ Hq%list_elem_of_In]. by eapply Forall_forall in Hp.
  - by rewrite filter_cons_False.
Qed.

(** Probes run in the order of their priorities: registering a probe keeps all
    registered probes and sorts them, and the probes that fill a device are exactly the
    enabled ones, restricted to the requested names if there are any, in that order. *)
Theorem AddNewProbe_sorted c p req :
  let c' := AddNewProbe c p in
  probes_sorted (Probes c') /\ Probes c' ≡ₚ p :: Probes c /\
  probes_sorted (ListProbe c' req) /\
  (forall q, q ∈ ListProbe c' req <->
     (q = p \/ q ∈ Probes c) /\ pState q = true /\ (req = [] \/ pName q ∈ req)).
Proof.
  intros c'. destruct (AddNewProbe_perm c p) as [Hs Hp]. fold c' in Hs, Hp.
  split_and!; [done|done| |].
  - unfold ListProbe. rewrite listProbe_filter. by apply filter_sorted.
  - intros q. unfold ListProbe. rewrite listProbe_filter, list_elem_of_filter, bool_decide_eq_true, length_zero_iff_nil.
    rewrite Hp, elem_of_cons. tauto.
Qed.
