(* ===== verification/Select.v ===== *)
(** * pkg/select: choosing a device for a claim

    The filters on a list of block devices, their composition for manual and automatic
    selection, and what the selected device satisfies. *)

From Stdlib Require Import ZArith Lia.
From stdpp Require Import base list strings gmap.
From S2P Require Import Prelude GoStrings Types Prog Util K8sLib Controller.

Local Open Scope string_scope.

(** ** verify/resourceverify.go *)

(** A quantity that is absent from the list is zero. *)
Definition GetRequestedCapacity (requests : gmap string (option Z)) : res Z :=
  match default (Some 0%Z) (requests !! apis.ResourceStorage) with
  | None => inl (Err "invalid capacity requested")
  | Some capacity =>
      if decide (capacity <= 0)%Z then inl (Err "invalid capacity requested") else inr capacity
  end.

(** ** config.go *)

Record Config := MkConfig { ClaimSpec : apis.DeviceClaimSpec; ManualSelection : bool }.

Definition NewConfig (claimSpec : apis.DeviceClaimSpec) : Config :=
  MkConfig claimSpec (negb (bool_decide (apis.BlockDeviceName claimSpec = ""))).

(** ** filters.go *)

Definition uuidSchemeAnnotation := "internal.openebs.io/uuid-scheme".
Definition legacyScheme := "legacy".

Notation items := (list apis.BlockDevice).

Definition filterActive (l : items) (spec : apis.DeviceClaimSpec) : items :=
  List.filter (fun bd => bool_decide (apis.bd_state bd = NDMActive)) l.

Definition filterUnclaimed (l : items) (spec : apis.DeviceClaimSpec) : items :=
  List.filter (fun bd => bool_decide (apis.bd_claimstate bd = apis.BlockDeviceUnclaimed)) l.

Definition filterDeviceType (l : items) (spec : apis.DeviceClaimSpec) : items :=
  if decide (apis.ClaimDeviceType spec = "") then l
  else List.filter (fun bd =>
         bool_decide (apis.DeviceType (apis.Details (apis.Spec bd)) = apis.ClaimDeviceType spec)) l.

(** The conditions under which the loop of filterVolumeMode keeps a device. *)
Definition volumeModeKeeps (spec : apis.DeviceClaimSpec) (bd : apis.BlockDevice) : bool :=
  let mode := apis.BlockVolumeMode (apis.ClaimDetails spec) in
  let format := apis.DeviceFormat (apis.ClaimDetails spec) in
  let fs := apis.FileSystem (apis.Spec bd) in
  if decide (mode = apis.VolumeModeBlock) then
    bool_decide (apis.FSType fs = "") && bool_decide (apis.Mountpoint fs = "")
  else if decide (mode = apis.VolumeModeFileSystem) then
    negb (bool_decide (apis.FSType fs = "")) && negb (bool_decide (apis.Mountpoint fs = "")) &&
    (bool_decide (format = "") || bool_decide (apis.FSType fs = format))
  else true.

Definition filterVolumeMode (l : items) (spec : apis.DeviceClaimSpec) : items :=
  if decide (apis.BlockVolumeMode (apis.ClaimDetails spec) = "") then l
  else List.filter (volumeModeKeeps spec) l.

(** The first match only: the loop breaks. *)
Definition first (P : apis.BlockDevice -> bool) (l : items) : items :=
  match find P l with Some bd => [bd] | None => [] end.

Definition filterBlockDeviceName (l : items) (spec : apis.DeviceClaimSpec) : items :=
  first (fun bd => bool_decide (apis.bd_name bd = apis.BlockDeviceName spec)) l.

(** uint64(capacity) of a non-negative int64; 0 when the request is invalid *)
Definition requested (spec : apis.DeviceClaimSpec) : Z :=
  match GetRequestedCapacity (apis.Requests spec) with inr c => c | inl _ => 0%Z end.

Definition filterResourceStorage (l : items) (spec : apis.DeviceClaimSpec) : items :=
  first (fun bd => bool_decide (requested spec <= apis.Storage (apis.Capacity (apis.Spec bd)))%Z) l.

Definition filterOutSparseBlockDevice (l : items) (spec : apis.DeviceClaimSpec) : items :=
  List.filter (fun bd =>
    negb (bool_decide (apis.DeviceType (apis.Details (apis.Spec bd)) = blockdevice.SparseBlockDeviceType))) l.

Definition filterNodeName (l : items) (spec : apis.DeviceClaimSpec) : items :=
  let node := apis.BDNodeName (apis.ClaimNodeAttributes spec) in
  if decide (String.length node = 0) then l
  else List.filter (fun bd => bool_decide (apis.NodeName (apis.NodeAttributes (apis.Spec bd)) = node)) l.

Definition isBDTagDoesNotExistSelectorRequired (options : option metav1.LabelSelector) : bool :=
  match options with
  | None => true
  | Some options =>
      match map_lookup (metav1.MatchLabels options) BlockDeviceTagLabel with
      | Some _ => false
      | None => negb (existsb (fun req => bool_decide (metav1.Key req = BlockDeviceTagLabel))
                        (metav1.MatchExpressions options))
      end
  end.

Definition emptyTag (bd : apis.BlockDevice) : bool :=
  match map_lookup (apis.bd_labels bd) BlockDeviceTagLabel with
  | Some val => bool_decide (String.length (TrimSpace val) = 0)
  | None => false
  end.

Definition legacyAnnotated (bd : apis.BlockDevice) : bool :=
  match map_lookup (apis.bd_annotations bd) uuidSchemeAnnotation with
  | Some uuidScheme => bool_decide (uuidScheme = legacyScheme)
  | None => false
  end.

Definition filterOutLegacyAnnotation (l : items) (spec : apis.DeviceClaimSpec) : items :=
  List.filter (fun bd => negb (legacyAnnotated bd)) l.

Inductive filterKey :=
  | FilterActive | FilterUnclaimed | FilterDeviceType | FilterVolumeMode | FilterBlockDeviceName
  | FilterResourceStorage | FilterOutSparseBlockDevices | FilterNodeName | FilterBlockDeviceTag
  | FilterOutLegacyAnnotation.

Section Select.
Context `{K8sLib}.

Definition filterBlockDeviceTag (l : items) (spec : apis.DeviceClaimSpec) : items :=
  let emptyTagFiltered := List.filter (fun bd => negb (emptyTag bd)) l in
  if negb (isBDTagDoesNotExistSelectorRequired (apis.Selector spec)) then emptyTagFiltered
  else List.filter (fun bd => MatchesDoesNotExist BlockDeviceTagLabel (apis.bd_labels bd)) emptyTagFiltered.

Definition filterFuncMap (k : filterKey) : items -> apis.DeviceClaimSpec -> items :=
  match k with
  | FilterActive => filterActive
  | FilterUnclaimed => filterUnclaimed
  | FilterDeviceType => filterDeviceType
  | FilterVolumeMode => filterVolumeMode
  | FilterBlockDeviceName => filterBlockDeviceName
  | FilterResourceStorage => filterResourceStorage
  | FilterOutSparseBlockDevices => filterOutSparseBlockDevice
  | FilterNodeName => filterNodeName
  | FilterBlockDeviceTag => filterBlockDeviceTag
  | FilterOutLegacyAnnotation => filterOutLegacyAnnotation
  end.

Definition ApplyFilters (c : Config) (bdList : items) (filterKeys : list filterKey) : items :=
  fold_left (fun l key => filterFuncMap key l (ClaimSpec c)) filterKeys bdList.

(** ** select.go *)

Definition candidateKeys (manual : bool) : list filterKey :=
  ([FilterActive; FilterUnclaimed; FilterOutLegacyAnnotation; FilterBlockDeviceTag] ++
   (if manual then [FilterBlockDeviceName]
    else [FilterOutSparseBlockDevices; FilterDeviceType; FilterVolumeMode; FilterNodeName]))%list.

Definition getCandidateDevices (c : Config) (bdList : items) : res items :=
  let candidateBD := ApplyFilters c bdList (candidateKeys (ManualSelection c)) in
  if decide (length candidateBD = 0) then inl (Err "no devices found matching the criteria")
  else inr candidateBD.

Definition getSelectedDevice (c : Config) (bdList : items) : res apis.BlockDevice :=
  let pick l e := match l with bd :: _ => inr bd | [] => inl (Err e) end in
  if ManualSelection c then pick bdList "index out of range"
  else pick (ApplyFilters c bdList [FilterResourceStorage])
         "could not find a device with matching resource requirements".

Definition Filter (c : Config) (bdList : items) : res apis.BlockDevice :=
  if decide (length bdList = 0) then inl (Err "no blockdevices found")
  else match getCandidateDevices c bdList with
       | inl e => inl e
       | inr candidateDevices => getSelectedDevice c candidateDevices
       end.

(** ** What a claim may get *)

(** For every claim: the device is active and unclaimed, does not use the legacy
    scheme, and its tag is not empty; if the claim does not select by tag the device
    has none. *)
Definition base_ok (spec : apis.DeviceClaimSpec) (bd : apis.BlockDevice) : bool :=
  bool_decide (apis.bd_state bd = NDMActive) &&
  bool_decide (apis.bd_claimstate bd = apis.BlockDeviceUnclaimed) &&
  negb (legacyAnnotated bd) && negb (emptyTag bd) &&
  (negb (isBDTagDoesNotExistSelectorRequired (apis.Selector spec)) ||
   MatchesDoesNotExist BlockDeviceTagLabel (apis.bd_labels bd)).

(** A claim that names its device. *)
Definition manual_ok (spec : apis.DeviceClaimSpec) (bd : apis.BlockDevice) : bool :=
  base_ok spec bd && bool_decide (apis.bd_name bd = apis.BlockDeviceName spec).

(** A claim by criteria: the device is not sparse and has the type, volume mode and
    node asked for, if any. *)
Definition criteria_ok (spec : apis.DeviceClaimSpec) (bd : apis.BlockDevice) : bool :=
  base_ok spec bd &&
  negb (bool_decide (apis.DeviceType (apis.Details (apis.Spec bd)) = blockdevice.SparseBlockDeviceType)) &&
  (bool_decide (apis.ClaimDeviceType spec = "") ||
   bool_decide (apis.DeviceType (apis.Details (apis.Spec bd)) = apis.ClaimDeviceType spec)) &&
  (bool_decide (apis.BlockVolumeMode (apis.ClaimDetails spec) = "") || volumeModeKeeps spec bd) &&
  (bool_decide (String.length (apis.BDNodeName (apis.ClaimNodeAttributes spec)) = 0) ||
   bool_decide (apis.NodeName (apis.NodeAttributes (apis.Spec bd)) = apis.BDNodeName (apis.ClaimNodeAttributes spec))).

(** ... and is large enough. *)
Definition auto_ok (spec : apis.DeviceClaimSpec) (bd : apis.BlockDevice) : bool :=
  criteria_ok spec bd && bool_decide (requested spec <= apis.Storage (apis.Capacity (apis.Spec bd)))%Z.

Definition eligible (c : Config) : apis.BlockDevice -> bool :=
  if ManualSelection c then manual_ok (ClaimSpec c) else auto_ok (ClaimSpec c).

(** *** Composition *)

Lemma filter_and {A} (f g : A -> bool) l :
  List.filter f (List.filter g l) = List.filter (fun x => g x && f x) l.
Proof.
  induction l as [|x l IH]; cbn; [done|].
  destruct (g x); cbn; [destruct (f x)|]; by rewrite IH.
Qed.

Lemma filter_if {A} (b : bool) (f : A -> bool) l :
  (if b then l else List.filter f l) = List.filter (fun x => b || f x) l.
Proof.
  destruct b; [|done]. symmetry. induction l as [|x l IH]; [done|]. cbn. by f_equal.
Qed.

Lemma filter_decide {A} (P : Prop) `{Decision P} (f : A -> bool) l :
  (if decide P then l else List.filter f l) = List.filter (fun x => bool_decide P || f x) l.
Proof.
  case_decide as HP.
  - rewrite (bool_decide_eq_true_2 P) by done. apply (filter_if true).
  - rewrite (bool_decide_eq_false_2 P) by done. done.
Qed.

Lemma find_filter {A} (f g : A -> bool) l :
  find f (List.filter g l) = find (fun x => g x && f x) l.
Proof. induction l as [|x l IH]; cbn; [done|]. destruct (g x); cbn; by rewrite ?IH. Qed.

Lemma find_ext {A} (f g : A -> bool) l : (forall x, f x = g x) -> find f l = find g l.
Proof. intros Hfg. induction l as [|x l IH]; cbn; [done|]. by rewrite Hfg, IH. Qed.

Lemma filterBlockDeviceTag_eq l spec :
  filterBlockDeviceTag l spec =
  List.filter (fun bd => negb (emptyTag bd) &&
    (negb (isBDTagDoesNotExistSelectorRequired (apis.Selector spec)) ||
     MatchesDoesNotExist BlockDeviceTagLabel (apis.bd_labels bd))) l.
Proof.
  unfold filterBlockDeviceTag. rewrite filter_if, filter_and. done.
Qed.

Lemma base_filters c l :
  ApplyFilters c l [FilterActive; FilterUnclaimed; FilterOutLegacyAnnotation; FilterBlockDeviceTag] =
  List.filter (base_ok (ClaimSpec c)) l.
Proof.
  cbn. rewrite filterBlockDeviceTag_eq. unfold filterActive, filterUnclaimed, filterOutLegacyAnnotation.
  rewrite !filter_and. apply filter_ext. intros bd. unfold base_ok. by rewrite !andb_assoc.
Qed.

Lemma first_candidates P l : find P l = match first P l with b :: _ => Some b | [] => None end.
Proof. unfold first. by destruct (find P l). Qed.

Lemma ApplyFilters_app c l k1 k2 :
  ApplyFilters c l (k1 ++ k2)%list = ApplyFilters c (ApplyFilters c l k1) k2.
Proof. apply fold_left_app. Qed.

Lemma Filter_manual c l :
  ManualSelection c = true ->
  match Filter c l with inr b => Some b | inl _ => None end = find (manual_ok (ClaimSpec c)) l.
Proof.
  intros Hm. unfold Filter, getCandidateDevices, getSelectedDevice, candidateKeys. rewrite Hm.
  rewrite ApplyFilters_app, base_filters. unfold ApplyFilters.
  cbn [fold_left filterFuncMap]. unfold filterBlockDeviceName, first.
  rewrite find_filter. unfold manual_ok.
  destruct l as [|b l]; [done|]. cbn [length]. rewrite (decide_False (P := S (length l) = 0)) by done.
  by destruct (find _ (b :: l)).
Qed.

Lemma criteria_filters c l :
  ApplyFilters c (List.filter (base_ok (ClaimSpec c)) l)
    [FilterOutSparseBlockDevices; FilterDeviceType; FilterVolumeMode; FilterNodeName] =
  List.filter (criteria_ok (ClaimSpec c)) l.
Proof.
  unfold ApplyFilters. cbn [fold_left filterFuncMap].
  unfold filterOutSparseBlockDevice, filterDeviceType, filterVolumeMode, filterNodeName.
  rewrite !filter_decide, !filter_and. apply filter_ext. intros bd.
  unfold criteria_ok. by rewrite !andb_assoc.
Qed.

Lemma Filter_auto c l :
  ManualSelection c = false ->
  match Filter c l with inr b => Some b | inl _ => None end = find (auto_ok (ClaimSpec c)) l.
Proof.
  intros Hm. unfold Filter, getCandidateDevices, getSelectedDevice, candidateKeys. rewrite Hm.
  rewrite ApplyFilters_app, base_filters, criteria_filters.
  unfold ApplyFilters. cbn [fold_left filterFuncMap]. unfold filterResourceStorage.
  set (cand := List.filter (criteria_ok (ClaimSpec c)) l).
  transitivity (find (fun bd => bool_decide (requested (ClaimSpec c) <= apis.Storage (apis.Capacity (apis.Spec bd)))%Z) cand).
  - destruct l as [|b l]; [done|]. cbn [length]. rewrite (decide_False (P := S (length l) = 0)) by done.
    case_decide as Hlen.
    + by destruct cand.
    + rewrite first_candidates. by destruct (first _ cand).
  - unfold cand. rewrite find_filter. by apply find_ext.
Qed.
End Select.

(** C12. Selection is exactly "the first eligible device of the list": Filter returns the
    first device, in list order, that meets all criteria of the claim (manual or
    automatic), and fails only when there is none. *)
Theorem Filter_spec `{K8sLib} c l :
  match Filter c l with inr b => Some b | inl _ => None end = find (eligible c) l.
Proof.
  unfold eligible. destruct (ManualSelection c) eqn:Hm; [by apply Filter_manual|by apply Filter_auto].
Qed.

Lemma Filter_eligible `{K8sLib} c l b : Filter c l = inr b -> b ∈ l /\ eligible c b = true.
Proof.
  intros Hf. apply find_elem. pose proof (Filter_manual c l) as Hm. pose proof (Filter_auto c l) as Ha.
  unfold eligible. destruct (ManualSelection c); rewrite Hf in *; by symmetry; auto.
Qed.

(** What every selected device satisfies. *)
Lemma eligible_base `{K8sLib} c b :
  eligible c b = true ->
  apis.bd_state b = NDMActive /\ apis.bd_claimstate b = apis.BlockDeviceUnclaimed.
Proof.
  unfold eligible, manual_ok, auto_ok, criteria_ok, base_ok.
  destruct (ManualSelection c); intros Hb;
    repeat match goal with H : _ && _ = true |- _ => apply andb_true_iff in H as [? ?] end;
    by repeat match goal with H : bool_decide _ = true |- _ => apply bool_decide_eq_true in H end.
Qed.

(** A claim that does not select by tag never gets a tagged device. *)
Lemma eligible_untagged `{K8sLib, !RequirementLaws} c b :
  eligible c b = true -> isBDTagDoesNotExistSelectorRequired (apis.Selector (ClaimSpec c)) = true ->
  map_lookup (apis.bd_labels b) BlockDeviceTagLabel = None.
Proof.
  intros Hb Hr. rewrite <- MatchesDoesNotExist_iff.
  unfold eligible, manual_ok, auto_ok, criteria_ok, base_ok in Hb. rewrite Hr in Hb.
  destruct (ManualSelection c);
    repeat match goal with H : _ && _ = true |- _ => apply andb_true_iff in H as [? ?] end; done.
Qed.
