(* ===== verification/Cleaner.v ===== *)
(** * pkg/cleaner

    The cleanup of a released device by a job on its node: what job is created, when,
    and when the device counts as clean. *)

From Stdlib Require Import ZArith Ascii Lia.
From stdpp Require Import base list strings gmap.
From S2P Require Import Prelude GoStrings Types Prog Util Controller.

Local Open Scope string_scope.
Local Open Scope prog_scope.

(** ** pkg/env *)

Definition env_get (name : string) : prog string :=
  v <- call (LookupEnv name) ;; Ret (default "" v).

Definition GetOpenEBSImagePullSecrets : prog (list string) :=
  v <- env_get "OPENEBS_IO_IMAGE_PULL_SECRETS" ;;
  let secrets := TrimSpace v in
  if decide (String.length secrets = 0) then Ret []
  else Ret (map TrimSpace (List.filter (fun item => bool_decide (0 < String.length item)) (Split secrets ","%char))).

Definition GetWatchNamespace : prog (res string) :=
  v <- env_get "WATCH_NAMESPACE" ;;
  let ns := TrimSpace v in
  if decide (String.length ns = 0) then Ret (inl (Err "WATCH_NAMESPACE env not set")) else Ret (inr ns).

(** ** config.go *)

Definition defaultCleanUpJobImage := "quay.io/openebs/linux-utils:latest".

Definition getCleanUpImage : prog string :=
  image <- call (LookupEnv "CLEANUP_JOB_IMAGE") ;;
  Ret (match image with None => defaultCleanUpJobImage | Some image => image end).

Definition getServiceAccount : prog string := env_get "SERVICE_ACCOUNT".

(** ** jobcontroller.go *)

Definition JobContainerName := "cleaner".
Definition JobNamePrefix := "cleanup-".
Definition BDLabel := "blockdevice".

Inductive VolumeMode := VolumeModeBlock | VolumeModeFileSystem.

Inductive CleanupState :=
  | CleanupStateUnknown | CleanupStateNotFound | CleanupStateRunning | CleanupStateSucceeded.

Definition generateCleaningJobName (bdName : string) : string := JobNamePrefix +:+ bdName.
Definition GetNodeName (bd : apis.BlockDevice) : string := apis.NodeName (apis.NodeAttributes (apis.Spec bd)).

Definition getVolumeMounts (hostPath mountPath mountName : string) : batchv1.Volume * batchv1.VolumeMount :=
  (batchv1.MkVolume mountName hostPath, batchv1.MkVolumeMount mountName mountPath).

(** A double quote, for the shell command. *)
Definition dquote : string := String (Ascii.ascii_of_nat 34) "".

(** The shell command that wipes a raw device at [path]. *)
Definition wipeCommand (path : string) : string :=
  "(pvs -o pv_name,vg_name|grep " +:+ path +:+ "|awk '{print $2}'" +:+
  "| xargs -I {} sh -c 'dmsetup info -c -o name --noheadings|grep ^{}- " +:+
  "| xargs -t -I {} dmsetup remove {} ') && " +:+
  "(fdisk -o Device -l " +:+ path +:+ " " +:+
  "| grep " +:+ dquote +:+ "^" +:+ path +:+ dquote +:+ " " +:+
  "| xargs -I '{}' wipefs -fa '{}') " +:+
  "&& wipefs -fa " +:+ path +:+ " ".

Definition NewCleanupJob (bd : apis.BlockDevice) (volMode : VolumeMode) (tolerations : list batchv1.Toleration)
    (namespace : string) : prog batchv1.Job :=
  let nodeName := map_get (apis.bd_labels bd) KubernetesHostNameLabel in
  let path := apis.Path (apis.Spec bd) in
  let devType := apis.DeviceType (apis.Details (apis.Spec bd)) in
  let mountName := "vol-mount" in
  image <- getCleanUpImage ;;
  let '(args, (volume, volumeMount)) :=
    match volMode with
    | VolumeModeBlock =>
        (wipeCommand path +:+
           (if decide (devType = blockdevice.BlockDeviceTypeDisk) then "&& partprobe " +:+ path +:+ " " else ""),
         if decide (devType = blockdevice.SparseBlockDeviceType)
         then getVolumeMounts path path mountName
         else getVolumeMounts "/dev" "/dev" mountName)
    | VolumeModeFileSystem =>
        ("find /tmp -mindepth 1 -maxdepth 1 -print0 | xargs -0 rm -rf",
         getVolumeMounts (apis.Mountpoint (apis.FileSystem (apis.Spec bd))) "/tmp" mountName)
    end in
  let container := batchv1.MkContainer JobContainerName image true ["/bin/sh"; "-c"] [args] [volumeMount] in
  serviceAccount <- getServiceAccount ;;
  secrets <- GetOpenEBSImagePullSecrets ;;
  let podSpec := batchv1.MkPodSpec [volume] tolerations serviceAccount [container]
                   (Some {[ KubernetesHostNameLabel := nodeName ]}) secrets "OnFailure" in
  let meta := metav1.empty_ObjectMetaT
    <| metav1.Name := generateCleaningJobName (apis.bd_name bd) |>
    <| metav1.Namespace := namespace |>
    <| metav1.Labels := Some (<[BDLabel := apis.bd_name bd]> {[ KubernetesHostNameLabel := nodeName ]}) |> in
  Ret (batchv1.MkJob meta podSpec 0).

Definition IsCleaningJobRunning (namespace bdName : string) : prog bool :=
  job <- call (JobGet namespace (generateCleaningJobName bdName)) ;;
  match job with
  | inl e => Ret (negb (IsNotFound e))
  | inr job => Ret (bool_decide (batchv1.Succeeded job <= 0)%Z)
  end.

(** CancelJob ignores the error of its Get: the deletion then names an empty job. *)
Definition CancelJob (namespace bdName : string) : prog (option err) :=
  job <- call (JobGet namespace (generateCleaningJobName bdName)) ;;
  let meta := match job with inr job => batchv1.JobMeta job | inl _ => metav1.empty_ObjectMetaT end in
  r <- call (JobDelete (metav1.Namespace meta) (metav1.Name meta)) ;;
  Ret (match r with inl e => Some e | inr _ => None end).

Definition RemoveJob (namespace bdName : string) : prog (CleanupState * option err) :=
  job <- call (JobGet namespace (generateCleaningJobName bdName)) ;;
  match job with
  | inl e => Ret (if IsNotFound e then (CleanupStateNotFound, None) else (CleanupStateUnknown, Some e))
  | inr job =>
      if decide (batchv1.Succeeded job = 0)%Z then Ret (CleanupStateRunning, None)
      else
        e <- CancelJob namespace bdName ;;
        Ret (match e with Some e => (CleanupStateUnknown, Some e) | None => (CleanupStateSucceeded, None) end)
  end.

(** ** cleaner.go *)

Definition getTolerationsForTaints (taints : list batchv1.Taint) : list batchv1.Toleration :=
  map (fun t =>
    if decide (String.length (batchv1.TaintValue t) = 0)
    then batchv1.MkToleration (batchv1.TaintKey t) "Exists" "" (batchv1.TaintEffect t)
    else batchv1.MkToleration (batchv1.TaintKey t) "Equal" (batchv1.TaintValue t) (batchv1.TaintEffect t)) taints.

Definition getVolumeMode (spec : apis.DeviceSpec) : VolumeMode :=
  if decide (apis.Mountpoint (apis.FileSystem spec) <> "") then VolumeModeFileSystem else VolumeModeBlock.

Definition getNodeObjectByNodeName (nodeName : string) : prog (res batchv1.Node) := call (NodeGet nodeName).

Definition runJob (namespace : string) (bd : apis.BlockDevice) (volumeMode : VolumeMode) : prog (option err) :=
  selectedNode <- getNodeObjectByNodeName (GetNodeName bd) ;;
  match selectedNode with
  | inl e => Ret (Some e)
  | inr node =>
      job <- NewCleanupJob bd volumeMode (getTolerationsForTaints (batchv1.Taints node)) namespace ;;
      r <- call (JobCreate job) ;;
      Ret (match r with inl e => Some e | inr _ => None end)
  end.

Definition Clean (namespace : string) (blockDevice : apis.BlockDevice) : prog (bool * option err) :=
  let bdName := apis.bd_name blockDevice in
  let active := bool_decide (apis.bd_state blockDevice = apis.BlockDeviceActive) in
  inProgress <- IsCleaningJobRunning namespace bdName ;;
  if inProgress : bool then
    if negb active then
      e <- CancelJob namespace bdName ;; Ret (false, e)
    else Ret (false, None)
  else
    '(state, e) <- RemoveJob namespace bdName ;;
    match e with
    | Some _ => Ret (false, None)
    | None =>
        let start := e <- runJob namespace blockDevice (getVolumeMode (apis.Spec blockDevice)) ;; Ret (false, e) in
        match state with
        | CleanupStateSucceeded => Ret (true, None)
        | CleanupStateNotFound => if negb active then Ret (false, None) else start
        | _ => start
        end
    end.
