(* ===== verification/ClaimController.v ===== *)
(** * pkg/controllers/blockdeviceclaim

    The reconciliation of a block device claim: claiming a device for a pending claim,
    releasing it when the claim is deleted.  Event recording and logging have no effect
    on the resources and are left out. *)

From Stdlib Require Import ZArith Lia.
From stdpp Require Import base list strings gmap.
From S2P Require Import Prelude GoStrings Types Prog Util K8sLib Controller Select Lifecycle.

Local Open Scope string_scope.
Local Open Scope prog_scope.

Definition bdcReconcileDisabled (bdc : apis.BlockDeviceClaim) : bool :=
  bool_decide (map_get (metav1.Annotations (apis.CObjectMeta bdc)) OpenEBSReconcile = "false").

Definition generateSelector (bdc : apis.BlockDeviceClaim) : metav1.LabelSelector :=
  let spec := apis.CSpec bdc in
  let hostName := if decide (String.length (apis.ClaimHostName spec) <> 0) then apis.ClaimHostName spec else "" in
  let hostName :=
    if decide (String.length (apis.BDHostName (apis.ClaimNodeAttributes spec)) <> 0)
    then apis.BDHostName (apis.ClaimNodeAttributes spec) else hostName in
  let selector := default metav1.empty_LabelSelector (apis.Selector spec) in
  let labels := default ∅ (metav1.MatchLabels selector) in
  selector <| metav1.MatchLabels :=
    Some (if decide (String.length hostName <> 0) then <[KubernetesHostNameLabel := hostName]> labels else labels) |>.

(** The fields of a claim that its reconciliation writes. *)
Definition set_phase (p : string) (c : apis.BlockDeviceClaim) : apis.BlockDeviceClaim := c <| apis.Phase := p |>.
Definition set_bdname (n : string) (c : apis.BlockDeviceClaim) : apis.BlockDeviceClaim :=
  c <| apis.CSpec ::= fun s => s <| apis.BlockDeviceName := n |> |>.
Definition set_finalizers (f : list string) (c : apis.BlockDeviceClaim) : apis.BlockDeviceClaim :=
  c <| apis.CObjectMeta ::= fun m => m <| metav1.Finalizers := f |> |>.

Section Reconcile.
Context `{K8sLib}.

Definition updateClaimStatus (phase : string) (instance : apis.BlockDeviceClaim) : prog (option err) :=
  let instance :=
    if decide (phase = apis.BlockDeviceClaimStatusDone)
    then set_finalizers (apis.bdc_finalizers instance ++ [BlockDeviceClaimFinalizer])%list instance
    else instance in
  r <- call (BDCUpdate instance) ;;
  Ret (match r with inl _ => Some (Err "error updating status of BDC") | inr _ => None end).

Definition getListofDevices (selector : metav1.LabelSelector) : prog (res (list apis.BlockDevice)) :=
  match LabelSelectorAsSelector selector with
  | inl e => Ret (inl e)
  | inr sel => call (BDList None sel)
  end.

Definition claimed (ref : metav1.ObjectReference) (bd : apis.BlockDevice) : apis.BlockDevice :=
  bd <| apis.ObjectMeta ::= fun m => m <| metav1.Finalizers ::= fun f => (f ++ [BlockDeviceFinalizer])%list |> |>
     <| apis.Spec ::= fun s => s <| apis.ClaimRef := Some ref |> |>
     <| apis.Status ::= fun s => s <| apis.ClaimState := apis.BlockDeviceClaimed |> |>.

Definition claimBlockDevice (bd : apis.BlockDevice) (instance : apis.BlockDeviceClaim) : prog (option err) :=
  match GetReference instance with
  | inl _ => Ret (Some (Err "error getting claim reference for BDC"))
  | inr claimRef =>
      r <- call (BDUpdate (claimed claimRef bd)) ;;
      Ret (match r with inl _ => Some (Err "error while updating BD") | inr _ => None end)
  end.

Definition claimDeviceForBlockDeviceClaim (instance : apis.BlockDeviceClaim) : prog (option err) :=
  let config := NewConfig (apis.CSpec instance) in
  match (if ManualSelection config then inr 0%Z else GetRequestedCapacity (apis.Requests (apis.CSpec instance))) with
  | inl e =>
      e1 <- updateClaimStatus apis.BlockDeviceClaimStatusPending
              (set_phase apis.BlockDeviceClaimStatusPending instance) ;;
      Ret (Some (match e1 with Some e1 => e1 | None => e end))
  | inr _ =>
      bdList <- getListofDevices (generateSelector instance) ;;
      match bdList with
      | inl e => Ret (Some e)
      | inr bdList =>
          match Filter config bdList with
          | inl _ =>
              updateClaimStatus apis.BlockDeviceClaimStatusPending
                (set_phase apis.BlockDeviceClaimStatusPending instance)
          | inr selectedDevice =>
              let instance := set_phase apis.BlockDeviceClaimStatusDone
                                (set_bdname (apis.bd_name selectedDevice) instance) in
              e <- claimBlockDevice selectedDevice instance ;;
              match e with
              | Some e => Ret (Some e)
              | None => updateClaimStatus apis.BlockDeviceClaimStatusDone instance
              end
          end
      end
  end.

(** [None] where the nil claim reference of a device marked as claimed is read. *)
Definition isDeviceRequestedByThisDeviceClaim (instance : apis.BlockDeviceClaim) (item : apis.BlockDevice)
    : option bool :=
  if decide (apis.bd_claimstate item <> apis.BlockDeviceClaimed) then Some false
  else match apis.bd_claimref item with
       | None => None
       | Some ref =>
           Some (bool_decide (metav1.RefName ref = apis.bdc_name instance) &&
                 bool_decide (metav1.RefUID ref = metav1.UID (apis.CObjectMeta instance)) &&
                 bool_decide (metav1.RefKind ref = metav1.Kind (apis.CTypeMeta instance)))
       end.

(** The first device claimed by this claim; the outer [None] is a panic. *)
Fixpoint findClaimed (instance : apis.BlockDeviceClaim) (l : list apis.BlockDevice)
    : option (option apis.BlockDevice) :=
  match l with
  | [] => Some None
  | item :: l =>
      match isDeviceRequestedByThisDeviceClaim instance item with
      | None => None
      | Some true => Some (Some item)
      | Some false => findClaimed instance l
      end
  end.

Definition released (bd : apis.BlockDevice) : apis.BlockDevice :=
  bd <| apis.Spec ::= fun s => s <| apis.ClaimRef := None |> |>
     <| apis.Status ::= fun s => s <| apis.ClaimState := apis.BlockDeviceReleased |> |>.

Definition releaseClaimedBlockDevice (instance : apis.BlockDeviceClaim) : prog (option err) :=
  bdList <- getListofDevices metav1.empty_LabelSelector ;;
  match bdList with
  | inl e => Ret (Some e)
  | inr bdList =>
      match findClaimed instance bdList with
      | None => Panic "invalid memory address or nil pointer dereference"
      | Some None => Ret (Some (Err "blockdevice not found for releasing"))
      | Some (Some claimedBd) =>
          r <- call (BDUpdate (released claimedBd)) ;;
          Ret (match r with inl e => Some e | inr _ => None end)
      end
  end.

Definition FinalizerHandling (instance : apis.BlockDeviceClaim) : prog (option err) :=
  match metav1.DeletionTimestamp (apis.CObjectMeta instance) with
  | None => Ret None
  | Some _ =>
      if bool_decide (length (apis.bdc_finalizers instance) = 1) &&
         Contains (apis.bdc_finalizers instance) BlockDeviceClaimFinalizer then
        e <- releaseClaimedBlockDevice instance ;;
        match e with
        | Some e => Ret (Some e)
        | None =>
            r <- call (BDCUpdate (set_finalizers
                   (RemoveString (apis.bdc_finalizers instance) BlockDeviceClaimFinalizer) instance)) ;;
            Ret (match r with inl e => Some e | inr _ => None end)
        end
      else Ret None
  end.

(** Reconcile; [None] is a result without error, which is not requeued. *)
Definition ReconcileClaim (namespace name : string) : prog (option err) :=
  r <- call (BDCGet namespace name) ;;
  match r with
  | inl e => Ret (if IsNotFound e then None else Some e)
  | inr instance =>
      if bdcReconcileDisabled instance then Ret None
      else if decide (apis.Phase instance = apis.BlockDeviceClaimStatusPending \/
                      apis.Phase instance = apis.BlockDeviceClaimStatusEmpty) then
        match metav1.DeletionTimestamp (apis.CObjectMeta instance) with
        | None => claimDeviceForBlockDeviceClaim instance
        | Some _ => Ret None
        end
      else if decide (apis.Phase instance = apis.BlockDeviceClaimStatusInvalidCapacity) then
        updateClaimStatus apis.BlockDeviceClaimStatusPending
          (set_phase apis.BlockDeviceClaimStatusPending instance) ;;;
        Ret None
      else if decide (apis.Phase instance = apis.BlockDeviceClaimStatusDone) then FinalizerHandling instance
      else Ret None
  end.
End Reconcile.
