(* ===== verification/DeviceController.v ===== *)
(** * pkg/controllers/blockdevice

    The reconciliation of a block device: cleaning a released device and freeing it,
    protecting a claimed one. *)

From Stdlib Require Import ZArith Lia.
From stdpp Require Import base list strings gmap.
From S2P Require Import Prelude GoStrings Types Prog Util K8sLib Controller Cleaner Lifecycle.

Local Open Scope string_scope.
Local Open Scope prog_scope.

Definition bdReconcileDisabled (bd : apis.BlockDevice) : bool :=
  bool_decide (map_get (apis.bd_annotations bd) OpenEBSReconcile = "false").

Definition set_bd_finalizers (f : list string) (bd : apis.BlockDevice) : apis.BlockDevice :=
  bd <| apis.ObjectMeta ::= fun m => m <| metav1.Finalizers := f |> |>.
Definition set_claimstate (s : string) (bd : apis.BlockDevice) : apis.BlockDevice :=
  bd <| apis.Status ::= fun st => st <| apis.ClaimState := s |> |>.

Definition updateBDStatus (state : string) (instance : apis.BlockDevice) : prog (option err) :=
  r <- call (BDUpdate (set_claimstate state instance)) ;;
  Ret (match r with inl e => Some e | inr _ => None end).

(** Errors of the cleanup and of the updates are logged and not returned. *)
Definition ReconcileDevice (namespace name : string) : prog (option err) :=
  r <- call (BDGet namespace name) ;;
  match r with
  | inl e => Ret (if IsNotFound e then None else Some e)
  | inr instance =>
      let finalizers := metav1.Finalizers (apis.ObjectMeta instance) in
      if bdReconcileDisabled instance then Ret None
      else if decide (apis.bd_claimstate instance = apis.BlockDeviceReleased) then
        '(ok, e) <- Clean namespace instance ;;
        match e with
        | Some _ => Ret None
        | None =>
            if ok : bool then
              let instance := set_bd_finalizers (RemoveString finalizers BlockDeviceFinalizer) instance in
              updateBDStatus apis.BlockDeviceUnclaimed instance ;;; Ret None
            else Ret None
        end
      else if decide (apis.bd_claimstate instance = apis.BlockDeviceClaimed) then
        if negb (Contains finalizers BlockDeviceFinalizer) then
          call (BDUpdate (set_bd_finalizers (finalizers ++ [BlockDeviceFinalizer])%list instance)) ;;; Ret None
        else Ret None
      else Ret None
  end.
