(* ===== verification/Manager.v ===== *)
(** * The process of the operator

    cmd/manager/main.go: how the operator starts.  The manager and what it does with the
    reconcilers are of controller-runtime; their calls are answered by the environment. *)

From Stdlib Require Import ZArith.
From stdpp Require Import base list strings gmap.
From S2P Require Import Prelude Types Prog Cleaner.

Local Open Scope string_scope.
Local Open Scope prog_scope.

Module manager.

(** SetupWithManager of the two reconcilers *)
Definition ClaimSetupWithManager : prog (res unit) := call (SetupController "BlockDeviceClaim").
Definition DeviceSetupWithManager : prog (res unit) := call (SetupController "BlockDevice").

(** Goes on unless there is an error, with which the process exits *)
Definition orExit (p : prog (res unit)) (k : prog Z) : prog Z :=
  r <- p ;; match r with inl _ => Ret 1%Z | inr _ => k end.

(** main; the status with which the process exits *)
Definition main : prog Z :=
  ns <- GetWatchNamespace ;;
  match ns with
  | inl _ => Ret 1%Z
  | inr ns =>
      orExit (call GetConfig)
      (orExit (call (NewManager ns))
      (orExit ClaimSetupWithManager
      (orExit DeviceSetupWithManager
      (orExit (call (AddCheck "healthz"))
      (orExit (call (AddCheck "readyz"))
      (orExit (call ManagerStart) (Ret 0%Z)))))))
  end.
End manager.

(** What the process has set up so far, in this order *)
Definition main_steps : list string := ["manager"; "BlockDeviceClaim"; "BlockDevice"; "healthz"; "readyz"].
Definition set_up (K : list string) X (e : callE X) : X -> list string :=
  match e in callE X return X -> list string with
  | NewManager ns => fun r => if r then K else (K ++ ["manager"])%list
  | SetupController n => fun r => if r then K else (K ++ [n])%list
  | AddCheck n => fun r => if r then K else (K ++ [n])%list
  | _ => fun _ => K
  end.

(** The manager gets the watched namespace, which is not empty, and is started when
    everything else succeeded and not before. *)
Definition main_protocol : protocol := {|
  know := list string;
  may K X e :=
    match e with
    | NewManager ns => ns <> ""
    | ManagerStart => K = main_steps
    | _ => True
    end;
  says _ X e x := True;
  learn := set_up;
  panics := false
|}.

Lemma main_starts : wp main_protocol [] manager.main (fun K status => status = 0%Z -> K = main_steps).
Proof.
  unfold manager.main, GetWatchNamespace, env_get. cbn. split; [done|]. intros v _.
  case_decide as Hl; cbn; [done|].
  repeat match goal with
  | |- _ /\ forall x : res unit, _ => split; [done || (intros Hn; by rewrite Hn in Hl)|intros [?|[]] _; cbn; [done|]]
  end. done.
Qed.
