(* ===== verification/Process.v ===== *)
(** * The processes of the daemon and of the exporter

    cmd/ndm_daemonset (main.go, app/command, grpc/api.go) and cmd/ndm-exporter with
    pkg/server: what the processes run and with which status they exit.  The listeners and
    servers are of net, net/http and grpc; their calls are answered by the environment.
    Command lines are cobra's: the values of the flags are arguments. *)

From Stdlib Require Import ZArith.
From stdpp Require Import base list strings gmap.
From S2P Require Import Prelude Types Features Prog K8sLib Controller Store Mount Filters Sysfs Smart Probes Exporter Lifecycle DaemonSafe Daemon Boot NodeApi Manager.

Local Open Scope string_scope.
Local Open Scope prog_scope.

(** ** grpc/api.go *)

Module grpc.
Definition IP := "0.0.0.0".
Definition Port := "9115".
Definition DefaultAddress := IP +:+ ":" +:+ Port.

(** Start, in a goroutine of the daemon; the status if it makes the process exit.  The
    services it registers are those of NodeApi. *)
Definition Start (Address : string) : prog (option Z) :=
  l <- call (Listen Address) ;;
  match l with
  | inl _ => Ret (Some 1%Z)
  | inr _ => call Serve ;;; Ret None
  end.
End grpc.

(** ** The daemon *)

Section Daemon.
Context `{K8sLib} (json_Valid : string -> bool)
  (json_Unmarshal yaml_Unmarshal : string -> res NodeDiskManagerConfig).

(** The goroutine of the API service that the start command makes *)
Definition apiService (gates : gmap string bool) (Address : string) : option (prog (option Z)) :=
  if features.IsEnabled gates features.APIService then Some (grpc.Start Address) else None.

(** The start command from PersistentPreRun to the end; the status of the process, and
    [None] when the fuel of the wait for the API server ran out *)
Definition startCommand (fuel : nat) (order flags : list string) (ConfigFilePath : string) (cancelled : bool)
    : prog (option Z) :=
  withFeatureGates order flags (fun gates =>
    ctrl <- start json_Valid json_Unmarshal yaml_Unmarshal fuel gates ConfigFilePath ;;
    match ctrl with
    | None => Ret None
    | Some (inl _) => Ret (Some 1%Z)
    | Some (inr ctrl) => Boot.Start ctrl cancelled ;;; Ret (Some 0%Z)
    end).
End Daemon.

(** ** pkg/server *)

Module server.
Record Server := MkServer { ListenPort : string; MetricsPath : string }.

(** Start, with the handler of the collector that was registered *)
Definition Start (s : Server) : prog (option err) :=
  e <- call (ListenAndServe (ListenPort s) (MetricsPath s)) ;;
  Ret (match e with inl e => Some e | inr _ => None end).
End server.

(** ** The exporter *)

Module exporterProcess.
Definition Port := ":9100".
Definition MetricsPath := "/metrics".

(** Exporter.Run *)
Definition Run (mode : string) (s : server.Server) : prog (option err) :=
  r <- exporter.Run mode ;;
  match r with
  | inl e => Ret (Some e)
  | inr _ => server.Start s
  end.

(** startCmd and main: util.CheckErr with util.Fatal *)
Definition main (mode : string) (s : server.Server) : prog Z :=
  e <- Run mode s ;;
  Ret (match e with Some _ => 1%Z | None => 0%Z end).
End exporterProcess.

(** ** What the processes do to the resources *)

(** Calls that write nothing to the API server *)
Definition harmless X (e : callE X) : bool :=
  match e with
  | BDCreate _ | BDUpdate _ | BDDelete _ _ | BDCUpdate _ | JobCreate _ | JobDelete _ _ => false
  | _ => true
  end.

Lemma harmless_safe {A} K (p : prog A) : uses harmless p -> wp_safe K p anything.
Proof. apply uses_wp; [done|]. intros K' X []; done. Qed.

Lemma host_harmless {A} (p : prog A) : uses host_only p -> uses harmless p.
Proof. apply uses_weaken. by intros X []. Qed.
#[export] Hint Resolve host_harmless : uses.

Lemma ListBlockDeviceResource_harmless c all : uses harmless (ListBlockDeviceResource c all).
Proof. unfold ListBlockDeviceResource. uses_solve. Qed.
#[export] Hint Resolve ListBlockDeviceResource_harmless : uses.

Lemma WaitForBlockDeviceCRD_harmless fuel c : uses harmless (WaitForBlockDeviceCRD fuel c).
Proof. induction fuel as [|fuel IH]; [done|]. cbn [WaitForBlockDeviceCRD]. unfold newClientSet. uses_solve. Qed.
#[export] Hint Resolve WaitForBlockDeviceCRD_harmless : uses.

Lemma NewController_harmless fuel gates : uses harmless (NewController fuel gates).
Proof. unfold NewController, getNamespace, newClientSet. uses_solve. Qed.
#[export] Hint Resolve NewController_harmless : uses.

Lemma SetControllerOptions_harmless jv ju yu cfg c : uses harmless (SetControllerOptions jv ju yu cfg c).
Proof. unfold SetControllerOptions, SetNDMConfig, setNodeAttributes, setNodeLabels, getNodeName. uses_solve. Qed.
#[export] Hint Resolve SetControllerOptions_harmless : uses.

Lemma getDeviceName_harmless path : uses harmless (mount.getDeviceName path).
Proof. unfold mount.getDeviceName, mount.index_panic. uses_solve. Qed.
#[export] Hint Resolve getDeviceName_harmless : uses.

Lemma getRootPartition_harmless : uses harmless mount.getRootPartition.
Proof. unfold mount.getRootPartition, mount.getCmdlineFile, mount.fileExists. uses_solve. Qed.
#[export] Hint Resolve getRootPartition_harmless : uses.

Lemma GetDiskPath_harmless gates m : uses harmless (mount.GetDiskPath gates m).
Proof.
  unfold mount.GetDiskPath, mount.getDeviceMountAttr, mount.scanMounts, mount.scanLine, mount.getPartitionName,
    mount.getPartitionDevPath, mount.getSoftLinkForPartition, mount.fileExists, mount.index_panic. cbv zeta. uses_solve.
Qed.
#[export] Hint Resolve GetDiskPath_harmless : uses.

Lemma osDiskStart_harmless gates mountPoints : uses harmless (filter.osDiskStart gates mountPoints).
Proof. unfold filter.osDiskStart. uses_solve. Qed.
#[export] Hint Resolve osDiskStart_harmless : uses.

Lemma daemonStart_harmless c : uses harmless (daemonStart c).
Proof.
  unfold daemonStart, filter.Start, filter.oSDiskExcludeFilterRegister, probe.Start, probe.customTagProbeRegister,
    customTagProbe.newTags.
  uses_solve.
Qed.
#[export] Hint Resolve daemonStart_harmless : uses.

Lemma start_harmless jv ju yu fuel gates cfg : uses harmless (start jv ju yu fuel gates cfg).
Proof. unfold start. uses_solve. Qed.

(** The daemon, from its command line to the signal that ends it, writes to the API server
    what the life cycle allows. *)
Lemma InitializeSparseFiles_keeps `{K8sLib} K c : wp_safe K (InitializeSparseFiles c) anything.
Proof.
  unfold InitializeSparseFiles. eapply wp_bind_any; [apply harmless_safe; unfold GetSparseFileDir, Getenv; uses_solve|].
  intros K1 dir _. eapply wp_bind_any; [apply harmless_safe; unfold GetSparseFileSize, Getenv; uses_solve|].
  intros K2 size _. eapply wp_bind_any; [apply harmless_safe; unfold GetSparseFileCount, Getenv; uses_solve|].
  intros K3 count _. case_decide; [done|]. apply (wp_for_each (ndm_protocol true) anything); [|done].
  clear. intros K [] i _ _. eapply wp_bind_any; [apply harmless_safe; unfold CheckAndCreateSparseFile; uses_solve|].
  intros K1 [e|] _; [done|]. by apply MarkSparse_safe.
Qed.

Lemma startCommand_safe `{K8sLib} jv ju yu K fuel order flags cfg cancelled :
  wp_safe K (startCommand jv ju yu fuel order flags cfg cancelled) anything.
Proof.
  unfold startCommand, withFeatureGates. destruct (features.SetFeatureFlag _ _ _) as [gates [e|]]; [done|].
  eapply wp_bind_any; [apply harmless_safe, start_harmless|]. intros K1 [[e|c]|] _; [done| |done].
  unfold Boot.Start. eapply wp_bind_any; [|done].
  eapply wp_bind_any; [apply InitializeSparseFiles_keeps|]. intros K2 _ _. unfold Boot.run.
  destruct cancelled; [done|]. eapply wp_bind_any; [|by intros ? [] ?]. eapply wp_bind_any; [by apply MarkUnknown_safe|done].
Qed.

(** *** The node service *)

Lemma requestController_harmless jv ju yu fuel gates : uses harmless (services.requestController jv ju yu fuel gates).
Proof. unfold services.requestController. uses_solve. Qed.
#[export] Hint Resolve requestController_harmless : uses.

Lemma GetDependents_harmless d : uses harmless (sysfs.GetDependents d).
Proof. unfold sysfs.GetDependents, sysfs.getPartitions, sysfs.getHolders, sysfs.getSlaves, sysfs.entriesOf. uses_solve. Qed.
#[export] Hint Resolve GetDependents_harmless sysfs_device_host : uses.

Lemma ListBlockDevices_harmless jv ju yu fuel gates : uses harmless (services.ListBlockDevices jv ju yu fuel gates).
Proof. unfold services.ListBlockDevices, services.GetAllTypes, services.addType. uses_solve. Qed.

Lemma NodeRescan_safe jv ju yu K fuel gates acquired :
  wp_safe K (services.Rescan jv ju yu fuel gates acquired) anything.
Proof.
  unfold services.Rescan. eapply wp_bind_any; [apply harmless_safe, requestController_harmless|].
  intros K1 [[e|c]|] _; [done| |done]. eapply wp_bind_any; [apply Rescan_safe|done].
Qed.

(** *** The exporter *)

Lemma Run_harmless mode s : uses harmless (exporterProcess.Run mode s).
Proof.
  unfold exporterProcess.Run, exporter.Run, kubernetes.New, kubernetes.setNamespace, kubernetes.InitClient,
    kubernetes.RegisterAPI, server.Start. uses_solve.
Qed.

Lemma setVec_harmless v l x : uses harmless (setVec v l x).
Proof. by destruct v. Qed.
Lemma touchVec_harmless v l : uses harmless (touchVec v l).
Proof. by destruct v. Qed.
Lemma inc_harmless c : uses harmless (inc c).
Proof. by destruct c. Qed.
Lemma emitAll_harmless cs : uses harmless (emitAll cs).
Proof. unfold emitAll, emit, nil_panic. uses_solve. Qed.
#[export] Hint Resolve setVec_harmless touchVec_harmless inc_harmless emitAll_harmless : uses.

Lemma getSeachestData_harmless path : uses harmless (seachestCollector.getSeachestData path).
Proof.
  unfold seachestCollector.getSeachestData, seachest.SeachestBasicDiskInfo, seachest.closeDevice, seachest.seachestError.
  uses_solve.
Qed.
Lemma setOne_harmless m bd : uses harmless (seachestCollector.setOne m bd).
Proof.
  unfold seachestCollector.setOne. cbv zeta. repeat (apply uses_bind; [|intros ?]); uses_solve.
Qed.
Lemma fail_harmless c c' : uses harmless (staticCollector.fail c) /\ uses harmless (seachestCollector.fail c').
Proof.
  unfold staticCollector.fail, seachestCollector.fail, failed, static.IncErrorRequestCounter,
    smartmetrics.IncErrorRequestCounter. split; uses_solve.
Qed.
#[export] Hint Resolve getSeachestData_harmless setOne_harmless : uses.
#[export] Hint Extern 1 (uses harmless (staticCollector.fail _)) => apply fail_harmless : uses.
#[export] Hint Extern 1 (uses harmless (seachestCollector.fail _)) => apply fail_harmless : uses.

Lemma collect_harmless c c' :
  uses harmless (staticCollector.Collect c) /\ uses harmless (seachestCollector.Collect c').
Proof.
  unfold staticCollector.Collect, seachestCollector.Collect, collectWith, collectEnter, staticCollector.body,
    seachestCollector.body, kubernetes.InitClient, kubernetes.ListBlockDevice, static.SetMetrics,
    seachestCollector.getMetricData, seachestCollector.setMetricData, static.IncRejectRequestCounter,
    smartmetrics.IncRejectRequestCounter.
  split; uses_solve.
Qed.
