(* ===== verification/OperatorSafe.v ===== *)
(** * The operator follows the protocol

    The two reconcilers, for any answers of the API server, never panic and make only
    the writes [ndm_protocol] allows: a claim is a transition of a free and active
    device, a release is made by the holder, a device is freed only after a cleanup job
    for it has been seen to succeed, a claim is bound only after a device was claimed
    for it. *)

From Stdlib Require Import ZArith Lia.
From stdpp Require Import base list strings gmap.
From S2P Require Import Prelude GoStrings Types Prog Util K8sLib Controller Select Cleaner Lifecycle ClaimController DeviceController.

Local Open Scope string_scope.

(** What the search for the claimed device finds. *)
Lemma findClaimed_spec c l :
  (forall b, b ∈ l -> wf_bd b) ->
  exists r, findClaimed c l = Some r /\ forall b, r = Some b ->
    b ∈ l /\ apis.bd_claimstate b = apis.BlockDeviceClaimed /\
    exists ref, apis.bd_claimref b = Some ref /\ metav1.RefName ref = apis.bdc_name c /\
      metav1.RefUID ref = metav1.UID (apis.CObjectMeta c).
Proof.
  induction l as [|b l IH]; intros Hwf; [by exists None|]. cbn [findClaimed].
  destruct IH as (r & Hr & Hspec); [set_solver|].
  assert (Hrec : exists r', findClaimed c l = Some r' /\ forall b', r' = Some b' -> b' ∈ b :: l /\ _)
    by (exists r; split; [done|]; intros b' ->; destruct (Hspec b' eq_refl) as [? Hx]; split; [by right|exact Hx]).
  unfold isDeviceRequestedByThisDeviceClaim. case_decide as Hst; [done|].
  destruct (apis.bd_claimref b) as [ref|] eqn:Href.
  - destruct (_ && _) eqn:Hm; [|done].
    repeat (apply andb_true_iff in Hm as [Hm ?]).
    repeat match goal with Hx : bool_decide _ = true |- _ => apply bool_decide_eq_true in Hx end.
    exists (Some b). split; [done|]. intros b' [= <-]. split; [left|]. eauto.
  - exfalso. assert (is_Some (apis.bd_claimref b)) as [? Hs] by (apply Hwf; [left|done]). congruence.
Qed.

Section Operator.
Context `{K8sLib, !ReferenceLaws}.

Lemma finalizers_single (l : list string) f :
  bool_decide (length l = 1) && Contains l f = true -> l = [f].
Proof.
  rewrite andb_true_iff, bool_decide_eq_true, Contains_elem. intros [Hl Hf].
  destruct l as [|x [|]]; cbn in Hl; [lia| |lia]. apply list_elem_of_singleton in Hf. by subst.
Qed.

(** Writing a claim that was read back as pending. *)
Lemma pending_safe K c :
  c ∈ read_bdc K -> apis.Phase c <> apis.BlockDeviceClaimStatusDone ->
  wp_total K (updateClaimStatus apis.BlockDeviceClaimStatusPending
    (set_phase apis.BlockDeviceClaimStatusPending c)) anything.
Proof.
  intros Hc Hp. unfold updateClaimStatus. rewrite decide_False by done.
  apply wp_call; [|done]. exists c. repeat split; [done|]. by apply step_pending.
Qed.

Lemma getListofDevices_safe K sel :
  wp_total K (getListofDevices sel)
    (fun K' r => forall l b, r = inr l -> b ∈ l -> b ∈ read_bd K' /\ wf_bd b).
Proof.
  unfold getListofDevices. destruct (LabelSelectorAsSelector sel) as [e|s]; [done|].
  split; [done|]. intros x Hx l b -> Hb. split; [cbn; set_solver|by apply (Hx l)].
Qed.

Lemma claimBlockDevice_safe K c0 c b :
  c0 ∈ read_bdc K -> ~ deleting c0 ->
  apis.bdc_name c = apis.bdc_name c0 -> metav1.UID (apis.CObjectMeta c) = metav1.UID (apis.CObjectMeta c0) ->
  b ∈ read_bd K -> apis.bd_state b = NDMActive -> apis.bd_claimstate b = apis.BlockDeviceUnclaimed ->
  wp_total K (claimBlockDevice b c) (fun K' e => e = None ->
    exists ref, GetReference c = inr ref /\ claimed ref b ∈ wrote_bd K').
Proof.
  intros Hc0 Hdel Hn Hu Hb Hact Hun. unfold claimBlockDevice.
  destruct (GetReference c) as [e|ref] eqn:Href; [done|].
  apply wp_call.
  - exists b. repeat split; [done|]. eapply (step_claim _ _ _ c0 ref); try done.
    + unfold phase_of. by rewrite decide_True.
    + by rewrite (GetReference_name _ _ Href).
    + by rewrite (GetReference_uid _ _ Href).
    + unfold protected. cbn. set_solver.
  - intros x _ _. destruct x as [e|b']; [done|]. intros _. exists ref. split; [done|]. cbn. left.
Qed.

Lemma claimDevice_safe K c :
  c ∈ read_bdc K -> ~ deleting c -> apis.Phase c <> apis.BlockDeviceClaimStatusDone ->
  wp_total K (claimDeviceForBlockDeviceClaim c) anything.
Proof.
  intros Hc Hdel Hph. unfold claimDeviceForBlockDeviceClaim.
  destruct (if ManualSelection _ then _ else _).
  { eapply wp_bind_any; [by apply pending_safe|done]. }
  eapply wp_bind_mono; [apply getListofDevices_safe|]. intros K1 r Hle1 Hr.
  assert (Hc1 : c ∈ read_bdc K1) by (by apply Hle1).
  destruct r as [e|l]; [done|].
  destruct (Select.Filter _ l) as [e|b] eqn:Hf; [by apply pending_safe|].
  apply Filter_eligible in Hf as [Hb [Hact Hun]%eligible_base].
  destruct (Hr l b eq_refl Hb) as [Hb1 _].
  eapply wp_bind_mono.
  { by eapply (claimBlockDevice_safe K1 c). }
  intros K2 e Hle2 He. destruct e as [e|]; [done|]. destruct (He eq_refl) as (ref & Href & Hw).
  unfold updateClaimStatus. rewrite decide_True by done. apply wp_call; [|done].
  exists c. repeat split; [by apply Hle2|].
  eapply (step_bind _ _ _ (claimed ref b) ref); try done.
  - unfold protected. cbn. set_solver.
  - by rewrite (GetReference_name _ _ Href).
  - by rewrite (GetReference_uid _ _ Href).
  - unfold apis.bdc_finalizers. cbn. set_solver.
Qed.

Lemma release_safe K c :
  c ∈ read_bdc K -> deleting c -> apis.bdc_finalizers c = [BlockDeviceClaimFinalizer] ->
  wp_total K (releaseClaimedBlockDevice c)
    (fun K' e => e = None -> exists b, released b ∈ wrote_bd K').
Proof.
  intros Hc Hdel Hfin. unfold releaseClaimedBlockDevice.
  eapply wp_bind_mono; [apply getListofDevices_safe|]. intros K1 r Hle1 Hr.
  destruct r as [e|l]; [done|].
  destruct (findClaimed_spec c l) as (r & -> & Hspec); [intros b Hb; by apply (Hr l b eq_refl)|].
  destruct r as [b|]; [|done].
  destruct (Hspec b eq_refl) as (Hb & Hst & ref & Href & Hn & Hu).
  apply wp_call.
  - exists b. repeat split; [by apply (Hr l b)|].
    eapply (step_release _ _ _ c ref); try done. by apply Hle1.
  - intros x _ _. destruct x; [done|]. intros _. exists b. cbn. left.
Qed.

Lemma ReconcileClaim_safe K ns name : wp_total K (ReconcileClaim ns name) anything.
Proof.
  unfold ReconcileClaim. apply wp_call; [done|]. intros [e|c] _ _; [done|].
  set (K1 := ndm_learn _ _ _ _). assert (Hc : c ∈ read_bdc K1) by (cbn; left).
  clearbody K1. destruct (bdcReconcileDisabled c); [done|].
  case_decide as Hpend.
  { assert (apis.Phase c <> apis.BlockDeviceClaimStatusDone) by (by destruct Hpend as [-> | ->]).
    destruct (metav1.DeletionTimestamp _) eqn:Hd; [done|].
    apply claimDevice_safe; [done| |done]. unfold deleting. rewrite Hd. by intros [? ?]. }
  case_decide as Hinv.
  { eapply wp_bind_any; [apply pending_safe; [done|]|done]. by rewrite Hinv. }
  case_decide as Hdone; [|done]. unfold FinalizerHandling.
  destruct (metav1.DeletionTimestamp _) as [t|] eqn:Hd; [|done].
  destruct (bool_decide _ && _) eqn:Hf; [|done]. apply finalizers_single in Hf.
  assert (Hdel : deleting c) by (unfold deleting; rewrite Hd; eauto).
  eapply wp_bind_mono; [by apply release_safe|]. intros K2 e Hle2 He.
  destruct e as [e|]; [done|]. destruct (He eq_refl) as (b & Hb).
  apply wp_call; [|done]. exists c. repeat split; [by apply Hle2|].
  eapply (step_unprotect _ _ _ (released b)); try done.
  cbn. rewrite Hf. done.
Qed.

(** *** Devices *)

Lemma env_get_safe K n : wp_total K (env_get n) anything.
Proof. split; done. Qed.

Lemma NewCleanupJob_safe K bd m t ns : wp_total K (NewCleanupJob bd m t ns) anything.
Proof.
  unfold NewCleanupJob. eapply wp_bind_any; [by split|]. intros K1 image _.
  destruct (match m with VolumeModeBlock => _ | VolumeModeFileSystem => _ end) as [args [v vm]].
  eapply wp_bind_any; [by split|]. intros K2 sa _. eapply wp_bind_any; [|done].
  unfold GetOpenEBSImagePullSecrets. eapply wp_bind_any; [by split|]. intros. by case_decide.
Qed.

Lemma runJob_safe K ns bd m : wp_total K (runJob ns bd m) anything.
Proof.
  unfold runJob. apply wp_call; [done|]. intros [e|n] _ _; [done|].
  eapply wp_bind_any; [apply NewCleanupJob_safe|]. intros. by apply wp_call.
Qed.

Lemma CancelJob_safe K ns n : wp_total K (CancelJob ns n) anything.
Proof. unfold CancelJob. apply wp_call; [done|]. intros. by apply wp_call. Qed.

(** A device is reported clean only after its job was seen to succeed. *)
Lemma Clean_safe K ns bd :
  wp_total K (Clean ns bd) (fun K' r => r.1 = true ->
    exists job, (ns, "cleanup-" +:+ apis.bd_name bd, job) ∈ read_job K' /\ (0 < batchv1.Succeeded job)%Z).
Proof.
  unfold Clean. eapply wp_bind_any.
  { unfold IsCleaningJobRunning. apply wp_call; [done|]. by intros [e|j]. }
  intros K1 [] _.
  { case_match; [|done]. eapply wp_bind_any; [apply CancelJob_safe|done]. }
  unfold RemoveJob.
  eapply wp_bind_mono with (R := fun K' r => r.1 = CleanupStateSucceeded ->
    exists job, (ns, "cleanup-" +:+ apis.bd_name bd, job) ∈ read_job K' /\ (0 < batchv1.Succeeded job)%Z).
  - apply wp_call; [done|]. intros [e|j] Hj _; [by destruct (IsNotFound e)|].
    destruct (Hj j eq_refl) as [Hpos _]. case_decide as Hz; [done|].
    eapply wp_bind_mono; [apply CancelJob_safe|]. intros K2 e Hle _.
    destruct e; [done|]. intros _. exists j. split; [|lia]. apply Hle. cbn. left.
  - intros K2 [st e] _ Hst. destruct e; [done|]. destruct st; try done.
    1, 3: eapply wp_bind_any; [apply runJob_safe|done].
    + case_match; [done|]. eapply wp_bind_any; [apply runJob_safe|done].
    + intros _. by apply Hst.
Qed.

Lemma ReconcileDevice_safe K ns name : wp_total K (ReconcileDevice ns name) anything.
Proof.
  unfold ReconcileDevice. apply wp_call; [done|]. intros [e|b] Hb _; [done|].
  set (K1 := ndm_learn _ _ _ _). assert (Hb1 : b ∈ read_bd K1) by (cbn; left).
  clearbody K1. destruct (bdReconcileDisabled b); [done|].
  case_decide as Hrel.
  - eapply wp_bind_mono; [apply Clean_safe|]. intros K2 [ok e] Hle Hj.
    destruct e; [done|]. destruct ok; [|done]. destruct (Hj eq_refl) as (job & Hjob & Hsucc).
    eapply wp_bind_any; [|done]. apply wp_call; [|done].
    exists b. repeat split; [by apply Hle|]. eapply (step_clean _ _ _ ns job); try done.
    unfold phase_of. rewrite Hrel. done.
  - case_decide as Hcl; [|done]. destruct (negb _); [|done].
    apply wp_call; [|done]. exists b. repeat split; [done|]. by apply step_keep.
Qed.
End Operator.
