(* ===== verification/OperatorSpec.v ===== *)
(** * What the reconcilers do

    The functional behaviour of the two reconcilers, branch by branch, for any API
    server: [o] answers the calls, and a theorem says which calls are made, in which
    order, and what is returned. *)

From Stdlib Require Import ZArith Lia.
From stdpp Require Import base list strings gmap.
From S2P Require Import Prelude GoStrings Types Prog Util K8sLib Controller Select Cleaner Lifecycle ClaimController DeviceController OperatorSafe.

Local Open Scope string_scope.
Local Open Scope prog_scope.

Section Claim.
Context `{K8sLib} {W : Type} (o : oracle W).

(** The claim as it is written when device [b] was claimed for it. *)
Definition bound_to (b : apis.BlockDevice) (c : apis.BlockDeviceClaim) : apis.BlockDeviceClaim :=
  set_phase apis.BlockDeviceClaimStatusDone (set_bdname (apis.bd_name b) c).
Definition protected_bdc (c : apis.BlockDeviceClaim) : apis.BlockDeviceClaim :=
  set_finalizers (apis.bdc_finalizers c ++ [BlockDeviceClaimFinalizer])%list c.

(** A claim that is to be served: pending, not being deleted, reconciliation not
    disabled, with a capacity unless it names its device. *)
Definition servable (c : apis.BlockDeviceClaim) : Prop :=
  bdcReconcileDisabled c = false /\
  (apis.Phase c = apis.BlockDeviceClaimStatusPending \/ apis.Phase c = apis.BlockDeviceClaimStatusEmpty) /\
  metav1.DeletionTimestamp (apis.CObjectMeta c) = None /\
  (ManualSelection (NewConfig (apis.CSpec c)) = true \/
   exists cap, GetRequestedCapacity (apis.Requests (apis.CSpec c)) = inr cap).

(** Up to the selection, the reconciliation of such a claim reads the devices. *)
Lemma servable_selects c ns n w0 w1 w2 sel l :
  servable c -> o _ (BDCGet ns n) w0 = (w1, inr c) ->
  LabelSelectorAsSelector (generateSelector c) = inr sel -> o _ (BDList None sel) w1 = (w2, inr l) ->
  exec o (ReconcileClaim ns n) w0 =
  exec o (match Select.Filter (NewConfig (apis.CSpec c)) l with
          | inl _ => updateClaimStatus apis.BlockDeviceClaimStatusPending
                       (set_phase apis.BlockDeviceClaimStatusPending c)
          | inr b =>
              e <- claimBlockDevice b (bound_to b c) ;;
              match e with
              | Some e => Ret (Some e)
              | None => updateClaimStatus apis.BlockDeviceClaimStatusDone (bound_to b c)
              end
          end) w2.
Proof.
  intros (Hdis & Hph & Hdel & Hcap) Hget Hsel Hlist. unfold ReconcileClaim.
  rewrite (exec_call o _ _ _ _ _ Hget), Hdis, decide_True, Hdel by done.
  unfold claimDeviceForBlockDeviceClaim.
  destruct Hcap as [->|[cap Hc]]; [|rewrite Hc; destruct (ManualSelection _)];
    rewrite exec_bind; unfold getListofDevices; rewrite Hsel; cbn [exec call]; by rewrite Hlist.
Qed.

Lemma Filter_first c l b : find (eligible c) l = Some b -> Select.Filter c l = inr b.
Proof.
  intros Hf. pose proof (Filter_manual c l) as Hm. pose proof (Filter_auto c l) as Ha.
  unfold eligible in Hf. destruct (ManualSelection c); [rewrite Hf in Hm|rewrite Hf in Ha];
    destruct (Select.Filter c l); naive_solver.
Qed.

Lemma Filter_fails c l : find (eligible c) l = None -> exists e, Select.Filter c l = inl e.
Proof.
  intros Hf. pose proof (Filter_manual c l) as Hm. pose proof (Filter_auto c l) as Ha.
  unfold eligible in Hf. destruct (ManualSelection c); [rewrite Hf in Hm|rewrite Hf in Ha];
    destruct (Select.Filter c l); naive_solver.
Qed.

(** A claim by which device [b] of the list is held. *)
Definition held_by (c : apis.BlockDeviceClaim) (b : apis.BlockDevice) : Prop :=
  exists ref, apis.bd_claimref b = Some ref /\ metav1.RefName ref = apis.bdc_name c /\
    metav1.RefUID ref = metav1.UID (apis.CObjectMeta c).

Lemma findClaimed_none c l :
  (forall b, b ∈ l -> wf_bd b /\ ~ held_by c b) -> findClaimed c l = Some None.
Proof.
  intros Hl. destruct (findClaimed_spec c l) as (r & Hr & Hs); [intros b Hb; by apply Hl|].
  rewrite Hr. destruct r as [b|]; [|done]. destruct (Hs b eq_refl) as (Hb & _ & ref & ?).
  destruct (Hl b Hb) as [_ []]. by exists ref.
Qed.
End Claim.

(** C15. Serving a claim: if a pending claim that is not being deleted is reconciled,
    the list of matching devices has an eligible one and the two writes succeed, then
    exactly two writes are made, first the claiming of the first eligible device, then the
    binding of the claim to it (with the protection finalizer), and no error is
    returned. *)
Theorem ReconcileClaim_binds `{K8sLib} {W} (o : oracle W) ns n w0 w1 w2 w3 w4 c sel l b ref b' c' :
  servable c -> o _ (BDCGet ns n) w0 = (w1, inr c) ->
  LabelSelectorAsSelector (generateSelector c) = inr sel -> o _ (BDList None sel) w1 = (w2, inr l) ->
  find (eligible (NewConfig (apis.CSpec c))) l = Some b ->
  GetReference (bound_to b c) = inr ref ->
  o _ (BDUpdate (claimed ref b)) w2 = (w3, inr b') ->
  o _ (BDCUpdate (protected_bdc (bound_to b c))) w3 = (w4, inr c') ->
  exec o (ReconcileClaim ns n) w0 = (w4, Returned None).
Proof.
  intros Hs Hget Hsel Hlist Hb Href Hbd Hbdc.
  rewrite (servable_selects o c ns n w0 w1 w2 sel l) by done. rewrite (Filter_first _ _ _ Hb).
  unfold claimBlockDevice. rewrite Href, exec_bind, (exec_call o _ _ _ _ _ Hbd). cbn [exec].
  unfold updateClaimStatus. rewrite decide_True by done. by rewrite (exec_call o _ _ _ _ _ Hbdc).
Qed.

(** C16. A claim that cannot be served stays: with no eligible device the only write is
    the claim itself, with phase Pending and everything else as it was read. *)
Theorem ReconcileClaim_pends `{K8sLib} {W} (o : oracle W) ns n w0 w1 w2 w3 c sel l c' :
  servable c -> o _ (BDCGet ns n) w0 = (w1, inr c) ->
  LabelSelectorAsSelector (generateSelector c) = inr sel -> o _ (BDList None sel) w1 = (w2, inr l) ->
  find (eligible (NewConfig (apis.CSpec c))) l = None ->
  o _ (BDCUpdate (set_phase apis.BlockDeviceClaimStatusPending c)) w2 = (w3, inr c') ->
  exec o (ReconcileClaim ns n) w0 = (w3, Returned None).
Proof.
  intros Hs Hget Hsel Hlist Hb Hbdc.
  rewrite (servable_selects o c ns n w0 w1 w2 sel l) by done.
  destruct (Filter_fails _ _ Hb) as [e ->].
  unfold updateClaimStatus. rewrite decide_False by done. by rewrite (exec_call o _ _ _ _ _ Hbdc).
Qed.

(** C30. A release is not retried: when a bound claim is being deleted and no device is
    held by it any more, as after a first attempt that released the device and then
    failed to update the claim, reconciliation writes nothing and returns an error.  The
    claim keeps its finalizer, however often this is repeated. *)
Theorem release_stuck `{K8sLib} {W} (o : oracle W) ns n w0 w1 w2 c sel l :
  o _ (BDCGet ns n) w0 = (w1, inr c) -> bdcReconcileDisabled c = false ->
  apis.Phase c = apis.BlockDeviceClaimStatusDone -> deleting c ->
  apis.bdc_finalizers c = [BlockDeviceClaimFinalizer] ->
  LabelSelectorAsSelector metav1.empty_LabelSelector = inr sel -> o _ (BDList None sel) w1 = (w2, inr l) ->
  (forall b, b ∈ l -> wf_bd b /\ ~ held_by c b) ->
  exec o (ReconcileClaim ns n) w0 = (w2, Returned (Some (Err "blockdevice not found for releasing"))).
Proof.
  intros Hget Hdis Hph [t Ht] Hfin Hsel Hlist Hl. unfold ReconcileClaim.
  rewrite (exec_call o _ _ _ _ _ Hget), Hdis, Hph, !decide_False, decide_True by naive_solver.
  unfold FinalizerHandling. rewrite Ht, Hfin. change (bool_decide _ && _) with true. cbn [andb].
  unfold releaseClaimedBlockDevice, getListofDevices. rewrite Hsel, !exec_bind.
  cbn [exec call]. rewrite Hlist. by rewrite (findClaimed_none c l Hl).
Qed.

(** ** Cleanup *)

Section Cleanup.
Context {W : Type} (o : oracle W).

(** The job has one container, which runs [args] in a shell with volume [v] at [m]. *)
Definition only_container (job : batchv1.Job) (args : string) (v : batchv1.Volume) (m : batchv1.VolumeMount) : Prop :=
  batchv1.Volumes (batchv1.PodTemplate job) = [v] /\
  exists c, batchv1.Containers (batchv1.PodTemplate job) = [c] /\
    batchv1.Command c = ["/bin/sh"; "-c"] /\ batchv1.Args c = [args] /\ batchv1.VolumeMounts c = [m].

(** The answer of the two places that look at the job of a device. *)
Lemma RemoveJob_succeeded ns n w w' :
  exec o (RemoveJob ns n) w = (w', Returned (CleanupStateSucceeded, None)) ->
  exists w1 job w2 k, o _ (JobGet ns (generateCleaningJobName n)) w = (w1, inr job) /\
    batchv1.Succeeded job <> 0%Z /\ o _ (JobDelete k.1 k.2) w2 = (w', inr tt).
Proof.
  unfold RemoveJob. intros (w1 & x & Hget & Hex)%exec_call_inv.
  destruct x as [e|job]; [by destruct (IsNotFound e)|].
  case_decide as Hs; [done|].
  apply exec_bind_inv in Hex as (w2 & e & Hc & Hr). cbn in Hr.
  destruct e as [e|]; [done|]. injection Hr as <-.
  unfold CancelJob in Hc. apply exec_call_inv in Hc as (w3 & y & _ & Hc).
  apply exec_call_inv in Hc as (w4 & z & Hd & Hc). destruct z as [e|[]]; [done|]. injection Hc as <-.
  by eexists w1, job, w3, (_, _).
Qed.

Lemma RemoveJob_state ns n w w' st :
  exec o (RemoveJob ns n) w = (w', Returned (st, None)) ->
  st = CleanupStateSucceeded \/ st = CleanupStateNotFound \/ st = CleanupStateRunning.
Proof.
  unfold RemoveJob. intros (w1 & x & _ & Hex)%exec_call_inv.
  destruct x as [e|job]; [destruct (IsNotFound e); cbn in Hex; naive_solver|].
  case_decide; [cbn in Hex; naive_solver|].
  apply exec_bind_inv in Hex as (w2 & [e|] & _ & Hr); cbn in Hr; naive_solver.
Qed.

Lemma runJob_result ns bd mode w w' r :
  exec o (e <- runJob ns bd mode ;; Ret (false, e)) w = (w', Returned r) -> r.1 = false.
Proof. intros (w1 & e & _ & Hr)%exec_bind_inv. cbn in Hr. by injection Hr as _ <-. Qed.
End Cleanup.

(** C17. A device counts as clean only after its own cleanup job was read with a nonzero
    number of successes and a job was then deleted: whatever the API server answers,
    Clean returns true only then, and never together with an error. *)
Theorem Clean_only_after_success {W} (o : oracle W) ns bd w w' e :
  exec o (Clean ns bd) w = (w', Returned (true, e)) ->
  e = None /\ exists w1 w2 job w3 k,
    o _ (JobGet ns (generateCleaningJobName (apis.bd_name bd))) w1 = (w2, inr job) /\
    batchv1.Succeeded job <> 0%Z /\ o _ (JobDelete k.1 k.2) w3 = (w', inr tt).
Proof.
  unfold Clean. intros (w1 & running & _ & Hex)%exec_bind_inv. destruct running.
  { destruct (negb _); [|done]. by apply exec_bind_inv in Hex as (? & ? & _ & ?). }
  apply exec_bind_inv in Hex as (w2 & [st e1] & Hrm & Hex).
  destruct e1 as [e1|]; [done|].
  destruct (RemoveJob_state o _ _ _ _ _ Hrm) as [->|[->| ->]]; cbn in Hex.
  - injection Hex as <- <-. split; [done|].
    apply RemoveJob_succeeded in Hrm as (w3 & job & w4 & k & ? & ? & ?). by exists w1, w3, job, w4, k.
  - destruct (negb _); [done|]. by apply runJob_result in Hex.
  - by apply runJob_result in Hex.
Qed.


(** A failed release is silent: once the device has been read, the reconciliation
    of a device returns no error, whatever fails afterwards (the cleanup, the marking as
    unclaimed, the adding of the finalizer), so it is not requeued. *)
Theorem ReconcileDevice_swallows {W} (o : oracle W) ns n w w1 w' bd e :
  o _ (BDGet ns n) w = (w1, inr bd) ->
  exec o (ReconcileDevice ns n) w = (w', Returned e) -> e = None.
Proof.
  intros Hget. unfold ReconcileDevice. rewrite (exec_call o _ _ _ _ _ Hget).
  destruct (bdReconcileDisabled bd); [cbn; naive_solver|].
  case_decide; [|case_decide].
  - intros (w2 & [ok e1] & _ & Hr)%exec_bind_inv. destruct e1 as [e1|]; [cbn in Hr; naive_solver|].
    destruct ok; [|cbn in Hr; naive_solver].
    apply exec_bind_inv in Hr as (w3 & a & _ & Hr). cbn in Hr. naive_solver.
  - destruct (negb _); [|cbn; naive_solver].
    intros (w2 & a & _ & Hr)%exec_call_inv. cbn in Hr. naive_solver.
  - cbn. naive_solver.
Qed.

(** C7. The operator never panics: for every answer of the API server in which claimed
    devices have a claim reference, both reconcilers return, and every write they make is
    one the claim life cycle allows, made to a version that was read. *)
Theorem operator_never_panics `{K8sLib, !ReferenceLaws} ns n :
  wp_total no_evidence (ReconcileClaim ns n) anything /\
  wp_total no_evidence (ReconcileDevice ns n) anything.
Proof. split; [apply ReconcileClaim_safe|apply ReconcileDevice_safe]. Qed.
