(* ===== verification/System.v ===== *)
(** * The whole system

    Any number of NDM programs (event handlers of the daemons on all nodes, reconcilers
    of the operator) run concurrently against one API server, one call at a time,
    together with other clients.  The API server is an interface with laws: optimistic
    concurrency by resource version, possibly stale reads, writes that may be applied
    although the client sees an error. *)

From Stdlib Require Import ZArith Lia.
From stdpp Require Import base list strings gmap.
From S2P Require Import Prelude Types Prog K8sLib Controller Store Handlers Lifecycle Udev DaemonSafe Daemon NodeApi Process ClaimController DeviceController OperatorSafe.

Local Open Scope string_scope.

Notation key := (string * string)%type.

(** An object as stored: with the resource version the server gave it. *)
Definition stamp (r : N) (b : apis.BlockDevice) : apis.BlockDevice :=
  b <| apis.ObjectMeta ::= fun m => m <| metav1.ResourceVersion := r |> |>.
Definition stamp_bdc (r : N) (c : apis.BlockDeviceClaim) : apis.BlockDeviceClaim :=
  c <| apis.CObjectMeta ::= fun m => m <| metav1.ResourceVersion := r |> |>.

(** ** The API server *)

Class ApiServer (W : Type) := {
  valid : W -> Prop;
  serve : forall X, callE X -> W -> W -> X -> Prop;
  other : W -> W -> Prop;             (* a step of another client *)
  devices : W -> gmap key apis.BlockDevice;
  claims : W -> gmap key apis.BlockDeviceClaim;
  (* every version that was ever stored *)
  was_bd : W -> apis.BlockDevice -> Prop;
  was_bdc : W -> apis.BlockDeviceClaim -> Prop;
  was_job : W -> string * string * batchv1.Job -> Prop
}.

(** The effect of a successful create and update of a device. *)
Definition created {A} (key_of : A -> key) (st : N -> A -> A) (m m' : gmap key A) (b : A) : Prop :=
  m !! key_of b = None /\ exists r, m' = <[key_of b := st r b]> m.
Definition updated {A} (key_of : A -> key) (rv_of : A -> N) (st : N -> A -> A) (m m' : gmap key A) (b : A) : Prop :=
  exists b0, m !! key_of b = Some b0 /\ rv_of b0 = rv_of b /\
    ((exists r, m' = <[key_of b := st r b]> m) \/ m' = delete (key_of b) m).

Section Laws.
Context {W : Type} `{ApiServer W}.

(** The devices after a call.  A failed write may have been applied. *)
Definition devices_after (w w' : W) X (e : callE X) : X -> Prop :=
  match e in callE X return X -> Prop with
  | BDCreate b => fun x =>
      (devices w' = devices w /\ exists er, x = inl er) \/ created apis.bd_key stamp (devices w) (devices w') b
  | BDUpdate b => fun x =>
      (devices w' = devices w /\ exists er, x = inl er) \/
      updated apis.bd_key apis.bd_rv stamp (devices w) (devices w') b
  | BDDelete ns n => fun _ => devices w' = devices w \/ devices w' = delete (ns, n) (devices w)
  | _ => fun _ => devices w' = devices w
  end.

Definition claims_after (w w' : W) X (e : callE X) : X -> Prop :=
  match e in callE X return X -> Prop with
  | BDCUpdate c => fun x =>
      (claims w' = claims w /\ exists er, x = inl er) \/
      updated apis.bdc_key apis.bdc_rv stamp_bdc (claims w) (claims w') c
  | _ => fun _ => claims w' = claims w
  end.

(** An accepted version is stored unless it was the end of a deletion, which the last
    finalizer holds up. *)
Definition kept (w : W) (b : apis.BlockDevice) : Prop :=
  (exists r, was_bd w (stamp r b)) \/ metav1.Finalizers (apis.ObjectMeta b) = [].

(** What a read returns was stored at some time, under the name asked for. *)
Definition answer_stored (w' : W) X (e : callE X) : X -> Prop :=
  match e in callE X return X -> Prop with
  | BDGet ns n => fun x => forall b, x = inr b -> was_bd w' b /\ apis.bd_key b = (ns, n)
  | BDList _ _ => fun x => forall l b, x = inr l -> b ∈ l -> was_bd w' b
  | BDUpdate b => fun x => forall b', x = inr b' -> kept w' b
  | BDCGet ns n => fun x => forall c, x = inr c -> was_bdc w' c /\ apis.bdc_key c = (ns, n)
  | BDCList _ => fun x => forall l c, x = inr l -> c ∈ l -> was_bdc w' c
  | JobGet ns n => fun x => forall j, x = inr j ->
      was_job w' (ns, n, j) /\ (0 <= batchv1.Succeeded j)%Z /\ metav1.Name (batchv1.JobMeta j) = n
  | _ => fun _ => True
  end.

(** History only grows, and only by what is stored. *)
Definition history_step (w w' : W) : Prop :=
  (forall b, was_bd w b -> was_bd w' b) /\ (forall c, was_bdc w c -> was_bdc w' c) /\
  (forall j, was_job w j -> was_job w' j) /\
  (forall b, was_bd w' b -> was_bd w b \/ exists k, devices w' !! k = Some b).

(** Other clients do not take part in claiming: they change a device only outside its
    claim, create only free ones, and do not mark claims as bound. *)
Definition other_devices (w w' : W) : Prop :=
  forall k, devices w' !! k = devices w !! k \/ devices w' !! k = None \/
    exists b', devices w' !! k = Some b' /\
      match devices w !! k with
      | None => bd_initial b'
      | Some b => apis.bd_claimstate b' = apis.bd_claimstate b /\ apis.bd_claimref b' = apis.bd_claimref b
      end.

Definition other_claims (w w' : W) : Prop :=
  forall k c', claims w' !! k = Some c' -> apis.Phase c' = apis.BlockDeviceClaimStatusDone ->
    exists c, claims w !! k = Some c /\ apis.Phase c = apis.Phase c' /\
      apis.bdc_name c = apis.bdc_name c' /\
      metav1.UID (apis.CObjectMeta c) = metav1.UID (apis.CObjectMeta c') /\
      apis.BlockDeviceName (apis.CSpec c) = apis.BlockDeviceName (apis.CSpec c').
End Laws.

Class ApiServerLaws (W : Type) `{ApiServer W} : Prop := {
  serve_valid X (e : callE X) w w' x : valid w -> serve X e w w' x -> valid w';
  other_valid w w' : valid w -> other w w' -> valid w';
  device_key w k b : valid w -> devices w !! k = Some b -> was_bd w b /\ apis.bd_key b = k;
  claim_key w k c : valid w -> claims w !! k = Some c -> was_bdc w c /\ apis.bdc_key c = k;
  (* a resource version names one version of an object *)
  bd_version w b b' : valid w -> was_bd w b -> was_bd w b' ->
    apis.bd_key b = apis.bd_key b' -> apis.bd_rv b = apis.bd_rv b' -> b = b';
  bdc_version w c c' : valid w -> was_bdc w c -> was_bdc w c' ->
    apis.bdc_key c = apis.bdc_key c' -> apis.bdc_rv c = apis.bdc_rv c' -> c = c';
  serve_devices X (e : callE X) w w' x : valid w -> serve X e w w' x -> devices_after w w' X e x;
  serve_claims X (e : callE X) w w' x : valid w -> serve X e w w' x -> claims_after w w' X e x;
  serve_answer X (e : callE X) w w' x : valid w -> serve X e w w' x -> answer_stored w' X e x;
  serve_history X (e : callE X) w w' x : valid w -> serve X e w w' x -> history_step w w';
  other_history w w' : valid w -> other w w' -> history_step w w';
  other_dev w w' : valid w -> other w w' -> other_devices w w';
  other_bdc w w' : valid w -> other w w' -> other_claims w w'
}.

(** ** Programs of NDM *)

(** The handlers and scans of the daemon, its process as a whole, the requests to its node
    service, the reconcilers of the operator, and everything that only reads from the API
    server, as the exporter does ([collect_harmless]) *)

Inductive ndm_program `{K8sLib} : prog unit -> Prop :=
  | np_add c st devs req : QuietController c -> ndm_program (bind (addBlockDeviceEvent c st devs req) (fun _ => Ret tt))
  | np_delete c st devs : ndm_program (bind (deleteBlockDeviceEvent c st devs) (fun _ => Ret tt))
  | np_change c order h devs req all : QuietController c ->
      ndm_program (bind (changeBlockDeviceEvent c order (MkPState h []) devs req all) (fun _ => Ret tt))
  | np_start c acquired st : ndm_program (bind (udevProbe.startScan c acquired st) (fun _ => Ret tt))
  | np_rescan c acquired st : ndm_program (bind (udevProbe.Rescan c acquired st) (fun _ => Ret tt))
  | np_stale c devs : ndm_program (DeactivateStaleBlockDeviceResource c devs)
  | np_unknown c : ndm_program (MarkBlockDeviceStatusToUnknown c)
  | np_sparse c file : ndm_program (MarkSparseBlockDeviceStateActive c file)
  | np_command jv ju yu fuel order flags cfg cancelled :
      ndm_program (bind (startCommand jv ju yu fuel order flags cfg cancelled) (fun _ => Ret tt))
  | np_request jv ju yu fuel gates acquired :
      ndm_program (bind (services.Rescan jv ju yu fuel gates acquired) (fun _ => Ret tt))
  | np_reads A (p : prog A) : uses harmless p -> ndm_program (bind p (fun _ => Ret tt))
  | np_claim ns n : ndm_program (bind (ReconcileClaim ns n) (fun _ => Ret tt))
  | np_device ns n : ndm_program (bind (ReconcileDevice ns n) (fun _ => Ret tt)).

Lemma ndm_program_safe `{K8sLib, !ReferenceLaws} p :
  ndm_program p -> wp_safe no_evidence p anything.
Proof.
  destruct 1; try (eapply wp_bind_any; [|done]).
  - by apply addBlockDeviceEvent_safe.
  - by apply deleteBlockDeviceEvent_safe.
  - apply changeBlockDeviceEvent_safe; [done|]. intros b Hb. set_solver.
  - apply startScan_safe.
  - apply Rescan_safe.
  - by apply DeactivateStale_safe.
  - by apply MarkUnknown_safe.
  - by apply MarkSparse_safe.
  - apply startCommand_safe.
  - apply NodeRescan_safe.
  - by apply harmless_safe.
  - apply wp_total_safe, ReconcileClaim_safe.
  - apply wp_total_safe, ReconcileDevice_safe.
Qed.

(** ** Interleaving *)

Section Sys.
Context {W : Type} `{ApiServer W, !ApiServerLaws W} `{K8sLib, !ReferenceLaws}.

Record config := Config { world : W; threads : list (prog unit) }.

Inductive sys_step : config -> config -> Prop :=
  | sys_call w w' ts i X (e : callE X) k x :
      ts !! i = Some (Call e k) -> serve X e w w' x ->
      sys_step (Config w ts) (Config w' (<[i := k x]> ts))
  | sys_spawn w ts p : ndm_program p -> sys_step (Config w ts) (Config w (ts ++ [p]))
  | sys_other w w' ts : other w w' -> sys_step (Config w ts) (Config w' ts).

Inductive reachable (w0 : W) : config -> Prop :=
  | reach_init : reachable w0 (Config w0 [])
  | reach_step s s' : reachable w0 s -> sys_step s s' -> reachable w0 s'.

(** The evidence of a program is part of the history. *)
Definition evidence_in (w : W) (K : evidence) : Prop :=
  (forall b, b ∈ read_bd K -> was_bd w b) /\ (forall c, c ∈ read_bdc K -> was_bdc w c) /\
  (forall j, j ∈ read_job K -> was_job w j) /\
  (forall b, b ∈ wrote_bd K -> kept w b).

Definition thread_ok (w : W) (p : prog unit) : Prop :=
  exists K, evidence_in w K /\ wp_safe K p anything.

(** A bound claim was given a device that was claimed for it. *)
Definition bound_ok (w : W) (c : apis.BlockDeviceClaim) : Prop :=
  apis.Phase c = apis.BlockDeviceClaimStatusDone ->
  exists b ref, was_bd w b /\ apis.bd_claimstate b = apis.BlockDeviceClaimed /\
    apis.bd_claimref b = Some ref /\ metav1.RefName ref = apis.bdc_name c /\
    metav1.RefUID ref = metav1.UID (apis.CObjectMeta c) /\
    apis.bd_name b = apis.BlockDeviceName (apis.CSpec c).

(** An initial world: well-formed devices, bound claims that have had a device. *)
Definition initial (w : W) : Prop :=
  valid w /\ (forall b, was_bd w b -> wf_bd b) /\
  forall k c, claims w !! k = Some c -> bound_ok w c.

Record inv (s : config) : Prop := {
  inv_valid : valid (world s);
  inv_wf b : was_bd (world s) b -> wf_bd b;
  inv_threads p : p ∈ threads s -> thread_ok (world s) p;
  inv_bound k c : claims (world s) !! k = Some c -> bound_ok (world s) c
}.

Lemma evidence_in_mono w w' K : history_step w w' -> evidence_in w K -> evidence_in w' K.
Proof.
  intros (Hb & Hc & Hj & _) (K1 & K2 & K3 & K4). repeat split; eauto.
  intros b Hw. destruct (K4 b Hw) as [[r ?]|?]; [left; eauto|by right].
Qed.

Lemma thread_ok_mono w w' p : history_step w w' -> thread_ok w p -> thread_ok w' p.
Proof. intros Hh (K & ? & ?). exists K. split; [by eapply evidence_in_mono|done]. Qed.

(** The answers satisfy what the protocol promises, and what is learned is history. *)
Lemma answer_says w' K X (e : callE X) x :
  answer_stored w' X e x -> (forall b, was_bd w' b -> wf_bd b) -> ndm_says K X e x.
Proof. intros Ha Hwf. destruct e; cbn in *; naive_solver. Qed.

Lemma learn_in w' K X (e : callE X) x :
  answer_stored w' X e x -> evidence_in w' K -> evidence_in w' (ndm_learn K X e x).
Proof.
  intros Ha (K1 & K2 & K3 & K4). unfold evidence_in.
  destruct e; cbn in *; try done; destruct x as [er|v]; cbn; try done;
    repeat split; try done; intros y; rewrite ?elem_of_cons, ?elem_of_app; naive_solver.
Qed.

(** *** Well-formedness is preserved *)

Lemma wf_initial b : bd_initial b -> wf_bd b.
Proof. intros [Hs Hr]. unfold wf_bd. rewrite Hs, Hr. split; [by intros []|done]. Qed.

Lemma wf_step K b b' : wf_bd b -> bd_step K b b' -> wf_bd b'.
Proof.
  unfold wf_bd. intros Hwf [Hs Hr|c ref ? ? ? ? Hr ? ? Hs ?|c ref ? ? ? ? ? ? ? Hr Hs|ns job ? ? Hp Hr Hs].
  - by rewrite Hs, Hr.
  - rewrite Hs, Hr. split; [done|by eexists].
  - rewrite Hs, Hr. split; [by intros []|done].
  - rewrite Hs, Hr. split; [|done]. intros Hc%Hwf.
    unfold phase_of in Hp. by rewrite Hc in Hp.
Qed.

(** A write a program may make, applied to the stored version. *)
Lemma update_current w K b b0 :
  valid w -> evidence_in w K -> ndm_may K _ (BDUpdate b) ->
  devices w !! apis.bd_key b = Some b0 -> apis.bd_rv b0 = apis.bd_rv b -> bd_step K b0 b.
Proof.
  intros Hv (HK & _) (b1 & Hb1 & Hk & Hr & Hstep) Hl Hrv.
  destruct (device_key _ _ _ Hv Hl) as [Hw Hk0].
  assert (b1 = b0) as <-; [|done]. apply (bd_version w); auto; congruence.
Qed.

Lemma bdc_update_current w K c c0 :
  valid w -> evidence_in w K -> ndm_may K _ (BDCUpdate c) ->
  claims w !! apis.bdc_key c = Some c0 -> apis.bdc_rv c0 = apis.bdc_rv c ->
  metav1.UID (apis.CObjectMeta c0) = metav1.UID (apis.CObjectMeta c) /\ bdc_step K c0 c.
Proof.
  intros Hv (_ & HK & _) (c1 & Hc1 & Hk & Hr & Hu & Hstep) Hl Hrv.
  destruct (claim_key _ _ _ Hv Hl) as [Hw Hk0].
  assert (c1 = c0) as <-; [|done]. apply (bdc_version w); auto; congruence.
Qed.

Lemma bd_step_stamp K b b' r : bd_step K b b' -> bd_step K b (stamp r b').
Proof. intros []; [by apply step_keep|by eapply step_claim|by eapply step_release|by eapply step_clean]. Qed.

(** What a call of a program does to the devices. *)
Inductive device_step (K : evidence) (m m' : gmap key apis.BlockDevice) : Prop :=
  | ds_same : m' = m -> device_step K m m'
  | ds_new k b : m !! k = None -> bd_initial b -> m' = <[k := b]> m -> device_step K m m'
  | ds_step k b b' : m !! k = Some b -> bd_step K b b' -> m' = <[k := b']> m -> device_step K m m'
  | ds_gone k b b' : m !! k = Some b -> bd_step K b b' -> m' = delete k m -> device_step K m m'.

Lemma call_devices w w' K X (e : callE X) x :
  valid w -> evidence_in w K -> ndm_may K X e -> serve X e w w' x ->
  device_step K (devices w) (devices w').
Proof.
  intros Hv HK Hmay Hs. pose proof (serve_devices _ _ _ _ _ Hv Hs) as Hd. clear Hs.
  destruct e; cbn in Hd; try (by apply ds_same).
  - destruct Hd as [[? _]|(Hn & r & Heq)]; [by apply ds_same|].
    by eapply (ds_new _ _ _ _ (stamp r bd)).
  - destruct Hd as [[? _]|(b0 & Hl & Hr & Heq)]; [by apply ds_same|].
    pose proof (update_current _ _ _ _ Hv HK Hmay Hl Hr) as Hstep.
    destruct Heq as [(r & Heq)|Heq].
    + eapply (ds_step _ _ _ _ b0 (stamp r bd)); [done|by apply bd_step_stamp|done].
    + by eapply (ds_gone _ _ _ _ b0 bd).
Qed.

Lemma device_step_wf K m m' :
  device_step K m m' -> (forall k b, m !! k = Some b -> wf_bd b) ->
  forall k b, m' !! k = Some b -> wf_bd b.
Proof.
  intros Hd Hwf k b Hl. destruct Hd as [->|k' b' _ Hi ->|k' b1 b2 Hk Hst ->|k' b1 b2 _ _ ->]; [eauto| | |].
  - apply lookup_insert_Some in Hl as [[_ <-]|[_ Hl]]; [by apply wf_initial|eauto].
  - apply lookup_insert_Some in Hl as [[_ <-]|[_ Hl]]; [eapply wf_step; eauto|eauto].
  - apply lookup_delete_Some in Hl as [_ Hl]. eauto.
Qed.

Lemma other_wf w w' :
  valid w -> other w w' -> (forall k b, devices w !! k = Some b -> wf_bd b) ->
  forall k b, devices w' !! k = Some b -> wf_bd b.
Proof.
  intros Hv Ho Hwf k b Hl. destruct (other_dev _ _ Hv Ho k) as [Heq|[Hn|(b' & Hb' & Hm)]].
  - eapply Hwf. by rewrite <- Heq.
  - congruence.
  - rewrite Hb' in Hl. injection Hl as <-.
    destruct (devices w !! k) as [b0|] eqn:Hk; [|by apply wf_initial].
    destruct Hm as [Hs Hr]. unfold wf_bd. rewrite Hs, Hr. by apply (Hwf k).
Qed.

Lemma history_wf w w' :
  history_step w w' -> (forall b, was_bd w b -> wf_bd b) ->
  (forall k b, devices w' !! k = Some b -> wf_bd b) -> forall b, was_bd w' b -> wf_bd b.
Proof. intros (_ & _ & _ & Hn) Hold Hnew b [?|[k ?]]%Hn; eauto. Qed.

(** *** Bound claims *)

Lemma bound_ok_mono w w' c : history_step w w' -> bound_ok w c -> bound_ok w' c.
Proof.
  intros (Hb & _) Hc Hp. destruct (Hc Hp) as (b & ref & Hw & Hrest). exists b, ref. eauto.
Qed.

Lemma bind_bound w K c c0 r :
  evidence_in w K -> apis.bdc_key c0 = apis.bdc_key c ->
  metav1.UID (apis.CObjectMeta c0) = metav1.UID (apis.CObjectMeta c) ->
  bound_ok w c0 -> bdc_step K c0 c -> bound_ok w (stamp_bdc r c).
Proof.
  intros (_ & _ & _ & HK) Hk Hu Hb0 Hstep.
  assert (Hn : apis.bdc_name c0 = apis.bdc_name c) by (by injection Hk).
  intros Hp. change (apis.Phase c = apis.BlockDeviceClaimStatusDone) in Hp.
  destruct Hstep as [? ? ? Hp'|b ref ? ? ? Hw Hs Href Hprot Hrn Hru Hbn ?|b ? ? ? Hspec Hph ? ?].
  - by rewrite Hp' in Hp.
  - destruct (HK b Hw) as [[r' Hr']|Hnil]; [|unfold protected in Hprot; rewrite Hnil in Hprot; set_solver].
    exists (stamp r' b), ref.
    repeat (split; [done|]). split; [exact (eq_trans Hrn Hn)|].
    split; [exact (eq_trans Hru Hu)|done].
  - destruct Hb0 as (b' & ref & ? & ? & ? & Hrn & Hru & Hbn); [congruence|].
    exists b', ref. repeat (split; [done|]). split; [exact (eq_trans Hrn Hn)|].
    split; [exact (eq_trans Hru Hu)|].
    change (apis.bd_name b' = apis.BlockDeviceName (apis.CSpec c)). by rewrite Hspec.
Qed.

Lemma call_bound w w' K X (e : callE X) x :
  valid w -> evidence_in w K -> ndm_may K X e -> serve X e w w' x ->
  (forall k c, claims w !! k = Some c -> bound_ok w c) ->
  forall k c, claims w' !! k = Some c -> bound_ok w' c.
Proof.
  intros Hv HK Hmay Hs Hb k c Hl. pose proof (serve_history _ _ _ _ _ Hv Hs) as Hh.
  apply (bound_ok_mono w); [done|].
  pose proof (serve_claims _ _ _ _ _ Hv Hs) as Hc. clear Hs.
  destruct e; cbn in Hc; try (rewrite Hc in Hl; eauto; fail).
  destruct Hc as [[Hc _]|(c0 & Hl0 & Hr & Heq)]; [rewrite Hc in Hl; eauto|].
  destruct (bdc_update_current _ _ _ _ Hv HK Hmay Hl0 Hr) as [Hu Hstep].
  destruct (claim_key _ _ _ Hv Hl0) as [_ Hk0].
  destruct Heq as [(r & Heq)|Heq]; rewrite Heq in Hl.
  - apply lookup_insert_Some in Hl as [[_ <-]|[_ Hl]]; [|eauto]. eapply bind_bound; eauto.
  - apply lookup_delete_Some in Hl as [_ Hl]. eauto.
Qed.

(** *** The invariant *)

Lemma inv_step s s' : inv s -> sys_step s s' -> inv s'.
Proof.
  intros [Hv Hwf Hth Hb] Hstep. destruct Hstep as [w w' ts i X e k x Hi Hs|w ts p Hp|w w' ts Ho]; cbn in *.
  - destruct (Hth (Call e k)) as (K & HK & Hmay & Hk); [by eapply list_elem_of_lookup_2|].
    pose proof (serve_history _ _ _ _ _ Hv Hs) as Hh.
    pose proof (call_devices _ _ _ _ _ _ Hv HK Hmay Hs) as Hd.
    assert (Hwf' : forall b, was_bd w' b -> wf_bd b).
    { eapply history_wf; [done|done|]. eapply device_step_wf; [done|].
      intros k' b Hl. apply Hwf. by eapply device_key. }
    constructor; cbn; [by eapply serve_valid|done| |by eapply call_bound].
    intros p Hp. apply list_elem_of_lookup_1 in Hp as [j Hj].
    apply list_lookup_insert_Some in Hj as [(_ & <- & _)|[_ Hj]].
    + pose proof (serve_answer _ _ _ _ _ Hv Hs) as Ha.
      exists (ndm_learn K X e x). split; [|by apply Hk, (answer_says w')].
      apply learn_in; [done|]. by eapply evidence_in_mono.
    + eapply thread_ok_mono; [done|]. apply Hth. by eapply list_elem_of_lookup_2.
  - constructor; cbn; [done..| |done]. intros q [Hq|Hq]%elem_of_app; [by apply Hth|].
    apply list_elem_of_singleton in Hq as ->. exists no_evidence.
    split; [repeat split; intros; set_solver|by apply ndm_program_safe].
  - pose proof (other_history _ _ Hv Ho) as Hh.
    constructor; cbn; [by eapply other_valid| | |].
    + eapply history_wf; [done|done|]. eapply other_wf; [done|done|].
      intros k' b Hl. apply Hwf. by eapply device_key.
    + intros p Hp. eapply thread_ok_mono; eauto.
    + intros k c Hl Hp. destruct (other_bdc _ _ Hv Ho k c Hl Hp) as (c0 & Hl0 & Hp0 & Hn & Hu & Hd).
      destruct (bound_ok_mono w w' c0 Hh (Hb _ _ Hl0)) as (b & ref & ? & ? & ? & ? & ? & ?); [congruence|].
      exists b, ref. repeat split; congruence.
Qed.

Lemma reachable_inv w0 s : initial w0 -> reachable w0 s -> inv s.
Proof.
  intros (Hv & Hwf & Hc). induction 1 as [|s s' _ IH Hs]; [|by eapply inv_step].
  constructor; cbn; [done..|set_solver|done].
Qed.

(** ** The abstract machine and the refinement *)

Definition abs (w : W) : gmap key phase := phase_of <$> devices w.

Definition names (ref : metav1.ObjectReference) (c : apis.BlockDeviceClaim) : Prop :=
  metav1.RefName ref = apis.bdc_name c /\ metav1.RefUID ref = metav1.UID (apis.CObjectMeta c).

(** The steps of the abstract machine; [w] is the history they may appeal to. *)
Inductive abs_step (w : W) (m m' : gmap key phase) : Prop :=
  | abs_same : m' = m -> abs_step w m m'
  | abs_create k : m !! k = None -> m' = <[k := Free]> m -> abs_step w m m'
  | abs_remove k : m' = delete k m -> abs_step w m m'
  | abs_claim k c ref :
      m !! k = Some Free -> was_bdc w c -> ~ deleting c -> names ref c ->
      m' = <[k := Held (Some ref)]> m -> abs_step w m m'
  | abs_release k c ref :
      m !! k = Some (Held (Some ref)) -> was_bdc w c -> deleting c -> names ref c ->
      m' = <[k := Dirty]> m -> abs_step w m m'
  | abs_clean k ns job :
      m !! k = Some Dirty -> was_job w (ns, "cleanup-" +:+ k.2, job) -> (0 < batchv1.Succeeded job)%Z ->
      m' = <[k := Free]> m -> abs_step w m m'
  | abs_other :
      (forall k, m' !! k = m !! k \/ m' !! k = None \/ (m !! k = None /\ m' !! k = Some Free)) ->
      abs_step w m m'.

Lemma phase_keep b b' :
  apis.bd_claimstate b' = apis.bd_claimstate b -> apis.bd_claimref b' = apis.bd_claimref b ->
  phase_of b' = phase_of b.
Proof. intros Hs Hr. unfold phase_of. by rewrite Hs, Hr. Qed.

Lemma phase_free b : apis.bd_claimstate b = apis.BlockDeviceUnclaimed -> phase_of b = Free.
Proof. intros Hs. unfold phase_of. by rewrite Hs. Qed.

Lemma phase_held b : apis.bd_claimstate b = apis.BlockDeviceClaimed -> phase_of b = Held (apis.bd_claimref b).
Proof. intros Hs. unfold phase_of. by rewrite Hs. Qed.

Lemma phase_dirty b : apis.bd_claimstate b = apis.BlockDeviceReleased -> phase_of b = Dirty.
Proof. intros Hs. unfold phase_of. by rewrite Hs. Qed.

Lemma bd_step_abs w K m k b b' :
  evidence_in w K -> bd_step K b b' -> apis.bd_key b = k ->
  (m : gmap key phase) !! k = Some (phase_of b) -> abs_step w m (<[k := phase_of b']> m).
Proof.
  intros (_ & HKc & HKj & _) Hst Hk Hm.
  destruct Hst as [Hs Hr|c ref Hc Hd Ha Hf Hr Hn Hu Hs Hp|c ref Hc Hd Hfin Hs0 Hr0 Hn Hu Hr Hs|ns job Hj Hpos Hd Hr Hs].
  - apply abs_same. rewrite (phase_keep b b') by done. by apply insert_id.
  - apply (abs_claim _ _ _ k c ref); [by rewrite Hm, Hf|auto|done|done|].
    by rewrite phase_held, Hr by done.
  - apply (abs_release _ _ _ k c ref); [by rewrite Hm, phase_held, Hr0 by done|auto|done|done|].
    by rewrite phase_dirty by done.
  - apply (abs_clean _ _ _ k ns job); [by rewrite Hm, Hd| |done|by rewrite phase_free by done].
    rewrite <- Hk. by apply HKj.
Qed.

Lemma device_step_abs w w' K :
  (forall k b, devices w !! k = Some b -> apis.bd_key b = k) ->
  evidence_in w' K -> device_step K (devices w) (devices w') -> abs_step w' (abs w) (abs w').
Proof.
  unfold abs. intros Hkey HK [Heq|k b Hn Hi Heq|k b b' Hl Hst Heq|k b b' Hl _ Heq]; rewrite Heq.
  - by apply abs_same.
  - apply (abs_create _ _ _ k); [by rewrite lookup_fmap, Hn|]. rewrite fmap_insert, phase_free; [done|].
    by destruct Hi.
  - rewrite fmap_insert. eapply bd_step_abs; [done|done|by apply Hkey|]. by rewrite lookup_fmap, Hl.
  - apply (abs_remove _ _ _ k). by rewrite fmap_delete.
Qed.

Lemma other_abs w w' : valid w -> other w w' -> abs_step w' (abs w) (abs w').
Proof.
  intros Hv Ho. apply abs_other. intros k. unfold abs. rewrite !lookup_fmap.
  destruct (other_dev _ _ Hv Ho k) as [->|[->|(b' & -> & Hm)]]; [by left|by right; left|].
  destruct (devices w !! k) as [b|]; cbn.
  - left. f_equal. by apply phase_keep; destruct Hm.
  - right; right. split; [done|]. f_equal. apply phase_free. by destruct Hm.
Qed.

(** Every step of the system is a step of the abstract machine. *)
Lemma step_refines s s' : inv s -> sys_step s s' -> abs_step (world s') (abs (world s)) (abs (world s')).
Proof.
  intros Hinv Hstep. destruct Hstep as [w w' ts i X e k x Hi Hs|w ts p Hp|w w' ts Ho]; cbn.
  - destruct (inv_threads _ Hinv (Call e k)) as (K & HK & Hmay & _); [by eapply list_elem_of_lookup_2|].
    pose proof (inv_valid _ Hinv) as Hv. cbn in *.
    apply (device_step_abs w w' K); [intros; by eapply device_key| |by eapply call_devices].
    eapply evidence_in_mono; [by eapply serve_history|done].
  - by apply abs_same.
  - apply other_abs; [apply (inv_valid _ Hinv)|done].
Qed.

(** The claim states of the resource definition *)
Definition known_claimstate (b : apis.BlockDevice) : Prop :=
  apis.bd_claimstate b ∈ [apis.BlockDeviceUnclaimed; apis.BlockDeviceClaimed; apis.BlockDeviceReleased].

Lemma phase_known b : known_claimstate b -> forall st, phase_of b <> Odd st.
Proof.
  unfold known_claimstate, phase_of. rewrite !elem_of_cons, elem_of_nil. intros Hs st.
  repeat (case_decide; [done|]). naive_solver.
Qed.

Lemma known_phase b : (forall st, phase_of b <> Odd st) -> known_claimstate b.
Proof.
  unfold known_claimstate, phase_of. rewrite !elem_of_cons, elem_of_nil. intros Hs.
  repeat (case_decide; [by auto|]). by destruct (Hs (apis.bd_claimstate b)).
Qed.

Definition never_odd (m : gmap key phase) : Prop := forall k st, m !! k <> Some (Odd st).

Lemma abs_step_odd w m m' : abs_step w m m' -> never_odd m -> never_odd m'.
Proof.
  intros Hst Hm k st Hk.
  destruct Hst as [->|k' _ ->|k' ->|k' c r _ _ _ _ ->|k' c r _ _ _ _ ->|k' ns job _ _ _ ->|Ho];
    try (apply lookup_insert_Some in Hk as [[_ Hk]|[_ Hk]]; [done|by apply Hm in Hk]).
  - by apply Hm in Hk.
  - apply lookup_delete_Some in Hk as [_ Hk]. by apply Hm in Hk.
  - destruct (Ho k) as [Heq|[Heq|[_ Heq]]]; rewrite Heq in Hk; [by apply Hm in Hk|done|done].
Qed.

(** A run during which device [k] is never deleted. *)
Inductive run_with (k : key) (s : config) : config -> Prop :=
  | run_refl : is_Some (abs (world s) !! k) -> run_with k s s
  | run_step s1 s2 : run_with k s s1 -> sys_step s1 s2 -> is_Some (abs (world s2) !! k) -> run_with k s s2.

Lemma sys_history s s' : inv s -> sys_step s s' -> history_step (world s) (world s').
Proof.
  intros Hinv Hstep. pose proof (inv_valid _ Hinv) as Hv. destruct Hstep; cbn in *.
  - by eapply serve_history.
  - split_and!; try done. by left.
  - by apply other_history.
Qed.

Lemma run_with_inv k s s' : inv s -> run_with k s s' -> inv s'.
Proof. induction 2; [done|]. eapply inv_step; eauto. Qed.

(** A successful cleanup job of the device. *)
Definition wiped (w : W) (k : key) : Prop :=
  exists ns job, was_job w (ns, "cleanup-" +:+ k.2, job) /\ (0 < batchv1.Succeeded job)%Z.

Lemma held_step w m m' k ref :
  abs_step w m m' -> is_Some (m' !! k) ->
  m !! k = Some (Held (Some ref)) \/ m !! k = Some Dirty \/ wiped w k ->
  m' !! k = Some (Held (Some ref)) \/ m' !! k = Some Dirty \/ wiped w k.
Proof.
  intros Hst [p Hp] [Hm|[Hm|?]]; [| |by right; right];
    destruct Hst as [->|k' Hn ->|k' ->|k' c r Hf ? ? ? ->|k' c r Hh ? ? ? ->|k' ns job Hd Hj Hs ->|Ho];
    try (rewrite lookup_delete_Some in Hp; destruct Hp as [? Hp]; rewrite lookup_delete_ne by done);
    try (destruct (decide (k' = k)) as [->|]; [rewrite lookup_insert_eq|rewrite lookup_insert_ne by done]);
    try (destruct (Ho k) as [->|[?|[? ?]]]); rewrite ?Hm in *; try naive_solver.
  right; right. by exists ns, job.
Qed.
End Sys.

Section Theorems.
Context {W : Type} `{ApiServer W, !ApiServerLaws W} `{K8sLib, !ReferenceLaws}.

(** C1. Refinement: in every state the whole system can reach, with any number of
    daemons, operators and other clients interleaved, stale reads and lost answers
    included, every step is a step of the abstract claim life cycle: free devices are
    claimed for an existing claim that is not being deleted, held devices are given
    back by the claim that holds them while it is being deleted, given-back devices
    become free after a successful cleanup job. *)
Theorem system_refines_lifecycle w0 s s' :
  initial w0 -> reachable w0 s -> sys_step s s' ->
  abs_step (world s') (abs (world s)) (abs (world s')).
Proof. intros Hi Hr Hs. apply step_refines; [by eapply reachable_inv|done]. Qed.


(** C5. Typing of the stored devices: in every reachable state a device is stored under
    its own namespace and name, its claim state is one of the three values of the resource
    definition, and it carries a claim reference exactly if it is claimed, so the operator's
    dereference of the reference of a claimed device cannot fail. *)
Theorem stored_well_typed w0 s k b :
  initial w0 -> (forall k b, devices w0 !! k = Some b -> known_claimstate b) ->
  reachable w0 s -> devices (world s) !! k = Some b ->
  apis.bd_key b = k /\ known_claimstate b /\
  (is_Some (apis.bd_claimref b) <-> apis.bd_claimstate b = apis.BlockDeviceClaimed).
Proof.
  intros Hi Hk0 Hr Hl. pose proof (reachable_inv _ _ Hi Hr) as Hinv.
  destruct (device_key _ _ _ (inv_valid _ Hinv) Hl) as [Hw Hk].
  split; [done|]. split; [|by apply (inv_wf _ Hinv)].
  assert (Hne : never_odd (abs (world s))).
  { clear Hinv Hl Hw. induction Hr as [|s s' Hr IH Hst].
    - intros k' st. unfold abs. rewrite lookup_fmap_Some. intros (b' & Ho & Hb').
      by apply (phase_known b' (Hk0 _ _ Hb') st).
    - eapply abs_step_odd; [|done]. eapply step_refines; [by eapply reachable_inv|done]. }
  apply known_phase. intros st Ho. apply (Hne k st). unfold abs. by rewrite lookup_fmap, Hl, <- Ho.
Qed.

(** C4. In every reachable state, a claim is bound only to a device that has been
    claimed for it: some stored version of the device named in the claim had the claim
    state Claimed and a reference with the name and UID of the claim. *)
Theorem bound_claim_has_device w0 s k c :
  initial w0 -> reachable w0 s -> claims (world s) !! k = Some c ->
  apis.Phase c = apis.BlockDeviceClaimStatusDone ->
  exists b ref, was_bd (world s) b /\ apis.bd_name b = apis.BlockDeviceName (apis.CSpec c) /\
    apis.bd_claimstate b = apis.BlockDeviceClaimed /\ apis.bd_claimref b = Some ref /\ names ref c.
Proof.
  intros Hi Hr Hl Hp. pose proof (reachable_inv _ _ Hi Hr) as Hinv.
  destruct (inv_bound _ Hinv _ _ Hl Hp) as (b & ref & ? & ? & ? & ? & ? & ?).
  exists b, ref. by repeat split.
Qed.
End Theorems.
