(* ===== verification/MemServer.v ===== *)
(** * An in-memory API server

    A concrete server that keeps devices, claims and jobs in maps and numbers its writes.
    It satisfies the laws of [ApiServer], so the theorems about the whole system are not
    vacuous, and it evaluates, so that concrete runs of the programs can be computed. *)

From Stdlib Require Import ZArith Lia.
From stdpp Require Import base list strings gmap.
From S2P Require Import Prelude Types Prog K8sLib Lifecycle System.

Local Open Scope string_scope.

Record mem := Mem {
  m_bd : gmap key apis.BlockDevice;
  m_bdh : list apis.BlockDevice;
  m_bdc : gmap key apis.BlockDeviceClaim;
  m_bdch : list apis.BlockDeviceClaim;
  m_job : gmap key batchv1.Job;
  m_jobh : list (string * string * batchv1.Job);
  m_rev : N
}.
#[global] Instance eta_mem : Eta mem := fun w =>
  Mem (m_bd w) (m_bdh w) (m_bdc w) (m_bdch w) (m_job w) (m_jobh w) (m_rev w).

Definition gone (m : metav1.ObjectMetaT) : bool :=
  bool_decide (is_Some (metav1.DeletionTimestamp m)) && bool_decide (metav1.Finalizers m = []).

Definition put_bd (b : apis.BlockDevice) (w : mem) : mem :=
  let r := (m_rev w + 1)%N in
  let b := stamp r b in
  w <| m_bd ::= fun m => <[apis.bd_key b := b]> m |> <| m_bdh ::= fun l => b :: l |> <| m_rev := r |>.

Definition put_bdc (c : apis.BlockDeviceClaim) (w : mem) : mem :=
  let r := (m_rev w + 1)%N in
  let c := stamp_bdc r c in
  w <| m_bdc ::= fun m => <[apis.bdc_key c := c]> m |> <| m_bdch ::= fun l => c :: l |> <| m_rev := r |>.

Definition put_job (k : key) (j : batchv1.Job) (w : mem) : mem :=
  w <| m_job ::= fun m => <[k := j]> m |> <| m_jobh ::= fun l => (k.1, k.2, j) :: l |>.

Definition in_ns (ns : option string) (n : string) : bool :=
  match ns with None => true | Some ns => bool_decide (ns = n) end.

Definition mem_handle X (e : callE X) : mem -> mem * X :=
  match e in callE X return mem -> mem * X with
  | BDGet ns n => fun w => (w, match m_bd w !! (ns, n) with Some b => inr b | None => inl ErrNotFound end)
  | BDList ns sel => fun w =>
      (w, inr (List.filter (fun b => in_ns ns (apis.bd_ns b) && matches_all (metav1.MatchLabels sel) (apis.bd_labels b))
                 (map_to_list (m_bd w)).*2))
  | BDCreate b => fun w =>
      match m_bd w !! apis.bd_key b with
      | Some _ => (w, inl ErrAlreadyExists)
      | None => let w' := put_bd b w in (w', inr (stamp (m_rev w') b))
      end
  | BDUpdate b => fun w =>
      match m_bd w !! apis.bd_key b with
      | None => (w, inl ErrNotFound)
      | Some b0 =>
          if decide (apis.bd_rv b0 = apis.bd_rv b) then
            if gone (apis.ObjectMeta b) then (w <| m_bd ::= fun m => delete (apis.bd_key b) m |>, inr b)
            else let w' := put_bd b w in (w', inr (stamp (m_rev w') b))
          else (w, inl ErrConflict)
      end
  | BDDelete ns n => fun w =>
      match m_bd w !! (ns, n) with
      | None => (w, inl ErrNotFound)
      | Some _ => (w <| m_bd ::= fun m => delete (ns, n) m |>, inr tt)
      end
  | BDCGet ns n => fun w => (w, match m_bdc w !! (ns, n) with Some c => inr c | None => inl ErrNotFound end)
  | BDCList ns => fun w => (w, inr (map_to_list (m_bdc w)).*2)
  | BDCUpdate c => fun w =>
      match m_bdc w !! apis.bdc_key c with
      | None => (w, inl ErrNotFound)
      | Some c0 =>
          if decide (apis.bdc_rv c0 = apis.bdc_rv c) then
            if gone (apis.CObjectMeta c) then (w <| m_bdc ::= fun m => delete (apis.bdc_key c) m |>, inr c)
            else let w' := put_bdc c w in (w', inr (stamp_bdc (m_rev w') c))
          else (w, inl ErrConflict)
      end
  | JobGet ns n => fun w => (w, match m_job w !! (ns, n) with Some j => inr j | None => inl ErrNotFound end)
  | JobCreate j => fun w =>
      let k := (metav1.Namespace (batchv1.JobMeta j), metav1.Name (batchv1.JobMeta j)) in
      match m_job w !! k with
      | Some _ => (w, inl ErrAlreadyExists)
      | None => let j := j <| batchv1.Succeeded := 0%Z |> in (put_job k j w, inr j)
      end
  | JobDelete ns n => fun w =>
      match m_job w !! (ns, n) with
      | None => (w, inl ErrNotFound)
      | Some _ => (w <| m_job ::= fun m => delete (ns, n) m |>, inr tt)
      end
  | NodeGet n => fun w => (w, inr (batchv1.MkNode n None []))
  | Hostname => fun w => (w, inr "node1")
  | LookupEnv _ => fun w => (w, None)
  | ReadFile _ => fun w => (w, inl ErrNotFound)
  | ReadDir _ => fun w => (w, inl ErrNotFound)
  | EvalSymlinks p => fun w => (w, inr p)
  | Stat _ => fun w => (w, inl ErrNotFound)
  | CreateSparse _ _ => fun w => (w, inr tt)
  | OpenExcl _ => fun w => (w, inr tt)
  | BlkidTag _ _ => fun w => (w, "")
  | (GetConfig | NewManager _ | AddToScheme | NewClient | SetupController _ | AddCheck _ | ManagerStart | Listen _ | Serve | ListenAndServe _ _) => fun w => (w, inr tt)
  | (SeachestGetDevice _ | SeachestCloseDevice _ | SeachestDriveInformation _ | CapGet | SgIo _ _ | OpenFile _
    | SeekStart _ | ReadFull _ _ | CHeap | CloseFd _ | WriteFile _ _ | Processes | EpollCreate | EpollCtl _ _ _ _ | EpollWait _ _
    | Select _ _ | UdevNew | UdevUnref _ | UdevEnumerateNew _ | UdevEnumerateFilter _ _ | UdevEnumerateScan _
    | UdevEnumerateList _ | UdevEnumerateUnref _ | UdevFromSysPath _ _ | UdevDeviceUnref _ | UdevMonitorNew _ _
    | UdevMonitorFilter _ _ | UdevMonitorEnable _ | UdevMonitorFd _ | UdevReceive _ | UdevMonitorUnref _) as e => fun w => (w, deaf _ e)
  | DiskOpen _ => fun w => (w, inr tt)
  | DiskGetPartitionTable _ => fun w => (w, inl ErrNotFound)
  | DiskPartition _ _ => fun w => (w, inr tt)
  | GoRescan => fun w => (w, tt)
  end.

(** ** Other clients: users create and delete claims, jobs make progress *)

Inductive mem_other : mem -> mem -> Prop :=
  | other_create_claim w c :
      apis.Phase c <> apis.BlockDeviceClaimStatusDone -> mem_other w (put_bdc c w)
  | other_delete_claim w k c t :
      m_bdc w !! k = Some c ->
      mem_other w (put_bdc (c <| apis.CObjectMeta ::= fun m => m <| metav1.DeletionTimestamp := Some t |> |>) w)
  | other_job w k j n :
      m_job w !! k = Some j -> (0 <= n)%Z -> mem_other w (put_job k (j <| batchv1.Succeeded := n |>) w).

(** ** Validity *)

Section Hist.
Context {A : Type} (key_of : A -> key) (rv_of : A -> N).

(** The live objects are in the history, under their keys, and the history has one
    version for every key and number, up to the last number. *)
Record hist_ok (rev : N) (m : gmap key A) (h : list A) : Prop := {
  ho_live k b : m !! k = Some b -> b ∈ h /\ key_of b = k;
  ho_rev b : b ∈ h -> (rv_of b <= rev)%N;
  ho_uniq b b' : b ∈ h -> b' ∈ h -> key_of b = key_of b' -> rv_of b = rv_of b' -> b = b'
}.

Lemma hist_ok_put rev m h b :
  hist_ok rev m h -> rv_of b = (rev + 1)%N -> hist_ok (rev + 1) (<[key_of b := b]> m) (b :: h).
Proof.
  intros [Hl Hr Hu] Hb. constructor.
  - intros k b' [[<- <-]|[_ ?%Hl]]%lookup_insert_Some; [split; [left|done]|]. set_solver.
  - intros b' [->|?%Hr]%elem_of_cons; lia.
  - intros b1 b2 [->|H1]%elem_of_cons [->|H2]%elem_of_cons Hk Hv; [done| | |eauto].
    + apply Hr in H2. lia.
    + apply Hr in H1. lia.
Qed.

Lemma hist_ok_rev rev rev' m h : (rev <= rev')%N -> hist_ok rev m h -> hist_ok rev' m h.
Proof. intros Hle [Hl Hr Hu]. constructor; [done| |done]. intros b ?%Hr. lia. Qed.

Lemma hist_ok_delete rev m h k : hist_ok rev m h -> hist_ok rev (delete k m) h.
Proof.
  intros [Hl Hr Hu]. constructor; [|done..]. intros k' b [_ ?]%lookup_delete_Some. eauto.
Qed.
End Hist.

Record mem_valid (w : mem) : Prop := {
  mv_bd : hist_ok apis.bd_key apis.bd_rv (m_rev w) (m_bd w) (m_bdh w);
  mv_bdc : hist_ok apis.bdc_key apis.bdc_rv (m_rev w) (m_bdc w) (m_bdch w);
  mv_job k j : m_job w !! k = Some j ->
    (k.1, k.2, j) ∈ m_jobh w /\ (0 <= batchv1.Succeeded j)%Z /\ metav1.Name (batchv1.JobMeta j) = k.2
}.

#[global] Instance mem_server : ApiServer mem := {|
  valid := mem_valid;
  serve X e w w' x := mem_handle X e w = (w', x);
  other := mem_other;
  devices := m_bd;
  claims := m_bdc;
  was_bd w b := b ∈ m_bdh w;
  was_bdc w c := c ∈ m_bdch w;
  was_job w j := j ∈ m_jobh w
|}.

Lemma put_bd_valid b w : mem_valid w -> mem_valid (put_bd b w).
Proof.
  intros [Hb Hc Hj]. constructor; [by apply hist_ok_put|eapply hist_ok_rev; [|done]; cbn; lia|done].
Qed.

Lemma put_bdc_valid c w : mem_valid w -> mem_valid (put_bdc c w).
Proof.
  intros [Hb Hc Hj]. constructor; [eapply hist_ok_rev; [|done]; cbn; lia|by apply hist_ok_put|done].
Qed.

Lemma put_job_valid k j w :
  mem_valid w -> (0 <= batchv1.Succeeded j)%Z -> metav1.Name (batchv1.JobMeta j) = k.2 ->
  mem_valid (put_job k j w).
Proof.
  intros [Hb Hc Hj] Hs Hn. constructor; [done..|]. cbn.
  intros k' j' [[<- <-]|[_ Hl]]%lookup_insert_Some; [split; [left|done]|].
  destruct (Hj _ _ Hl). split; [by right|done].
Qed.

Lemma mem_serve_valid X (e : callE X) w w' x : mem_valid w -> mem_handle X e w = (w', x) -> mem_valid w'.
Proof.
  intros Hv Heq. destruct e; cbn in Heq; try (injection Heq as <- <-; done);
    repeat (case_match; try (injection Heq as <- <-; done)); injection Heq as <- <-;
    first [by apply put_bd_valid|by apply put_bdc_valid|by apply put_job_valid|idtac];
    destruct Hv as [Hb Hc Hj]; constructor; try done; try (by apply hist_ok_delete).
  cbn. intros ? ? [_ ?]%lookup_delete_Some. by apply Hj.
Qed.

Lemma mem_other_valid w w' : mem_valid w -> mem_other w w' -> mem_valid w'.
Proof.
  intros Hv Ho. destruct Ho as [w c Hc|w k c t Hk|w k j n Hk Hn]; [by apply put_bdc_valid..|].
  destruct (mv_job _ Hv _ _ Hk) as (_ & _ & ?). by apply put_job_valid.
Qed.

Lemma mem_devices X (e : callE X) w w' x : mem_handle X e w = (w', x) -> devices_after w w' X e x.
Proof.
  intros Heq. destruct e; cbn in *; repeat case_match; simplify_eq; eauto.
  - right. split; [done|]. by eexists.
  - right. exists b. split; [done|]. split; [done|]. by right.
  - right. exists b. split; [done|]. split; [done|]. left. by eexists.
Qed.

Lemma mem_claims X (e : callE X) w w' x : mem_handle X e w = (w', x) -> claims_after w w' X e x.
Proof.
  intros Heq. destruct e; cbn in *; repeat case_match; simplify_eq; eauto.
  - right. exists b. split; [done|]. split; [done|]. by right.
  - right. exists b. split; [done|]. split; [done|]. left. by eexists.
Qed.

Lemma elem_of_values {A} (m : gmap key A) x : x ∈ (map_to_list m).*2 -> exists k, m !! k = Some x.
Proof. intros ([k y] & -> & Hk%elem_of_map_to_list)%list_elem_of_fmap. by exists k. Qed.

Lemma elem_of_filter_bool {A} (f : A -> bool) l x : x ∈ List.filter f l -> x ∈ l.
Proof. rewrite !list_elem_of_In. by intros [? _]%filter_In. Qed.

Lemma gone_finalizers m : gone m = true -> metav1.Finalizers m = [].
Proof. unfold gone. rewrite andb_true_iff, !bool_decide_eq_true. by intros [_ ?]. Qed.

Lemma mem_answer X (e : callE X) w w' x :
  mem_valid w -> mem_handle X e w = (w', x) -> answer_stored w' X e x.
Proof.
  intros [Hb Hc Hj] Heq. destruct e; cbn in *; try done; repeat case_match; simplify_eq; try done.
  - intros ? [= <-]. by eapply ho_live.
  - intros l b1 [= <-] Hl%elem_of_filter_bool%elem_of_values. destruct Hl as [k Hk]. by eapply ho_live.
  - intros ? _. right. by apply gone_finalizers.
  - intros ? _. left. eexists. left.
  - intros ? [= <-]. by eapply ho_live.
  - intros l c [= <-] Hl%elem_of_values. destruct Hl as [k Hk]. by eapply ho_live.
  - intros ? [= <-]. by apply (Hj (namespace, name)).
Qed.

Lemma put_bd_history b w : history_step w (put_bd b w).
Proof.
  repeat split; cbn; intros; rewrite ?elem_of_cons in *; try tauto.
  destruct H as [->|]; [right|by left]. eexists. by rewrite lookup_insert_eq.
Qed.

Lemma put_bdc_history c w : history_step w (put_bdc c w).
Proof. repeat split; cbn; intros; rewrite ?elem_of_cons in *; tauto. Qed.

Lemma put_job_history k j w : history_step w (put_job k j w).
Proof. repeat split; cbn; intros; rewrite ?elem_of_cons in *; tauto. Qed.

Lemma mem_history X (e : callE X) w w' x : mem_handle X e w = (w', x) -> history_step w w'.
Proof.
  intros Heq. destruct e; cbn in *; repeat case_match; simplify_eq;
    first [apply put_bd_history|apply put_bdc_history|apply put_job_history|repeat split; cbn; tauto].
Qed.

Lemma mem_other_history w w' : mem_other w w' -> history_step w w'.
Proof. intros []; first [apply put_bdc_history|apply put_job_history]. Qed.

#[global] Instance mem_laws : ApiServerLaws mem.
Proof.
  constructor; cbn.
  - intros X e w w' x. apply mem_serve_valid.
  - apply mem_other_valid.
  - intros w k b [Hb _ _] Hl. by eapply ho_live.
  - intros w k c [_ Hc _] Hl. by eapply ho_live.
  - intros w b b' [Hb _ _]. by eapply ho_uniq.
  - intros w c c' [_ Hc _]. by eapply ho_uniq.
  - intros X e w w' x _. apply mem_devices.
  - intros X e w w' x _. apply mem_claims.
  - intros X e w w' x. apply mem_answer.
  - intros X e w w' x _. apply mem_history.
  - intros w w' _. apply mem_other_history.
  - intros w w' _ []; intros k0; by left.
  - intros w w' Hv Ho k c' Hl Hp. destruct Ho as [w c Hc|w k1 c t Hk|w k1 j n Hk]; cbn in *.
    + apply lookup_insert_Some in Hl as [[_ <-]|[_ Hl]]; [done|]. by exists c'.
    + apply lookup_insert_Some in Hl as [[<- <-]|[_ Hl]]; [|by exists c'].
      exists c. pose proof (ho_live _ _ _ _ _ (mv_bdc _ Hv) _ _ Hk) as [_ Hkey].
      split; [|done]. change (m_bdc w !! apis.bdc_key c = Some c). by rewrite Hkey.
    + by exists c'.
Qed.

(** ** Concrete runs *)

(** Running thread [i] to its end is a sequence of steps of the system. *)
Definition mem_oracle : oracle mem := mem_handle.

Section Runs.
Context `{K8sLib} (w0 : mem).

Lemma exec_reachable w ts i (p : prog unit) w' :
  reachable w0 (Config w ts) -> ts !! i = Some p ->
  exec mem_oracle p w = (w', Returned tt) ->
  reachable w0 (Config w' (<[i := Ret tt]> ts)).
Proof.
  revert w ts. induction p as [[]|m|X e k IH]; intros w ts Hr Hi Hex; cbn in Hex.
  - injection Hex as <-. by rewrite list_insert_id.
  - done.
  - destruct (mem_oracle X e w) as [w1 x] eqn:Hs.
    rewrite <- (list_insert_insert_eq ts i (Ret tt) (k x)).
    eapply IH; [|apply list_lookup_insert_eq; by eapply lookup_lt_Some|done].
    eapply reach_step; [done|]. by eapply sys_call.
Qed.

(** Starting a program and running it to its end. *)
Lemma spawn_reachable w ts p w' :
  reachable w0 (Config w ts) -> ndm_program p -> exec mem_oracle p w = (w', Returned tt) ->
  reachable w0 (Config w' (ts ++ [Ret tt])%list).
Proof.
  intros Hr Hp Hex.
  replace (ts ++ [Ret tt])%list with (<[length ts := Ret tt]> (ts ++ [p])%list).
  - eapply exec_reachable; [eapply reach_step; [done|by apply sys_spawn]| |done].
    by apply list_lookup_middle.
  - rewrite insert_app_r_alt by done. by rewrite Nat.sub_diag.
Qed.

Lemma other_reachable w ts w' :
  reachable w0 (Config w ts) -> mem_other w w' -> reachable w0 (Config w' ts).
Proof. intros Hr Ho. eapply reach_step; [done|]. by apply sys_other. Qed.

(** One call of a program, and several. *)
Definition advance1 (pw : prog unit * mem) : prog unit * mem :=
  match pw with
  | (Call e k, w) => let '(w, x) := mem_oracle _ e w in (k x, w)
  | _ => pw
  end.
Definition is_call (p : prog unit) : bool := match p with Call _ _ => true | _ => false end.

Lemma advance1_step p w :
  is_call p = true ->
  sys_step (Config w [p]) (Config (advance1 (p, w)).2 [(advance1 (p, w)).1]).
Proof.
  destruct p as [a|m|X e k]; [done..|]. intros _. cbn.
  destruct (mem_oracle X e w) as [w' x] eqn:Hs. by apply (sys_call w w' [Call e k] 0 X e k x).
Qed.

Lemma advance_reachable n p w :
  reachable w0 (Config w [p]) ->
  reachable w0 (Config (Nat.iter n advance1 (p, w)).2 [(Nat.iter n advance1 (p, w)).1]).
Proof.
  intros Hr. induction n as [|n IH]; [done|].
  change (Nat.iter (S n) advance1 (p, w)) with (advance1 (Nat.iter n advance1 (p, w))).
  revert IH. generalize (Nat.iter n advance1 (p, w)). intros [p1 w1] IH.
  destruct (is_call p1) eqn:Hc; [|destruct p1; [exact IH|exact IH|discriminate]].
  eapply reach_step; [exact IH|]. by apply advance1_step.
Qed.

(** Runs that keep a device: [exec_keeping] fails if it is ever missing. *)
Definition present (k : key) (w : mem) : bool := bool_decide (is_Some (m_bd w !! k)).

Fixpoint exec_keeping (k : key) (p : prog unit) (w : mem) : option mem :=
  match p with
  | Ret _ => Some w
  | Panic _ => None
  | Call e cont =>
      let '(w, x) := mem_oracle _ e w in
      if present k w then exec_keeping k (cont x) w else None
  end.

Lemma present_abs k w : present k w = true -> is_Some (abs w !! k).
Proof.
  unfold present. rewrite bool_decide_eq_true. intros [b Hb]. exists (phase_of b).
  unfold abs. cbn. by rewrite lookup_fmap, Hb.
Qed.

Lemma exec_run k s w ts i p w' :
  run_with k s (Config w ts) -> ts !! i = Some p -> exec_keeping k p w = Some w' ->
  exists ts', run_with k s (Config w' ts').
Proof.
  revert w ts. induction p as [[]|m|X e cont IH]; intros w ts Hr Hi Hex; cbn in Hex; [|done|].
  - injection Hex as <-. eauto.
  - destruct (mem_oracle X e w) as [w1 x] eqn:Hs.
    destruct (present k w1) eqn:Hp; [|done].
    eapply (IH x w1 (<[i := cont x]> ts)); [|apply list_lookup_insert_eq; by eapply lookup_lt_Some|done].
    eapply run_step; [done|by eapply sys_call|by apply present_abs].
Qed.

Lemma spawn_run k s w ts p w' :
  run_with k s (Config w ts) -> present k w = true -> ndm_program p -> exec_keeping k p w = Some w' ->
  exists ts', run_with k s (Config w' ts').
Proof.
  intros Hr Hk Hp Hex. eapply (exec_run k s w (ts ++ [p])%list (length ts) p); [|by apply list_lookup_middle|done].
  eapply run_step; [done|by apply sys_spawn|by apply present_abs].
Qed.

Lemma other_run k s w ts w' :
  run_with k s (Config w ts) -> mem_other w w' -> present k w' = true -> run_with k s (Config w' ts).
Proof. intros Hr Ho Hp. eapply run_step; [done|by apply sys_other|by apply present_abs]. Qed.
End Runs.
