(* ===== verification/Liveness.v ===== *)
(** * Progress of the operator

    What the operator achieves when nobody interferes: on the in-memory API server, from any
    of its states, the deletion of a bound claim leads to a device that can be claimed
    again, by way of its release and its cleanup. *)

From Stdlib Require Import ZArith Lia.
From stdpp Require Import base list strings gmap.
From S2P Require Import Prelude GoStrings Types Prog Util K8sLib Lifecycle Controller Select Cleaner ClaimController DeviceController OperatorSpec System MemServer.

Local Open Scope string_scope.
Local Open Scope prog_scope.

(** ** Answers of the server *)

Lemma mem_BDGet w ns n b : m_bd w !! (ns, n) = Some b -> mem_oracle _ (BDGet ns n) w = (w, inr b).
Proof. intros Hb. cbn. by rewrite Hb. Qed.

Lemma mem_BDCGet w ns n c : m_bdc w !! (ns, n) = Some c -> mem_oracle _ (BDCGet ns n) w = (w, inr c).
Proof. intros Hc. cbn. by rewrite Hc. Qed.

Lemma mem_JobGet w ns n j : m_job w !! (ns, n) = Some j -> mem_oracle _ (JobGet ns n) w = (w, inr j).
Proof. intros Hj. cbn. by rewrite Hj. Qed.

Lemma mem_JobGet_none w ns n : m_job w !! (ns, n) = None -> mem_oracle _ (JobGet ns n) w = (w, inl ErrNotFound).
Proof. intros Hj. cbn. by rewrite Hj. Qed.

(** An update of the stored version, of an object that stays *)
Lemma mem_BDUpdate w b b0 :
  m_bd w !! apis.bd_key b = Some b0 -> apis.bd_rv b0 = apis.bd_rv b -> gone (apis.ObjectMeta b) = false ->
  exists b', mem_oracle _ (BDUpdate b) w = (put_bd b w, inr b').
Proof. intros Hb Hr Hg. cbn. rewrite Hb, decide_True, Hg by done. by eexists. Qed.

(** ... and of one whose last finalizer was taken off *)
Lemma mem_BDCUpdate_gone w c c0 :
  m_bdc w !! apis.bdc_key c = Some c0 -> apis.bdc_rv c0 = apis.bdc_rv c -> gone (apis.CObjectMeta c) = true ->
  mem_oracle _ (BDCUpdate c) w = (w <| m_bdc ::= fun m => delete (apis.bdc_key c) m |>, inr c).
Proof. intros Hc Hr Hg. cbn. by rewrite Hc, decide_True, Hg by done. Qed.

Lemma not_gone m : metav1.DeletionTimestamp m = None -> gone m = false.
Proof. intros Hd. unfold gone. rewrite Hd. rewrite bool_decide_false; [done|]. by intros []. Qed.

(** ** The cleanup of a device *)

Section Cleanup.
Context (ns : string) (b : apis.BlockDevice).
Notation jobkey := (ns, generateCleaningJobName (apis.bd_name b)).

(** The job of this device, as the cleaner finds it again *)
Definition job_of (j : batchv1.Job) : Prop :=
  metav1.Name (batchv1.JobMeta j) = jobkey.2 /\ metav1.Namespace (batchv1.JobMeta j) = ns.

Lemma NewCleanupJob_mem w mode tol :
  exists j, exec mem_oracle (NewCleanupJob b mode tol ns) w = (w, Returned j) /\ job_of j.
Proof.
  unfold NewCleanupJob, getCleanUpImage, getServiceAccount, GetOpenEBSImagePullSecrets, env_get.
  destruct mode; [destruct (decide (apis.DeviceType _ = blockdevice.SparseBlockDeviceType))|];
    (eexists; split; [reflexivity|done]).
Qed.

Lemma runJob_mem w mode :
  m_job w !! jobkey = None ->
  exists j, exec mem_oracle (runJob ns b mode) w = (put_job jobkey j w, Returned None) /\
    batchv1.Succeeded j = 0%Z /\ job_of j.
Proof.
  intros Hj. unfold runJob, getNodeObjectByNodeName. rewrite exec_bind. cbn [exec call].
  change (mem_oracle _ (NodeGet (GetNodeName b)) w) with (w, inr (batchv1.MkNode (GetNodeName b) None []) : res batchv1.Node).
  cbv beta iota. cbn [batchv1.Taints]. rewrite exec_bind.
  destruct (NewCleanupJob_mem w mode (getTolerationsForTaints [])) as (j & -> & Hn & Hns).
  exists (j <| batchv1.Succeeded := 0%Z |>). split; [|done]. cbn. cbn in Hn. by rewrite Hn, Hns, Hj.
Qed.

(** Without a job one is started, a running one is left alone, and after a successful one
    the device is clean. *)
Lemma Clean_starts w :
  apis.bd_state b = apis.BlockDeviceActive -> m_job w !! jobkey = None ->
  exists j, exec mem_oracle (Clean ns b) w = (put_job jobkey j w, Returned (false, None)) /\
    batchv1.Succeeded j = 0%Z /\ job_of j.
Proof.
  intros Ha Hj. destruct (runJob_mem w (getVolumeMode (apis.Spec b)) Hj) as (j & Hrun & Hs & Hof).
  exists j. split; [|done]. unfold Clean, IsCleaningJobRunning, RemoveJob.
  rewrite exec_bind, (exec_call _ _ _ _ _ _ (mem_JobGet_none _ _ _ Hj)). cbn [exec].
  change (IsNotFound ErrNotFound) with true. cbn [negb].
  rewrite exec_bind, (exec_call _ _ _ _ _ _ (mem_JobGet_none _ _ _ Hj)). cbn [exec].
  change (IsNotFound ErrNotFound) with true. cbv beta iota.
  rewrite bool_decide_true by done. cbn [negb]. by rewrite exec_bind, Hrun.
Qed.

Lemma Clean_waits w j :
  apis.bd_state b = apis.BlockDeviceActive -> m_job w !! jobkey = Some j -> (batchv1.Succeeded j <= 0)%Z ->
  exec mem_oracle (Clean ns b) w = (w, Returned (false, None)).
Proof.
  intros Ha Hj Hs. unfold Clean, IsCleaningJobRunning.
  rewrite exec_bind, (exec_call _ _ _ _ _ _ (mem_JobGet _ _ _ _ Hj)). cbn [exec].
  by rewrite bool_decide_true, bool_decide_true by done.
Qed.

Lemma Clean_done w j :
  m_job w !! jobkey = Some j -> (0 < batchv1.Succeeded j)%Z -> job_of j ->
  exec mem_oracle (Clean ns b) w = (w <| m_job ::= fun m => delete jobkey m |>, Returned (true, None)).
Proof.
  intros Hj Hs [Hn Hns]. unfold Clean, IsCleaningJobRunning, RemoveJob, CancelJob.
  rewrite exec_bind, (exec_call _ _ _ _ _ _ (mem_JobGet _ _ _ _ Hj)). cbn [exec].
  rewrite bool_decide_false by lia. cbv iota. rewrite exec_bind, (exec_call _ _ _ _ _ _ (mem_JobGet _ _ _ _ Hj)).
  rewrite decide_False by lia. rewrite exec_bind, (exec_call _ _ _ _ _ _ (mem_JobGet _ _ _ _ Hj)).
  cbn in Hn |- *. by rewrite Hn, Hns, Hj.
Qed.
End Cleanup.

(** ** The device controller *)

(** A device the operator works on: active, not being deleted, reconciliation not disabled *)
Definition healthy (b : apis.BlockDevice) : Prop :=
  apis.bd_state b = apis.BlockDeviceActive /\ bdReconcileDisabled b = false /\
  metav1.DeletionTimestamp (apis.ObjectMeta b) = None.

Notation job_key k := (k.1, generateCleaningJobName k.2).

Section Device.
Context (k : key) (b : apis.BlockDevice) (w : mem).
Hypotheses (Hb : m_bd w !! k = Some b) (Hk : apis.bd_key b = k) (Hok : healthy b)
  (Hrel : apis.bd_claimstate b = apis.BlockDeviceReleased).

Lemma bd_name_key : apis.bd_name b = k.2.
Proof. by rewrite <- Hk. Qed.

Lemma ReconcileDevice_cleans :
  exec mem_oracle (ReconcileDevice k.1 k.2) w =
  exec mem_oracle ('(ok, e) <- Clean k.1 b ;;
    match e with
    | Some _ => Ret None
    | None =>
        if ok : bool then
          updateBDStatus apis.BlockDeviceUnclaimed
            (set_bd_finalizers (RemoveString (metav1.Finalizers (apis.ObjectMeta b)) BlockDeviceFinalizer) b) ;;; Ret None
        else Ret None
    end) w.
Proof.
  destruct Hok as (_ & Hdis & _). unfold ReconcileDevice.
  rewrite (exec_call _ _ _ _ w (inr b)) by (apply mem_BDGet; by destruct k).
  cbv zeta. by rewrite Hdis, decide_True by done.
Qed.

Lemma ReconcileDevice_starts :
  m_job w !! job_key k = None ->
  exists j, exec mem_oracle (ReconcileDevice k.1 k.2) w = (put_job (job_key k) j w, Returned None) /\
    batchv1.Succeeded j = 0%Z /\ job_of k.1 b j.
Proof.
  intros Hj. destruct Hok as (Ha & _). rewrite <- bd_name_key in *.
  destruct (Clean_starts k.1 b w Ha Hj) as (j & Hc & Hs & Hof). exists j. split; [|done].
  rewrite bd_name_key, ReconcileDevice_cleans, exec_bind, Hc. by rewrite bd_name_key.
Qed.

Lemma ReconcileDevice_frees j :
  m_job w !! job_key k = Some j -> (0 < batchv1.Succeeded j)%Z -> job_of k.1 b j ->
  exists w', exec mem_oracle (ReconcileDevice k.1 k.2) w = (w', Returned None) /\
    abs w' !! k = Some Free /\ m_job w' !! job_key k = None.
Proof.
  intros Hj Hs Hof. destruct Hok as (Ha & _ & Hd). rewrite ReconcileDevice_cleans, exec_bind.
  rewrite (Clean_done k.1 b w j) by (rewrite ?bd_name_key; done).
  set (w1 := w <| m_job ::= _ |>). set (b' := set_claimstate apis.BlockDeviceUnclaimed
    (set_bd_finalizers (RemoveString (metav1.Finalizers (apis.ObjectMeta b)) BlockDeviceFinalizer) b)).
  assert (Hkey : apis.bd_key b' = k) by (by rewrite <- Hk).
  destruct (mem_BDUpdate w1 b' b) as [b2 Hu]; [by rewrite Hkey|done|by apply not_gone|].
  exists (put_bd b' w1). split_and!.
  - unfold updateBDStatus. by rewrite exec_bind, (exec_call _ _ _ _ _ _ Hu).
  - unfold abs. rewrite lookup_fmap. change (devices (put_bd b' w1)) with (<[apis.bd_key b' := stamp (m_rev w + 1) b']> (m_bd w)).
    by rewrite Hkey, lookup_insert_eq.
  - cbn. rewrite bd_name_key. by rewrite lookup_delete_eq.
Qed.
End Device.

(** ** The claim controller *)

Section Claim.
Context `{K8sLib} (c : apis.BlockDeviceClaim).

Definition requested (b : apis.BlockDevice) : Prop := isDeviceRequestedByThisDeviceClaim c b = Some true.

Lemma findClaimed_some l :
  (forall b, b ∈ l -> wf_bd b) -> (exists b, b ∈ l /\ requested b) ->
  exists b, findClaimed c l = Some (Some b) /\ b ∈ l /\ requested b.
Proof.
  induction l as [|b l IH]; intros Hwf (b0 & Hin & Hreq); [by apply elem_of_nil in Hin|]. cbn.
  destruct (isDeviceRequestedByThisDeviceClaim c b) as [[]|] eqn:Hb.
  - exists b. split_and!; [done|left|done].
  - destruct IH as (b1 & Hf & Hl & Hr).
    + intros. apply Hwf. by right.
    + exists b0. apply elem_of_cons in Hin as [->|Hin]; [|done]. unfold requested in Hreq. by rewrite Hb in Hreq.
    + exists b1. split_and!; [done|by right|done].
  - exfalso. unfold isDeviceRequestedByThisDeviceClaim in Hb. case_decide as Hs; [done|].
    destruct (apis.bd_claimref b) as [r|] eqn:Hr; [done|].
    destruct (proj2 (Hwf b ltac:(left)) Hs) as [r Hr']. congruence.
Qed.

(** A bound claim that is being deleted *)
Definition to_release (k : key) : Prop :=
  apis.bdc_key c = k /\ bdcReconcileDisabled c = false /\ apis.Phase c = apis.BlockDeviceClaimStatusDone /\
  deleting c /\ apis.bdc_finalizers c = [BlockDeviceClaimFinalizer].

Lemma ReconcileClaim_releases w k :
  mem_valid w -> (forall k b, m_bd w !! k = Some b -> wf_bd b) ->
  LabelSelectorAsSelector metav1.empty_LabelSelector = inr metav1.empty_LabelSelector ->
  m_bdc w !! k = Some c -> to_release k ->
  (exists kb b, m_bd w !! kb = Some b /\ requested b) ->
  (forall kb b, m_bd w !! kb = Some b -> requested b -> healthy b) ->
  exists kb b, m_bd w !! kb = Some b /\ apis.bd_key b = kb /\ requested b /\
    exec mem_oracle (ReconcileClaim k.1 k.2) w =
      (put_bd (released b) w <| m_bdc ::= fun m => delete k m |>, Returned None).
Proof.
  intros Hv Hwf Hsel Hc (Hkey & Hdis & Hph & [t Ht] & Hfin) (kb0 & b0 & Hb0 & Hreq0) Hok.
  set (l := List.filter (fun b => in_ns None (apis.bd_ns b) && matches_all (metav1.MatchLabels metav1.empty_LabelSelector)
              (apis.bd_labels b)) (map_to_list (m_bd w)).*2).
  destruct (findClaimed_some l) as (b & Hf & Hl & Hreq).
  { intros b (kb & Hkb)%elem_of_filter_bool%elem_of_values. eauto. }
  { exists b0. split; [|done]. apply list_elem_of_In, filter_In. split; [|done]. apply list_elem_of_In.
    apply list_elem_of_fmap. exists (kb0, b0). split; [done|]. by apply elem_of_map_to_list. }
  apply elem_of_filter_bool, elem_of_values in Hl as [kb Hkb].
  destruct (ho_live _ _ _ _ _ (mv_bd _ Hv) _ _ Hkb) as [_ Hkey'].
  exists kb, b. split_and!; [done..|].
  destruct (Hok _ _ Hkb Hreq) as (_ & _ & Hnd).
  destruct (mem_BDUpdate w (released b) b) as [b' Hu]; [by rewrite <- Hkb, <- Hkey'|done|by apply not_gone|].
  unfold ReconcileClaim. rewrite (exec_call _ _ _ _ w (inr c)) by (apply mem_BDCGet; by destruct k).
  rewrite Hdis, Hph. rewrite decide_False by (by intros [|]). rewrite decide_False by done. rewrite decide_True by done.
  unfold FinalizerHandling. rewrite Ht, Hfin. cbn [length]. rewrite bool_decide_true by done. cbn [andb].
  change (Contains [BlockDeviceClaimFinalizer] BlockDeviceClaimFinalizer) with true. cbv iota.
  rewrite exec_bind. unfold releaseClaimedBlockDevice, getListofDevices. rewrite Hsel, exec_bind. cbn [exec call].
  change (mem_oracle _ (BDList None metav1.empty_LabelSelector) w) with (w, inr l : res (list apis.BlockDevice)).
  cbv beta iota. rewrite Hf, (exec_call _ _ _ _ _ _ Hu). cbn [exec]. cbv beta iota.
  set (c' := set_finalizers _ _). assert (Hck : apis.bdc_key c' = k) by done.
  assert (Hg : gone (apis.CObjectMeta c') = true) by (unfold gone; rewrite !bool_decide_true by (by try exists t); done).
  rewrite (exec_call _ _ _ _ _ _ (mem_BDCUpdate_gone (put_bd (released b) w) c' c ltac:(by rewrite Hck) eq_refl Hg)).
  by rewrite Hck.
Qed.
End Claim.

(** ** From a deleted claim to a free device *)

