(* ===== verification/DaemonRuns.v ===== *)
(** * Runs of the daemon

    Small hosts and API servers on which the event handlers run; they show that the
    hypotheses of the theorems about the handlers hold of real executions. *)

From Stdlib Require Import ZArith Lia.
From stdpp Require Import base list strings gmap.
From S2P Require Import Prelude GoStrings Types Prog K8sLib Controller Store Handlers Lifecycle DaemonSpec MemServer.

Local Open Scope string_scope.

#[local] Existing Instance DemoLib.

Definition ctrl0 : Controller := MkController "openebs" None [] [] ∅ ∅.

Definition named (n : string) : apis.BlockDevice :=
  apis.empty_BlockDevice
    <| apis.ObjectMeta ::= fun m => m <| metav1.Name := n |> <| metav1.Namespace := "openebs" |>
         <| metav1.ResourceVersion := 7%N |> |>
    <| apis.Status := apis.MkDeviceStatus apis.BlockDeviceUnclaimed apis.BlockDeviceActive |>.
Definition unmanaged (n : string) : apis.BlockDevice :=
  (named n) <| apis.ObjectMeta ::= fun m => m <| metav1.Annotations := Some {[ OpenEBSReconcile := "false" ]} |> |>.

(** An API server that lists three resources *)
Definition three : list apis.BlockDevice := [unmanaged "bd-1"; unmanaged "bd-2"; named "bd-3"].
Definition listing : oracle unit := fun X e w =>
  match e in callE X return unit * X with
  | BDList _ _ => (w, inr three)
  | e => (w, deaf _ e)
  end.

Lemma ListBlockDeviceResource_items_witness :
  exec listing (ListBlockDeviceResource ctrl0 true) tt = (tt, Returned (kept_items three, None)) /\
  kept_items three = [unmanaged "bd-2"; named "bd-3"].
Proof.
  destruct (ListBlockDeviceResource_items listing ctrl0 true tt tt three) as (Hl & _ & Hk); [reflexivity|].
  split; [exact Hl|]. rewrite (Hk (unmanaged "bd-1") (unmanaged "bd-2") [named "bd-3"]);
    [|by vm_compute|reflexivity].
  assert (Hd : reconcileDisabled (named "bd-3") = false) by (vm_compute; reflexivity).
  cbn [kept_items]. by rewrite Hd.
Defined.

(** A resource exists, the first update conflicts and the second fails *)
Definition failing : oracle nat := fun X e n =>
  match e in callE X return nat * X with
  | BDCreate _ => (n, inl ErrAlreadyExists)
  | BDGet _ _ => (n, inr (named "bd-1"))
  | BDUpdate _ => (S n, inl (match n with O => ErrConflict | S _ => Err "etcdserver: request timed out" end))
  | e => (n, deaf _ e)
  end.

Lemma CreateBlockDevice_drops_error_witness :
  exec failing (CreateBlockDevice ctrl0 (named "bd-1")) 0 = (2, Returned None).
Proof.
  apply (CreateBlockDevice_drops_error failing ctrl0 (named "bd-1") 0 0 0 1 1 2 (named "bd-1") (named "bd-1")
           (Err "etcdserver: request timed out")); reflexivity.
Defined.

Definition mayastor_disk : blockdevice.BlockDevice :=
  blockdevice.empty_BlockDevice <| blockdevice.DevUse := blockdevice.MkDeviceUsage true blockdevice.Mayastor |>.


Definition mounted (ms : list string) : blockdevice.BlockDevice :=
  blockdevice.empty_BlockDevice
    <| blockdevice.Identifier := blockdevice.MkIdentifierT "blockdevice-1" "" "/dev/sdb" |>
    <| blockdevice.FSInfo := blockdevice.MkFileSystemInformation "" "ext4" ms |>.

Lemma haveEqualMountPoints_sets_witness :
  haveEqualMountPoints (mounted ["/a"; "/b"]) (mounted ["/b"; "/a"]) = true.
Proof.
  apply (haveEqualMountPoints_sets (mounted ["/a"; "/b"]) (mounted ["/b"; "/a"]));
    [cbn; repeat (apply NoDup_cons_2; [not_in|]); apply NoDup_nil_2..|]. apply perm_swap.
Defined.

Lemma changeBlockDevice_unchanged_witness :
  exec failing (changeBlockDevice ctrl0 (MkPState ∅ []) (mounted ["/a"]) []) 0 = (0, Returned (MkPState ∅ [], None)).
Proof.
  eapply changeBlockDevice_unchanged; [reflexivity|done|]. reflexivity.
Defined.

