(* ===== verification/Runs.v ===== *)
(** * A run of the whole system

    A device is claimed, the claim is deleted, the device is given back, wiped and free
    again, on the in-memory API server.  The run shows that the hypotheses of the theorems
    about the whole system hold of real executions. *)

From Stdlib Require Import ZArith Lia.
From stdpp Require Import base list strings gmap.
From S2P Require Import Prelude Types Prog K8sLib Lifecycle Controller Select Cleaner ClaimController DeviceController OperatorSpec System MemServer Liveness.

Local Open Scope string_scope.

#[local] Existing Instance DemoLib.
#[local] Existing Instance DemoLib_reference.

Module demo.

Definition disk : apis.BlockDevice :=
  apis.empty_BlockDevice
    <| apis.ObjectMeta ::= fun m => m <| metav1.Name := "blockdevice-1" |> <| metav1.Namespace := "openebs" |>
         <| metav1.Labels := Some {[ "kubernetes.io/hostname" := "node1" ]} |> |>
    <| apis.Spec ::= fun s => s <| apis.Path := "/dev/sdb" |>
         <| apis.Capacity ::= fun c => c <| apis.Storage := 10737418240%Z |> |>
         <| apis.Details ::= fun d => d <| apis.DeviceType := "disk" |> |> |>
    <| apis.Status := apis.MkDeviceStatus apis.BlockDeviceUnclaimed apis.BlockDeviceActive |>.

Definition claim : apis.BlockDeviceClaim :=
  apis.empty_BlockDeviceClaim
    <| apis.CTypeMeta ::= fun t => t <| metav1.Kind := "BlockDeviceClaim" |> |>
    <| apis.CObjectMeta ::= fun m => m <| metav1.Name := "claim-1" |> <| metav1.Namespace := "openebs" |>
         <| metav1.UID := "u1" |> |>
    <| apis.CSpec ::= fun s => s <| apis.Requests := {[ apis.ResourceStorage := Some 1073741824%Z ]} |> |>.

Definition dkey : key := ("openebs", "blockdevice-1").
Definition ckey : key := ("openebs", "claim-1").
Definition jkey : key := ("openebs", "cleanup-blockdevice-1").

Definition w0 : mem := put_bdc claim (put_bd disk (Mem ∅ [] ∅ [] ∅ [] 0)).

Definition run (p : prog unit) (w : mem) : mem := (exec mem_oracle p w).1.
Definition claim_prog : prog unit := bind (ReconcileClaim "openebs" "claim-1") (fun _ => Ret tt).
Definition device_prog : prog unit := bind (ReconcileDevice "openebs" "blockdevice-1") (fun _ => Ret tt).

Definition w_claimed : mem := run claim_prog w0.

Definition user_delete (w : mem) : mem :=
  match m_bdc w !! ckey with
  | Some c => put_bdc (c <| apis.CObjectMeta ::= fun m => m <| metav1.DeletionTimestamp := Some 7%Z |> |>) w
  | None => w
  end.
Definition job_done (w : mem) : mem :=
  match m_job w !! jkey with
  | Some j => put_job jkey (j <| batchv1.Succeeded := 1%Z |>) w
  | None => w
  end.

Definition w_deleted : mem := user_delete w_claimed.
Definition w_released : mem := run claim_prog w_deleted.
Definition w_started : mem := run device_prog w_released.
Definition w_wiped : mem := job_done w_started.
Definition w_free : mem := run device_prog w_wiped.

Lemma w0_initial : initial w0.
Proof.
  split_and!.
  - apply put_bdc_valid, put_bd_valid. constructor; [constructor|constructor|]; set_solver.
  - intros b Hb. assert (b = stamp 1 disk) as ->; [|by split; [intros [? ?]|]]. cbn in Hb. set_solver.
  - intros k c Hc. change (<[ckey := stamp_bdc 2 claim]> (∅ : gmap key apis.BlockDeviceClaim) !! k = Some c) in Hc.
    apply lookup_insert_Some in Hc as [[_ <-]|[_ Hc]]; [done|]. by rewrite lookup_empty in Hc.
Qed.

Lemma claim_is_program : ndm_program claim_prog.
Proof. apply np_claim. Qed.
Lemma device_is_program : ndm_program device_prog.
Proof. apply np_device. Qed.
#[local] Hint Resolve claim_is_program device_is_program : core.

Lemma user_delete_other w : is_Some (m_bdc w !! ckey) -> mem_other w (user_delete w).
Proof. intros [c Hc]. unfold user_delete. rewrite Hc. by apply (other_delete_claim _ ckey). Qed.
Lemma job_done_other w : is_Some (m_job w !! jkey) -> mem_other w (job_done w).
Proof. intros [j Hj]. unfold job_done. rewrite Hj. by apply other_job. Qed.

(** The device is claimed in a reachable state. *)
Lemma claimed_reachable : exists ts, reachable w0 (Config w_claimed ts).
Proof.
  eexists. apply (spawn_reachable w0 w0 [] claim_prog w_claimed); [constructor|done|].
  vm_compute. reflexivity.
Qed.

(** From there the device is never deleted until it is free again. *)
Lemma free_again ts : exists ts', run_with dkey (Config w_claimed ts) (Config w_free ts').
Proof.
  assert (H0 : run_with dkey (Config w_claimed ts) (Config w_deleted ts)).
  { eapply other_run; [|apply user_delete_other|]; [|by vm_compute; eexists|by vm_compute].
    apply run_refl. by vm_compute; eexists. }
  edestruct (spawn_run dkey _ _ _ claim_prog w_released H0) as [ts1 H1]; [by vm_compute|done|by vm_compute|].
  edestruct (spawn_run dkey _ _ _ device_prog w_started H1) as [ts2 H2]; [by vm_compute|done|by vm_compute|].
  assert (H3 : run_with dkey (Config w_claimed ts) (Config w_wiped ts2)).
  { eapply other_run; [exact H2|apply job_done_other; by vm_compute; eexists|by vm_compute]. }
  exact (spawn_run dkey _ _ _ device_prog w_free H3 ltac:(by vm_compute) device_is_program ltac:(by vm_compute)).
Qed.

Definition ref : metav1.ObjectReference :=
  metav1.MkObjectReference "BlockDeviceClaim" "openebs" "claim-1" "u1" "" 2%N.

(** The state just before the reconciler writes the claimed device. *)
Definition pre : prog unit * mem := Nat.iter 2 advance1 (claim_prog, w0).

Lemma pre_reachable : reachable w0 (Config pre.2 [pre.1]).
Proof.
  apply advance_reachable. eapply reach_step; [apply reach_init|]. apply (sys_spawn w0 []), claim_is_program.
Qed.

End demo.

Import demo.

Lemma system_refines_lifecycle_witness :
  exists s s', initial w0 /\ reachable w0 s /\ sys_step s s' /\
    abs (world s) !! dkey = Some Free /\ abs (world s') !! dkey = Some (Held (Some ref)) /\
    abs_step (world s') (abs (world s)) (abs (world s')).
Proof.
  exists (Config pre.2 [pre.1]), (Config (advance1 (pre.1, pre.2)).2 [(advance1 (pre.1, pre.2)).1]).
  assert (Hs : sys_step (Config pre.2 [pre.1]) (Config (advance1 (pre.1, pre.2)).2 [(advance1 (pre.1, pre.2)).1])).
  { apply advance1_step. by vm_compute. }
  split_and!; [apply w0_initial|apply pre_reachable|exact Hs|by vm_compute|by vm_compute|].
  exact (system_refines_lifecycle w0 _ _ w0_initial pre_reachable Hs).
Defined.


Lemma stored_well_typed_witness :
  exists ts b, reachable w0 (Config w_claimed ts) /\ m_bd w_claimed !! dkey = Some b /\
    apis.bd_claimref b = Some ref /\ known_claimstate b /\ apis.bd_claimstate b = apis.BlockDeviceClaimed.
Proof.
  destruct claimed_reachable as [ts Hr].
  assert (H0 : forall k b, m_bd w0 !! k = Some b -> known_claimstate b).
  { intros k b Hk. change (<[apis.bd_key disk := stamp 1 disk]> (∅ : gmap key apis.BlockDevice) !! k = Some b) in Hk.
    apply lookup_insert_Some in Hk as [[_ <-]|[_ Hk]]; [|by rewrite lookup_empty in Hk].
    unfold known_claimstate. cbn. left. }
  destruct (m_bd w_claimed !! dkey) as [b|] eqn:Hb; [|by vm_compute in Hb].
  assert (Href : apis.bd_claimref b = Some ref) by (vm_compute in Hb; by injection Hb as <-).
  destruct (stored_well_typed w0 _ dkey b w0_initial H0 Hr Hb) as (_ & Hst & Hc).
  exists ts, b. split_and!; [exact Hr|done|exact Href|exact Hst|]. apply Hc. by exists ref.
Defined.

Lemma bound_claim_has_device_witness :
  exists ts c, reachable w0 (Config w_claimed ts) /\ m_bdc w_claimed !! ckey = Some c /\
    apis.Phase c = apis.BlockDeviceClaimStatusDone /\ apis.BlockDeviceName (apis.CSpec c) = "blockdevice-1" /\
    exists b r, was_bd w_claimed b /\ apis.bd_name b = apis.BlockDeviceName (apis.CSpec c) /\
      apis.bd_claimstate b = apis.BlockDeviceClaimed /\ apis.bd_claimref b = Some r /\ names r c.
Proof.
  destruct claimed_reachable as [ts Hr].
  destruct (m_bdc w_claimed !! ckey) as [c|] eqn:Hc; [|by vm_compute in Hc].
  assert (Hp : apis.Phase c = apis.BlockDeviceClaimStatusDone /\ apis.BlockDeviceName (apis.CSpec c) = "blockdevice-1")
    by (vm_compute in Hc; by injection Hc as <-).
  destruct Hp as [Hp Hn]. exists ts, c. split_and!; [exact Hr|done|exact Hp|exact Hn|].
  exact (bound_claim_has_device w0 _ ckey c w0_initial Hr Hc Hp).
Defined.

(** ** The reconcilers on concrete input *)

Lemma operator_never_panics_witness :
  wp_total no_evidence (ReconcileClaim "openebs" "claim-1") anything /\
  wp_total no_evidence (ReconcileDevice "openebs" "claim-1") anything.
Proof. exact (operator_never_panics "openebs" "claim-1"). Defined.

Lemma ReconcileClaim_binds_witness :
  exec mem_oracle (ReconcileClaim "openebs" "claim-1") w0 = (w_claimed, Returned None) /\
  abs w_claimed !! dkey = Some (Held (Some ref)).
Proof.
  split; [|by vm_compute].
  apply (ReconcileClaim_binds mem_oracle "openebs" "claim-1" w0 w0 w0
    (put_bd (claimed ref (stamp 1 disk)) w0) w_claimed
    (stamp_bdc 2 claim) (generateSelector claim) [stamp 1 disk] (stamp 1 disk) ref
    (stamp 3 (claimed ref (stamp 1 disk)))
    (stamp_bdc 4 (protected_bdc (bound_to (stamp 1 disk) (stamp_bdc 2 claim))))); try (by vm_compute).
  repeat split; [by right|]. right. by eexists.
Defined.

(** The claim of the run above, when its user deletes it. *)
Definition claim_deleted : apis.BlockDeviceClaim := default claim (m_bdc w_deleted !! ckey).
Definition disk_claimed : apis.BlockDevice := default disk (m_bd w_deleted !! dkey).

Definition good_device (kb : key * apis.BlockDevice) : bool :=
  bool_decide (kb.1 = dkey) && bool_decide (apis.bd_state kb.2 = apis.BlockDeviceActive) &&
  bool_decide (bdReconcileDisabled kb.2 = false) &&
  bool_decide (metav1.DeletionTimestamp (apis.ObjectMeta kb.2) = None) &&
  bool_decide (apis.bd_claimstate kb.2 = apis.BlockDeviceClaimed) && bool_decide (is_Some (apis.bd_claimref kb.2)).

Lemma w_deleted_devices k b :
  m_bd w_deleted !! k = Some b -> k = dkey /\ healthy b /\ wf_bd b.
Proof.
  intros Hk%elem_of_map_to_list.
  assert (Hl : forallb good_device (map_to_list (m_bd w_deleted)) = true) by (vm_compute; reflexivity).
  rewrite forallb_elem in Hl. apply Hl in Hk. unfold good_device in Hk. rewrite !andb_true_iff, !bool_decide_eq_true in Hk.
  cbn in Hk. destruct Hk as [[[[[-> ?] ?] ?] ?] ?]. split; [done|]. split; [done|]. by split.
Qed.


(** A claim for more than the device has. *)
Definition big_claim : apis.BlockDeviceClaim :=
  claim <| apis.CSpec ::= fun s => s <| apis.Requests := {[ apis.ResourceStorage := Some 1099511627776%Z ]} |> |>.
Definition w_big : mem := put_bdc big_claim (put_bd disk (Mem ∅ [] ∅ [] ∅ [] 0)).

Lemma ReconcileClaim_pends_witness :
  exists w, exec mem_oracle (ReconcileClaim "openebs" "claim-1") w_big = (w, Returned None) /\
    (apis.Phase <$> m_bdc w !! ckey) = Some apis.BlockDeviceClaimStatusPending /\ abs w !! dkey = Some Free.
Proof.
  exists (put_bdc (set_phase apis.BlockDeviceClaimStatusPending (stamp_bdc 2 big_claim)) w_big).
  split; [|split; by vm_compute].
  apply (ReconcileClaim_pends mem_oracle "openebs" "claim-1" w_big w_big w_big _
    (stamp_bdc 2 big_claim) (generateSelector big_claim) [stamp 1 disk]
    (stamp_bdc 3 (set_phase apis.BlockDeviceClaimStatusPending (stamp_bdc 2 big_claim)))); try (by vm_compute).
  repeat split; [by right|]. right. by eexists.
Defined.

(** A claim that is being deleted, whose device was released already. *)
Definition deleted_claim : apis.BlockDeviceClaim :=
  claim <| apis.Phase := apis.BlockDeviceClaimStatusDone |>
    <| apis.CObjectMeta ::= fun m => m <| metav1.DeletionTimestamp := Some 7%Z |>
         <| metav1.Finalizers := [BlockDeviceClaimFinalizer] |> |>.
Definition w_stuck : mem :=
  put_bdc deleted_claim (put_bd (released disk) (Mem ∅ [] ∅ [] ∅ [] 0)).

Lemma release_stuck_witness :
  exec mem_oracle (ReconcileClaim "openebs" "claim-1") w_stuck =
    (w_stuck, Returned (Some (Err "blockdevice not found for releasing"))).
Proof.
  apply (release_stuck mem_oracle "openebs" "claim-1" w_stuck w_stuck w_stuck
    (stamp_bdc 2 deleted_claim) metav1.empty_LabelSelector [stamp 1 (released disk)]); try (by vm_compute).
  - by exists 7%Z.
  - intros b ->%list_elem_of_singleton. split; [by split; [intros [? ?]|]|]. by intros (r & ? & _).
Defined.

Lemma Clean_only_after_success_witness :
  exists w' w1 w2 job w3 k, exec mem_oracle (Clean "openebs" disk) w_wiped = (w', Returned (true, None)) /\
    mem_oracle _ (JobGet "openebs" (generateCleaningJobName (apis.bd_name disk))) w1 = (w2, inr job) /\
    batchv1.Succeeded job <> 0%Z /\ mem_oracle _ (JobDelete k.1 k.2) w3 = (w', inr tt).
Proof.
  destruct (exec mem_oracle (Clean "openebs" disk) w_wiped) as [w' r] eqn:Hex.
  assert (r = Returned (true, None)) as -> by (vm_compute in Hex; by injection Hex as _ <-).
  destruct (Clean_only_after_success mem_oracle _ _ _ _ _ Hex) as (_ & w1 & w2 & job & w3 & k & ? & ? & ?).
  exists w', w1, w2, job, w3, k. split_and!; first [assumption|reflexivity].
Defined.

Lemma ReconcileDevice_swallows_witness :
  exists w' e, exec mem_oracle (ReconcileDevice "openebs" "blockdevice-1") w_released = (w', Returned e) /\ e = None.
Proof.
  destruct (exec mem_oracle (ReconcileDevice "openebs" "blockdevice-1") w_released) as [w' r] eqn:Hex.
  destruct r as [e|m]; [|by vm_compute in Hex].
  destruct (m_bd w_released !! dkey) as [bd|] eqn:Hb; [|by vm_compute in Hb].
  exists w', e. split; [reflexivity|].
  refine (ReconcileDevice_swallows mem_oracle "openebs" "blockdevice-1" w_released w_released w' bd e _ Hex).
  change ((w_released, match m_bd w_released !! dkey with Some b => inr b | None => inl ErrNotFound end) =
    (w_released, inr bd : res apis.BlockDevice)). rewrite Hb. reflexivity.
Defined.

(** ** A claim that leaks a device *)

(** A server that loses the first update of a claim. *)
Definition lossy : oracle (mem * bool) := fun X e =>
  match e in callE X return mem * bool -> mem * bool * X with
  | BDCUpdate c => fun '(w, lost) =>
      if lost : bool then let '(w, x) := mem_oracle _ (BDCUpdate c) w in ((w, true), x)
      else ((w, true), inl (Err "the server was unable to return a response"))
  | e => fun '(w, lost) => let '(w, x) := mem_oracle _ e w in ((w, lost), x)
  end.

Definition disk2 : apis.BlockDevice :=
  disk <| apis.ObjectMeta ::= fun m => m <| metav1.Name := "blockdevice-2" |> |>.
Definition dkey2 : key := ("openebs", "blockdevice-2").
Definition w_two : mem := put_bd disk2 w0.

Definition w_lost : mem * bool := (exec lossy claim_prog (w_two, false)).1.
Definition w_retried : mem := run claim_prog w_lost.1.
Definition w_gone : mem := run claim_prog (user_delete w_retried).

